(* ===== verification/_CoqProject ===== *)
-Q . S2P
Prelude.v
Words.v
PyStr.v
Machine.v
Mmu.v
Crypto.v
IntAlu.v
Float32.v
Float32Facts.v
Step.v
StepFacts.v
Run.v
Asm.v
AsmFacts.v
AsmText.v
WordRange.v
Disasm.v
TextFacts.v
DisasmTexts.v
RoundTrip.v
Progress.v
UserMode.v
Layout.v
MemImage.v
RandomGen.v
GenFacts.v
GenModes.v
Harness.v
Debugger.v
Dtb.v
Bench.v
Profiler.v
Firmware.v
Coverage.v
Trace.v
CBench.v
Seeds.v
