(* ===== verification/Prelude.v ===== *)
(** * Verification of the ISA tooling of the RV64IMAFDC pipelined processor

    The repository is a RISC-V core in Verilog and, under [sim/tools/], the
    Python programs that check it: an instruction-set simulator that is the
    reference model of the core, an assembler, a disassembler, a generator of
    random programs and the harness that compares the core with the
    simulator.  This development models those programs and proves what makes
    them a trustworthy reference.

    ** Program and model

    - [iss.py]: class [ISS] is the record [Machine.ISS]; its methods are the
      definitions of the same name ([csr_read], [csr_write], [trap], [mret],
      [sret], [load_mem_byte], ...).  [Mmu] holds the Sv32 and Sv39 table
      walks, [Crypto] the AES and SHA helpers, [IntAlu] the integer arms of
      [ISS.step], [Float32] the single-precision arithmetic (exact rationals,
      rounded once), [Step] the dispatch of [ISS.step], and [Run] the loop of
      [ISS.run] with its scheduled interrupt.
    - [asm.py]: [Asm] holds the operand readers, the tables and one encoder
      per instruction format; [AsmText] the label pass, the mnemonic chain
      and [write_mem].
    - [disasm.py]: [Disasm].
    - [random_gen.py]: [RandomGen]; [random.Random] is the class [Random],
      whose laws [RandomLaws] say only that draws are in range, so the
      theorems hold for every seed.  [Progress] and [UserMode] say which
      words run on in machine and in user mode, [Layout] what the label pass
      makes of forward-only lines, and [GenFacts] and [GenModes] prove that
      the generator's lines are such.
    - [elf2mem.py], [read_dump.py], [load_words]: [MemImage]; the binutils
      programs are parameters.
    - [run_random_tests.py]: [Harness] for one seed, [Seeds] for [main]; the
      Verilog tools are a parameter.
    - [debugger.py]: [Debugger], the state of class [Debugger] and its
      commands.
    - [bench_runner.py]: [Bench], one benchmark through both sides, the
      kernels rewritten for the out-of-order core, and the comparisons of
      [main] with their results and exit status.
    - [profiler.py]: [Profiler], the instruction mix, the program rewriting
      and the report's figures.
    - [gen_dtb.py]: [Dtb], the flattened-devicetree builder and the parser
      that checks its output.
    - [build_sbi_firmware.py], [build_linux_boot.py]: [Firmware], the two
      memory images of a boot; [build_c_bench.py]: [CBench], a compiled
      benchmark run on the core.  The compiler is a parameter.
    - [coverage_report.py]: [Coverage], with the design's [dump_coverage];
      [gen_trace.py]: [Trace], with the testbench's trace file.

    The parts interact by values: the generator's lines go to the assembler,
    its words to a memory image, the image to the loader of the harness and
    the debugger, the words to [Run.run].  The simulator and the assembler
    share the opcode constants, and the theorems that join them decode with
    [Step] what [Asm] encoded.

    ** Conventions

    Python integers are [Z] with the operators of [py_scope]; a function that
    can raise returns [result]; dictionaries are association lists in source
    order or [gmap] where order does not matter; a machine word of [w] bits
    is a [Z] with [in_width w].  Text is ASCII, a text file is its list of
    lines.  Subscripts the code has bounded use [nthZ].

    ** Theorems

    - The machine: [wf] is an invariant of every instruction and of a run;
      traps and returns refine the abstract privilege stack; the translations
      refine an abstract radix walk; privilege only rises by a trap, and user
      and supervisor code are confined to their registers; a load reads back
      a store; the Python exceptions an instruction raises are known
      exactly.
    - Arithmetic: rounding, square root, comparison and conversion of the
      float helpers against exact reals given as rationals; division and
      products of the M extension; the AES tables against the field
      inversion, the AES rounds inverse to each other.
    - The assembler: mnemonics mean what they name when the simulator runs
      their encoding; branches and jumps reach the offset given, and the
      offsets accepted are exactly the encodable ones; every accepted source
      gives 32-bit words; labels name the statement that follows them;
      disassembly assembles back, but for five kinds of instruction that
      are refused.
    - Programs: a generated program halts, whatever the random source draws,
      and assembles unless it is long enough for a jump to be out of reach;
      in interrupt mode its handler is where [mtvec] points, in translation
      mode its body starts in user mode on an identity-mapped page and runs
      there to the halt loop, its stores never reaching the page table; the
      constants it builds are the constants asked for; the
      harness passes a seed exactly when the compared states are equal, and
      exits with 0 exactly when they are for every seed.
    - Images: write and load are inverse; each section of an ELF file is at
      its address; a dump reads back as the memory; the boot images hold
      firmware, kernel, initramfs and a valid device tree, each intact.
    - Tools: the debugger's [continue] is the simulator's run, and its
      history replays to its state; every emitted device tree gets from the
      independent parser exactly the verdict its nesting deserves, and this
      core's tree is always accepted; a benchmark result means what it says,
      a comparison varies one axis and the exit status is 0 exactly when
      every run worked; a profiled program is the kernel, each label moved
      with its line, with the selected counters read before its halt loop;
      the trace of the viewer is the testbench's, row by row; the coverage
      report adds up the suite, but not this design's files.
    - Defects the model exposed are theorems too: they say what the code
      does where that differs from what it says.

    ** Bounds and fuel

    [Run.run] takes fuel, one unit per turn of the loop.  [Running] is a run
    the fuel does not finish: at XLEN=64 a run with more fuel than
    [max_steps] and the pending interrupt always finishes
    ([run_rv64_terminates]); at XLEN=32 a fetch fault whose handler faults
    never counts a step ([fetch_fault_livelock]).  A forward-only program
    needs as much fuel as it has instructions ([run_forward]).  The
    normalisation loops of [Float32] get fuel from the size of their operand
    ([norm_fuel]), and [loops_bracket] shows it is enough.  In the
    generator's programs every branch reaches its label up to 1024
    instructions; beyond, the assembler may reject one the budget check let
    through, and [generated_program_halts] and [mmu_program_enters_user]
    say exactly that.  The theorems on a whole run of the harness, and
    [mmu_program_halts], are stated for at most 900 random instructions.

    ** Not modelled

    The Verilog design and its testbenches (another language; the simulator
    is its reference); of them the development has only the files three
    testbenches write.  Argument parsing, process invocation and file
    handling of the [main] functions; [build_kernel_boot.py] and
    [build_viewer.py], which only start external tools, and
    [generate_graphs.py], which draws charts.  A printed float is the exact
    rational it rounds ([bench_runner.py], [profiler.py]); JSON files are
    their data. *)

From Stdlib Require Export ZArith Lia Bool.
From stdpp Require Export base decidable option list gmap strings tactics.

(** ** Notations: Python's integer operators

    Python integers are unbounded two's-complement integers, as [Z] is:
    [&], [|], [^], [~], [<<], [>>] (a floor shift), [//] and [%] (floor
    division and its remainder) are [Z.land], [Z.lor], [Z.lxor], [Z.lnot],
    [Z.shiftl], [Z.shiftr], [Z.div] and [Z.modulo]. *)

Declare Scope py_scope.
Delimit Scope py_scope with py.
Notation "x << n" := (Z.shiftl x n) (at level 51, left associativity) : py_scope.
Notation "x >> n" := (Z.shiftr x n) (at level 51, left associativity) : py_scope.
Notation "x .& y" := (Z.land x y) (at level 52, left associativity) : py_scope.
Notation "x .^ y" := (Z.lxor x y) (at level 53, left associativity) : py_scope.
Notation "x .| y" := (Z.lor x y) (at level 54, left associativity) : py_scope.
Notation ".~ x" := (Z.lnot x) (at level 35, right associativity) : py_scope.

#[global] Open Scope Z_scope.
#[global] Open Scope py_scope.

(** Python truth value of an integer. *)
Definition truthy (z : Z) : bool := negb (z =? 0).

(** ** Exceptions

    A Python call either returns or raises; [result] is the monad of the
    functions that can raise. *)

Inductive exn :=
| ValueError (msg : string)
| KeyError (key : string)
| IndexError (msg : string)
| RuntimeError (msg : string)
| AssertionError (msg : string)
| AttributeError (msg : string)
| UnicodeError (msg : string)
| StructError (msg : string)
| ZeroDivisionError (msg : string)
| TypeError (msg : string).

Inductive result (A : Type) :=
| Ok (a : A)
| Raise (e : exn).
Arguments Ok {A} a.
Arguments Raise {A} e.

#[global] Instance result_ret : MRet result := fun A a => Ok a.
#[global] Instance result_bind : MBind result :=
  fun A B f m => match m with Ok a => f a | Raise e => Raise e end.
#[global] Instance result_fmap : FMap result :=
  fun A B f m => match m with Ok a => Ok (f a) | Raise e => Raise e end.

Definition is_ok {A} (r : result A) : bool :=
  match r with Ok _ => true | Raise _ => false end.

Lemma Ok_inj {A} (a b : A) : Ok a = Ok b -> a = b.
Proof. by intros [= ->]. Qed.

Lemma bind_Ok {A B} (m : result A) (f : A -> result B) b :
  (m ≫= f) = Ok b <-> exists a, m = Ok a /\ f a = Ok b.
Proof.
  destruct m as [a|e]; cbn; split.
  - intros H; eauto.
  - intros (a' & [= ->] & H); exact H.
  - discriminate.
  - intros (a' & ? & _); discriminate.
Qed.

Lemma bind_assoc_result {A B C} (m : result A) (f : A -> result B) (g : B -> result C) :
  (m ≫= f) ≫= g = m ≫= (fun a => f a ≫= g).
Proof. by destruct m. Qed.

(** The exception class of a failing call, without its message. *)
Definition raises {A} (r : result A) : bool := negb (is_ok r).

(** [mapM]-style traversal in the error monad (a Python list
    comprehension whose element expression can raise). *)
Fixpoint mapR {A B} (f : A -> result B) (l : list A) : result (list B) :=
  match l with
  | [] => Ok []
  | x :: l' => y ← f x; ys ← mapR f l'; Ok (y :: ys)
  end.

Lemma mapR_length {A B} (f : A -> result B) l l' :
  mapR f l = Ok l' -> length l' = length l.
Proof.
  revert l'; induction l as [|x l IH]; intros l'; cbn.
  - intros [= <-]; done.
  - intros (y & _ & (ys & Hys & [= <-])%bind_Ok)%bind_Ok. cbn. by rewrite (IH ys).
Qed.

(** ** Masks and fields

    A mask [2^n - 1] reads a residue; [fold_masks] turns numeral masks into
    [Z.ones n] and then into [mod]. *)

Ltac mask_width c :=
  let n := eval vm_compute in (Z.log2 (c + 1)) in
  let ok := eval vm_compute in (Z.ones n =? c) in
  lazymatch ok with true => n | _ => fail "not a mask" end.

Lemma land_mask n x : 0 <= n -> x .& Z.ones n = x `mod` 2 ^ n.
Proof. intros; by rewrite Z.land_ones. Qed.

Ltac is_Zlit c :=
  match c with
  | Z0 => idtac
  | Zpos ?p => is_poslit p
  | Zneg ?p => is_poslit p
  end
with is_poslit p :=
  match p with
  | xH => idtac
  | xO ?q => is_poslit q
  | xI ?q => is_poslit q
  end.

Ltac fold_masks :=
  repeat match goal with
  | |- context [Z.land ?x ?c] =>
      is_Zlit c; let n := mask_width c in
      change (Z.land x c) with (Z.land x (Z.ones n));
      rewrite (land_mask n x) by lia
  end.

Ltac fold_masks_in H :=
  repeat match type of H with
  | context [Z.land ?x ?c] =>
      is_Zlit c; let n := mask_width c in
      change (Z.land x c) with (Z.land x (Z.ones n)) in H;
      rewrite (land_mask n x) in H by lia
  end.

Lemma shiftl_1_sub_1 n : 0 <= n -> (1 << n) - 1 = Z.ones n.
Proof. intros. rewrite Z.shiftl_1_l, Z.ones_equiv. lia. Qed.

Lemma shiftl_pow n x : 0 <= n -> x << n = x * 2 ^ n.
Proof. apply Z.shiftl_mul_pow2. Qed.

Lemma shiftr_pow n x : 0 <= n -> x >> n = x `div` 2 ^ n.
Proof. apply Z.shiftr_div_pow2. Qed.

(** Disjoint fields add up. *)
Lemma lor_low_add n h l :
  0 <= n -> 0 <= l < 2 ^ n -> (h << n) .| l = h * 2 ^ n + l.
Proof.
  intros Hn Hl. rewrite <- Z.shiftl_mul_pow2 by lia.
  symmetry; apply Z.add_nocarry_lor.
  apply Z.bits_inj'; intros i Hi.
  rewrite Z.land_spec, Z.shiftl_spec, Z.testbit_0_l by lia.
  destruct (Z.ltb_spec i n) as [Hlt|Hge].
  - by rewrite Z.testbit_neg_r by lia.
  - rewrite <- (Z.mod_small l (2 ^ n)) by lia.
    rewrite Z.mod_pow2_bits_high by lia. by rewrite andb_false_r.
Qed.

Lemma testbit_small x n i : 0 <= x < 2 ^ n -> 0 <= n <= i -> Z.testbit x i = false.
Proof.
  intros. rewrite <- (Z.mod_small x (2 ^ n)) by lia. by apply Z.mod_pow2_bits_high.
Qed.

Lemma land_bound_l x y n : 0 <= x < 2 ^ n -> 0 <= n -> 0 <= x .& y < 2 ^ n.
Proof.
  intros Hx Hn.
  replace (x .& y) with ((x .& y) `mod` 2 ^ n); [apply Z.mod_pos_bound; lia|].
  apply Z.bits_inj'; intros i Hi. rewrite Z.testbit_mod_pow2, Z.land_spec by lia.
  destruct (Z.ltb_spec i n); [done|]. rewrite (testbit_small x n) by lia. done.
Qed.

Section BoundedBits.
Context (n : Z) (Hn : 0 <= n).

(** Closure of [[0, 2^n)] under the bitwise operators, by the one
    characterisation [bounded x := x mod 2^n = x]. *)
Lemma bounded_bits x :
  0 <= x -> (forall i, n <= i -> Z.testbit x i = false) -> 0 <= x < 2 ^ n.
Proof.
  intros H0 H. split; [done|].
  replace x with (x `mod` 2 ^ n); [by apply Z.mod_pos_bound; lia|].
  apply Z.bits_inj'; intros i Hi. rewrite Z.testbit_mod_pow2 by lia.
  destruct (Z.ltb_spec i n); [done|]. by rewrite H by lia.
Qed.

Lemma lor_bound x y : 0 <= x < 2 ^ n -> 0 <= y < 2 ^ n -> 0 <= x .| y < 2 ^ n.
Proof.
  intros Hx Hy. apply bounded_bits; [apply Z.lor_nonneg; lia|]. intros i Hi.
  rewrite Z.lor_spec, (testbit_small x n), (testbit_small y n) by lia. done.
Qed.

Lemma lxor_bound x y : 0 <= x < 2 ^ n -> 0 <= y < 2 ^ n -> 0 <= x .^ y < 2 ^ n.
Proof.
  intros Hx Hy. apply bounded_bits; [apply Z.lxor_nonneg; lia|]. intros i Hi.
  rewrite Z.lxor_spec, (testbit_small x n), (testbit_small y n) by lia. done.
Qed.

Lemma shiftl_bound x k : 0 <= k <= n -> 0 <= x < 2 ^ (n - k) -> 0 <= x << k < 2 ^ n.
Proof.
  intros Hk Hx. rewrite Z.shiftl_mul_pow2 by lia.
  replace n with ((n - k) + k) by lia. rewrite Z.pow_add_r by lia. nia.
Qed.
End BoundedBits.

Lemma shiftr_bound x n k : 0 <= k -> 0 <= n -> 0 <= x < 2 ^ (n + k) -> 0 <= x >> k < 2 ^ n.
Proof.
  intros Hk Hn Hx. rewrite Z.shiftr_div_pow2 by lia. rewrite Z.pow_add_r in Hx by lia.
  split; [apply Z.div_pos; lia|]. apply Z.div_lt_upper_bound; lia.
Qed.

Lemma pow_bound_mono x n m : 0 <= x < 2 ^ n -> n <= m -> 0 <= x < 2 ^ m.
Proof. intros Hx Hnm. pose proof (Z.pow_le_mono_r 2 n m). lia. Qed.

(** The two halves of a word built from two fields. *)
Lemma field_high h l n : 0 <= n -> 0 <= l < 2 ^ n -> (h << n .| l) >> n = h.
Proof.
  intros Hn Hl. rewrite lor_low_add, shiftr_pow by lia.
  symmetry. apply Z.div_unique_pos with l; lia.
Qed.

Lemma field_low h l n : 0 <= n -> 0 <= l < 2 ^ n -> (h << n .| l) `mod` 2 ^ n = l.
Proof.
  intros Hn Hl. rewrite lor_low_add by lia. symmetry. apply Z.mod_unique_pos with h; lia.
Qed.

(** A word is its two fields put back together. *)
Lemma field_join x n : 0 <= n -> ((x >> n) << n) .| (x `mod` 2 ^ n) = x.
Proof.
  intros Hn. rewrite lor_low_add, shiftr_pow by (try apply Z.mod_pos_bound; lia).
  pose proof (Z.div_mod x (2 ^ n) ltac:(lia)). lia.
Qed.

(** The bit a Python expression [(x >> i) & 1] reads. *)
Lemma land_1_b2z x : x .& 1 = Z.b2z (Z.testbit x 0).
Proof. change 1 with (Z.ones 1). rewrite Z.land_ones by lia. by rewrite Z.bit0_mod. Qed.

Lemma bit_b2z x i : 0 <= i -> (x >> i) .& 1 = Z.b2z (Z.testbit x i).
Proof. intros. rewrite land_1_b2z, Z.shiftr_spec by lia. f_equal. Qed.

Lemma truthy_b2z b : truthy (Z.b2z b) = b.
Proof. by destruct b. Qed.

(** ** Bit-level equality

    [zbits] proves an equation between bitwise expressions by comparing
    testbits; [zb_simpl] pushes [Z.testbit] through the operators. *)

Create HintDb pybits.
Create Rewrite HintDb pyrw.
#[export] Hint Resolve lor_bound lxor_bound : pybits.

Lemma testbit_if (b : bool) x y i :
  Z.testbit (if b then x else y) i = if b then Z.testbit x i else Z.testbit y i.
Proof. by destruct b. Qed.

Lemma testbit_b2z b i : Z.testbit (Z.b2z b) i = (i =? 0) && b.
Proof.
  destruct (Z.eqb_spec i 0) as [->|Hi]; [apply Z.b2z_bit0|].
  destruct b; cbn [Z.b2z]; [|by rewrite Z.testbit_0_l].
  destruct (Z.ltb_spec i 0); [by rewrite Z.testbit_neg_r by lia|].
  apply (testbit_small 1 1); lia.
Qed.

Ltac zb_simpl :=
  repeat first
    [ rewrite Z.land_spec | rewrite Z.lor_spec | rewrite Z.lxor_spec
    | rewrite Z.ldiff_spec | rewrite Z.lnot_spec by lia
    | rewrite Z.shiftl_spec by lia | rewrite Z.shiftr_spec by lia
    | rewrite Z.testbit_mod_pow2 by lia | rewrite Z.testbit_0_l
    | rewrite testbit_b2z
    | rewrite testbit_if | rewrite Z.testbit_ones by lia ].

Ltac zb_split :=
  match goal with
  | |- context [Z.testbit ?x ?i] => rewrite (Z.testbit_neg_r x i) by lia
  | |- context [Z.ltb ?a ?b] => destruct (Z.ltb_spec a b)
  | |- context [Z.leb ?a ?b] => destruct (Z.leb_spec a b)
  | |- context [Z.eqb ?a ?b] => destruct (Z.eqb_spec a b)
  end; try lia.

Ltac zb_bools :=
  rewrite ?andb_false_r, ?andb_true_r, ?andb_false_l, ?andb_true_l,
          ?orb_false_r, ?orb_true_r, ?orb_false_l, ?orb_true_l,
          ?xorb_false_r, ?xorb_false_l.

Ltac zb_close :=
  zb_bools;
  try first
   [ reflexivity
   | solve [repeat (f_equal; try lia)]
   | solve [repeat match goal with
       |- context [Z.testbit ?x ?i] => destruct (Z.testbit x i) end; reflexivity ] ].

Ltac zbits :=
  apply Z.bits_inj'; intros ?i ?Hi; fold_masks; zb_simpl;
  repeat zb_split; zb_close.

(** ** Lists as Python lists and bytearrays *)

(** [l[i]] for an index the code has already bounded. *)
Definition nthZ {A} (d : A) (l : list A) (i : Z) : A := nth (Z.to_nat i) l d.

(** [l[i] = v]. *)
Definition updZ {A} (l : list A) (i : Z) (v : A) : list A := <[Z.to_nat i := v]> l.

Lemma updZ_length {A} (l : list A) i v : length (updZ l i v) = length l.
Proof. apply length_insert. Qed.

Lemma nthZ_updZ_eq {A} (d : A) l i v :
  0 <= i < Z.of_nat (length l) -> nthZ d (updZ l i v) i = v.
Proof.
  intros Hi. unfold nthZ, updZ. apply nth_lookup_Some.
  apply list_lookup_insert_eq. lia.
Qed.

Lemma nthZ_updZ_ne {A} (d : A) l i j v :
  0 <= i -> 0 <= j -> i <> j -> nthZ d (updZ l i v) j = nthZ d l j.
Proof.
  intros Hi Hj Hne. unfold nthZ, updZ. rewrite !nth_lookup.
  rewrite list_lookup_insert_ne by lia. done.
Qed.

Lemma Forall_updZ {A} (P : A -> Prop) l i v :
  Forall P l -> P v -> Forall P (updZ l i v).
Proof. intros; unfold updZ. by apply Forall_insert. Qed.

Lemma Forall_nthZ {A} (P : A -> Prop) d l i : Forall P l -> P d -> P (nthZ d l i).
Proof.
  intros Hl Hd. unfold nthZ. rewrite nth_lookup.
  destruct (l !! Z.to_nat i) eqn:E; cbn; [|done]. by eapply Forall_lookup_1.
Qed.

#[export] Hint Resolve Forall_updZ : pybits.
#[export] Hint Rewrite @updZ_length : pyrw.

(** [range(n)]. *)
Definition range (n : Z) : list Z := seqZ 0 n.

(** ** Words assembled field by field

    The loops [for i in range(n): out |= g(i) << (w * i)]. *)

Definition gather (w n : Z) (g : Z -> Z) : Z :=
  fold_left (fun out i => out .| (g i << (w * i))) (range n) 0.

Lemma range_snoc n : 0 <= n -> range (n + 1) = range n ++ [n].
Proof.
  intros Hn. unfold range. rewrite <- (Z2Nat.id n) by lia.
  replace (Z.of_nat (Z.to_nat n) + 1) with (Z.of_nat (S (Z.to_nat n))) by lia.
  by rewrite seqZ_S.
Qed.

Lemma range_ind (P : Z -> Prop) :
  P 0 -> (forall n, 0 <= n -> P n -> P (n + 1)) -> forall n, 0 <= n -> P n.
Proof. intros H0 HS n Hn. revert n Hn. apply natlike_ind; auto. Qed.

Lemma fold_left_ext_in {A B} (f g : A -> B -> A) l a :
  (forall x y, y ∈ l -> f x y = g x y) -> fold_left f l a = fold_left g l a.
Proof.
  revert a. induction l as [|y l IH]; intros a H; cbn; [done|].
  rewrite H by left. apply IH. intros; apply H; by right.
Qed.

Lemma elem_of_range i n : i ∈ range n <-> 0 <= i < n.
Proof. unfold range. rewrite elem_of_seqZ. lia. Qed.

Lemma gather_ext w n f g : (forall i, 0 <= i < n -> f i = g i) -> gather w n f = gather w n g.
Proof.
  intros H. apply fold_left_ext_in. intros x y Hy%elem_of_range. by rewrite H.
Qed.

Lemma gather_testbit w n g k :
  0 < w -> 0 <= n -> (forall i, 0 <= i < n -> 0 <= g i < 2 ^ w) -> 0 <= k ->
  Z.testbit (gather w n g) k = (k <? w * n) && Z.testbit (g (k `div` w)) (k `mod` w).
Proof.
  intros Hw Hn. unfold gather. revert n Hn. apply (range_ind (fun n => _ -> _ -> _)).
  - intros _ Hk. cbn. rewrite Z.testbit_0_l.
    destruct (Z.ltb_spec k (w * 0)); [lia|done].
  - intros n Hn IH Hg Hk. rewrite range_snoc, fold_left_app by lia. cbn [fold_left].
    rewrite Z.lor_spec, Z.shiftl_spec, IH by (try lia; intros; apply Hg; lia).
    pose proof (Z.div_mod k w ltac:(lia)). pose proof (Z.mod_pos_bound k w Hw).
    destruct (Z.ltb_spec k (w * n)).
    + rewrite (Z.testbit_neg_r _ (k - w * n)) by lia.
      destruct (Z.ltb_spec k (w * (n + 1))); [|nia]. by rewrite orb_false_r.
    + cbn [andb orb]. destruct (Z.ltb_spec k (w * (n + 1))).
      * assert (k `div` w = n) as Hd by (assert (n <= k `div` w) by (apply Z.div_le_lower_bound; lia);
          assert (k `div` w < n + 1) by (apply Z.div_lt_upper_bound; lia); lia).
        rewrite Hd in *. cbn [andb]. f_equal. lia.
      * apply (testbit_small _ w); [apply Hg; lia|lia].
Qed.

Lemma gather_bound w n g :
  0 < w -> 0 <= n -> (forall i, 0 <= i < n -> 0 <= g i < 2 ^ w) ->
  0 <= gather w n g < 2 ^ (w * n).
Proof.
  intros Hw Hn. unfold gather. revert n Hn. apply (range_ind (fun n => _ -> _)).
  - intros _. rewrite Z.mul_0_r. done.
  - intros n Hn IH Hg. rewrite range_snoc, fold_left_app by lia. cbn [fold_left].
    assert (IH' := IH ltac:(intros; apply Hg; lia)).
    apply lor_bound; [nia| |].
    + assert (2 ^ (w * n) <= 2 ^ (w * (n + 1))) by (apply Z.pow_le_mono_r; nia). lia.
    + apply shiftl_bound; [nia..|]. replace (w * (n + 1) - w * n) with w by lia.
      apply Hg; lia.
Qed.

(** The field a gathered word holds at place [i]. *)
Lemma gather_field w n g i :
  0 < w -> (forall i, 0 <= i < n -> 0 <= g i < 2 ^ w) -> 0 <= i < n ->
  (gather w n g >> (w * i)) `mod` 2 ^ w = g i.
Proof.
  intros Hw Hg Hi. apply Z.bits_inj'; intros k Hk.
  rewrite Z.testbit_mod_pow2, Z.shiftr_spec, gather_testbit by (lia || done || nia).
  destruct (Z.ltb_spec k w).
  - destruct (Z.ltb_spec (k + w * i) (w * n)); [|nia]. cbn [andb].
    rewrite (Z.mul_comm w i), Z.div_add, Z.mod_add, Z.div_small, Z.mod_small by lia. done.
  - symmetry. apply (testbit_small _ w); [by apply Hg|lia].
Qed.

(** A word is the gathering of its own fields. *)
Lemma gather_fields w n x :
  0 < w -> 0 <= n -> gather w n (fun i => (x >> (w * i)) `mod` 2 ^ w) = x `mod` 2 ^ (w * n).
Proof.
  intros Hw Hn. apply Z.bits_inj'; intros k Hk.
  rewrite gather_testbit, !Z.testbit_mod_pow2
    by (try (intros; apply Z.mod_pos_bound); first [lia | apply Z.mul_nonneg_nonneg; lia]).
  pose proof (Z.mod_pos_bound k w Hw). destruct (Z.ltb_spec (k `mod` w) w); [|lia].
  assert (0 <= k `div` w) by (apply Z.div_pos; lia).
  cbn [andb]. rewrite Z.shiftr_spec by lia. do 2 f_equal.
  pose proof (Z.div_mod k w). lia.
Qed.
