(* ===== verification/Words.v ===== *)
(** * Fixed-width integers

    The width helpers shared by the tools: [s32], [u32], [sXLEN], [uXLEN]
    and [sext] of [sim/tools/iss.py] (the [sext] of [sim/tools/disasm.py]
    and [u] of [sim/tools/asm.py] are the same functions). *)

From S2P Require Import Prelude.

(** ** Definitions *)

Definition s32 (v : Z) : Z :=
  let v := v .& 0xFFFFFFFF in
  if truthy (v .& 0x80000000) then v - (1 << 32) else v.

Definition u32 (v : Z) : Z := v .& 0xFFFFFFFF.

Definition sXLEN (v xlen : Z) : Z :=
  let v := v .& ((1 << xlen) - 1) in
  if truthy (v .& (1 << (xlen - 1))) then v - (1 << xlen) else v.

Definition uXLEN (v xlen : Z) : Z := v .& ((1 << xlen) - 1).

Definition sext (v bits : Z) : Z :=
  let v := v .& ((1 << bits) - 1) in
  if truthy (v .& (1 << (bits - 1))) then v - (1 << bits) else v.

(** The mathematical reading of the helpers: residues and centred
    residues. *)
Definition wrap (n v : Z) : Z := v `mod` 2 ^ n.
Definition swrap (n v : Z) : Z := (v + 2 ^ (n - 1)) `mod` 2 ^ n - 2 ^ (n - 1).

(** An unsigned word of [w] bits. *)
Definition in_width (w v : Z) : Prop := 0 <= v < 2 ^ w.

(** ** Lemmas *)

Lemma pow2_pos n : 0 <= n -> 0 < 2 ^ n.
Proof. intros; by apply Z.pow_pos_nonneg. Qed.

Lemma pow2_split n : 0 < n -> 2 ^ n = 2 * 2 ^ (n - 1).
Proof. intros. rewrite <- Z.pow_succ_r by lia. f_equal; lia. Qed.

Lemma uXLEN_wrap n v : 0 <= n -> uXLEN v n = wrap n v.
Proof. intros. unfold uXLEN, wrap. by rewrite shiftl_1_sub_1, land_mask by lia. Qed.

Lemma u32_wrap v : u32 v = wrap 32 v.
Proof. unfold u32, wrap. by fold_masks. Qed.

Lemma u32_uXLEN v : u32 v = uXLEN v 32.
Proof. reflexivity. Qed.

Lemma s32_sXLEN v : s32 v = sXLEN v 32.
Proof. reflexivity. Qed.

Lemma sext_sXLEN v n : sext v n = sXLEN v n.
Proof. reflexivity. Qed.

(** The sign test reads the top bit. *)
Lemma truthy_bit x i : 0 <= i -> truthy (x .& (1 << i)) = Z.testbit x i.
Proof.
  intros Hi. unfold truthy. destruct (Z.testbit x i) eqn:E.
  - destruct (Z.eqb_spec (x .& (1 << i)) 0) as [H|]; [|done].
    apply (f_equal (fun z => Z.testbit z i)) in H.
    rewrite Z.land_spec, Z.shiftl_spec, E, Z.testbit_0_l, Z.sub_diag in H by lia. done.
  - rewrite (proj2 (Z.eqb_eq _ _)); [done|].
    apply Z.bits_inj'; intros j Hj.
    rewrite Z.land_spec, Z.shiftl_spec, Z.testbit_0_l by lia.
    destruct (Z.eq_dec j i) as [->|]; [by rewrite E|].
    destruct (Z.ltb_spec j i); [rewrite (Z.testbit_neg_r 1) by lia; by rewrite andb_false_r|].
    rewrite (testbit_small 1 1) by lia. by rewrite andb_false_r.
Qed.

Lemma testbit_top n v : 0 < n -> 0 <= v < 2 ^ n -> Z.testbit v (n - 1) = (2 ^ (n - 1) <=? v).
Proof.
  intros Hn Hv. pose proof (pow2_split n Hn). pose proof (pow2_pos (n - 1) ltac:(lia)).
  rewrite Z.testbit_eqb by lia.
  destruct (Z.leb_spec (2 ^ (n - 1)) v).
  - replace (v `div` 2 ^ (n - 1)) with 1; [done|].
    apply Z.div_unique_pos with (v - 2 ^ (n - 1)); lia.
  - rewrite Z.div_small by lia. done.
Qed.

Lemma swrap_cases n v :
  0 < n ->
  swrap n v = if 2 ^ (n - 1) <=? wrap n v then wrap n v - 2 ^ n else wrap n v.
Proof.
  intros Hn. unfold swrap, wrap. pose proof (pow2_split n Hn).
  pose proof (pow2_pos (n - 1) ltac:(lia)).
  pose proof (Z.mod_pos_bound v (2 ^ n) ltac:(lia)).
  pose proof (Z.div_mod v (2 ^ n) ltac:(lia)) as Hd.
  set (r := v `mod` 2 ^ n) in *. set (q := v `div` 2 ^ n) in *.
  destruct (Z.leb_spec (2 ^ (n - 1)) r).
  - enough ((v + 2 ^ (n - 1)) `mod` 2 ^ n = r - 2 ^ (n - 1)) by lia.
    symmetry. apply Z.mod_unique_pos with (q + 1); lia.
  - enough ((v + 2 ^ (n - 1)) `mod` 2 ^ n = r + 2 ^ (n - 1)) by lia.
    symmetry. apply Z.mod_unique_pos with q; lia.
Qed.

Lemma sXLEN_swrap n v : 0 < n -> sXLEN v n = swrap n v.
Proof.
  intros Hn. rewrite swrap_cases by done. unfold sXLEN.
  rewrite shiftl_1_sub_1, land_mask by lia. fold (wrap n v).
  assert (0 <= wrap n v < 2 ^ n) by (apply Z.mod_pos_bound, pow2_pos; lia).
  rewrite truthy_bit, testbit_top by lia. by rewrite Z.shiftl_1_l.
Qed.

Lemma s32_swrap v : s32 v = swrap 32 v.
Proof. rewrite s32_sXLEN. by apply sXLEN_swrap. Qed.

Lemma sext_swrap n v : 0 < n -> sext v n = swrap n v.
Proof. intros; rewrite sext_sXLEN. by apply sXLEN_swrap. Qed.

#[export] Hint Rewrite u32_wrap s32_swrap : pyrw.
#[export] Hint Rewrite uXLEN_wrap sXLEN_swrap sext_swrap using lia : pyrw.

Lemma wrap_range n v : 0 <= n -> 0 <= wrap n v < 2 ^ n.
Proof. intros. apply Z.mod_pos_bound, pow2_pos; lia. Qed.

Lemma swrap_range n v : 0 < n -> - 2 ^ (n - 1) <= swrap n v < 2 ^ (n - 1).
Proof.
  intros. unfold swrap. pose proof (pow2_split n ltac:(lia)).
  pose proof (Z.mod_pos_bound (v + 2 ^ (n - 1)) (2 ^ n) ltac:(apply pow2_pos; lia)). lia.
Qed.

Lemma wrap_small n v : 0 <= v < 2 ^ n -> wrap n v = v.
Proof. intros. by apply Z.mod_small. Qed.

Lemma swrap_small n v : 0 < n -> - 2 ^ (n - 1) <= v < 2 ^ (n - 1) -> swrap n v = v.
Proof.
  intros. unfold swrap. pose proof (pow2_split n ltac:(lia)).
  rewrite Z.mod_small by lia. lia.
Qed.

Lemma swrap_of_unsigned n v :
  0 < n -> 0 <= v < 2 ^ n -> swrap n v = if 2 ^ (n - 1) <=? v then v - 2 ^ n else v.
Proof. intros. rewrite swrap_cases by lia. by rewrite wrap_small by lia. Qed.

(** [swrap n v] and [v] are congruent modulo [2^n]. *)
Lemma swrap_congr n v : 0 < n -> exists k, swrap n v = v + k * 2 ^ n.
Proof.
  intros. unfold swrap. exists (- ((v + 2 ^ (n - 1)) `div` 2 ^ n)).
  pose proof (Z.div_mod (v + 2 ^ (n - 1)) (2 ^ n)
                ltac:(pose proof (pow2_pos n); lia)). lia.
Qed.

Lemma wrap_congr n v : 0 <= n -> exists k, wrap n v = v + k * 2 ^ n.
Proof.
  intros. unfold wrap. exists (- (v `div` 2 ^ n)).
  pose proof (Z.div_mod v (2 ^ n) ltac:(pose proof (pow2_pos n); lia)). lia.
Qed.

Lemma wrap_eq n a b : 0 <= n -> (exists k, a = b + k * 2 ^ n) -> wrap n a = wrap n b.
Proof. intros ? [k ->]. unfold wrap. apply Z_mod_plus_full. Qed.

Lemma wrap_swrap n v : 0 < n -> wrap n (swrap n v) = wrap n v.
Proof. intros. apply wrap_eq; [lia|]. by apply swrap_congr. Qed.

Lemma swrap_wrap n v : 0 < n -> swrap n (wrap n v) = swrap n v.
Proof.
  intros. unfold swrap. f_equal.
  destruct (wrap_congr n v ltac:(lia)) as [k ->].
  replace (v + k * 2 ^ n + 2 ^ (n - 1)) with (v + 2 ^ (n - 1) + k * 2 ^ n) by lia.
  apply Z_mod_plus_full.
Qed.

Lemma wrap_wrap n v : 0 <= n -> wrap n (wrap n v) = wrap n v.
Proof. intros. apply wrap_small, wrap_range; lia. Qed.

Lemma wrap_add_l n a b : 0 <= n -> wrap n (wrap n a + b) = wrap n (a + b).
Proof. intros. unfold wrap. by rewrite Zplus_mod_idemp_l. Qed.

Lemma wrap_inj_swrap n a b : 0 < n -> wrap n a = wrap n b <-> swrap n a = swrap n b.
Proof.
  intros; split; intros H0.
  - by rewrite <- (swrap_wrap n a), H0, swrap_wrap by lia.
  - by rewrite <- (wrap_swrap n a), H0, wrap_swrap by lia.
Qed.

Lemma wrap_testbit n v i : 0 <= n -> Z.testbit (wrap n v) i = (i <? n) && Z.testbit v i.
Proof. intros. by apply Z.testbit_mod_pow2. Qed.

Lemma swrap_testbit n v i :
  0 < n -> 0 <= i ->
  Z.testbit (swrap n v) i = Z.testbit v (if i <? n then i else n - 1).
Proof.
  intros Hn Hi. rewrite swrap_cases by lia.
  pose proof (wrap_range n v ltac:(lia)) as Hr.
  rewrite <- testbit_top by lia.
  assert (Hlow : forall j, 0 <= j < n -> Z.testbit (wrap n v) j = Z.testbit v j).
  { intros j Hj. rewrite wrap_testbit by lia. by destruct (Z.ltb_spec j n); [|lia]. }
  destruct (Z.ltb_spec i n).
  - destruct (Z.testbit (wrap n v) (n - 1)); [|by apply Hlow; lia].
    rewrite <- Hlow by lia.
    rewrite <- (Z.mod_pow2_bits_low (wrap n v - 2 ^ n) n) by lia.
    replace (wrap n v - 2 ^ n) with (wrap n v + (-1) * 2 ^ n) by lia.
    rewrite Z_mod_plus_full. by rewrite Z.mod_small by lia.
  - rewrite <- Hlow by lia.
    destruct (Z.testbit (wrap n v) (n - 1)) eqn:E.
    + apply Z.bits_above_log2_neg; [lia|].
      destruct (Z.eq_dec (wrap n v) (2 ^ n - 1)) as [->|].
      * replace (Z.pred (- (2 ^ n - 1 - 2 ^ n))) with 0 by lia. cbn; lia.
      * apply Z.log2_lt_pow2; [lia|].
        apply Z.lt_le_trans with (2 ^ n); [lia|]. apply Z.pow_le_mono_r; lia.
    + by apply (testbit_small _ n); lia.
Qed.
