(* ===== verification/PyStr.v ===== *)
(** * Python strings

    The string operations of the standard library the tools use: the
    [d], [+d], [x], [b] formats with zero padding, [int(s, base)],
    [str.strip], [str.split], [str.lower], [str.startswith] and the token
    patterns of the assembler.  Text is ASCII. *)

From S2P Require Import Prelude.
From Stdlib Require Export Ascii String.

#[local] Open Scope string_scope.
#[local] Open Scope Z_scope.

(** ** Formatting *)

Definition digit_char (d : Z) : ascii :=
  ascii_of_nat (Z.to_nat (if d <? 10 then 48 + d else 87 + d)).

(** Digits of [n] in [base], most significant first, in front of [acc]. *)
Fixpoint digits (base : Z) (fuel : nat) (n : Z) (acc : string) : string :=
  match fuel with
  | O => acc
  | S fuel' =>
      let acc' := String (digit_char (n `mod` base)) acc in
      if n `div` base =? 0 then acc' else digits base fuel' (n `div` base) acc'
  end.

(** A binary digit count bounds the digit count in every base. *)
Definition digits_fuel (n : Z) : nat := S (Z.to_nat (Z.log2 n)).

Definition fmt_nat (base n : Z) : string := digits base (digits_fuel n) n "".

(** [f"{n}"], [f"{n:+d}"]. *)
Definition fmt_d (n : Z) : string :=
  if n <? 0 then "-" ++ fmt_nat 10 (- n) else fmt_nat 10 n.
Definition fmt_plus_d (n : Z) : string :=
  if n <? 0 then "-" ++ fmt_nat 10 (- n) else "+" ++ fmt_nat 10 n.

(** Zero padding to a width (of a non-negative number's digits). *)
Fixpoint zeros (n : nat) : string :=
  match n with O => "" | S n' => String "0" (zeros n') end.
Definition zfill (w : nat) (s : string) : string := zeros (w - String.length s) ++ s.

(** [f"{n:x}"], [f"{n:0wx}"], [f"{n:0wb}"] for [n >= 0], and the [#]
    forms, whose width counts the prefix. *)
Definition fmt_x (n : Z) : string := fmt_nat 16 n.
Definition fmt_0x (w : nat) (n : Z) : string := zfill w (fmt_nat 16 n).
Definition fmt_0b (w : nat) (n : Z) : string := zfill w (fmt_nat 2 n).
Definition fmt_hash_x (n : Z) : string := "0x" ++ fmt_nat 16 n.
Definition fmt_hash_b (n : Z) : string := "0b" ++ fmt_nat 2 n.
Definition fmt_hash_0x (w : nat) (n : Z) : string := "0x" ++ zfill (w - 2) (fmt_nat 16 n).
Definition fmt_hash_0b (w : nat) (n : Z) : string := "0b" ++ zfill (w - 2) (fmt_nat 2 n).

(** [s[::-1]]. *)
Fixpoint str_rev_app (s acc : string) : string :=
  match s with "" => acc | String c s' => str_rev_app s' (String c acc) end.
Definition str_rev (s : string) : string := str_rev_app s "".

Lemma digits_S base fuel n acc :
  digits base (S fuel) n acc =
    if n `div` base =? 0 then String (digit_char (n `mod` base)) acc
    else digits base fuel (n `div` base) (String (digit_char (n `mod` base)) acc).
Proof. reflexivity. Qed.

(** [int(s, 2)] of a string of binary digits. *)
Fixpoint int_bin_acc (s : string) (acc : Z) : Z :=
  match s with
  | "" => acc
  | String c s' => int_bin_acc s' (2 * acc + (if Ascii.eqb c "1" then 1 else 0))
  end.
Definition int_bin (s : string) : Z := int_bin_acc s 0.

(** [s.count(c)]. *)
Fixpoint str_count (c : ascii) (s : string) : Z :=
  match s with
  | "" => 0
  | String d s' => (if Ascii.eqb c d then 1 else 0) + str_count c s'
  end.

Lemma str_count_app c s t : str_count c (s ++ t) = str_count c s + str_count c t.
Proof.
  induction s as [|d s IH]; [done|].
  change (str_count c (String d s ++ t)) with
    ((if Ascii.eqb c d then 1 else 0) + str_count c (s ++ t)).
  change (str_count c (String d s)) with ((if Ascii.eqb c d then 1 else 0) + str_count c s).
  rewrite IH. lia.
Qed.

Example fmt_d_neg : fmt_d (-2048) = "-2048".
Proof. reflexivity. Qed.
Example fmt_0b_8 : fmt_0b 8 19 = "00010011".
Proof. reflexivity. Qed.
Example fmt_hash_0b_7 : fmt_hash_0b 7 11 = "0b01011".
Proof. reflexivity. Qed.
Example fmt_plus : fmt_plus_d 0 = "+0" /\ fmt_plus_d (-4) = "-4" /\ fmt_0x 3 0xc = "00c".
Proof. repeat split. Qed.

(** ** Characters and substrings *)

Definition chr_in (lo hi : nat) (c : ascii) : bool :=
  (lo <=? nat_of_ascii c)%nat && (nat_of_ascii c <=? hi)%nat.
Definition is_digit (c : ascii) : bool := chr_in 48 57 c.
Definition is_upper (c : ascii) : bool := chr_in 65 90 c.
Definition is_lower (c : ascii) : bool := chr_in 97 122 c.

(** [\s]: space and the control characters 9 to 13 (and 28 to 31, which
    Python's [str] methods and its [re] module count as space). *)
Definition is_space (c : ascii) : bool :=
  Ascii.eqb c " " || chr_in 9 13 c || chr_in 28 31 c.
(** [\w] on ASCII text. *)
Definition is_word (c : ascii) : bool :=
  is_digit c || is_upper c || is_lower c || Ascii.eqb c "_".

Definition lower_char (c : ascii) : ascii :=
  if is_upper c then ascii_of_nat (nat_of_ascii c + 32) else c.
Fixpoint lower (s : string) : string :=
  match s with "" => "" | String c s' => String (lower_char c) (lower s') end.

(** [s.lstrip()], [s.rstrip()], [s.strip()]. *)
Fixpoint lstrip (s : string) : string :=
  match s with
  | "" => ""
  | String c s' => if is_space c then lstrip s' else s
  end.
Fixpoint rstrip (s : string) : string :=
  match s with
  | "" => ""
  | String c s' =>
      match rstrip s' with
      | "" => if is_space c then "" else String c ""
      | t => String c t
      end
  end.
Definition strip (s : string) : string := rstrip (lstrip s).

(** The longest prefix of characters satisfying [p], and the rest. *)
Fixpoint span (p : ascii -> bool) (s : string) : string * string :=
  match s with
  | "" => ("", "")
  | String c s' =>
      if p c then let '(a, b) := span p s' in (String c a, b) else ("", s)
  end.

(** [s.split(c, 1)[0]]. *)
Definition before (c : ascii) (s : string) : string :=
  fst (span (fun d => negb (Ascii.eqb c d)) s).

Fixpoint last_char (s : string) : option ascii :=
  match s with "" => None | String c "" => Some c | String _ s' => last_char s' end.
(** [s[:-1]]. *)
Fixpoint but_last (s : string) : string :=
  match s with "" => "" | String c "" => "" | String c s' => String c (but_last s') end.

(** [re.split(r"[,\s]+", s)]: the pieces between maximal runs of separators,
    with an empty piece at an end that has a separator. *)
Definition is_sep (c : ascii) : bool := Ascii.eqb c "," || is_space c.
Fixpoint split_seps (s : string) (cur : string) (in_sep : bool) : list string :=
  match s with
  | "" => [cur]
  | String c s' =>
      if is_sep c then
        if in_sep then split_seps s' cur true else cur :: split_seps s' "" true
      else split_seps s' (cur ++ String c "") false
  end.
Definition split_args (s : string) : list string := split_seps s "" false.

(** [repr(s)] of text without quotes or escapes. *)
Definition repr (s : string) : string := "'" ++ s ++ "'".

(** ** [int(s)] and [int(s, base)] *)

Definition digit_value (c : ascii) : Z :=
  let n := Z.of_nat (nat_of_ascii c) in
  if is_digit c then n - 48
  else if is_lower c then n - 87
  else if is_upper c then n - 55
  else 99.

(** The digits of a literal: non-empty, single underscores between digits
    only. [prev] says whether the previous character was a digit. *)
Fixpoint int_digits (base : Z) (s : string) (acc : Z) (prev : bool) : option Z :=
  match s with
  | "" => if prev then Some acc else None
  | String c s' =>
      if Ascii.eqb c "_" then (if prev then int_digits base s' acc false else None)
      else if digit_value c <? base then int_digits base s' (base * acc + digit_value c) true
      else None
  end.

(** A base prefix may be followed by an underscore. *)
Definition int_prefixed (base : Z) (s : string) : option Z := int_digits base s 0 true.
Definition int_body (s : string) : option Z :=
  match s with
  | String "0" (String c s') =>
      if Ascii.eqb c "x" || Ascii.eqb c "X" then
        match s' with "" => None | _ => int_prefixed 16 s' end
      else if Ascii.eqb c "o" || Ascii.eqb c "O" then
        match s' with "" => None | _ => int_prefixed 8 s' end
      else if Ascii.eqb c "b" || Ascii.eqb c "B" then
        match s' with "" => None | _ => int_prefixed 2 s' end
      else
        (* a decimal literal with a leading zero is zero *)
        match int_digits 10 s 0 false with Some 0 => Some 0 | _ => None end
  | _ => int_digits 10 s 0 false
  end.

Definition signed_int (body : string -> option Z) (s : string) : option Z :=
  match s with
  | String "-" s' => Z.opp <$> body s'
  | String "+" s' => body s'
  | _ => body s
  end.

(** [int(s, 0)]. *)
Definition int_base0 (s : string) : result Z :=
  match signed_int int_body (strip s) with
  | Some v => Ok v
  | None => Raise (ValueError ("invalid literal for int() with base 0: " ++ repr s))
  end.

(** [int(s)]. *)
Definition int_base10 (s : string) : result Z :=
  match signed_int (fun t => int_digits 10 t 0 false) (strip s) with
  | Some v => Ok v
  | None => Raise (ValueError ("invalid literal for int() with base 10: " ++ repr s))
  end.

(** ** Dictionaries with string keys *)

Fixpoint dict_find {A} (d : list (string * A)) (k : string) : option A :=
  match d with
  | [] => None
  | (k', v) :: d' => if String.eqb k k' then Some v else dict_find d' k
  end.
Definition dict_get {A} (d : list (string * A)) (k : string) : result A :=
  match dict_find d k with Some v => Ok v | None => Raise (KeyError k) end.
Definition dict_has {A} (d : list (string * A)) (k : string) : bool :=
  match dict_find d k with Some _ => true | None => false end.

(** [l[i]] on a list of known non-negative index. *)
Definition list_get {A} (l : list A) (i : nat) : result A :=
  match nth_error l i with
  | Some v => Ok v
  | None => Raise (IndexError "list index out of range")
  end.

(** [f"{s:<n}"], and [f"{n:5d}"] with its width. *)
Fixpoint spaces (n : nat) : string := match n with O => "" | S n' => String " " (spaces n') end.
Definition pad_right (w : nat) (s : string) : string := s ++ spaces (w - String.length s).
Definition pad_left (w : nat) (s : string) : string := spaces (w - String.length s) ++ s.

(** [s.endswith(suffix)]. *)
Fixpoint ends_with (suffix s : string) : bool :=
  String.eqb s suffix || match s with "" => false | String _ s' => ends_with suffix s' end.

Example int_ex : int_base0 " -0x1F " = Ok (-31) /\ int_base0 "1_000" = Ok 1000 /\
  raises (int_base0 "010") = true /\ int_base0 "0b101" = Ok 5.
Proof. repeat split. Qed.
Example split_ex : split_args "addi x1, x0,  5" = ["addi"; "x1"; "x0"; "5"].
Proof. reflexivity. Qed.
Example strip_ex : strip "  a b  " = "a b" /\ before "#" "ab # c" = "ab ".
Proof. split; reflexivity. Qed.
