(* ===== verification/Machine.v ===== *)
(** * The simulator's architectural state

    [class ISS] of [sim/tools/iss.py]: the registers, the memory, the CSR
    dictionary, the floating-point state and the privilege level, with the
    operations on them that every instruction shares ([wr], [csr_read],
    [csr_write], [trap], [mret], [sret], the byte-wide memory access).
    The state is threaded explicitly; [wf] is the well-formedness invariant
    each operation preserves. *)

From S2P Require Import Prelude Words.

(** ** Constants *)

Definition CSR_MSTATUS := 0x300.
Definition CSR_MTVEC := 0x305.
Definition CSR_MSCRATCH := 0x340.
Definition CSR_MEPC := 0x341.
Definition CSR_MCAUSE := 0x342.
Definition MCAUSE_ILLEGAL_INSTRUCTION := 2.
Definition MCAUSE_BREAKPOINT := 3.
Definition MCAUSE_ECALL_FROM_M := 11.
Definition MCAUSE_INT_MACHINE_TIMER := 0x80000007.
Definition MCAUSE_INT_MACHINE_EXTERNAL := 0x8000000B.

Definition CSR_SSTATUS := 0x100.
Definition CSR_SIE := 0x104.
Definition CSR_STVEC := 0x105.
Definition CSR_SSCRATCH := 0x140.
Definition CSR_SEPC := 0x141.
Definition CSR_SCAUSE := 0x142.
Definition CSR_STVAL := 0x143.
Definition CSR_SIP := 0x144.
Definition CSR_SATP := 0x180.
Definition CSR_MIE := 0x304.
Definition CSR_MIP := 0x344.
Definition CSR_MTVAL := 0x343.
Definition CSR_MEDELEG := 0x302.
Definition CSR_MIDELEG := 0x303.

Definition MCAUSE_ECALL_FROM_U := 8.
Definition MCAUSE_ECALL_FROM_S := 9.
Definition MCAUSE_INSTRUCTION_PAGE_FAULT := 12.
Definition MCAUSE_LOAD_PAGE_FAULT := 13.
Definition MCAUSE_STORE_PAGE_FAULT := 15.

Definition PRIV_U := 0.
Definition PRIV_S := 1.
Definition PRIV_M := 3.

Definition MSTATUS_SIE_BIT := 1.
Definition MSTATUS_SPIE_BIT := 5.
Definition MSTATUS_SPP_BIT := 8.
Definition MSTATUS_MPP_LO := 11.
Definition MIE_SSIE_BIT := 1.
Definition MIE_STIE_BIT := 5.
Definition MIE_SEIE_BIT := 9.
Definition MIE_MSIE_BIT := 3.
Definition MSTATUS_UXL_LO := 32.
Definition MSTATUS_SXL_LO := 34.
Definition MXL_XLEN64 := 2.

Definition RM_DYN := 7.
Definition CSR_FFLAGS := 1.
Definition CSR_FRM := 2.
Definition CSR_FCSR := 3.

(** ** State *)

Record ISS := mkISS {
  xlen : Z;
  regs : list Z;
  mem : list Z;                           (* bytearray *)
  mem_mask : Z;
  pc : Z;
  halted : bool;
  csr : gmap Z Z;                         (* dict *)
  priv_mode : Z;
  fregs : list Z;
  frm : Z;
  fflags : Z;
  pending_interrupt : option (Z * Z)      (* {"after": _, "cause": _} *)
}.

Definition set_regs (s : ISS) v := mkISS (xlen s) v (mem s) (mem_mask s) (pc s) (halted s)
  (csr s) (priv_mode s) (fregs s) (frm s) (fflags s) (pending_interrupt s).
Definition set_mem (s : ISS) v := mkISS (xlen s) (regs s) v (mem_mask s) (pc s) (halted s)
  (csr s) (priv_mode s) (fregs s) (frm s) (fflags s) (pending_interrupt s).
Definition set_pc (s : ISS) v := mkISS (xlen s) (regs s) (mem s) (mem_mask s) v (halted s)
  (csr s) (priv_mode s) (fregs s) (frm s) (fflags s) (pending_interrupt s).
Definition set_csr (s : ISS) v := mkISS (xlen s) (regs s) (mem s) (mem_mask s) (pc s) (halted s)
  v (priv_mode s) (fregs s) (frm s) (fflags s) (pending_interrupt s).
Definition set_priv (s : ISS) v := mkISS (xlen s) (regs s) (mem s) (mem_mask s) (pc s) (halted s)
  (csr s) v (fregs s) (frm s) (fflags s) (pending_interrupt s).
Definition set_fregs (s : ISS) v := mkISS (xlen s) (regs s) (mem s) (mem_mask s) (pc s) (halted s)
  (csr s) (priv_mode s) v (frm s) (fflags s) (pending_interrupt s).
Definition set_frm (s : ISS) v := mkISS (xlen s) (regs s) (mem s) (mem_mask s) (pc s) (halted s)
  (csr s) (priv_mode s) (fregs s) v (fflags s) (pending_interrupt s).
Definition set_ff (s : ISS) v := mkISS (xlen s) (regs s) (mem s) (mem_mask s) (pc s) (halted s)
  (csr s) (priv_mode s) (fregs s) (frm s) v (pending_interrupt s).
Definition set_pending (s : ISS) v := mkISS (xlen s) (regs s) (mem s) (mem_mask s) (pc s) (halted s)
  (csr s) (priv_mode s) (fregs s) (frm s) (fflags s) v.

(** [self.csr[a]] and [self.csr[a] = v]. *)
Definition csr_get (s : ISS) (a : Z) : Z := default 0 (csr s !! a).
Definition csr_put (s : ISS) (a v : Z) : ISS := set_csr s (<[a := v]> (csr s)).

(** The keys of the CSR dictionary, in the order [__init__] adds them. *)
Definition csr_keys : list Z :=
  [ CSR_MSTATUS; CSR_MTVEC; CSR_MSCRATCH; CSR_MEPC; CSR_MCAUSE;
    CSR_SSCRATCH; CSR_SEPC; CSR_SCAUSE; CSR_STVAL; CSR_MTVAL;
    CSR_STVEC; CSR_SATP; CSR_MIDELEG; CSR_MEDELEG; CSR_MIE; CSR_MIP ].

Definition init_csr : gmap Z Z := list_to_map ((fun k => (k, 0)) <$> csr_keys).

(** [ISS(mem_size, xlen)]. *)
Definition init (mem_size xlen : Z) : ISS :=
  mkISS xlen (updZ (replicate 32 0) 2 mem_size) (replicate (Z.to_nat mem_size) 0)
    (mem_size - 1) 0 false init_csr PRIV_M (replicate 32 0) 0 0 None.

Definition schedule_interrupt (s : ISS) (after_steps cause : Z) : ISS :=
  set_pending s (Some (after_steps, cause)).

(** ** Register access *)

Definition sxlen (s : ISS) (v : Z) : Z := sXLEN v (xlen s).
Definition uxlen (s : ISS) (v : Z) : Z := uXLEN v (xlen s).

Definition reg (s : ISS) (i : Z) : Z := nthZ 0 (regs s) i.
Definition freg (s : ISS) (i : Z) : Z := nthZ 0 (fregs s) i.
Definition put_freg (s : ISS) (rd v : Z) : ISS := set_fregs s (updZ (fregs s) rd v).

Definition wr (s : ISS) (rd val : Z) : ISS :=
  if negb (rd =? 0) then set_regs s (updZ (regs s) rd (uxlen s val)) else s.

Definition set_fflags (s : ISS) (flags : Z) : ISS :=
  set_ff s ((fflags s .| flags) .& 0x1F).

Definition resolve_rm (s : ISS) (rm_field : Z) : Z :=
  if rm_field =? RM_DYN then frm s else rm_field.

(** ** CSR access *)

Definition csr_read (s : ISS) (addr : Z) : Z :=
  if addr =? CSR_FFLAGS then fflags s .& 0x1F
  else if addr =? CSR_FRM then frm s .& 0x7
  else if addr =? CSR_FCSR then ((frm s .& 0x7) << 5) .| (fflags s .& 0x1F)
  else if addr =? CSR_SSTATUS then
    let m := csr_get s CSR_MSTATUS in
    (((m >> MSTATUS_SIE_BIT) .& 1) << MSTATUS_SIE_BIT) .|
    (((m >> MSTATUS_SPIE_BIT) .& 1) << MSTATUS_SPIE_BIT) .|
    (((m >> MSTATUS_SPP_BIT) .& 1) << MSTATUS_SPP_BIT)
  else if addr =? CSR_SIE then
    let e := csr_get s CSR_MIE in
    (((e >> MIE_SSIE_BIT) .& 1) << MIE_SSIE_BIT) .|
    (((e >> MIE_STIE_BIT) .& 1) << MIE_STIE_BIT) .|
    (((e >> MIE_SEIE_BIT) .& 1) << MIE_SEIE_BIT)
  else if addr =? CSR_SIP then
    let p := csr_get s CSR_MIP in
    (((p >> MIE_SSIE_BIT) .& 1) << MIE_SSIE_BIT) .|
    (((p >> MIE_STIE_BIT) .& 1) << MIE_STIE_BIT) .|
    (((p >> MIE_SEIE_BIT) .& 1) << MIE_SEIE_BIT)
  else if (addr =? CSR_MSTATUS) && (xlen s =? 64) then
    csr_get s addr .| (MXL_XLEN64 << MSTATUS_UXL_LO) .| (MXL_XLEN64 << MSTATUS_SXL_LO)
  else csr_get s addr.

(** The write masks of [csr_write]. *)
Definition sstatus_mask : Z :=
  (1 << MSTATUS_SIE_BIT) .| (1 << MSTATUS_SPIE_BIT) .| (1 << MSTATUS_SPP_BIT).
Definition sie_mask : Z :=
  (1 << MIE_SSIE_BIT) .| (1 << MIE_STIE_BIT) .| (1 << MIE_SEIE_BIT).
Definition mstatus_mask : Z :=
  (1 << 3) .| (1 << 7) .| (1 << MSTATUS_SIE_BIT) .| (1 << MSTATUS_SPIE_BIT) .|
  (1 << MSTATUS_SPP_BIT) .| (3 << MSTATUS_MPP_LO).
Definition mie_mask : Z :=
  (1 << MIE_MSIE_BIT) .| (1 << 7) .| (1 << 11) .|
  (1 << MIE_SSIE_BIT) .| (1 << MIE_STIE_BIT) .| (1 << MIE_SEIE_BIT).
Definition medeleg_mask : Z :=
  (1 << 2) .| (1 << 3) .| (1 << 8) .| (1 << 9) .| (1 << 11) .| (1 << 12) .| (1 << 13) .| (1 << 15).
Definition mideleg_mask : Z :=
  (1 << MIE_SSIE_BIT) .| (1 << MIE_STIE_BIT) .| (1 << MIE_MSIE_BIT) .|
  (1 << 7) .| (1 << MIE_SEIE_BIT) .| (1 << 11).

(** The common tail: [if addr in self.csr: self.csr[addr] = u32(val)]. *)
Definition csr_store (s : ISS) (addr val : Z) : ISS :=
  match csr s !! addr with
  | Some _ => csr_put s addr (u32 val)
  | None => s
  end.

Definition csr_write (s : ISS) (addr val : Z) : ISS :=
  if addr =? CSR_FFLAGS then set_ff s (val .& 0x1F)
  else if addr =? CSR_FRM then set_frm s (val .& 0x7)
  else if addr =? CSR_FCSR then set_ff (set_frm s ((val >> 5) .& 0x7)) (val .& 0x1F)
  else if addr =? CSR_MSTATUS then csr_store s addr (val .& mstatus_mask)
  else if addr =? CSR_SSTATUS then
    let keep := csr_get s CSR_MSTATUS .& .~ sstatus_mask in
    let new := val .& sstatus_mask in
    csr_put s CSR_MSTATUS (u32 (keep .| new))
  else if addr =? CSR_MIE then csr_store s addr (val .& mie_mask)
  else if addr =? CSR_SIE then
    let keep := csr_get s CSR_MIE .& .~ sie_mask in
    let new := val .& sie_mask in
    csr_put s CSR_MIE (u32 (keep .| new))
  else if (addr =? CSR_MIP) || (addr =? CSR_SIP) then
    csr_put s CSR_MIP (u32 (val .& sie_mask))
  else if addr =? CSR_MEDELEG then csr_store s addr (val .& medeleg_mask)
  else if addr =? CSR_MIDELEG then csr_store s addr (val .& mideleg_mask)
  else csr_store s addr val.

(** ** Traps *)

(** [to_s] of [trap]: whether the trap is delegated to S-mode. *)
Definition trap_to_s (s : ISS) (cause : Z) : bool :=
  let is_interrupt := truthy (cause .& 0x80000000) in
  let low_cause := cause .& 0x1F in
  let deleg := if is_interrupt then csr_get s CSR_MIDELEG else csr_get s CSR_MEDELEG in
  negb (priv_mode s =? PRIV_M) && truthy ((deleg >> low_cause) .& 1).

Definition trap (s : ISS) (cause tval : Z) : ISS :=
  let mcause_val := u32 cause in
  let m := csr_get s CSR_MSTATUS in
  if trap_to_s s cause then
    let s1 := csr_put s CSR_SEPC (pc s) in
    let s2 := csr_put s1 CSR_SCAUSE mcause_val in
    let s3 := csr_put s2 CSR_STVAL (u32 tval) in
    let sie := (m >> MSTATUS_SIE_BIT) .& 1 in
    let m1 := m .& .~ sstatus_mask in
    let m2 := m1 .| ((sie << MSTATUS_SPIE_BIT) .| ((priv_mode s .& 1) << MSTATUS_SPP_BIT)) in
    let s4 := csr_put s3 CSR_MSTATUS (u32 m2) in
    let s5 := set_priv s4 PRIV_S in
    set_pc s5 (csr_get s5 CSR_STVEC)
  else
    let s1 := csr_put s CSR_MEPC (pc s) in
    let s2 := csr_put s1 CSR_MCAUSE mcause_val in
    let s3 := csr_put s2 CSR_MTVAL (u32 tval) in
    let mie := (m >> 3) .& 1 in
    let m1 := m .& .~ ((1 << 3) .| (1 << 7) .| (3 << MSTATUS_MPP_LO)) in
    let m2 := m1 .| ((mie << 7) .| (priv_mode s << MSTATUS_MPP_LO)) in
    let s4 := csr_put s3 CSR_MSTATUS (u32 m2) in
    let s5 := set_priv s4 PRIV_M in
    set_pc s5 (csr_get s5 CSR_MTVEC).

Definition mret (s : ISS) : ISS :=
  let m := csr_get s CSR_MSTATUS in
  let mpie := (m >> 7) .& 1 in
  let mpp := (m >> MSTATUS_MPP_LO) .& 3 in
  let m1 := m .& .~ ((1 << 3) .| (1 << 7) .| (3 << MSTATUS_MPP_LO)) in
  let m2 := m1 .| ((mpie << 3) .| (1 << 7) .| (PRIV_U << MSTATUS_MPP_LO)) in
  let s1 := csr_put s CSR_MSTATUS (u32 m2) in
  let s2 := set_priv s1 mpp in
  set_pc s2 (csr_get s2 CSR_MEPC).

Definition sret (s : ISS) : ISS :=
  let m := csr_get s CSR_MSTATUS in
  let spie := (m >> MSTATUS_SPIE_BIT) .& 1 in
  let spp := (m >> MSTATUS_SPP_BIT) .& 1 in
  let m1 := m .& .~ sstatus_mask in
  let m2 := m1 .| ((spie << MSTATUS_SIE_BIT) .| (1 << MSTATUS_SPIE_BIT)) in
  let s1 := csr_put s CSR_MSTATUS (u32 m2) in
  let s2 := set_priv s1 spp in
  set_pc s2 (csr_get s2 CSR_SEPC).

(** ** Memory *)

Definition MMIO_BASE := 0x10000000.

Definition load_mem_byte (s : ISS) (addr : Z) : Z :=
  if MMIO_BASE <=? addr then 0 else nthZ 0 (mem s) (addr .& mem_mask s).

Definition store_mem_byte (s : ISS) (addr val : Z) : ISS :=
  if MMIO_BASE <=? addr then s
  else set_mem s (updZ (mem s) (addr .& mem_mask s) (val .& 0xFF)).

(** The little-endian multi-byte accesses the instructions and the page-table
    walkers spell out, and the [for i in range(n)] store loop. *)
Definition load16 (s : ISS) (addr : Z) : Z :=
  load_mem_byte s addr .| (load_mem_byte s (addr + 1) << 8).

Definition load32 (s : ISS) (addr : Z) : Z :=
  load_mem_byte s addr .| (load_mem_byte s (addr + 1) << 8) .|
  (load_mem_byte s (addr + 2) << 16) .| (load_mem_byte s (addr + 3) << 24).

Definition load64 (s : ISS) (addr : Z) : Z :=
  fold_left (fun v i => v .| (load_mem_byte s (addr + i) << (8 * i))) (range 8) 0.

Definition store_n (s : ISS) (addr val n : Z) : ISS :=
  fold_left (fun s i => store_mem_byte s (addr + i) (val >> (8 * i))) (range n) s.

(** ** Well-formedness *)


(** [sub_mask m v]: [v] has no bit outside [m]. *)
Definition sub_mask (m v : Z) : Prop := v .& m = v.

(** The legal contents of each CSR. [mepc] and [sepc] receive the program
    counter unmasked, so they are only known to be non-negative. *)
Definition csr_legal (a v : Z) : Prop :=
  if a =? CSR_MSTATUS then sub_mask mstatus_mask v
  else if a =? CSR_MIE then sub_mask mie_mask v
  else if a =? CSR_MIP then sub_mask sie_mask v
  else if a =? CSR_MEDELEG then sub_mask medeleg_mask v
  else if a =? CSR_MIDELEG then sub_mask mideleg_mask v
  else if (a =? CSR_MEPC) || (a =? CSR_SEPC) then 0 <= v
  else in_width 32 v.

Record wf (s : ISS) : Prop := {
  wf_xlen : xlen s = 32 \/ xlen s = 64;
  wf_regs_len : length (regs s) = 32%nat;
  wf_regs : Forall (in_width (xlen s)) (regs s);
  wf_x0 : reg s 0 = 0;
  wf_mem : Forall (in_width 8) (mem s);
  wf_mem_size : 0 < Z.of_nat (length (mem s)) /\ mem_mask s = Z.of_nat (length (mem s)) - 1;
  wf_pc : 0 <= pc s;
  wf_csr_dom : forall a, is_Some (csr s !! a) <-> a ∈ csr_keys;
  wf_csr : forall a v, csr s !! a = Some v -> csr_legal a v;
  wf_priv : 0 <= priv_mode s < 4;
  wf_fregs_len : length (fregs s) = 32%nat;
  wf_fregs : Forall (in_width 32) (fregs s);
  wf_frm : in_width 3 (frm s);
  wf_fflags : in_width 5 (fflags s)
}.

(** ** The abstract trap stack

    The machine's interrupt-enable and previous-privilege stack, as the
    privileged specification describes it: entering a mode pushes, returning
    pops. [trap], [mret] and [sret] refine it through [status_of]. *)
Record status := mkStatus {
  st_sie : bool; st_mie : bool; st_spie : bool; st_mpie : bool; st_spp : bool; st_mpp : Z
}.

Definition status_of (m : Z) : status :=
  mkStatus (Z.testbit m 1) (Z.testbit m 3) (Z.testbit m 5) (Z.testbit m 7)
           (Z.testbit m 8) ((m >> 11) .& 3).

Definition enter_M (priv : Z) (st : status) : status :=
  mkStatus (st_sie st) false (st_spie st) (st_mie st) (st_spp st) priv.
Definition enter_S (priv : Z) (st : status) : status :=
  mkStatus false (st_mie st) (st_sie st) (st_mpie st) (Z.testbit priv 0) (st_mpp st).
Definition leave_M (st : status) : status :=
  mkStatus (st_sie st) (st_mpie st) (st_spie st) true (st_spp st) PRIV_U.
Definition leave_S (st : status) : status :=
  mkStatus (st_spie st) (st_mie st) true (st_mpie st) false (st_mpp st).

(** ** Lemmas: the CSR dictionary *)

Lemma csr_get_put_eq s a v : csr_get (csr_put s a v) a = v.
Proof. unfold csr_get, csr_put; cbn. by rewrite lookup_insert_eq. Qed.

Lemma csr_get_put_ne s a b v : a <> b -> csr_get (csr_put s a v) b = csr_get s b.
Proof. intros; unfold csr_get, csr_put; cbn. by rewrite lookup_insert_ne. Qed.

Lemma csr_get_set_priv s p a : csr_get (set_priv s p) a = csr_get s a.
Proof. done. Qed.

Lemma csr_get_set_pc s p a : csr_get (set_pc s p) a = csr_get s a.
Proof. done. Qed.

(** Reads of concrete registers through writes of concrete registers. *)
Ltac csr_simpl :=
  repeat first
    [ rewrite csr_get_set_pc | rewrite csr_get_set_priv
    | rewrite csr_get_put_eq | rewrite csr_get_put_ne by discriminate ].

Lemma wf_csr_get s a : wf s -> a ∈ csr_keys -> csr s !! a = Some (csr_get s a).
Proof.
  intros H Ha. apply (wf_csr_dom s H) in Ha as [v Hv]. unfold csr_get. by rewrite Hv.
Qed.

Lemma wf_csr_legal s a : wf s -> a ∈ csr_keys -> csr_legal a (csr_get s a).
Proof. intros H Ha. eapply wf_csr; [done|]. by apply wf_csr_get. Qed.

Lemma sub_mask_range m v w : 0 <= w -> 0 <= m < 2 ^ w -> sub_mask m v -> 0 <= v < 2 ^ w.
Proof. intros Hw Hm <-. rewrite Z.land_comm. by apply land_bound_l. Qed.

Lemma sub_mask_nonneg m v : 0 <= m -> sub_mask m v -> 0 <= v.
Proof. intros Hm <-. apply Z.land_nonneg; by right. Qed.

Lemma sub_mask_land m v : sub_mask m (v .& m).
Proof. unfold sub_mask. by rewrite <- Z.land_assoc, Z.land_diag. Qed.

Lemma sub_mask_lor m u v : sub_mask m u -> sub_mask m v -> sub_mask m (u .| v).
Proof. unfold sub_mask. intros. rewrite Z.land_lor_distr_l. congruence. Qed.

Lemma sub_mask_trans m m' v : sub_mask m v -> m .& m' = m -> sub_mask m' v.
Proof. unfold sub_mask. intros <- H. by rewrite <- Z.land_assoc, H. Qed.

Lemma sub_mask_clear m k v : sub_mask m v -> sub_mask m (v .& k).
Proof.
  unfold sub_mask. intros H.
  rewrite <- Z.land_assoc, (Z.land_comm k), Z.land_assoc. by rewrite H.
Qed.

Lemma sub_mask_const m c : Z.land c m = c -> sub_mask m c.
Proof. done. Qed.

(** A single bit (or the two MPP bits) placed under a mask. *)
Lemma sub_mask_bit m b i :
  0 <= i -> Z.testbit m i = true -> sub_mask m (Z.b2z b << i).
Proof.
  intros Hi Hm. unfold sub_mask. apply Z.bits_inj'; intros j Hj.
  rewrite Z.land_spec, Z.shiftl_spec by lia.
  destruct (Z.eq_dec j i) as [->|]; [by rewrite Hm, andb_true_r|].
  rewrite testbit_b2z. destruct (Z.eqb_spec (j - i) 0); [lia|]. done.
Qed.

Lemma u32_small v : 0 <= v < 2 ^ 32 -> u32 v = v.
Proof. intros. rewrite u32_wrap. by apply wrap_small. Qed.

Lemma u32_sub_mask m v : 0 <= m < 2 ^ 32 -> sub_mask m v -> u32 v = v.
Proof. intros Hm Hv. apply u32_small. by apply (sub_mask_range m v 32). Qed.

Lemma csr_get_nonneg s a : wf s -> 0 <= csr_get s a.
Proof.
  intros H. unfold csr_get. destruct (csr s !! a) as [v|] eqn:E; cbn; [|done].
  pose proof (wf_csr s H a v E) as L. unfold csr_legal, in_width in L.
  repeat (case_match; [by eapply sub_mask_nonneg; [|exact L]|]).
  case_match; lia.
Qed.

(** ** Lemmas: preservation of [wf] by the state primitives *)

Lemma wf_set_regs s r :
  wf s -> length r = 32%nat -> Forall (in_width (xlen s)) r -> nthZ 0 r 0 = 0 ->
  wf (set_regs s r).
Proof. intros [] ? ? ?; by constructor. Qed.

Lemma wf_set_pc s p : wf s -> 0 <= p -> wf (set_pc s p).
Proof. intros [] ?; by constructor. Qed.

Lemma wf_set_priv s p : wf s -> 0 <= p < 4 -> wf (set_priv s p).
Proof. intros [] ?; by constructor. Qed.

Lemma wf_set_pending s p : wf s -> wf (set_pending s p).
Proof. intros []; by constructor. Qed.

Lemma wf_set_frm s v : wf s -> in_width 3 v -> wf (set_frm s v).
Proof. intros [] ?; by constructor. Qed.

Lemma wf_set_ff s v : wf s -> in_width 5 v -> wf (set_ff s v).
Proof. intros [] ?; by constructor. Qed.

Lemma wf_csr_put s a v : wf s -> a ∈ csr_keys -> csr_legal a v -> wf (csr_put s a v).
Proof.
  intros [] Ha Hv; constructor; try done; unfold csr_put; cbn.
  - intros b. destruct (decide (a = b)) as [<-|].
    + rewrite lookup_insert_eq. split; eauto.
    + by rewrite lookup_insert_ne.
  - intros b w. destruct (decide (a = b)) as [<-|].
    + rewrite lookup_insert_eq. by intros [= <-].
    + rewrite lookup_insert_ne by done. auto.
Qed.

Lemma wf_put_freg s rd v : wf s -> in_width 32 v -> wf (put_freg s rd v).
Proof.
  intros [] ?; constructor; try done; unfold put_freg; cbn.
  - by rewrite updZ_length.
  - by apply Forall_updZ.
Qed.

Lemma wf_width s : wf s -> 0 < xlen s.
Proof. intros [[-> | ->]]; done. Qed.

Lemma uxlen_width s v : wf s -> in_width (xlen s) (uxlen s v).
Proof.
  intros H%wf_width. unfold uxlen. rewrite uXLEN_wrap by lia. apply wrap_range; lia.
Qed.

Lemma wf_wr s rd v : wf s -> 0 <= rd -> wf (wr s rd v).
Proof.
  intros H Hrd. unfold wr. destruct (Z.eqb_spec rd 0) as [|Hne]; [done|]. cbn.
  apply wf_set_regs; [done|..].
  - rewrite updZ_length. apply H.
  - apply Forall_updZ; [apply H|]. by apply uxlen_width.
  - rewrite nthZ_updZ_ne by lia. apply H.
Qed.

Lemma wf_reg s i : wf s -> in_width (xlen s) (reg s i).
Proof.
  intros H. unfold reg. apply Forall_nthZ; [apply H|].
  split; [done|]. apply pow2_pos. pose proof (wf_width s H); lia.
Qed.

Lemma wf_freg s i : wf s -> in_width 32 (freg s i).
Proof. intros H. unfold freg. apply Forall_nthZ; [apply H|]. done. Qed.

Lemma wf_set_fflags s f : wf s -> 0 <= f -> wf (set_fflags s f).
Proof.
  intros H Hf. unfold set_fflags. apply wf_set_ff; [done|].
  unfold in_width. fold_masks. by apply Z.mod_pos_bound.
Qed.

(** ** Lemmas: registers *)

Lemma reg_wr_eq s rd v : wf s -> 0 < rd < 32 -> reg (wr s rd v) rd = uxlen s v.
Proof.
  intros H Hrd. unfold wr, reg. destruct (Z.eqb_spec rd 0); [lia|]. cbn.
  apply nthZ_updZ_eq. rewrite (wf_regs_len s H). lia.
Qed.

Lemma reg_wr_ne s rd i v : 0 <= rd -> 0 <= i -> rd <> i -> reg (wr s rd v) i = reg s i.
Proof.
  intros. unfold wr, reg. destruct (Z.eqb_spec rd 0); [done|]. cbn. apply nthZ_updZ_ne; lia.
Qed.

Lemma wr_x0 s v : wr s 0 v = s.
Proof. done. Qed.

(** ** Lemmas: legal status words *)

Lemma sub_mask_mpp p : 0 <= p < 4 -> sub_mask mstatus_mask (p << MSTATUS_MPP_LO).
Proof.
  intros. assert (p = 0 \/ p = 1 \/ p = 2 \/ p = 3) as [->|[->|[->| ->]]] by lia; done.
Qed.

Lemma bit1_range v i : 0 <= i -> 0 <= (v >> i) .& 1 < 2.
Proof. intros. rewrite bit_b2z by done. by destruct (Z.testbit v i). Qed.

Lemma sub_mask_shifted m v i j :
  0 <= i -> 0 <= j -> Z.testbit m j = true -> sub_mask m (((v >> i) .& 1) << j).
Proof. intros. rewrite bit_b2z by done. by apply sub_mask_bit. Qed.

Lemma sub_mask_low1 m v j :
  0 <= j -> Z.testbit m j = true -> sub_mask m ((v .& 1) << j).
Proof. intros. rewrite land_1_b2z. by apply sub_mask_bit. Qed.

Create HintDb csr_legal.
#[export] Hint Resolve sub_mask_lor sub_mask_clear sub_mask_mpp sub_mask_shifted sub_mask_low1
  sub_mask_land : csr_legal.
#[export] Hint Extern 1 (0 <= _) => (lia || by vm_compute) : csr_legal.
#[export] Hint Extern 1 (_ = _) => reflexivity : csr_legal.
#[export] Hint Extern 2 (sub_mask _ _) => reflexivity : csr_legal.

(** Membership of a named register in [csr_keys] (or another literal list). *)
Ltac csr_key := apply list_elem_of_In; cbn; repeat (first [left; reflexivity | right]).

Lemma wf_mstatus s : wf s -> sub_mask mstatus_mask (csr_get s CSR_MSTATUS).
Proof. intros H. apply (wf_csr_legal s CSR_MSTATUS H). csr_key. Qed.

Lemma wf_mie s : wf s -> sub_mask mie_mask (csr_get s CSR_MIE).
Proof. intros H. apply (wf_csr_legal s CSR_MIE H). csr_key. Qed.

#[export] Hint Resolve wf_mstatus wf_mie : csr_legal.

(** A legal status word survives [u32]. *)
Lemma wf_csr_put_masked s a m v :
  wf s -> a ∈ csr_keys -> 0 <= m < 2 ^ 32 ->
  (forall w, sub_mask m w -> csr_legal a w) -> sub_mask m v ->
  wf (csr_put s a (u32 v)).
Proof.
  intros Hs Ha Hm Hl Hv. rewrite (u32_sub_mask m) by done. apply wf_csr_put; auto.
Qed.

Lemma wf_put_mstatus s v : wf s -> sub_mask mstatus_mask v -> wf (csr_put s CSR_MSTATUS (u32 v)).
Proof. intros. apply wf_csr_put_masked with mstatus_mask; [done|csr_key|done..]. Qed.

Lemma wf_put_mie s v : wf s -> sub_mask mie_mask v -> wf (csr_put s CSR_MIE (u32 v)).
Proof. intros. apply wf_csr_put_masked with mie_mask; [done|csr_key|done..]. Qed.

Lemma u32_width v : in_width 32 (u32 v).
Proof. rewrite u32_wrap. by apply wrap_range. Qed.

(** A 32-bit register: no WARL field of its own. *)
Lemma wf_put_plain s a v :
  wf s -> a ∈ csr_keys -> (forall w, in_width 32 w -> csr_legal a w) ->
  wf (csr_put s a (u32 v)).
Proof. intros ? ? Hl. apply wf_csr_put; [done..|]. apply Hl, u32_width. Qed.

Lemma wf_put_epc s a v :
  wf s -> a = CSR_MEPC \/ a = CSR_SEPC -> 0 <= v -> wf (csr_put s a v).
Proof. intros ? [-> | ->] ?; apply wf_csr_put; try done; csr_key. Qed.

Lemma wf_csr_store s a v :
  wf s -> csr_legal a (u32 v) -> wf (csr_store s a v).
Proof.
  intros Hs Hv. unfold csr_store. destruct (csr s !! a) eqn:E; [|done].
  apply wf_csr_put; [done| |done]. apply (wf_csr_dom s Hs). by rewrite E.
Qed.

Lemma legal_u32_masked m v : 0 <= m < 2 ^ 32 -> sub_mask m (u32 (v .& m)).
Proof. intros. rewrite (u32_sub_mask m); auto using sub_mask_land. Qed.

Lemma csr_legal_plain a v :
  a <> CSR_MSTATUS -> a <> CSR_MIE -> a <> CSR_MIP -> a <> CSR_MEDELEG -> a <> CSR_MIDELEG ->
  in_width 32 v -> csr_legal a v.
Proof.
  intros. unfold csr_legal.
  repeat (rewrite (proj2 (Z.eqb_neq _ _)) by done). case_match; [|done].
  by destruct H4.
Qed.

Lemma wf_csr_write s a v : wf s -> wf (csr_write s a v).
Proof.
  intros Hs. unfold csr_write.
  destruct (Z.eqb_spec a CSR_FFLAGS) as [->|?].
  { apply wf_set_ff; [done|]. unfold in_width. fold_masks. by apply Z.mod_pos_bound. }
  destruct (Z.eqb_spec a CSR_FRM) as [->|?].
  { apply wf_set_frm; [done|]. unfold in_width. fold_masks. by apply Z.mod_pos_bound. }
  destruct (Z.eqb_spec a CSR_FCSR) as [->|?].
  { apply wf_set_ff; [apply wf_set_frm; [done|]|];
      unfold in_width; fold_masks; by apply Z.mod_pos_bound. }
  destruct (Z.eqb_spec a CSR_MSTATUS) as [->|?].
  { apply wf_csr_store; [done|]. by apply legal_u32_masked. }
  destruct (Z.eqb_spec a CSR_SSTATUS) as [->|?].
  { apply wf_put_mstatus; [done|]. apply sub_mask_lor; [by auto with csr_legal|].
    apply (sub_mask_trans sstatus_mask); [apply sub_mask_land|done]. }
  destruct (Z.eqb_spec a CSR_MIE) as [->|?].
  { apply wf_csr_store; [done|]. by apply legal_u32_masked. }
  destruct (Z.eqb_spec a CSR_SIE) as [->|?].
  { apply wf_put_mie; [done|]. apply sub_mask_lor; [by auto with csr_legal|].
    apply (sub_mask_trans sie_mask); [apply sub_mask_land|done]. }
  destruct (Z.eqb_spec a CSR_MIP) as [->|?]; cbn [orb].
  { apply wf_csr_put; [done|csr_key|]. by apply legal_u32_masked. }
  destruct (Z.eqb_spec a CSR_SIP) as [->|?].
  { apply wf_csr_put; [done|csr_key|]. by apply legal_u32_masked. }
  destruct (Z.eqb_spec a CSR_MEDELEG) as [->|?].
  { apply wf_csr_store; [done|]. by apply legal_u32_masked. }
  destruct (Z.eqb_spec a CSR_MIDELEG) as [->|?].
  { apply wf_csr_store; [done|]. by apply legal_u32_masked. }
  apply wf_csr_store; [done|]. by apply csr_legal_plain, u32_width.
Qed.

Lemma csr_legal_weak a w :
  a ∈ [CSR_MCAUSE; CSR_SCAUSE; CSR_STVAL; CSR_MTVAL] -> in_width 32 w -> csr_legal a w.
Proof.
  intros Ha Hw. apply csr_legal_plain; [..|done];
  intros ->; vm_compute in Ha; repeat (apply elem_of_cons in Ha as [[=]|Ha]);
  by apply not_elem_of_nil in Ha.
Qed.

Lemma wf_trap s cause tval : wf s -> wf (trap s cause tval).
Proof.
  intros Hs. unfold trap. pose proof (wf_priv s Hs).
  destruct (trap_to_s s cause).
  - apply wf_set_pc; [apply wf_set_priv; [|done]|].
    + apply wf_put_mstatus; [|by auto 10 with csr_legal].
      repeat first [ apply wf_put_plain; [|csr_key|intros; apply csr_legal_weak; [csr_key|done]]
                   | apply wf_put_epc; [done|auto|apply Hs] ].
    + csr_simpl. by apply csr_get_nonneg.
  - apply wf_set_pc; [apply wf_set_priv; [|done]|].
    + apply wf_put_mstatus; [|by auto 10 with csr_legal].
      repeat first [ apply wf_put_plain; [|csr_key|intros; apply csr_legal_weak; [csr_key|done]]
                   | apply wf_put_epc; [done|auto|apply Hs] ].
    + csr_simpl. by apply csr_get_nonneg.
Qed.

Lemma wf_mret s : wf s -> wf (mret s).
Proof.
  intros Hs. unfold mret. apply wf_set_pc; [apply wf_set_priv|].
  - apply wf_put_mstatus; [done|]. by auto 10 with csr_legal.
  - fold_masks. apply (Z.mod_pos_bound _ 4). done.
  - csr_simpl. by apply csr_get_nonneg.
Qed.

Lemma wf_sret s : wf s -> wf (sret s).
Proof.
  intros Hs. unfold sret. apply wf_set_pc; [apply wf_set_priv|].
  - apply wf_put_mstatus; [done|]. by auto 10 with csr_legal.
  - pose proof (bit1_range (csr_get s CSR_MSTATUS) MSTATUS_SPP_BIT). unfold MSTATUS_SPP_BIT in *. lia.
  - csr_simpl. by apply csr_get_nonneg.
Qed.

Lemma wf_store_mem_byte s a v : wf s -> wf (store_mem_byte s a v).
Proof.
  intros Hs. unfold store_mem_byte. case_match; [done|].
  destruct Hs; constructor; try done; cbn; rewrite ?updZ_length; try done.
  apply Forall_updZ; [done|]. unfold in_width. fold_masks. by apply Z.mod_pos_bound.
Qed.

Lemma wf_store_n s a v n : wf s -> wf (store_n s a v n).
Proof.
  unfold store_n. generalize (range n) as l. intros l. revert s.
  induction l as [|i l IH]; intros s Hs; cbn; [done|]. by apply IH, wf_store_mem_byte.
Qed.

Lemma init_csr_dom a : is_Some (init_csr !! a) <-> a ∈ csr_keys.
Proof.
  unfold init_csr.
  rewrite <- (elem_of_dom (D := gset Z)), dom_list_to_map_L, elem_of_list_to_set.
  by rewrite <- list_fmap_compose, list_fmap_id.
Qed.

Lemma init_csr_zero a v : init_csr !! a = Some v -> v = 0.
Proof. by intros (k & [= -> ->] & _)%elem_of_list_to_map_2%list_elem_of_fmap. Qed.

Lemma csr_legal_zero a : csr_legal a 0.
Proof. unfold csr_legal. repeat case_match; done. Qed.

Lemma wf_init mem_size xl :
  xl = 32 \/ xl = 64 -> 0 < mem_size < 2 ^ xl -> wf (init mem_size xl).
Proof.
  intros Hx Hm.
  assert (Forall (in_width xl) (updZ (replicate 32 0) 2 mem_size)).
  { apply Forall_updZ; [|unfold in_width; lia].
    apply Forall_replicate. split; [done|]. apply pow2_pos; lia. }
  constructor; try done; cbn [init mem mem_mask csr].
  - by apply Forall_replicate.
  - rewrite length_replicate. lia.
  - apply init_csr_dom.
  - intros a v ->%init_csr_zero. apply csr_legal_zero.
  - by apply Forall_replicate.
Qed.

(** ** Lemmas: testbits of status words *)

(** Evaluate [Z.testbit] on closed words. *)
Ltac zb_closed :=
  repeat match goal with
  | |- context [Z.testbit ?c ?i] =>
      let b := eval vm_compute in (Z.testbit c i) in
      lazymatch b with
      | true => change (Z.testbit c i) with true
      | false => change (Z.testbit c i) with false
      end
  end.

Lemma u32_testbit v i : Z.testbit (u32 v) i = (i <? 32) && Z.testbit v i.
Proof. rewrite u32_wrap. by apply wrap_testbit. Qed.

(** A testbit of a status word at a literal position. *)
Ltac status_bit :=
  rewrite ?u32_testbit, ?bit_b2z, ?land_1_b2z by (by vm_compute);
  zb_simpl; rewrite ?u32_testbit; zb_simpl; zb_closed;
  repeat zb_split; zb_close.

(** A two-bit field, bit by bit. *)
Lemma two_bits_eq a b :
  Z.testbit a 0 = Z.testbit b 0 -> Z.testbit a 1 = Z.testbit b 1 -> 0 <= a < 4 -> 0 <= b < 4 -> a = b.
Proof.
  intros H0 H1 Ha Hb. apply Z.bits_inj'; intros i Hi.
  destruct (Z.eq_dec i 0) as [->|]; [done|]. destruct (Z.eq_dec i 1) as [->|]; [done|].
  by rewrite !(testbit_small _ 2) by lia.
Qed.

Lemma land_3_range v : 0 <= v .& 3 < 4.
Proof. fold_masks. by apply (Z.mod_pos_bound v 4). Qed.

Ltac mpp_field :=
  apply two_bits_eq; [status_bit|status_bit|apply land_3_range|try apply land_3_range; try lia].

Definition mret_mask : Z := (1 << 3) .| (1 << 7) .| (3 << MSTATUS_MPP_LO).

Lemma status_enter_M m p :
  0 <= p < 4 ->
  status_of (u32 ((m .& .~ mret_mask) .| ((((m >> 3) .& 1) << 7) .| (p << MSTATUS_MPP_LO)))) =
  enter_M p (status_of m).
Proof.
  intros Hp. unfold status_of, enter_M; cbn [st_sie st_mie st_spie st_mpie st_spp st_mpp].
  unfold MSTATUS_MPP_LO. f_equal; [status_bit..|mpp_field].
Qed.

Lemma status_enter_S m p :
  status_of (u32 ((m .& .~ sstatus_mask) .|
     ((((m >> MSTATUS_SIE_BIT) .& 1) << MSTATUS_SPIE_BIT) .| ((p .& 1) << MSTATUS_SPP_BIT)))) =
  enter_S p (status_of m).
Proof.
  unfold status_of, enter_S; cbn [st_sie st_mie st_spie st_mpie st_spp st_mpp].
  unfold MSTATUS_SIE_BIT, MSTATUS_SPIE_BIT, MSTATUS_SPP_BIT.
  f_equal; [status_bit..|mpp_field].
Qed.

Lemma status_leave_M m :
  status_of (u32 ((m .& .~ mret_mask) .|
     ((((m >> 7) .& 1) << 3) .| (1 << 7) .| (PRIV_U << MSTATUS_MPP_LO)))) =
  leave_M (status_of m).
Proof.
  unfold status_of, leave_M; cbn [st_sie st_mie st_spie st_mpie st_spp st_mpp].
  unfold MSTATUS_MPP_LO, PRIV_U. f_equal; [status_bit..|mpp_field].
Qed.

Lemma status_leave_S m :
  status_of (u32 ((m .& .~ sstatus_mask) .|
     ((((m >> MSTATUS_SPIE_BIT) .& 1) << MSTATUS_SIE_BIT) .| (1 << MSTATUS_SPIE_BIT)))) =
  leave_S (status_of m).
Proof.
  unfold status_of, leave_S; cbn [st_sie st_mie st_spie st_mpie st_spp st_mpp].
  unfold MSTATUS_SIE_BIT, MSTATUS_SPIE_BIT.
  f_equal; [status_bit..|mpp_field].
Qed.

(** ** Lemmas: traps refine the abstract stack *)

(** The parts of the state control transfers leave alone. *)
Definition same_datapath (s s' : ISS) : Prop :=
  xlen s' = xlen s /\ regs s' = regs s /\ mem s' = mem s /\ mem_mask s' = mem_mask s /\
  fregs s' = fregs s /\ frm s' = frm s /\ fflags s' = fflags s /\
  pending_interrupt s' = pending_interrupt s.

Definition csr_frame (touched : list Z) (s s' : ISS) : Prop :=
  forall a, a ∉ touched -> csr_get s' a = csr_get s a.

Lemma same_datapath_trans a b c : same_datapath a b -> same_datapath b c -> same_datapath a c.
Proof. unfold same_datapath. intuition congruence. Qed.

Lemma csr_frame_trans l a b c : csr_frame l a b -> csr_frame l b c -> csr_frame l a c.
Proof. unfold csr_frame. intros H1 H2 x Hx. by rewrite H2, H1. Qed.

Lemma csr_frame_put l a v s : a ∈ l -> csr_frame l s (csr_put s a v).
Proof. intros Ha b Hb. apply csr_get_put_ne. by intros ->. Qed.

Lemma csr_frame_weaken l l' s s' : l ⊆ l' -> csr_frame l s s' -> csr_frame l' s s'.
Proof. intros Hl H a Ha. apply H. by intros ?%Hl. Qed.

Ltac csr_frame_solve :=
  repeat (eapply csr_frame_trans; [|apply csr_frame_put; csr_key]); intros ? _; reflexivity.

Definition m_trap_csrs := [CSR_MEPC; CSR_MCAUSE; CSR_MTVAL; CSR_MSTATUS].
Definition s_trap_csrs := [CSR_SEPC; CSR_SCAUSE; CSR_STVAL; CSR_MSTATUS].

Lemma trap_M_effect s cause tval :
  wf s -> trap_to_s s cause = false ->
  let s' := trap s cause tval in
  priv_mode s' = PRIV_M /\ pc s' = csr_get s CSR_MTVEC /\
  csr_get s' CSR_MEPC = pc s /\ csr_get s' CSR_MCAUSE = u32 cause /\
  csr_get s' CSR_MTVAL = u32 tval /\
  status_of (csr_get s' CSR_MSTATUS) = enter_M (priv_mode s) (status_of (csr_get s CSR_MSTATUS)) /\
  csr_frame m_trap_csrs s s' /\ same_datapath s s'.
Proof.
  intros Hs E. cbn zeta. unfold trap. rewrite E.
  repeat match goal with |- _ /\ _ => split end; try done; csr_simpl; try done.
  - apply status_enter_M, Hs.
  - csr_frame_solve.
Qed.

Lemma trap_S_effect s cause tval :
  trap_to_s s cause = true ->
  let s' := trap s cause tval in
  priv_mode s' = PRIV_S /\ pc s' = csr_get s CSR_STVEC /\
  csr_get s' CSR_SEPC = pc s /\ csr_get s' CSR_SCAUSE = u32 cause /\
  csr_get s' CSR_STVAL = u32 tval /\
  status_of (csr_get s' CSR_MSTATUS) = enter_S (priv_mode s) (status_of (csr_get s CSR_MSTATUS)) /\
  csr_frame s_trap_csrs s s' /\ same_datapath s s'.
Proof.
  intros E. cbn zeta. unfold trap. rewrite E.
  repeat match goal with |- _ /\ _ => split end; try done; csr_simpl; try done.
  - apply status_enter_S.
  - csr_frame_solve.
Qed.

Lemma mret_effect s :
  let s' := mret s in
  let st := status_of (csr_get s CSR_MSTATUS) in
  priv_mode s' = st_mpp st /\ pc s' = csr_get s CSR_MEPC /\
  status_of (csr_get s' CSR_MSTATUS) = leave_M st /\
  csr_frame [CSR_MSTATUS] s s' /\ same_datapath s s'.
Proof.
  cbn zeta. unfold mret.
  repeat match goal with |- _ /\ _ => split end; try done; csr_simpl; try done.
  - apply status_leave_M.
  - csr_frame_solve.
Qed.

Lemma sret_effect s :
  let s' := sret s in
  let st := status_of (csr_get s CSR_MSTATUS) in
  priv_mode s' = Z.b2z (st_spp st) /\ pc s' = csr_get s CSR_SEPC /\
  status_of (csr_get s' CSR_MSTATUS) = leave_S st /\
  csr_frame [CSR_MSTATUS] s s' /\ same_datapath s s'.
Proof.
  cbn zeta. unfold sret.
  repeat match goal with |- _ /\ _ => split end; try done; csr_simpl; try done.
  - by apply bit_b2z.
  - apply status_leave_S.
  - csr_frame_solve.
Qed.

(** ** Lemmas: write-back of a read value *)

Lemma set_ff_id s : set_ff s (fflags s) = s.
Proof. by destruct s. Qed.

Lemma set_frm_id s : set_frm s (frm s) = s.
Proof. by destruct s. Qed.

Lemma csr_put_id s a : is_Some (csr s !! a) -> csr_put s a (csr_get s a) = s.
Proof.
  intros [v Hv]. unfold csr_put, csr_get. rewrite Hv. cbn.
  rewrite insert_id by done. by destruct s.
Qed.

Lemma csr_store_id s a v :
  (a ∈ csr_keys -> u32 v = csr_get s a) -> wf s -> csr_store s a v = s.
Proof.
  intros Hv Hs. unfold csr_store. destruct (csr s !! a) eqn:E; [|done].
  assert (a ∈ csr_keys) by (apply (wf_csr_dom s Hs); by rewrite E).
  rewrite Hv by done. apply csr_put_id. by rewrite E.
Qed.

Lemma low_small n v : 0 <= n -> 0 <= v < 2 ^ n -> v .& Z.ones n = v.
Proof. intros. rewrite land_mask by lia. apply Z.mod_small; lia. Qed.

Lemma csr_legal_low32 s a :
  wf s -> a ∈ csr_keys -> a <> CSR_MEPC -> a <> CSR_SEPC -> in_width 32 (csr_get s a).
Proof.
  intros Hs Ha H1 H2. pose proof (wf_csr_legal s a Hs Ha) as L. unfold csr_legal in L.
  repeat (case_match; [eapply sub_mask_range; [..|exact L]; done|]).
  by rewrite (proj2 (Z.eqb_neq a _) H1), (proj2 (Z.eqb_neq a _) H2) in L.
Qed.

(** A shifted-out bit put back in place is a mask of the word. *)
Lemma bit_in_place m i : 0 <= i -> ((m >> i) .& 1) << i = m .& (1 << i).
Proof.
  intros Hi. rewrite bit_b2z by done. apply Z.bits_inj'; intros j Hj.
  zb_simpl. destruct (Z.eq_dec j i) as [->|].
  - rewrite Z.sub_diag. cbn. by rewrite andb_true_r.
  - destruct (Z.eqb_spec (j - i) 0); [lia|].
    destruct (Z.ltb_spec j i); [rewrite (Z.testbit_neg_r 1) by lia|rewrite (testbit_small 1 1) by lia];
      by rewrite andb_false_r.
Qed.

Lemma clear_set_id m k : (m .& .~ k) .| (m .& k .& k) = m.
Proof.
  rewrite <- Z.land_assoc, Z.land_diag, <- Z.land_lor_distr_r.
  rewrite Z.lor_comm, Z.lor_lnot_diag. apply Z.land_m1_r.
Qed.

Lemma sstatus_view_mask m :
  ((((m >> MSTATUS_SIE_BIT) .& 1) << MSTATUS_SIE_BIT) .|
   (((m >> MSTATUS_SPIE_BIT) .& 1) << MSTATUS_SPIE_BIT) .|
   (((m >> MSTATUS_SPP_BIT) .& 1) << MSTATUS_SPP_BIT)) = m .& sstatus_mask.
Proof. rewrite !bit_in_place by done. unfold sstatus_mask. by rewrite !Z.land_lor_distr_r. Qed.

Lemma sie_view_mask m :
  ((((m >> MIE_SSIE_BIT) .& 1) << MIE_SSIE_BIT) .|
   (((m >> MIE_STIE_BIT) .& 1) << MIE_STIE_BIT) .|
   (((m >> MIE_SEIE_BIT) .& 1) << MIE_SEIE_BIT)) = m .& sie_mask.
Proof. rewrite !bit_in_place by done. unfold sie_mask. by rewrite !Z.land_lor_distr_r. Qed.

Lemma fcsr_split fr ff :
  in_width 3 fr -> in_width 5 ff ->
  (((((fr .& 7) << 5) .| (ff .& 31)) >> 5) .& 7 = fr) /\
  ((((fr .& 7) << 5) .| (ff .& 31)) .& 31 = ff).
Proof.
  intros Hr Hf. unfold in_width in *. fold_masks.
  rewrite (Z.mod_small fr), (Z.mod_small ff) by lia. rewrite lor_low_add by lia.
  rewrite Z.shiftr_div_pow2 by lia. change (2 ^ 5) with 32 in *. change (2 ^ 3) with 8 in *.
  split; Z.to_euclidean_division_equations; lia.
Qed.

Lemma mstatus_read_masked m :
  sub_mask mstatus_mask m ->
  (m .| (MXL_XLEN64 << MSTATUS_UXL_LO) .| (MXL_XLEN64 << MSTATUS_SXL_LO)) .& mstatus_mask = m.
Proof. intros H. rewrite !Z.land_lor_distr_l, H, !Z.lor_0_r. done. Qed.

(** Writing back what was read: a WARL register keeps its contents. *)
Lemma u32_masked_id m v : 0 <= m < 2 ^ 32 -> sub_mask m v -> u32 (v .& m) = v.
Proof. intros Hm Hv. rewrite Hv. by apply (u32_sub_mask m). Qed.

Lemma csr_write_read_masked s a m :
  wf s -> a ∈ csr_keys -> 0 <= m < 2 ^ 32 -> (forall w, csr_legal a w -> sub_mask m w) ->
  csr_store s a (csr_get s a .& m) = s.
Proof.
  intros Hs Ha Hm Hl. apply csr_store_id; [|done]. intros _.
  apply u32_masked_id; [done|]. by apply Hl, wf_csr_legal.
Qed.

Lemma csr_put_back s a v : wf s -> a ∈ csr_keys -> v = csr_get s a -> csr_put s a v = s.
Proof. intros Hs Ha ->. apply csr_put_id. by rewrite (wf_csr_get s a). Qed.

(** ** Properties *)

(** Writing back to any CSR address the value just read from it leaves
    the whole machine unchanged: every stored register holds only bits its
    write mask admits, and the read-only views and read-time constants
    (sstatus, sie, sip, fcsr, mstatus.UXL/SXL) never leak into storage.
    The two program-counter registers must fit the 32 bits CSR storage keeps. *)
Theorem csr_write_back_id s a :
  wf s -> csr_get s CSR_MEPC < 2 ^ 32 -> csr_get s CSR_SEPC < 2 ^ 32 ->
  csr_write s a (csr_read s a) = s.
Proof.
  intros Hs He1 He2. unfold csr_write, csr_read.
  destruct (Z.eqb_spec a CSR_FFLAGS) as [->|?].
  { change 31 with (Z.ones 5). rewrite !(low_small 5 (fflags s)) by (done || apply Hs). apply set_ff_id. }
  destruct (Z.eqb_spec a CSR_FRM) as [->|?].
  { change 7 with (Z.ones 3). rewrite !(low_small 3 (frm s)) by (done || apply Hs). apply set_frm_id. }
  destruct (Z.eqb_spec a CSR_FCSR) as [->|?].
  { destruct (fcsr_split (frm s) (fflags s) (wf_frm s Hs) (wf_fflags s Hs)) as [-> ->].
    by rewrite set_frm_id, set_ff_id. }
  destruct (Z.eqb_spec a CSR_MSTATUS) as [->|?].
  { cbn [Z.eqb CSR_MSTATUS CSR_SSTATUS CSR_SIE CSR_SIP Pos.eqb andb].
    apply csr_store_id; [|done]. intros _. pose proof (wf_mstatus s Hs).
    case_match; [rewrite mstatus_read_masked by done|]; [by apply (u32_sub_mask mstatus_mask)|].
    by apply u32_masked_id. }
  destruct (Z.eqb_spec a CSR_SSTATUS) as [->|?].
  { apply csr_put_back; [done|csr_key|]. rewrite sstatus_view_mask, clear_set_id.
    by apply (u32_sub_mask mstatus_mask), wf_mstatus. }
  destruct (Z.eqb_spec a CSR_MIE) as [->|?].
  { by apply csr_write_read_masked; [|csr_key|..]. }
  destruct (Z.eqb_spec a CSR_SIE) as [->|?].
  { apply csr_put_back; [done|csr_key|]. rewrite sie_view_mask, clear_set_id.
    by apply (u32_sub_mask mie_mask), wf_mie. }
  assert (Hmip : sub_mask sie_mask (csr_get s CSR_MIP)) by (apply (wf_csr_legal s CSR_MIP Hs); csr_key).
  destruct (Z.eqb_spec a CSR_MIP) as [->|?]; cbn [orb].
  { apply csr_put_back; [done|csr_key|]. by apply u32_masked_id. }
  destruct (Z.eqb_spec a CSR_SIP) as [->|?]; cbn [orb].
  { apply csr_put_back; [done|csr_key|].
    rewrite sie_view_mask, <- Z.land_assoc, Z.land_diag. by apply u32_masked_id. }
  cbn [andb].
  destruct (Z.eqb_spec a CSR_MEDELEG) as [->|?].
  { by apply csr_write_read_masked; [|csr_key|..]. }
  destruct (Z.eqb_spec a CSR_MIDELEG) as [->|?].
  { by apply csr_write_read_masked; [|csr_key|..]. }
  apply csr_store_id; [|done]. intros Ha. apply u32_small.
  split; [by apply csr_get_nonneg|].
  destruct (Z.eq_dec a CSR_MEPC) as [->|]; [done|].
  destruct (Z.eq_dec a CSR_SEPC) as [->|]; [done|]. by apply csr_legal_low32.
Qed.

Example csr_write_back_id_witness :
  let s := csr_write (init 128 64) CSR_MSTATUS 0x1888 in
  csr_write s CSR_SSTATUS (csr_read s CSR_SSTATUS) = s.
Proof.
  apply csr_write_back_id; [|by vm_compute..].
  apply wf_csr_write, wf_init; [by right|done].
Defined.

(** [C9] A trap refines the abstract trap stack: it pushes the interrupted
    privilege and interrupt enable of the target mode (S when delegated and
    not already in M, M otherwise), records the program counter, cause and
    value, jumps to the target's vector, and changes nothing else. *)
Theorem trap_refines_enter s cause tval :
  wf s ->
  let s' := trap s cause tval in
  let st := status_of (csr_get s CSR_MSTATUS) in
  same_datapath s s' /\
  if trap_to_s s cause then
    priv_mode s' = PRIV_S /\ pc s' = csr_get s CSR_STVEC /\
    csr_get s' CSR_SEPC = pc s /\ csr_get s' CSR_SCAUSE = u32 cause /\
    csr_get s' CSR_STVAL = u32 tval /\
    status_of (csr_get s' CSR_MSTATUS) = enter_S (priv_mode s) st /\
    csr_frame s_trap_csrs s s'
  else
    priv_mode s' = PRIV_M /\ pc s' = csr_get s CSR_MTVEC /\
    csr_get s' CSR_MEPC = pc s /\ csr_get s' CSR_MCAUSE = u32 cause /\
    csr_get s' CSR_MTVAL = u32 tval /\
    status_of (csr_get s' CSR_MSTATUS) = enter_M (priv_mode s) st /\
    csr_frame m_trap_csrs s s'.
Proof.
  intros Hs. cbn zeta. destruct (trap_to_s s cause) eqn:E.
  - destruct (trap_S_effect s cause tval E) as (?&?&?&?&?&?&?&?). auto 10.
  - destruct (trap_M_effect s cause tval Hs E) as (?&?&?&?&?&?&?&?). auto 10.
Qed.

Example trap_refines_enter_witness :
  wf (init 128 32) /\ priv_mode (trap (init 128 32) 11 0) = PRIV_M.
Proof.
  assert (H : wf (init 128 32)) by (apply wf_init; [by left|done]).
  split; [exact H|]. exact (proj1 (proj2 (trap_refines_enter (init 128 32) 11 0 H))).
Defined.

(** [C10] A trap into M followed by [mret] resumes the interrupted program:
    privilege, program counter and MIE are restored, the S-level bits and
    every register, float register and memory byte are untouched; what is
    left behind is MPIE = 1, MPP = U and the M trap registers. *)
Theorem trap_mret_returns s cause tval :
  wf s -> trap_to_s s cause = false ->
  let r := mret (trap s cause tval) in
  let st := status_of (csr_get s CSR_MSTATUS) in
  priv_mode r = priv_mode s /\ pc r = pc s /\ same_datapath s r /\
  status_of (csr_get r CSR_MSTATUS) =
    mkStatus (st_sie st) (st_mie st) (st_spie st) true (st_spp st) PRIV_U /\
  csr_frame m_trap_csrs s r.
Proof.
  intros Hs E. cbn zeta.
  destruct (trap_M_effect s cause tval Hs E) as (_&_&He&_&_&Hst&Hf&Hd).
  destruct (mret_effect (trap s cause tval)) as (Hp&Hpc&Hst'&Hf'&Hd').
  rewrite Hp, Hpc, Hst', Hst, He. cbn.
  split_and!; [done|done|by eapply same_datapath_trans|done|].
  eapply csr_frame_trans; [done|]. eapply csr_frame_weaken; [|done].
  intros a ->%list_elem_of_singleton. csr_key.
Qed.

Example trap_mret_returns_witness :
  let s := set_priv (csr_write (init 128 32) CSR_MSTATUS 8) PRIV_U in
  priv_mode (mret (trap s 8 0)) = PRIV_U.
Proof.
  refine (proj1 (trap_mret_returns _ 8 0 _ _)); [|by vm_compute].
  apply wf_set_priv; [|done]. apply wf_csr_write, wf_init; [by left|done].
Defined.

(** A trap delegated to S followed by [sret] resumes the interrupted
    program (U or S), restoring SIE and leaving SPIE = 1, SPP = U. *)
Theorem trap_sret_returns s cause tval :
  trap_to_s s cause = true -> priv_mode s = PRIV_U \/ priv_mode s = PRIV_S ->
  let r := sret (trap s cause tval) in
  let st := status_of (csr_get s CSR_MSTATUS) in
  priv_mode r = priv_mode s /\ pc r = pc s /\ same_datapath s r /\
  status_of (csr_get r CSR_MSTATUS) =
    mkStatus (st_sie st) (st_mie st) true (st_mpie st) false (st_mpp st) /\
  csr_frame s_trap_csrs s r.
Proof.
  intros E Hpriv. cbn zeta.
  destruct (trap_S_effect s cause tval E) as (_&_&He&_&_&Hst&Hf&Hd).
  destruct (sret_effect (trap s cause tval)) as (Hp&Hpc&Hst'&Hf'&Hd').
  rewrite Hp, Hpc, Hst', Hst, He. cbn.
  split_and!; [by destruct Hpriv as [-> | ->]|done|by eapply same_datapath_trans|done|].
  eapply csr_frame_trans; [done|]. eapply csr_frame_weaken; [|done].
  intros a ->%list_elem_of_singleton. csr_key.
Qed.

Example trap_sret_returns_witness :
  let s := set_priv (csr_write (init 128 32) CSR_MEDELEG 256) PRIV_U in
  pc (sret (trap s 8 0)) = pc s.
Proof.
  exact (proj1 (proj2 (trap_sret_returns
    (set_priv (csr_write (init 128 32) CSR_MEDELEG 256) PRIV_U) 8 0
    ltac:(by vm_compute) (or_introl eq_refl)))).
Defined.
