(* ===== verification/Mmu.v ===== *)
(** * Address translation

    [_read_pte], [_pte_perm_ok], [translate], [_translate_sv32],
    [_read_pte64] and [_translate_sv39] of [sim/tools/iss.py], and the
    abstract radix page-table walk ([maps]) they implement.  A translation
    that faults traps inside the call and returns no address, so the
    functions return the (possibly absent) address with the new state. *)

From S2P Require Import Prelude Words Machine.

(** ** Definitions *)

Inductive access := fetch | load | store.

Definition PTE_V_BIT := 0.
Definition PTE_R_BIT := 1.
Definition PTE_W_BIT := 2.
Definition PTE_X_BIT := 3.
Definition PTE_U_BIT := 4.
Definition SATP_MODE_BIT := 31.
Definition SATP64_MODE_LO := 60.
Definition SATP_MODE_SV39 := 8.

Definition read_pte (s : ISS) (addr : Z) : Z :=
  let addr := addr .& 0xFFFFFFFF in
  load_mem_byte s addr .| (load_mem_byte s (addr + 1) << 8) .|
  (load_mem_byte s (addr + 2) << 16) .| (load_mem_byte s (addr + 3) << 24).

Definition pte_perm_ok (s : ISS) (pte : Z) (acc : access) : bool :=
  let access_bit :=
    match acc with fetch => PTE_X_BIT | store => PTE_W_BIT | load => PTE_R_BIT end in
  if negb (truthy ((pte >> access_bit) .& 1)) then false
  else
    let priv_is_u := priv_mode s =? PRIV_U in
    let pte_u := (pte >> PTE_U_BIT) .& 1 in
    if priv_is_u then truthy pte_u else negb (truthy pte_u).

Definition fault_cause (acc : access) : Z :=
  match acc with
  | fetch => MCAUSE_INSTRUCTION_PAGE_FAULT
  | load => MCAUSE_LOAD_PAGE_FAULT
  | store => MCAUSE_STORE_PAGE_FAULT
  end.

(** [fault()]: trap with the faulting virtual address, return [None]. *)
Definition page_fault (s : ISS) (acc : access) (vaddr : Z) : option Z * ISS :=
  (None, trap s (fault_cause acc) vaddr).

(** The three permission bits that make an entry a leaf. *)
Definition pte_leaf (pte : Z) : bool :=
  truthy ((pte >> PTE_R_BIT) .& 1) || truthy ((pte >> PTE_W_BIT) .& 1) ||
  truthy ((pte >> PTE_X_BIT) .& 1).

Definition translate_sv32 (s : ISS) (vaddr0 : Z) (acc : access) (satp : Z) : option Z * ISS :=
  let vaddr := u32 vaddr0 in
  let vpn1 := (vaddr >> 22) .& 0x3FF in
  let vpn0 := (vaddr >> 12) .& 0x3FF in
  let offset := vaddr .& 0xFFF in
  let satp_ppn20 := satp .& 0xFFFFF in
  let fault := page_fault s acc vaddr in
  let l1_addr := (satp_ppn20 << 12) .| (vpn1 << 2) in
  let pte1 := read_pte s l1_addr in
  if negb (truthy ((pte1 >> PTE_V_BIT) .& 1)) then fault
  else if pte_leaf pte1 then
    let ppn20 := (pte1 >> 10) .& 0xFFFFF in
    if truthy (ppn20 .& 0x3FF) then fault
    else if negb (pte_perm_ok s pte1 acc) then fault
    else
      let result_ppn20 := ((ppn20 >> 10) << 10) .| vpn0 in
      (Some (u32 ((result_ppn20 << 12) .| offset)), s)
  else
    let l0_addr := (((pte1 >> 10) .& 0xFFFFF) << 12) .| (vpn0 << 2) in
    let pte0 := read_pte s l0_addr in
    if negb (truthy ((pte0 >> PTE_V_BIT) .& 1)) then fault
    else if negb (pte_leaf pte0) then fault
    else if negb (pte_perm_ok s pte0 acc) then fault
    else
      let ppn20 := (pte0 >> 10) .& 0xFFFFF in
      (Some (u32 ((ppn20 << 12) .| offset)), s).

Definition read_pte64 (s : ISS) (addr : Z) : Z :=
  let addr := addr .& 0xFFFFFFFF in
  fold_left (fun val i => val .| (load_mem_byte s (addr + i) << (8 * i))) (range 8) 0.

Definition translate_sv39 (s : ISS) (vaddr : Z) (acc : access) (satp : Z) : option Z * ISS :=
  let vpn2 := (vaddr >> 30) .& 0x1FF in
  let vpn1 := (vaddr >> 21) .& 0x1FF in
  let vpn0 := (vaddr >> 12) .& 0x1FF in
  let offset := vaddr .& 0xFFF in
  let satp_ppn20 := satp .& 0xFFFFF in
  let fault := page_fault s acc vaddr in
  let l2_addr := (satp_ppn20 << 12) .| (vpn2 << 3) in
  let pte2 := read_pte64 s l2_addr in
  if negb (truthy ((pte2 >> PTE_V_BIT) .& 1)) then fault
  else if pte_leaf pte2 then
    let pte_ppn20 := (pte2 >> 10) .& 0xFFFFF in
    if truthy (pte_ppn20 .& 0x3FFFF) then fault
    else if negb (pte_perm_ok s pte2 acc) then fault
    else
      let result_ppn20 := ((pte_ppn20 >> 18) << 18) .| (vpn1 << 9) .| vpn0 in
      (Some (uxlen s ((result_ppn20 << 12) .| offset)), s)
  else
    let l1_addr := (((pte2 >> 10) .& 0xFFFFF) << 12) .| (vpn1 << 3) in
    let pte1 := read_pte64 s l1_addr in
    if negb (truthy ((pte1 >> PTE_V_BIT) .& 1)) then fault
    else if pte_leaf pte1 then
      let pte_ppn20 := (pte1 >> 10) .& 0xFFFFF in
      if truthy (pte_ppn20 .& 0x1FF) then fault
      else if negb (pte_perm_ok s pte1 acc) then fault
      else
        let result_ppn20 := ((pte_ppn20 >> 9) << 9) .| vpn0 in
        (Some (uxlen s ((result_ppn20 << 12) .| offset)), s)
    else
      let l0_addr := (((pte1 >> 10) .& 0xFFFFF) << 12) .| (vpn0 << 3) in
      let pte0 := read_pte64 s l0_addr in
      if negb (truthy ((pte0 >> PTE_V_BIT) .& 1)) then fault
      else if negb (pte_leaf pte0) then fault
      else if negb (pte_perm_ok s pte0 acc) then fault
      else
        let ppn20 := (pte0 >> 10) .& 0xFFFFF in
        (Some (uxlen s ((ppn20 << 12) .| offset)), s).

Definition translate (s : ISS) (vaddr : Z) (acc : access) : option Z * ISS :=
  let satp := csr_get s CSR_SATP in
  if priv_mode s =? PRIV_M then (Some (uxlen s vaddr), s)
  else if xlen s =? 32 then
    if negb (truthy ((satp >> SATP_MODE_BIT) .& 1)) then (Some (uxlen s vaddr), s)
    else translate_sv32 s vaddr acc satp
  else
    if negb (((satp >> SATP64_MODE_LO) .& 0xF) =? SATP_MODE_SV39) then (Some (uxlen s vaddr), s)
    else translate_sv39 s vaddr acc satp.

(** ** The abstract page-table walk

    A radix tree of depth [lvl + 1]: [vb] virtual-page-number bits per level,
    [pte_at table index] reads an entry, [perm] decides the access. *)
Section Walk.
Context (vb : Z) (pte_at : Z -> Z -> Z) (perm : Z -> bool) (va : Z).

Definition vpn (lvl : nat) : Z := (va `div` 2 ^ (12 + vb * Z.of_nat lvl)) `mod` 2 ^ vb.
Definition pte_valid (pte : Z) : bool := Z.testbit pte 0.
Definition pte_is_leaf (pte : Z) : bool :=
  Z.testbit pte 1 || Z.testbit pte 2 || Z.testbit pte 3.
Definition pte_ppn (pte : Z) : Z := (pte `div` 2 ^ 10) `mod` 2 ^ 20.
(** Bits of the virtual address a leaf at level [lvl] passes through. *)
Definition span (lvl : nat) : Z := 12 + vb * Z.of_nat lvl.

Inductive maps : nat -> Z -> Z -> Prop :=
| maps_leaf lvl table pte :
    pte = pte_at table (vpn lvl) -> pte_valid pte = true -> pte_is_leaf pte = true ->
    pte_ppn pte `mod` 2 ^ (vb * Z.of_nat lvl) = 0 -> perm pte = true ->
    maps lvl table (pte_ppn pte * 2 ^ 12 + va `mod` 2 ^ span lvl)
| maps_next lvl table pte pa :
    pte = pte_at table (vpn (S lvl)) -> pte_valid pte = true -> pte_is_leaf pte = false ->
    maps lvl (pte_ppn pte) pa -> maps (S lvl) table pa.

(** Its executable form. *)
Fixpoint walk (lvl : nat) (table : Z) : option Z :=
  let pte := pte_at table (vpn lvl) in
  if negb (pte_valid pte) then None
  else if pte_is_leaf pte then
    if negb (pte_ppn pte `mod` 2 ^ (vb * Z.of_nat lvl) =? 0) then None
    else if negb (perm pte) then None
    else Some (pte_ppn pte * 2 ^ 12 + va `mod` 2 ^ span lvl)
  else match lvl with O => None | S lvl' => walk lvl' (pte_ppn pte) end.

Ltac walk_refute := split; [done|intros Hm; inversion Hm; subst; congruence].
Ltac walk_leaf :=
  match goal with |- context [Z.eqb ?x 0] => destruct (Z.eqb_spec x 0) end; cbn [negb];
  [destruct (perm _) eqn:?; cbn [negb];
    [split; [intros [= <-]; by eapply maps_leaf
            |intros Hm; inversion Hm; subst; first [done|congruence]]
    |walk_refute]
  |walk_refute].

Lemma walk_maps lvl table pa : walk lvl table = Some pa <-> maps lvl table pa.
Proof.
  revert table. induction lvl as [|lvl IH]; intros table; cbn [walk].
  - remember (pte_at table _) as pte eqn:Epte.
    destruct (pte_valid pte) eqn:Ev; cbn [negb]; [|walk_refute].
    destruct (pte_is_leaf pte) eqn:El; [walk_leaf|walk_refute].
  - remember (pte_at table _) as pte eqn:Epte.
    destruct (pte_valid pte) eqn:Ev; cbn [negb]; [|walk_refute].
    destruct (pte_is_leaf pte) eqn:El; [walk_leaf|].
    rewrite IH. split; [intros; by eapply maps_next|].
    intros H; inversion H; subst; [congruence|done].
Qed.
End Walk.

(** The two instances: 4-byte entries and 10-bit indices (Sv32), 8-byte
    entries and 9-bit indices (Sv39). *)
Definition sv32_pte (s : ISS) (table idx : Z) : Z := read_pte s (table * 2 ^ 12 + idx * 4).
Definition sv39_pte (s : ISS) (table idx : Z) : Z := read_pte64 s (table * 2 ^ 12 + idx * 8).
Definition sv32_walk (s : ISS) (acc : access) (satp va : Z) : option Z :=
  walk 10 (sv32_pte s) (fun pte => pte_perm_ok s pte acc) va 1 (satp `mod` 2 ^ 20).
Definition sv39_walk (s : ISS) (acc : access) (satp va : Z) : option Z :=
  walk 9 (sv39_pte s) (fun pte => pte_perm_ok s pte acc) va 2 (satp `mod` 2 ^ 20).

(** ** Lemmas *)

Lemma truthy_bit_at x i : 0 <= i -> truthy ((x >> i) .& 1) = Z.testbit x i.
Proof. intros. by rewrite bit_b2z, truthy_b2z. Qed.

Lemma pte_leaf_bits pte : pte_leaf pte = pte_is_leaf pte.
Proof. unfold pte_leaf. by rewrite !truthy_bit_at. Qed.

Lemma pte_valid_bit pte : truthy ((pte >> PTE_V_BIT) .& 1) = pte_valid pte.
Proof. by apply truthy_bit_at. Qed.

Lemma pte_ppn_field pte : (pte >> 10) .& 0xFFFFF = pte_ppn pte.
Proof. unfold pte_ppn. fold_masks. by rewrite Z.shiftr_div_pow2. Qed.

Lemma pte_ppn_range pte : 0 <= pte_ppn pte < 2 ^ 20.
Proof. by apply Z.mod_pos_bound. Qed.

Lemma field_div_mod va lo n m : 0 <= lo -> m = Z.ones n -> 0 <= n ->
  (va >> lo) .& m = (va `div` 2 ^ lo) `mod` 2 ^ n.
Proof. intros ? -> ?. rewrite land_mask, Z.shiftr_div_pow2 by lia. done. Qed.

Lemma truthy_mod x n m : m = Z.ones n -> 0 <= n -> truthy (x .& m) = negb (x `mod` 2 ^ n =? 0).
Proof. intros -> ?. unfold truthy. by rewrite land_mask. Qed.

(** A table base and a scaled index never overlap. *)
Lemma entry_addr table idx n k :
  0 <= k -> 0 <= n -> n + k <= 12 -> 0 <= idx < 2 ^ n ->
  (table << 12) .| (idx << k) = table * 2 ^ 12 + idx * 2 ^ k.
Proof.
  intros Hk Hn Hle Hi. rewrite lor_low_add; [by rewrite Z.shiftl_mul_pow2|done|].
  rewrite Z.shiftl_mul_pow2 by done.
  assert (2 ^ n * 2 ^ k <= 2 ^ 12) by (rewrite <- Z.pow_add_r by done; apply Z.pow_le_mono_r; lia).
  pose proof (pow2_pos k Hk). nia.
Qed.

Lemma mod_split va lo n :
  0 <= lo -> 0 <= n ->
  va `mod` 2 ^ (lo + n) = ((va `div` 2 ^ lo) `mod` 2 ^ n) * 2 ^ lo + va `mod` 2 ^ lo.
Proof.
  intros. rewrite Z.pow_add_r by lia.
  rewrite Z.rem_mul_r by (pose proof (pow2_pos lo); pose proof (pow2_pos n); lia). lia.
Qed.

(** A frame number followed by the page offset. *)
Lemma frame_offset ppn off : 0 <= off < 2 ^ 12 -> (ppn << 12) .| off = ppn * 2 ^ 12 + off.
Proof. intros. by apply lor_low_add. Qed.

Lemma aligned_shift ppn n : 0 <= n -> ppn `mod` 2 ^ n = 0 -> (ppn >> n) << n = ppn.
Proof.
  intros Hn Ha. rewrite Z.shiftr_div_pow2, Z.shiftl_mul_pow2 by done.
  pose proof (Z.div_mod ppn (2 ^ n) ltac:(pose proof (pow2_pos n); lia)). lia.
Qed.

(** Superpage frames: the aligned frame number with the passed-through
    page-number bits filled in. *)
Lemma super_frame ppn n mid va :
  0 <= n -> ppn `mod` 2 ^ n = 0 -> mid = (va `div` 2 ^ 12) `mod` 2 ^ n ->
  ((((ppn >> n) << n) .| mid) << 12) .| (va .& 0xFFF) = ppn * 2 ^ 12 + va `mod` 2 ^ (12 + n).
Proof.
  intros Hn Ha ->. fold_masks.
  pose proof (Z.mod_pos_bound va (2 ^ 12) ltac:(lia)).
  pose proof (Z.mod_pos_bound (va `div` 2 ^ 12) (2 ^ n) ltac:(by apply pow2_pos)).
  pose proof (aligned_shift ppn n Hn Ha) as Hs. rewrite Z.shiftl_mul_pow2 in Hs by done.
  rewrite frame_offset, lor_low_add, Hs, mod_split by lia. lia.
Qed.

Lemma page_frame ppn va : (ppn << 12) .| (va .& 0xFFF) = ppn * 2 ^ 12 + va `mod` 2 ^ 12.
Proof. fold_masks. apply frame_offset. by apply Z.mod_pos_bound. Qed.

Lemma mapped_range ppn va n :
  0 <= n <= 20 -> 0 <= ppn < 2 ^ 20 -> ppn `mod` 2 ^ n = 0 ->
  0 <= ppn * 2 ^ 12 + va `mod` 2 ^ (12 + n) < 2 ^ 32.
Proof.
  intros Hn Hp Ha. pose proof (Z.mod_pos_bound va (2 ^ (12 + n)) ltac:(apply pow2_pos; lia)).
  rewrite Z.pow_add_r in * by lia. pose proof (pow2_pos n ltac:(lia)).
  pose proof (Z.div_mod ppn (2 ^ n) ltac:(lia)) as Hd. rewrite Ha in Hd.
  assert (2 ^ 20 = 2 ^ n * 2 ^ (20 - n)) as E by (rewrite <- Z.pow_add_r by lia; f_equal; lia).
  assert (ppn `div` 2 ^ n < 2 ^ (20 - n)) by nia.
  assert (2 ^ 32 = 2 ^ 20 * 2 ^ 12) by done. nia.
Qed.

Lemma vpn_range vb va lvl : 0 <= vb -> 0 <= vpn vb va lvl < 2 ^ vb.
Proof. intros. apply Z.mod_pos_bound, pow2_pos; lia. Qed.

(** The page-number fields and entry addresses of the two walkers. *)
Lemma sv32_vpn va lvl lo :
  lo = 12 + 10 * Z.of_nat lvl -> (va >> lo) .& 0x3FF = vpn 10 va lvl.
Proof. intros ->. apply field_div_mod; [lia|done|lia]. Qed.

Lemma sv39_vpn va lvl lo :
  lo = 12 + 9 * Z.of_nat lvl -> (va >> lo) .& 0x1FF = vpn 9 va lvl.
Proof. intros ->. apply field_div_mod; [lia|done|lia]. Qed.

Lemma sv32_entry s table va lvl :
  read_pte s ((table << 12) .| (vpn 10 va lvl << 2)) = sv32_pte s table (vpn 10 va lvl).
Proof. unfold sv32_pte. rewrite (entry_addr _ _ 10) by (try apply vpn_range; lia). done. Qed.

Lemma sv39_entry s table va lvl :
  read_pte64 s ((table << 12) .| (vpn 9 va lvl << 3)) = sv39_pte s table (vpn 9 va lvl).
Proof. unfold sv39_pte. rewrite (entry_addr _ _ 9) by (try apply vpn_range; lia). done. Qed.

Lemma satp_ppn_field satp : satp .& 0xFFFFF = satp `mod` 2 ^ 20.
Proof. by fold_masks. Qed.

Lemma super_result ppn n mid va :
  0 <= n <= 20 -> 0 <= ppn < 2 ^ 20 -> ppn `mod` 2 ^ n = 0 -> mid = (va `div` 2 ^ 12) `mod` 2 ^ n ->
  u32 ((((((ppn >> n) << n) .| mid) << 12) .| (va .& 0xFFF))) =
  ppn * 2 ^ 12 + va `mod` 2 ^ (12 + n).
Proof.
  intros. rewrite super_frame by (done || lia). apply u32_small. by apply mapped_range.
Qed.

Lemma page_result ppn va :
  0 <= ppn < 2 ^ 20 -> u32 ((ppn << 12) .| (va .& 0xFFF)) = ppn * 2 ^ 12 + va `mod` 2 ^ 12.
Proof.
  intros. rewrite page_frame. apply u32_small.
  apply (mapped_range _ _ 0); [lia|done|apply Z.mod_1_r].
Qed.

(** The outcome of an abstract walk as [translate] reports it. *)
Definition walk_outcome (s : ISS) (acc : access) (va : Z) (r : option Z) : option Z * ISS :=
  match r with Some pa => (Some pa, s) | None => page_fault s acc va end.

Ltac walk_case :=
  match goal with
  | |- context [negb ?b] => destruct b eqn:?; cbn [negb walk_outcome]; try reflexivity
  end.

Lemma translate_sv32_walk s va0 acc satp :
  translate_sv32 s va0 acc satp =
  walk_outcome s acc (u32 va0) (sv32_walk s acc satp (u32 va0)).
Proof.
  unfold translate_sv32, sv32_walk. set (va := u32 va0). cbn [walk].
  rewrite (sv32_vpn va 1 22), (sv32_vpn va 0 12) by done.
  rewrite satp_ppn_field, sv32_entry. set (pte1 := sv32_pte s _ (vpn 10 va 1)).
  rewrite pte_valid_bit, pte_leaf_bits, !pte_ppn_field, sv32_entry.
  set (pte0 := sv32_pte s _ (vpn 10 va 0)).
  rewrite pte_valid_bit, pte_leaf_bits, (truthy_mod _ 10) by done.
  pose proof (pte_ppn_range pte1). pose proof (pte_ppn_range pte0).
  walk_case. destruct (pte_is_leaf pte1).
  - change (10 * Z.of_nat 1) with 10. destruct (Z.eqb_spec (pte_ppn pte1 `mod` 2 ^ 10) 0); [|done].
    cbn [negb]. walk_case. by rewrite super_result by (done || lia).
  - walk_case. destruct (pte_is_leaf pte0); cbn [negb]; [|done].
    change (10 * Z.of_nat 0) with 0. rewrite Z.mod_1_r. cbn [Z.eqb negb].
    walk_case. by rewrite page_result.
Qed.

Lemma uxlen_small s v : 0 <= v < 2 ^ 32 -> 32 <= xlen s -> uxlen s v = v.
Proof.
  intros Hv Hx. unfold uxlen. rewrite uXLEN_wrap by lia. apply wrap_small.
  pose proof (Z.pow_le_mono_r 2 32 (xlen s)). lia.
Qed.

Lemma super_result39 s ppn n mid va :
  32 <= xlen s ->
  0 <= n <= 20 -> 0 <= ppn < 2 ^ 20 -> ppn `mod` 2 ^ n = 0 -> mid = (va `div` 2 ^ 12) `mod` 2 ^ n ->
  uxlen s ((((((ppn >> n) << n) .| mid) << 12) .| (va .& 0xFFF))) =
  ppn * 2 ^ 12 + va `mod` 2 ^ (12 + n).
Proof.
  intros. rewrite super_frame by (done || lia). apply uxlen_small; [by apply mapped_range|done].
Qed.

Lemma page_result39 s ppn va :
  32 <= xlen s -> 0 <= ppn < 2 ^ 20 ->
  uxlen s ((ppn << 12) .| (va .& 0xFFF)) = ppn * 2 ^ 12 + va `mod` 2 ^ 12.
Proof.
  intros. rewrite page_frame. apply uxlen_small; [|done].
  apply (mapped_range _ _ 0); [lia|done|apply Z.mod_1_r].
Qed.

(** Two adjacent page-number fields read as one. *)
Lemma two_vpns va :
  (vpn 9 va 1 << 9) .| vpn 9 va 0 = (va `div` 2 ^ 12) `mod` 2 ^ 18.
Proof.
  rewrite lor_low_add by (try apply vpn_range; lia). unfold vpn.
  change (12 + 9 * Z.of_nat 1) with (12 + 9). change (12 + 9 * Z.of_nat 0) with 12.
  rewrite (Z.pow_add_r 2 12 9), <- Z.div_div by lia.
  change (2 ^ 18) with (2 ^ (9 + 9)). rewrite (mod_split (va `div` 2 ^ 12)) by lia. done.
Qed.

Lemma translate_sv39_walk s va acc satp :
  32 <= xlen s ->
  translate_sv39 s va acc satp = walk_outcome s acc va (sv39_walk s acc satp va).
Proof.
  intros Hx. unfold translate_sv39, sv39_walk. cbn [walk].
  rewrite (sv39_vpn va 2 30), (sv39_vpn va 1 21), (sv39_vpn va 0 12) by done.
  rewrite satp_ppn_field, sv39_entry. set (pte2 := sv39_pte s _ (vpn 9 va 2)).
  rewrite pte_valid_bit, pte_leaf_bits, !pte_ppn_field, sv39_entry.
  set (pte1 := sv39_pte s _ (vpn 9 va 1)).
  rewrite pte_valid_bit, pte_leaf_bits, (truthy_mod _ 18), (truthy_mod _ 9), sv39_entry by done.
  set (pte0 := sv39_pte s _ (vpn 9 va 0)).
  rewrite pte_valid_bit, pte_leaf_bits.
  pose proof (pte_ppn_range pte2). pose proof (pte_ppn_range pte1).
  pose proof (pte_ppn_range pte0).
  walk_case. destruct (pte_is_leaf pte2).
  - change (9 * Z.of_nat 2) with 18. destruct (Z.eqb_spec (pte_ppn pte2 `mod` 2 ^ 18) 0); [|done].
    cbn [negb]. walk_case.
    rewrite <- Z.lor_assoc, two_vpns. by rewrite super_result39 by (done || lia).
  - walk_case. destruct (pte_is_leaf pte1).
    + change (9 * Z.of_nat 1) with 9. destruct (Z.eqb_spec (pte_ppn pte1 `mod` 2 ^ 9) 0); [|done].
      cbn [negb]. walk_case. by rewrite super_result39 by (done || lia).
    + walk_case. destruct (pte_is_leaf pte0); cbn [negb]; [|done].
      change (9 * Z.of_nat 0) with 0. rewrite Z.mod_1_r. cbn [Z.eqb negb].
      walk_case. by rewrite page_result39.
Qed.

(** Whether [translate] walks a page table at all. *)
Definition paging (s : ISS) : bool :=
  negb (priv_mode s =? PRIV_M) &&
  (if xlen s =? 32 then Z.testbit (csr_get s CSR_SATP) SATP_MODE_BIT
   else ((csr_get s CSR_SATP >> SATP64_MODE_LO) .& 0xF) =? SATP_MODE_SV39).

Lemma translate_bare s va acc : paging s = false -> translate s va acc = (Some (uxlen s va), s).
Proof.
  unfold paging, translate. rewrite truthy_bit_at by done.
  destruct (priv_mode s =? PRIV_M); cbn [negb andb]; [done|].
  destruct (xlen s =? 32); intros ->; done.
Qed.

Lemma translate_paged s va acc :
  wf s -> paging s = true ->
  translate s va acc =
  if xlen s =? 32
  then walk_outcome s acc (u32 va) (sv32_walk s acc (csr_get s CSR_SATP) (u32 va))
  else walk_outcome s acc va (sv39_walk s acc (csr_get s CSR_SATP) va).
Proof.
  intros Hs. unfold paging, translate. rewrite truthy_bit_at by done.
  destruct (priv_mode s =? PRIV_M); cbn [negb andb]; [done|].
  destruct (Z.eqb_spec (xlen s) 32); intros ->; cbn [negb].
  - apply translate_sv32_walk.
  - apply translate_sv39_walk. destruct (wf_xlen s Hs); lia.
Qed.

(** A translation either leaves the state alone or is the page-fault trap. *)
Lemma translate_cases s va acc r s' :
  wf s -> translate s va acc = (r, s') ->
  (exists pa, r = Some pa /\ s' = s /\ 0 <= pa) \/
  (exists tval, r = None /\ s' = trap s (fault_cause acc) tval).
Proof.
  intros Hs. pose proof (wf_width s Hs).
  assert (Hw : forall va' vb pte perm lvl t,
    0 <= vb -> walk_outcome s acc va' (walk vb pte perm va' lvl t) = (r, s') ->
    (exists pa, r = Some pa /\ s' = s /\ 0 <= pa) \/
    (exists tval, r = None /\ s' = trap s (fault_cause acc) tval)).
  { intros va' vb pte perm lvl t Hvb. destruct (walk vb pte perm va' lvl t) as [pa|] eqn:E; cbn;
      intros [= <- <-]; [left|right; eauto].
    exists pa; split_and!; [done..|]. apply walk_maps in E. clear -E Hvb.
    induction E as [lvl0 table pte0| ]; [|done].
    pose proof (pte_ppn_range pte0). unfold span.
    pose proof (Z.mod_pos_bound va' (2 ^ (12 + vb * Z.of_nat lvl0)) ltac:(apply pow2_pos; lia)). lia. }
  destruct (paging s) eqn:E.
  - rewrite translate_paged by done. case_match; by apply Hw.
  - rewrite translate_bare by done. intros [= <- <-]. left. exists (uxlen s va).
    split_and!; [done..|]. unfold uxlen. rewrite uXLEN_wrap by lia. apply wrap_range; lia.
Qed.

Lemma wf_translate s va acc r s' : wf s -> translate s va acc = (r, s') -> wf s'.
Proof.
  intros Hs H. apply translate_cases in H as [(pa & _ & -> & _)|(t & _ & ->)]; auto using wf_trap.
Qed.

(** The permission rule in terms of PTE bits: the access's own bit is set,
    and the U bit agrees with the privilege (S never reaches a user page,
    U never a supervisor page; there is no SUM or MXR). *)
Definition perm_spec (priv : Z) (acc : access) (pte : Z) : bool :=
  Z.testbit pte (match acc with fetch => 3 | store => 2 | load => 1 end) &&
  Bool.eqb (Z.testbit pte 4) (priv =? PRIV_U).

Lemma pte_perm_ok_spec s pte acc : pte_perm_ok s pte acc = perm_spec (priv_mode s) acc pte.
Proof.
  unfold pte_perm_ok, perm_spec.
  rewrite !truthy_bit_at by (by destruct acc).
  replace (match acc with fetch => PTE_X_BIT | load => PTE_R_BIT | store => PTE_W_BIT end)
    with (match acc with fetch => 3 | load => 1 | store => 2 end) by done.
  destruct (Z.testbit pte _); cbn [negb andb]; [|done].
  change PTE_U_BIT with 4. by destruct (Z.testbit pte 4), (priv_mode s =? PRIV_U).
Qed.

Lemma maps_perm_ext vb pte_at p q va lvl table pa :
  (forall x, p x = q x) -> maps vb pte_at p va lvl table pa -> maps vb pte_at q va lvl table pa.
Proof.
  intros E. induction 1; [eapply maps_leaf|eapply maps_next]; try done. by rewrite <- E.
Qed.

Lemma walk_outcome_maps s acc va vb pte_at lvl table :
  let spec := maps vb pte_at (perm_spec (priv_mode s) acc) va lvl table in
  let res := walk_outcome s acc va
               (walk vb pte_at (fun pte => pte_perm_ok s pte acc) va lvl table) in
  (forall pa, res = (Some pa, s) <-> spec pa) /\
  ((forall pa, ~ spec pa) -> res = (None, trap s (fault_cause acc) va)).
Proof.
  cbn zeta. destruct (walk _ _ _ _ _ _) as [pa|] eqn:E; cbn.
  - split.
    + intros pa'. split.
      * intros [= <-]. apply walk_maps in E. eapply maps_perm_ext; [|done].
        intros x; apply pte_perm_ok_spec.
      * intros H. f_equal. f_equal.
        apply (maps_perm_ext _ _ _ (fun pte => pte_perm_ok s pte acc)) in H;
          [|intros; symmetry; apply pte_perm_ok_spec].
        apply walk_maps in H. congruence.
    + intros H. exfalso. apply (H pa). apply walk_maps in E.
      eapply maps_perm_ext; [|done]. intros x; apply pte_perm_ok_spec.
  - split; [|done]. intros pa. split; [done|]. intros H. exfalso.
    apply (maps_perm_ext _ _ _ (fun pte => pte_perm_ok s pte acc)) in H;
      [|intros; symmetry; apply pte_perm_ok_spec].
    apply walk_maps in H. congruence.
Qed.

(** ** Properties *)

(** [C11] Sv32 translation refines the abstract page-table walk: in S or U
    mode with satp.MODE set, [translate] returns a physical address exactly
    when the two-level radix tree rooted at satp.PPN maps the 32-bit virtual
    address to it (valid entries, an aligned leaf, the access's permission
    bit, and the U bit matching the privilege), leaving the state alone; when
    nothing is mapped it takes the page-fault trap of that access. *)
Theorem translate_sv32_refines_walk s va acc :
  wf s -> paging s = true -> xlen s = 32 ->
  let spec := maps 10 (sv32_pte s) (perm_spec (priv_mode s) acc) (u32 va) 1
                   (csr_get s CSR_SATP `mod` 2 ^ 20) in
  (forall pa, translate s va acc = (Some pa, s) <-> spec pa) /\
  ((forall pa, ~ spec pa) -> translate s va acc = (None, trap s (fault_cause acc) (u32 va))).
Proof.
  intros Hs Hp Hx. cbn zeta. rewrite translate_paged, Hx by done. cbn [Z.eqb Pos.eqb].
  apply walk_outcome_maps.
Qed.

(** A machine whose page table identity-maps its first page: the level-1
    entry at 0 points to the level-0 table at 0x1000 = 0 modulo the mask. *)
Definition demo_sv32 : ISS :=
  let s := store_n (init 8192 32) 0 0x401 4 in
  let s := store_n s 0x1000 0x1F 4 in
  set_priv (csr_write s CSR_SATP 0x80000000) PRIV_U.

Lemma wf_demo_sv32 : wf demo_sv32.
Proof.
  apply wf_set_priv; [|done]. apply wf_csr_write. do 2 apply wf_store_n.
  apply wf_init; [by left|done].
Qed.

Example translate_sv32_refines_walk_witness :
  maps 10 (sv32_pte demo_sv32) (perm_spec PRIV_U load) 0x123 1 0 0x123.
Proof.
  refine (proj1 (proj1 (translate_sv32_refines_walk demo_sv32 0x123 load
    wf_demo_sv32 _ _) 0x123) _); [by vm_compute..|].
  assert (H : fst (translate demo_sv32 0x123 load) = Some 0x123) by (by vm_compute).
  destruct (translate demo_sv32 0x123 load) as [r s'] eqn:E. cbn in H.
  destruct (translate_cases _ _ _ _ _ wf_demo_sv32 E) as [(pa & -> & -> & _)|(t & -> & _)];
    [by injection H as ->|done].
Defined.

(** The Sv39 walker refines the same abstract walk with three levels,
    9-bit indices and 8-byte entries, including gigapage and megapage
    leaves; unlike Sv32 the faulting address it reports is the unmasked one. *)
Theorem translate_sv39_refines_walk s va acc satp :
  32 <= xlen s ->
  let spec := maps 9 (sv39_pte s) (perm_spec (priv_mode s) acc) va 2 (satp `mod` 2 ^ 20) in
  (forall pa, translate_sv39 s va acc satp = (Some pa, s) <-> spec pa) /\
  ((forall pa, ~ spec pa) -> translate_sv39 s va acc satp = (None, trap s (fault_cause acc) va)).
Proof.
  intros Hx. cbn zeta. rewrite translate_sv39_walk by done. apply walk_outcome_maps.
Qed.

Example translate_sv39_refines_walk_witness :
  let s := init 128 64 in
  translate_sv39 s 0 load 0 = (None, trap s MCAUSE_LOAD_PAGE_FAULT 0).
Proof.
  refine (proj2 (translate_sv39_refines_walk (init 128 64) 0 load 0 _) _); [done|].
  intros pa H%walk_maps. vm_compute in H. discriminate.
Defined.

Lemma rv64_not_paging s : wf s -> xlen s = 64 -> paging s = false.
Proof.
  intros Hs Hx. unfold paging. rewrite Hx.
  destruct (csr_legal_low32 s CSR_SATP Hs) as [H0 H1]; [csr_key|done..|].
  rewrite Z.shiftr_div_pow2, Z.div_small by (unfold SATP64_MODE_LO; lia).
  by rewrite andb_false_r.
Qed.

(** What a translation reads of the machine: two states that agree on it
    translate every address alike, faults included. *)
Lemma translate_agrees s t va acc :
  xlen t = xlen s -> priv_mode t = priv_mode s -> csr_get t CSR_SATP = csr_get s CSR_SATP ->
  mem t = mem s -> mem_mask t = mem_mask s -> fst (translate t va acc) = fst (translate s va acc).
Proof.
  intros Hx Hp Hs Hm Hk.
  assert (Hb : forall a, load_mem_byte t a = load_mem_byte s a) by (intros a; unfold load_mem_byte; by rewrite Hm, Hk).
  assert (Hr : forall a, read_pte t a = read_pte s a) by (intros a; unfold read_pte; cbv zeta; by rewrite !Hb).
  assert (Hr64 : forall a, read_pte64 t a = read_pte64 s a) by (intros a; unfold read_pte64; cbv zeta; change (range 8) with [0; 1; 2; 3; 4; 5; 6; 7]; cbn [fold_left]; by rewrite !Hb).
  assert (Ho : forall pte, pte_perm_ok t pte acc = pte_perm_ok s pte acc) by (intros pte; unfold pte_perm_ok; by rewrite Hp).
  assert (Hu : forall v, uxlen t v = uxlen s v) by (intros v; unfold uxlen; by rewrite Hx).
  unfold translate, translate_sv32, translate_sv39. cbv zeta.
  rewrite Hs, Hp, Hx, ?Hr, ?Hr64, ?Ho, ?Hu. by repeat case_match.
Qed.

(** A translation that gives no address has trapped. *)
Lemma translate_fault s va acc s' : translate s va acc = (None, s') ->
  exists tval, s' = trap s (fault_cause acc) tval.
Proof.
  unfold translate, translate_sv32, translate_sv39, page_fault. cbv zeta.
  repeat (case_match; [|]); intros [= <-]; by eexists.
Qed.
