(* ===== verification/Crypto.v ===== *)
(** * Scalar cryptography

    The AES, SHA-2 and bit-reversal support functions of
    [sim/tools/iss.py] (Zkne, Zknd, Zknh and [brev8] of Zbkb), with the
    algebra that relates encryption to decryption. *)

From S2P Require Import Prelude Words PyStr.

(** ** Definitions: AES *)

Definition AES_SBOX_FWD : list Z := [
    0x63; 0x7c; 0x77; 0x7b; 0xf2; 0x6b; 0x6f; 0xc5; 0x30; 0x01; 0x67; 0x2b; 0xfe; 0xd7; 0xab; 0x76;
    0xca; 0x82; 0xc9; 0x7d; 0xfa; 0x59; 0x47; 0xf0; 0xad; 0xd4; 0xa2; 0xaf; 0x9c; 0xa4; 0x72; 0xc0;
    0xb7; 0xfd; 0x93; 0x26; 0x36; 0x3f; 0xf7; 0xcc; 0x34; 0xa5; 0xe5; 0xf1; 0x71; 0xd8; 0x31; 0x15;
    0x04; 0xc7; 0x23; 0xc3; 0x18; 0x96; 0x05; 0x9a; 0x07; 0x12; 0x80; 0xe2; 0xeb; 0x27; 0xb2; 0x75;
    0x09; 0x83; 0x2c; 0x1a; 0x1b; 0x6e; 0x5a; 0xa0; 0x52; 0x3b; 0xd6; 0xb3; 0x29; 0xe3; 0x2f; 0x84;
    0x53; 0xd1; 0x00; 0xed; 0x20; 0xfc; 0xb1; 0x5b; 0x6a; 0xcb; 0xbe; 0x39; 0x4a; 0x4c; 0x58; 0xcf;
    0xd0; 0xef; 0xaa; 0xfb; 0x43; 0x4d; 0x33; 0x85; 0x45; 0xf9; 0x02; 0x7f; 0x50; 0x3c; 0x9f; 0xa8;
    0x51; 0xa3; 0x40; 0x8f; 0x92; 0x9d; 0x38; 0xf5; 0xbc; 0xb6; 0xda; 0x21; 0x10; 0xff; 0xf3; 0xd2;
    0xcd; 0x0c; 0x13; 0xec; 0x5f; 0x97; 0x44; 0x17; 0xc4; 0xa7; 0x7e; 0x3d; 0x64; 0x5d; 0x19; 0x73;
    0x60; 0x81; 0x4f; 0xdc; 0x22; 0x2a; 0x90; 0x88; 0x46; 0xee; 0xb8; 0x14; 0xde; 0x5e; 0x0b; 0xdb;
    0xe0; 0x32; 0x3a; 0x0a; 0x49; 0x06; 0x24; 0x5c; 0xc2; 0xd3; 0xac; 0x62; 0x91; 0x95; 0xe4; 0x79;
    0xe7; 0xc8; 0x37; 0x6d; 0x8d; 0xd5; 0x4e; 0xa9; 0x6c; 0x56; 0xf4; 0xea; 0x65; 0x7a; 0xae; 0x08;
    0xba; 0x78; 0x25; 0x2e; 0x1c; 0xa6; 0xb4; 0xc6; 0xe8; 0xdd; 0x74; 0x1f; 0x4b; 0xbd; 0x8b; 0x8a;
    0x70; 0x3e; 0xb5; 0x66; 0x48; 0x03; 0xf6; 0x0e; 0x61; 0x35; 0x57; 0xb9; 0x86; 0xc1; 0x1d; 0x9e;
    0xe1; 0xf8; 0x98; 0x11; 0x69; 0xd9; 0x8e; 0x94; 0x9b; 0x1e; 0x87; 0xe9; 0xce; 0x55; 0x28; 0xdf;
    0x8c; 0xa1; 0x89; 0x0d; 0xbf; 0xe6; 0x42; 0x68; 0x41; 0x99; 0x2d; 0x0f; 0xb0; 0x54; 0xbb; 0x16 ].

Definition AES_SBOX_INV : list Z := [
    0x52; 0x09; 0x6a; 0xd5; 0x30; 0x36; 0xa5; 0x38; 0xbf; 0x40; 0xa3; 0x9e; 0x81; 0xf3; 0xd7; 0xfb;
    0x7c; 0xe3; 0x39; 0x82; 0x9b; 0x2f; 0xff; 0x87; 0x34; 0x8e; 0x43; 0x44; 0xc4; 0xde; 0xe9; 0xcb;
    0x54; 0x7b; 0x94; 0x32; 0xa6; 0xc2; 0x23; 0x3d; 0xee; 0x4c; 0x95; 0x0b; 0x42; 0xfa; 0xc3; 0x4e;
    0x08; 0x2e; 0xa1; 0x66; 0x28; 0xd9; 0x24; 0xb2; 0x76; 0x5b; 0xa2; 0x49; 0x6d; 0x8b; 0xd1; 0x25;
    0x72; 0xf8; 0xf6; 0x64; 0x86; 0x68; 0x98; 0x16; 0xd4; 0xa4; 0x5c; 0xcc; 0x5d; 0x65; 0xb6; 0x92;
    0x6c; 0x70; 0x48; 0x50; 0xfd; 0xed; 0xb9; 0xda; 0x5e; 0x15; 0x46; 0x57; 0xa7; 0x8d; 0x9d; 0x84;
    0x90; 0xd8; 0xab; 0x00; 0x8c; 0xbc; 0xd3; 0x0a; 0xf7; 0xe4; 0x58; 0x05; 0xb8; 0xb3; 0x45; 0x06;
    0xd0; 0x2c; 0x1e; 0x8f; 0xca; 0x3f; 0x0f; 0x02; 0xc1; 0xaf; 0xbd; 0x03; 0x01; 0x13; 0x8a; 0x6b;
    0x3a; 0x91; 0x11; 0x41; 0x4f; 0x67; 0xdc; 0xea; 0x97; 0xf2; 0xcf; 0xce; 0xf0; 0xb4; 0xe6; 0x73;
    0x96; 0xac; 0x74; 0x22; 0xe7; 0xad; 0x35; 0x85; 0xe2; 0xf9; 0x37; 0xe8; 0x1c; 0x75; 0xdf; 0x6e;
    0x47; 0xf1; 0x1a; 0x71; 0x1d; 0x29; 0xc5; 0x89; 0x6f; 0xb7; 0x62; 0x0e; 0xaa; 0x18; 0xbe; 0x1b;
    0xfc; 0x56; 0x3e; 0x4b; 0xc6; 0xd2; 0x79; 0x20; 0x9a; 0xdb; 0xc0; 0xfe; 0x78; 0xcd; 0x5a; 0xf4;
    0x1f; 0xdd; 0xa8; 0x33; 0x88; 0x07; 0xc7; 0x31; 0xb1; 0x12; 0x10; 0x59; 0x27; 0x80; 0xec; 0x5f;
    0x60; 0x51; 0x7f; 0xa9; 0x19; 0xb5; 0x4a; 0x0d; 0x2d; 0xe5; 0x7a; 0x9f; 0x93; 0xc9; 0x9c; 0xef;
    0xa0; 0xe0; 0x3b; 0x4d; 0xae; 0x2a; 0xf5; 0xb0; 0xc8; 0xeb; 0xbb; 0x3c; 0x83; 0x53; 0x99; 0x61;
    0x17; 0x2b; 0x04; 0x7e; 0xba; 0x77; 0xd6; 0x26; 0xe1; 0x69; 0x14; 0x63; 0x55; 0x21; 0x0c; 0x7d ].

Definition AES_RCON : list Z :=
  [1; 2; 4; 8; 0x10; 0x20; 0x40; 0x80; 0x1b; 0x36] ++ replicate 6 0.

Definition aes_xt2 (x : Z) : Z :=
  let x := x << 1 in
  let x := if truthy (x .& 0x100) then x .^ 0x11b else x in
  x .& 0xff.

Definition aes_xt3 (x : Z) : Z := x .^ aes_xt2 x.

Definition aes_mixcolumn_fwd (x : Z) : Z :=
  let s0 := x .& 0xff in
  let s1 := (x >> 8) .& 0xff in
  let s2 := (x >> 16) .& 0xff in
  let s3 := (x >> 24) .& 0xff in
  let b0 := aes_xt2 s0 .^ aes_xt3 s1 .^ s2 .^ s3 in
  let b1 := s0 .^ aes_xt2 s1 .^ aes_xt3 s2 .^ s3 in
  let b2 := s0 .^ s1 .^ aes_xt2 s2 .^ aes_xt3 s3 in
  let b3 := aes_xt3 s0 .^ s1 .^ s2 .^ aes_xt2 s3 in
  (b3 << 24) .| (b2 << 16) .| (b1 << 8) .| b0.

Definition aes_gfmul (x y : Z) : Z :=
  let r := 0 in
  let r := if truthy (y .& 1) then r .^ x else r in
  let r := if truthy (y .& 2) then r .^ aes_xt2 x else r in
  let r := if truthy (y .& 4) then r .^ aes_xt2 (aes_xt2 x) else r in
  let r := if truthy (y .& 8) then r .^ aes_xt2 (aes_xt2 (aes_xt2 x)) else r in
  r.

Definition aes_mixcolumn_inv (x : Z) : Z :=
  let s0 := x .& 0xff in
  let s1 := (x >> 8) .& 0xff in
  let s2 := (x >> 16) .& 0xff in
  let s3 := (x >> 24) .& 0xff in
  let b0 := aes_gfmul s0 0xE .^ aes_gfmul s1 0xB .^ aes_gfmul s2 0xD .^ aes_gfmul s3 0x9 in
  let b1 := aes_gfmul s0 0x9 .^ aes_gfmul s1 0xE .^ aes_gfmul s2 0xB .^ aes_gfmul s3 0xD in
  let b2 := aes_gfmul s0 0xD .^ aes_gfmul s1 0x9 .^ aes_gfmul s2 0xE .^ aes_gfmul s3 0xB in
  let b3 := aes_gfmul s0 0xB .^ aes_gfmul s1 0xD .^ aes_gfmul s2 0x9 .^ aes_gfmul s3 0xE in
  (b3 << 24) .| (b2 << 16) .| (b1 << 8) .| b0.

Definition aes_subword_fwd (x : Z) : Z :=
  (nthZ 0 AES_SBOX_FWD ((x >> 24) .& 0xff) << 24) .|
  (nthZ 0 AES_SBOX_FWD ((x >> 16) .& 0xff) << 16) .|
  (nthZ 0 AES_SBOX_FWD ((x >> 8) .& 0xff) << 8) .|
  nthZ 0 AES_SBOX_FWD (x .& 0xff).

Definition aes_getbyte (x i : Z) : Z := (x >> (8 * i)) .& 0xff.

Definition aes_sbox_bytes64 (x : Z) (inv : bool) : Z :=
  let tbl := if inv then AES_SBOX_INV else AES_SBOX_FWD in
  fold_left (fun r i => r .| (nthZ 0 tbl (aes_getbyte x i) << (8 * i))) (range 8) 0.

Definition aes_shiftrows_fwd (rs2 rs1 : Z) : Z :=
  let g := aes_getbyte in
  (g rs1 3 << 56) .| (g rs2 6 << 48) .| (g rs2 1 << 40) .| (g rs1 4 << 32) .|
  (g rs2 7 << 24) .| (g rs2 2 << 16) .| (g rs1 5 << 8) .| g rs1 0.

Definition aes_shiftrows_inv (rs2 rs1 : Z) : Z :=
  let g := aes_getbyte in
  (g rs2 3 << 56) .| (g rs2 6 << 48) .| (g rs1 1 << 40) .| (g rs1 4 << 32) .|
  (g rs1 7 << 24) .| (g rs2 2 << 16) .| (g rs2 5 << 8) .| g rs1 0.

Definition aes64esm (rs1 rs2 : Z) : Z :=
  let sr := aes_shiftrows_fwd rs2 rs1 in
  let sb := aes_sbox_bytes64 sr false in
  (aes_mixcolumn_fwd ((sb >> 32) .& 0xffffffff) << 32) .| aes_mixcolumn_fwd (sb .& 0xffffffff).

Definition aes64es (rs1 rs2 : Z) : Z := aes_sbox_bytes64 (aes_shiftrows_fwd rs2 rs1) false.

Definition aes64dsm (rs1 rs2 : Z) : Z :=
  let sr := aes_shiftrows_inv rs2 rs1 in
  let sb := aes_sbox_bytes64 sr true in
  (aes_mixcolumn_inv ((sb >> 32) .& 0xffffffff) << 32) .| aes_mixcolumn_inv (sb .& 0xffffffff).

Definition aes64ds (rs1 rs2 : Z) : Z := aes_sbox_bytes64 (aes_shiftrows_inv rs2 rs1) true.

Definition aes64ks1i (rs1 rnum : Z) : Z :=
  let tmp1 := (rs1 >> 32) .& 0xffffffff in
  let rc := nthZ 0 AES_RCON rnum in
  let tmp2 := if rnum =? 0xA then tmp1 else ((tmp1 >> 8) .| (tmp1 << 24)) .& 0xffffffff in
  let tmp3 := aes_subword_fwd tmp2 in
  let v := (tmp3 .^ rc) .& 0xffffffff in
  (v << 32) .| v.

Definition aes64ks2 (rs1 rs2 : Z) : Z :=
  let w0 := ((rs1 >> 32) .^ (rs2 .& 0xffffffff)) .& 0xffffffff in
  let w1 := (w0 .^ (rs2 >> 32)) .& 0xffffffff in
  (w1 << 32) .| w0.

Definition aes64im (rs1 : Z) : Z :=
  (aes_mixcolumn_inv ((rs1 >> 32) .& 0xffffffff) << 32) .| aes_mixcolumn_inv (rs1 .& 0xffffffff).

(** ** Definitions: SHA-2 and bit reversal *)

Definition ror_bits (x n bits : Z) : Z := ((x >> n) .| (x << (bits - n))) .& ((1 << bits) - 1).

Definition sha256sig0 (x : Z) : Z :=
  let x := x .& 0xffffffff in
  (ror_bits x 7 32 .^ ror_bits x 18 32 .^ (x >> 3)) .& 0xffffffff.

Definition sha256sig1 (x : Z) : Z :=
  let x := x .& 0xffffffff in
  (ror_bits x 17 32 .^ ror_bits x 19 32 .^ (x >> 10)) .& 0xffffffff.

Definition sha256sum0 (x : Z) : Z :=
  let x := x .& 0xffffffff in
  (ror_bits x 2 32 .^ ror_bits x 13 32 .^ ror_bits x 22 32) .& 0xffffffff.

Definition sha256sum1 (x : Z) : Z :=
  let x := x .& 0xffffffff in
  (ror_bits x 6 32 .^ ror_bits x 11 32 .^ ror_bits x 25 32) .& 0xffffffff.

Definition sha512sig0 (x : Z) : Z :=
  let x := x .& 0xffffffffffffffff in
  (ror_bits x 1 64 .^ ror_bits x 8 64 .^ (x >> 7)) .& 0xffffffffffffffff.

Definition sha512sig1 (x : Z) : Z :=
  let x := x .& 0xffffffffffffffff in
  (ror_bits x 19 64 .^ ror_bits x 61 64 .^ (x >> 6)) .& 0xffffffffffffffff.

Definition sha512sum0 (x : Z) : Z :=
  let x := x .& 0xffffffffffffffff in
  (ror_bits x 28 64 .^ ror_bits x 34 64 .^ ror_bits x 39 64) .& 0xffffffffffffffff.

Definition sha512sum1 (x : Z) : Z :=
  let x := x .& 0xffffffffffffffff in
  (ror_bits x 14 64 .^ ror_bits x 18 64 .^ ror_bits x 41 64) .& 0xffffffffffffffff.

(** [int(f"{byte:08b}"[::-1], 2)]. *)
Definition rev_byte (byte : Z) : Z := int_bin (str_rev (fmt_0b 8 byte)).

Definition brev8 (x xl : Z) : Z :=
  fold_left (fun out i =>
    let byte := (x >> (i * 8)) .& 0xFF in
    out .| (rev_byte byte << (i * 8))) (range (xl `div` 8)) 0.

(** ** Reference definitions: GF(2^8) and FIPS-197 *)

(** Multiplication in GF(2^8) modulo x^8 + x^4 + x^3 + x + 1: the bits of
    [b] select the doublings of [a]. *)
Definition gf_double (a : Z) : Z :=
  if Z.testbit a 7 then (2 * a - 256) .^ 0x1b else 2 * a.
Fixpoint gf_mul_bits (a : Z) (b : list bool) : Z :=
  match b with
  | [] => 0
  | bit :: b' => (if bit then a else 0) .^ gf_mul_bits (gf_double a) b'
  end.
Definition gf_mul (a b : Z) : Z := gf_mul_bits a (map (Z.testbit b) (range 8)).

(** The inverse as the 254th power, with 0 sent to 0. *)
Definition gf_inv (a : Z) : Z := fold_left (fun p _ => gf_mul p a) (range 253) a.

(** The affine map of the S-box. *)
Definition sbox_affine (b : Z) : Z :=
  gather 1 8 (fun i => Z.b2z (xorb (Z.testbit b i)
    (xorb (Z.testbit b ((i + 4) `mod` 8)) (xorb (Z.testbit b ((i + 5) `mod` 8))
    (xorb (Z.testbit b ((i + 6) `mod` 8)) (xorb (Z.testbit b ((i + 7) `mod` 8))
      (Z.testbit 0x63 i))))))).

(** Bit [i] of an [n]-bit word rotated right by [r]. *)
Definition rotr_bit (n x r i : Z) : bool := Z.testbit x ((i + r) `mod` n).

(** ** Lemmas: XOR-linear maps *)

(** A map linear over GF(2) that fixes the powers of two fixes every word
    (the inverse property of a linear layer is a finite check). *)
Lemma lxor_linear_id (F : Z -> Z) n :
  0 <= n -> F 0 = 0 -> (forall x y, F (x .^ y) = F x .^ F y) ->
  (forall i, 0 <= i < n -> F (2 ^ i) = 2 ^ i) ->
  forall x, 0 <= x < 2 ^ n -> F x = x.
Proof.
  intros Hn H0 Hlin. revert n Hn. apply (range_ind (fun n =>
    (forall i, 0 <= i < n -> F (2 ^ i) = 2 ^ i) -> forall x, 0 <= x < 2 ^ n -> F x = x)).
  - intros _ x Hx. by assert (x = 0) as -> by (rewrite Z.pow_0_r in Hx; lia).
  - intros n Hn IH Hb x Hx. pose proof (Z.pow_add_r 2 n 1 Hn ltac:(lia)) as Hp.
    destruct (Z.testbit x n) eqn:E.
    + assert (Hx' : x = (x .^ 2 ^ n) .^ 2 ^ n) by
        (rewrite Z.lxor_assoc, Z.lxor_nilpotent, Z.lxor_0_r; done).
      rewrite Hx' at 1. rewrite Hlin, Hb, IH; [done| |..| |]; [by intros; apply Hb; lia| |lia].
      apply bounded_bits; [done|apply Z.lxor_nonneg; split; lia|].
      intros i Hi. rewrite Z.lxor_spec, Z.pow2_bits_eqb by done.
      destruct (Z.eqb_spec n i) as [<-|]; [by rewrite E|].
      rewrite (testbit_small x (n + 1)) by lia. done.
    + apply IH; [intros; apply Hb; lia|]. apply bounded_bits; [done|lia|].
      intros i Hi. destruct (Z.eq_dec i n) as [->|]; [done|].
      apply (testbit_small x (n + 1)); lia.
Qed.

Lemma land_lxor_distr x y m : (x .^ y) .& m = (x .& m) .^ (y .& m).
Proof. zbits. Qed.

Lemma aes_xt2_lxor x y : aes_xt2 (x .^ y) = aes_xt2 x .^ aes_xt2 y.
Proof.
  unfold aes_xt2. rewrite Z.shiftl_lxor. change 0x100 with (1 << 8).
  rewrite !truthy_bit, Z.lxor_spec by done.
  destruct (Z.testbit (x << 1) 8), (Z.testbit (y << 1) 8); cbn [xorb];
    rewrite <- land_lxor_distr; f_equal; zbits.
Qed.

Lemma aes_xt3_lxor x y : aes_xt3 (x .^ y) = aes_xt3 x .^ aes_xt3 y.
Proof. unfold aes_xt3. rewrite aes_xt2_lxor. zbits. Qed.

Lemma aes_gfmul_lxor x y c : aes_gfmul (x .^ y) c = aes_gfmul x c .^ aes_gfmul y c.
Proof.
  unfold aes_gfmul. rewrite !aes_xt2_lxor.
  repeat case_match; zbits.
Qed.

Lemma aes_xt2_range x : 0 <= aes_xt2 x < 2 ^ 8.
Proof. unfold aes_xt2. fold_masks. by apply Z.mod_pos_bound. Qed.

Lemma byte_and x : 0 <= x .& 0xff < 2 ^ 8.
Proof. fold_masks. by apply Z.mod_pos_bound. Qed.

Lemma aes_xt3_range x : 0 <= x < 2 ^ 8 -> 0 <= aes_xt3 x < 2 ^ 8.
Proof. intros. apply lxor_bound; [lia|done|apply aes_xt2_range]. Qed.

Lemma aes_gfmul_range x c : 0 <= x < 2 ^ 8 -> 0 <= aes_gfmul x c < 2 ^ 8.
Proof.
  intros. unfold aes_gfmul.
  repeat case_match; repeat apply lxor_bound; try done; apply aes_xt2_range.
Qed.

#[local] Hint Resolve byte_and aes_xt2_range aes_xt3_range aes_gfmul_range : pybits.

(** Packing four bytes is XOR-linear, because the bytes are disjoint. *)
Definition pack4 (b3 b2 b1 b0 : Z) : Z := (b3 << 24) .| (b2 << 16) .| (b1 << 8) .| b0.

Lemma lor_lxor_disjoint h l n :
  0 <= n -> 0 <= l < 2 ^ n -> (h << n) .| l = (h << n) .^ l.
Proof.
  intros Hn Hl. apply Z.bits_inj'; intros i Hi.
  rewrite Z.lor_spec, Z.lxor_spec, Z.shiftl_spec by lia.
  destruct (Z.ltb_spec i n).
  - by rewrite (Z.testbit_neg_r h) by lia; destruct (Z.testbit l i).
  - rewrite (testbit_small l n) by lia. by destruct (Z.testbit h (i - n)).
Qed.

Lemma pack4_horner b3 b2 b1 b0 :
  pack4 b3 b2 b1 b0 = (((((b3 << 8) .| b2) << 8) .| b1) << 8) .| b0.
Proof. unfold pack4. by rewrite !Z.shiftl_lor, !Z.shiftl_shiftl by lia. Qed.

Lemma pack4_lxor a3 a2 a1 a0 b3 b2 b1 b0 :
  0 <= a2 < 2 ^ 8 -> 0 <= a1 < 2 ^ 8 -> 0 <= a0 < 2 ^ 8 ->
  0 <= b2 < 2 ^ 8 -> 0 <= b1 < 2 ^ 8 -> 0 <= b0 < 2 ^ 8 ->
  pack4 (a3 .^ b3) (a2 .^ b2) (a1 .^ b1) (a0 .^ b0)
    = pack4 a3 a2 a1 a0 .^ pack4 b3 b2 b1 b0.
Proof.
  intros. rewrite !pack4_horner, !lor_lxor_disjoint
    by (lia || done || (apply lxor_bound; lia)).
  rewrite !Z.shiftl_lxor. zbits.
Qed.

Ltac lin_bytes :=
  rewrite ?Z.shiftr_lxor, ?land_lxor_distr, ?aes_xt2_lxor, ?aes_xt3_lxor, ?aes_gfmul_lxor.

(** Equality of XORs of the same terms. *)
Ltac lxor_ac :=
  apply Z.bits_inj'; intros ? _; rewrite !Z.lxor_spec;
  repeat match goal with |- context [Z.testbit ?x ?i] => destruct (Z.testbit x i) end;
  reflexivity.

(** The four output bytes of a column map. *)
Ltac column_linear :=
  cbv beta zeta;
  repeat match goal with
  | |- context [?b3 << 24 .| ?b2 << 16 .| ?b1 << 8 .| ?b0] =>
      change (b3 << 24 .| b2 << 16 .| b1 << 8 .| b0) with (pack4 b3 b2 b1 b0)
  end;
  lin_bytes;
  rewrite <- pack4_lxor by (repeat first [done | apply lxor_bound | solve [auto with pybits]]);
  f_equal; lxor_ac.

Lemma mixcolumn_fwd_lxor x y :
  aes_mixcolumn_fwd (x .^ y) = aes_mixcolumn_fwd x .^ aes_mixcolumn_fwd y.
Proof. unfold aes_mixcolumn_fwd. column_linear. Qed.

Lemma mixcolumn_inv_lxor x y :
  aes_mixcolumn_inv (x .^ y) = aes_mixcolumn_inv x .^ aes_mixcolumn_inv y.
Proof. unfold aes_mixcolumn_inv. column_linear. Qed.

Lemma basis_check (F : Z -> Z) n :
  forallb (fun i => F (2 ^ i) =? 2 ^ i) (range n) = true ->
  forall i, 0 <= i < n -> F (2 ^ i) = 2 ^ i.
Proof.
  rewrite forallb_forall. intros H i Hi.
  apply Z.eqb_eq, H, list_elem_of_In, elem_of_range. done.
Qed.

Lemma mix_inv_fwd x : 0 <= x < 2 ^ 32 -> aes_mixcolumn_inv (aes_mixcolumn_fwd x) = x.
Proof.
  apply (lxor_linear_id (fun x => aes_mixcolumn_inv (aes_mixcolumn_fwd x)) 32);
    [done|by vm_compute| |by apply (basis_check (fun x => aes_mixcolumn_inv (aes_mixcolumn_fwd x))); vm_compute].
  intros. by rewrite mixcolumn_fwd_lxor, mixcolumn_inv_lxor.
Qed.

Lemma mix_fwd_inv x : 0 <= x < 2 ^ 32 -> aes_mixcolumn_fwd (aes_mixcolumn_inv x) = x.
Proof.
  apply (lxor_linear_id (fun x => aes_mixcolumn_fwd (aes_mixcolumn_inv x)) 32);
    [done|by vm_compute| |by apply (basis_check (fun x => aes_mixcolumn_fwd (aes_mixcolumn_inv x))); vm_compute].
  intros. by rewrite mixcolumn_inv_lxor, mixcolumn_fwd_lxor.
Qed.

(** Finite checks: a boolean test that holds on all of [range n]. *)
Lemma range_check n (P : Z -> bool) :
  forallb P (range n) = true -> forall i, 0 <= i < n -> P i = true.
Proof.
  rewrite forallb_forall. intros H i Hi. apply H, list_elem_of_In, elem_of_range. done.
Qed.

Definition table_ok (b : Z) : bool :=
  (nthZ 0 AES_SBOX_FWD b =? sbox_affine (gf_inv b)) &&
  (nthZ 0 AES_SBOX_INV (nthZ 0 AES_SBOX_FWD b) =? b) &&
  (nthZ 0 AES_SBOX_FWD (nthZ 0 AES_SBOX_INV b) =? b) &&
  forallb (fun c => aes_gfmul b c =? gf_mul b c) (range 16) &&
  (nthZ 0 AES_SBOX_FWD b <? 256) && (nthZ 0 AES_SBOX_INV b <? 256) &&
  (0 <=? nthZ 0 AES_SBOX_FWD b) && (0 <=? nthZ 0 AES_SBOX_INV b).

Lemma table_check : forallb table_ok (range 256) = true.
Proof. vm_compute. reflexivity. Qed.

Lemma table_facts b : 0 <= b < 256 ->
  nthZ 0 AES_SBOX_FWD b = sbox_affine (gf_inv b) /\
  nthZ 0 AES_SBOX_INV (nthZ 0 AES_SBOX_FWD b) = b /\
  nthZ 0 AES_SBOX_FWD (nthZ 0 AES_SBOX_INV b) = b /\
  (forall c, 0 <= c < 16 -> aes_gfmul b c = gf_mul b c) /\
  0 <= nthZ 0 AES_SBOX_FWD b < 2 ^ 8 /\ 0 <= nthZ 0 AES_SBOX_INV b < 2 ^ 8.
Proof.
  intros Hb. pose proof (range_check 256 table_ok table_check b Hb) as Hc.
  unfold table_ok in Hc. rewrite !andb_true_iff in Hc.
  destruct Hc as [ [ [ [ [ [ [H1 H2] H3] H4] H5] H6] H7] H8].
  split_and!; try lia. intros c Hc. apply Z.eqb_eq.
  by apply (range_check 16 (fun c => aes_gfmul b c =? gf_mul b c)).
Qed.

(** [MixColumns] and its inverse undo each other on every 32-bit
    column. *)
Theorem mixcolumn_inverse x :
  in_width 32 x ->
  aes_mixcolumn_inv (aes_mixcolumn_fwd x) = x /\ aes_mixcolumn_fwd (aes_mixcolumn_inv x) = x.
Proof. intros Hx. split; [by apply mix_inv_fwd|by apply mix_fwd_inv]. Qed.

Lemma mixcolumn_inverse_witness :
  aes_mixcolumn_inv (aes_mixcolumn_fwd 0xdb135345) = 0xdb135345 /\
  aes_mixcolumn_fwd (aes_mixcolumn_inv 0xdb135345) = 0xdb135345.
Proof. apply mixcolumn_inverse. by vm_compute. Defined.

(** [C19] The tables are the FIPS-197 ones: the forward S-box is the affine
    image of the inverse in GF(2^8), the inverse S-box inverts it, the round
    constants are the powers of x, and [gfmul] multiplies by the low four
    bits of its second operand in that field. *)
Theorem aes_tables_correct :
  (forall b, 0 <= b < 256 ->
     nthZ 0 AES_SBOX_FWD b = sbox_affine (gf_inv b) /\
     nthZ 0 AES_SBOX_INV (nthZ 0 AES_SBOX_FWD b) = b /\
     nthZ 0 AES_SBOX_FWD (nthZ 0 AES_SBOX_INV b) = b /\
     forall c, 0 <= c < 16 -> aes_gfmul b c = gf_mul b c) /\
  (forall i, 0 <= i < 9 -> nthZ 0 AES_RCON (i + 1) = gf_double (nthZ 0 AES_RCON i)) /\
  nthZ 0 AES_RCON 0 = 1.
Proof.
  split_and!; [|  |done].
  - intros b Hb. destruct (table_facts b Hb) as (? & ? & ? & ? & _). tauto.
  - intros i Hi. apply Z.eqb_eq. revert i Hi.
    by apply (range_check 9 (fun i => nthZ 0 AES_RCON (i + 1) =? gf_double (nthZ 0 AES_RCON i))).
Qed.

(** ** Lemmas: AES rounds by bytes *)

Lemma getbyte_range x i : 0 <= aes_getbyte x i < 256.
Proof. apply byte_and. Qed.

Lemma getbyte_gather g i :
  (forall i, 0 <= i < 8 -> 0 <= g i < 2 ^ 8) -> 0 <= i < 8 -> aes_getbyte (gather 8 8 g) i = g i.
Proof.
  intros Hg Hi. unfold aes_getbyte. change 0xff with (Z.ones 8). rewrite land_mask by done.
  by apply (gather_field 8 8).
Qed.

Lemma word_of_bytes x : 0 <= x < 2 ^ 64 -> x = gather 8 8 (aes_getbyte x).
Proof.
  intros Hx. rewrite <- (Z.mod_small x (2 ^ (8 * 8))) at 1 by done.
  rewrite <- gather_fields by done. apply gather_ext. intros i _.
  unfold aes_getbyte. by fold_masks.
Qed.

Lemma pack8_gather g :
  (g 7 << 56) .| (g 6 << 48) .| (g 5 << 40) .| (g 4 << 32) .|
  (g 3 << 24) .| (g 2 << 16) .| (g 1 << 8) .| g 0 = gather 8 8 g.
Proof.
  unfold gather. change (range 8) with [0; 1; 2; 3; 4; 5; 6; 7]. cbn [fold_left].
  change (8 * 0) with 0. change (8 * 1) with 8. change (8 * 2) with 16.
  change (8 * 3) with 24. change (8 * 4) with 32. change (8 * 5) with 40.
  change (8 * 6) with 48. change (8 * 7) with 56. rewrite Z.shiftl_0_r, Z.lor_0_l.
  apply Z.bits_inj'; intros i _. rewrite !Z.lor_spec.
  repeat match goal with |- context [Z.testbit ?x ?i] => destruct (Z.testbit x i) end; reflexivity.
Qed.

(** The byte each place of the shifted state comes from: [true] is the
    first operand. *)
Definition shift_src (i : Z) : bool * Z :=
  nthZ (true, 0) [(true, 0); (true, 5); (false, 2); (false, 7);
                  (true, 4); (false, 1); (false, 6); (true, 3)] i.
Definition shift_inv_src (i : Z) : bool * Z :=
  nthZ (true, 0) [(true, 0); (false, 5); (false, 2); (true, 7);
                  (true, 4); (true, 1); (false, 6); (false, 3)] i.
Definition pick (rs1 rs2 : Z) (s : bool * Z) : Z := aes_getbyte (if fst s then rs1 else rs2) (snd s).

Ltac eval_src :=
  match goal with
  | |- context [shift_inv_src ?k] =>
      let v := eval vm_compute in (shift_inv_src k) in change (shift_inv_src k) with v
  | |- context [shift_src ?k] =>
      let v := eval vm_compute in (shift_src k) in change (shift_src k) with v
  end; try unfold pick; cbn [fst snd].

Lemma shiftrows_fwd_gather rs1 rs2 :
  aes_shiftrows_fwd rs2 rs1 = gather 8 8 (fun i => pick rs1 rs2 (shift_src i)).
Proof. rewrite <- pack8_gather. cbv beta. repeat eval_src. unfold aes_shiftrows_fwd. cbv zeta. reflexivity. Qed.

Lemma shiftrows_inv_gather rs1 rs2 :
  aes_shiftrows_inv rs2 rs1 = gather 8 8 (fun i => pick rs1 rs2 (shift_inv_src i)).
Proof. rewrite <- pack8_gather. cbv beta. repeat eval_src. unfold aes_shiftrows_inv. cbv zeta. reflexivity. Qed.

Lemma sbox_fwd_gather x :
  aes_sbox_bytes64 x false = gather 8 8 (fun i => nthZ 0 AES_SBOX_FWD (aes_getbyte x i)).
Proof. unfold aes_sbox_bytes64, gather. cbv zeta iota. reflexivity. Qed.

Lemma sbox_inv_gather x :
  aes_sbox_bytes64 x true = gather 8 8 (fun i => nthZ 0 AES_SBOX_INV (aes_getbyte x i)).
Proof. unfold aes_sbox_bytes64, gather. cbv zeta iota. reflexivity. Qed.

Lemma es_gather a b :
  aes64es a b = gather 8 8 (fun i => nthZ 0 AES_SBOX_FWD (pick a b (shift_src i))).
Proof.
  unfold aes64es. rewrite shiftrows_fwd_gather, sbox_fwd_gather.
  apply gather_ext. intros i Hi.
  by rewrite getbyte_gather by (done || (intros; apply getbyte_range)).
Qed.

Lemma ds_gather a b :
  aes64ds a b = gather 8 8 (fun i => nthZ 0 AES_SBOX_INV (pick a b (shift_inv_src i))).
Proof.
  unfold aes64ds. rewrite shiftrows_inv_gather, sbox_inv_gather.
  apply gather_ext. intros i Hi.
  by rewrite getbyte_gather by (done || (intros; apply getbyte_range)).
Qed.

Lemma es_byte a b i : 0 <= i < 8 ->
  aes_getbyte (aes64es a b) i = nthZ 0 AES_SBOX_FWD (pick a b (shift_src i)).
Proof.
  intros Hi. rewrite es_gather.
  apply (getbyte_gather (fun i => nthZ 0 AES_SBOX_FWD (pick a b (shift_src i)))); [|done].
  intros. apply table_facts, getbyte_range.
Qed.

Lemma es_width a b : 0 <= aes64es a b < 2 ^ 64.
Proof.
  rewrite es_gather. apply (gather_bound 8 8); [done..|].
  intros. apply table_facts, getbyte_range.
Qed.

Lemma ds_es a b : 0 <= a < 2 ^ 64 -> aes64ds (aes64es a b) (aes64es b a) = a.
Proof.
  intros Ha. rewrite ds_gather. transitivity (gather 8 8 (aes_getbyte a));
    [|symmetry; by apply word_of_bytes].
  apply gather_ext. intros i Hi.
  assert (In i (range 8)) as Hin by by apply list_elem_of_In, elem_of_range.
  repeat destruct Hin as [<-|Hin]; try done; clear Hi;
    eval_src; rewrite es_byte by done; eval_src; apply table_facts, getbyte_range.
Qed.

(** [MixColumns] on both columns of a double word: the part [aes64esm] has
    beyond [aes64es]. *)
Definition mixcolumns64 (x : Z) : Z :=
  (aes_mixcolumn_fwd ((x >> 32) .& 0xffffffff) << 32) .| aes_mixcolumn_fwd (x .& 0xffffffff).

Lemma mixcolumn_fwd_range x : 0 <= aes_mixcolumn_fwd x < 2 ^ 32.
Proof.
  unfold aes_mixcolumn_fwd. cbv zeta.
  repeat first [done | apply lor_bound | apply shiftl_bound | apply lxor_bound].
  all: eapply pow_bound_mono; [solve [auto with pybits]|lia].
Qed.

Lemma im_mixcolumns x : 0 <= x < 2 ^ 64 -> aes64im (mixcolumns64 x) = x.
Proof.
  intros Hx. unfold aes64im, mixcolumns64. change 0xffffffff with (Z.ones 32).
  rewrite !(land_mask 32) by done. rewrite field_low, field_high by
    (done || apply mixcolumn_fwd_range).
  rewrite (Z.mod_small (aes_mixcolumn_fwd _)) by apply mixcolumn_fwd_range.
  rewrite (Z.mod_small (x >> 32)) by (by apply (shiftr_bound x 32 32)).
  rewrite !mix_inv_fwd by (by apply Z.mod_pos_bound || by apply (shiftr_bound x 32 32)).
  by apply field_join.
Qed.

Lemma esm_mixcolumns a b : aes64esm a b = mixcolumns64 (aes64es a b).
Proof. unfold aes64esm, aes64es, mixcolumns64. cbv zeta. reflexivity. Qed.

(** One AES round on the two halves of a state is undone by the
    decryption instructions: [aes64ds] inverts [aes64es] (ShiftRows and
    SubBytes), and after [aes64im] it inverts [aes64esm] (with MixColumns),
    for every state. *)
Theorem aes_round_inverse a b :
  in_width 64 a -> in_width 64 b ->
  let e0 := aes64es a b in let e1 := aes64es b a in
  let m0 := aes64esm a b in let m1 := aes64esm b a in
  (aes64ds e0 e1 = a /\ aes64ds e1 e0 = b) /\
  (aes64ds (aes64im m0) (aes64im m1) = a /\ aes64ds (aes64im m1) (aes64im m0) = b).
Proof.
  intros Ha Hb. cbv zeta. rewrite !esm_mixcolumns, !im_mixcolumns by apply es_width.
  split; split; by apply ds_es.
Qed.

Lemma aes_round_inverse_witness :
  aes64ds (aes64im (aes64esm 0x0123456789abcdef 0xfedcba9876543210))
          (aes64im (aes64esm 0xfedcba9876543210 0x0123456789abcdef)) = 0x0123456789abcdef.
Proof.
  apply (aes_round_inverse 0x0123456789abcdef 0xfedcba9876543210); by vm_compute.
Defined.

(** ** SHA-2 *)

Lemma ror_bits_testbit x r n i :
  0 < r < n -> 0 <= x < 2 ^ n -> 0 <= i < n -> Z.testbit (ror_bits x r n) i = rotr_bit n x r i.
Proof.
  intros Hr Hx Hi. unfold ror_bits, rotr_bit.
  rewrite shiftl_1_sub_1, land_mask, Z.testbit_mod_pow2, Z.lor_spec, Z.shiftr_spec,
    Z.shiftl_spec by lia.
  destruct (Z.ltb_spec i n); [|lia]. cbn [andb].
  destruct (Z.ltb_spec (i + r) n).
  - rewrite (Z.mod_small (i + r)), (Z.testbit_neg_r x (i - _)), orb_false_r by lia. done.
  - rewrite (testbit_small x n (i + r)) by lia. cbn [orb]. f_equal.
    apply Z.mod_unique_pos with 1; lia.
Qed.

Ltac sha_bits :=
  cbv zeta; fold_masks;
  match goal with x : Z, H : in_width _ ?x |- _ => rewrite !(Z.mod_small x) by exact H end;
  rewrite Z.testbit_mod_pow2 by done;
  match goal with |- context [?a <? ?b] => destruct (Z.ltb_spec a b); [|lia] end;
  rewrite !Z.lxor_spec, ?Z.shiftr_spec by lia; cbn [andb];
  rewrite !ror_bits_testbit by lia || done; reflexivity.

(** The SHA-256 and SHA-512 instructions are the Sigma and sigma
    functions of FIPS 180-4: every result bit is the XOR of the bits the
    three rotations (or the shift) select. *)
Theorem sha_functions_spec :
  (forall x, in_width 32 x -> forall i, 0 <= i < 32 ->
    Z.testbit (sha256sum0 x) i
      = xorb (xorb (rotr_bit 32 x 2 i) (rotr_bit 32 x 13 i)) (rotr_bit 32 x 22 i) /\
    Z.testbit (sha256sum1 x) i
      = xorb (xorb (rotr_bit 32 x 6 i) (rotr_bit 32 x 11 i)) (rotr_bit 32 x 25 i) /\
    Z.testbit (sha256sig0 x) i
      = xorb (xorb (rotr_bit 32 x 7 i) (rotr_bit 32 x 18 i)) (Z.testbit x (i + 3)) /\
    Z.testbit (sha256sig1 x) i
      = xorb (xorb (rotr_bit 32 x 17 i) (rotr_bit 32 x 19 i)) (Z.testbit x (i + 10))) /\
  (forall x, in_width 64 x -> forall i, 0 <= i < 64 ->
    Z.testbit (sha512sum0 x) i
      = xorb (xorb (rotr_bit 64 x 28 i) (rotr_bit 64 x 34 i)) (rotr_bit 64 x 39 i) /\
    Z.testbit (sha512sum1 x) i
      = xorb (xorb (rotr_bit 64 x 14 i) (rotr_bit 64 x 18 i)) (rotr_bit 64 x 41 i) /\
    Z.testbit (sha512sig0 x) i
      = xorb (xorb (rotr_bit 64 x 1 i) (rotr_bit 64 x 8 i)) (Z.testbit x (i + 7)) /\
    Z.testbit (sha512sig1 x) i
      = xorb (xorb (rotr_bit 64 x 19 i) (rotr_bit 64 x 61 i)) (Z.testbit x (i + 6))).
Proof.
  split; intros x Hx i Hi; split_and!;
    unfold sha256sum0, sha256sum1, sha256sig0, sha256sig1,
      sha512sum0, sha512sum1, sha512sig0, sha512sig1; sha_bits.
Qed.
