(* ===== verification/IntAlu.v ===== *)
(** * Integer execution

    The value each integer instruction of [ISS.step] passes to [wr]: the
    R-type, OP-32, I-type and OP-IMM-32 arms of [sim/tools/iss.py], with
    RV32M/RV64M, Zba, Zbb, Zbs and the bit-manipulation part of Zkn.  [A]
    and [B] are the operand register values, [xl] is XLEN. *)

From S2P Require Import Prelude Words PyStr Crypto.

(** ** Definitions *)

(** [if c < d then l else r] on booleans as the source's conditional
    expressions. *)
Definition bool_int (b : bool) : Z := if b then 1 else 0.

(** The RV32M/RV64M arm. *)
Definition exec_M (xl f3 A B : Z) : Z :=
  let sx v := sXLEN v xl in
  let ux v := uXLEN v xl in
  if f3 =? 0 then ux (A * B)
  else if f3 =? 1 then ux ((sx A * sx B) >> xl)
  else if f3 =? 2 then ux ((sx A * ux B) >> xl)
  else if f3 =? 3 then (ux A * ux B) >> xl
  else if f3 =? 4 then (* div *)
    if B =? 0 then ux (-1)
    else if (sx A =? - (1 << (xl - 1))) && (sx B =? -1) then A
    else
      let q := Z.abs (sx A) `div` Z.abs (sx B) in
      let q := if negb (Bool.eqb (sx A <? 0) (sx B <? 0)) then - q else q in
      ux q
  else if f3 =? 5 then (* divu *)
    if B =? 0 then ux (-1) else ux A `div` ux B
  else if f3 =? 6 then (* rem *)
    if B =? 0 then A
    else if (sx A =? - (1 << (xl - 1))) && (sx B =? -1) then 0
    else
      let r := Z.abs (sx A) `mod` Z.abs (sx B) in
      let r := if sx A <? 0 then - r else r in
      ux r
  else (* remu *)
    if B =? 0 then A else ux A `mod` ux B.

Definition rol (xl A sh : Z) : Z :=
  let a := uXLEN A xl in
  if truthy sh then (a << sh) .| (a >> (xl - sh)) else a.

Definition ror (xl A sh : Z) : Z :=
  let a := uXLEN A xl in
  if truthy sh then (a >> sh) .| (a << (xl - sh)) else a.

Definition clmul (xl A B : Z) : Z :=
  uXLEN (fold_left (fun res i => if truthy ((B >> i) .& 1) then res .^ (A << i) else res)
                   (range xl) 0) xl.

Definition clmulh (xl A B : Z) : Z :=
  uXLEN (fold_left (fun res i => if truthy ((B >> i) .& 1) then res .^ (A >> (xl - i)) else res)
                   (seqZ 1 (xl - 1)) 0) xl.

Definition pack (xl A B : Z) : Z :=
  let half := xl `div` 2 in
  uXLEN (((B .& ((1 << half) - 1)) << half) .| (A .& ((1 << half) - 1))) xl.

Definition packh (A B : Z) : Z := ((B .& 0xFF) << 8) .| (A .& 0xFF).

Definition xperm4 (xl A B : Z) : Z :=
  fold_left (fun res i =>
    let idx := (B >> (4 * i)) .& 0xF in
    if idx <? xl `div` 4 then res .| (((A >> (4 * idx)) .& 0xF) << (4 * i)) else res)
    (range (xl `div` 4)) 0.

Definition xperm8 (xl A B : Z) : Z :=
  fold_left (fun res i =>
    let idx := (B >> (8 * i)) .& 0xFF in
    if idx <? xl `div` 8 then res .| (((A >> (8 * idx)) .& 0xFF) << (8 * i)) else res)
    (range (xl `div` 8)) 0.

(** The R-type arm. *)
Definition exec_R (xl f7 f3 A B : Z) : result Z :=
  let sx v := sXLEN v xl in
  let ux v := uXLEN v xl in
  if f7 =? 0x1 then Ok (exec_M xl f3 A B)
  else if (f7 =? 0x20) && (f3 =? 0x7) then Ok (A .& .~ B)
  else if (f7 =? 0x20) && (f3 =? 0x6) then Ok (A .| .~ B)
  else if (f7 =? 0x20) && (f3 =? 0x4) then Ok (.~ (A .^ B))
  else if (f7 =? 0x5) && (f3 =? 0x4) then Ok (if sx A <? sx B then A else B)
  else if (f7 =? 0x5) && (f3 =? 0x5) then Ok (if ux A <? ux B then A else B)
  else if (f7 =? 0x5) && (f3 =? 0x6) then Ok (if sx A >? sx B then A else B)
  else if (f7 =? 0x5) && (f3 =? 0x7) then Ok (if ux A >? ux B then A else B)
  else if (f7 =? 0x30) && (f3 =? 0x1) then Ok (rol xl A (B .& (xl - 1)))
  else if (f7 =? 0x30) && (f3 =? 0x5) then Ok (ror xl A (B .& (xl - 1)))
  else if (f7 =? 0x10) && (f3 =? 0x2) then Ok ((A << 1) + B)
  else if (f7 =? 0x10) && (f3 =? 0x4) then Ok ((A << 2) + B)
  else if (f7 =? 0x10) && (f3 =? 0x6) then Ok ((A << 3) + B)
  else if (f7 =? 0x24) && (f3 =? 0x1) then Ok (A .& .~ (1 << (B .& (xl - 1))))
  else if (f7 =? 0x24) && (f3 =? 0x5) then Ok ((A >> (B .& (xl - 1))) .& 1)
  else if (f7 =? 0x34) && (f3 =? 0x1) then Ok (A .^ (1 << (B .& (xl - 1))))
  else if (f7 =? 0x14) && (f3 =? 0x1) then Ok (A .| (1 << (B .& (xl - 1))))
  else if (f7 =? 0x5) && (f3 =? 0x1) then Ok (clmul xl A B)
  else if (f7 =? 0x5) && (f3 =? 0x3) then Ok (clmulh xl A B)
  else if (f7 =? 0x4) && (f3 =? 0x4) then Ok (pack xl A B)
  else if (f7 =? 0x4) && (f3 =? 0x7) then Ok (packh A B)
  else if (f7 =? 0x14) && (f3 =? 0x2) then Ok (xperm4 xl A B)
  else if (f7 =? 0x14) && (f3 =? 0x4) then Ok (xperm8 xl A B)
  else if (f7 =? 0x1b) && (f3 =? 0x0) then Ok (aes64esm A B)
  else if (f7 =? 0x19) && (f3 =? 0x0) then Ok (aes64es A B)
  else if (f7 =? 0x1f) && (f3 =? 0x0) then Ok (aes64dsm A B)
  else if (f7 =? 0x1d) && (f3 =? 0x0) then Ok (aes64ds A B)
  else if (f7 =? 0x3f) && (f3 =? 0x0) then Ok (aes64ks2 A B)
  else if (f3 =? 0) && (f7 =? 0) then Ok (ux (A + B))
  else if (f3 =? 0) && (f7 =? 0x20) then Ok (ux (A - B))
  else if f3 =? 1 then Ok (ux (A << (B .& (xl - 1))))
  else if f3 =? 2 then Ok (bool_int (sx A <? sx B))
  else if f3 =? 3 then Ok (bool_int (ux A <? ux B))
  else if f3 =? 4 then Ok (ux (A .^ B))
  else if (f3 =? 5) && (f7 =? 0) then Ok (ux A >> (B .& (xl - 1)))
  else if (f3 =? 5) && (f7 =? 0x20) then Ok (ux (sx A >> (B .& (xl - 1))))
  else if f3 =? 6 then Ok (ux (A .| B))
  else if f3 =? 7 then Ok (ux (A .& B))
  else Raise (ValueError ("unknown R-type f3=" ++ fmt_d f3 ++ " f7=" ++ fmt_d f7)).

(** The 32-bit multiply/divide family: [res32] before its sign extension. *)
Definition exec_MW (f3 A B : Z) : Z :=
  if f3 =? 0 then u32 (A * B)
  else if f3 =? 4 then
    if u32 B =? 0 then 0xFFFFFFFF
    else if (s32 A =? -2147483648) && (s32 B =? -1) then u32 A
    else
      let q := Z.abs (s32 A) `div` Z.abs (s32 B) in
      let q := if negb (Bool.eqb (s32 A <? 0) (s32 B <? 0)) then - q else q in
      u32 q
  else if f3 =? 5 then if u32 B =? 0 then 0xFFFFFFFF else u32 A `div` u32 B
  else if f3 =? 6 then
    if u32 B =? 0 then u32 A
    else if (s32 A =? -2147483648) && (s32 B =? -1) then 0
    else
      let r := Z.abs (s32 A) `mod` Z.abs (s32 B) in
      let r := if s32 A <? 0 then - r else r in
      u32 r
  else if u32 B =? 0 then u32 A else u32 A `mod` u32 B.

Definition rolw (A sh : Z) : Z :=
  let a := u32 A in
  if truthy sh then ((a << sh) .| (a >> (32 - sh))) .& 0xFFFFFFFF else a.

Definition rorw (A sh : Z) : Z :=
  let a := u32 A in
  if truthy sh then ((a >> sh) .| (a << (32 - sh))) .& 0xFFFFFFFF else a.

(** The OP-32 arm; every result but the [.uw] and [packw] ones is the
    sign-extended 32-bit [res32]. *)
Definition exec_OP32 (f7 f3 A B : Z) : result Z :=
  if f7 =? 0x1 then Ok (s32 (exec_MW f3 A B))
  else if (f3 =? 0) && (f7 =? 0) then Ok (s32 (u32 (A + B)))
  else if (f3 =? 0) && (f7 =? 0x20) then Ok (s32 (u32 (A - B)))
  else if f3 =? 1 then
    (* the source tests [f3 == 1] before the [rolw] arm *)
    Ok (s32 (u32 (u32 A << (B .& 0x1F))))
  else if (f3 =? 5) && (f7 =? 0) then Ok (s32 (u32 A >> (B .& 0x1F)))
  else if (f3 =? 5) && (f7 =? 0x20) then Ok (s32 (u32 (s32 A >> (B .& 0x1F))))
  else if (f7 =? 0x30) && (f3 =? 0x1) then Ok (s32 (rolw A (B .& 0x1F)))
  else if (f7 =? 0x30) && (f3 =? 0x5) then Ok (s32 (rorw A (B .& 0x1F)))
  else if (f7 =? 0x4) && (f3 =? 0x0) then Ok (u32 A + B)
  else if (f7 =? 0x10) && (f3 =? 0x2) then Ok ((u32 A << 1) + B)
  else if (f7 =? 0x10) && (f3 =? 0x4) then Ok ((u32 A << 2) + B)
  else if (f7 =? 0x10) && (f3 =? 0x6) then Ok ((u32 A << 3) + B)
  else if (f7 =? 0x4) && (f3 =? 0x4) then
    let lo := A .& 0xFFFF in
    let hi := B .& 0xFFFF in
    Ok (sext ((hi << 16) .| lo) 32)
  else Raise (ValueError ("unknown OP-32 f3=" ++ fmt_d f3 ++ " f7=" ++ fmt_d f7)).

(** [clz]: the loop [for i in range(n - 1, -1, -1)] that counts until the
    first set bit. *)
Fixpoint clz_loop (A : Z) (l : list Z) (count : Z) : Z :=
  match l with
  | [] => count
  | i :: l' => if truthy ((A >> i) .& 1) then count else clz_loop A l' (count + 1)
  end.
Definition clz (n A : Z) : Z := clz_loop A (rev (range n)) 0.

(** [ctz]: the loop [for i in range(n)] with its [done] flag. *)
Definition ctz_step (A : Z) (st : Z * bool) (i : Z) : Z * bool :=
  let '(count, done) := st in
  if ((A >> i) .& 1 =? 0) && negb done then (count + 1, done) else (count, true).
Definition ctz (n A : Z) : Z := fst (fold_left (ctz_step A) (range n) (0, false)).

(** [bin(v).count("1")]. *)
Definition cpop (v : Z) : Z := str_count "1" (fmt_hash_b v).

Definition orc_b (xl A : Z) : Z :=
  let a := uXLEN A xl in
  fold_left (fun out i =>
    let byte := (a >> (i * 8)) .& 0xFF in
    out .| ((if negb (byte =? 0) then 0xFF else 0x00) << (i * 8))) (range (xl `div` 8)) 0.

Definition rev8 (xl A : Z) : Z :=
  let a := uXLEN A xl in
  let nbytes := xl `div` 8 in
  fold_left (fun out i =>
    out .| (((a >> (i * 8)) .& 0xFF) << ((nbytes - 1 - i) * 8))) (range nbytes) 0.

(** The dictionary of SHA functions the [rs2] field selects from. *)
Definition sha_fn (rs2_c : Z) : option (Z -> Z) :=
  if rs2_c =? 0 then Some sha256sum0 else if rs2_c =? 1 then Some sha256sum1
  else if rs2_c =? 2 then Some sha256sig0 else if rs2_c =? 3 then Some sha256sig1
  else if rs2_c =? 4 then Some sha512sum0 else if rs2_c =? 5 then Some sha512sum1
  else if rs2_c =? 6 then Some sha512sig0 else if rs2_c =? 7 then Some sha512sig1
  else None.

(** The I-type arm. *)
Definition exec_I (xl word f3 f7 imm_i A : Z) : result Z :=
  let sx v := sXLEN v xl in
  let ux v := uXLEN v xl in
  let imm12 := (word >> 20) .& 0xFFF in
  let f6 := (word >> 26) .& 0x3F in
  let sub5 := imm12 .& 0x1F in
  if ((f3 =? 1) || (f3 =? 5)) && (f6 =? 0x12) then
    let sh := imm12 .& (xl - 1) in
    if f3 =? 1 then Ok (A .& .~ (1 << sh)) else Ok ((A >> sh) .& 1)
  else if (f3 =? 1) && (f6 =? 0x1a) then Ok (A .^ (1 << (imm12 .& (xl - 1))))
  else if (f3 =? 1) && (f6 =? 0xa) then Ok (A .| (1 << (imm12 .& (xl - 1))))
  else if (f3 =? 1) && (f6 =? 0x18) && (sub5 =? 0x0) then Ok (clz xl A)
  else if (f3 =? 1) && (f6 =? 0x18) && (sub5 =? 0x1) then Ok (ctz xl A)
  else if (f3 =? 1) && (f6 =? 0x18) && (sub5 =? 0x2) then Ok (cpop (ux A))
  else if (f3 =? 1) && (f6 =? 0x18) && (sub5 =? 0x4) then Ok (sext (A .& 0xFF) 8)
  else if (f3 =? 1) && (f6 =? 0x18) && (sub5 =? 0x5) then Ok (sext (A .& 0xFFFF) 16)
  else if (f3 =? 5) && (f6 =? 0x18) then Ok (ror xl A (imm12 .& (xl - 1)))
  else if (f3 =? 5) && (imm12 =? 0x287) then Ok (orc_b xl A)
  else if (f3 =? 5) && (imm12 =? if xl =? 32 then 0x698 else 0x6B8) then Ok (rev8 xl A)
  else if (f3 =? 5) && (imm12 =? 0x687) then Ok (brev8 (ux A) xl)
  else if (f3 =? 1) && (f6 =? 0x4) then
    let rs2_c := (word >> 20) .& 0x1F in
    match sha_fn rs2_c with
    | None => Raise (ValueError ("unknown sha rs2_c=" ++ fmt_d rs2_c))
    | Some fn => let res := fn A in Ok (if rs2_c <? 4 then sext res 32 else res)
    end
  else if (f3 =? 1) && (f6 =? 0xc) then
    let rs2_c := (word >> 20) .& 0x1F in
    if rs2_c =? 0 then Ok (aes64im A) else Ok (aes64ks1i A (rs2_c .& 0xF))
  else if (f3 =? 1) || (f3 =? 5) then
    let shamt := if xl >=? 64 then (word >> 20) .& 0x3F else (word >> 20) .& 0x1F in
    let is_alt := if xl >=? 64 then f6 =? 0x10 else f7 =? 0x20 in
    if f3 =? 1 then Ok (ux (A << shamt))
    else if is_alt then Ok (ux (sx A >> shamt))
    else Ok (ux A >> shamt)
  else if f3 =? 0 then Ok (ux (A + imm_i))
  else if f3 =? 2 then Ok (bool_int (sx A <? imm_i))
  else if f3 =? 3 then Ok (bool_int (ux A <? ux imm_i))
  else if f3 =? 4 then Ok (ux (A .^ ux imm_i))
  else if f3 =? 6 then Ok (ux (A .| ux imm_i))
  else if f3 =? 7 then Ok (ux (A .& ux imm_i))
  else Raise (ValueError ("unknown I-type f3=" ++ fmt_d f3)).

(** The OP-IMM-32 arm. *)
Definition exec_OPIMM32 (word f3 f7 rs2 imm_i A : Z) : result Z :=
  let shamt := (word >> 20) .& 0x1F in
  if (f3 =? 1) && (f7 =? 0x30) && (rs2 =? 0x0) then Ok (clz 32 A)
  else if (f3 =? 1) && (f7 =? 0x30) && (rs2 =? 0x1) then Ok (ctz 32 (u32 A))
  else if (f3 =? 1) && (f7 =? 0x30) && (rs2 =? 0x2) then Ok (cpop (u32 A))
  else if (f3 =? 5) && (f7 =? 0x30) then Ok (s32 (rorw A shamt))
  else if (f3 =? 1) && ((word >> 26) .& 0x3F =? 0x2) then
    Ok (u32 A << ((word >> 20) .& 0x3F))
  else if (f3 =? 1) || (f3 =? 5) then
    if f3 =? 1 then Ok (s32 (u32 (u32 A << shamt)))
    else if f7 =? 0x20 then Ok (s32 (u32 (s32 A >> shamt)))
    else Ok (s32 (u32 A >> shamt))
  else if f3 =? 0 then Ok (s32 (u32 (A + imm_i)))
  else Raise (ValueError ("unknown OP-IMM-32 f3=" ++ fmt_d f3)).

(** ** Reference definitions *)

(** The carry-less product: the sum over GF(2)[x] of the shifts of [A] that
    [B] selects, unbounded. *)
Definition clprod (n A B : Z) : Z :=
  fold_left (fun acc i => if Z.testbit B i then acc .^ (A << i) else acc) (range n) 0.

(** The number of set bits below [n]. *)
Definition popcount (n v : Z) : Z :=
  fold_right (fun i acc => Z.b2z (Z.testbit v i) + acc) 0 (range n).

(** Byte [i] of a word. *)
Definition byte_at (v i : Z) : Z := (v >> (8 * i)) .& 0xFF.

(** ** Lemmas: multiplication and division *)

Section MulDiv.
Context (xl A B : Z).
Context (Hxl : 0 < xl) (HA : 0 <= A < 2 ^ xl) (HB : 0 <= B < 2 ^ xl).

Lemma wrap_minus_1 : wrap xl (-1) = 2 ^ xl - 1.
Proof.
  clear A B HA HB. pose proof (pow2_pos xl ltac:(lia)). unfold wrap. symmetry.
  apply Z.mod_unique_pos with (-1); lia.
Qed.

Lemma sx_zero : swrap xl B = 0 <-> B = 0.
Proof.
  clear HA. rewrite swrap_of_unsigned by lia. case_match; lia.
Qed.

Lemma sign_quot a b : b <> 0 ->
  (if negb (Bool.eqb (a <? 0) (b <? 0)) then - (Z.abs a `div` Z.abs b)
   else Z.abs a `div` Z.abs b) = Z.quot a b.
Proof.
  clear. intros Hb. rewrite Z.quot_div by lia.
  destruct (Z.ltb_spec a 0), (Z.ltb_spec b 0); cbn [Bool.eqb negb].
  - rewrite (Z.sgn_neg a), (Z.sgn_neg b) by lia. lia.
  - rewrite (Z.sgn_neg a), (Z.sgn_pos b) by lia. lia.
  - destruct (Z.eq_dec a 0) as [->|].
    + rewrite Zdiv_0_l; lia.
    + rewrite (Z.sgn_pos a), (Z.sgn_neg b) by lia. lia.
  - destruct (Z.eq_dec a 0) as [->|].
    + rewrite Zdiv_0_l; lia.
    + rewrite (Z.sgn_pos a), (Z.sgn_pos b) by lia. lia.
Qed.

Lemma sign_rem a b : b <> 0 ->
  (if a <? 0 then - (Z.abs a `mod` Z.abs b) else Z.abs a `mod` Z.abs b) = Z.rem a b.
Proof.
  clear. intros Hb. rewrite Z.rem_mod by lia.
  destruct (Z.ltb_spec a 0).
  - rewrite (Z.sgn_neg a) by lia. lia.
  - destruct (Z.eq_dec a 0) as [->|]; [rewrite Zmod_0_l; lia|].
    rewrite (Z.sgn_pos a) by lia. lia.
Qed.

Lemma exec_div_quot : B <> 0 ->
  exec_M xl 4 A B = wrap xl (Z.quot (swrap xl A) (swrap xl B)).
Proof.
  intros HB0. unfold exec_M. cbn -[sXLEN uXLEN Z.pow Z.div Z.shiftl].
  rewrite !sXLEN_swrap, !uXLEN_wrap by lia.
  rewrite (proj2 (Z.eqb_neq B 0)) by done. rewrite Z.shiftl_1_l.
  pose proof (pow2_split xl Hxl). pose proof (pow2_pos (xl - 1) ltac:(lia)).
  pose proof (proj1 sx_zero).
  destruct (Z.eqb_spec (swrap xl A) (- 2 ^ (xl - 1))) as [HaE|].
  - destruct (Z.eqb_spec (swrap xl B) (-1)) as [HbE|]; cbn [andb].
    + rewrite HaE, HbE. change (-1) with (- (1)).
      rewrite Z.quot_opp_opp, Z.quot_1_r by lia.
      rewrite swrap_of_unsigned in HaE by lia.
      rewrite wrap_small by lia. revert HaE. case_match; lia.
    + by rewrite sign_quot by tauto.
  - cbn [andb]. by rewrite sign_quot by tauto.
Qed.

Lemma exec_rem_rem : B <> 0 ->
  exec_M xl 6 A B = wrap xl (Z.rem (swrap xl A) (swrap xl B)).
Proof.
  intros HB0. unfold exec_M. cbn -[sXLEN uXLEN Z.pow Z.div Z.modulo Z.shiftl].
  rewrite !sXLEN_swrap, !uXLEN_wrap by lia.
  rewrite (proj2 (Z.eqb_neq B 0)) by done. rewrite Z.shiftl_1_l.
  pose proof (pow2_pos xl ltac:(lia)). pose proof (proj1 sx_zero).
  destruct (Z.eqb_spec (swrap xl A) (- 2 ^ (xl - 1))) as [HaE|].
  - destruct (Z.eqb_spec (swrap xl B) (-1)) as [HbE|]; cbn [andb].
    + rewrite HaE, HbE. change (-1) with (- (1)).
      rewrite Z.rem_opp_r, Z.rem_1_r by lia. by rewrite wrap_small by lia.
    + by rewrite sign_rem by tauto.
  - cbn [andb]. by rewrite sign_rem by tauto.
Qed.

(** The high half of a product whose magnitude fits. *)
Lemma mul_high p :
  - 2 ^ (xl - 1) * 2 ^ xl <= p < 2 ^ (xl - 1) * 2 ^ xl ->
  p = swrap xl (wrap xl (p >> xl)) * 2 ^ xl + wrap xl p.
Proof.
  clear A B HA HB. intros Hp. rewrite shiftr_pow by lia. rewrite swrap_wrap by lia.
  pose proof (pow2_pos xl ltac:(lia)).
  rewrite swrap_small; [|lia|].
  - unfold wrap. pose proof (Z.div_mod p (2 ^ xl)). lia.
  - split; [apply Z.div_le_lower_bound; lia|apply Z.div_lt_upper_bound; lia].
Qed.

Lemma wrap_mul_swrap_l : wrap xl (swrap xl A * B) = wrap xl (A * B).
Proof.
  apply wrap_eq; [lia|]. destruct (swrap_congr xl A Hxl) as [k ->].
  exists (k * B). lia.
Qed.

Lemma wrap_mul_swrap : wrap xl (swrap xl A * swrap xl B) = wrap xl (A * B).
Proof.
  apply wrap_eq; [lia|]. destruct (swrap_congr xl A Hxl) as [k ->].
  destruct (swrap_congr xl B Hxl) as [k' ->].
  exists (k * B + A * k' + k * k' * 2 ^ xl). lia.
Qed.

Lemma wrap_quot_rem :
  B <> 0 ->
  wrap xl (B * wrap xl (Z.quot (swrap xl A) (swrap xl B))
           + wrap xl (Z.rem (swrap xl A) (swrap xl B))) = A.
Proof.
  intros HB0. rewrite <- (wrap_small xl A) at 3 by done. apply wrap_eq; [lia|].
  destruct (wrap_congr xl (Z.quot (swrap xl A) (swrap xl B)) ltac:(lia)) as [k ->].
  destruct (wrap_congr xl (Z.rem (swrap xl A) (swrap xl B)) ltac:(lia)) as [k' ->].
  pose proof (Z.quot_rem (swrap xl A) (swrap xl B) ltac:(rewrite sx_zero; done)) as Hqr.
  destruct (swrap_congr xl A Hxl) as [a Ha]. destruct (swrap_congr xl B Hxl) as [b Hb].
  set (q := Z.quot _ _) in *. set (r := Z.rem _ _) in *.
  exists (B * k + k' + a - b * q). nia.
Qed.
End MulDiv.

(** [C18] RV32M/RV64M division: for in-range operands [div] and [rem] are the
    truncating quotient and remainder of the signed readings, wrapped, so
    the overflow case is the minimum integer with remainder 0; [divu] and
    [remu] are the unsigned ones; a zero divisor gives all ones and the
    dividend; and always dividend = divisor * quotient + remainder modulo
    2^XLEN. *)
Theorem division_spec xl A B :
  0 < xl -> in_width xl A -> in_width xl B ->
  exec_M xl 4 A B
    = (if B =? 0 then 2 ^ xl - 1 else wrap xl (Z.quot (swrap xl A) (swrap xl B))) /\
  exec_M xl 6 A B = (if B =? 0 then A else wrap xl (Z.rem (swrap xl A) (swrap xl B))) /\
  exec_M xl 5 A B = (if B =? 0 then 2 ^ xl - 1 else A `div` B) /\
  exec_M xl 7 A B = (if B =? 0 then A else A `mod` B) /\
  wrap xl (B * exec_M xl 4 A B + exec_M xl 6 A B) = A /\
  wrap xl (B * exec_M xl 5 A B + exec_M xl 7 A B) = A.
Proof.
  intros Hxl HA HB.
  pose proof (pow2_pos xl ltac:(lia)).
  assert (H4 : exec_M xl 4 A B
    = (if B =? 0 then 2 ^ xl - 1 else wrap xl (Z.quot (swrap xl A) (swrap xl B)))).
  { destruct (Z.eqb_spec B 0) as [->|]; [|by apply exec_div_quot].
    unfold exec_M; cbn -[uXLEN Z.pow]. rewrite uXLEN_wrap by lia. by apply wrap_minus_1. }
  assert (H6 : exec_M xl 6 A B
    = (if B =? 0 then A else wrap xl (Z.rem (swrap xl A) (swrap xl B)))).
  { destruct (Z.eqb_spec B 0) as [->|]; [done|by apply exec_rem_rem]. }
  assert (H5 : exec_M xl 5 A B = (if B =? 0 then 2 ^ xl - 1 else A `div` B)).
  { unfold exec_M; cbn -[uXLEN Z.pow Z.div]. rewrite !uXLEN_wrap, !wrap_minus_1 by lia.
    by rewrite !wrap_small by done. }
  assert (H7 : exec_M xl 7 A B = (if B =? 0 then A else A `mod` B)).
  { unfold exec_M; cbn -[uXLEN Z.pow Z.modulo]. rewrite !uXLEN_wrap by lia.
    by rewrite !wrap_small by done. }
  split_and!; try done; rewrite ?H4, ?H5, ?H6, ?H7; destruct (Z.eqb_spec B 0) as [->|HB0].
  - by apply wrap_small.
  - by apply wrap_quot_rem.
  - by apply wrap_small.
  - rewrite <- Z.div_mod by done. by apply wrap_small.
Qed.

Lemma division_spec_witness :
  exec_M 32 4 0x80000000 0xFFFFFFFF = 0x80000000 /\
  wrap 32 (0xFFFFFFF9 * exec_M 32 4 20 0xFFFFFFF9 + exec_M 32 6 20 0xFFFFFFF9) = 20.
Proof.
  split.
  - rewrite (proj1 (division_spec 32 0x80000000 0xFFFFFFFF ltac:(lia) ltac:(by vm_compute)
      ltac:(by vm_compute))). reflexivity.
  - apply (division_spec 32 20 0xFFFFFFF9); [lia|by vm_compute..].
Defined.

(** The multiplications return the two halves of the exact product:
    with [mul] the low half, [mulh], [mulhsu] and [mulhu] are the high
    halves of the signed, signed-by-unsigned and unsigned product. *)
Theorem product_halves xl A B :
  0 < xl -> in_width xl A -> in_width xl B ->
  swrap xl A * swrap xl B = swrap xl (exec_M xl 1 A B) * 2 ^ xl + exec_M xl 0 A B /\
  swrap xl A * B = swrap xl (exec_M xl 2 A B) * 2 ^ xl + exec_M xl 0 A B /\
  A * B = exec_M xl 3 A B * 2 ^ xl + exec_M xl 0 A B.
Proof.
  intros Hxl HA HB.
  pose proof (pow2_pos xl ltac:(lia)). pose proof (pow2_split xl Hxl).
  pose proof (swrap_range xl A Hxl). pose proof (swrap_range xl B Hxl).
  unfold exec_M; cbn -[uXLEN sXLEN Z.pow Z.shiftr].
  rewrite !sXLEN_swrap, !uXLEN_wrap, !(wrap_small xl A), !(wrap_small xl B) by done || lia.
  unfold in_width in *. split_and!.
  - rewrite <- (wrap_mul_swrap xl A B) by lia. apply mul_high; nia.
  - rewrite <- (wrap_mul_swrap_l xl A B) by lia. apply mul_high; nia.
  - rewrite shiftr_pow by lia. unfold wrap. pose proof (Z.div_mod (A * B) (2 ^ xl)). lia.
Qed.

Lemma product_halves_witness :
  swrap 64 (2 ^ 64 - 3) * swrap 64 7
    = swrap 64 (exec_M 64 1 (2 ^ 64 - 3) 7) * 2 ^ 64 + exec_M 64 0 (2 ^ 64 - 3) 7.
Proof. apply (product_halves 64 (2 ^ 64 - 3) 7); [lia|by vm_compute..]. Defined.

(** ** Word forms of the M extension *)

(** The [*w] instructions are the 32-bit multiplication and division of
    the low words (the source writes them out a second time). *)
Theorem word_M_is_M32 f3 A B :
  f3 = 0 \/ 4 <= f3 < 8 -> exec_MW f3 A B = exec_M 32 f3 (u32 A) (u32 B).
Proof.
  assert (Hs : forall v, sXLEN (u32 v) 32 = s32 v).
  { intros. rewrite sXLEN_swrap, u32_wrap, s32_swrap by lia. by apply swrap_wrap. }
  assert (Hu : forall v, uXLEN (u32 v) 32 = u32 v).
  { intros. rewrite uXLEN_wrap, u32_wrap by lia. by apply wrap_wrap. }
  intros [->|Hf]; [|assert (f3 = 4 \/ f3 = 5 \/ f3 = 6 \/ f3 = 7) as [->|[->|[->| -> ] ] ] by lia];
    unfold exec_MW, exec_M; cbv beta zeta; cbn [Z.eqb Pos.eqb];
    rewrite ?Hs, ?Hu; try reflexivity.
  rewrite uXLEN_wrap, u32_wrap, !u32_wrap by lia. unfold wrap. apply Z.mul_mod. done.
Qed.

Lemma word_M_is_M32_witness : exec_MW 4 0x1FFFFFFF7 2 = exec_M 32 4 (u32 0x1FFFFFFF7) (u32 2).
Proof. apply (word_M_is_M32 4); lia. Defined.

(** ** Lemmas: rotations *)

Section Rotate.
Context (xl A sh : Z).
Context (Hxl : 0 < xl) (Hsh : 0 <= sh < xl).

Lemma rol_testbit i : 0 <= i < xl ->
  Z.testbit (rol xl A sh) i = Z.testbit A ((i - sh) `mod` xl).
Proof.
  intros Hi. unfold rol, truthy. rewrite uXLEN_wrap by lia.
  destruct (Z.eqb_spec sh 0) as [->|Hne]; cbn [negb].
  - rewrite wrap_testbit, Z.sub_0_r, Z.mod_small by lia.
    by destruct (Z.ltb_spec i xl); [|lia].
  - rewrite Z.lor_spec, Z.shiftl_spec, Z.shiftr_spec, !wrap_testbit by lia.
    destruct (Z.ltb_spec i sh).
    + rewrite (Z.testbit_neg_r A (i - sh)), andb_false_r by lia.
      replace ((i - sh) `mod` xl) with (i + (xl - sh));
        [destruct (Z.ltb_spec (i + (xl - sh)) xl); [done|lia]|].
      apply Z.mod_unique_pos with (-1); lia.
    + rewrite (Z.mod_small (i - sh)) by lia.
      destruct (Z.ltb_spec (i - sh) xl), (Z.ltb_spec (i + (xl - sh)) xl); try lia.
      by rewrite orb_false_r.
Qed.

Lemma ror_testbit i : 0 <= i < xl ->
  Z.testbit (ror xl A sh) i = Z.testbit A ((i + sh) `mod` xl).
Proof.
  intros Hi. unfold ror, truthy. rewrite uXLEN_wrap by lia.
  destruct (Z.eqb_spec sh 0) as [->|Hne]; cbn [negb].
  - rewrite wrap_testbit, Z.add_0_r, Z.mod_small by lia.
    by destruct (Z.ltb_spec i xl); [|lia].
  - rewrite Z.lor_spec, Z.shiftl_spec, Z.shiftr_spec, !wrap_testbit by lia.
    destruct (Z.ltb_spec (i + sh) xl).
    + rewrite (Z.mod_small (i + sh)) by lia.
      rewrite (Z.testbit_neg_r A (i - _)), andb_false_r by lia. by rewrite orb_false_r.
    + replace ((i + sh) `mod` xl) with (i - (xl - sh));
        [destruct (Z.ltb_spec (i - (xl - sh)) xl); [done|lia]|].
      apply Z.mod_unique_pos with 1; lia.
Qed.
End Rotate.

Lemma wrap_ext n a b :
  0 <= n -> (forall i, 0 <= i < n -> Z.testbit a i = Z.testbit b i) -> wrap n a = wrap n b.
Proof.
  intros Hn H. apply Z.bits_inj'; intros i Hi. rewrite !wrap_testbit by lia.
  destruct (Z.ltb_spec i n); [|done]. by rewrite H by lia.
Qed.

(** [rol] and [ror] move bit [j] to [j + sh] and [j - sh] modulo XLEN,
    and the register value one writes is undone by the other. *)
Theorem rotate_spec xl A sh :
  0 < xl -> 0 <= sh < xl -> in_width xl A ->
  (forall j, 0 <= j < xl ->
     Z.testbit (rol xl A sh) ((j + sh) `mod` xl) = Z.testbit A j /\
     Z.testbit (ror xl A sh) ((j - sh) `mod` xl) = Z.testbit A j) /\
  uXLEN (ror xl (uXLEN (rol xl A sh) xl) sh) xl = A /\
  uXLEN (rol xl (uXLEN (ror xl A sh) xl) sh) xl = A.
Proof.
  intros Hxl Hsh HA. rewrite !uXLEN_wrap by lia.
  assert (Hm : forall k, 0 <= k `mod` xl < xl) by (intros; apply Z.mod_pos_bound; lia).
  split_and!.
  - intros j Hj. rewrite rol_testbit, ror_testbit by done. split.
    + rewrite Zminus_mod_idemp_l. rewrite Z.add_simpl_r, Z.mod_small by done. done.
    + rewrite Zplus_mod_idemp_l. replace (j - sh + sh) with j by lia.
      by rewrite Z.mod_small.
  - rewrite <- (wrap_small xl A) at 2 by done. apply wrap_ext; [lia|]. intros i Hi.
    rewrite ror_testbit, wrap_testbit by lia.
    rewrite (proj2 (Z.ltb_lt _ _) (proj2 (Hm (i + sh)))). cbn [andb].
    rewrite rol_testbit by done. rewrite Zminus_mod_idemp_l, Z.add_simpl_r.
    by rewrite Z.mod_small.
  - rewrite <- (wrap_small xl A) at 2 by done. apply wrap_ext; [lia|]. intros i Hi.
    rewrite rol_testbit, wrap_testbit by lia.
    rewrite (proj2 (Z.ltb_lt _ _) (proj2 (Hm (i - sh)))). cbn [andb].
    rewrite ror_testbit by done. rewrite Zplus_mod_idemp_l.
    replace (i - sh + sh) with i by lia. by rewrite Z.mod_small.
Qed.

Lemma rotate_spec_witness :
  uXLEN (ror 32 (uXLEN (rol 32 0x80000001 4) 32) 4) 32 = 0x80000001.
Proof. apply (rotate_spec 32 0x80000001 4); [lia|lia|by vm_compute]. Defined.

(** ** Carry-less multiplication *)

Lemma clmul_step_eq A B x y :
  0 <= y -> (if truthy ((B >> y) .& 1) then x .^ (A << y) else x)
            = (if Z.testbit B y then x .^ (A << y) else x).
Proof. intros. by rewrite bit_b2z, truthy_b2z by done. Qed.

Lemma clmul_clprod xl A B : 0 <= xl -> clmul xl A B = wrap xl (clprod xl A B).
Proof.
  intros. unfold clmul, clprod. rewrite uXLEN_wrap by done. f_equal.
  apply fold_left_ext_in. intros x y Hy%elem_of_range. apply clmul_step_eq; lia.
Qed.

Lemma clprod_high n xl A B : 0 <= A < 2 ^ xl -> 0 <= n < xl ->
  clprod (n + 1) A B >> xl
    = fold_left (fun res i => if truthy ((B >> i) .& 1) then res .^ (A >> (xl - i)) else res)
        (seqZ 1 n) 0.
Proof.
  intros HA [Hn Hlt]. revert n Hn Hlt. apply (range_ind (fun n => _ -> _)).
  - intros _. unfold clprod, range. change (seqZ 0 (0 + 1)) with [0]. cbn [fold_left seqZ].
    change (seqZ 1 0) with (@nil Z); cbn [fold_left].
    rewrite shiftr_pow by (assert (~ xl < 0) by (intros ?; rewrite Z.pow_neg_r in HA; lia); lia).
    case_match; rewrite ?Z.lxor_0_l, ?Z.shiftl_0_r; [by apply Z.div_small|apply Zdiv_0_l].
  - intros n Hn IH Hlt. unfold clprod in *. rewrite range_snoc, fold_left_app by lia.
    cbn [fold_left]. replace (seqZ 1 (n + 1)) with (seqZ 1 n ++ [n + 1]).
    + rewrite fold_left_app. cbn [fold_left]. rewrite <- IH by lia.
      rewrite bit_b2z, truthy_b2z by lia. destruct (Z.testbit B (n + 1)); [|done].
      rewrite Z.shiftr_lxor. f_equal. rewrite Z.shiftr_shiftl_r by lia. done.
    + rewrite <- (Z2Nat.id n) by lia.
      replace (Z.of_nat (Z.to_nat n) + 1) with (Z.of_nat (S (Z.to_nat n))) by lia.
      rewrite seqZ_S. repeat f_equal. lia.
Qed.

Lemma clprod_bound n xl A B : 0 <= A < 2 ^ xl -> 0 <= xl -> 0 <= n <= xl ->
  0 <= clprod n A B < 2 ^ (xl + xl).
Proof.
  intros HA Hxl [Hn Hle]. revert n Hn Hle. apply (range_ind (fun n => _ -> _)).
  - intros _. change (clprod 0 A B) with 0. pose proof (pow2_pos (xl + xl) ltac:(lia)). lia.
  - intros n Hn IH Hle. unfold clprod in *. rewrite range_snoc, fold_left_app by lia.
    cbn [fold_left]. specialize (IH ltac:(lia)). case_match; [|done].
    apply lxor_bound; [lia|done|]. apply shiftl_bound; [lia..|].
    assert (2 ^ xl <= 2 ^ (xl + xl - n)) by (apply Z.pow_le_mono_r; lia). lia.
Qed.

Lemma clmulh_clprod xl A B : 0 < xl -> in_width xl A ->
  clmulh xl A B = clprod xl A B `div` 2 ^ xl.
Proof.
  intros Hxl HA. unfold clmulh. rewrite uXLEN_wrap by lia.
  rewrite <- (clprod_high (xl - 1) xl) by (done || lia). rewrite Z.sub_add.
  pose proof (clprod_bound xl xl A B HA ltac:(lia) ltac:(lia)) as Hb.
  rewrite (wrap_small xl (_ >> _)) by (apply shiftr_bound; lia). apply shiftr_pow; lia.
Qed.

(** [clmul] and [clmulh] are the low and high half of the full
    carry-less product of the operands: truncating each partial product, as
    the loops do, loses nothing. *)
Theorem clmul_halves xl A B :
  0 < xl -> in_width xl A -> clprod xl A B = clmulh xl A B * 2 ^ xl + clmul xl A B.
Proof.
  intros Hxl HA. rewrite clmul_clprod, clmulh_clprod by (done || lia).
  unfold wrap. pose proof (pow2_pos xl ltac:(lia)).
  pose proof (Z.div_mod (clprod xl A B) (2 ^ xl)). lia.
Qed.

Lemma clmul_halves_witness :
  clprod 64 0xFFFFFFFFFFFFFFFF 0x8000000000000003
    = clmulh 64 0xFFFFFFFFFFFFFFFF 0x8000000000000003 * 2 ^ 64
      + clmul 64 0xFFFFFFFFFFFFFFFF 0x8000000000000003.
Proof. apply (clmul_halves 64); [lia|by vm_compute]. Defined.

(** ** Bit counts *)

Lemma clz_loop_spec A k count : 0 <= k ->
  clz_loop A (rev (range k)) count
    = count + (if wrap k A =? 0 then k else k - 1 - Z.log2 (wrap k A)).
Proof.
  intros Hk. revert count. revert k Hk. apply (range_ind (fun k => forall count, _)).
  - intros count. change (clz_loop A (rev (range 0)) count) with count.
    unfold wrap. rewrite Z.pow_0_r, Z.mod_1_r. change (0 =? 0) with true. cbv iota. lia.
  - intros k Hk IH count. rewrite range_snoc, rev_unit by done. cbn [clz_loop].
    rewrite bit_b2z, truthy_b2z by done.
    assert (Hw : wrap (k + 1) A = wrap k A + Z.b2z (Z.testbit A k) * 2 ^ k).
    { unfold wrap. rewrite Z.testbit_spec' by done. rewrite Z.pow_add_r by lia.
      rewrite Z.rem_mul_r by (pose proof (pow2_pos k Hk); lia). change (2 ^ 1) with 2. lia. }
    pose proof (wrap_range k A Hk) as Hr. rewrite Hw.
    destruct (Z.testbit A k); cbn [Z.b2z].
    + destruct (Z.eqb_spec (wrap k A + 1 * 2 ^ k) 0); [lia|].
      rewrite (Z.log2_unique _ k); [lia|done|]. rewrite Z.pow_succ_r by done. lia.
    + rewrite Z.mul_0_l, Z.add_0_r, IH. case_match; lia.
Qed.

(** The state of the [ctz] loop after the bits below [k]. *)
Lemma ctz_loop_spec A k : 0 <= k ->
  let '(count, done) := fold_left (ctz_step A) (range k) (0, false) in
  0 <= count <= k /\ (forall j, 0 <= j < count -> Z.testbit A j = false) /\
  (if done then count < k /\ Z.testbit A count = true else count = k).
Proof.
  revert k. apply range_ind; [cbn; split_and!; lia|].
  intros k Hk. rewrite range_snoc, fold_left_app by done. cbn [fold_left].
  destruct (fold_left (ctz_step A) (range k) (0, false)) as [count done].
  intros (Hc & Hz & Hd). unfold ctz_step. rewrite bit_b2z by done.
  destruct done; cbn [negb]; [rewrite andb_false_r; split_and!; [lia..|done|lia|tauto]|].
  subst count. destruct (Z.testbit A k) eqn:E; cbn [Z.b2z Z.eqb andb].
  - split_and!; [lia..|done|lia|done].
  - split_and!; [lia..| |done]. intros j Hj.
    destruct (Z.eq_dec j k) as [->|]; [done|apply Hz; lia].
Qed.

Lemma popcount_snoc k v : 0 <= k -> popcount (k + 1) v = popcount k v + Z.b2z (Z.testbit v k).
Proof.
  intros. unfold popcount. rewrite range_snoc, fold_right_app by done. cbn [fold_right].
  generalize (range k) as l. induction l as [|i l IH]; cbn; [lia|]. lia.
Qed.

Lemma popcount_high n k v : 0 <= v < 2 ^ k -> 0 <= k <= n -> popcount n v = popcount k v.
Proof.
  intros Hv Hk. replace n with (k + (n - k)) by lia.
  assert (Hd : 0 <= n - k) by lia. revert Hd. generalize (n - k) as d.
  apply range_ind; [by rewrite Z.add_0_r|]. intros d Hd IH.
  rewrite Z.add_assoc, popcount_snoc by lia.
  rewrite (testbit_small v k) by lia. cbn [Z.b2z]. lia.
Qed.

(** Counting from the bottom bit instead of the top one. *)
Lemma popcount_cons k v : 0 <= k ->
  popcount (k + 1) v = Z.b2z (Z.testbit v 0) + popcount k (v `div` 2).
Proof.
  revert k. apply range_ind.
  - change (popcount (0 + 1) v) with (Z.b2z (Z.testbit v 0) + 0). by cbn.
  - intros k Hk IH. rewrite popcount_snoc, IH, (popcount_snoc k) by lia.
    replace (Z.testbit (v `div` 2) k) with (Z.testbit v (k + 1)); [lia|].
    change 2 with (2 ^ 1). rewrite Z.div_pow2_bits by lia. done.
Qed.

Lemma str_count_digit c n acc : 0 <= n < 2 ->
  c = "1"%char -> str_count c (String (digit_char n) acc) = n + str_count c acc.
Proof. intros Hn ->. assert (n = 0 \/ n = 1) as [->| ->] by lia; reflexivity. Qed.

Lemma str_count_digits2 fuel n acc :
  0 <= n < 2 ^ Z.of_nat (S fuel) ->
  str_count "1" (digits 2 (S fuel) n acc) = popcount (Z.of_nat (S fuel)) n + str_count "1" acc.
Proof.
  revert n acc. induction fuel as [|fuel IH]; intros n acc Hn;
    rewrite digits_S, Nat2Z.inj_succ; unfold Z.succ; rewrite popcount_cons by lia;
    rewrite <- Z.bit0_mod.
  - destruct (Z.eqb_spec (n `div` 2) 0) as [E|E].
    + rewrite str_count_digit by (done || destruct (Z.testbit n 0); done). rewrite E.
      change (popcount (Z.of_nat 0) 0) with 0. lia.
    + exfalso; apply E, Z.div_small. done.
  - destruct (Z.eqb_spec (n `div` 2) 0) as [E|E].
    + rewrite str_count_digit by (done || destruct (Z.testbit n 0); done).
      rewrite E, (popcount_high _ 0) by lia. change (popcount 0 0) with 0. lia.
    + rewrite IH.
      * rewrite str_count_digit by (done || destruct (Z.testbit n 0); done). lia.
      * split; [apply Z.div_pos; lia|]. apply Z.div_lt_upper_bound; [lia|].
        rewrite (Nat2Z.inj_succ (S _)), Z.pow_succ_r in Hn by lia. lia.
Qed.

Lemma cpop_popcount n v : 0 <= v < 2 ^ n -> 0 <= n -> cpop v = popcount n v.
Proof.
  intros Hv Hn. unfold cpop, fmt_hash_b, fmt_nat, digits_fuel.
  assert (Hl : v < 2 ^ Z.of_nat (S (Z.to_nat (Z.log2 v)))).
  { rewrite Nat2Z.inj_succ, Z2Nat.id by apply Z.log2_nonneg.
    destruct (Z.eq_dec v 0) as [->|]; [done|]. apply Z.log2_spec. lia. }
  rewrite str_count_app, str_count_digits2 by lia.
  set (f := Z.of_nat (S _)) in *.
  destruct (Z.le_ge_cases f n).
  - rewrite (popcount_high n f) by lia. cbn -[Z.add popcount]. lia.
  - rewrite (popcount_high f n) by lia. cbn -[Z.add popcount]. lia.
Qed.

(** [clz], [ctz] and [cpop] (and their word forms, which use the same
    loops on the low 32 bits): leading zeros are counted from the highest
    set bit, [ctz] is the index of the lowest set bit, and the population
    count that Python takes from the binary text is the number of set bits. *)
Theorem bit_counts xl A :
  0 <= xl -> in_width xl A ->
  clz xl A = (if A =? 0 then xl else xl - 1 - Z.log2 A) /\
  (if A =? 0 then ctz xl A = xl
   else Z.testbit A (ctz xl A) = true /\ 0 <= ctz xl A < xl /\
        forall j, 0 <= j < ctz xl A -> Z.testbit A j = false) /\
  cpop A = popcount xl A.
Proof.
  intros Hxl HA. split_and!.
  - unfold clz. rewrite clz_loop_spec by done. by rewrite wrap_small by done.
  - unfold ctz. pose proof (ctz_loop_spec A xl Hxl) as Hs.
    destruct (fold_left (ctz_step A) (range xl) (0, false)) as [count done]. cbn [fst].
    destruct Hs as (Hc & Hz & Hd). destruct (Z.eqb_spec A 0) as [->|HA0].
    + destruct done; [|lia]. destruct Hd as [_ Hd]. by rewrite Z.testbit_0_l in Hd.
    + destruct done; [split_and!; tauto || lia|]. subst count. exfalso. apply HA0.
      rewrite <- (wrap_small xl A) by done. change 0 with (wrap xl 0). apply wrap_ext; [done|].
      intros i Hi. rewrite Z.testbit_0_l. by apply Hz.
  - by apply cpop_popcount.
Qed.

Lemma bit_counts_witness :
  clz 64 0x10000 = 47 /\ cpop 0xFF00 = popcount 64 0xFF00.
Proof.
  split.
  - rewrite (proj1 (bit_counts 64 0x10000 ltac:(lia) ltac:(by vm_compute))). reflexivity.
  - apply (bit_counts 64 0xFF00); [lia|by vm_compute].
Defined.

(** ** Byte and nibble permutations *)

Lemma field_range w v : 0 <= w -> 0 <= v .& Z.ones w < 2 ^ w.
Proof. intros. rewrite land_mask by done. apply Z.mod_pos_bound, pow2_pos. done. Qed.

Lemma byte_range v : 0 <= v .& 0xFF < 2 ^ 8.
Proof. by apply (field_range 8). Qed.

Lemma byte_at_mod v i : byte_at v i = (v >> (8 * i)) `mod` 2 ^ 8.
Proof. unfold byte_at. by fold_masks. Qed.

Lemma div8 q r : 0 <= r < 8 -> (8 * q + r) `div` 8 = q.
Proof. intros. symmetry. apply Z.div_unique_pos with r; lia. Qed.

Lemma mod8 q r : 0 <= r < 8 -> (8 * q + r) `mod` 8 = r.
Proof. intros. symmetry. apply Z.mod_unique_pos with q; lia. Qed.

Lemma rev_byte_check :
  forallb (fun b => (rev_byte b <? 256) && (0 <=? rev_byte b) &&
    forallb (fun j => Bool.eqb (Z.testbit (rev_byte b) j) (Z.testbit b (7 - j))) (range 8))
    (range 256) = true.
Proof. vm_compute. reflexivity. Qed.

Lemma rev_byte_spec b j :
  0 <= b < 256 -> 0 <= j < 8 ->
  0 <= rev_byte b < 2 ^ 8 /\ Z.testbit (rev_byte b) j = Z.testbit b (7 - j).
Proof.
  intros Hb Hj. pose proof rev_byte_check as Hc. rewrite forallb_forall in Hc.
  specialize (Hc b ltac:(apply list_elem_of_In, elem_of_range; lia)).
  apply andb_true_iff in Hc as [[H1 H2]%andb_true_iff Hc]. rewrite forallb_forall in Hc.
  specialize (Hc j ltac:(apply list_elem_of_In, elem_of_range; lia)).
  apply Bool.eqb_prop in Hc. split; [lia|done].
Qed.

Section Bytes.
Context (n A : Z) (Hn : 0 < n) (HA : in_width (8 * n) A).

Lemma bytes_of_width : (8 * n) `div` 8 = n.
Proof. rewrite Z.mul_comm. by apply Z.div_mul. Qed.

Lemma uXLEN_bytes : uXLEN A (8 * n) = A.
Proof. rewrite uXLEN_wrap by lia. by apply wrap_small. Qed.

(** The descending store loop of [rev8] gathers the bytes ascending. *)
Lemma rev8_testbit k : 0 <= k < 8 * n ->
  Z.testbit (rev8 (8 * n) A) k = Z.testbit A (8 * (n - 1 - k `div` 8) + k `mod` 8).
Proof.
  intros Hk. unfold rev8. rewrite bytes_of_width, uXLEN_bytes.
  assert (Hloop : forall m, 0 <= m -> m <= n ->
    Z.testbit (fold_left (fun out i =>
      out .| (((A >> (i * 8)) .& 0xFF) << ((n - 1 - i) * 8))) (range m) 0) k
    = (8 * (n - m) <=? k) && Z.testbit A (8 * (n - 1 - k `div` 8) + k `mod` 8)).
  { apply (range_ind (fun m => _ -> _)).
    - intros _. cbn [range]. change (range 0) with (@nil Z). cbn [fold_left].
      rewrite Z.testbit_0_l. destruct (Z.leb_spec (8 * (n - 0)) k); [lia|done].
    - intros m Hm IH Hle. rewrite range_snoc, fold_left_app by done. cbn [fold_left].
      rewrite Z.lor_spec, IH, Z.shiftl_spec by lia.
      pose proof (Z.div_mod k 8). pose proof (Z.mod_pos_bound k 8).
      destruct (Z.leb_spec (8 * (n - m)) k), (Z.leb_spec (8 * (n - (m + 1))) k); try lia.
      + cbn [andb]. rewrite (testbit_small (_ .& _) 8) by (apply byte_range || lia).
        by rewrite orb_false_r.
      + cbn [andb orb]. fold_masks. rewrite Z.testbit_mod_pow2, Z.shiftr_spec by lia.
        destruct (Z.ltb_spec (k - (n - 1 - m) * 8) 8); [|lia]. cbn [andb]. f_equal. lia.
      + cbn [andb orb]. by rewrite Z.testbit_neg_r by lia. }
  rewrite Hloop by lia. destruct (Z.leb_spec (8 * (n - n)) k); [done|lia].
Qed.

Lemma brev8_testbit k : 0 <= k < 8 * n ->
  Z.testbit (brev8 A (8 * n)) k = Z.testbit A (8 * (k `div` 8) + (7 - k `mod` 8)).
Proof.
  intros Hk. unfold brev8. rewrite bytes_of_width.
  rewrite (fold_left_ext_in _
    (fun out i => out .| (rev_byte ((A >> (8 * i)) .& 0xFF) << (8 * i)))) by
    (intros; by rewrite (Z.mul_comm 8)).
  fold (gather 8 n (fun i => rev_byte ((A >> (8 * i)) .& 0xFF))).
  assert (Hb : forall i, 0 <= (A >> (8 * i)) .& 0xFF < 256) by (intros; apply byte_range).
  rewrite gather_testbit; [|lia|lia| |lia].
  - pose proof (Z.mod_pos_bound k 8). pose proof (Z.div_mod k 8).
    destruct (Z.ltb_spec k (8 * n)); [|lia]. cbn [andb].
    rewrite (proj2 (rev_byte_spec _ (k `mod` 8) (Hb _) ltac:(lia))).
    fold_masks. rewrite Z.testbit_mod_pow2, Z.shiftr_spec by lia.
    destruct (Z.ltb_spec (7 - k `mod` 8) 8); [|lia]. cbn [andb]. f_equal. lia.
  - intros i _. apply (rev_byte_spec _ 0 (Hb i)). lia.
Qed.

Lemma rev8_width : in_width (8 * n) (rev8 (8 * n) A).
Proof.
  unfold rev8. rewrite bytes_of_width, uXLEN_bytes.
  assert (Hloop : forall m, 0 <= m -> m <= n -> in_width (8 * n) (fold_left (fun out i =>
      out .| (((A >> (i * 8)) .& 0xFF) << ((n - 1 - i) * 8))) (range m) 0)).
  { apply (range_ind (fun m => _ -> _)).
    - intros _. split; [done|apply pow2_pos; lia].
    - intros m Hm IH Hle. rewrite range_snoc, fold_left_app by done. cbn [fold_left].
      apply lor_bound; [lia|apply IH; lia|]. apply shiftl_bound; [lia..|].
      pose proof (byte_range (A >> (m * 8))).
      assert (2 ^ 8 <= 2 ^ (8 * n - (n - 1 - m) * 8)) by (apply Z.pow_le_mono_r; lia). lia. }
  apply Hloop; lia.
Qed.

Lemma brev8_width : in_width (8 * n) (brev8 A (8 * n)).
Proof.
  unfold brev8. rewrite bytes_of_width.
  rewrite (fold_left_ext_in _
    (fun out i => out .| (rev_byte ((A >> (8 * i)) .& 0xFF) << (8 * i)))) by
    (intros; by rewrite (Z.mul_comm 8)).
  apply (gather_bound 8 n); [lia..|]. intros i _.
  apply (rev_byte_spec _ 0); [apply byte_range|lia].
Qed.
End Bytes.

(** On a word of [n] bytes [rev8] reverses the bytes and [brev8] (which
    the source computes by reversing each byte's binary text) reverses the
    bits of every byte; both are involutions. *)
Theorem byte_reversals n A :
  0 < n -> in_width (8 * n) A ->
  (forall k, 0 <= k < 8 * n ->
     Z.testbit (rev8 (8 * n) A) k = Z.testbit A (8 * (n - 1 - k `div` 8) + k `mod` 8) /\
     Z.testbit (brev8 A (8 * n)) k = Z.testbit A (8 * (k `div` 8) + (7 - k `mod` 8))) /\
  rev8 (8 * n) (rev8 (8 * n) A) = A /\ brev8 (brev8 A (8 * n)) (8 * n) = A.
Proof.
  intros Hn HA. split_and!.
  - intros k Hk. by rewrite rev8_testbit, brev8_testbit.
  - rewrite <- (wrap_small _ _ (rev8_width n _ Hn (rev8_width n A Hn HA))).
    rewrite <- (wrap_small _ A HA) at 2. apply wrap_ext; [lia|]. intros k Hk.
    pose proof (Z.div_mod k 8). pose proof (Z.mod_pos_bound k 8).
    rewrite (rev8_testbit n (rev8 _ _)), (rev8_testbit n A) by (first [lia | done | by apply rev8_width]).
    rewrite div8, mod8 by lia. f_equal. lia.
  - rewrite <- (wrap_small _ _ (brev8_width n _ Hn)).
    rewrite <- (wrap_small _ A HA) at 2. apply wrap_ext; [lia|]. intros k Hk.
    pose proof (Z.div_mod k 8). pose proof (Z.mod_pos_bound k 8).
    rewrite !brev8_testbit by lia.
    rewrite div8, mod8 by lia. f_equal. lia.
Qed.

Lemma byte_reversals_witness :
  rev8 (8 * 4) (rev8 (8 * 4) 0x01020304) = 0x01020304.
Proof. apply (byte_reversals 4 0x01020304); [lia|by vm_compute]. Defined.

(** ** Immediate forms *)

(** The immediate instructions [addi], [slti], [sltiu], [xori], [ori]
    and [andi] give the result of their register forms on the sign-extended
    immediate held in a register. *)
Theorem immediate_is_register_form xl word f3 f7 imm A :
  0 < xl -> - 2 ^ (xl - 1) <= imm < 2 ^ (xl - 1) ->
  f3 = 0 \/ f3 = 2 \/ f3 = 3 \/ f3 = 4 \/ f3 = 6 \/ f3 = 7 ->
  exec_I xl word f3 f7 imm A = exec_R xl 0 f3 A (uXLEN imm xl).
Proof.
  intros Hxl Hi Hf.
  assert (Hu : forall v, uXLEN (uXLEN v xl) xl = uXLEN v xl).
  { intros. rewrite !uXLEN_wrap by lia. apply wrap_wrap; lia. }
  assert (Hs : sXLEN (uXLEN imm xl) xl = imm).
  { rewrite uXLEN_wrap, sXLEN_swrap, swrap_wrap by lia. by apply swrap_small. }
  destruct Hf as [->|[->|[->|[->|[->| -> ] ] ] ] ];
    unfold exec_I, exec_R; cbv beta zeta; cbn [Z.eqb Pos.eqb andb orb];
    rewrite ?Hu, ?Hs; try reflexivity.
  f_equal. rewrite !uXLEN_wrap by lia.
  rewrite (Z.add_comm A (wrap _ _)), wrap_add_l by lia. f_equal. lia.
Qed.

Lemma immediate_is_register_form_witness :
  exec_I 64 0xFFF00013 0 0x7F (-1) 5 = exec_R 64 0 0 5 (uXLEN (-1) 64).
Proof. apply (immediate_is_register_form 64); [lia|vm_compute; split; congruence|lia]. Defined.

(** ** The [rolw] arm *)

(** The OP-32 chain tests [f3 == 1] before the Zbb [rolw] encoding
    (funct7 0110000), so [rolw] executes as [sllw]: the result is the 32-bit
    left shift, and differs from the rotation whenever a bit is shifted
    out. *)
Theorem rolw_runs_as_sllw A B :
  exec_OP32 0x30 1 A B = exec_OP32 0 1 A B /\
  exec_OP32 0x30 1 0x80000001 1 = Ok 2 /\ s32 (rolw 0x80000001 1) = 3.
Proof. repeat split. Qed.
