(* ===== verification/Float32.v ===== *)
(** * Single-precision floating point

    The F-extension reference model of [sim/tools/iss.py]: operands are
    decoded to exact rationals, the operation is done exactly, and the result
    is rounded once.  [Fraction] is [Q] ([numerator] and [denominator] are
    those of the reduced fraction, as Python keeps it); a [(bits, flags)]
    pair is a [Z * Z].  Subnormals flush to zero on input and output. *)

From S2P Require Import Prelude Words.
From Stdlib Require Import QArith Qpower Qreduction Qabs.
#[local] Close Scope Q_scope.
#[local] Open Scope Z_scope.

(** ** Definitions *)

Definition RM_RNE := 0.
Definition RM_RTZ := 1.
Definition RM_RDN := 2.
Definition RM_RUP := 3.
Definition RM_RMM := 4.

Definition CANONICAL_NAN := 0x7FC00000.

Definition F_NV := 0x10.
Definition F_DZ := 0x08.
Definition F_OF := 0x04.
Definition F_UF := 0x02.
Definition F_NX := 0x01.

(** [Fraction]'s attributes, [Fraction(2) ** e] and [int.bit_length]. *)
Definition numerator (q : Q) : Z := Qnum (Qred q).
Definition denominator (q : Q) : Z := Zpos (Qden (Qred q)).
Definition two_pow (e : Z) : Q := Qpower 2 e.
Definition bit_length (n : Z) : Z := if n =? 0 then 0 else Z.log2 (Z.abs n) + 1.
Definition Qlt_bool (x y : Q) : bool := negb (Qle_bool y x).

(** The tuple [f32_decode] returns; the magnitude is absent for infinities
    and NaNs. *)
Record fdec := mkDec {
  d_sign : Z; d_zero : bool; d_inf : bool; d_nan : bool; d_snan : bool; d_mag : option Q
}.

Definition f32_decode (bits : Z) : fdec :=
  let bits := bits .& 0xFFFFFFFF in
  let sign := (bits >> 31) .& 1 in
  let exp := (bits >> 23) .& 0xFF in
  let mant := bits .& 0x7FFFFF in
  if exp =? 0xFF then
    if mant =? 0 then mkDec sign false true false false None
    else
      let is_snan := (mant >> 22) .& 1 =? 0 in
      mkDec sign false false true is_snan None
  else if exp =? 0 then mkDec sign true false false false (Some 0%Q)
  else
    let magnitude := ((((1 << 23) .| mant) # 2 ^ 23) * two_pow (exp - 127))%Q in
    mkDec sign false false false false (Some magnitude).

(** The magnitude the arithmetic reads; every branch that reads it comes
    after the infinities and NaNs are dealt with. *)
Definition mag (d : fdec) : Q := default 0%Q (d_mag d).

Definition f32_is_zero_arith (bits : Z) : bool := (bits >> 23) .& 0xFF =? 0.
Definition f32_pack_zero (sign : Z) : Z := (sign .& 1) << 31.
Definition f32_pack_inf (sign : Z) : Z := ((sign .& 1) << 31) .| (0xFF << 23).

(** The ['exact' | 'below' | 'tie' | 'above'] classification. *)
Inductive rcls := Exact | Below | Tie | Above.
#[global] Instance rcls_eq_dec : EqDecision rcls.
Proof. solve_decision. Defined.

(** [(round_up, inexact)]. *)
Definition f32_round_up_decision (cls : rcls) (sig_floor sign rm : Z) : bool * bool :=
  match cls with
  | Exact => (false, false)
  | _ =>
      if rm =? RM_RTZ then (false, true)
      else if rm =? RM_RDN then (sign =? 1, true)
      else if rm =? RM_RUP then (sign =? 0, true)
      else if rm =? RM_RMM then (match cls with Below => false | _ => true end, true)
      else match cls with
           | Above => (true, true)
           | Below => (false, true)
           | _ => (truthy (sig_floor .& 1), true)
           end
  end.

Definition f32_pack_rounded (sign e sig_floor : Z) (cls : rcls) (rm : Z) : Z * Z :=
  let '(round_up, inexact) := f32_round_up_decision cls sig_floor sign rm in
  let '(sig_floor, e) :=
    if round_up then
      let sig_floor := sig_floor + 1 in
      if sig_floor =? 1 << 24 then (sig_floor >> 1, e + 1) else (sig_floor, e)
    else (sig_floor, e) in
  if e >? 127 then
    let bits :=
      if (rm =? RM_RTZ) || ((rm =? RM_RDN) && (sign =? 0)) || ((rm =? RM_RUP) && (sign =? 1))
      then (sign << 31) .| (0xFE << 23) .| 0x7FFFFF
      else (sign << 31) .| (0xFF << 23) in
    (bits, F_OF .| F_NX)
  else if e <? -126 then (f32_pack_zero sign, F_UF .| F_NX)
  else
    let exp_biased := e + 127 in
    ((sign << 31) .| (exp_biased << 23) .| (sig_floor .& 0x7FFFFF),
     if inexact then F_NX else 0).

(** The two [while] loops of the normalisations: [e += 1] while
    [lim (e + 1) <= magnitude], then [e -= 1] while [magnitude < lim e]. *)
Fixpoint raise_e (lim : Z -> Q) (m : Q) (fuel : nat) (e : Z) : Z :=
  match fuel with
  | O => e
  | S fuel' => if Qle_bool (lim (e + 1)) m then raise_e lim m fuel' (e + 1) else e
  end.
Fixpoint lower_e (lim : Z -> Q) (m : Q) (fuel : nat) (e : Z) : Z :=
  match fuel with
  | O => e
  | S fuel' => if Qlt_bool m (lim e) then lower_e lim m fuel' (e - 1) else e
  end.

(** Two turns are enough for each loop from the code's first guess
    ([norm_exponent], [sqrt_exponent] of [Float32Facts]). *)
Definition norm_fuel : nat := 2.

(** The remainder against one half. *)
Definition classify (remainder : Q) : rcls :=
  if Qeq_bool remainder 0 then Exact
  else if Qlt_bool remainder (1 # 2) then Below
  else if Qlt_bool (1 # 2) remainder then Above
  else Tie.

Definition f32_normalize_fraction (magnitude : Q) : Z * Z * rcls :=
  let e := bit_length (numerator magnitude) - bit_length (denominator magnitude) - 1 in
  let e := raise_e two_pow magnitude norm_fuel e in
  let e := lower_e two_pow magnitude norm_fuel e in
  let sig_exact := (magnitude * two_pow (23 - e))%Q in
  let sig_floor := numerator sig_exact `div` denominator sig_exact in
  let remainder := (sig_exact - inject_Z sig_floor)%Q in
  (e, sig_floor, classify remainder).

Definition f32_sqrt_normalize (magnitude : Q) : result (Z * Z * rcls) :=
  let e := (bit_length (numerator magnitude) - bit_length (denominator magnitude)) `div` 2 - 1 in
  let lim e := two_pow (2 * e) in
  let e := raise_e lim magnitude norm_fuel e in
  let e := lower_e lim magnitude norm_fuel e in
  let scaled := (magnitude * two_pow (2 * (23 - e)))%Q in
  if negb (denominator scaled =? 1) then
    Raise (AssertionError "fsqrt input expected dyadic (a single decoded float32)")
  else
    let n := numerator scaled in
    let sig_floor := Z.sqrt n in
    let cls :=
      if sig_floor * sig_floor =? n then Exact
      else
        let mid_sq := (2 * sig_floor + 1) ^ 2 in
        let four_n := 4 * n in
        if four_n <? mid_sq then Below else if four_n >? mid_sq then Above else Tie in
    Ok (e, sig_floor, cls).

Definition f32_round_from_fraction (sign : Z) (magnitude : Q) (rm : Z) : Z * Z :=
  let '(e, sig_floor, cls) := f32_normalize_fraction magnitude in
  f32_pack_rounded sign e sig_floor cls rm.

Definition f32_round_from_sqrt (sign : Z) (magnitude : Q) (rm : Z) : result (Z * Z) :=
  '(e, sig_floor, cls) ← f32_sqrt_normalize magnitude;
  Ok (f32_pack_rounded sign e sig_floor cls rm).

Definition b2i (b : bool) : Z := if b then 1 else 0.
Definition nv_if (b : bool) : Z := if b then F_NV else 0.
Definition zero_sum_sign (rm : Z) : Z := if rm =? RM_RDN then 1 else 0.
Definition signed_by (s : Z) (m : Q) : Q := if s =? 0 then m else (- m)%Q.

Definition f_add (a_bits b_bits rm : Z) (is_sub : bool) : Z * Z :=
  let a := f32_decode a_bits in
  let b := f32_decode b_bits in
  let eff_sb := d_sign b .^ b2i is_sub in
  if d_nan a || d_nan b then (CANONICAL_NAN, nv_if (d_snan a || d_snan b))
  else if d_inf a && d_inf b && negb (d_sign a =? eff_sb) then (CANONICAL_NAN, F_NV)
  else if d_inf a then (f32_pack_inf (d_sign a), 0)
  else if d_inf b then (f32_pack_inf eff_sb, 0)
  else if d_zero a && d_zero b then
    if d_sign a =? eff_sb then (f32_pack_zero (d_sign a), 0)
    else (f32_pack_zero (zero_sum_sign rm), 0)
  else if d_zero a then ((eff_sb << 31) .| (b_bits .& 0x7FFFFFFF), 0)
  else if d_zero b then (a_bits, 0)
  else
    let va := signed_by (d_sign a) (mag a) in
    let vb := signed_by eff_sb (mag b) in
    let total := (va + vb)%Q in
    if Qeq_bool total 0 then (f32_pack_zero (zero_sum_sign rm), 0)
    else
      let sign := if Qlt_bool total 0 then 1 else 0 in
      f32_round_from_fraction sign (Qabs total) rm.

Definition f_mul (a_bits b_bits rm : Z) : Z * Z :=
  let a := f32_decode a_bits in
  let b := f32_decode b_bits in
  let s := d_sign a .^ d_sign b in
  if d_nan a || d_nan b then (CANONICAL_NAN, nv_if (d_snan a || d_snan b))
  else if (d_inf a && d_zero b) || (d_zero a && d_inf b) then (CANONICAL_NAN, F_NV)
  else if d_inf a || d_inf b then (f32_pack_inf s, 0)
  else if d_zero a || d_zero b then (f32_pack_zero s, 0)
  else f32_round_from_fraction s (mag a * mag b)%Q rm.

Definition f_div (a_bits b_bits rm : Z) : Z * Z :=
  let a := f32_decode a_bits in
  let b := f32_decode b_bits in
  let s := d_sign a .^ d_sign b in
  if d_nan a || d_nan b then (CANONICAL_NAN, nv_if (d_snan a || d_snan b))
  else if d_inf a && d_inf b then (CANONICAL_NAN, F_NV)
  else if d_zero a && d_zero b then (CANONICAL_NAN, F_NV)
  else if d_inf a then (f32_pack_inf s, 0)
  else if d_inf b then (f32_pack_zero s, 0)
  else if d_zero b then (f32_pack_inf s, F_DZ)
  else if d_zero a then (f32_pack_zero s, 0)
  else f32_round_from_fraction s (mag a / mag b)%Q rm.

Definition f_sqrt (a_bits rm : Z) : result (Z * Z) :=
  let a := f32_decode a_bits in
  if d_nan a then Ok (CANONICAL_NAN, nv_if (d_snan a))
  else if d_zero a then Ok (a_bits, 0)
  else if truthy (d_sign a) then Ok (CANONICAL_NAN, F_NV)
  else if d_inf a then Ok (a_bits, 0)
  else f32_round_from_sqrt 0 (mag a) rm.

Definition f_madd (a_bits b_bits c_bits rm : Z) (neg_prod neg_addend : bool) : Z * Z :=
  let a := f32_decode a_bits in
  let b := f32_decode b_bits in
  let c := f32_decode c_bits in
  let prod_sign := d_sign a .^ d_sign b .^ b2i neg_prod in
  let prod_inf := d_inf a || d_inf b in
  let eff_sc := d_sign c .^ b2i neg_addend in
  if d_nan a || d_nan b || d_nan c then
    (CANONICAL_NAN, nv_if (d_snan a || d_snan b || d_snan c))
  else if (d_inf a && d_zero b) || (d_zero a && d_inf b) then (CANONICAL_NAN, F_NV)
  else if prod_inf && d_inf c && negb (prod_sign =? eff_sc) then (CANONICAL_NAN, F_NV)
  else if prod_inf then (f32_pack_inf prod_sign, 0)
  else if d_inf c then (f32_pack_inf eff_sc, 0)
  else if d_zero a || d_zero b then
    if d_zero c then
      if prod_sign =? eff_sc then (f32_pack_zero prod_sign, 0)
      else (f32_pack_zero (zero_sum_sign rm), 0)
    else ((eff_sc << 31) .| (c_bits .& 0x7FFFFFFF), 0)
  else
    let prod_val := (mag a * mag b)%Q in
    let total := (signed_by prod_sign prod_val + signed_by eff_sc (mag c))%Q in
    if Qeq_bool total 0 then (f32_pack_zero (zero_sum_sign rm), 0)
    else
      let sign := if Qlt_bool total 0 then 1 else 0 in
      f32_round_from_fraction sign (Qabs total) rm.

Definition f_sgnj (a_bits b_bits funct3 : Z) : Z * Z :=
  let sa := (a_bits >> 31) .& 1 in
  let sb := (b_bits >> 31) .& 1 in
  let sign :=
    if funct3 =? 0 then sb else if funct3 =? 1 then sb .^ 1 else sa .^ sb in
  ((sign << 31) .| (a_bits .& 0x7FFFFFFF), 0).

(** The magnitude order of the encodings, shared by the comparison and the
    min/max code ([elif sa != sb ... else ...]). *)
Definition enc_lt (sa sb a_bits b_bits : Z) : bool :=
  if negb (sa =? sb) then truthy sa
  else if truthy sa then (a_bits .& 0x7FFFFFFF) >? (b_bits .& 0x7FFFFFFF)
  else (a_bits .& 0x7FFFFFFF) <? (b_bits .& 0x7FFFFFFF).

Definition f_minmax (a_bits b_bits funct3 : Z) : Z * Z :=
  let a := f32_decode a_bits in
  let b := f32_decode b_bits in
  if d_nan a && d_nan b then (CANONICAL_NAN, nv_if (d_snan a || d_snan b))
  else if d_nan a then (b_bits, nv_if (d_snan a))
  else if d_nan b then (a_bits, nv_if (d_snan b))
  else
    let a_ez := f32_is_zero_arith a_bits in
    let b_ez := f32_is_zero_arith b_bits in
    let a_nz := a_ez && truthy ((a_bits >> 31) .& 1) in
    let b_nz := b_ez && truthy ((b_bits >> 31) .& 1) in
    let a_lt_b :=
      if a_ez && b_ez then a_nz && negb b_nz
      else enc_lt (d_sign a) (d_sign b) a_bits b_bits in
    if funct3 =? 0 then (if a_lt_b then a_bits else b_bits, 0)
    else (if a_lt_b then b_bits else a_bits, 0).

Definition f_cmp (a_bits b_bits funct3 : Z) : Z * Z :=
  let a := f32_decode a_bits in
  let b := f32_decode b_bits in
  if d_nan a || d_nan b then
    (0, if funct3 =? 2 then nv_if (d_snan a || d_snan b) else F_NV)
  else
    let both_zero := f32_is_zero_arith a_bits && f32_is_zero_arith b_bits in
    let eq := if both_zero then true else a_bits =? b_bits in
    let lt := if both_zero then false else enc_lt (d_sign a) (d_sign b) a_bits b_bits in
    let res := if funct3 =? 2 then b2i eq
               else if funct3 =? 1 then b2i lt
               else b2i (lt || eq) in
    (res, 0).

Definition f_class (a_bits : Z) : Z :=
  let sa := truthy ((a_bits >> 31) .& 1) in
  let exp := (a_bits >> 23) .& 0xFF in
  let frac := a_bits .& 0x7FFFFF in
  if (exp =? 0xFF) && (frac =? 0) && sa then 1 << 0
  else if negb ((exp =? 0) || (exp =? 0xFF)) && sa then 1 << 1
  else if (exp =? 0) && negb (frac =? 0) && sa then 1 << 2
  else if (exp =? 0) && (frac =? 0) && sa then 1 << 3
  else if (exp =? 0) && (frac =? 0) && negb sa then 1 << 4
  else if (exp =? 0) && negb (frac =? 0) && negb sa then 1 << 5
  else if negb ((exp =? 0) || (exp =? 0xFF)) && negb sa then 1 << 6
  else if (exp =? 0xFF) && (frac =? 0) && negb sa then 1 << 7
  else if (exp =? 0xFF) && negb (frac =? 0) && negb (truthy ((frac >> 22) .& 1)) then 1 << 8
  else 1 << 9.

(** The out-of-range results of the conversions to integer. *)
Definition cvt_saturated (sa : Z) (unsigned : bool) : Z :=
  if unsigned then (if truthy sa then 0 else 0xFFFFFFFF)
  else (if truthy sa then 0x80000000 else 0x7FFFFFFF).

Definition f_cvt_to_int (a_bits rm : Z) (unsigned : bool) : Z * Z :=
  let a := f32_decode a_bits in
  let sa := d_sign a in
  if d_nan a then (if unsigned then 0xFFFFFFFF else 0x7FFFFFFF, F_NV)
  else if d_zero a then (0, 0)
  else if d_inf a then (cvt_saturated sa unsigned, F_NV)
  else
    let ma := mag a in
    let floor_mag := numerator ma `div` denominator ma in
    let remainder := (ma - inject_Z floor_mag)%Q in
    let cls := classify remainder in
    let '(round_up, inexact) := f32_round_up_decision cls floor_mag sa rm in
    let magnitude := floor_mag + b2i round_up in
    let out_of_range :=
      if unsigned then (truthy sa && negb (magnitude =? 0)) || (magnitude >? 0xFFFFFFFF)
      else (negb (truthy sa) && (magnitude >? 0x7FFFFFFF))
           || (truthy sa && (magnitude >? 0x80000000)) in
    if out_of_range then (cvt_saturated sa unsigned, F_NV)
    else
      (if negb (truthy sa) then magnitude .& 0xFFFFFFFF else (- magnitude) .& 0xFFFFFFFF,
       if inexact then F_NX else 0).

Definition f_cvt_from_int (a_bits rm : Z) (unsigned : bool) : Z * Z :=
  if a_bits =? 0 then (0, 0)
  else
    let sign := if unsigned then 0 else (a_bits >> 31) .& 1 in
    let magnitude :=
      if unsigned then a_bits .& 0xFFFFFFFF
      else if truthy sign then (.~ a_bits + 1) .& 0xFFFFFFFF else a_bits in
    f32_round_from_fraction sign (inject_Z magnitude) rm.

(** Evaluated against known encodings: 1.5 + 2.25 = 3.75, 1/3 rounds up to
    0x3EAAAAAB with inexact, sqrt 2 = 0x3FB504F3, int(-2.5) = -2. *)
Example f_add_ex : f_add 0x3FC00000 0x40100000 RM_RNE false = (0x40700000, 0).
Proof. vm_compute. reflexivity. Qed.
Example f_div_ex : f_div 0x3F800000 0x40400000 RM_RNE = (0x3EAAAAAB, F_NX).
Proof. vm_compute. reflexivity. Qed.
Example f_sqrt_ex : f_sqrt 0x40000000 RM_RNE = Ok (0x3FB504F3, F_NX).
Proof. vm_compute. reflexivity. Qed.
Example f_cvt_ex : f_cvt_to_int 0xC0200000 RM_RNE false = (0xFFFFFFFE, F_NX).
Proof. vm_compute. reflexivity. Qed.
