(* ===== verification/Float32Facts.v ===== *)
(** * Correctness of the floating-point model

    What the functions of [Float32] compute: the normalisations find the
    binary exponent, one rounding step gives the IEEE 754 rounding of the
    exact value in every mode, representable values are returned unchanged,
    and the comparison, minimum, classification and conversion operations
    agree with the rational values of their operands. *)

From S2P Require Import Prelude Words Float32.
From Stdlib Require Import QArith Qpower Qreduction Qabs Qround Lqa.
#[local] Close Scope Q_scope.
#[local] Open Scope Z_scope.

(** ** Reference definitions *)

(** [z] is the integer the mode rounds [x] (the magnitude of a number of the
    given sign, in units in the last place) to: IEEE 754, section 4.3. *)
Definition rounded (sign rm : Z) (x : Q) (z : Z) : Prop :=
  let z' := inject_Z z in
  if rm =? RM_RTZ then (z' <= x < z' + 1)%Q
  else if rm =? RM_RDN then
    (if sign =? 1 then (x <= z' /\ z' < x + 1)%Q else (z' <= x < z' + 1)%Q)
  else if rm =? RM_RUP then
    (if sign =? 0 then (x <= z' /\ z' < x + 1)%Q else (z' <= x < z' + 1)%Q)
  else if rm =? RM_RMM then (z' - (1 # 2) <= x < z' + (1 # 2))%Q
  else (z' - (1 # 2) <= x <= z' + (1 # 2))%Q /\
       ((x == z' - (1 # 2) \/ x == z' + (1 # 2))%Q -> Z.even z = true).

(** [z] is the integer the mode rounds the square root of [x] to: its
    neighbours are compared with the root by their squares. *)
Definition rounded_root (rm : Z) (x : Q) (z : Z) : Prop :=
  let z' := inject_Z z in
  if (rm =? RM_RTZ) || (rm =? RM_RDN) then (z' * z' <= x < (z' + 1) * (z' + 1))%Q
  else if rm =? RM_RUP then ((z' - 1) * (z' - 1) < x <= z' * z')%Q
  else
    let below := ((z' - (1 # 2)) * (z' - (1 # 2)))%Q in
    let above := ((z' + (1 # 2)) * (z' + (1 # 2)))%Q in
    if rm =? RM_RMM then (below <= x < above)%Q
    else (below <= x <= above)%Q /\ ((x == below \/ x == above)%Q -> Z.even z = true).

(** A word from its sign, exponent and mantissa fields. *)
Definition f32_fields (s E f : Z) : Z := (s << 31) .| (E << 23) .| f.

(** Decoded as the normal number [(-1)^s * q]. *)
Definition is_normal (bits s : Z) (q : Q) : Prop :=
  exists m, f32_decode bits = mkDec s false false false false (Some m) /\ (m == q)%Q.

(** ** Lemmas: powers of two and the floor *)

Lemma two_pow_pos e : (0 < two_pow e)%Q.
Proof. by apply Qpower_0_lt. Qed.

Lemma two_pow_plus a b : (two_pow (a + b) == two_pow a * two_pow b)%Q.
Proof. unfold two_pow. by rewrite Qpower_plus by done. Qed.

Lemma two_pow_0 : two_pow 0 = 1%Q.
Proof. reflexivity. Qed.

Lemma two_pow_succ e : (two_pow (e + 1) == 2 * two_pow e)%Q.
Proof. rewrite two_pow_plus. change (two_pow 1) with (2%Q). ring. Qed.

Lemma two_pow_le a b : a <= b -> (two_pow a <= two_pow b)%Q.
Proof. intros. by apply Qpower_le_compat_l. Qed.

Lemma two_pow_Z n : 0 <= n -> (two_pow n == inject_Z (2 ^ n))%Q.
Proof.
  revert n. apply natlike_ind; [done|]. intros n Hn IH.
  unfold Z.succ. rewrite two_pow_succ, IH, Z.pow_add_r by lia.
  rewrite inject_Z_mult. change (inject_Z (2 ^ 1)) with 2%Q. ring.
Qed.

(** Moving a power of two across an inequality. *)
Lemma two_pow_scale x a b : ((x * two_pow (- a)) * two_pow (a + b) == x * two_pow b)%Q.
Proof. rewrite <- Qmult_assoc, <- two_pow_plus. by replace (- a + (a + b)) with b by lia. Qed.

Lemma two_pow_inv a : (two_pow a * two_pow (- a) == 1)%Q.
Proof. rewrite <- two_pow_plus. by rewrite Z.add_opp_diag_r. Qed.

Lemma numerator_eq x y : (x == y)%Q -> numerator x = numerator y.
Proof. intros H. unfold numerator. by rewrite (Qred_complete _ _ H). Qed.

Lemma denominator_eq x y : (x == y)%Q -> denominator x = denominator y.
Proof. intros H. unfold denominator. by rewrite (Qred_complete _ _ H). Qed.

Lemma num_den q : (q == inject_Z (numerator q) / inject_Z (denominator q))%Q.
Proof.
  rewrite <- (Qred_correct q) at 1. unfold numerator, denominator.
  destruct (Qred q) as [n d]. cbn. apply Qmake_Qdiv.
Qed.

Lemma numerator_pos q : (0 < q)%Q -> 0 < numerator q.
Proof.
  intros H. rewrite <- (Qred_correct q) in H. unfold numerator.
  destruct (Qred q) as [n d]. unfold Qlt in H. cbn in *. lia.
Qed.

Lemma num_div_den q : numerator q `div` denominator q = Qfloor q.
Proof.
  rewrite Zdiv_Qdiv. apply Qfloor_comp. symmetry. apply num_den.
Qed.

Lemma bit_length_spec n : 0 < n -> 2 ^ (bit_length n - 1) <= n < 2 ^ bit_length n.
Proof.
  intros Hn. unfold bit_length. rewrite (proj2 (Z.eqb_neq n 0)), Z.abs_eq by lia.
  pose proof (Z.log2_spec n Hn). replace (Z.log2 n + 1 - 1) with (Z.log2 n) by lia.
  by replace (Z.log2 n + 1) with (Z.succ (Z.log2 n)) by lia.
Qed.

Lemma bit_length_pos n : 0 < n -> 1 <= bit_length n.
Proof.
  intros Hn. unfold bit_length. rewrite (proj2 (Z.eqb_neq n 0)) by lia.
  pose proof (Z.log2_nonneg (Z.abs n)). lia.
Qed.

(** The first guess of the exponent is off by at most one. *)
Lemma exponent_guess q :
  (0 < q)%Q ->
  let d := bit_length (numerator q) - bit_length (denominator q) in
  (two_pow (d - 1) <= q < two_pow (d + 1))%Q.
Proof.
  intros Hq d.
  pose proof (numerator_pos q Hq) as Hn.
  assert (Hd : 0 < denominator q) by done.
  pose proof (bit_length_pos _ Hn). pose proof (bit_length_pos _ Hd).
  pose proof (bit_length_spec _ Hn) as [Hn1 Hn2]. pose proof (bit_length_spec _ Hd) as [Hd1 Hd2].
  rewrite Zle_Qle in Hn1, Hd1. rewrite Zlt_Qlt in Hn2, Hd2, Hd.
  rewrite <- two_pow_Z in Hn1, Hn2, Hd1, Hd2 by lia.
  pose proof (num_den q) as E.
  set (n := inject_Z (numerator q)) in *. set (m := inject_Z (denominator q)) in *.
  set (a := bit_length (numerator q)) in *. set (b := bit_length (denominator q)) in *.
  assert (Hm : (0 < m)%Q) by exact Hd.
  assert (Hmul : (q * m == n)%Q) by (rewrite E; field; intros ?; lra).
  assert (Ha : (two_pow (d - 1) * two_pow b == two_pow (a - 1))%Q).
  { rewrite <- two_pow_plus. by replace (d - 1 + b) with (a - 1) by lia. }
  assert (Hb : (two_pow (d + 1) * two_pow (b - 1) == two_pow a)%Q).
  { rewrite <- two_pow_plus. by replace (d + 1 + (b - 1)) with a by lia. }
  pose proof (two_pow_pos (d - 1)). pose proof (two_pow_pos (d + 1)).
  split.
  - apply Qnot_lt_le. intros Hlt.
    assert (q * m < two_pow (d - 1) * m)%Q by (apply Qmult_lt_compat_r; lra).
    assert (two_pow (d - 1) * m <= two_pow (d - 1) * two_pow b)%Q by nra. lra.
  - apply Qnot_le_lt. intros Hle.
    assert (two_pow (d + 1) * two_pow (b - 1) <= two_pow (d + 1) * m)%Q by nra.
    assert (two_pow (d + 1) * m <= q * m)%Q by nra. lra.
Qed.

(** ** Lemmas: the normalisation loops *)

Lemma Qlt_bool_iff x y : Qlt_bool x y = true <-> (x < y)%Q.
Proof.
  unfold Qlt_bool. rewrite negb_true_iff, <- not_true_iff_false, Qle_bool_iff.
  split; [apply Qnot_le_lt|apply Qlt_not_le].
Qed.

Lemma Qlt_bool_false x y : Qlt_bool x y = false <-> (y <= x)%Q.
Proof. unfold Qlt_bool. by rewrite negb_false_iff, Qle_bool_iff. Qed.

Lemma Qle_bool_false x y : Qle_bool x y = false <-> (y < x)%Q.
Proof.
  rewrite <- not_true_iff_false, Qle_bool_iff.
  split; [apply Qnot_le_lt|apply Qlt_not_le].
Qed.

(** From a guess at most one too small, both loops stop (whatever fuel is
    left) at the exponent that brackets the magnitude. *)
Lemma loops_bracket (lim : Z -> Q) (m : Q) (e : Z) fuel fuel' :
  (lim e <= m)%Q -> (m < lim (e + 1 + 1)%Z)%Q ->
  let e' := lower_e lim m fuel' (raise_e lim m (S (S fuel)) e) in
  (e' = e \/ e' = e + 1) /\ (lim e' <= m < lim (e' + 1)%Z)%Q.
Proof.
  intros Hlo Hhi. cbv zeta.
  assert (Hlow : forall e : Z, (lim e <= m)%Q -> lower_e lim m fuel' e = e).
  { intros k Hk. destruct fuel'; [done|]. cbn [lower_e].
    by rewrite (proj2 (Qlt_bool_false _ _) Hk). }
  cbn [raise_e]. destruct (Qle_bool (lim (e + 1)) m) eqn:E.
  - apply Qle_bool_iff in E. rewrite (proj2 (Qle_bool_false _ _) Hhi).
    rewrite Hlow by done. split; [by right|done].
  - apply Qle_bool_false in E. rewrite Hlow by done. split; [by left|done].
Qed.

Lemma norm_exponent m :
  (0 < m)%Q ->
  let d := bit_length (numerator m) - bit_length (denominator m) in
  let e := lower_e two_pow m norm_fuel (raise_e two_pow m norm_fuel (d - 1)) in
  (two_pow e <= m < two_pow (e + 1))%Q.
Proof.
  intros Hm. cbv zeta. pose proof (exponent_guess m Hm) as [H1 H2].
  apply loops_bracket; [done|]. by replace (_ - 1 + 1 + 1) with
    (bit_length (numerator m) - bit_length (denominator m) + 1) by lia.
Qed.

(** The exponent that brackets a magnitude is unique. *)
Lemma bracket_unique m e e' :
  (two_pow e <= m < two_pow (e + 1))%Q -> (two_pow e' <= m < two_pow (e' + 1))%Q -> e = e'.
Proof.
  intros [H1 H2] [H3 H4]. destruct (Z.lt_trichotomy e e') as [H|[->|H]]; [|done|].
  - pose proof (two_pow_le (e + 1) e' ltac:(lia)). lra.
  - pose proof (two_pow_le (e' + 1) e ltac:(lia)). lra.
Qed.

Lemma scaled_range m e :
  (two_pow e <= m < two_pow (e + 1))%Q ->
  (inject_Z (2 ^ 23) <= m * two_pow (23 - e) < inject_Z (2 ^ 24))%Q.
Proof.
  intros [H1 H2]. rewrite <- !two_pow_Z by done.
  assert (E1 : (two_pow 23 == two_pow e * two_pow (23 - e))%Q).
  { rewrite <- two_pow_plus. by replace (e + (23 - e)) with 23 by lia. }
  assert (E2 : (two_pow 24 == two_pow (e + 1) * two_pow (23 - e))%Q).
  { rewrite <- two_pow_plus. by replace (e + 1 + (23 - e)) with 24 by lia. }
  pose proof (two_pow_pos (23 - e)). rewrite E1, E2. split; nra.
Qed.

Lemma floor_bounds x a b :
  (inject_Z a <= x < inject_Z b)%Q -> a <= Qfloor x < b.
Proof.
  intros [Ha Hb]. split.
  - rewrite <- (Qfloor_Z a). by apply Qfloor_resp_le.
  - rewrite Zlt_Qlt. eapply Qle_lt_trans; [apply Qfloor_le|done].
Qed.

Lemma normalize_facts m e sf cls :
  (0 < m)%Q -> f32_normalize_fraction m = (e, sf, cls) ->
  let x := (m * two_pow (23 - e))%Q in
  (two_pow e <= m < two_pow (e + 1))%Q /\ sf = Qfloor x /\ 2 ^ 23 <= sf < 2 ^ 24 /\
  cls = classify (x - inject_Z sf).
Proof.
  intros Hm. unfold f32_normalize_fraction. pose proof (norm_exponent m Hm) as He.
  cbv zeta in *. set (e' := lower_e _ _ _ _) in *.
  rewrite num_div_den. intros [ [<- <-]%pair_equal_spec <-]%pair_equal_spec.
  split; [done|split; [done|split; [|done] ] ]. by apply floor_bounds, scaled_range.
Qed.

(** ** Lemmas: the rounding decision *)

Lemma classify_spec r :
  (0 <= r < 1)%Q ->
  match classify r with
  | Exact => (r == 0)%Q
  | Below => (0 < r < 1 # 2)%Q
  | Tie => (r == 1 # 2)%Q
  | Above => (1 # 2 < r < 1)%Q
  end.
Proof.
  intros [H0 H1]. unfold classify. destruct (Qeq_bool r 0) eqn:E0.
  { by apply Qeq_bool_eq. }
  apply Qeq_bool_neq in E0.
  destruct (Qlt_bool r (1 # 2)) eqn:E1.
  { apply Qlt_bool_iff in E1. split; [|done]. apply Qnot_le_lt. intros ?. apply E0. lra. }
  apply Qlt_bool_false in E1. destruct (Qlt_bool (1 # 2) r) eqn:E2.
  { by apply Qlt_bool_iff in E2. }
  apply Qlt_bool_false in E2. lra.
Qed.

Lemma floor_rem x : (0 <= x - inject_Z (Qfloor x) < 1)%Q.
Proof.
  pose proof (Qfloor_le x). pose proof (Qlt_floor x) as H1.
  rewrite inject_Z_plus in H1. change (inject_Z 1) with 1%Q in H1. lra.
Qed.

Lemma even_low_bit n : truthy (n .& 1) = Z.odd n.
Proof. rewrite land_1_b2z, truthy_b2z. by rewrite Z.bit0_odd. Qed.

Lemma b2i_Q (b : bool) : inject_Z (b2i b) = if b then 1%Q else 0%Q.
Proof. by destruct b. Qed.

(** The decision rounds the significand as its mode says, and reports
    inexactness exactly when the value is not an integer. *)
Lemma round_decision_spec x sign rm up inexact :
  sign = 0 \/ sign = 1 ->
  let sf := Qfloor x in
  f32_round_up_decision (classify (x - inject_Z sf)) sf sign rm = (up, inexact) ->
  rounded sign rm x (sf + b2i up) /\ (inexact = false <-> (x == inject_Z sf)%Q) /\
  (inexact = false -> up = false).
Proof.
  intros Hs sf. pose proof (floor_rem x) as Hr. fold sf in Hr.
  pose proof (classify_spec _ Hr) as Hc.
  unfold f32_round_up_decision, rounded. rewrite inject_Z_plus, b2i_Q.
  set (f := inject_Z sf) in *. assert (Hev : Z.even (sf + 1) = Z.odd sf).
  { by rewrite Z.add_1_r, Z.even_succ. }
  pose proof (Z.negb_odd sf) as Hne.
  destruct (classify (x - f)) eqn:Ecls.
  { intros [= <- <-]. split; [|split; [split; intros; [lra|done]|done] ].
    rewrite ?Z.add_0_r. repeat case_match; first [lra|split; [lra|intros [?|?]; lra] ]. }
  all: intros E; assert (inexact = true) as -> by (repeat case_match; congruence).
  all: split; [|split; [split; [done|intros Hx; exfalso; lra]|done] ].
  all: destruct (rm =? RM_RTZ); [injection E as <-; lra|].
  all: destruct (rm =? RM_RDN);
    [injection E as <-; destruct Hs as [->| ->]; cbn [Z.eqb Pos.eqb]; lra|].
  all: destruct (rm =? RM_RUP);
    [injection E as <-; destruct Hs as [->| ->]; cbn [Z.eqb Pos.eqb]; lra|].
  all: destruct (rm =? RM_RMM); [injection E as <-; lra|].
  all: rewrite ?even_low_bit in E; injection E as <-.
  1,3: cbv iota; split; [lra|intros [Hx|Hx]; exfalso; lra].
  destruct (Z.odd sf); cbn [b2i]; cbv iota; (split; [lra|intros _]); [done|].
  by rewrite Z.add_0_r, <- Hne.
Qed.

(** ** Lemmas: fields of an encoding *)

Section Fields.
Context (s E f : Z) (Hs : 0 <= s < 2) (HE : 0 <= E < 256) (Hf : 0 <= f < 2 ^ 23).

Lemma f32_fields_sum : f32_fields s E f = s * 2 ^ 31 + E * 2 ^ 23 + f.
Proof.
  unfold f32_fields. rewrite <- Z.lor_assoc, (lor_low_add 23 E f) by lia.
  rewrite lor_low_add by lia. lia.
Qed.

Lemma f32_fields_width : 0 <= f32_fields s E f < 2 ^ 32.
Proof. rewrite f32_fields_sum. lia. Qed.

Lemma f32_fields_sign : (f32_fields s E f >> 31) .& 1 = s.
Proof.
  rewrite f32_fields_sum. change 1 with (Z.ones 1). rewrite land_mask, shiftr_pow by done.
  rewrite <- (Z.div_unique_pos _ (2 ^ 31) s (E * 2 ^ 23 + f)) by lia.
  by apply Z.mod_small.
Qed.

Lemma f32_fields_exp : (f32_fields s E f >> 23) .& 0xFF = E.
Proof.
  rewrite f32_fields_sum. fold_masks. rewrite shiftr_pow by done.
  rewrite <- (Z.div_unique_pos _ (2 ^ 23) (s * 256 + E) f) by lia.
  symmetry. apply Z.mod_unique_pos with s; lia.
Qed.

Lemma f32_fields_mant : f32_fields s E f .& 0x7FFFFF = f.
Proof.
  rewrite f32_fields_sum. fold_masks. symmetry.
  apply Z.mod_unique_pos with (s * 256 + E); lia.
Qed.

Lemma f32_fields_mag : f32_fields s E f .& 0x7FFFFFFF = E * 2 ^ 23 + f.
Proof.
  rewrite f32_fields_sum. fold_masks. symmetry. apply Z.mod_unique_pos with s; lia.
Qed.

Lemma f32_fields_id : f32_fields s E f .& 0xFFFFFFFF = f32_fields s E f.
Proof. fold_masks. apply Z.mod_small, f32_fields_width. Qed.

Lemma decode_fields :
  f32_decode (f32_fields s E f) =
    if E =? 0xFF then
      if f =? 0 then mkDec s false true false false None
      else mkDec s false false true ((f >> 22) .& 1 =? 0) None
    else if E =? 0 then mkDec s true false false false (Some 0%Q)
    else mkDec s false false false false
           (Some (((2 ^ 23 .| f) # 2 ^ 23) * two_pow (E - 127))%Q).
Proof.
  unfold f32_decode. cbv zeta.
  by rewrite f32_fields_id, f32_fields_sign, f32_fields_exp, f32_fields_mant.
Qed.
End Fields.

(** Every 32-bit word is made of its fields. *)
Lemma fields_of_word b : 0 <= b < 2 ^ 32 ->
  exists s E f, 0 <= s < 2 /\ 0 <= E < 256 /\ 0 <= f < 2 ^ 23 /\ b = f32_fields s E f.
Proof.
  intros Hb. exists (b `div` 2 ^ 31), ((b `div` 2 ^ 23) `mod` 256), (b `mod` 2 ^ 23).
  assert (0 <= b `div` 2 ^ 31 < 2) by
    (split; [apply Z.div_pos; lia|apply Z.div_lt_upper_bound; lia]).
  pose proof (Z.mod_pos_bound (b `div` 2 ^ 23) 256 ltac:(lia)).
  pose proof (Z.mod_pos_bound b (2 ^ 23) ltac:(lia)).
  split_and!; try lia. rewrite f32_fields_sum by lia.
  assert (b `div` 2 ^ 31 = (b `div` 2 ^ 23) `div` 256) as ->.
  { rewrite Z.div_div by lia. done. }
  pose proof (Z.div_mod b (2 ^ 23)). pose proof (Z.div_mod (b `div` 2 ^ 23) 256). lia.
Qed.

(** The magnitude of a normal encoding in units in the last place. *)
Lemma hidden_bit f : 0 <= f < 2 ^ 23 -> 2 ^ 23 .| f = 2 ^ 23 + f.
Proof.
  intros Hf. change (2 ^ 23) with (1 << 23) at 1. rewrite lor_low_add by lia. lia.
Qed.

Lemma normal_magnitude f x : 0 <= f < 2 ^ 23 ->
  (((2 ^ 23 .| f) # 2 ^ 23) * two_pow (x - 127) == inject_Z (2 ^ 23 + f) * two_pow (x - 150))%Q.
Proof.
  intros Hf. rewrite hidden_bit by done. rewrite Qmake_Qdiv.
  replace (x - 127) with (x - 150 + 23) by lia. rewrite two_pow_plus, (two_pow_Z 23) by done.
  change (inject_Z (Z.pos (2 ^ 23))) with (inject_Z (2 ^ 23)).
  set (a := inject_Z (2 ^ 23 + f)). set (d := inject_Z (2 ^ 23)).
  assert (~ d == 0)%Q by done. by field.
Qed.

Lemma pack_zero_fields s : 0 <= s < 2 -> f32_pack_zero s = f32_fields s 0 0.
Proof.
  intros Hs. unfold f32_pack_zero, f32_fields. rewrite Z.shiftl_0_l, !Z.lor_0_r.
  change 1 with (Z.ones 1). rewrite land_mask by done. by rewrite Z.mod_small by lia.
Qed.

Lemma pack_inf_fields s : 0 <= s < 2 -> f32_pack_inf s = f32_fields s 255 0.
Proof.
  intros Hs. unfold f32_pack_inf, f32_fields. rewrite Z.lor_0_r.
  change 1 with (Z.ones 1). rewrite land_mask by done. by rewrite Z.mod_small by lia.
Qed.

(** The significand kept after the carry, and what its fraction field
    holds. *)
Lemma pack_rounded_cases s e z inexact rm :
  0 <= s < 2 ->
  forall sf cls up, 2 ^ 23 <= sf < 2 ^ 24 ->
  f32_round_up_decision cls sf s rm = (up, inexact) -> z = sf + b2i up ->
  let carry := z =? 2 ^ 24 in
  let e' := if carry then e + 1 else e in
  let f := if carry then 0 else z - 2 ^ 23 in
  f32_pack_rounded s e sf cls rm =
    if e' >? 127 then
      (if (rm =? RM_RTZ) || ((rm =? RM_RDN) && (s =? 0)) || ((rm =? RM_RUP) && (s =? 1))
       then f32_fields s 254 0x7FFFFF else f32_fields s 255 0, F_OF .| F_NX)
    else if e' <? -126 then (f32_fields s 0 0, F_UF .| F_NX)
    else (f32_fields s (e' + 127) f, if inexact then F_NX else 0).
Proof.
  intros Hs sf cls up Hsf Hd -> carry e' f. unfold f32_pack_rounded. rewrite Hd.
  assert (Hc : (if up then
      let sig_floor := sf + 1 in
      if sig_floor =? 1 << 24 then (sig_floor >> 1, e + 1) else (sig_floor, e)
    else (sf, e)) = (if carry then 2 ^ 23 else sf + b2i up, e')).
  { subst carry e'. change (1 << 24) with (2 ^ 24). destruct up; cbn [b2i]; cbv zeta.
    - destruct (Z.eqb_spec (sf + 1) (2 ^ 24)) as [->|]; done.
    - rewrite Z.add_0_r. destruct (Z.eqb_spec sf (2 ^ 24)); [lia|done]. }
  cbv zeta in Hc |- *. rewrite Hc, <- pack_zero_fields by done.
  assert (Hm : (if carry then 2 ^ 23 else sf + b2i up) .& 0x7FFFFF = f).
  { subst carry f. fold_masks. destruct (Z.eqb_spec (sf + b2i up) (2 ^ 24)); [done|].
    symmetry. apply Z.mod_unique_pos with 1; destruct up; cbn [b2i] in *; lia. }
  rewrite Hm. unfold f32_fields at 2. rewrite Z.lor_0_r.
  by repeat case_match.
Qed.

(** ** Lemmas: one rounding step *)

(** The rounded significand, its exponent and the packing, together. *)
Lemma round_facts sign m rm :
  sign = 0 \/ sign = 1 -> (0 < m)%Q ->
  exists e z up inexact,
    let x := (m * two_pow (23 - e))%Q in
    let carry := z =? 2 ^ 24 in
    let e' := if carry then e + 1 else e in
    let f := if carry then 0 else z - 2 ^ 23 in
    (two_pow e <= m < two_pow (e + 1))%Q /\ rounded sign rm x z /\ 2 ^ 23 <= z <= 2 ^ 24 /\
    z = Qfloor x + b2i up /\
    (inexact = false <-> (x == inject_Z (Qfloor x))%Q) /\ (inexact = false -> up = false) /\
    f32_round_from_fraction sign m rm =
      if e' >? 127 then
        (if (rm =? RM_RTZ) || ((rm =? RM_RDN) && (sign =? 0)) || ((rm =? RM_RUP) && (sign =? 1))
         then f32_fields sign 254 0x7FFFFF else f32_fields sign 255 0, F_OF .| F_NX)
      else if e' <? -126 then (f32_fields sign 0 0, F_UF .| F_NX)
      else (f32_fields sign (e' + 127) f, if inexact then F_NX else 0).
Proof.
  intros Hs Hm. unfold f32_round_from_fraction.
  destruct (f32_normalize_fraction m) as [ [e sf] cls] eqn:En.
  destruct (normalize_facts m e sf cls Hm En) as (He & Hsf & Hr & Hcls).
  destruct (f32_round_up_decision cls sf sign rm) as [up inexact] eqn:Ed.
  exists e, (sf + b2i up), up, inexact. cbv zeta.
  assert (Ed' := Ed). rewrite Hcls, Hsf in Ed'.
  destruct (round_decision_spec _ _ _ _ _ Hs Ed') as (Hrd & Hix & Hup).
  rewrite <- Hsf in Hrd, Hix |- *.
  split; [done|split; [done|split; [destruct up; cbn [b2i]; lia|] ] ].
  split; [done|split; [done|split; [done|] ] ].
  by apply (pack_rounded_cases sign e (sf + b2i up) inexact rm ltac:(lia) sf cls up Hr Ed).
Qed.

(** The rounded value lies in the binade of the packed exponent. *)
Lemma rounded_binade e z :
  2 ^ 23 <= z <= 2 ^ 24 ->
  let e' := if z =? 2 ^ 24 then e + 1 else e in
  let f := if z =? 2 ^ 24 then 0 else z - 2 ^ 23 in
  let v := (inject_Z z * two_pow (e - 23))%Q in
  (two_pow e' <= v < two_pow (e' + 1))%Q /\ 0 <= f < 2 ^ 23 /\
  (v == inject_Z (2 ^ 23 + f) * two_pow (e' - 23))%Q.
Proof.
  intros Hz. cbv zeta.
  assert (Hv : forall y k, (inject_Z y * two_pow (k - 23) ==
    inject_Z y * two_pow (- 23) * two_pow k)%Q).
  { intros y k. replace (k - 23) with (- 23 + k) by lia. rewrite two_pow_plus. ring. }
  assert (Hb : forall y k, 2 ^ 23 <= y < 2 ^ 24 ->
    (two_pow k <= inject_Z y * two_pow (k - 23) < two_pow (k + 1))%Q).
  { intros y k [H1 H2]. rewrite Hv, two_pow_succ. rewrite Zle_Qle in H1. rewrite Zlt_Qlt in H2.
    pose proof (two_pow_pos k). change (two_pow (- 23)) with (1 # 8388608)%Q.
    change (inject_Z (2 ^ 23)) with (8388608 # 1)%Q in H1.
    change (inject_Z (2 ^ 24)) with (16777216 # 1)%Q in H2. split; nra. }
  destruct (Z.eqb_spec z (2 ^ 24)) as [->|].
  - assert (Hc : (inject_Z (2 ^ 24) * two_pow (e - 23) ==
      inject_Z (2 ^ 23 + 0) * two_pow (e + 1 - 23))%Q).
    { rewrite !Hv, two_pow_succ.
      change (inject_Z (2 ^ 24)) with (16777216 # 1)%Q.
      change (inject_Z (2 ^ 23 + 0)) with (8388608 # 1)%Q. ring. }
    rewrite Hc. split; [apply Hb; lia|split; [lia|done] ].
  - split; [apply Hb; lia|split; [lia|] ]. by replace (2 ^ 23 + (z - 2 ^ 23)) with z by lia.
Qed.

Lemma scale_back m e z :
  (m == inject_Z z * two_pow (e - 23))%Q <-> (m * two_pow (23 - e) == inject_Z z)%Q.
Proof.
  assert (E : (two_pow (e - 23) * two_pow (23 - e) == 1)%Q).
  { rewrite <- two_pow_plus. by replace (e - 23 + (23 - e)) with 0 by lia. }
  split; intros H.
  - rewrite H, <- Qmult_assoc, E. ring.
  - rewrite <- H, <- Qmult_assoc, (Qmult_comm (two_pow (23 - e))), E. ring.
Qed.

(** [C15] Rounding: for a positive exact magnitude [m] the code finds the
    exponent [e] with 2^e <= m < 2^(e+1) and the integer significand [z]
    that the rounding mode prescribes for m / 2^(e-23) (IEEE 754 section
    4.3).  With [v] the rounded magnitude z * 2^(e-23), the result is the
    mode's infinity or largest finite number with OF and NX when
    [v >= 2^128], the signed zero with UF and NX when [v < 2^-126], and
    otherwise a normal number that decodes to exactly [v], with NX exactly
    when [v] is not [m]. *)
Theorem round_from_fraction_spec sign m rm :
  sign = 0 \/ sign = 1 -> (0 < m)%Q ->
  exists e z,
    (two_pow e <= m < two_pow (e + 1))%Q /\
    rounded sign rm (m * two_pow (23 - e))%Q z /\
    let v := (inject_Z z * two_pow (e - 23))%Q in
    let '(bits, flags) := f32_round_from_fraction sign m rm in
    if Qle_bool (two_pow 128) v then
      flags = F_OF .| F_NX /\
      bits = (if (rm =? RM_RTZ) || ((rm =? RM_RDN) && (sign =? 0))
                 || ((rm =? RM_RUP) && (sign =? 1))
              then f32_fields sign 254 0x7FFFFF else f32_fields sign 255 0)
    else if Qlt_bool v (two_pow (-126)) then
      flags = F_UF .| F_NX /\ bits = f32_fields sign 0 0
    else
      is_normal bits sign v /\ flags = (if Qeq_bool m v then 0 else F_NX).
Proof.
  intros Hs Hm.
  destruct (round_facts sign m rm Hs Hm) as
    (e & z & up & inexact & He & Hrd & Hz & Hzf & Hix & Hup & Hres).
  exists e, z. split; [done|split; [done|] ]. cbv zeta. rewrite Hres.
  destruct (rounded_binade e z Hz) as (Hb & Hf & Hv). cbv zeta in Hb, Hf, Hv.
  set (v := (inject_Z z * two_pow (e - 23))%Q) in *.
  set (e' := if z =? 2 ^ 24 then e + 1 else e) in *.
  set (f := if z =? 2 ^ 24 then 0 else z - 2 ^ 23) in *.
  assert (Hex : (if inexact then F_NX else 0) = (if Qeq_bool m v then 0 else F_NX)).
  { destruct (Qeq_bool m v) eqn:Eq.
    - apply Qeq_bool_eq, scale_back in Eq. destruct inexact; [|done].
      enough (true = false) by done. apply Hix. by rewrite (Qfloor_comp _ _ Eq), Qfloor_Z.
    - apply Qeq_bool_neq in Eq. destruct inexact; [done|]. exfalso. apply Eq, scale_back.
      rewrite Hzf, (Hup eq_refl), Z.add_0_r. by apply Hix. }
  rewrite Z.gtb_ltb. destruct (Z.ltb_spec 127 e').
  { pose proof (two_pow_le 128 e' ltac:(lia)).
    rewrite (proj2 (Qle_bool_iff _ _)) by lra. done. }
  pose proof (two_pow_le (e' + 1) 128 ltac:(lia)).
  rewrite (proj2 (Qle_bool_false _ _)) by lra.
  destruct (Z.ltb_spec e' (-126)).
  { pose proof (two_pow_le (e' + 1) (-126) ltac:(lia)).
    rewrite (proj2 (Qlt_bool_iff _ _)) by lra. done. }
  pose proof (two_pow_le (-126) e' ltac:(lia)).
  rewrite (proj2 (Qlt_bool_false _ _)) by lra. split; [|done].
  unfold is_normal. rewrite decode_fields by lia.
  destruct (Z.eqb_spec (e' + 127) 0xFF); [lia|]. destruct (Z.eqb_spec (e' + 127) 0); [lia|].
  eexists. split; [reflexivity|]. rewrite normal_magnitude by done. rewrite Hv.
  by replace (e' + 127 - 150) with (e' - 23) by lia.
Qed.

Lemma round_from_fraction_spec_witness :
  exists e z,
    (two_pow e <= 1 # 3 < two_pow (e + 1))%Q /\
    rounded 1 RM_RDN ((1 # 3) * two_pow (23 - e))%Q z.
Proof.
  destruct (round_from_fraction_spec 1 (1 # 3) RM_RDN ltac:(by right) ltac:(by vm_compute))
    as (e & z & He & Hz & _).
  exists e, z. split; [exact He|exact Hz].
Defined.

(** ** The rounding functions respect equality of rationals *)

#[export] Instance raise_e_proper lim :
  Proper (Qeq ==> eq ==> eq ==> eq) (raise_e lim).
Proof.
  intros m m' Hm n _ <-. induction n as [|n IH]; intros e _ <-; cbn [raise_e]; [done|].
  rewrite Hm. destruct (Qle_bool _ m'); [exact (IH _ _ eq_refl)|done].
Qed.

#[export] Instance Qlt_bool_proper : Proper (Qeq ==> Qeq ==> eq) Qlt_bool.
Proof. intros a b H c d H'. unfold Qlt_bool. by rewrite H, H'. Qed.

#[export] Instance lower_e_proper lim :
  Proper (Qeq ==> eq ==> eq ==> eq) (lower_e lim).
Proof.
  intros m m' Hm n _ <-. induction n as [|n IH]; intros e _ <-; cbn [lower_e]; [done|].
  rewrite Hm. destruct (Qlt_bool m' _); [exact (IH _ _ eq_refl)|done].
Qed.

#[export] Instance classify_proper : Proper (Qeq ==> eq) classify.
Proof.
  intros a b H. unfold classify.
  by rewrite (Qeqb_comp _ _ H _ _ (Qeq_refl _)), (Qlt_bool_proper _ _ H _ _ (Qeq_refl _)),
    (Qlt_bool_proper _ _ (Qeq_refl _) _ _ H).
Qed.

#[export] Instance normalize_proper : Proper (Qeq ==> eq) f32_normalize_fraction.
Proof.
  intros m m' Hm. unfold f32_normalize_fraction. cbv zeta.
  rewrite !num_div_den, (numerator_eq _ _ Hm), (denominator_eq _ _ Hm).
  set (d := bit_length _ - _ - 1).
  rewrite (raise_e_proper two_pow m m' Hm norm_fuel _ eq_refl d _ eq_refl).
  set (k := raise_e _ _ _ _).
  rewrite (lower_e_proper two_pow m m' Hm norm_fuel _ eq_refl k _ eq_refl).
  set (e := lower_e _ _ _ _).
  assert (Hx : (m * two_pow (23 - e) == m' * two_pow (23 - e))%Q) by (by rewrite Hm).
  rewrite (Qfloor_comp _ _ Hx). f_equal. apply classify_proper. by rewrite Hx.
Qed.

#[export] Instance round_from_fraction_proper :
  Proper (eq ==> Qeq ==> eq ==> eq) f32_round_from_fraction.
Proof.
  intros s _ <- m m' Hm rm _ <-. unfold f32_round_from_fraction. by rewrite Hm.
Qed.

#[export] Instance signed_by_proper : Proper (eq ==> Qeq ==> Qeq) signed_by.
Proof. intros s _ <- m m' Hm. unfold signed_by. case_match; by rewrite Hm. Qed.

(** ** Representable values *)

Lemma normal_pos f k : 0 <= f -> (0 < inject_Z (2 ^ 23 + f) * two_pow k)%Q.
Proof.
  intros Hf. apply Qmult_lt_0_compat; [|apply two_pow_pos].
  change 0%Q with (inject_Z 0). rewrite <- Zlt_Qlt. lia.
Qed.

Lemma round_exact s E f rm :
  s = 0 \/ s = 1 -> 1 <= E <= 254 -> 0 <= f < 2 ^ 23 ->
  f32_round_from_fraction s (inject_Z (2 ^ 23 + f) * two_pow (E - 150))%Q rm
    = (f32_fields s E f, 0).
Proof.
  intros Hs HE Hf.
  destruct (round_facts s _ rm Hs (normal_pos f (E - 150) ltac:(lia))) as
    (e & z & up & inexact & He & _ & Hz & Hzf & Hix & Hup & Hres).
  assert (Hb : (two_pow (E - 127) <= inject_Z (2 ^ 23 + f) * two_pow (E - 150)
                < two_pow (E - 127 + 1))%Q).
  { destruct (rounded_binade (E - 127) (2 ^ 23 + f) ltac:(lia)) as [Hb _]. cbv zeta in Hb.
    destruct (Z.eqb_spec (2 ^ 23 + f) (2 ^ 24)); [lia|].
    by replace (E - 127 - 23) with (E - 150) in Hb by lia. }
  assert (e = E - 127) as -> by (eapply bracket_unique; done).
  assert (Hx : (inject_Z (2 ^ 23 + f) * two_pow (E - 150) * two_pow (23 - (E - 127))
                == inject_Z (2 ^ 23 + f))%Q).
  { rewrite <- Qmult_assoc, <- two_pow_plus.
    replace (E - 150 + (23 - (E - 127))) with 0 by lia. rewrite two_pow_0. ring. }
  rewrite (Qfloor_comp _ _ Hx), Qfloor_Z in Hzf, Hix.
  assert (inexact = false) as -> by (by apply Hix).
  rewrite (Hup eq_refl) in Hzf. cbn [b2i] in Hzf. rewrite Z.add_0_r in Hzf. subst z.
  rewrite Hres. destruct (Z.eqb_spec (2 ^ 23 + f) (2 ^ 24)); [lia|].
  rewrite Z.gtb_ltb. destruct (Z.ltb_spec 127 (E - 127)); [lia|].
  destruct (Z.ltb_spec (E - 127) (-126)); [lia|].
  f_equal. f_equal; lia.
Qed.

(** A normal number survives a round trip: decoding an encoding and
    rounding the exact value gives the same bits, with no flag, in every
    rounding mode. *)
Theorem decode_round_id bits rm :
  0 <= bits < 2 ^ 32 ->
  let d := f32_decode bits in
  d_zero d = false -> d_inf d = false -> d_nan d = false ->
  f32_round_from_fraction (d_sign d) (mag d) rm = (bits, 0).
Proof.
  intros Hb. cbv zeta. destruct (fields_of_word bits Hb) as (s & E & f & Hs & HE & Hf & ->).
  rewrite decode_fields by done.
  destruct (Z.eqb_spec E 0xFF); [destruct (f =? 0); done|].
  destruct (Z.eqb_spec E 0); [done|]. intros _ _ _. cbn [d_sign mag d_mag default].
  unfold mag, d_mag, default. rewrite normal_magnitude by done.
  apply round_exact; lia.
Qed.

Lemma decode_round_id_witness : f32_round_from_fraction 1 (mag (f32_decode 0xC0490FDB)) RM_RUP
  = (0xC0490FDB, 0).
Proof. apply (decode_round_id 0xC0490FDB RM_RUP); [by vm_compute|reflexivity..]. Defined.

(** ** Addition and multiplication *)

Lemma word_sign_mag b : 0 <= b < 2 ^ 32 -> ((b >> 31) .& 1) << 31 .| (b .& 0x7FFFFFFF) = b.
Proof.
  intros Hb. destruct (fields_of_word b Hb) as (s & E & f & Hs & HE & Hf & ->).
  rewrite f32_fields_sign, f32_fields_mag by done.
  rewrite lor_low_add by lia. rewrite f32_fields_sum by done. lia.
Qed.

Lemma decode_sign b : 0 <= b < 2 ^ 32 -> d_sign (f32_decode b) = (b >> 31) .& 1.
Proof.
  intros Hb. destruct (fields_of_word b Hb) as (s & E & f & Hs & HE & Hf & ->).
  rewrite f32_fields_sign, decode_fields by done. by repeat case_match.
Qed.

Lemma decode_sign_cases b : d_sign (f32_decode b) = 0 \/ d_sign (f32_decode b) = 1.
Proof.
  assert (H : forall v, v .& 1 = 0 \/ v .& 1 = 1).
  { intros v. rewrite land_1_b2z. destruct (Z.testbit v 0); [by right|by left]. }
  unfold f32_decode. cbv zeta. repeat case_match; apply H.
Qed.

(** Flipping the sign bit flips only the decoded sign. *)
Definition neg_bits (b : Z) : Z := b .^ (1 << 31).

Lemma neg_bits_fields s E f :
  0 <= s < 2 -> 0 <= E < 256 -> 0 <= f < 2 ^ 23 ->
  neg_bits (f32_fields s E f) = f32_fields (s .^ 1) E f.
Proof.
  intros Hs HE Hf. unfold neg_bits, f32_fields. rewrite <- !Z.lor_assoc.
  assert (Hl : 0 <= E << 23 .| f < 2 ^ 31) by (rewrite lor_low_add by lia; lia).
  apply Z.bits_inj'; intros i Hi.
  rewrite Z.lxor_spec, !(Z.lor_spec (_ << 31)), !(Z.shiftl_spec _ 31), Z.lxor_spec by lia.
  destruct (Z.ltb_spec i 31).
  - rewrite (Z.testbit_neg_r s), (Z.testbit_neg_r 1) by lia. by rewrite xorb_false_r.
  - rewrite (testbit_small (E << 23 .| f) 31) by lia. by rewrite !orb_false_r.
Qed.

Lemma neg_bits_width b : 0 <= b < 2 ^ 32 -> 0 <= neg_bits b < 2 ^ 32.
Proof. intros Hb. apply lxor_bound; [lia|done|done]. Qed.

Lemma lxor_1_range s : 0 <= s < 2 -> 0 <= s .^ 1 < 2.
Proof. intros. by assert (s = 0 \/ s = 1) as [->| ->] by lia. Qed.

Lemma decode_neg b : 0 <= b < 2 ^ 32 ->
  let d := f32_decode b in
  f32_decode (neg_bits b) = mkDec (d_sign d .^ 1) (d_zero d) (d_inf d) (d_nan d) (d_snan d) (d_mag d).
Proof.
  intros Hb. cbv zeta. destruct (fields_of_word b Hb) as (s & E & f & Hs & HE & Hf & ->).
  rewrite neg_bits_fields, !decode_fields by (done || by apply lxor_1_range).
  by repeat case_match.
Qed.

Lemma neg_bits_mag b : 0 <= b < 2 ^ 32 -> neg_bits b .& 0x7FFFFFFF = b .& 0x7FFFFFFF.
Proof.
  intros Hb. destruct (fields_of_word b Hb) as (s & E & f & Hs & HE & Hf & ->).
  by rewrite neg_bits_fields, !f32_fields_mag by (done || by apply lxor_1_range).
Qed.

Lemma signed_sum_zero_comm x y : Qeq_bool (x + y)%Q 0 = Qeq_bool (y + x)%Q 0.
Proof. by rewrite (Qeqb_comp _ _ (Qplus_comm x y) _ _ (Qeq_refl 0)). Qed.

(** The exact sum rounded: the tail [f_add] and [f_madd] share. *)
Definition round_sum (total : Q) (rm : Z) : Z * Z :=
  if Qeq_bool total 0 then (f32_pack_zero (zero_sum_sign rm), 0)
  else f32_round_from_fraction (if Qlt_bool total 0 then 1 else 0) (Qabs total) rm.

#[export] Instance round_sum_proper : Proper (Qeq ==> eq ==> eq) round_sum.
Proof.
  intros x y H rm _ <-. unfold round_sum.
  rewrite (Qeqb_comp _ _ H _ _ (Qeq_refl 0)), (Qlt_bool_proper _ _ H _ _ (Qeq_refl 0)).
  case_match; [done|]. apply round_from_fraction_proper; [done|by rewrite H|done].
Qed.

(** Addition and multiplication commute, bits and flags alike, for all
    32-bit operands (NaNs, infinities and zeros included) in every rounding
    mode. *)
Theorem add_mul_comm a b rm :
  0 <= a < 2 ^ 32 -> 0 <= b < 2 ^ 32 ->
  f_add a b rm false = f_add b a rm false /\ f_mul a b rm = f_mul b a rm.
Proof.
  intros Ha Hb.
  assert (Hwa : d_sign (f32_decode a) << 31 .| (a .& 0x7FFFFFFF) = a)
    by (rewrite decode_sign by done; by apply word_sign_mag).
  assert (Hwb : d_sign (f32_decode b) << 31 .| (b .& 0x7FFFFFFF) = b)
    by (rewrite decode_sign by done; by apply word_sign_mag).
  unfold f_add, f_mul. cbv zeta.
  set (da := f32_decode a) in *. set (db := f32_decode b) in *.
  change (b2i false) with 0. rewrite !Z.lxor_0_r, Hwa, Hwb.
  rewrite (orb_comm (d_nan db)), (orb_comm (d_snan db)), (Z.eqb_sym (d_sign db)),
    (Z.lxor_comm (d_sign db)), (andb_comm (d_inf db) (d_inf da)), (orb_comm (d_inf db) (d_inf da)),
    (orb_comm (d_zero db) (d_zero da)), (andb_comm (d_zero db) (d_zero da)),
    (orb_comm (d_inf db && _)), (andb_comm (d_zero db)), (andb_comm (d_inf db)).
  split.
  - fold (round_sum (signed_by (d_sign da) (mag da) + signed_by (d_sign db) (mag db))%Q rm).
    fold (round_sum (signed_by (d_sign db) (mag db) + signed_by (d_sign da) (mag da))%Q rm).
    rewrite (round_sum_proper _ _ (Qplus_comm (signed_by (d_sign db) (mag db)) _) rm _ eq_refl).
    destruct (d_nan da || d_nan db); [done|].
    destruct (d_inf da), (d_inf db), (Z.eqb_spec (d_sign da) (d_sign db)) as [E|E];
      cbn [andb negb]; rewrite ?E; try done;
      destruct (d_zero da), (d_zero db); done.
  - by rewrite (round_from_fraction_proper _ _ eq_refl _ _ (Qmult_comm (mag db) (mag da)) rm _ eq_refl).
Qed.

Lemma add_mul_comm_witness :
  f_add 0x3F800000 0x7F800001 RM_RDN false = f_add 0x7F800001 0x3F800000 RM_RDN false.
Proof. apply (add_mul_comm 0x3F800000 0x7F800001 RM_RDN); by vm_compute. Defined.

(** Subtraction is the addition of the operand with its sign bit
    flipped; likewise [fmsub], [fnmsub] and [fnmadd] are [fmadd] with the
    sign of the addend, of one factor, or of both flipped. *)
Theorem sub_is_add_neg a b c rm np na :
  0 <= a < 2 ^ 32 -> 0 <= b < 2 ^ 32 -> 0 <= c < 2 ^ 32 ->
  f_add a b rm true = f_add a (neg_bits b) rm false /\
  f_madd a b c rm np na
    = f_madd (if np then neg_bits a else a) b (if na then neg_bits c else c) rm false false.
Proof.
  intros Ha Hb Hc. split.
  - unfold f_add. cbv zeta. rewrite (decode_neg b Hb). cbn [d_sign d_zero d_inf d_nan d_snan].
    unfold mag at 2 4. cbn [d_mag]. fold (mag (f32_decode b)).
    change (b2i false) with 0. change (b2i true) with 1. rewrite !Z.lxor_0_r, neg_bits_mag by done.
    done.
  - assert (Hx : d_sign (f32_decode a) .^ 1 .^ d_sign (f32_decode b)
                 = d_sign (f32_decode a) .^ d_sign (f32_decode b) .^ 1)
      by (rewrite !Z.lxor_assoc; f_equal; apply Z.lxor_comm).
    unfold f_madd. cbv zeta.
    destruct np, na; rewrite ?(decode_neg a Ha), ?(decode_neg c Hc), ?(neg_bits_mag c Hc);
      cbn [d_sign d_zero d_inf d_nan d_snan]; unfold mag; cbn [d_mag];
      change (b2i false) with 0; change (b2i true) with 1; rewrite ?Z.lxor_0_r;
      rewrite ?Hx; reflexivity.
Qed.

Lemma sub_is_add_neg_witness :
  f_add 0x40400000 0x3F800000 RM_RNE true = f_add 0x40400000 (neg_bits 0x3F800000) RM_RNE false.
Proof. apply (sub_is_add_neg 0x40400000 0x3F800000 0 RM_RNE false false); by vm_compute. Defined.

(** ** Comparison *)

(** The rational value the comparisons order by: subnormals read as zero,
    infinities as 2^128, beyond every finite number. *)
Definition f32_real (bits : Z) : Q :=
  let E := (bits >> 23) .& 0xFF in
  if E =? 0 then 0%Q
  else signed_by ((bits >> 31) .& 1)
         (inject_Z (2 ^ 23 + (bits .& 0x7FFFFF)) * two_pow (E - 150))%Q.

Lemma real_fields s E f :
  0 <= s < 2 -> 0 <= E < 256 -> 0 <= f < 2 ^ 23 ->
  f32_real (f32_fields s E f) =
    if E =? 0 then 0%Q else signed_by s (inject_Z (2 ^ 23 + f) * two_pow (E - 150))%Q.
Proof.
  intros. unfold f32_real. cbv zeta.
  by rewrite f32_fields_exp, f32_fields_sign, f32_fields_mant.
Qed.

(** The encodings of normal magnitudes are ordered as their values. *)
Lemma magnitude_mono E f E' f' :
  1 <= E -> 1 <= E' -> 0 <= f < 2 ^ 23 -> 0 <= f' < 2 ^ 23 ->
  E * 2 ^ 23 + f < E' * 2 ^ 23 + f' ->
  (inject_Z (2 ^ 23 + f) * two_pow (E - 150) < inject_Z (2 ^ 23 + f') * two_pow (E' - 150))%Q.
Proof.
  intros HE HE' Hf Hf' Hlt.
  assert (Hb : forall E f, 0 <= f < 2 ^ 23 ->
    (two_pow (E - 127) <= inject_Z (2 ^ 23 + f) * two_pow (E - 150) < two_pow (E - 126))%Q).
  { clear. intros E f Hf. destruct (rounded_binade (E - 127) (2 ^ 23 + f) ltac:(lia)) as [Hb _].
    cbv zeta in Hb. destruct (Z.eqb_spec (2 ^ 23 + f) (2 ^ 24)); [lia|].
    replace (E - 127 - 23) with (E - 150) in Hb by lia.
    by replace (E - 127 + 1) with (E - 126) in Hb by lia. }
  destruct (Z.lt_ge_cases E E').
  - pose proof (Hb E f Hf). pose proof (Hb E' f' Hf').
    pose proof (two_pow_le (E - 126) (E' - 127) ltac:(lia)). lra.
  - assert (E' = E) as -> by lia. apply Qmult_lt_compat_r; [apply two_pow_pos|].
    rewrite <- Zlt_Qlt. lia.
Qed.

(** The magnitude of an encoding, with zero for the flushed ones. *)
Definition fmag (E f : Z) : Q :=
  if E =? 0 then 0%Q else (inject_Z (2 ^ 23 + f) * two_pow (E - 150))%Q.

Lemma real_signed s E f :
  0 <= s < 2 -> 0 <= E < 256 -> 0 <= f < 2 ^ 23 ->
  (f32_real (f32_fields s E f) == signed_by s (fmag E f))%Q.
Proof.
  intros. rewrite real_fields by done. unfold fmag, signed_by.
  destruct (E =? 0), (s =? 0); reflexivity.
Qed.

Lemma fmag_nonneg E f : 0 <= f -> (0 <= fmag E f)%Q.
Proof.
  intros. unfold fmag. case_match; [done|]. by apply Qlt_le_weak, normal_pos.
Qed.

Lemma fmag_pos E f : 0 <= f -> E <> 0 -> (0 < fmag E f)%Q.
Proof.
  intros. unfold fmag. destruct (Z.eqb_spec E 0); [done|]. by apply normal_pos.
Qed.

Lemma fmag_mono E f E' f' :
  0 <= E -> 0 <= E' -> 0 <= f < 2 ^ 23 -> 0 <= f' < 2 ^ 23 -> E <> 0 \/ E' <> 0 ->
  E * 2 ^ 23 + f < E' * 2 ^ 23 + f' -> (fmag E f < fmag E' f')%Q.
Proof.
  intros HE HE' Hf Hf' Hz Hlt. destruct (Z.eq_dec E 0) as [->|].
  - apply fmag_pos; lia.
  - unfold fmag. rewrite (proj2 (Z.eqb_neq E 0)), (proj2 (Z.eqb_neq E' 0)) by lia.
    apply magnitude_mono; lia.
Qed.

Section Compare.
Context (s E f s' E' f' : Z).
Context (Hs : 0 <= s < 2) (HE : 0 <= E < 256) (Hf : 0 <= f < 2 ^ 23).
Context (Hs' : 0 <= s' < 2) (HE' : 0 <= E' < 256) (Hf' : 0 <= f' < 2 ^ 23).
Context (Hz : E <> 0 \/ E' <> 0).

Lemma fmag_ltb :
  Qlt_bool (fmag E f) (fmag E' f') = (E * 2 ^ 23 + f <? E' * 2 ^ 23 + f') /\
  Qlt_bool (fmag E' f') (fmag E f) = (E' * 2 ^ 23 + f' <? E * 2 ^ 23 + f).
Proof.
  destruct (Z.lt_trichotomy (E * 2 ^ 23 + f) (E' * 2 ^ 23 + f')) as [H|[H|H] ].
  - pose proof (fmag_mono E f E' f' ltac:(lia) ltac:(lia) Hf Hf' Hz H).
    rewrite (proj2 (Qlt_bool_iff _ _)) by done.
    rewrite (proj2 (Qlt_bool_false _ _)) by lra. lia.
  - assert (E = E' /\ f = f') as [-> ->] by lia.
    rewrite !(proj2 (Qlt_bool_false _ _)) by lra. lia.
  - pose proof (fmag_mono E' f' E f ltac:(lia) ltac:(lia) Hf' Hf ltac:(tauto) H).
    rewrite (proj2 (Qlt_bool_false _ _)) by lra.
    rewrite (proj2 (Qlt_bool_iff _ _)) by done. lia.
Qed.

Lemma enc_lt_real :
  enc_lt s s' (f32_fields s E f) (f32_fields s' E' f')
    = Qlt_bool (f32_real (f32_fields s E f)) (f32_real (f32_fields s' E' f')).
Proof.
  unfold enc_lt. rewrite !f32_fields_mag by done.
  rewrite (Qlt_bool_proper _ _ (real_signed s E f Hs HE Hf) _ _ (real_signed s' E' f' Hs' HE' Hf')).
  rewrite Z.gtb_ltb. pose proof fmag_ltb as [H1 H2].
  pose proof (fmag_nonneg E f ltac:(lia)). pose proof (fmag_nonneg E' f' ltac:(lia)).
  assert (0 < fmag E f \/ 0 < fmag E' f')%Q.
  { destruct Hz; [left|right]; apply fmag_pos; lia. }
  assert (s = 0 \/ s = 1) as [->| ->] by lia; assert (s' = 0 \/ s' = 1) as [->| ->] by lia;
    unfold signed_by; cbn [Z.eqb negb truthy Pos.eqb]; symmetry.
  - exact H1.
  - apply Qlt_bool_false. lra.
  - change (truthy 1) with true. apply Qlt_bool_iff. destruct H3 as [H3|H3]; lra.
  - change (truthy 1) with true. rewrite <- H2.
    apply eq_iff_eq_true. rewrite !Qlt_bool_iff. split; intros; lra.
Qed.
End Compare.

Lemma decode_not_nan b : d_nan (f32_decode b) = false -> d_snan (f32_decode b) = false.
Proof. unfold f32_decode. cbv zeta. repeat case_match; done. Qed.

Lemma real_eq_bits s E f s' E' f' :
  0 <= s < 2 -> 0 <= E < 256 -> 0 <= f < 2 ^ 23 ->
  0 <= s' < 2 -> 0 <= E' < 256 -> 0 <= f' < 2 ^ 23 -> E <> 0 \/ E' <> 0 ->
  Qeq_bool (f32_real (f32_fields s E f)) (f32_real (f32_fields s' E' f'))
    = (f32_fields s E f =? f32_fields s' E' f').
Proof.
  intros Hs HE Hf Hs' HE' Hf' Hz.
  rewrite (Qeqb_comp _ _ (real_signed s E f Hs HE Hf) _ _ (real_signed s' E' f' Hs' HE' Hf')).
  apply eq_iff_eq_true. rewrite Z.eqb_eq, Qeq_bool_iff, !f32_fields_sum by done.
  pose proof (fmag_nonneg E f ltac:(lia)). pose proof (fmag_nonneg E' f' ltac:(lia)).
  assert (0 < fmag E f \/ 0 < fmag E' f')%Q.
  { destruct Hz; [left|right]; apply fmag_pos; lia. }
  pose proof (fmag_mono E f E' f' ltac:(lia) ltac:(lia) Hf Hf' Hz) as M1.
  pose proof (fmag_mono E' f' E f ltac:(lia) ltac:(lia) Hf' Hf ltac:(tauto)) as M2.
  assert (Hk : E * 2 ^ 23 + f = E' * 2 ^ 23 + f' <-> (fmag E f == fmag E' f')%Q).
  { split; [intros He; assert (E = E' /\ f = f') as [-> ->] by lia; done|]. intros Hq.
    destruct (Z.lt_trichotomy (E * 2 ^ 23 + f) (E' * 2 ^ 23 + f')) as [L|[L|L] ]; [|done|].
    - specialize (M1 L). lra.
    - specialize (M2 L). lra. }
  assert (s = 0 \/ s = 1) as [->| ->] by lia; assert (s' = 0 \/ s' = 1) as [->| ->] by lia;
    unfold signed_by; cbn [Z.eqb].
  - rewrite <- Hk. lia.
  - split; intros Hq; [exfalso; destruct H1; lra|lia].
  - split; intros Hq; [exfalso; destruct H1; lra|lia].
  - assert (Ho : (- fmag E f == - fmag E' f' <-> fmag E f == fmag E' f')%Q) by (split; intros; lra).
    rewrite Ho, <- Hk. lia.
Qed.

(** On operands that are not NaN, [feq], [flt] and [fle] are the
    equality and the orders of the values the encodings stand for (both
    zeros equal, infinities beyond every finite number), although the code
    compares sign, exponent and fraction fields. *)
Theorem compare_spec a b :
  0 <= a < 2 ^ 32 -> 0 <= b < 2 ^ 32 ->
  d_nan (f32_decode a) = false -> d_nan (f32_decode b) = false ->
  f_cmp a b 2 = (b2i (Qeq_bool (f32_real a) (f32_real b)), 0) /\
  f_cmp a b 1 = (b2i (Qlt_bool (f32_real a) (f32_real b)), 0) /\
  f_cmp a b 0 = (b2i (Qle_bool (f32_real a) (f32_real b)), 0).
Proof.
  intros Ha Hb Hna Hnb. unfold f_cmp. rewrite Hna, Hnb. cbn [orb]. cbv zeta.
  rewrite !decode_sign by done.
  destruct (fields_of_word a Ha) as (s & E & f & Hs & HE & Hf & ->).
  destruct (fields_of_word b Hb) as (s' & E' & f' & Hs' & HE' & Hf' & ->).
  unfold f32_is_zero_arith. rewrite !f32_fields_exp, !f32_fields_sign by done.
  destruct (Z.eqb_spec E 0) as [->|HE0]; [destruct (Z.eqb_spec E' 0) as [->|HE0']|];
    cbn [andb]; [by rewrite !real_fields by done|..].
  all: rewrite enc_lt_real, <- real_eq_bits by (done || lia || auto).
  all: split; [done|split; [done|] ]; do 2 f_equal; cbn [Z.eqb].
  all: apply eq_iff_eq_true; rewrite orb_true_iff, Qlt_bool_iff, Qeq_bool_iff, Qle_bool_iff.
  all: rewrite Qle_lteq; tauto.
Qed.

Lemma compare_spec_witness :
  f_cmp 0x80000000 0x00000000 2 = (1, 0) /\
  f_cmp 0xC0000000 0x3F800000 1
    = (b2i (Qlt_bool (f32_real 0xC0000000) (f32_real 0x3F800000)), 0).
Proof.
  split.
  - rewrite (proj1 (compare_spec 0x80000000 0 ltac:(by vm_compute) ltac:(by vm_compute)
      ltac:(reflexivity) ltac:(reflexivity))). vm_compute. reflexivity.
  - apply (compare_spec 0xC0000000 0x3F800000); by vm_compute.
Defined.

(** [fmin] and [fmax] return one of their operands: with one NaN the
    other operand, with two the canonical NaN, and otherwise a lower
    (upper) bound of both values, where -0 is below +0. *)
Theorem minmax_spec a b :
  0 <= a < 2 ^ 32 -> 0 <= b < 2 ^ 32 ->
  let na := d_nan (f32_decode a) in let nb := d_nan (f32_decode b) in
  let lo := fst (f_minmax a b 0) in let hi := fst (f_minmax a b 1) in
  if na && nb then lo = CANONICAL_NAN /\ hi = CANONICAL_NAN
  else if na then lo = b /\ hi = b
  else if nb then lo = a /\ hi = a
  else
    ((lo = a /\ hi = b) \/ (lo = b /\ hi = a)) /\
    (f32_real lo <= f32_real hi)%Q /\
    (a = 1 << 31 -> b = 0 -> lo = a) /\ (a = 0 -> b = 1 << 31 -> lo = b).
Proof.
  intros Ha Hb. cbv zeta. unfold f_minmax. cbv zeta.
  destruct (d_nan (f32_decode a)) eqn:Hna, (d_nan (f32_decode b)) eqn:Hnb;
    cbn [andb fst]; try done.
  rewrite !decode_sign by done. cbn [Z.eqb].
  split; [by repeat case_match; auto|].
  split; [|split; intros -> ->; reflexivity].
  destruct (fields_of_word a Ha) as (s & E & f & Hs & HE & Hf & ->).
  destruct (fields_of_word b Hb) as (s' & E' & f' & Hs' & HE' & Hf' & ->).
  unfold f32_is_zero_arith. rewrite !f32_fields_exp, !f32_fields_sign by done.
  destruct (Z.eqb_spec E 0) as [->|HE0]; [destruct (Z.eqb_spec E' 0) as [->|HE0']|];
    cbn [andb].
  { destruct (truthy s && negb (truthy s')); cbn [fst];
    rewrite !real_fields by done; done. }
  all: rewrite enc_lt_real by (done || lia || auto).
  all: match goal with |- context [Qlt_bool ?x ?y] => destruct (Qlt_bool x y) eqn:El end;
    cbn [fst]; [apply Qlt_bool_iff in El; by apply Qlt_le_weak|by apply Qlt_bool_false in El].
Qed.

Lemma minmax_spec_witness : fst (f_minmax 0x80000000 0 0) = 0x80000000.
Proof. by apply (minmax_spec 0x80000000 0). Defined.

(** ** Classification *)

Ltac class_bit k :=
  exists k; split; [reflexivity|split; [lia|] ];
  repeat match goal with |- _ /\ _ => split end;
  (split; let Hk := fresh "Hk" in intros Hk;
  first [ lia | exfalso; destruct Hk as [? _]; lra | exfalso; destruct Hk as [? ?]; congruence
        | exfalso; congruence | reflexivity | split; (reflexivity || lia || auto) ]).

(** [fclass] sets exactly the one bit of the ten that matches the
    decoded operand. *)
Theorem class_spec b :
  0 <= b < 2 ^ 32 ->
  let d := f32_decode b in
  exists k, f_class b = 1 << k /\ 0 <= k < 10 /\
    (k = 8 <-> d_snan d = true) /\
    (k = 9 <-> d_nan d = true /\ d_snan d = false) /\
    (k = 0 <-> d_inf d = true /\ d_sign d = 1) /\
    (k = 7 <-> d_inf d = true /\ d_sign d = 0) /\
    (k = 2 \/ k = 3 <-> d_zero d = true /\ d_sign d = 1) /\
    (k = 4 \/ k = 5 <-> d_zero d = true /\ d_sign d = 0) /\
    (k = 3 \/ k = 4 <-> b = 0 \/ b = 1 << 31) /\
    (k = 1 <-> (mag d > 0)%Q /\ d_sign d = 1) /\ (k = 6 <-> (mag d > 0)%Q /\ d_sign d = 0).
Proof.
  intros Hb. cbv zeta. destruct (fields_of_word b Hb) as (s & E & f & Hs & HE & Hf & ->).
  assert (Hz : f32_fields s E f = 0 \/ f32_fields s E f = 1 << 31 <-> E = 0 /\ f = 0).
  { rewrite f32_fields_sum by done. change (1 << 31) with (2 ^ 31). lia. }
  rewrite decode_fields by done. unfold f_class.
  rewrite f32_fields_exp, f32_fields_sign, f32_fields_mant by done. cbv zeta.
  assert (Hsn : truthy ((f >> 22) .& 1) = negb ((f >> 22) .& 1 =? 0)) by done.
  assert (Hpos : E <> 0 -> (0 < ((2 ^ 23 .| f) # 2 ^ 23) * two_pow (E - 127))%Q).
  { intros _. rewrite normal_magnitude by done. apply normal_pos. lia. }
  setoid_rewrite Hz. clear Hz Hb. unfold mag in *.
  destruct (Z.eqb_spec E 255) as [->|HE1];
    [destruct (Z.eqb_spec f 0) as [->|Hf0]|destruct (Z.eqb_spec E 0) as [->|HE0];
      [destruct (Z.eqb_spec f 0) as [->|Hf0]|] ];
    assert (s = 0 \/ s = 1) as [->| ->] by lia;
    rewrite ?Hsn; cbn [Z.eqb Pos.eqb truthy negb andb orb d_sign d_zero d_inf d_nan d_snan d_mag default]; cbv [id].
  1: class_bit 7. 1: class_bit 0.
  1,2: destruct ((f >> 22) .& 1 =? 0); cbn [negb andb].
  1: class_bit 8. 1: class_bit 9. 1: class_bit 8. 1: class_bit 9.
  1: class_bit 4. 1: class_bit 3. 1: class_bit 5. 1: class_bit 2.
  1: class_bit 6. class_bit 1.
Qed.

Lemma class_spec_witness : exists k, f_class 0xFF800000 = 1 << k /\ 0 <= k < 10.
Proof.
  destruct (class_spec 0xFF800000 ltac:(by vm_compute)) as (k & H1 & H2 & _).
  exists k. split; [exact H1|exact H2].
Defined.

(** ** Conversions *)

Lemma decode_finite b :
  0 <= b < 2 ^ 32 ->
  let d := f32_decode b in
  d_zero d = false -> d_inf d = false -> d_nan d = false -> (0 < mag d)%Q.
Proof.
  intros Hb. cbv zeta. destruct (fields_of_word b Hb) as (s & E & f & Hs & HE & Hf & ->).
  rewrite decode_fields by done.
  destruct (Z.eqb_spec E 0xFF); [destruct (f =? 0); done|].
  destruct (Z.eqb_spec E 0); [done|]. intros _ _ _.
  unfold mag, d_mag, default. cbn [from_option]. cbv [id].
  rewrite normal_magnitude by done. apply normal_pos. lia.
Qed.

Definition cvt_lo (unsigned : bool) : Z := if unsigned then 0 else - 2 ^ 31.
Definition cvt_hi (unsigned : bool) : Z := if unsigned then 2 ^ 32 - 1 else 2 ^ 31 - 1.

Lemma cvt_finite a rm (unsigned : bool) :
  0 <= a < 2 ^ 32 ->
  let d := f32_decode a in
  d_nan d = false -> d_zero d = false -> d_inf d = false ->
  exists z, rounded (d_sign d) rm (mag d) z /\
    let v := if d_sign d =? 0 then z else - z in
    f_cvt_to_int a rm unsigned =
      if (cvt_lo unsigned <=? v) && (v <=? cvt_hi unsigned)
      then (wrap 32 v, if Qeq_bool (mag d) (inject_Z z) then 0 else F_NX)
      else (wrap 32 (if d_sign d =? 0 then cvt_hi unsigned else cvt_lo unsigned), F_NV).
Proof.
  intros Ha. cbv zeta. intros Hn Hz0 Hi.
  pose proof (decode_finite a Ha Hz0 Hi Hn) as Hfin. pose proof (decode_sign_cases a) as Hs.
  unfold f_cvt_to_int, cvt_lo, cvt_hi. cbv zeta. rewrite Hn, Hz0, Hi.
  set (d := f32_decode a) in *. rewrite num_div_den.
  set (m := mag d) in *. set (fl := Qfloor m).
  destruct (f32_round_up_decision (classify (m - inject_Z fl)) fl (d_sign d) rm)
    as [up inexact] eqn:Ed.
  destruct (round_decision_spec m (d_sign d) rm up inexact Hs Ed) as (Hr & Hix & Hup).
  fold fl in Hr, Hix. exists (fl + b2i up). split; [done|].
  assert (Hfl : 0 <= fl).
  { unfold fl. rewrite <- (Qfloor_Z 0). apply Qfloor_resp_le. by apply Qlt_le_weak. }
  assert (Hz : 0 <= fl + b2i up) by (destruct up; cbn [b2i]; lia).
  assert (Hex : (if inexact then F_NX else 0)
                = (if Qeq_bool m (inject_Z (fl + b2i up)) then 0 else F_NX)).
  { destruct inexact.
    - destruct (Qeq_bool m (inject_Z (fl + b2i up))) eqn:Eq; [|done]. apply Qeq_bool_eq in Eq.
      enough (true = false) by done. apply Hix.
      assert (fl = fl + b2i up) as Hf by (unfold fl at 1; by rewrite (Qfloor_comp _ _ Eq), Qfloor_Z).
      rewrite Hf. exact Eq.
    - rewrite (Hup eq_refl). cbn [b2i]. rewrite Z.add_0_r.
      by rewrite (Qeq_eq_bool _ _ (proj1 Hix eq_refl)). }
  rewrite Hex. set (z := fl + b2i up) in *. clearbody z. clear Hr Hix Hup Hex Ed.
  unfold cvt_saturated.
  destruct Hs as [-> | ->]; cbn [Z.eqb truthy negb andb orb]; destruct unsigned;
    cbn [Z.eqb truthy negb andb orb]; rewrite ?Z.gtb_ltb, ?orb_false_r;
    change (wrap 32 (2 ^ 32 - 1)) with 0xFFFFFFFF; change (wrap 32 0) with 0;
    change (wrap 32 (2 ^ 31 - 1)) with 0x7FFFFFFF; change (wrap 32 (- 2 ^ 31)) with 0x80000000;
    fold_masks; fold (wrap 32 z); fold (wrap 32 (- z)).
  - destruct (Z.ltb_spec 0xFFFFFFFF z), (Z.leb_spec 0 z), (Z.leb_spec z (2 ^ 32 - 1)); try lia; done.
  - destruct (Z.ltb_spec 0x7FFFFFFF z), (Z.leb_spec (- 2 ^ 31) z), (Z.leb_spec z (2 ^ 31 - 1)); try lia; done.
  - destruct (Z.eqb_spec z 0), (Z.ltb_spec 0xFFFFFFFF z), (Z.leb_spec 0 (- z)), (Z.leb_spec (- z) (2 ^ 32 - 1)); try lia; done.
  - destruct (Z.ltb_spec 0x80000000 z), (Z.leb_spec (- 2 ^ 31) (- z)), (Z.leb_spec (- z) (2 ^ 31 - 1)); try lia; done.
Qed.

(** [C17] Conversion to a 32-bit integer: a finite operand is rounded to the
    integer [z] its mode prescribes; if the signed value fits the target the
    result is its two's-complement word, with NX exactly when [z] is not the
    operand's value, and otherwise the nearest bound of the target with NV;
    infinities saturate and NaNs give the largest value, with NV. *)
Theorem cvt_to_int_spec a rm (unsigned : bool) :
  0 <= a < 2 ^ 32 ->
  let d := f32_decode a in
  let lo := cvt_lo unsigned in
  let hi := cvt_hi unsigned in
  if d_nan d then f_cvt_to_int a rm unsigned = (wrap 32 hi, F_NV)
  else if d_zero d then f_cvt_to_int a rm unsigned = (0, 0)
  else if d_inf d then
    f_cvt_to_int a rm unsigned = (wrap 32 (if d_sign d =? 0 then hi else lo), F_NV)
  else
    exists z, rounded (d_sign d) rm (mag d) z /\
      let v := if d_sign d =? 0 then z else - z in
      f_cvt_to_int a rm unsigned =
        if (lo <=? v) && (v <=? hi)
        then (wrap 32 v, if Qeq_bool (mag d) (inject_Z z) then 0 else F_NX)
        else (wrap 32 (if d_sign d =? 0 then hi else lo), F_NV).
Proof.
  intros Ha. cbv zeta. pose proof (cvt_finite a rm unsigned Ha) as Hfin. cbv zeta in Hfin.
  pose proof (decode_sign_cases a) as Hs.
  destruct (d_nan (f32_decode a)) eqn:Hn, (d_zero (f32_decode a)) eqn:Hz,
    (d_inf (f32_decode a)) eqn:Hi; try exact (Hfin eq_refl eq_refl eq_refl);
    unfold f_cvt_to_int, cvt_saturated; cbv zeta; rewrite Hn, ?Hz, ?Hi;
    [by destruct unsigned..|done|done|].
  destruct Hs as [-> | ->]; by destruct unsigned.
Qed.

Lemma cvt_to_int_spec_witness :
  exists z, rounded 1 RM_RNE (mag (f32_decode 0xC0200000)) z.
Proof.
  destruct (cvt_to_int_spec 0xC0200000 RM_RNE false ltac:(by vm_compute)) as (z & Hz & _).
  exists z. exact Hz.
Defined.

(** Rounding an integer does nothing. *)
Lemma rounded_int s rm x z n : rounded s rm x z -> (x == inject_Z n)%Q -> z = n.
Proof.
  intros Hr Hx.
  assert (Hd : (inject_Z n - 1 < inject_Z z /\ inject_Z z < inject_Z n + 1)%Q).
  { unfold rounded in Hr. rewrite <- Hx. repeat case_match; destruct_and?; lra. }
  change 1%Q with (inject_Z 1) in Hd. unfold Qminus in Hd.
  rewrite <- inject_Z_opp, <- !inject_Z_plus, <- !Zlt_Qlt in Hd. lia.
Qed.

(** The float of an integer below 2^24 is exact. *)
Lemma small_int_float s n :
  s = 0 \/ s = 1 -> 0 < n < 2 ^ 24 -> forall rm,
  exists E f, 127 <= E <= 150 /\ 0 <= f < 2 ^ 23 /\
    (inject_Z n == inject_Z (2 ^ 23 + f) * two_pow (E - 150))%Q /\
    f32_round_from_fraction s (inject_Z n) rm = (f32_fields s E f, 0).
Proof.
  intros Hs Hn rm. pose proof (Z.log2_spec n ltac:(lia)) as [Hl1 Hl2].
  pose proof (Z.log2_nonneg n). set (l := Z.log2 n) in *.
  assert (Hl24 : l < 24) by (apply Z.log2_lt_pow2; lia).
  assert (Hp : 2 ^ 23 = 2 ^ l * 2 ^ (23 - l)) by (rewrite <- Z.pow_add_r by lia; f_equal; lia).
  assert (Hp' : 2 ^ 24 = 2 ^ (Z.succ l) * 2 ^ (23 - l)) by
    (rewrite <- Z.pow_add_r by lia; f_equal; lia).
  pose proof (pow2_pos (23 - l) ltac:(lia)).
  assert (Hr : 2 ^ 23 <= n * 2 ^ (23 - l) < 2 ^ 24) by nia.
  exists (l + 127), (n * 2 ^ (23 - l) - 2 ^ 23).
  assert (Hq : (inject_Z n == inject_Z (2 ^ 23 + (n * 2 ^ (23 - l) - 2 ^ 23))
                              * two_pow (l + 127 - 150))%Q).
  { replace (2 ^ 23 + (n * 2 ^ (23 - l) - 2 ^ 23)) with (n * 2 ^ (23 - l)) by lia.
    rewrite inject_Z_mult, <- two_pow_Z, <- Qmult_assoc, <- two_pow_plus by lia.
    replace (23 - l + (l + 127 - 150)) with 0 by lia. rewrite two_pow_0. ring. }
  split; [lia|split; [lia|split; [done|] ] ].
  rewrite (round_from_fraction_proper _ _ eq_refl _ _ Hq rm _ eq_refl).
  apply round_exact; lia.
Qed.

(** Integers of magnitude below 2^24 convert to single precision and
    back unchanged, with no flag, whatever the two rounding modes. *)
Theorem int_float_roundtrip n rm rm' :
  - 2 ^ 24 < n < 2 ^ 24 ->
  let '(bits, flags) := f_cvt_from_int (wrap 32 n) rm false in
  flags = 0 /\ f_cvt_to_int bits rm' false = (wrap 32 n, 0).
Proof.
  intros Hn. destruct (Z.eq_dec n 0) as [->|Hn0]; [done|].
  unfold f_cvt_from_int.
  assert (Hw : wrap 32 n = if n <? 0 then n + 2 ^ 32 else n).
  { unfold wrap. destruct (Z.ltb_spec n 0); [|apply Z.mod_small; lia].
    symmetry. apply Z.mod_unique_pos with (-1); lia. }
  destruct (Z.eqb_spec (wrap 32 n) 0) as [E0|_]; [rewrite Hw in E0; case_match; lia|].
  set (s := (wrap 32 n >> 31) .& 1). 
  assert (Hs : s = if n <? 0 then 1 else 0).
  { unfold s. rewrite bit_b2z, Z.testbit_eqb, Hw by lia. destruct (Z.ltb_spec n 0).
    - rewrite <- (Z.div_unique_pos (n + 2 ^ 32) (2 ^ 31) 1 (n + 2 ^ 31)) by lia. done.
    - rewrite Z.div_small by lia. done. }
  assert (Hm : (if truthy s then (.~ wrap 32 n + 1) .& 0xFFFFFFFF else wrap 32 n) = Z.abs n).
  { rewrite Hs, Hw. destruct (Z.ltb_spec n 0); cbn [truthy Z.eqb negb]; [|lia].
    fold_masks. unfold Z.lnot. symmetry. apply Z.mod_unique_pos with (-1); lia. }
  rewrite Hm. destruct (small_int_float s (Z.abs n)) with (rm := rm) as (E & f & HE & Hf & Hq & ->).
  { rewrite Hs. destruct (n <? 0); auto. }
  { lia. }
  split; [done|].
  assert (Hs2 : 0 <= s < 2) by (rewrite Hs; destruct (n <? 0); lia).
  assert (Hww := f32_fields_width s E f Hs2 ltac:(lia) Hf).
  pose proof (cvt_finite (f32_fields s E f) rm' false Hww) as Hc. cbv zeta in Hc.
  rewrite decode_fields in Hc by lia.
  destruct (Z.eqb_spec E 0xFF) as [|_]; [lia|]. destruct (Z.eqb_spec E 0) as [|_]; [lia|].
  destruct (Hc eq_refl eq_refl eq_refl) as (z & Hr & ->). clear Hc.
  unfold mag, d_mag, d_sign, default in *. cbn [from_option] in *. cbv [id] in *.
  assert (Hmag := normal_magnitude f E Hf). rewrite <- Hq in Hmag.
  assert (z = Z.abs n) as -> by exact (rounded_int _ _ _ _ _ Hr Hmag).
  rewrite (Qeq_eq_bool _ _ Hmag). unfold cvt_lo, cvt_hi.
  assert (Hv : (if s =? 0 then Z.abs n else - Z.abs n) = n).
  { rewrite Hs. destruct (Z.ltb_spec n 0); cbn [Z.eqb]; lia. }
  rewrite Hv.
  destruct (Z.leb_spec (- 2 ^ 31) n), (Z.leb_spec n (2 ^ 31 - 1)); try lia. done.
Qed.

Lemma int_float_roundtrip_witness :
  let '(bits, flags) := f_cvt_from_int (wrap 32 (-16777215)) RM_RDN false in
  flags = 0 /\ f_cvt_to_int bits RM_RUP false = (wrap 32 (-16777215), 0).
Proof. apply (int_float_roundtrip (-16777215) RM_RDN RM_RUP). lia. Defined.

(** ** Square root *)

Lemma sqrt_exponent m :
  (0 < m)%Q ->
  let lim e := two_pow (2 * e) in
  let d := bit_length (numerator m) - bit_length (denominator m) in
  let e := lower_e lim m norm_fuel (raise_e lim m norm_fuel (d `div` 2 - 1)) in
  (two_pow (2 * e) <= m < two_pow (2 * (e + 1)))%Q.
Proof.
  intros Hm. cbv zeta. pose proof (exponent_guess m Hm) as [H1 H2]. cbv zeta in H1, H2.
  set (d := bit_length _ - _) in *. pose proof (Z.div_mod d 2). pose proof (Z.mod_pos_bound d 2).
  apply (loops_bracket (fun e => two_pow (2 * e)) m (d `div` 2 - 1)).
  - eapply Qle_trans; [|exact H1]. apply two_pow_le. lia.
  - eapply Qlt_le_trans; [exact H2|]. apply two_pow_le. lia.
Qed.

Lemma num_den_Z n : numerator (inject_Z n) = n /\ denominator (inject_Z n) = 1.
Proof.
  unfold numerator, denominator, inject_Z, Qred.
  pose proof (Z.ggcd_gcd n 1) as Hg. pose proof (Z.ggcd_correct_divisors n 1) as Hd.
  destruct (Z.ggcd n 1) as [g [aa bb] ]. rewrite Z.gcd_1_r in Hg. cbn in Hg. subst g.
  destruct Hd as [-> Hb]. cbn [snd Qnum Qden].
  assert (bb = 1) as -> by lia. lia.
Qed.

(** The scaled radicand of a decoded number is a 47- or 48-bit integer. *)
Lemma sqrt_scaled a e :
  0 <= a < 2 ^ 32 ->
  let d := f32_decode a in
  d_zero d = false -> d_inf d = false -> d_nan d = false ->
  (two_pow (2 * e) <= mag d < two_pow (2 * (e + 1)))%Q ->
  exists n, (mag d * two_pow (2 * (23 - e)) == inject_Z n)%Q /\ 2 ^ 46 <= n < 2 ^ 48.
Proof.
  intros Ha. cbv zeta. destruct (fields_of_word a Ha) as (s & E & f & Hs & HE & Hf & ->).
  rewrite decode_fields by done.
  destruct (Z.eqb_spec E 0xFF); [destruct (f =? 0); done|].
  destruct (Z.eqb_spec E 0); [done|]. intros _ _ _.
  unfold mag, d_mag, default. cbn [from_option]. cbv [id].
  rewrite normal_magnitude by done. intros [H1 H2].
  pose proof (rounded_binade (E - 127) (2 ^ 23 + f) ltac:(lia)) as [Hb _]. cbv zeta in Hb.
  destruct (Z.eqb_spec (2 ^ 23 + f) (2 ^ 24)); [lia|].
  replace (E - 127 - 23) with (E - 150) in Hb by lia.
  assert (Hk : 2 * e < E - 127 + 1).
  { apply Z.lt_nge. intros Hge. pose proof (two_pow_le _ _ Hge). lra. }
  exists ((2 ^ 23 + f) * 2 ^ (E - 104 - 2 * e)).
  assert (Hn : (inject_Z (2 ^ 23 + f) * two_pow (E - 150) * two_pow (2 * (23 - e))
                == inject_Z ((2 ^ 23 + f) * 2 ^ (E - 104 - 2 * e)))%Q).
  { rewrite inject_Z_mult, <- (two_pow_Z (E - 104 - 2 * e)), <- Qmult_assoc, <- two_pow_plus by lia.
    by replace (E - 150 + 2 * (23 - e)) with (E - 104 - 2 * e) by lia. }
  split; [rewrite normal_magnitude by done; exact Hn|].
  pose proof (two_pow_pos (2 * (23 - e))) as Hp.
  assert (H3 : (inject_Z (2 ^ 46) == two_pow (2 * e) * two_pow (2 * (23 - e)))%Q).
  { rewrite <- two_pow_Z, <- two_pow_plus by lia. by replace (2 * e + 2 * (23 - e)) with 46 by lia. }
  assert (H4 : (inject_Z (2 ^ 48) == two_pow (2 * (e + 1)) * two_pow (2 * (23 - e)))%Q).
  { rewrite <- two_pow_Z, <- two_pow_plus by lia.
    by replace (2 * (e + 1) + 2 * (23 - e)) with 48 by lia. }
  rewrite Zle_Qle, Zlt_Qlt, <- Hn, H3, H4. split; nra.
Qed.

(** The parts of a square root: the exponent, the scaled radicand [n], its
    integer square root [q] and the class of the rest, in which no tie is
    possible. *)
Lemma sqrt_parts a rm :
  0 <= a < 2 ^ 32 ->
  let d := f32_decode a in
  d_nan d = false -> d_zero d = false -> d_inf d = false -> d_sign d = 0 ->
  exists e n q cls,
    (two_pow (2 * e) <= mag d < two_pow (2 * (e + 1)))%Q /\
    (mag d * two_pow (2 * (23 - e)) == inject_Z n)%Q /\
    2 ^ 23 <= q < 2 ^ 24 /\ q * q <= n < (q + 1) * (q + 1) /\
    match cls with
    | Exact => q * q = n
    | Below => q * q < n /\ 4 * n < (2 * q + 1) * (2 * q + 1)
    | Tie => False
    | Above => (2 * q + 1) * (2 * q + 1) < 4 * n
    end /\
    f_sqrt a rm = Ok (f32_pack_rounded 0 e q cls rm).
Proof.
  intros Ha. cbv zeta. intros Hn Hz Hi Hs. unfold f_sqrt. rewrite Hn, Hz, Hi, Hs.
  cbn [truthy Z.eqb negb]. pose proof (decode_finite a Ha Hz Hi Hn) as Hm.
  unfold f32_round_from_sqrt, f32_sqrt_normalize.
  pose proof (sqrt_exponent (mag (f32_decode a)) Hm) as He. cbv zeta in He |- *.
  set (e := lower_e _ _ _ _) in *. clearbody e.
  destruct (sqrt_scaled a e Ha Hz Hi Hn He) as (n & Hsc & Hrange).
  rewrite (denominator_eq _ _ Hsc), (numerator_eq _ _ Hsc).
  destruct (num_den_Z n) as [-> ->]. cbn [Z.eqb Pos.eqb negb].
  pose proof (Z.sqrt_spec n ltac:(lia)) as Hq. set (q := Z.sqrt n) in *.
  assert (Hq' : q * q <= n < (q + 1) * (q + 1)) by (unfold Z.succ in Hq; lia).
  rewrite Z.gtb_ltb. change (2 ^ 2) with 4.
  replace ((2 * q + 1) ^ 2) with ((2 * q + 1) * (2 * q + 1)) by (rewrite Z.pow_2_r; lia).
  destruct (Z.eqb_spec (q * q) n); [|destruct (Z.ltb_spec (4 * n) ((2 * q + 1) * (2 * q + 1)));
    [|destruct (Z.ltb_spec ((2 * q + 1) * (2 * q + 1)) (4 * n))] ].
  all: eexists e, n, q, _; split; [exact He|]; split; [done|split; [nia|split; [done|split; [|reflexivity] ] ] ];
    cbn; try lia.
Qed.

(** The decision rounds the root as its mode says. *)
Lemma root_decision n q cls rm up inexact :
  2 ^ 23 <= q -> q * q <= n < (q + 1) * (q + 1) ->
  match cls with
  | Exact => q * q = n
  | Below => q * q < n /\ 4 * n < (2 * q + 1) * (2 * q + 1)
  | Tie => False
  | Above => (2 * q + 1) * (2 * q + 1) < 4 * n
  end ->
  f32_round_up_decision cls q 0 rm = (up, inexact) ->
  rounded_root rm (inject_Z n) (q + b2i up) /\ (inexact = false <-> (q + b2i up) * (q + b2i up) = n).
Proof.
  intros Hq Hn Hc Hd.
  assert (Hi : inexact = false <-> (q + b2i up) * (q + b2i up) = n).
  { unfold f32_round_up_decision in Hd. destruct cls; [|..].
    1: { injection Hd as <- <-. cbn [b2i]. rewrite Z.add_0_r. by split. }
    all: assert (inexact = true) as -> by (repeat case_match; congruence).
    all: split; [done|]; destruct up; cbn [b2i]; nia. }
  split; [|exact Hi].
  unfold rounded_root. cbv zeta. unfold Qminus, Qle, Qlt, Qeq, inject_Z, Qmult, Qplus, Qopp.
  cbn [Qnum Qden Pos.mul]. rewrite ?Z.mul_1_r.
  unfold f32_round_up_decision in Hd. destruct cls; try (exfalso; exact Hc).
  1: { injection Hd as <- <-. cbn [b2i]. rewrite Z.add_0_r.
       repeat case_match; first [nia|split; [nia|intros [?|?]; nia] ]. }
  all: destruct (rm =? RM_RTZ); cbn [orb]; [injection Hd as <- <-; cbn [b2i]; nia|].
  all: destruct (rm =? RM_RDN); cbn [orb Z.eqb] in *; [injection Hd as <- <-; cbn [b2i]; nia|].
  all: destruct (rm =? RM_RUP); cbn [Z.eqb] in *; [injection Hd as <- <-; cbn [b2i]; nia|].
  all: destruct (rm =? RM_RMM); injection Hd as <- <-; cbn [b2i]; first [nia|split; [nia|intros [?|?]; nia] ].
Qed.

#[export] Instance rounded_root_proper : Proper (eq ==> Qeq ==> eq ==> iff) rounded_root.
Proof. intros rm _ <- x y H z _ <-. unfold rounded_root. cbv zeta. by repeat case_match; rewrite H. Qed.

(** The exponent of the root of a decoded number stays far inside the
    format's range: no overflow, no underflow. *)
Lemma sqrt_exponent_range a e :
  0 <= a < 2 ^ 32 ->
  let d := f32_decode a in
  d_zero d = false -> d_inf d = false -> d_nan d = false ->
  (two_pow (2 * e) <= mag d < two_pow (2 * (e + 1)))%Q -> -64 <= e <= 63.
Proof.
  intros Ha. cbv zeta. destruct (fields_of_word a Ha) as (s & E & f & Hs & HE & Hf & ->).
  rewrite decode_fields by done.
  destruct (Z.eqb_spec E 0xFF); [destruct (f =? 0); done|].
  destruct (Z.eqb_spec E 0); [done|]. intros _ _ _.
  unfold mag, d_mag, default. cbn [from_option]. cbv [id].
  rewrite normal_magnitude by done. intros [H1 H2].
  pose proof (rounded_binade (E - 127) (2 ^ 23 + f) ltac:(lia)) as [Hb _]. cbv zeta in Hb.
  destruct (Z.eqb_spec (2 ^ 23 + f) (2 ^ 24)); [lia|].
  replace (E - 127 - 23) with (E - 150) in Hb by lia.
  split; apply Z.nlt_ge; intros Hlt.
  - pose proof (two_pow_le (2 * (e + 1)) (E - 127) ltac:(lia)). lra.
  - pose proof (two_pow_le (E - 127 + 1) (2 * e) ltac:(lia)). lra.
Qed.

(** The square of a scaled integer, at the scale of the radicand. *)
Lemma root_square m e z n : (m * two_pow (2 * (23 - e)) == inject_Z n)%Q ->
  let v := (inject_Z z * two_pow (e - 23))%Q in (v * v == m)%Q <-> z * z = n.
Proof.
  intros Hm v. set (k := two_pow (e - 23)) in *. set (k' := two_pow (2 * (23 - e))) in *.
  assert (Hk : (k * k * k' == 1)%Q).
  { unfold k, k'. rewrite <- !two_pow_plus. by replace (e - 23 + (e - 23) + 2 * (23 - e)) with 0 by lia. }
  assert (Hv : (v * v * k' == inject_Z (z * z))%Q).
  { unfold v. rewrite inject_Z_mult. apply Qeq_trans with (inject_Z z * inject_Z z * (k * k * k'))%Q; [ring|].
    rewrite Hk. ring. }
  assert (Hk0 : ~ (k' == 0)%Q) by (pose proof (two_pow_pos (2 * (23 - e))) as H0; fold k' in H0; lra).
  rewrite <- (Qmult_inj_r _ _ k' Hk0), Hv, Hm. apply inject_Z_injective.
Qed.



(** ** Result widths *)

(** A result that fits the register file and the flag field. *)
Definition fp_ok (r : Z * Z) : Prop := in_width 32 (fst r) /\ in_width 5 (snd r).

Lemma in_width_word s m : 0 <= s < 2 -> 0 <= m < 2 ^ 31 -> in_width 32 ((s << 31) .| m).
Proof. intros. unfold in_width. rewrite lor_low_add by lia. lia. Qed.

Lemma pack_rounded_ok s e sf cls rm :
  0 <= s < 2 -> 2 ^ 23 <= sf < 2 ^ 24 -> fp_ok (f32_pack_rounded s e sf cls rm).
Proof.
  intros Hs Hsf. destruct (f32_round_up_decision cls sf s rm) as [up inexact] eqn:Ed.
  pose proof (pack_rounded_cases s e (sf + b2i up) inexact rm Hs sf cls up Hsf Ed eq_refl) as Hp.
  cbv zeta in Hp. rewrite Hp. clear Hp.
  assert (Hf : 0 <= (if sf + b2i up =? 2 ^ 24 then 0 else sf + b2i up - 2 ^ 23) < 2 ^ 23).
  { destruct (Z.eqb_spec (sf + b2i up) (2 ^ 24)); destruct up; cbn [b2i] in *; lia. }
  set (f := if sf + b2i up =? 2 ^ 24 then 0 else sf + b2i up - 2 ^ 23) in *.
  set (e' := if sf + b2i up =? 2 ^ 24 then e + 1 else e) in *.
  rewrite Z.gtb_ltb. unfold fp_ok.
  destruct (Z.ltb_spec 127 e'); [|destruct (Z.ltb_spec e' (-126))]; cbn [fst snd].
  - split; [case_match; apply f32_fields_width; lia|done].
  - split; [apply f32_fields_width; lia|done].
  - split; [apply f32_fields_width; lia|by destruct inexact].
Qed.

Lemma round_from_fraction_ok s m rm :
  0 <= s < 2 -> (0 < m)%Q -> fp_ok (f32_round_from_fraction s m rm).
Proof.
  intros Hs Hm. unfold f32_round_from_fraction.
  destruct (f32_normalize_fraction m) as [ [e sf] cls] eqn:En.
  destruct (normalize_facts m e sf cls Hm En) as (_ & _ & Hr & _). by apply pack_rounded_ok.
Qed.

Lemma decode_sign_range b : 0 <= d_sign (f32_decode b) < 2.
Proof. destruct (decode_sign_cases b) as [-> | ->]; lia. Qed.

Lemma lxor_bit_range s t : 0 <= s < 2 -> 0 <= t < 2 -> 0 <= s .^ t < 2.
Proof. intros. by apply (lxor_bound 1). Qed.

Lemma b2i_range b : 0 <= b2i b < 2.
Proof. destruct b; cbn; lia. Qed.

Lemma fp_ok_const v f : in_width 32 v -> in_width 5 f -> fp_ok (v, f).
Proof. by split. Qed.

Lemma pack_inf_ok s : 0 <= s < 2 -> in_width 32 (f32_pack_inf s).
Proof. intros. rewrite pack_inf_fields by done. apply f32_fields_width; lia. Qed.

Lemma pack_zero_ok s : 0 <= s < 2 -> in_width 32 (f32_pack_zero s).
Proof. intros. rewrite pack_zero_fields by done. apply f32_fields_width; lia. Qed.

Lemma nv_if_ok b : in_width 5 (nv_if b).
Proof. by destruct b. Qed.

(** A nonzero exact sum, rounded. *)
Lemma round_abs_ok t rm :
  Qeq_bool t 0 = false ->
  fp_ok (f32_round_from_fraction (if Qlt_bool t 0 then 1 else 0) (Qabs t) rm).
Proof.
  intros E%Qeq_bool_neq. apply round_from_fraction_ok; [case_match; lia|].
  pose proof (Qabs_nonneg t). apply Qnot_le_lt. intros Hle.
  apply E. apply Qabs_Qle_condition in Hle. lra.
Qed.

Lemma mag31_range b : 0 <= b .& 0x7FFFFFFF < 2 ^ 31.
Proof. fold_masks. by apply Z.mod_pos_bound. Qed.

#[local] Hint Resolve decode_sign_range lxor_bit_range b2i_range fp_ok_const pack_inf_ok
  pack_zero_ok nv_if_ok round_abs_ok mag31_range in_width_word : pybits.

Ltac fp_cases :=
  repeat match goal with
  | |- fp_ok (if ?b then _ else _) => destruct b eqn:?
  end;
  try solve [ apply fp_ok_const; first [done | auto 6 with pybits ] ].

Section Widths.
Context (a b c rm : Z) (Ha : 0 <= a < 2 ^ 32) (Hb : 0 <= b < 2 ^ 32) (Hc : 0 <= c < 2 ^ 32).

Lemma zero_sum_sign_range : 0 <= zero_sum_sign rm < 2.
Proof. unfold zero_sum_sign. case_match; lia. Qed.
#[local] Hint Resolve zero_sum_sign_range : pybits.

Lemma f_add_ok is_sub : fp_ok (f_add a b rm is_sub).
Proof. unfold f_add. cbv zeta. fp_cases. by apply round_abs_ok. Qed.

Lemma mag_pos x : 0 <= x < 2 ^ 32 ->
  d_nan (f32_decode x) = false -> d_inf (f32_decode x) = false ->
  d_zero (f32_decode x) = false -> (0 < mag (f32_decode x))%Q.
Proof. intros. by apply decode_finite. Qed.

Ltac split_orb :=
  repeat match goal with H : _ || _ = false |- _ => apply orb_false_iff in H as [? ?] end.

Lemma f_mul_ok : fp_ok (f_mul a b rm).
Proof.
  unfold f_mul. cbv zeta. fp_cases. split_orb.
  apply round_from_fraction_ok; [auto with pybits|].
  apply Qmult_lt_0_compat; by apply mag_pos.
Qed.

Lemma f_div_ok : fp_ok (f_div a b rm).
Proof.
  unfold f_div. cbv zeta. fp_cases. split_orb.
  apply round_from_fraction_ok; [auto with pybits|].
  apply Qmult_lt_0_compat; [by apply mag_pos|by apply Qinv_lt_0_compat, mag_pos].
Qed.

Lemma f_madd_ok np na : fp_ok (f_madd a b c rm np na).
Proof. unfold f_madd. cbv zeta. fp_cases. by apply round_abs_ok. Qed.

Lemma f_sgnj_ok f3 : fp_ok (f_sgnj a b f3).
Proof.
  unfold f_sgnj. cbv zeta. apply fp_ok_const; [|done].
  rewrite <- !decode_sign by done. apply in_width_word; [|apply mag31_range].
  repeat case_match; auto with pybits. apply lxor_bit_range; [auto with pybits|lia].
Qed.

Lemma f_minmax_ok f3 : fp_ok (f_minmax a b f3).
Proof.
  unfold f_minmax. cbv zeta. fp_cases; apply fp_ok_const; try done; case_match; done.
Qed.

Lemma f_cvt_from_int_ok unsigned : fp_ok (f_cvt_from_int a rm unsigned).
Proof.
  unfold f_cvt_from_int. cbv zeta. destruct (Z.eqb_spec a 0); [done|].
  assert (Hs : 0 <= (a >> 31) .& 1 < 2) by (rewrite <- decode_sign by done; auto with pybits).
  apply round_from_fraction_ok; [destruct unsigned; [lia|done]|].
  change 0%Q with (inject_Z 0). rewrite <- Zlt_Qlt. fold_masks.
  assert (Hm : 0 < a `mod` 2 ^ 32) by (rewrite Z.mod_small; lia).
  destruct unsigned; [done|]. destruct (truthy _); [|lia].
  unfold Z.lnot. replace (Z.pred (- a) + 1) with (- a) by lia.
  rewrite Z.mod_opp_l_nz by (rewrite ?Z.mod_small; lia). rewrite Z.mod_small; lia.
Qed.

Lemma f_cvt_to_int_ok unsigned : fp_ok (f_cvt_to_int a rm unsigned).
Proof.
  destruct (d_nan (f32_decode a)) eqn:Hn; [unfold f_cvt_to_int; cbv zeta; rewrite Hn; by destruct unsigned|].
  destruct (d_zero (f32_decode a)) eqn:Hz; [unfold f_cvt_to_int; cbv zeta; by rewrite Hn, Hz|].
  destruct (d_inf (f32_decode a)) eqn:Hi.
  - unfold f_cvt_to_int, cvt_saturated. cbv zeta. rewrite Hn, Hz, Hi.
    apply fp_ok_const; [|done]. by repeat case_match.
  - destruct (cvt_finite a rm unsigned Ha Hn Hz Hi) as (z & _ & ->).
    cbv zeta. destruct (_ && _); apply fp_ok_const; try (apply wrap_range; lia); [|done].
    by destruct (Qeq_bool (mag (f32_decode a)) (inject_Z z)).
Qed.

Lemma f_sqrt_ok : exists r, f_sqrt a rm = Ok r /\ fp_ok r.
Proof.
  unfold f_sqrt. cbv zeta.
  destruct (d_nan (f32_decode a)) eqn:Hn; [eexists; split; [done|apply fp_ok_const; [done|apply nv_if_ok] ]|].
  destruct (d_zero (f32_decode a)) eqn:Hz; [eexists; split; [done|apply fp_ok_const; [exact Ha|done] ]|].
  destruct (truthy _) eqn:Hs; [eexists; by split|].
  destruct (d_inf (f32_decode a)) eqn:Hi; [eexists; split; [done|apply fp_ok_const; [exact Ha|done] ]|].
  unfold f32_round_from_sqrt, f32_sqrt_normalize.
  pose proof (sqrt_exponent (mag (f32_decode a)) (mag_pos a Ha Hn Hi Hz)) as He.
  cbv zeta in He |- *. set (e := lower_e _ _ _ _) in *. clearbody e.
  destruct (sqrt_scaled a e Ha Hz Hi Hn He) as (n & Hsc & Hrange).
  rewrite (denominator_eq _ _ Hsc), (numerator_eq _ _ Hsc).
  destruct (num_den_Z n) as [-> ->]. cbn [Z.eqb Pos.eqb negb].
  eexists. split; [reflexivity|]. apply pack_rounded_ok; [lia|].
  pose proof (Z.sqrt_spec n ltac:(lia)) as Hq. pose proof (Z.sqrt_nonneg n).
  unfold Z.succ in Hq. cbv zeta in Hq. clear - Hq Hrange H. set (q := Z.sqrt n) in *. nia.
Qed.
End Widths.

Lemma f_cmp_bit a b f3 : 0 <= fst (f_cmp a b f3) < 2 /\ in_width 5 (snd (f_cmp a b f3)).
Proof.
  unfold f_cmp. cbv zeta. repeat case_match; cbn [fst snd]; split; try done;
    auto with pybits; lia.
Qed.

Lemma f_class_range a : 0 <= f_class a < 2 ^ 10.
Proof. unfold f_class. cbv zeta. repeat case_match; by cbn. Qed.
