(* ===== verification/Step.v ===== *)
(** * One instruction

    [ISS.step] of [sim/tools/iss.py]: the field extraction and the opcode
    dispatch, one definition per arm, each returning the machine after the
    instruction or the Python exception it raises.  The integer and
    floating-point arithmetic is in [IntAlu] and [Float32], the machine and
    its traps in [Machine], address translation in [Mmu]. *)

From S2P Require Import Prelude Words PyStr Machine Mmu Crypto IntAlu Float32.

(** ** Definitions *)

(** The fields [step] extracts from the word. *)
Definition w_op (word : Z) : Z := word .& 0x7F.
Definition w_rd (word : Z) : Z := (word >> 7) .& 0x1F.
Definition w_f3 (word : Z) : Z := (word >> 12) .& 0x7.
Definition w_rs1 (word : Z) : Z := (word >> 15) .& 0x1F.
Definition w_rs2 (word : Z) : Z := (word >> 20) .& 0x1F.
Definition w_f7 (word : Z) : Z := (word >> 25) .& 0x7F.
Definition imm_i (word : Z) : Z := sext ((word >> 20) .& 0xFFF) 12.
Definition imm_s (word : Z) : Z := sext (((word >> 25) << 5) .| ((word >> 7) .& 0x1F)) 12.
Definition off_b (word : Z) : Z :=
  let b12 := (word >> 31) .& 1 in
  let b11 := (word >> 7) .& 1 in
  let b10_5 := (word >> 25) .& 0x3F in
  let b4_1 := (word >> 8) .& 0xF in
  sext ((b12 << 12) .| (b11 << 11) .| (b10_5 << 5) .| (b4_1 << 1)) 13.
Definition off_j (word : Z) : Z :=
  let b20 := (word >> 31) .& 1 in
  let b19_12 := (word >> 12) .& 0xFF in
  let b11 := (word >> 20) .& 1 in
  let b10_1 := (word >> 21) .& 0x3FF in
  sext ((b20 << 20) .| (b19_12 << 12) .| (b11 << 11) .| (b10_1 << 1)) 21.

Definition OP_R := 0x33.
Definition OP_32 := 0x3B.
Definition OP_I := 0x13.
Definition OP_IMM32 := 0x1B.
Definition OP_LOAD := 0x03.
Definition OP_STORE := 0x23.
Definition OP_BRANCH := 0x63.
Definition OP_JAL := 0x6F.
Definition OP_JALR := 0x67.
Definition OP_LUI := 0x37.
Definition OP_AUIPC := 0x17.
Definition OP_SYSTEM := 0x73.
Definition OP_FLW := 0x07.
Definition OP_FSW := 0x27.
Definition OP_FP := 0x53.
Definition OP_FMADD := 0x43.
Definition OP_FMSUB := 0x47.
Definition OP_FNMSUB := 0x4B.
Definition OP_FNMADD := 0x4F.
Definition OP_FENCE := 0x0F.

(** [self.wr(rd, v); self.pc = next_pc]. *)
Definition retire (s : ISS) (rd v : Z) : ISS := set_pc (wr s rd v) (pc s + 4).

(** A memory access behind [translate]: [None] has already trapped. *)
Definition with_addr (s : ISS) (vaddr : Z) (acc : access) (k : ISS -> Z -> result ISS) : result ISS :=
  match translate s (uxlen s vaddr) acc with
  | (None, s') => Ok s'
  | (Some addr, s') => k s' addr
  end.

(** The value a load of width [f3] writes. *)
Definition load_value (s : ISS) (f3 addr : Z) : result Z :=
  if f3 =? 0 then
    let v := load_mem_byte s addr in
    Ok (s32 (v .| (if truthy (v .& 0x80) then 0xFFFFFF00 else 0)))
  else if f3 =? 1 then
    let v := load16 s addr in
    Ok (s32 (v .| (if truthy (v .& 0x8000) then 0xFFFF0000 else 0)))
  else if f3 =? 2 then Ok (s32 (load32 s addr))
  else if f3 =? 4 then Ok (load_mem_byte s addr)
  else if f3 =? 5 then Ok (load16 s addr)
  else if f3 =? 3 then Ok (load64 s addr)
  else if f3 =? 6 then Ok (load32 s addr)
  else Raise (ValueError ("unknown load f3=" ++ fmt_d f3)).

Definition exec_load (s : ISS) (word : Z) : result ISS :=
  with_addr s (reg s (w_rs1 word) + imm_i word) load (fun s addr =>
    res ← load_value s (w_f3 word) addr;
    Ok (retire s (w_rd word) res)).

(** The store of [B] at width [f3]. *)
Definition store_value (s : ISS) (f3 addr B : Z) : result ISS :=
  if f3 =? 0 then Ok (store_mem_byte s addr B)
  else if f3 =? 1 then Ok (store_mem_byte (store_mem_byte s addr B) (addr + 1) (B >> 8))
  else if f3 =? 2 then Ok (store_n s addr B 4)
  else if f3 =? 3 then Ok (store_n s addr B 8)
  else Raise (ValueError ("unknown store f3=" ++ fmt_d f3)).

Definition exec_store (s : ISS) (word : Z) : result ISS :=
  let B := reg s (w_rs2 word) in
  with_addr s (reg s (w_rs1 word) + imm_s word) store (fun s addr =>
    s ← store_value s (w_f3 word) addr B;
    Ok (set_pc s (pc s + 4))).

(** The dictionary of branch conditions (all eight keys are present). *)
Definition branch_taken (xl f3 A B : Z) : bool :=
  let sx v := sXLEN v xl in
  let ux v := uXLEN v xl in
  if f3 =? 0 then sx A =? sx B
  else if f3 =? 1 then negb (sx A =? sx B)
  else if f3 =? 2 then sx A <=? sx B
  else if f3 =? 3 then sx A >? sx B
  else if f3 =? 4 then sx A <? sx B
  else if f3 =? 5 then sx A >=? sx B
  else if f3 =? 6 then ux A <? ux B
  else ux A >=? ux B.

Definition exec_branch (s : ISS) (word : Z) : ISS :=
  let A := reg s (w_rs1 word) in
  let B := reg s (w_rs2 word) in
  if branch_taken (xlen s) (w_f3 word) A B
  then set_pc s (uxlen s (pc s + off_b word)) else set_pc s (pc s + 4).

Definition exec_jal (s : ISS) (word : Z) : ISS :=
  let s' := wr s (w_rd word) (pc s + 4) in
  set_pc s' (uxlen s' (pc s' + off_j word)).

Definition exec_jalr (s : ISS) (word : Z) : ISS :=
  let target := uxlen s ((reg s (w_rs1 word) + imm_i word) .& .~ 1) in
  set_pc (wr s (w_rd word) (pc s + 4)) target.

(** [ecall]'s cause, by the privilege dictionary. *)
Definition ecall_cause (priv : Z) : result Z :=
  if priv =? PRIV_M then Ok MCAUSE_ECALL_FROM_M
  else if priv =? PRIV_S then Ok MCAUSE_ECALL_FROM_S
  else if priv =? PRIV_U then Ok MCAUSE_ECALL_FROM_U
  else Raise (KeyError (fmt_d priv)).

(** The privileged instructions (SYSTEM, funct3 = 0). *)
Definition exec_priv (s : ISS) (word : Z) : result ISS :=
  let csr_addr := (word >> 20) .& 0xFFF in
  if w_f7 word =? 0x09 then
    if priv_mode s =? PRIV_U then Ok (trap s MCAUSE_ILLEGAL_INSTRUCTION 0)
    else Ok (set_pc s (pc s + 4))
  else if csr_addr =? 0x000 then
    cause ← ecall_cause (priv_mode s);
    Ok (trap s cause 0)
  else if csr_addr =? 0x001 then Ok (trap s MCAUSE_BREAKPOINT 0)
  else if csr_addr =? 0x302 then
    if negb (priv_mode s =? PRIV_M) then Ok (trap s MCAUSE_ILLEGAL_INSTRUCTION 0)
    else Ok (mret s)
  else if csr_addr =? 0x102 then
    if priv_mode s =? PRIV_U then Ok (trap s MCAUSE_ILLEGAL_INSTRUCTION 0)
    else Ok (sret s)
  else Ok (trap s MCAUSE_ILLEGAL_INSTRUCTION 0).

(** The CSR instructions. *)
Definition exec_csr (s : ISS) (word : Z) : ISS :=
  let csr_addr := (word >> 20) .& 0xFFF in
  let f3 := w_f3 word in
  let rs1 := w_rs1 word in
  let required_priv := (csr_addr >> 8) .& 3 in
  if priv_mode s <? required_priv then trap s MCAUSE_ILLEGAL_INSTRUCTION 0
  else
    let old := csr_read s csr_addr in
    let src := if truthy (f3 .& 4) then rs1 else reg s rs1 in
    let csr_op := f3 .& 3 in
    let new_val :=
      if csr_op =? 1 then src else if csr_op =? 2 then old .| src else old .& .~ src in
    let s := csr_write s csr_addr new_val in
    retire s (w_rd word) old.

Definition exec_system (s : ISS) (word : Z) : result ISS :=
  if w_f3 word =? 0 then exec_priv s word else Ok (exec_csr s word).

Definition exec_flw (s : ISS) (word : Z) : result ISS :=
  with_addr s (reg s (w_rs1 word) + imm_i word) load (fun s addr =>
    let v := load32 s addr in
    Ok (set_pc (put_freg s (w_rd word) v) (pc s + 4))).

Definition exec_fsw (s : ISS) (word : Z) : result ISS :=
  with_addr s (reg s (w_rs1 word) + imm_s word) store (fun s addr =>
    let v := freg s (w_rs2 word) in
    let s := store_n s addr v 4 in
    Ok (set_pc s (pc s + 4))).

(** [self.fregs[rd] = res; self.set_fflags(flags)] and its integer-file
    counterpart. *)
Definition fp_result (s : ISS) (rd : Z) (r : Z * Z) : ISS :=
  set_fflags (put_freg s rd (fst r)) (snd r).
Definition int_result (s : ISS) (rd : Z) (r : Z * Z) : ISS :=
  set_fflags (wr s rd (fst r)) (snd r).

Definition exec_fp (s : ISS) (word : Z) : result ISS :=
  let rd := w_rd word in
  let f3 := w_f3 word in
  let rs2 := w_rs2 word in
  let A := reg s (w_rs1 word) in
  let funct5 := (word >> 27) .& 0x1F in
  let rm := resolve_rm s f3 in
  let fa := freg s (w_rs1 word) in
  let fb := freg s rs2 in
  s' ← (if funct5 =? 0x00 then Ok (fp_result s rd (f_add fa fb rm false))
        else if funct5 =? 0x01 then Ok (fp_result s rd (f_add fa fb rm true))
        else if funct5 =? 0x02 then Ok (fp_result s rd (f_mul fa fb rm))
        else if funct5 =? 0x03 then Ok (fp_result s rd (f_div fa fb rm))
        else if funct5 =? 0x0B then r ← f_sqrt fa rm; Ok (fp_result s rd r)
        else if funct5 =? 0x04 then Ok (put_freg s rd (fst (f_sgnj fa fb f3)))
        else if funct5 =? 0x05 then Ok (fp_result s rd (f_minmax fa fb f3))
        else if funct5 =? 0x14 then Ok (int_result s rd (f_cmp fa fb f3))
        else if funct5 =? 0x18 then Ok (int_result s rd (f_cvt_to_int fa rm (rs2 =? 1)))
        else if funct5 =? 0x1A then Ok (fp_result s rd (f_cvt_from_int (u32 A) rm (rs2 =? 1)))
        else if funct5 =? 0x1C then
          if f3 =? 1 then Ok (wr s rd (f_class fa)) else Ok (wr s rd (s32 fa))
        else if funct5 =? 0x1E then Ok (put_freg s rd (u32 A))
        else Raise (ValueError ("unknown OP-FP funct5=" ++ fmt_hash_0b 7 funct5)));
  Ok (set_pc s' (pc s + 4)).

Definition exec_fmadd (s : ISS) (word : Z) : ISS :=
  let rs3 := (word >> 27) .& 0x1F in
  let rm := resolve_rm s (w_f3 word) in
  let op2 := (w_op word >> 2) .& 3 in
  let neg_prod := truthy (op2 .& 2) in
  let neg_addend := truthy (op2 .& 1) in
  let r := f_madd (freg s (w_rs1 word)) (freg s (w_rs2 word)) (freg s rs3) rm neg_prod neg_addend in
  set_pc (fp_result s (w_rd word) r) (pc s + 4).

(** The whole instruction. *)
Definition step (s : ISS) (word : Z) : result ISS :=
  if word =? 0 then Ok (set_pc s (pc s + 4))
  else
    let op := w_op word in
    let rd := w_rd word in
    let f3 := w_f3 word in
    let f7 := w_f7 word in
    let A := reg s (w_rs1 word) in
    let B := reg s (w_rs2 word) in
    let xl := xlen s in
    if op =? OP_R then v ← exec_R xl f7 f3 A B; Ok (retire s rd v)
    else if op =? OP_32 then v ← exec_OP32 f7 f3 A B; Ok (retire s rd v)
    else if op =? OP_I then v ← exec_I xl word f3 f7 (imm_i word) A; Ok (retire s rd v)
    else if op =? OP_IMM32 then
      v ← exec_OPIMM32 word f3 f7 (w_rs2 word) (imm_i word) A; Ok (retire s rd v)
    else if op =? OP_LOAD then exec_load s word
    else if op =? OP_STORE then exec_store s word
    else if op =? OP_BRANCH then Ok (exec_branch s word)
    else if op =? OP_JAL then Ok (exec_jal s word)
    else if op =? OP_JALR then Ok (exec_jalr s word)
    else if op =? OP_LUI then Ok (retire s rd (s32 (word .& 0xFFFFF000)))
    else if op =? OP_AUIPC then Ok (retire s rd (uxlen s (pc s + s32 (word .& 0xFFFFF000))))
    else if op =? OP_SYSTEM then exec_system s word
    else if op =? OP_FLW then exec_flw s word
    else if op =? OP_FSW then exec_fsw s word
    else if op =? OP_FP then exec_fp s word
    else if (op =? OP_FMADD) || (op =? OP_FMSUB) || (op =? OP_FNMSUB) || (op =? OP_FNMADD)
    then Ok (exec_fmadd s word)
    else if (op =? OP_FENCE) && (f3 =? 0) then Ok (set_pc s (pc s + 4))
    else Ok (trap s MCAUSE_ILLEGAL_INSTRUCTION 0).
