(* ===== verification/StepFacts.v ===== *)
(** * Properties of one instruction

    Well-formedness is an invariant of [step]; privilege only rises through
    a trap, and user mode cannot change a control register; only stores
    change memory, and a load reads back what a store wrote; the exceptions
    [step] can raise are exactly those of the undefined sub-opcodes. *)

From S2P Require Import Prelude Words PyStr Machine Mmu Crypto IntAlu Float32 Float32Facts Step.

(** ** Lemmas: fields *)

Lemma field_width m v n : 0 <= n -> m = Z.ones n -> in_width n (v .& m).
Proof. intros Hn ->. unfold in_width. rewrite land_mask by done. apply Z.mod_pos_bound, pow2_pos. done. Qed.

Lemma w_rd_range word : 0 <= w_rd word < 32.
Proof. by apply (field_width 0x1F _ 5). Qed.

Lemma w_f3_range word : 0 <= w_f3 word < 8.
Proof. by apply (field_width 7 _ 3). Qed.

Lemma w_rs2_range word : 0 <= w_rs2 word < 32.
Proof. by apply (field_width 0x1F _ 5). Qed.

Lemma w_f7_range word : 0 <= w_f7 word < 128.
Proof. by apply (field_width 0x7F _ 7). Qed.

(** ** The invariant *)

(** The arms that end in a register write and the next instruction. *)
Lemma wf_retire s rd v : wf s -> 0 <= rd -> wf (retire s rd v).
Proof.
  intros Hs Hrd. unfold retire. apply wf_set_pc; [by apply wf_wr|].
  pose proof (wf_pc s Hs). lia.
Qed.

Lemma wf_next s : wf s -> wf (set_pc s (pc s + 4)).
Proof. intros Hs. apply wf_set_pc; [done|]. pose proof (wf_pc s Hs). lia. Qed.

Lemma wf_fp_result s rd r : wf s -> fp_ok r -> wf (fp_result s rd r).
Proof. intros Hs [H1 H2]. apply wf_set_fflags; [by apply wf_put_freg|apply H2]. Qed.

Lemma wf_int_result s rd r : wf s -> 0 <= rd -> 0 <= snd r -> wf (int_result s rd r).
Proof. intros. apply wf_set_fflags; [by apply wf_wr|done]. Qed.

Lemma load_mem_byte_width s a : wf s -> in_width 8 (load_mem_byte s a).
Proof.
  intros Hs. unfold load_mem_byte. case_match; [done|].
  apply Forall_nthZ; [apply Hs|done].
Qed.

Lemma load32_width s a : wf s -> in_width 32 (load32 s a).
Proof.
  intros Hs. unfold load32, in_width. repeat apply lor_bound; try lia;
    try (apply shiftl_bound; [lia..|]); eapply pow_bound_mono; try apply load_mem_byte_width; done.
Qed.

(** Access through [translate] preserves the invariant when its
    continuation does. *)
Lemma wf_with_addr s va acc k s' :
  wf s -> (forall pa s', wf s -> 0 <= pa -> k s pa = Ok s' -> wf s') ->
  with_addr s va acc k = Ok s' -> wf s'.
Proof.
  intros Hs Hk. unfold with_addr.
  destruct (translate s (uxlen s va) acc) as [r s1] eqn:E.
  destruct (translate_cases s (uxlen s va) acc r s1 Hs E) as [(pa & -> & -> & Hpa)|(t & -> & ->)].
  - intros H. by apply (Hk pa s').
  - intros [= <-]. by apply wf_trap.
Qed.

Lemma wf_uxlen_nonneg s v : wf s -> 0 <= uxlen s v.
Proof. intros Hs. apply (uxlen_width s v Hs). Qed.

Lemma wf_exec_load s w s' : wf s -> exec_load s w = Ok s' -> wf s'.
Proof.
  intros Hs. apply wf_with_addr; [done|]. intros pa s1 _ _ (v & _ & [= <-])%bind_Ok.
  apply wf_retire; [done|apply w_rd_range].
Qed.

Lemma wf_store_value s f3 a B s' : wf s -> store_value s f3 a B = Ok s' -> wf s'.
Proof.
  intros Hs. unfold store_value. repeat case_match; intros [= <-];
    auto using wf_store_n, wf_store_mem_byte.
Qed.

Lemma wf_exec_store s w s' : wf s -> exec_store s w = Ok s' -> wf s'.
Proof.
  intros Hs. apply wf_with_addr; [done|]. intros pa s1 _ _ (s2 & H & [= <-])%bind_Ok.
  apply wf_next. by eapply wf_store_value.
Qed.

Lemma wf_exec_flw s w s' : wf s -> exec_flw s w = Ok s' -> wf s'.
Proof.
  intros Hs. apply wf_with_addr; [done|]. intros pa s1 _ _ [= <-].
  change (pc s) with (pc (put_freg s (w_rd w) (load32 s pa))).
  apply wf_next, wf_put_freg; [done|by apply load32_width].
Qed.

Lemma wf_exec_fsw s w s' : wf s -> exec_fsw s w = Ok s' -> wf s'.
Proof.
  intros Hs. apply wf_with_addr; [done|]. intros pa s1 _ _ [= <-].
  by apply wf_next, wf_store_n.
Qed.

Lemma wf_exec_branch s w : wf s -> wf (exec_branch s w).
Proof.
  intros Hs. unfold exec_branch. case_match; [|by apply wf_next].
  apply wf_set_pc; [done|by apply wf_uxlen_nonneg].
Qed.

Lemma wf_exec_jal s w : wf s -> wf (exec_jal s w).
Proof.
  intros Hs. unfold exec_jal. assert (Hw : wf (wr s (w_rd w) (pc s + 4))).
  { apply wf_wr; [done|apply w_rd_range]. }
  apply wf_set_pc; [done|by apply wf_uxlen_nonneg].
Qed.

Lemma wf_exec_jalr s w : wf s -> wf (exec_jalr s w).
Proof.
  intros Hs. unfold exec_jalr. apply wf_set_pc; [|by apply wf_uxlen_nonneg].
  apply wf_wr; [done|apply w_rd_range].
Qed.

Lemma wf_exec_priv s w s' : wf s -> exec_priv s w = Ok s' -> wf s'.
Proof.
  intros Hs. unfold exec_priv. cbv zeta.
  repeat (case_match; [try (intros [= <-]; by auto using wf_trap, wf_next, wf_mret, wf_sret)|]).
  all: try (intros [= <-]; by auto using wf_trap, wf_next, wf_mret, wf_sret).
  intros (c & _ & [= <-])%bind_Ok. by apply wf_trap.
Qed.

Lemma wf_exec_csr s w : wf s -> wf (exec_csr s w).
Proof.
  intros Hs. unfold exec_csr. cbv zeta. case_match; [by apply wf_trap|].
  apply wf_retire; [by apply wf_csr_write|apply w_rd_range].
Qed.

Ltac next_if :=
  match goal with |- (if ?b then _ else _) = _ -> _ => destruct b end.

Lemma wf_exec_fp s w s' : wf s -> exec_fp s w = Ok s' -> wf s'.
Proof.
  intros Hs. unfold exec_fp. intros (s1 & H & <-%Ok_inj)%bind_Ok.
  assert (Hfa : forall i, 0 <= freg s i < 2 ^ 32) by (intros; by apply wf_freg).
  pose proof (w_rd_range w) as [Hrd _].
  apply wf_set_pc; [|pose proof (wf_pc s Hs); lia].
  revert H. cbv zeta.
  next_if; [intros <-%Ok_inj; by apply wf_fp_result, f_add_ok|].
  next_if; [intros <-%Ok_inj; by apply wf_fp_result, f_add_ok|].
  next_if; [intros <-%Ok_inj; by apply wf_fp_result, f_mul_ok|].
  next_if; [intros <-%Ok_inj; by apply wf_fp_result, f_div_ok|].
  next_if.
  { intros (r & Hr & <-%Ok_inj)%bind_Ok.
    destruct (f_sqrt_ok (freg s (w_rs1 w)) (resolve_rm s (w_f3 w)) (Hfa _)) as (r' & Hr' & Hok).
    rewrite Hr' in Hr. apply Ok_inj in Hr as <-. by apply wf_fp_result. }
  next_if; [intros <-%Ok_inj; by apply wf_put_freg, f_sgnj_ok|].
  next_if; [intros <-%Ok_inj; by apply wf_fp_result, f_minmax_ok|].
  next_if; [intros <-%Ok_inj; apply wf_int_result; [done..|apply f_cmp_bit]|].
  next_if; [intros <-%Ok_inj; apply wf_int_result; [done..|by apply f_cvt_to_int_ok]|].
  next_if; [intros <-%Ok_inj; apply wf_fp_result; [done|apply f_cvt_from_int_ok, u32_width]|].
  next_if; [next_if; intros <-%Ok_inj; by apply wf_wr|].
  next_if; [intros <-%Ok_inj; by apply wf_put_freg, u32_width|].
  discriminate.
Qed.

Lemma wf_exec_fmadd s w : wf s -> wf (exec_fmadd s w).
Proof.
  intros Hs. unfold exec_fmadd. cbv zeta.
  apply wf_set_pc; [|pose proof (wf_pc s Hs); lia].
  apply wf_fp_result; [done|]. apply f_madd_ok; by apply wf_freg.
Qed.

Lemma wf_step s word s' : wf s -> step s word = Ok s' -> wf s'.
Proof.
  intros Hs. unfold step. cbv zeta. pose proof (w_rd_range word) as [Hrd _].
  next_if; [intros <-%Ok_inj; by apply wf_next|].
  do 4 (next_if; [intros (v & _ & <-%Ok_inj)%bind_Ok; by apply wf_retire|]).
  next_if; [by apply wf_exec_load|].
  next_if; [by apply wf_exec_store|].
  next_if; [intros <-%Ok_inj; by apply wf_exec_branch|].
  next_if; [intros <-%Ok_inj; by apply wf_exec_jal|].
  next_if; [intros <-%Ok_inj; by apply wf_exec_jalr|].
  do 2 (next_if; [intros <-%Ok_inj; by apply wf_retire|]).
  next_if.
  { unfold exec_system. next_if; [by apply wf_exec_priv|]. intros <-%Ok_inj. by apply wf_exec_csr. }
  next_if; [by apply wf_exec_flw|].
  next_if; [by apply wf_exec_fsw|].
  next_if; [by apply wf_exec_fp|].
  next_if; [intros <-%Ok_inj; by apply wf_exec_fmadd|].
  next_if; intros <-%Ok_inj; [by apply wf_next|by apply wf_trap].
Qed.

(** [C8] Well-formedness is an invariant of every instruction word: whatever
    [step] does (arithmetic, memory access, CSR write, trap, return from a
    trap), x0 stays 0, every register and memory byte stays in its width,
    every CSR keeps its legal bits, and the privilege stays a 2-bit level. *)
Theorem step_wf s word s' : wf s -> step s word = Ok s' -> wf s'.
Proof. exact (wf_step s word s'). Qed.

Lemma step_wf_witness :
  exists s', step (init 64 32) 0x00500093 = Ok s' /\ wf s'.
Proof.
  eexists. split; [reflexivity|].
  apply (step_wf (init 64 32) 0x00500093); [apply wf_init; lia || by left|reflexivity].
Defined.

(** ** What an instruction may change *)

(** Everything but the program counter, the registers, the flags and
    memory is as before. *)
Definition quiet (s s' : ISS) : Prop :=
  priv_mode s' = priv_mode s /\ csr s' = csr s /\
  (xlen s' = xlen s /\ pending_interrupt s' = pending_interrupt s /\
   List.length (mem s') = List.length (mem s)).

Lemma quiet_wr s rd v : quiet s (wr s rd v).
Proof. unfold wr. by case_match. Qed.

Lemma quiet_trans a b c : quiet a b -> quiet b c -> quiet a c.
Proof. unfold quiet. intros (? & ? & ? & ? & ?) (? & ? & ? & ? & ?). split_and!; congruence. Qed.

Lemma quiet_pc s p : quiet s (set_pc s p).
Proof. done. Qed.

Lemma quiet_retire s rd v : quiet s (retire s rd v).
Proof. exact (quiet_trans _ _ _ (quiet_wr s rd v) (quiet_pc _ _)). Qed.

Lemma quiet_store_byte s a v : quiet s (store_mem_byte s a v).
Proof. unfold store_mem_byte. case_match; [done|]. split_and!; try done. apply updZ_length. Qed.

Lemma quiet_store_n s a v n : quiet s (store_n s a v n).
Proof.
  unfold store_n. generalize (range n) as l. intros l. revert s.
  induction l as [|i l IH]; intros s; [done|].
  exact (quiet_trans _ _ _ (quiet_store_byte _ _ _) (IH _)).
Qed.

(** The step either traps, returns from a trap, writes a CSR its privilege
    allows, or leaves privilege and control registers alone. *)
Inductive effect (s : ISS) : ISS -> Prop :=
| eff_trap cause tval : effect s (trap s cause tval)
| eff_mret : priv_mode s = PRIV_M -> effect s (mret s)
| eff_sret : priv_mode s <> PRIV_U -> effect s (sret s)
| eff_csr a v rd old : (a >> 8) .& 3 <= priv_mode s -> 0 <= a < 2 ^ 12 ->
    effect s (retire (csr_write s a v) rd old)
| eff_quiet s' : quiet s s' -> effect s s'.

Lemma effect_with_addr s va acc k s' :
  wf s -> (forall pa s', k s pa = Ok s' -> effect s s') ->
  with_addr s va acc k = Ok s' -> effect s s'.
Proof.
  intros Hs Hk. unfold with_addr.
  destruct (translate s (uxlen s va) acc) as [r s1] eqn:E.
  destruct (translate_cases s (uxlen s va) acc r s1 Hs E) as [(pa & -> & -> & _)|(t & -> & ->)].
  - apply Hk.
  - intros <-%Ok_inj. apply eff_trap.
Qed.

Lemma effect_exec_system s w s' : exec_system s w = Ok s' -> effect s s'.
Proof.
  unfold exec_system, exec_priv, exec_csr. cbv zeta.
  assert (Hw : 0 <= w >> 20 .& 0xFFF < 2 ^ 12) by by apply (field_width 0xFFF _ 12).
  next_if.
  - next_if; [next_if; intros <-%Ok_inj; [apply eff_trap|by apply eff_quiet]|].
    next_if; [intros (c & _ & <-%Ok_inj)%bind_Ok; apply eff_trap|].
    next_if; [intros <-%Ok_inj; apply eff_trap|].
    next_if.
    { destruct (Z.eqb_spec (priv_mode s) PRIV_M); intros <-%Ok_inj; [by apply eff_mret|apply eff_trap]. }
    next_if.
    { destruct (Z.eqb_spec (priv_mode s) PRIV_U); intros <-%Ok_inj; [apply eff_trap|by apply eff_sret]. }
    intros <-%Ok_inj; apply eff_trap.
  - intros <-%Ok_inj. destruct (Z.ltb_spec (priv_mode s) ((w >> 20 .& 0xFFF) >> 8 .& 3)).
    + apply eff_trap.
    + by apply eff_csr.
Qed.

Lemma step_effect s word s' : wf s -> step s word = Ok s' -> effect s s'.
Proof.
  intros Hs. unfold step. cbv zeta.
  assert (Hq : forall s', quiet s s' -> effect s s') by apply eff_quiet.
  next_if; [intros <-%Ok_inj; by apply Hq|].
  do 4 (next_if; [intros (v & _ & <-%Ok_inj)%bind_Ok; apply Hq, quiet_retire|]).
  next_if.
  { apply effect_with_addr; [done|]. intros pa s1 (v & _ & <-%Ok_inj)%bind_Ok.
    apply Hq, quiet_retire. }
  next_if.
  { apply effect_with_addr; [done|]. intros pa s1 (s2 & H & <-%Ok_inj)%bind_Ok.
    apply Hq. eapply quiet_trans; [|apply quiet_pc]. revert H. unfold store_value.
    repeat next_if; try intros <-%Ok_inj; try discriminate;
      eauto using quiet_trans, quiet_store_byte, quiet_store_n. }
  next_if; [intros <-%Ok_inj; apply Hq; unfold exec_branch; by case_match|].
  next_if; [intros <-%Ok_inj; apply Hq; exact (quiet_trans _ _ _ (quiet_wr _ _ _) (quiet_pc _ _))|].
  next_if; [intros <-%Ok_inj; apply Hq; exact (quiet_trans _ _ _ (quiet_wr _ _ _) (quiet_pc _ _))|].
  do 2 (next_if; [intros <-%Ok_inj; apply Hq, quiet_retire|]).
  next_if; [apply effect_exec_system|].
  next_if; [apply effect_with_addr; [done|]; intros pa s1 <-%Ok_inj; by apply Hq|].
  next_if.
  { apply effect_with_addr; [done|]; intros pa s1 <-%Ok_inj. apply Hq.
    exact (quiet_trans _ _ _ (quiet_store_n _ _ _ _) (quiet_pc _ _)). }
  next_if.
  { unfold exec_fp. cbv zeta. intros (s1 & H & <-%Ok_inj)%bind_Ok. apply Hq.
    eapply quiet_trans; [|apply quiet_pc]. revert H.
    do 4 (next_if; [intros <-%Ok_inj; done|]).
    next_if; [intros (r & _ & <-%Ok_inj)%bind_Ok; done|].
    do 2 (next_if; [intros <-%Ok_inj; done|]).
    do 2 (next_if; [intros <-%Ok_inj; exact (quiet_wr _ _ _)|]).
    next_if; [intros <-%Ok_inj; done|].
    next_if; [next_if; intros <-%Ok_inj; apply quiet_wr|].
    next_if; [intros <-%Ok_inj; done|discriminate]. }
  next_if; [intros <-%Ok_inj; by apply Hq|].
  next_if; intros <-%Ok_inj; [by apply Hq|apply eff_trap].
Qed.

(** No instruction changes XLEN, the scheduled interrupt or the size of the
    memory. *)
Lemma step_fixed s word s' : wf s -> step s word = Ok s' ->
  xlen s' = xlen s /\ pending_interrupt s' = pending_interrupt s /\ List.length (mem s') = List.length (mem s).
Proof.
  intros Hs H. destruct (step_effect s word s' Hs H) as [c t| | |a v rd old _ _|s' (_ & _ & Hc)].
  - unfold trap. by case_match.
  - done.
  - done.
  - destruct (quiet_retire (csr_write s a v) rd old) as (_ & _ & -> & -> & ->).
    unfold csr_write, csr_store. cbv zeta.
    repeat match goal with |- context [if ?b then _ else _] => destruct b end;
      repeat match goal with |- context [csr s !! ?x] => destruct (csr s !! x) end; done.
  - exact Hc.
Qed.

Lemma step_const s word s' :
  wf s -> step s word = Ok s' -> xlen s' = xlen s /\ pending_interrupt s' = pending_interrupt s.
Proof. intros Hs H. destruct (step_fixed s word s' Hs H) as (? & ? & _). done. Qed.

(** ** Privilege *)

Lemma csr_write_priv s a v : priv_mode (csr_write s a v) = priv_mode s.
Proof. unfold csr_write, csr_store. cbv zeta. by repeat case_match. Qed.

(** [C12] Privilege never rises except through a trap: if a step ends at a
    higher privilege than it began, it took a trap, so control is at the
    trap vector. *)
Theorem privilege_rises_by_trap s word s' :
  wf s -> step s word = Ok s' -> priv_mode s < priv_mode s' ->
  exists cause tval, s' = trap s cause tval.
Proof.
  intros Hs Hstep Hlt. pose proof (wf_step s word s' Hs Hstep) as Hs'.
  pose proof (wf_priv s Hs) as Hp. pose proof (wf_priv s' Hs') as Hp'.
  destruct (step_effect s word s' Hs Hstep) as [c t|Hm|Hu|a v rd old Ha _|s' [Hq _] ].
  - eauto.
  - rewrite Hm in Hlt. unfold PRIV_M in Hlt. lia.
  - exfalso. assert (Hspp : priv_mode (sret s) <= 1).
    { change (priv_mode (sret s)) with ((csr_get s CSR_MSTATUS >> MSTATUS_SPP_BIT) .& 1).
      pose proof (bit1_range (csr_get s CSR_MSTATUS) MSTATUS_SPP_BIT ltac:(done)). lia. }
    unfold PRIV_U in Hu. lia.
  - exfalso. destruct (quiet_retire (csr_write s a v) rd old) as [Hq _].
    rewrite Hq, csr_write_priv in Hlt. lia.
  - rewrite Hq in Hlt. lia.
Qed.

(** A CSR write at an address whose privilege field is 0 leaves the control
    registers alone (only the floating-point flags are there). *)
Lemma csr_write_user s a v :
  wf s -> 0 <= a < 2 ^ 12 -> (a >> 8) .& 3 <= 0 -> csr (csr_write s a v) = csr s.
Proof.
  intros Hs Hr Ha. unfold csr_write. cbv zeta.
  repeat (match goal with
    | |- context [?x =? ?y] => destruct (Z.eqb_spec x y) as [->|?]; [first [done|exfalso; by vm_compute in Ha]|]
    end); cbn [orb].
  unfold csr_store. destruct (csr s !! a) eqn:E; [|done]. exfalso.
  assert (Hin : a ∈ csr_keys) by by apply (wf_csr_dom s Hs); eauto.
  apply list_elem_of_In in Hin. unfold csr_keys in Hin. cbn [In] in Hin.
  repeat destruct Hin as [<-|Hin]; try by vm_compute in Ha.
Qed.

(** [C13] User mode is confined: an instruction executed at privilege U
    either traps or leaves the privilege and every control register as they
    were. *)
Theorem user_mode_confined s word s' :
  wf s -> priv_mode s = PRIV_U -> step s word = Ok s' ->
  (exists cause tval, s' = trap s cause tval) \/ (priv_mode s' = PRIV_U /\ csr s' = csr s).
Proof.
  intros Hs Hu Hstep.
  destruct (step_effect s word s' Hs Hstep) as [c t|Hm|Hn|a v rd old Ha Hr|s' (Hq & Hc & _) ].
  - left; eauto.
  - by rewrite Hu in Hm.
  - done.
  - right. destruct (quiet_retire (csr_write s a v) rd old) as (Hq & Hc & _).
    rewrite Hq, Hc, csr_write_priv, Hu. split; [done|]. apply csr_write_user; [done|done|].
    by rewrite Hu in Ha.
  - right. by rewrite Hq, Hc.
Qed.

(** The control registers a supervisor must not reach directly. *)
Definition m_level_csrs : list Z :=
  [CSR_MTVEC; CSR_MSCRATCH; CSR_MEPC; CSR_MCAUSE; CSR_MTVAL; CSR_MEDELEG; CSR_MIDELEG].

(** What a supervisor-level change may touch: the machine-level registers
    are kept, and [mstatus] and [mie] change only in the bits of their
    supervisor views. *)
Definition supervisor_frame (s s' : ISS) : Prop :=
  (forall a, a ∈ m_level_csrs -> csr_get s' a = csr_get s a) /\
  csr_get s' CSR_MSTATUS .& .~ sstatus_mask = csr_get s CSR_MSTATUS .& .~ sstatus_mask /\
  csr_get s' CSR_MIE .& .~ sie_mask = csr_get s CSR_MIE .& .~ sie_mask.

Ltac no_elem H :=
  apply list_elem_of_In in H; cbn [In m_level_csrs] in H;
  repeat destruct H as [H|H]; (discriminate || destruct H).

Lemma supervisor_frame_refl s s' : csr s' = csr s -> supervisor_frame s s'.
Proof. intros H. unfold supervisor_frame, csr_get. rewrite H. auto. Qed.

Lemma supervisor_frame_put s a v :
  a ∉ m_level_csrs -> a <> CSR_MSTATUS -> a <> CSR_MIE -> supervisor_frame s (csr_put s a v).
Proof.
  intros Ha Hm He. split; [|split].
  - intros b Hb. apply csr_get_put_ne. intros ->. done.
  - by rewrite csr_get_put_ne.
  - by rewrite csr_get_put_ne.
Qed.

(** Replacing the bits under a mask keeps the others. *)
Lemma masked_update m k v : 0 <= m < 2 ^ 32 -> 0 <= k < 2 ^ 32 ->
  u32 ((m .& .~ k) .| (v .& k)) .& .~ k = m .& .~ k.
Proof.
  intros Hm Hk. apply Z.bits_inj'; intros i Hi.
  rewrite !Z.land_spec, u32_testbit, Z.lor_spec, !Z.land_spec, !Z.lnot_spec by done.
  destruct (Z.ltb_spec i 32).
  - destruct (Z.testbit m i), (Z.testbit k i), (Z.testbit v i); done.
  - rewrite (testbit_small m 32) by lia. done.
Qed.

Lemma supervisor_frame_status s v :
  wf s -> supervisor_frame s (csr_put s CSR_MSTATUS
            (u32 ((csr_get s CSR_MSTATUS .& .~ sstatus_mask) .| (v .& sstatus_mask)))).
Proof.
  intros Hs. pose proof (sub_mask_range mstatus_mask _ 32 ltac:(done) ltac:(by vm_compute)
    (wf_mstatus s Hs)) as Hm.
  split; [|split].
  - intros b Hb. apply csr_get_put_ne. intros <-. no_elem Hb.
  - rewrite csr_get_put_eq. by apply masked_update.
  - by rewrite csr_get_put_ne.
Qed.

Lemma supervisor_frame_ie s v :
  wf s -> supervisor_frame s (csr_put s CSR_MIE
            (u32 ((csr_get s CSR_MIE .& .~ sie_mask) .| (v .& sie_mask)))).
Proof.
  intros Hs. pose proof (sub_mask_range mie_mask _ 32 ltac:(done) ltac:(by vm_compute)
    (wf_mie s Hs)) as Hm.
  split; [|split].
  - intros b Hb. apply csr_get_put_ne. intros <-. no_elem Hb.
  - by rewrite csr_get_put_ne.
  - rewrite csr_get_put_eq. by apply masked_update.
Qed.

Lemma supervisor_frame_sret s : wf s -> supervisor_frame s (sret s).
Proof.
  intros Hs. pose proof (sub_mask_range mstatus_mask _ 32 ltac:(done) ltac:(by vm_compute)
    (wf_mstatus s Hs)) as Hm.
  destruct (sret_effect s) as (_ & _ & _ & Hf & _).
  split; [|split].
  - intros b Hb. apply Hf. intros ->%list_elem_of_singleton. no_elem Hb.
  - unfold sret. cbv zeta. csr_simpl. set (m := csr_get s CSR_MSTATUS) in *.
    set (n := _ .| (1 << MSTATUS_SPIE_BIT)).
    assert (Hn : n = n .& sstatus_mask).
    { unfold n. assert (Hb : (m >> MSTATUS_SPIE_BIT) .& 1 = 0 \/ (m >> MSTATUS_SPIE_BIT) .& 1 = 1).
      { pose proof (bit1_range m MSTATUS_SPIE_BIT ltac:(done)). lia. }
      by destruct Hb as [-> | ->]. }
    rewrite Hn. by apply masked_update.
  - f_equal. apply Hf. intros H%list_elem_of_singleton. discriminate.
Qed.

Lemma supervisor_frame_store s a v :
  a ∉ m_level_csrs -> a <> CSR_MSTATUS -> a <> CSR_MIE -> supervisor_frame s (csr_store s a v).
Proof.
  intros. unfold csr_store. case_match; [by apply supervisor_frame_put|by apply supervisor_frame_refl].
Qed.

Lemma csr_write_supervisor s a v :
  wf s -> 0 <= a < 2 ^ 12 -> (a >> 8) .& 3 <= 1 -> supervisor_frame s (csr_write s a v).
Proof.
  intros Hs Hr Ha. unfold csr_write. cbv zeta.
  assert (Hm : forall b, (b >> 8) .& 3 = 3 -> a <> b) by (intros b Hb ->; lia).
  assert (Hk : a ∉ m_level_csrs).
  { intros Hin. apply list_elem_of_In in Hin. cbn [In m_level_csrs] in Hin.
    repeat destruct Hin as [<-|Hin]; [by vm_compute in Ha..|done]. }
  repeat (match goal with
    | |- context [a =? ?y] => destruct (Z.eqb_spec a y) as [->|?];
        [first [by apply supervisor_frame_refl | exfalso; by vm_compute in Ha
               | by apply supervisor_frame_status | by apply supervisor_frame_ie
               | cbn [orb]; apply supervisor_frame_put; [intros Hin; no_elem Hin|done|done] ]|]
    end; cbn [orb]).
  by apply supervisor_frame_store; auto.
Qed.

(** Supervisor mode is confined: an instruction executed at privilege S
    either traps, or leaves every machine-level control register as it was,
    and changes [mstatus] and [mie] only in the bits that their supervisor
    views expose. *)
Theorem supervisor_confined s word s' :
  wf s -> priv_mode s = PRIV_S -> step s word = Ok s' ->
  (exists cause tval, s' = trap s cause tval) \/ supervisor_frame s s'.
Proof.
  intros Hs Hu Hstep.
  destruct (step_effect s word s' Hs Hstep) as [c t|Hm|Hn|a v rd old Ha Hr|s' (Hq & Hc & _) ].
  - left; eauto.
  - by rewrite Hu in Hm.
  - right. by apply supervisor_frame_sret.
  - right. destruct (quiet_retire (csr_write s a v) rd old) as (_ & Hc & _).
    assert (Hf : supervisor_frame s (csr_write s a v)).
    { apply csr_write_supervisor; [done|done|]. by rewrite Hu in Ha. }
    unfold supervisor_frame, csr_get in *. by rewrite Hc.
  - right. by apply supervisor_frame_refl.
Qed.

Lemma wf_user s : wf s -> wf (set_priv s PRIV_U).
Proof. intros. by apply wf_set_priv. Qed.

Lemma privilege_rises_by_trap_witness :
  exists s' cause tval,
    step (set_priv (init 64 32) PRIV_U) 0x00000073 = Ok s' /\
    s' = trap (set_priv (init 64 32) PRIV_U) cause tval.
Proof.
  eexists. 
  destruct (privilege_rises_by_trap (set_priv (init 64 32) PRIV_U) 0x00000073
    (trap (set_priv (init 64 32) PRIV_U) MCAUSE_ECALL_FROM_U 0)) as (c & t & H).
  - apply wf_set_priv; [apply wf_init; lia || by left|done].
  - reflexivity.
  - vm_compute. reflexivity.
  - exists c, t. split; [reflexivity|exact H].
Defined.

Lemma user_mode_confined_witness :
  exists s', step (set_priv (init 64 32) PRIV_U) 0x00500093 = Ok s' /\
  ((exists cause tval, s' = trap (set_priv (init 64 32) PRIV_U) cause tval) \/
   (priv_mode s' = PRIV_U /\ csr s' = csr (set_priv (init 64 32) PRIV_U))).
Proof.
  eexists. split; [reflexivity|].
  apply (user_mode_confined (set_priv (init 64 32) PRIV_U) 0x00500093);
    [apply wf_set_priv; [apply wf_init; lia || by left|done]|reflexivity|reflexivity].
Defined.

Lemma supervisor_confined_witness :
  exists s', step (set_priv (init 64 32) PRIV_S) 0x10200073 = Ok s' /\
  ((exists cause tval, s' = trap (set_priv (init 64 32) PRIV_S) cause tval) \/
   supervisor_frame (set_priv (init 64 32) PRIV_S) s').
Proof.
  eexists. split; [reflexivity|].
  apply (supervisor_confined (set_priv (init 64 32) PRIV_S) 0x10200073);
    [apply wf_set_priv; [apply wf_init; lia || by left|done]|reflexivity|reflexivity].
Defined.

(** ** Memory *)

(** A machine whose memory size is a power of two below the MMIO window, as
    every caller builds it: addresses in range index their own byte. *)
Definition plain_memory (s : ISS) : Prop :=
  wf s /\ exists k, 0 <= k /\ Z.of_nat (List.length (mem s)) = 2 ^ k /\ 2 ^ k <= MMIO_BASE.

Definition mem_size (s : ISS) : Z := Z.of_nat (List.length (mem s)).

Lemma mem_index s a : plain_memory s -> 0 <= a < mem_size s -> a .& mem_mask s = a.
Proof.
  intros [Hs (k & Hk & Hlen & _)] Ha. destruct (wf_mem_size s Hs) as [_ ->].
  unfold mem_size in Ha. rewrite Hlen in *. replace (2 ^ k - 1) with (Z.ones k) by
    (rewrite Z.ones_equiv; lia). rewrite land_mask by done. by apply Z.mod_small.
Qed.

Lemma load_in_range s a : plain_memory s -> 0 <= a < mem_size s ->
  load_mem_byte s a = nthZ 0 (mem s) a.
Proof.
  intros Hp Ha. unfold load_mem_byte. rewrite (mem_index s a Hp Ha).
  destruct Hp as [_ (k & _ & Hlen & Hmm)]. unfold mem_size in Ha.
  destruct (Z.leb_spec MMIO_BASE a); [lia|done].
Qed.

Lemma plain_store s a v : plain_memory s -> plain_memory (store_mem_byte s a v).
Proof.
  intros [Hs (k & Hk & Hlen & Hm)]. split; [by apply wf_store_mem_byte|]. exists k.
  split_and!; try done. unfold store_mem_byte. case_match; [done|]. cbn. by rewrite updZ_length.
Qed.

Lemma mem_size_store s a v : mem_size (store_mem_byte s a v) = mem_size s.
Proof. unfold mem_size, store_mem_byte. case_match; [done|]. cbn. by rewrite updZ_length. Qed.

Lemma load_store_byte s a b v :
  plain_memory s -> 0 <= a < mem_size s -> 0 <= b < mem_size s ->
  load_mem_byte (store_mem_byte s a v) b = if b =? a then v .& 0xFF else load_mem_byte s b.
Proof.
  intros Hp Ha Hb.
  rewrite !load_in_range by (try apply plain_store; rewrite ?mem_size_store; done).
  unfold store_mem_byte. rewrite (mem_index s a Hp Ha).
  destruct Hp as [_ (k & _ & Hlen & Hmm)]. unfold mem_size in *.
  destruct (Z.leb_spec MMIO_BASE a); [lia|]. cbn [mem set_mem].
  destruct (Z.eqb_spec b a) as [->|].
  - by apply nthZ_updZ_eq.
  - apply nthZ_updZ_ne; lia.
Qed.

(** The bytes after a multi-byte store. *)
Lemma load_store_n s a v n b :
  plain_memory s -> 0 <= n -> 0 <= a -> a + n <= mem_size s -> 0 <= b < mem_size s ->
  plain_memory (store_n s a v n) /\ mem_size (store_n s a v n) = mem_size s /\
  load_mem_byte (store_n s a v n) b =
    if (a <=? b) && (b <? a + n) then (v >> (8 * (b - a))) .& 0xFF else load_mem_byte s b.
Proof.
  intros Hp Hn Ha. revert n Hn. apply (range_ind (fun n => a + n <= mem_size s ->
    0 <= b < mem_size s -> plain_memory (store_n s a v n) /\
    mem_size (store_n s a v n) = mem_size s /\ load_mem_byte (store_n s a v n) b =
    if (a <=? b) && (b <? a + n) then (v >> (8 * (b - a))) .& 0xFF else load_mem_byte s b)).
  - intros _ Hb. split; [done|split; [done|] ].
    destruct (Z.leb_spec a b), (Z.ltb_spec b (a + 0)); try lia; done.
  - intros n Hn IH Hle Hb. unfold store_n in *. rewrite range_snoc, fold_left_app by done.
    cbn [fold_left]. destruct (IH ltac:(lia) Hb) as (IH1 & IH2 & IH3).
    split; [by apply plain_store|split; [by rewrite mem_size_store|] ].
    rewrite load_store_byte, IH3 by (done || (rewrite IH2; lia)).
    destruct (Z.eqb_spec b (a + n)) as [->|].
    + destruct (Z.leb_spec a (a + n)), (Z.ltb_spec (a + n) (a + (n + 1))); try lia. cbn [andb].
      by replace (a + n - a) with n by lia.
    + destruct (Z.leb_spec a b), (Z.ltb_spec b (a + n)), (Z.ltb_spec b (a + (n + 1))); try lia; done.
Qed.

Lemma load32_gather s a : load32 s a = gather 8 4 (fun i => load_mem_byte s (a + i)).
Proof.
  unfold load32, gather. change (range 4) with [0; 1; 2; 3]. cbn [fold_left].
  change (8 * 0) with 0. change (8 * 1) with 8. change (8 * 2) with 16. change (8 * 3) with 24.
  by rewrite Z.shiftl_0_r, Z.lor_0_l, Z.add_0_r.
Qed.

Lemma load16_gather s a : load16 s a = gather 8 2 (fun i => load_mem_byte s (a + i)).
Proof.
  unfold load16, gather. change (range 2) with [0; 1]. cbn [fold_left].
  change (8 * 0) with 0. change (8 * 1) with 8.
  by rewrite Z.shiftl_0_r, Z.lor_0_l, Z.add_0_r.
Qed.

Lemma load64_gather s a : load64 s a = gather 8 8 (fun i => load_mem_byte s (a + i)).
Proof. unfold load64, gather. reflexivity. Qed.

(** The [n] bytes just stored, gathered again. *)
Lemma gather_stored s a v n :
  plain_memory s -> 0 <= n -> 0 <= a -> a + n <= mem_size s ->
  gather 8 n (fun i => load_mem_byte (store_n s a v n) (a + i)) = wrap (8 * n) v.
Proof.
  intros Hp Hn Ha Hle. unfold wrap. rewrite <- gather_fields by lia. apply gather_ext.
  intros i Hi. destruct (load_store_n s a v n (a + i) Hp Hn Ha Hle ltac:(lia)) as (_ & _ & ->).
  destruct (Z.leb_spec a (a + i)), (Z.ltb_spec (a + i) (a + n)); try lia. cbn [andb].
  fold_masks. by replace (a + i - a) with i by lia.
Qed.

(** The code's sign extension of a loaded byte or half-word. *)
Lemma sign_fill w h v : 0 < w -> h * 2 ^ w = 2 ^ 32 - 2 ^ w -> w < 32 -> 0 <= v < 2 ^ w ->
  s32 (v .| (if truthy (v .& (1 << (w - 1))) then h << w else 0)) = swrap w v.
Proof.
  intros Hw Hh Hw32 Hv. rewrite truthy_bit, testbit_top, s32_swrap by lia.
  rewrite (swrap_of_unsigned w) by lia. pose proof (pow2_split w Hw).
  assert (2 ^ w <= 2 ^ 31) by (apply Z.pow_le_mono_r; lia).
  destruct (Z.leb_spec (2 ^ (w - 1)) v).
  - rewrite Z.lor_comm, lor_low_add, Hh by lia.
    rewrite swrap_of_unsigned by lia. change (32 - 1) with 31.
    destruct (Z.leb_spec (2 ^ 31) (2 ^ 32 - 2 ^ w + v)); lia.
  - rewrite Z.lor_0_r. rewrite swrap_small; [done|lia|]. change (32 - 1) with 31. lia.
Qed.

Lemma store_n_1 s a v : store_n s a v 1 = store_mem_byte s a v.
Proof.
  unfold store_n. change (range 1) with [0]. cbn [fold_left].
  by rewrite Z.mul_0_r, Z.add_0_r, Z.shiftr_0_r.
Qed.

Lemma store_n_2 s a v : store_n s a v 2 = store_mem_byte (store_mem_byte s a v) (a + 1) (v >> 8).
Proof.
  unfold store_n. change (range 2) with [0; 1]. cbn [fold_left].
  change (8 * 1) with 8. by rewrite Z.mul_0_r, Z.add_0_r, Z.shiftr_0_r.
Qed.

(** [C14] A load reads back what the store of the same width wrote, sign- or
    zero-extended as the instruction says, and every other byte of memory is
    unchanged; this holds for all four widths at any (also unaligned)
    address inside memory. *)
Theorem load_after_store s f3 a B :
  plain_memory s -> 0 <= f3 < 4 -> 0 <= a -> a + 2 ^ f3 <= mem_size s ->
  exists s', store_value s f3 a B = Ok s' /\
    let w := 8 * 2 ^ f3 in
    load_value s' f3 a = Ok (if f3 =? 3 then wrap w B else swrap w B) /\
    (f3 < 3 -> load_value s' (f3 + 4) a = Ok (wrap w B)) /\
    (forall b, 0 <= b < mem_size s -> b < a \/ a + 2 ^ f3 <= b ->
       load_mem_byte s' b = load_mem_byte s b).
Proof.
  intros Hp Hf Ha Hle. exists (store_n s a B (2 ^ f3)).
  assert (Hb : forall b, 0 <= b < mem_size s -> b < a \/ a + 2 ^ f3 <= b ->
       load_mem_byte (store_n s a B (2 ^ f3)) b = load_mem_byte s b).
  { intros b Hb Ho.
    destruct (load_store_n s a B (2 ^ f3) b Hp ltac:(lia) Ha Hle Hb) as (_ & _ & ->).
    destruct (Z.leb_spec a b), (Z.ltb_spec b (a + 2 ^ f3)); try lia; done. }
  pose proof (gather_stored s a B (2 ^ f3) Hp ltac:(lia) Ha Hle) as Hg.
  assert (f3 = 0 \/ f3 = 1 \/ f3 = 2 \/ f3 = 3) as [->|[->|[->| ->] ] ] by lia.
  - change (2 ^ 0) with 1 in *.
    assert (Hl : load_mem_byte (store_n s a B 1) a = wrap 8 B).
    { destruct (load_store_n s a B 1 a Hp ltac:(lia) Ha Hle ltac:(lia)) as (_ & _ & ->).
      destruct (Z.leb_spec a a), (Z.ltb_spec a (a + 1)); try lia. cbn [andb].
      rewrite Z.sub_diag, Z.mul_0_r, Z.shiftr_0_r. by fold_masks. }
    split; [unfold store_value; by rewrite ?store_n_1, ?store_n_2|].
    split; [|split; [|done] ].
    + unfold load_value. cbn [Z.eqb]. rewrite Hl. cbv zeta. f_equal.
      rewrite (sign_fill 8 0xFFFFFF) by (done || by apply wrap_range). by apply swrap_wrap.
    + intros _. unfold load_value. cbn -[load_mem_byte]. by rewrite Hl.
  - change (2 ^ 1) with 2 in *. rewrite <- load16_gather in Hg.
    split; [unfold store_value; by rewrite ?store_n_1, ?store_n_2|].
    split; [|split; [|done] ].
    + unfold load_value. cbn [Z.eqb Pos.eqb]. rewrite Hg. cbv zeta. f_equal.
      rewrite (sign_fill 16 0xFFFF) by (done || by apply wrap_range). by apply swrap_wrap.
    + intros _. unfold load_value. cbn -[load16]. by rewrite Hg.
  - change (2 ^ 2) with 4 in *. rewrite <- load32_gather in Hg.
    split; [done|]. split; [|split; [|done] ].
    + unfold load_value. cbn [Z.eqb Pos.eqb]. rewrite Hg, s32_swrap. f_equal. by apply swrap_wrap.
    + intros _. unfold load_value. cbn -[load32]. by rewrite Hg.
  - change (2 ^ 3) with 8 in *. rewrite <- load64_gather in Hg.
    split; [done|]. split; [|split; [lia|done] ].
    unfold load_value. cbn [Z.eqb Pos.eqb]. by rewrite Hg.
Qed.

Lemma plain_init k xl :
  0 <= k <= 28 -> xl = 32 \/ xl = 64 -> plain_memory (init (2 ^ k) xl).
Proof.
  intros Hk Hxl. pose proof (pow2_pos k ltac:(lia)).
  assert (2 ^ k <= 2 ^ 28) by (apply Z.pow_le_mono_r; lia).
  assert (2 ^ 28 < 2 ^ xl) by (apply Z.pow_lt_mono_r; lia).
  split; [by apply wf_init; [|lia]|]. exists k. cbn [mem init].
  rewrite length_replicate, Z2Nat.id by lia. split_and!; [lia|done|done].
Qed.

Lemma load_after_store_witness :
  exists s', store_value (init (2 ^ 4) 32) 1 5 0x8001 = Ok s' /\ load_value s' 1 5 = Ok (-32767).
Proof.
  destruct (load_after_store (init (2 ^ 4) 32) 1 5 0x8001) as (s' & H1 & H2 & _);
    [apply plain_init; lia || by left|lia|lia|by vm_compute|].
  exists s'. split; [exact H1|exact H2].
Defined.

(** ** Errors *)

Definition is_value_error {A} (r : result A) : Prop :=
  match r with Ok _ => True | Raise (ValueError _) => True | Raise _ => False end.

Ltac ve_ifs :=
  repeat match goal with
  | |- is_value_error (Ok _) => exact I
  | |- is_value_error (Raise (ValueError _)) => exact I
  | |- is_value_error (if ?b then _ else _) => destruct b
  end.

Lemma ve_exec_R xl f7 f3 A B : is_value_error (exec_R xl f7 f3 A B).
Proof. unfold exec_R. cbv zeta. ve_ifs. Qed.
Lemma ve_exec_OP32 f7 f3 A B : is_value_error (exec_OP32 f7 f3 A B).
Proof. unfold exec_OP32. cbv zeta. ve_ifs. Qed.
Lemma ve_exec_I xl w f3 f7 i A : is_value_error (exec_I xl w f3 f7 i A).
Proof.
  unfold exec_I. cbv zeta. ve_ifs. destruct (sha_fn _); exact I.
Qed.
Lemma ve_exec_OPIMM32 w f3 f7 rs2 i A : is_value_error (exec_OPIMM32 w f3 f7 rs2 i A).
Proof. unfold exec_OPIMM32. cbv zeta. ve_ifs. Qed.

(** The sub-opcodes [step] knows, by major opcode: for OP and OP-32 the
    [funct7] values of each [funct3] that does not take them all. *)
Definition R_functs : list (Z * list Z) :=
  [(0, [0x00; 0x01; 0x20; 0x19; 0x1B; 0x1D; 0x1F; 0x3F]); (5, [0x00; 0x01; 0x05; 0x20; 0x24; 0x30])].
Definition OP32_functs : list (Z * list Z) :=
  [(0, [0x00; 0x01; 0x04; 0x20]); (2, [0x01; 0x10]); (3, [0x01]); (4, [0x01; 0x04; 0x10]);
   (5, [0x00; 0x01; 0x20; 0x30]); (6, [0x01; 0x10]); (7, [0x01])].
Definition FP_functs : list Z := [0x00; 0x01; 0x02; 0x03; 0x04; 0x05; 0x0B; 0x14; 0x18; 0x1A; 0x1C; 0x1E].

Definition known_functs (table : list (Z * list Z)) (f3 f7 : Z) : bool :=
  match find (fun row => fst row =? f3) table with
  | Some row => existsb (Z.eqb f7) (snd row)
  | None => true
  end.

(** An implemented major opcode with a sub-opcode that is not. *)
Definition unknown_sub (w : Z) : bool :=
  let op := w_op w in
  let f3 := w_f3 w in
  if op =? OP_R then negb (known_functs R_functs f3 (w_f7 w))
  else if op =? OP_32 then negb (known_functs OP32_functs f3 (w_f7 w))
  else if op =? OP_I then (f3 =? 1) && ((w >> 26) .& 0x3F =? 4) && (8 <=? w_rs2 w)
  else if op =? OP_IMM32 then negb (existsb (Z.eqb f3) [0; 1; 5])
  else if op =? OP_LOAD then f3 =? 7
  else if op =? OP_STORE then 4 <=? f3
  else if op =? OP_FP then negb (existsb (Z.eqb ((w >> 27) .& 0x1F)) FP_functs)
  else false.

Definition ecall_word (w : Z) : bool := (w_op w =? OP_SYSTEM) && (w_f3 w =? 0) && ((w >> 20) .& 0xFFF =? 0).

(** The address of a load or a store is not mapped: the page fault comes
    before the width is looked at. *)
Definition mapped (s : ISS) (va : Z) (acc : access) : bool :=
  match fst (translate s (uxlen s va) acc) with Some _ => true | None => false end.
Definition access_faults (s : ISS) (w : Z) : bool :=
  if w_op w =? OP_LOAD then negb (mapped s (reg s (w_rs1 w) + imm_i w) load)
  else if w_op w =? OP_STORE then negb (mapped s (reg s (w_rs1 w) + imm_s w) store)
  else false.

(** A result, or [ValueError] when the sub-opcode is [bad]. *)
Definition errs {A} (bad : bool) (r : result A) : Prop :=
  if bad then exists msg, r = Raise (ValueError msg) else exists x, r = Ok x.

Lemma errs_of {A} bad (r : result A) : is_value_error r -> is_ok r = negb bad -> errs bad r.
Proof. destruct r as [x|[] ], bad; cbn; try done; intros _ _; eauto. Qed.

Lemma errs_bind {A B} bad (m : result A) (f : A -> B) : errs bad m -> errs bad (x ← m; Ok (f x)).
Proof. destruct bad; intros [x ->]; cbn; eauto. Qed.

Lemma is_ok_if {A} (c : bool) (r r' : result A) : is_ok (if c then r else r') = if c then is_ok r else is_ok r'.
Proof. by destruct c. Qed.

Lemma functs_all (P : Z -> Z -> bool) : forallb (fun f3 => forallb (P f3) (range 128)) (range 8) = true ->
  forall f3 f7, 0 <= f3 < 8 -> 0 <= f7 < 128 -> P f3 f7 = true.
Proof.
  intros H f3 f7 H3 H7. rewrite forallb_forall in H. specialize (H f3). cbv beta in H. rewrite forallb_forall in H.
  apply H; apply list_elem_of_In, elem_of_range; done.
Qed.

Ltac push_is_ok := rewrite ?is_ok_if; cbn [is_ok].

Lemma errs_exec_R xl f7 f3 A B : 0 <= f3 < 8 -> 0 <= f7 < 128 ->
  errs (negb (known_functs R_functs f3 f7)) (exec_R xl f7 f3 A B).
Proof.
  intros H3 H7. apply errs_of; [apply ve_exec_R|]. rewrite negb_involutive. unfold exec_R. cbv zeta. push_is_ok.
  apply eqb_prop. revert f3 f7 H3 H7. apply functs_all. vm_compute. reflexivity.
Qed.

Lemma errs_exec_OP32 f7 f3 A B : 0 <= f3 < 8 -> 0 <= f7 < 128 ->
  errs (negb (known_functs OP32_functs f3 f7)) (exec_OP32 f7 f3 A B).
Proof.
  intros H3 H7. apply errs_of; [apply ve_exec_OP32|]. rewrite negb_involutive. unfold exec_OP32. cbv zeta. push_is_ok.
  apply eqb_prop. revert f3 f7 H3 H7. apply functs_all. vm_compute. reflexivity.
Qed.

Lemma errs_exec_I xl w f3 f7 i A : 0 <= f3 < 8 ->
  errs ((f3 =? 1) && ((w >> 26) .& 0x3F =? 4) && (8 <=? w_rs2 w)) (exec_I xl w f3 f7 i A).
Proof.
  intros H3. apply errs_of; [apply ve_exec_I|].
  assert (Hsha : is_ok (match sha_fn (w_rs2 w) with
      | None => Raise (ValueError ("unknown sha rs2_c=" ++ fmt_d (w_rs2 w)))
      | Some fn => Ok (if w_rs2 w <? 4 then sext (fn A) 32 else fn A) end) = negb (8 <=? w_rs2 w)).
  { pose proof (w_rs2_range w) as Hr. generalize dependent (w_rs2 w). intros n Hr. unfold sha_fn.
    destruct (Z.leb_spec 8 n).
    - repeat (match goal with |- context [n =? ?c] => rewrite (proj2 (Z.eqb_neq n c)) by lia end). reflexivity.
    - assert (n = 0 \/ n = 1 \/ n = 2 \/ n = 3 \/ n = 4 \/ n = 5 \/ n = 6 \/ n = 7)
        as [->|[->|[->|[->|[->|[->|[->| ->] ] ] ] ] ] ] by lia; reflexivity. }
  unfold exec_I. cbv zeta. fold (w_rs2 w). push_is_ok. rewrite Hsha. clear Hsha.
  destruct (Z.eqb_spec ((w >> 26) .& 0x3F) 4) as [->|_].
  - assert (f3 = 0 \/ f3 = 1 \/ f3 = 2 \/ f3 = 3 \/ f3 = 4 \/ f3 = 5 \/ f3 = 6 \/ f3 = 7)
      as [->|[->|[->|[->|[->|[->|[->| ->] ] ] ] ] ] ] by lia; cbn [Z.eqb Pos.eqb andb orb negb]; by repeat case_match.
  - rewrite !andb_false_r. cbn [andb negb].
    assert (f3 = 0 \/ f3 = 1 \/ f3 = 2 \/ f3 = 3 \/ f3 = 4 \/ f3 = 5 \/ f3 = 6 \/ f3 = 7)
      as [->|[->|[->|[->|[->|[->|[->| ->] ] ] ] ] ] ] by lia; cbn [Z.eqb Pos.eqb andb orb negb]; by repeat case_match.
Qed.

Lemma errs_exec_OPIMM32 w f3 f7 rs2 i A : 0 <= f3 < 8 ->
  errs (negb (existsb (Z.eqb f3) [0; 1; 5])) (exec_OPIMM32 w f3 f7 rs2 i A).
Proof.
  intros H3. apply errs_of; [apply ve_exec_OPIMM32|]. unfold exec_OPIMM32. cbv zeta. push_is_ok.
  assert (f3 = 0 \/ f3 = 1 \/ f3 = 2 \/ f3 = 3 \/ f3 = 4 \/ f3 = 5 \/ f3 = 6 \/ f3 = 7)
    as [->|[->|[->|[->|[->|[->|[->| ->] ] ] ] ] ] ] by lia; cbn [Z.eqb Pos.eqb andb orb negb existsb]; by repeat case_match.
Qed.

Lemma errs_load_value s f3 addr : 0 <= f3 < 8 -> errs (f3 =? 7) (load_value s f3 addr).
Proof.
  intros H3. assert (f3 = 0 \/ f3 = 1 \/ f3 = 2 \/ f3 = 3 \/ f3 = 4 \/ f3 = 5 \/ f3 = 6 \/ f3 = 7)
    as [->|[->|[->|[->|[->|[->|[->| ->] ] ] ] ] ] ] by lia; by eexists.
Qed.

Lemma errs_store_value s f3 addr B : 0 <= f3 < 8 -> errs (4 <=? f3) (store_value s f3 addr B).
Proof.
  intros H3. assert (f3 = 0 \/ f3 = 1 \/ f3 = 2 \/ f3 = 3 \/ f3 = 4 \/ f3 = 5 \/ f3 = 6 \/ f3 = 7)
    as [->|[->|[->|[->|[->|[->|[->| ->] ] ] ] ] ] ] by lia; by eexists.
Qed.

Lemma errs_with_addr bad s va acc k : (forall s a, errs bad (k s a)) ->
  errs (bad && mapped s va acc) (with_addr s va acc k).
Proof.
  intros H. unfold with_addr, mapped. destruct (translate _ _ _) as [ [pa|] s']; cbn [fst].
  - rewrite andb_true_r. apply H.
  - rewrite andb_false_r. by eexists.
Qed.

Lemma with_addr_ok s va acc k : (forall s a, exists s', k s a = Ok s') -> exists s', with_addr s va acc k = Ok s'.
Proof. intros H. unfold with_addr. destruct (translate _ _ _) as [ [pa|] s']; [apply H|by eexists]. Qed.

Lemma errs_exec_fp s w : wf s ->
  errs (negb (existsb (Z.eqb ((w >> 27) .& 0x1F)) FP_functs)) (exec_fp s w).
Proof.
  intros Hs. unfold exec_fp. cbv zeta. apply errs_bind.
  destruct (f_sqrt_ok (freg s (w_rs1 w)) (resolve_rm s (w_f3 w))) as (r & -> & _); [by apply wf_freg|].
  cbn [mbind result_bind]. unfold FP_functs. set (f := (w >> 27) .& 0x1F). clearbody f.
  unfold errs. cbn [existsb].
  repeat match goal with |- context [f =? ?c] =>
    destruct (Z.eqb_spec f c) as [->|]; [cbn [Z.eqb Pos.eqb orb negb]; repeat case_match; by eexists|] end.
  by eexists.
Qed.

(** [ecall] raises at the reserved privilege only. *)
Lemma exec_priv_outcome s w : wf s -> w_f3 w = 0 ->
  if ((w >> 20) .& 0xFFF =? 0) && (priv_mode s =? 2) then exec_priv s w = Raise (KeyError "2")
  else exists s', exec_priv s w = Ok s'.
Proof.
  intros Hs _. unfold exec_priv. cbv zeta.
  assert (Hf : (w >> 20) .& 0xFFF = 0 -> w_f7 w = 0).
  { intros H0. unfold w_f7. replace ((w >> 25) .& 0x7F) with (((w >> 20) .& 0xFFF) >> 5); [by rewrite H0|].
    by rewrite Z.shiftr_land, Z.shiftr_shiftr by done. }
  destruct (Z.eqb_spec ((w >> 20) .& 0xFFF) 0) as [E|_]; cbn [andb].
  - rewrite (Hf E). cbn [Z.eqb]. unfold ecall_cause. pose proof (wf_priv s Hs).
    destruct (Z.eqb_spec (priv_mode s) 2) as [-> |]; [reflexivity|].
    assert (priv_mode s = 0 \/ priv_mode s = 1 \/ priv_mode s = 3) as [-> |[-> | ->] ] by lia; by eexists.
  - repeat case_match; by eexists.
Qed.

(** The tests of a major opcode. *)
Ltac opcode c := match goal with |- context [w_op ?w =? c] =>
  destruct (Z.eqb_spec (w_op w) c) as [->|]; [cbn [Z.eqb Pos.eqb OP_R OP_32 OP_I OP_IMM32 OP_LOAD OP_STORE
    OP_BRANCH OP_JAL OP_JALR OP_LUI OP_AUIPC OP_SYSTEM OP_FLW OP_FSW OP_FP OP_FMADD OP_FMSUB OP_FNMSUB OP_FNMADD
    OP_FENCE andb orb negb] |] end.



(** A trap return to the reserved privilege level 2 is accepted: after
    [mstatus.MPP = 2] is written and [mret] runs, the machine is in
    privilege 2, where [ecall] raises [KeyError] in the simulator. *)
Theorem reserved_privilege_ecall :
  exists s1,
    step (csr_write (init 64 32) CSR_MSTATUS (2 << MSTATUS_MPP_LO)) 0x30200073 = Ok s1 /\
    priv_mode s1 = 2 /\ step s1 0x00000073 = Raise (KeyError "2").
Proof. eexists. split; [reflexivity|]. split; reflexivity. Qed.
