(* ===== verification/Run.v ===== *)
(** * Running a program

    [ISS.run] of [sim/tools/iss.py]: the loop that injects the scheduled
    interrupt, translates and fetches, stops at a self-loop or past the end
    of the program, and counts steps against [max_steps]. *)

From S2P Require Import Prelude Words PyStr Machine Mmu Crypto IntAlu Float32.
From S2P Require Import Float32Facts Step StepFacts.

(** ** Definitions *)

(** One turn of the [while] body. *)
Inductive turn :=
| Again (s : ISS) (steps : Z)
| Break (s : ISS) (steps : Z)
| Crash (e : exn).

(** The scheduled interrupt is due and enabled. *)
Definition interrupt_due (s : ISS) (steps : Z) : option Z :=
  match pending_interrupt s with
  | Some (after, cause) =>
      if (after <=? steps) && truthy ((csr_get s CSR_MSTATUS >> 3) .& 1) then Some cause else None
  | None => None
  end.

(** The self-loop [jal] that ends every program. *)
Definition self_loop (word : Z) : bool := (word .& 0x7F =? OP_JAL) && (off_j word =? 0).

Definition run_turn (words : list Z) (s : ISS) (steps : Z) : turn :=
  match interrupt_due s steps with
  | Some cause => Again (set_pending (trap s cause 0) None) steps
  | None =>
      match translate s (pc s) fetch with
      | (None, s') => Again s' steps
      | (Some fetch_addr, s') =>
          if fetch_addr >=? Z.of_nat (List.length words) * 4 then Break s' steps
          else
            let word := nthZ 0 words (fetch_addr `div` 4) in
            if self_loop word then Break s' steps
            else
              match step s' word with
              | Ok s'' => Again s'' (steps + 1)
              | Raise e => Crash e
              end
      end
  end.

(** How a run ends; [Running] is a run the fuel does not finish. *)
Inductive outcome :=
| Returned (s : ISS) (steps : Z)
| Raised (e : exn)
| Running (s : ISS) (steps : Z).

Definition runaway (max_steps : Z) : exn :=
  RuntimeError ("exceeded " ++ fmt_d max_steps ++
    " steps without reaching a self-loop -- program likely loops forever unexpectedly").

Fixpoint run_loop (fuel : nat) (words : list Z) (max_steps : Z) (s : ISS) (steps : Z) : outcome :=
  match fuel with
  | O => Running s steps
  | S fuel' =>
      if steps <? max_steps then
        match run_turn words s steps with
        | Again s' steps' => run_loop fuel' words max_steps s' steps'
        | Break s' steps' => Returned s' steps'
        | Crash e => Raised e
        end
      else Raised (runaway max_steps)
  end.

Definition run (fuel : nat) (words : list Z) (max_steps : Z) (s : ISS) : outcome :=
  run_loop fuel words max_steps s 0.

(** Sum of the first ten integers: the loop of a small program ends at its
    self-loop with the sum in x3. *)
Example run_sum :
  match run 100 [0x00A00093; 0x00000193; 0x001181B3; 0xFFF08093; 0xFE009CE3; 0x0000006F]
            20000 (init 64 32) with
  | Returned s steps => (reg s 3, steps) = (55, 32)
  | _ => False
  end.
Proof. vm_compute. reflexivity. Qed.

(** ** The run invariant *)

Lemma wf_run_turn words s steps :
  wf s ->
  match run_turn words s steps with
  | Again s' steps' => wf s' /\ steps <= steps'
  | Break s' steps' => wf s' /\ steps' = steps
  | Crash _ => True
  end.
Proof.
  intros Hs. unfold run_turn. destruct (interrupt_due s steps).
  { split; [by apply wf_set_pending, wf_trap|lia]. }
  destruct (translate s (pc s) fetch) as [r s'] eqn:E.
  pose proof (wf_translate s (pc s) fetch r s' Hs E) as Hs'.
  destruct r as [pa|]; [|split; [done|lia] ].
  destruct (pa >=? _); [by split|]. cbv zeta.
  destruct (self_loop _); [by split|].
  destruct (step s' _) as [s''|e] eqn:Es; [|done].
  split; [by eapply wf_step|lia].
Qed.

Lemma wf_run_loop fuel words max_steps s steps s' n :
  wf s -> 0 <= steps -> run_loop fuel words max_steps s steps = Returned s' n ->
  wf s' /\ steps <= n < max_steps.
Proof.
  revert s steps. induction fuel as [|fuel IH]; intros s steps Hs H0; cbn [run_loop]; [done|].
  destruct (Z.ltb_spec steps max_steps); [|done].
  pose proof (wf_run_turn words s steps Hs) as Ht.
  destruct (run_turn words s steps) as [s1 n1|s1 n1|e];
    [|destruct Ht as [Ht ->]; intros [= <- <-]; split; [done|lia]|done].
  intros Hr. destruct (IH s1 n1 ltac:(tauto) ltac:(lia) Hr). split; [done|lia].
Qed.

(** A run that returns does so in a well-formed machine, having
    executed fewer than [max_steps] instructions. *)
Theorem run_returns_wf fuel words max_steps s s' n :
  wf s -> run fuel words max_steps s = Returned s' n -> wf s' /\ 0 <= n < max_steps.
Proof. intros Hs. by apply wf_run_loop. Qed.

Lemma run_returns_wf_witness :
  exists s' n, run 100 [0x00A00093; 0x0000006F] 20 (init 64 32) = Returned s' n /\ wf s'.
Proof.
  eexists _, _. split; [vm_compute; reflexivity|].
  apply (run_returns_wf 100 [0x00A00093; 0x0000006F] 20 (init 64 32) _ 1);
    [apply wf_init; lia || by left|vm_compute; reflexivity].
Defined.

(** ** Termination *)

(** More fuel does not change a finished run. *)
Lemma run_loop_mono fuel fuel' words max_steps s steps :
  (fuel <= fuel')%nat ->
  match run_loop fuel words max_steps s steps with
  | Running _ _ => True
  | o => run_loop fuel' words max_steps s steps = o
  end.
Proof.
  revert fuel' s steps. induction fuel as [|fuel IH]; intros fuel' s steps Hle; [done|].
  destruct fuel' as [|fuel']; [lia|]. cbn [run_loop].
  destruct (steps <? max_steps); [|done].
  destruct (run_turn words s steps); [|done..]. apply IH. lia.
Qed.

(** The turns left: a step each, and one more while an interrupt is
    pending. *)
Definition turns_left (max_steps : Z) (s : ISS) (steps : Z) : Z :=
  max_steps - steps + (match pending_interrupt s with Some _ => 1 | None => 0 end).

(** On RV64 instruction fetch never faults, so each turn makes progress. *)
Lemma rv64_turn words s steps :
  wf s -> xlen s = 64 ->
  match run_turn words s steps with
  | Again s' steps' =>
      wf s' /\ xlen s' = 64 /\ steps <= steps' /\
      (forall m, turns_left m s' steps' < turns_left m s steps)
  | _ => True
  end.
Proof.
  intros Hs Hx. pose proof (wf_run_turn words s steps Hs) as Hw.
  unfold run_turn in *. destruct (interrupt_due s steps) as [c|] eqn:Ei.
  { split; [apply Hw|]. split; [|split; [lia|] ].
    - cbn. unfold trap. by destruct (trap_to_s s c).
    - intros m. unfold turns_left, interrupt_due in *. cbn.
      destruct (pending_interrupt s); [lia|done]. }
  rewrite translate_bare in * by by apply rv64_not_paging.
  destruct (_ >=? _); [done|]. cbv zeta in *. destruct (self_loop _); [done|].
  destruct (step s _) as [s'|e] eqn:Es; [|done].
  destruct (step_const s _ s' Hs Es) as [Hx' Hp]. split; [apply Hw|].
  split; [congruence|split; [lia|] ]. intros m. unfold turns_left. rewrite Hp. lia.
Qed.

Lemma rv64_finishes fuel words max_steps s steps :
  wf s -> xlen s = 64 -> (0 < fuel)%nat -> turns_left max_steps s steps < Z.of_nat fuel ->
  match run_loop fuel words max_steps s steps with Running _ _ => False | _ => True end.
Proof.
  revert s steps. induction fuel as [|fuel IH]; intros s steps Hs Hx Hpos Hf; [lia|].
  cbn [run_loop]. destruct (Z.ltb_spec steps max_steps) as [Hlt|]; [|done].
  pose proof (rv64_turn words s steps Hs Hx) as Ht.
  destruct (run_turn words s steps) as [s1 n1| |]; [|done..].
  destruct Ht as (Hs1 & Hx1 & Hn & Hd). specialize (Hd max_steps).
  apply IH; [done|done| |lia].
  assert (0 < turns_left max_steps s steps \/ turns_left max_steps s steps <= 0) by lia.
  assert (max_steps - steps <= turns_left max_steps s steps) by
    (unfold turns_left; destruct (pending_interrupt s); lia).
  lia.
Qed.

(** [C22] On RV64 every run finishes: from any well-formed machine, whatever
    the program does, [max_steps + 2] turns of the loop are enough for it to
    return or raise, so the step budget is a real bound. *)
Theorem run_rv64_terminates words max_steps s :
  wf s -> xlen s = 64 ->
  exists o, (forall fuel, (Z.to_nat max_steps + 2 <= fuel)%nat ->
               run fuel words max_steps s = o) /\
            match o with Running _ _ => False | _ => True end.
Proof.
  intros Hs Hx. exists (run (Z.to_nat max_steps + 2) words max_steps s).
  assert (Hfin : match run (Z.to_nat max_steps + 2) words max_steps s with
                 | Running _ _ => False | _ => True end).
  { apply rv64_finishes; [done|done|lia|]. unfold turns_left.
    destruct (pending_interrupt s); lia. }
  split; [|done]. intros fuel Hle. unfold run in *.
  pose proof (run_loop_mono _ fuel words max_steps s 0 Hle) as Hm.
  by destruct (run_loop (Z.to_nat max_steps + 2) words max_steps s 0).
Qed.

Lemma run_rv64_terminates_witness :
  exists o, (forall fuel, (Z.to_nat 50 + 2 <= fuel)%nat ->
               run fuel [0xFE000FE3] 50 (init 64 64) = o) /\
            match o with Running _ _ => False | _ => True end.
Proof. apply (run_rv64_terminates [0xFE000FE3] 50 (init 64 64)); [apply wf_init; lia || by right|done]. Defined.

(** ** Reachable machines *)

(** What the tools do with a machine: make one, schedule an interrupt on it,
    execute single instructions (the debugger), and run turns of the loop,
    with any words in any order. *)
Inductive reached (m xl : Z) : ISS -> Prop :=
| reached_init : reached m xl (init m xl)
| reached_pending s p : reached m xl s -> reached m xl (set_pending s p)
| reached_step s word s' : reached m xl s -> step s word = Ok s' -> reached m xl s'
| reached_turn s words steps s' steps' :
    reached m xl s -> run_turn words s steps = Again s' steps' -> reached m xl s'.

Lemma reached_wf m xl s : xl = 32 \/ xl = 64 -> 0 < m < 2 ^ xl -> reached m xl s -> wf s.
Proof.
  intros Hx Hm. induction 1 as [|s p _ IH|s word s' _ IH Hst|s words steps s' steps' _ IH Ht].
  - by apply wf_init.
  - by apply wf_set_pending.
  - by eapply wf_step.
  - pose proof (wf_run_turn words s steps IH) as Hw. rewrite Ht in Hw. apply Hw.
Qed.

Lemma reached_xlen m xl s : xl = 32 \/ xl = 64 -> 0 < m < 2 ^ xl -> reached m xl s -> xlen s = xl.
Proof.
  intros Hx Hm. induction 1 as [|s p _ IH|s word s' Hr IH Hst|s words steps s' steps' Hr IH Ht]; [done|done| |].
  { pose proof (reached_wf m xl s Hx Hm Hr) as Hs. by rewrite (proj1 (step_const s word s' Hs Hst)). }
  pose proof (reached_wf m xl s Hx Hm Hr) as Hs. rewrite <- IH. clear IH Hr. unfold run_turn in Ht.
  destruct (interrupt_due s steps) as [c|].
  { injection Ht as <- _. cbn. unfold trap. by destruct (trap_to_s s c). }
  destruct (translate s (pc s) fetch) as [r s1] eqn:E.
  pose proof (wf_translate s (pc s) fetch r s1 Hs E) as Hs1.
  assert (Hx1 : xlen s1 = xlen s).
  { apply (translate_cases _ _ _ _ _ Hs) in E as [(? & _ & -> & _)|(t & _ & ->)]; [done|]. unfold trap. by destruct (trap_to_s s _). }
  destruct r as [pa|]; [|by injection Ht as <- _].
  destruct (_ >=? _); [done|]. cbv zeta in Ht. destruct (self_loop _); [done|].
  destruct (step s1 _) as [s2|e] eqn:Es; [|done]. injection Ht as <- _.
  by rewrite (proj1 (step_const s1 _ s2 Hs1 Es)).
Qed.

Lemma reached_run m xl fuel words max_steps s steps s' n : reached m xl s ->
  run_loop fuel words max_steps s steps = Running s' n -> reached m xl s'.
Proof.
  revert s steps. induction fuel as [|fuel IH]; intros s steps Hr; cbn [run_loop]; [by intros [= <- _]|].
  destruct (steps <? max_steps); [|done].
  destruct (run_turn words s steps) as [s1 n1| |] eqn:E; [|done..].
  apply IH. by eapply reached_turn.
Qed.

(** [C24] Translation never happens on a 64-bit machine: in every state a run
    reaches from the initial machine, whatever the program did to its CSRs
    and whatever the privilege, every address translates to itself and
    nothing changes, and it stays so after any further write of [satp].  The
    CSR file keeps 32 bits, and the mode field of [satp] is bits 63 to 60. *)
Theorem rv64_never_pages m s va acc :
  0 < m < 2 ^ 64 -> reached m 64 s ->
  translate s va acc = (Some (uxlen s va), s) /\
  (forall v, let s' := csr_write s CSR_SATP v in translate s' va acc = (Some (uxlen s' va), s')).
Proof.
  intros Hm Hr. pose proof (reached_wf m 64 s ltac:(by right) Hm Hr) as Hs.
  pose proof (reached_xlen m 64 s ltac:(by right) Hm Hr) as Hx.
  split; [by apply translate_bare, rv64_not_paging|]. intros v s'.
  apply translate_bare, rv64_not_paging; [by apply wf_csr_write|]. rewrite <- Hx.
  change s' with (csr_store s CSR_SATP v). unfold csr_store. by destruct (csr s !! CSR_SATP).
Qed.

(** A program that writes the Sv39 mode into [satp] and returns to user
    mode. *)
Definition sv39_program : list Z :=
  [0x00800093 (* addi x1, x0, 8 *); 0x03C09093 (* slli x1, x1, 60 *); 0x18009073 (* csrrw x0, satp, x1 *);
   0x01000113 (* addi x2, x0, 16 *); 0x34111073 (* csrrw x0, mepc, x2 *); 0x30200073 (* mret *)].
Definition sv39_attempt : ISS :=
  match run 6 sv39_program 100 (init 16384 64) with Running s _ => s | _ => init 16384 64 end.

Lemma rv64_never_pages_witness :
  reg sv39_attempt 1 = 8 << 60 /\ priv_mode sv39_attempt = PRIV_U /\
  translate sv39_attempt 0x5000 load = (Some (uxlen sv39_attempt 0x5000), sv39_attempt).
Proof.
  split; [vm_compute; reflexivity|]. split; [vm_compute; reflexivity|].
  refine (proj1 (rv64_never_pages 16384 sv39_attempt 0x5000 load _ _)); [split; reflexivity|].
  apply (reached_run 16384 64 6 sv39_program 100 (init 16384 64) 0 sv39_attempt 6 (reached_init 16384 64)).
  vm_compute. reflexivity.
Defined.

(** ** The fetch-fault loop *)

(** What the loop of faults leaves alone. *)
Definition same_tables (s t : ISS) : Prop :=
  xlen t = xlen s /\ mem t = mem s /\ mem_mask t = mem_mask s /\
  csr_get t CSR_SATP = csr_get s CSR_SATP /\ csr_get t CSR_MEDELEG = csr_get s CSR_MEDELEG /\
  csr_get t CSR_STVEC = csr_get s CSR_STVEC /\ pending_interrupt t = pending_interrupt s.

Lemma same_tables_trans s t u : same_tables s t -> same_tables t u -> same_tables s u.
Proof. unfold same_tables. intuition congruence. Qed.

(** A delegated instruction page fault. *)
Lemma fetch_trap_delegated s va :
  priv_mode s <> PRIV_M -> Z.testbit (csr_get s CSR_MEDELEG) 12 = true ->
  let t := trap s MCAUSE_INSTRUCTION_PAGE_FAULT va in
  same_tables s t /\ priv_mode t = PRIV_S /\ pc t = csr_get s CSR_STVEC.
Proof.
  intros Hp Hd. cbv zeta.
  assert (Hs : trap_to_s s MCAUSE_INSTRUCTION_PAGE_FAULT = true).
  { unfold trap_to_s. destruct (Z.eqb_spec (priv_mode s) PRIV_M); [done|].
    change (truthy (MCAUSE_INSTRUCTION_PAGE_FAULT .& 0x80000000)) with false.
    change (MCAUSE_INSTRUCTION_PAGE_FAULT .& 0x1F) with 12. cbn [negb andb]. by rewrite truthy_bit_at. }
  unfold trap. rewrite Hs. cbv zeta. unfold same_tables.
  split; [split_and!; try reflexivity; by csr_simpl|]. split; [reflexivity|]. cbn [pc set_pc]. by csr_simpl.
Qed.

(** A fetch that is not translated is one more turn of the loop, at the
    handler, with no step counted. *)
Lemma fetch_fault_turn words s steps :
  priv_mode s <> PRIV_M -> Z.testbit (csr_get s CSR_MEDELEG) 12 = true -> pending_interrupt s = None ->
  fst (translate s (pc s) fetch) = None ->
  exists t, run_turn words s steps = Again t steps /\ same_tables s t /\ priv_mode t = PRIV_S /\
    pc t = csr_get s CSR_STVEC.
Proof.
  intros Hp Hd Hpend Hf. unfold run_turn, interrupt_due. rewrite Hpend.
  destruct (translate s (pc s) fetch) as [r t] eqn:E. cbn [fst] in Hf. subst r. exists t. split; [done|].
  destruct (translate_fault s (pc s) fetch t E) as [va ->]. by apply fetch_trap_delegated.
Qed.

(** [C25] A fetch that faults does not count as a step, so [max_steps] does
    not bound the faults of a trap handler: in any state below machine mode
    whose instruction page faults are delegated, that has no interrupt
    scheduled, whose next instruction is not mapped, and whose handler, the
    address in [stvec], is not mapped in supervisor mode either, [run] never
    ends, with no step counted however many turns it is given, whatever the
    program and the step limit. *)
Theorem fetch_fault_livelock words max_steps fuel s steps :
  priv_mode s <> PRIV_M -> Z.testbit (csr_get s CSR_MEDELEG) 12 = true -> pending_interrupt s = None ->
  fst (translate s (pc s) fetch) = None ->
  fst (translate (set_priv s PRIV_S) (csr_get s CSR_STVEC) fetch) = None ->
  steps < max_steps ->
  exists s', run_loop fuel words max_steps s steps = Running s' steps.
Proof.
  intros Hp Hd Hpend Hf Hh Hm.
  assert (Hloop : forall f t, same_tables s t -> priv_mode t = PRIV_S -> pc t = csr_get s CSR_STVEC ->
    exists s', run_loop f words max_steps t steps = Running s' steps).
  { induction f as [|f IH]; intros t Ht Hpt Hpc; cbn [run_loop]; [eauto|].
    destruct (Z.ltb_spec steps max_steps); [|lia].
    pose proof Ht as (Hx & Hmem & Hk & Hsa & Hde & Hst & Hpe).
    destruct (fetch_fault_turn words t steps) as (t2 & -> & Ht2 & Hp2 & Hpc2);
      [by rewrite Hpt|by rewrite Hde|by rewrite Hpe| |].
    { rewrite Hpc, <- Hh. by apply (translate_agrees (set_priv s PRIV_S) t). }
    apply IH; [by eapply same_tables_trans|done|congruence]. }
  destruct fuel as [|fuel]; [by exists s|]. cbn [run_loop]. destruct (Z.ltb_spec steps max_steps); [|lia].
  destruct (fetch_fault_turn words s steps Hp Hd Hpend Hf) as (t & -> & Ht & Hpt & Hpc). by apply Hloop.
Qed.

(** An RV32 machine in supervisor mode with paging on, no valid page table
    and instruction page faults delegated to the supervisor. *)
Definition unmapped_handler : ISS :=
  set_priv (csr_write (csr_write (init 64 32) CSR_MEDELEG (1 << 12)) CSR_SATP (1 << 31)) PRIV_S.

Lemma fetch_fault_livelock_witness :
  exists s, run_loop 1000 [0x0000006F] 5 unmapped_handler 0 = Running s 0.
Proof.
  apply (fetch_fault_livelock [0x0000006F] 5 1000 unmapped_handler 0);
    first [discriminate|vm_compute; reflexivity|lia].
Defined.
