(* ===== verification/Asm.v ===== *)
(** * The assembler's encoders

    The tables and instruction encoders of [sim/tools/asm.py], the inverse
    of the field extraction of [Step]: the encoders place the fields, and
    the theorems read them back with the simulator's own decoder. *)

From S2P Require Import Prelude Words PyStr Step.
#[local] Open Scope string_scope.
#[local] Open Scope Z_scope.

(** ** Definitions: operands *)

(** An immediate operand: the encoders take source text or an integer
    ([isinstance(tok, int)]). *)
Inductive operand := OInt (v : Z) | OTok (tok : string).

(** [^x(\d+)$] and [^f(\d+)$] on a stripped token. *)
Definition match_reg (c : ascii) (tok : string) : option Z :=
  match strip tok with
  | String d s =>
      if Ascii.eqb c d then
        match s with
        | "" => None
        | _ => let '(ds, rest) := span is_digit s in
               match rest with "" => int_digits 10 ds 0 false | _ => None end
        end
      else None
  | "" => None
  end.

Definition reg (tok : string) : result Z :=
  match match_reg "x" tok with
  | None => Raise (ValueError ("expected register (x0-x31), got " ++ repr tok))
  | Some n =>
      if (0 <=? n) && (n <=? 31) then Ok n
      else Raise (ValueError ("register out of range: " ++ repr tok))
  end.

Definition freg (tok : string) : result Z :=
  match match_reg "f" tok with
  | None => Raise (ValueError ("expected float register (f0-f31), got " ++ repr tok))
  | Some n =>
      if (0 <=? n) && (n <=? 31) then Ok n
      else Raise (ValueError ("float register out of range: " ++ repr tok))
  end.

Definition imm (tok : operand) (bits : Z) (signed : bool) : result Z :=
  v ← match tok with OInt v => Ok v | OTok t => int_base0 t end;
  let lo := if signed then - (1 << (bits - 1)) else 0 in
  let hi := if signed then (1 << (bits - 1)) - 1 else (1 << bits) - 1 in
  if negb ((lo <=? v) && (v <=? hi)) then
    Raise (ValueError ("immediate " ++ fmt_d v ++ " out of range [" ++ fmt_d lo ++ "," ++ fmt_d hi ++ "]"))
  else Ok (v .& ((1 << bits) - 1)).

Definition u (v bits : Z) : Z := v .& ((1 << bits) - 1).

(** ** Definitions: tables *)

Definition OP_MISC_MEM := 0x0F.

Definition CSR_ADDR : list (string * Z) :=
  [("mstatus", 0x300); ("mie", 0x304); ("mtvec", 0x305); ("mscratch", 0x340); ("mepc", 0x341);
   ("mcause", 0x342); ("mip", 0x344); ("satp", 0x180)].
Definition CSR_OP : list (string * Z) :=
  [("csrrw", 1); ("csrrs", 2); ("csrrc", 3); ("csrrwi", 5); ("csrrsi", 6); ("csrrci", 7)].
Definition SYSTEM_IMM12 : list (string * Z) :=
  [("ecall", 0x000); ("ebreak", 0x001); ("mret", 0x302); ("sret", 0x102)].
Definition FUNCT7_SFENCE_VMA := 0x9.
Definition FUNCT7_BASE := 0x0.
Definition FUNCT7_ALT := 0x20.
Definition FUNCT7_MULDIV := 0x1.

Definition R_TYPE : list (string * (Z * Z)) :=
  [("add", (FUNCT7_BASE, 0x0)); ("sub", (FUNCT7_ALT, 0x0)); ("sll", (FUNCT7_BASE, 0x1));
   ("slt", (FUNCT7_BASE, 0x2)); ("sltu", (FUNCT7_BASE, 0x3)); ("xor", (FUNCT7_BASE, 0x4));
   ("srl", (FUNCT7_BASE, 0x5)); ("sra", (FUNCT7_ALT, 0x5)); ("or", (FUNCT7_BASE, 0x6));
   ("and", (FUNCT7_BASE, 0x7));
   ("mul", (FUNCT7_MULDIV, 0x0)); ("mulh", (FUNCT7_MULDIV, 0x1));
   ("mulhsu", (FUNCT7_MULDIV, 0x2)); ("mulhu", (FUNCT7_MULDIV, 0x3));
   ("div", (FUNCT7_MULDIV, 0x4)); ("divu", (FUNCT7_MULDIV, 0x5));
   ("rem", (FUNCT7_MULDIV, 0x6)); ("remu", (FUNCT7_MULDIV, 0x7));
   ("andn", (FUNCT7_ALT, 0x7)); ("orn", (FUNCT7_ALT, 0x6)); ("xnor", (FUNCT7_ALT, 0x4));
   ("min", (0x5, 0x4)); ("minu", (0x5, 0x5));
   ("max", (0x5, 0x6)); ("maxu", (0x5, 0x7));
   ("rol", (0x30, 0x1)); ("ror", (0x30, 0x5));
   ("sh1add", (0x10, 0x2)); ("sh2add", (0x10, 0x4)); ("sh3add", (0x10, 0x6));
   ("bclr", (0x24, 0x1)); ("bext", (0x24, 0x5));
   ("binv", (0x34, 0x1)); ("bset", (0x14, 0x1));
   ("clmul", (0x5, 0x1)); ("clmulh", (0x5, 0x3));
   ("pack", (0x4, 0x4)); ("packh", (0x4, 0x7));
   ("xperm4", (0x14, 0x2)); ("xperm8", (0x14, 0x4));
   ("aes64esm", (0x1b, 0x0)); ("aes64es", (0x19, 0x0));
   ("aes64dsm", (0x1f, 0x0)); ("aes64ds", (0x1d, 0x0));
   ("aes64ks2", (0x3f, 0x0))].
Definition I_TYPE : list (string * Z) :=
  [("addi", 0x0); ("slli", 0x1); ("slti", 0x2); ("sltiu", 0x3); ("xori", 0x4);
   ("srli", 0x5); ("srai", 0x5); ("ori", 0x6); ("andi", 0x7)].
Definition I_TYPE_BEXT_SHAMT : list (string * (Z * Z)) :=
  [("bclri", (0x12, 0x1)); ("bexti", (0x12, 0x5)); ("binvi", (0x1a, 0x1));
   ("bseti", (0xa, 0x1)); ("rori", (0x18, 0x5))].
Definition I_TYPE_BEXT_FIXED : list (string * (Z * Z)) :=
  [("clz", (0x600, 0x1)); ("ctz", (0x601, 0x1)); ("cpop", (0x602, 0x1));
   ("sext.b", (0x604, 0x1)); ("sext.h", (0x605, 0x1)); ("orc.b", (0x287, 0x5));
   ("brev8", (0x687, 0x5));
   ("sha256sum0", (0x100, 0x1)); ("sha256sum1", (0x101, 0x1));
   ("sha256sig0", (0x102, 0x1)); ("sha256sig1", (0x103, 0x1));
   ("sha512sum0", (0x104, 0x1)); ("sha512sum1", (0x105, 0x1));
   ("sha512sig0", (0x106, 0x1)); ("sha512sig1", (0x107, 0x1));
   ("aes64im", (0x300, 0x1))].
Definition BRANCH : list (string * Z) :=
  [("beq", 0x0); ("bne", 0x1); ("blt", 0x4); ("bge", 0x5);
   ("ble", 0x2); ("bgt", 0x3); ("bltu", 0x6); ("bgeu", 0x7)].
Definition LOAD : list (string * Z) :=
  [("lb", 0x0); ("lh", 0x1); ("lw", 0x2); ("lbu", 0x4); ("lhu", 0x5);
   ("ld", 0x3); ("lwu", 0x6)].
Definition STORE : list (string * Z) := [("sb", 0x0); ("sh", 0x1); ("sw", 0x2); ("sd", 0x3)].
Definition R_TYPE_W : list (string * (Z * Z)) :=
  [("addw", (FUNCT7_BASE, 0x0)); ("subw", (FUNCT7_ALT, 0x0)); ("sllw", (FUNCT7_BASE, 0x1));
   ("srlw", (FUNCT7_BASE, 0x5)); ("sraw", (FUNCT7_ALT, 0x5)); ("mulw", (FUNCT7_MULDIV, 0x0));
   ("divw", (FUNCT7_MULDIV, 0x4)); ("divuw", (FUNCT7_MULDIV, 0x5));
   ("remw", (FUNCT7_MULDIV, 0x6)); ("remuw", (FUNCT7_MULDIV, 0x7));
   ("rolw", (0x30, 0x1)); ("rorw", (0x30, 0x5)); ("add.uw", (0x4, 0x0));
   ("sh1add.uw", (0x10, 0x2)); ("sh2add.uw", (0x10, 0x4));
   ("sh3add.uw", (0x10, 0x6)); ("packw", (0x4, 0x4))].
Definition I_TYPE_W : list (string * Z) :=
  [("addiw", 0x0); ("slliw", 0x1); ("srliw", 0x5); ("sraiw", 0x5)].
Definition I_TYPE_W_BEXT_FIXED : list (string * Z) :=
  [("clzw", 0x600); ("ctzw", 0x601); ("cpopw", 0x602)].

Definition MADD_OPCODES : list (string * Z) :=
  [("fmadd.s", OP_FMADD); ("fmsub.s", OP_FMSUB); ("fnmsub.s", OP_FNMSUB); ("fnmadd.s", OP_FNMADD)].
Definition FUNCT5_FADD := 0x0.
Definition FUNCT5_FSUB := 0x1.
Definition FUNCT5_FMUL := 0x2.
Definition FUNCT5_FDIV := 0x3.
Definition FUNCT5_FSQRT := 0xb.
Definition FUNCT5_FSGNJ := 0x4.
Definition FUNCT5_FMINMAX := 0x5.
Definition FUNCT5_FCMP := 0x14.
Definition FUNCT5_FCVT_W_S := 0x18.
Definition FUNCT5_FCVT_S_W := 0x1a.
Definition FUNCT5_FMV_X_W_FCLASS := 0x1c.
Definition FUNCT5_FMV_W_X := 0x1e.
Definition FP_ARITH : list (string * Z) :=
  [("fadd.s", FUNCT5_FADD); ("fsub.s", FUNCT5_FSUB); ("fmul.s", FUNCT5_FMUL); ("fdiv.s", FUNCT5_FDIV)].
Definition FP_SGNJ : list (string * Z) := [("fsgnj.s", 0x0); ("fsgnjn.s", 0x1); ("fsgnjx.s", 0x2)].
Definition FP_MINMAX : list (string * Z) := [("fmin.s", 0x0); ("fmax.s", 0x1)].
Definition FP_CMP : list (string * Z) := [("fle.s", 0x0); ("flt.s", 0x1); ("feq.s", 0x2)].
Definition RM_NAMES : list (string * Z) :=
  [("rne", 0x0); ("rtz", 0x1); ("rdn", 0x2); ("rup", 0x3); ("rmm", 0x4); ("dyn", 0x7)].

Definition parse_rm (args : list string) (idx : nat) : result Z :=
  match nth_error args idx with
  | Some a =>
      match strip a with
      | "" => dict_get RM_NAMES "dyn"
      | t =>
          let name := lower t in
          if dict_has RM_NAMES name then dict_get RM_NAMES name
          else Raise (ValueError ("unknown rounding mode " ++ repr name))
      end
  | None => dict_get RM_NAMES "dyn"
  end.

(** ** Definitions: encoders *)

(** The R-type field layout every register-register encoder shares. *)
Definition r_word (f7 rs2 rs1 f3 rd op : Z) : Z :=
  (f7 << 25) .| (rs2 << 20) .| (rs1 << 15) .| (f3 << 12) .| (rd << 7) .| op.

Definition r_type (mn : string) (rd rs1 rs2 : Z) : result Z :=
  '(f7, f3) ← dict_get R_TYPE mn;
  Ok ((f7 << 25) .| (rs2 << 20) .| (rs1 << 15) .| (f3 << 12) .| (rd << 7) .| OP_R).

Definition is_shift (mn : string) : bool :=
  String.eqb mn "slli" || String.eqb mn "srli" || String.eqb mn "srai".

Definition i_type (mn : string) (rd rs1 : Z) (immv : operand) (xlen : Z) : result Z :=
  f3 ← dict_get I_TYPE mn;
  imm12 ← (if is_shift mn then
             if xlen >=? 64 then
               shamt ← imm immv 6 false;
               let f6 := if String.eqb mn "srai" then 0x10 else 0x0 in
               Ok ((f6 << 6) .| shamt)
             else
               shamt ← imm immv 5 false;
               let f7 := if String.eqb mn "srai" then FUNCT7_ALT else FUNCT7_BASE in
               Ok ((f7 << 5) .| shamt)
           else imm immv 12 true);
  Ok ((u imm12 12 << 20) .| (rs1 << 15) .| (f3 << 12) .| (rd << 7) .| OP_I).

Definition r_type_w (mn : string) (rd rs1 rs2 : Z) : result Z :=
  '(f7, f3) ← dict_get R_TYPE_W mn;
  Ok ((f7 << 25) .| (rs2 << 20) .| (rs1 << 15) .| (f3 << 12) .| (rd << 7) .| OP_32).

Definition i_type_w (mn : string) (rd rs1 : Z) (immv : operand) : result Z :=
  f3 ← dict_get I_TYPE_W mn;
  imm12 ← (if String.eqb mn "slliw" || String.eqb mn "srliw" || String.eqb mn "sraiw" then
             shamt ← imm immv 5 false;
             let f7 := if String.eqb mn "sraiw" then FUNCT7_ALT else FUNCT7_BASE in
             Ok ((f7 << 5) .| shamt)
           else imm immv 12 true);
  Ok ((u imm12 12 << 20) .| (rs1 << 15) .| (f3 << 12) .| (rd << 7) .| OP_IMM32).

Definition load (mn : string) (rd : Z) (offs : operand) (rs1 : Z) : result Z :=
  imm12 ← imm offs 12 true;
  f3 ← dict_get LOAD mn;
  Ok ((u imm12 12 << 20) .| (rs1 << 15) .| (f3 << 12) .| (rd << 7) .| OP_LOAD).

Definition store (mn : string) (rs2 : Z) (offs : operand) (rs1 : Z) : result Z :=
  imm12 ← imm offs 12 true;
  let hi := (imm12 >> 5) .& 0x7F in
  let lo := imm12 .& 0x1F in
  f3 ← dict_get STORE mn;
  Ok ((hi << 25) .| (rs2 << 20) .| (rs1 << 15) .| (f3 << 12) .| (lo << 7) .| OP_STORE).

Definition jalr (rd : Z) (offs : operand) (rs1 : Z) : result Z :=
  imm12 ← imm offs 12 true;
  Ok ((u imm12 12 << 20) .| (rs1 << 15) .| (rd << 7) .| OP_JALR).

Definition u_type (opcode rd : Z) (imm20 : operand) : result Z :=
  v ← imm imm20 20 false;
  Ok ((v << 12) .| (rd << 7) .| opcode).

Definition branch (mn : string) (rs1 rs2 : Z) (offset_bytes : operand) : result Z :=
  f3 ← dict_get BRANCH mn;
  v ← imm offset_bytes 13 true;
  if truthy (v .& 1) then Raise (ValueError "branch offset must be even")
  else
    let b12 := (v >> 12) .& 1 in
    let b11 := (v >> 11) .& 1 in
    let b10_5 := (v >> 5) .& 0x3F in
    let b4_1 := (v >> 1) .& 0xF in
    Ok ((b12 << 31) .| (b10_5 << 25) .| (rs2 << 20) .| (rs1 << 15) .| (f3 << 12) .|
        (b11 << 7) .| (b4_1 << 8) .| OP_BRANCH).

Definition jal (rd : Z) (offset_bytes : operand) : result Z :=
  v ← imm offset_bytes 21 true;
  if truthy (v .& 1) then Raise (ValueError "jal offset must be even")
  else
    let b20 := (v >> 20) .& 1 in
    let b10_1 := (v >> 1) .& 0x3FF in
    let b11 := (v >> 11) .& 1 in
    let b19_12 := (v >> 12) .& 0xFF in
    Ok ((b20 << 31) .| (b19_12 << 12) .| (b11 << 20) .| (b10_1 << 21) .| (rd << 7) .| OP_JAL).

Definition i_type_raw (imm12 f3 rd rs1 opcode : Z) : Z :=
  (u imm12 12 << 20) .| (rs1 << 15) .| (f3 << 12) .| (rd << 7) .| opcode.

Definition i_type_bext_shamt (mn : string) (rd rs1 : Z) (immv : operand) (xlen : Z) : result Z :=
  '(f6, f3) ← dict_get I_TYPE_BEXT_SHAMT mn;
  shamt ← imm immv (if xlen >=? 64 then 6 else 5) false;
  let imm12 := (f6 << 6) .| shamt in
  Ok (i_type_raw imm12 f3 rd rs1 OP_I).

Definition i_type_bext_fixed (mn : string) (rd rs1 : Z) : result Z :=
  '(imm12, f3) ← dict_get I_TYPE_BEXT_FIXED mn;
  Ok (i_type_raw imm12 f3 rd rs1 OP_I).

Definition aes64ks1i (rd rs1 : Z) (rnum : operand) : result Z :=
  r ← imm rnum 4 false;
  let imm12 := (0x18 << 5) .| 0x10 .| r in
  Ok (i_type_raw imm12 0x1 rd rs1 OP_I).

Definition rev8 (rd rs1 xlen : Z) : Z :=
  let imm12 := if xlen =? 32 then 0x698 else 0x6B8 in
  i_type_raw imm12 0x5 rd rs1 OP_I.

Definition i_type_w_bext_fixed (mn : string) (rd rs1 : Z) : result Z :=
  imm12 ← dict_get I_TYPE_W_BEXT_FIXED mn;
  Ok (i_type_raw imm12 0x1 rd rs1 OP_IMM32).

Definition roriw (rd rs1 : Z) (immv : operand) : result Z :=
  shamt ← imm immv 5 false;
  let imm12 := (0x30 << 5) .| shamt in
  Ok (i_type_raw imm12 0x5 rd rs1 OP_IMM32).

Definition slli_uw (rd rs1 : Z) (immv : operand) : result Z :=
  shamt ← imm immv 6 false;
  let imm12 := (0x2 << 6) .| shamt in
  Ok (i_type_raw imm12 0x1 rd rs1 OP_IMM32).

Definition fp_r_type (funct5 rd rs1 rs2 rm : Z) : Z :=
  (funct5 << 27) .| (rs2 << 20) .| (rs1 << 15) .| (rm << 12) .| (rd << 7) .| OP_FP.

Definition fp_sqrt (rd rs1 rm : Z) : Z :=
  (FUNCT5_FSQRT << 27) .| (0 << 20) .| (rs1 << 15) .| (rm << 12) .| (rd << 7) .| OP_FP.

Definition fp_sgnj (mn : string) (rd rs1 rs2 : Z) : result Z :=
  f3 ← dict_get FP_SGNJ mn;
  Ok ((FUNCT5_FSGNJ << 27) .| (rs2 << 20) .| (rs1 << 15) .| (f3 << 12) .| (rd << 7) .| OP_FP).

Definition fp_minmax (mn : string) (rd rs1 rs2 : Z) : result Z :=
  f3 ← dict_get FP_MINMAX mn;
  Ok ((FUNCT5_FMINMAX << 27) .| (rs2 << 20) .| (rs1 << 15) .| (f3 << 12) .| (rd << 7) .| OP_FP).

Definition fp_cmp (mn : string) (rd rs1 rs2 : Z) : result Z :=
  f3 ← dict_get FP_CMP mn;
  Ok ((FUNCT5_FCMP << 27) .| (rs2 << 20) .| (rs1 << 15) .| (f3 << 12) .| (rd << 7) .| OP_FP).

Definition fp_cvt_w_s (unsigned : bool) (rd rs1 rm : Z) : Z :=
  let rs2 := if unsigned then 0x1 else 0x0 in
  (FUNCT5_FCVT_W_S << 27) .| (rs2 << 20) .| (rs1 << 15) .| (rm << 12) .| (rd << 7) .| OP_FP.

Definition fp_cvt_s_w (unsigned : bool) (rd rs1 rm : Z) : Z :=
  let rs2 := if unsigned then 0x1 else 0x0 in
  (FUNCT5_FCVT_S_W << 27) .| (rs2 << 20) .| (rs1 << 15) .| (rm << 12) .| (rd << 7) .| OP_FP.

Definition fp_mv_x_w (rd rs1 : Z) : Z :=
  (FUNCT5_FMV_X_W_FCLASS << 27) .| (rs1 << 15) .| (0x0 << 12) .| (rd << 7) .| OP_FP.

Definition fp_class (rd rs1 : Z) : Z :=
  (FUNCT5_FMV_X_W_FCLASS << 27) .| (rs1 << 15) .| (0x1 << 12) .| (rd << 7) .| OP_FP.

Definition fp_mv_w_x (rd rs1 : Z) : Z :=
  (FUNCT5_FMV_W_X << 27) .| (rs1 << 15) .| (rd << 7) .| OP_FP.

Definition flw (rd : Z) (offs : operand) (rs1 : Z) : result Z :=
  imm12 ← imm offs 12 true;
  Ok ((u imm12 12 << 20) .| (rs1 << 15) .| (0x2 << 12) .| (rd << 7) .| OP_FLW).

Definition fsw (rs2 : Z) (offs : operand) (rs1 : Z) : result Z :=
  imm12 ← imm offs 12 true;
  let hi := (imm12 >> 5) .& 0x7F in
  let lo := imm12 .& 0x1F in
  Ok ((hi << 25) .| (rs2 << 20) .| (rs1 << 15) .| (0x2 << 12) .| (lo << 7) .| OP_FSW).

Definition fp_r4_type (opcode rd rs1 rs2 rs3 rm : Z) : Z :=
  (rs3 << 27) .| (rs2 << 20) .| (rs1 << 15) .| (rm << 12) .| (rd << 7) .| opcode.

Definition csr_lookup (csr : operand) : result Z :=
  match csr with
  | OInt v => Ok v
  | OTok t => match dict_find CSR_ADDR t with Some a => Ok a | None => int_base0 t end
  end.

Definition csr_reg (mn : string) (rd : Z) (csr : operand) (rs1 : Z) : result Z :=
  csr_addr ← csr_lookup csr;
  f3 ← dict_get CSR_OP mn;
  Ok ((u csr_addr 12 << 20) .| (rs1 << 15) .| (f3 << 12) .| (rd << 7) .| OP_SYSTEM).

Definition csr_imm (mn : string) (rd : Z) (csr uimm : operand) : result Z :=
  csr_addr ← csr_lookup csr;
  uimm5 ← imm uimm 5 false;
  f3 ← dict_get CSR_OP mn;
  Ok ((u csr_addr 12 << 20) .| (uimm5 << 15) .| (f3 << 12) .| (rd << 7) .| OP_SYSTEM).

Definition system_noarg (mn : string) : result Z :=
  i ← dict_get SYSTEM_IMM12 mn;
  Ok ((i << 20) .| OP_SYSTEM).

Definition sfence_vma (rs1 rs2 : Z) : Z :=
  (FUNCT7_SFENCE_VMA << 25) .| (rs2 << 20) .| (rs1 << 15) .| OP_SYSTEM.

Definition fence : Z :=
  let pred_succ_fm := 0x0FF in
  (pred_succ_fm << 20) .| OP_MISC_MEM.
