(* ===== verification/AsmFacts.v ===== *)
(** * Encoding and decoding

    The assembler's encoders against the simulator's decoder: the fields a
    word carries are the ones the encoder was given, offsets and immediates
    come back sign-extended, and every mnemonic of the tables is implemented
    by the simulator. *)

From S2P Require Import Prelude Words PyStr Machine Mmu IntAlu Float32 Float32Facts Step StepFacts Asm.
#[local] Open Scope string_scope.
#[local] Open Scope Z_scope.

(** ** Lemmas: immediates *)

Definition imm_lo (bits : Z) (signed : bool) : Z := if signed then - 2 ^ (bits - 1) else 0.
Definition imm_hi (bits : Z) (signed : bool) : Z := if signed then 2 ^ (bits - 1) - 1 else 2 ^ bits - 1.

Lemma imm_int v bits signed : 0 < bits ->
  imm (OInt v) bits signed =
    if (imm_lo bits signed <=? v) && (v <=? imm_hi bits signed) then Ok (wrap bits v)
    else Raise (ValueError ("immediate " ++ fmt_d v ++ " out of range [" ++ fmt_d (imm_lo bits signed)
                  ++ "," ++ fmt_d (imm_hi bits signed) ++ "]")).
Proof.
  intros Hb. unfold imm. cbn [mbind result_bind].
  assert (Hlo : (if signed then - (1 << (bits - 1)) else 0) = imm_lo bits signed).
  { unfold imm_lo. by rewrite Z.shiftl_1_l. }
  assert (Hhi : (if signed then (1 << (bits - 1)) - 1 else (1 << bits) - 1) = imm_hi bits signed).
  { unfold imm_hi. by rewrite !Z.shiftl_1_l. }
  cbv zeta. rewrite Hlo, Hhi. destruct (_ && _); cbn [negb]; [|done].
  f_equal. by apply uXLEN_wrap; lia.
Qed.

Lemma imm_ok_inv tok bits signed r : 0 < bits ->
  imm tok bits signed = Ok r ->
  exists v, r = wrap bits v /\ imm_lo bits signed <= v <= imm_hi bits signed /\
    match tok with OInt i => v = i | OTok t => int_base0 t = Ok v end.
Proof.
  intros Hb H. destruct tok as [v|t].
  - rewrite imm_int in H by done. exists v.
    destruct (Z.leb_spec (imm_lo bits signed) v), (Z.leb_spec v (imm_hi bits signed));
      cbn [andb] in H; try discriminate. apply Ok_inj in H as <-. done.
  - unfold imm in H. apply bind_Ok in H as (v & Ht & H). fold (imm (OInt v) bits signed) in H.
    assert (H' : imm (OInt v) bits signed = Ok r) by exact H.
    rewrite imm_int in H' by done. exists v.
    destruct (Z.leb_spec (imm_lo bits signed) v), (Z.leb_spec v (imm_hi bits signed));
      cbn [andb] in H'; try discriminate. apply Ok_inj in H' as <-. done.
Qed.

(** A signed immediate comes back by sign extension. *)
Lemma sext_imm bits v : 0 < bits -> imm_lo bits true <= v <= imm_hi bits true ->
  sext (wrap bits v) bits = v.
Proof.
  intros Hb Hv. rewrite sext_swrap, swrap_wrap by done. apply swrap_small; [done|].
  unfold imm_lo, imm_hi in Hv. lia.
Qed.

(** ** Lemmas: the fields of a word *)

Section Fields.
Context (f7 rs2 rs1 f3 rd op : Z).
Context (H7 : 0 <= f7 < 128) (H2 : 0 <= rs2 < 32) (H1 : 0 <= rs1 < 32) (H3 : 0 <= f3 < 8)
        (Hd : 0 <= rd < 32) (Ho : 0 <= op < 128).

Lemma r_word_sum :
  r_word f7 rs2 rs1 f3 rd op
    = f7 * 2 ^ 25 + rs2 * 2 ^ 20 + rs1 * 2 ^ 15 + f3 * 2 ^ 12 + rd * 2 ^ 7 + op.
Proof.
  unfold r_word. rewrite <- !Z.lor_assoc.
  rewrite (lor_low_add 7) by lia. rewrite (lor_low_add 12) by lia.
  rewrite (lor_low_add 15) by lia. rewrite (lor_low_add 20) by lia.
  rewrite (lor_low_add 25) by lia. lia.
Qed.

Lemma r_word_range : 0 <= r_word f7 rs2 rs1 f3 rd op < 2 ^ 32.
Proof. rewrite r_word_sum. lia. Qed.

Ltac field_tac :=
  rewrite r_word_sum; fold_masks; rewrite ?shiftr_pow by done;
  change (2 ^ 25) with 33554432; change (2 ^ 20) with 1048576; change (2 ^ 15) with 32768;
  change (2 ^ 12) with 4096; change (2 ^ 7) with 128; change (2 ^ 5) with 32; change (2 ^ 3) with 8;
  Z.to_euclidean_division_equations; lia.

Lemma r_word_op : w_op (r_word f7 rs2 rs1 f3 rd op) = op.
Proof. unfold w_op. field_tac. Qed.
Lemma r_word_rd : w_rd (r_word f7 rs2 rs1 f3 rd op) = rd.
Proof. unfold w_rd. field_tac. Qed.
Lemma r_word_f3 : w_f3 (r_word f7 rs2 rs1 f3 rd op) = f3.
Proof. unfold w_f3. field_tac. Qed.
Lemma r_word_rs1 : w_rs1 (r_word f7 rs2 rs1 f3 rd op) = rs1.
Proof. unfold w_rs1. field_tac. Qed.
Lemma r_word_rs2 : w_rs2 (r_word f7 rs2 rs1 f3 rd op) = rs2.
Proof. unfold w_rs2. field_tac. Qed.
Lemma r_word_f7 : w_f7 (r_word f7 rs2 rs1 f3 rd op) = f7.
Proof. unfold w_f7. field_tac. Qed.
Lemma r_word_top12 : (r_word f7 rs2 rs1 f3 rd op >> 20) .& 0xFFF = f7 * 32 + rs2.
Proof.
  rewrite r_word_sum; fold_masks; rewrite ?shiftr_pow by done.
  change (2 ^ 25) with 33554432; change (2 ^ 20) with 1048576; change (2 ^ 15) with 32768;
  change (2 ^ 12) with 4096; change (2 ^ 7) with 128.
  Z.to_euclidean_division_equations; lia.
Qed.
Lemma r_word_imm_s : imm_s (r_word f7 rs2 rs1 f3 rd op) = sext (f7 * 32 + rd) 12.
Proof.
  unfold imm_s. fold (w_rd (r_word f7 rs2 rs1 f3 rd op)). rewrite r_word_rd. f_equal.
  rewrite lor_low_add by lia. rewrite r_word_sum, shiftr_pow by done.
  change (2 ^ 25) with 33554432; change (2 ^ 20) with 1048576; change (2 ^ 15) with 32768;
  change (2 ^ 12) with 4096; change (2 ^ 7) with 128; change (2 ^ 5) with 32.
  Z.to_euclidean_division_equations; lia.
Qed.
End Fields.

(** An I-type word is the R-type layout with the immediate split in two. *)
Lemma i_word_fields i rs1 f3 rd op :
  0 <= i < 4096 ->
  (i << 20) .| (rs1 << 15) .| (f3 << 12) .| (rd << 7) .| op
    = r_word (i `div` 32) (i `mod` 32) rs1 f3 rd op.
Proof.
  intros Hi. unfold r_word. do 4 f_equal.
  assert (0 <= i `mod` 32 < 2 ^ 5) by (apply Z.mod_pos_bound; lia).
  replace ((i `div` 32) << 25) with ((i `div` 32) << 5 << 20) by (by rewrite Z.shiftl_shiftl).
  rewrite <- Z.shiftl_lor. f_equal. rewrite lor_low_add by lia.
  change (2 ^ 5) with 32. pose proof (Z.div_mod i 32). lia.
Qed.

(** A U-type word: twenty upper bits. *)
Definition u_word (V rd op : Z) : Z := (V << 12) .| (rd << 7) .| op.

Section UFields.
Context (V rd op : Z) (HV : 0 <= V < 2 ^ 20) (Hd : 0 <= rd < 32) (Ho : 0 <= op < 128).

Lemma u_word_sum : u_word V rd op = V * 4096 + rd * 128 + op.
Proof.
  unfold u_word. rewrite <- !Z.lor_assoc.
  rewrite (lor_low_add 7) by lia. rewrite (lor_low_add 12) by lia. lia.
Qed.

Lemma u_word_op : w_op (u_word V rd op) = op.
Proof. unfold w_op. rewrite u_word_sum. fold_masks. Z.to_euclidean_division_equations; lia. Qed.
Lemma u_word_rd : w_rd (u_word V rd op) = rd.
Proof.
  unfold w_rd. rewrite u_word_sum. fold_masks. rewrite shiftr_pow by done.
  change (2 ^ 7) with 128. change (2 ^ 5) with 32. Z.to_euclidean_division_equations; lia.
Qed.
Lemma u_word_upper : u_word V rd op .& 0xFFFFF000 = V * 4096.
Proof.
  rewrite u_word_sum. replace (V * 4096 + rd * 128 + op) with (V * 2 ^ 12 + (rd * 128 + op)) by lia.
  rewrite <- lor_low_add by lia. rewrite Z.land_lor_distr_l.
  change 0xFFFFF000 with (Z.ones 20 << 12) at 1. rewrite <- Z.shiftl_land.
  rewrite land_mask, Z.mod_small by lia.
  replace ((rd * 128 + op) .& 0xFFFFF000) with 0.
  - rewrite Z.lor_0_r, shiftl_pow by lia. lia.
  - symmetry. apply Z.bits_inj'; intros i Hi. rewrite Z.land_spec, Z.testbit_0_l.
    destruct (Z.ltb_spec i 12).
    + change 0xFFFFF000 with (Z.ones 20 << 12). rewrite Z.shiftl_spec by done.
      rewrite (Z.testbit_neg_r (Z.ones 20)) by lia. apply andb_false_r.
    + rewrite (testbit_small _ 12) by lia. done.
Qed.
End UFields.

(** The scrambled offset fields, put together again. *)
Lemma bit_field v k w : 0 <= k -> 0 <= w ->
  (v >> k) .& Z.ones w = (v `div` 2 ^ k) `mod` 2 ^ w.
Proof. intros. by rewrite land_mask, shiftr_pow. Qed.

Lemma branch_word_fields b12 b10_5 b4_1 b11 rs2 rs1 f3 op :
  0 <= b12 < 2 -> 0 <= b10_5 < 64 -> 0 <= b4_1 < 16 -> 0 <= b11 < 2 ->
  (b12 << 31) .| (b10_5 << 25) .| (rs2 << 20) .| (rs1 << 15) .| (f3 << 12) .|
    (b11 << 7) .| (b4_1 << 8) .| op
  = r_word (b12 * 64 + b10_5) rs2 rs1 f3 (b4_1 * 2 + b11) op.
Proof.
  intros. unfold r_word.
  replace (b12 * 64 + b10_5) with ((b12 << 6) .| b10_5) by (rewrite lor_low_add by lia; done).
  replace (b4_1 * 2 + b11) with ((b4_1 << 1) .| b11) by (rewrite lor_low_add by lia; lia).
  rewrite !Z.shiftl_lor, !Z.shiftl_shiftl by lia. change (6 + 25) with 31. change (1 + 7) with 8.
  apply Z.bits_inj'; intros i _. rewrite !Z.lor_spec.
  repeat match goal with |- context [Z.testbit ?x ?i] => destruct (Z.testbit x i) end; reflexivity.
Qed.

Lemma off_b_fields f7 rs2 rs1 f3 rd op :
  0 <= f7 < 128 -> 0 <= rs2 < 32 -> 0 <= rs1 < 32 -> 0 <= f3 < 8 -> 0 <= rd < 32 -> 0 <= op < 128 ->
  off_b (r_word f7 rs2 rs1 f3 rd op)
    = sext ((f7 `div` 64) * 4096 + (rd `mod` 2) * 2048 + (f7 `mod` 64) * 32 + (rd `div` 2) * 2) 13.
Proof.
  intros. unfold off_b. cbv zeta. rewrite r_word_sum by done. f_equal.
  set (w := _ + op).
  change 1 with (Z.ones 1) at 1 2. change 0x3F with (Z.ones 6). change 0xF with (Z.ones 4).
  rewrite !bit_field by done.
  assert (E1 : (w `div` 2 ^ 31) `mod` 2 ^ 1 = f7 `div` 64).
  { subst w. change (2 ^ 25) with 33554432; change (2 ^ 20) with 1048576; change (2 ^ 15) with 32768;
    change (2 ^ 12) with 4096; change (2 ^ 7) with 128; change (2 ^ 31) with 2147483648;
    change (2 ^ 1) with 2. Z.to_euclidean_division_equations; lia. }
  assert (E2 : (w `div` 2 ^ 7) `mod` 2 ^ 1 = rd `mod` 2).
  { subst w. change (2 ^ 25) with 33554432; change (2 ^ 20) with 1048576; change (2 ^ 15) with 32768;
    change (2 ^ 12) with 4096; change (2 ^ 7) with 128; change (2 ^ 1) with 2.
    Z.to_euclidean_division_equations; lia. }
  assert (E3 : (w `div` 2 ^ 25) `mod` 2 ^ 6 = f7 `mod` 64).
  { subst w. change (2 ^ 25) with 33554432; change (2 ^ 20) with 1048576; change (2 ^ 15) with 32768;
    change (2 ^ 12) with 4096; change (2 ^ 7) with 128; change (2 ^ 6) with 64.
    Z.to_euclidean_division_equations; lia. }
  assert (E4 : (w `div` 2 ^ 8) `mod` 2 ^ 4 = rd `div` 2).
  { subst w. change (2 ^ 25) with 33554432; change (2 ^ 20) with 1048576; change (2 ^ 15) with 32768;
    change (2 ^ 12) with 4096; change (2 ^ 7) with 128; change (2 ^ 8) with 256; change (2 ^ 4) with 16.
    Z.to_euclidean_division_equations; lia. }
  rewrite E1, E2, E3, E4. clearbody w. clear E1 E2 E3 E4.
  assert (0 <= f7 `div` 64 < 2 /\ 0 <= rd `mod` 2 < 2 /\ 0 <= f7 `mod` 64 < 64 /\ 0 <= rd `div` 2 < 16)
    by (Z.to_euclidean_division_equations; lia).
  rewrite <- !Z.lor_assoc. rewrite (lor_low_add 5) by (rewrite ?shiftl_pow; lia).
  rewrite (lor_low_add 11) by (rewrite ?shiftl_pow; lia).
  rewrite (lor_low_add 12) by (rewrite ?shiftl_pow; lia).
  rewrite shiftl_pow by done. lia.
Qed.

Lemma jal_word_fields b20 b10_1 b11 b19_12 rd op :
  0 <= b20 < 2 -> 0 <= b10_1 < 1024 -> 0 <= b11 < 2 -> 0 <= b19_12 < 256 ->
  (b20 << 31) .| (b19_12 << 12) .| (b11 << 20) .| (b10_1 << 21) .| (rd << 7) .| op
  = u_word (b20 * 2 ^ 19 + b10_1 * 2 ^ 9 + b11 * 2 ^ 8 + b19_12) rd op.
Proof.
  intros. unfold u_word.
  replace (b20 * 2 ^ 19 + b10_1 * 2 ^ 9 + b11 * 2 ^ 8 + b19_12)
    with ((b20 << 19) .| (b10_1 << 9) .| (b11 << 8) .| b19_12).
  - rewrite !Z.shiftl_lor, !Z.shiftl_shiftl by lia.
    change (19 + 12) with 31. change (9 + 12) with 21. change (8 + 12) with 20.
    apply Z.bits_inj'; intros i _. rewrite !Z.lor_spec.
    repeat match goal with |- context [Z.testbit ?x ?i] => destruct (Z.testbit x i) end; reflexivity.
  - rewrite <- !Z.lor_assoc. rewrite (lor_low_add 8) by lia. rewrite (lor_low_add 9) by lia.
    rewrite (lor_low_add 19) by lia. lia.
Qed.

Lemma off_j_fields b20 b10_1 b11 b19_12 rd op :
  0 <= b20 < 2 -> 0 <= b10_1 < 1024 -> 0 <= b11 < 2 -> 0 <= b19_12 < 256 ->
  0 <= rd < 32 -> 0 <= op < 128 ->
  off_j (u_word (b20 * 2 ^ 19 + b10_1 * 2 ^ 9 + b11 * 2 ^ 8 + b19_12) rd op)
    = sext (b20 * 2 ^ 20 + b19_12 * 2 ^ 12 + b11 * 2 ^ 11 + b10_1 * 2) 21.
Proof.
  intros. unfold off_j. cbv zeta. rewrite u_word_sum by lia. f_equal.
  set (w := _ + op).
  change 1 with (Z.ones 1) at 1 2. change 0xFF with (Z.ones 8). change 0x3FF with (Z.ones 10).
  rewrite !bit_field by done.
  assert (E1 : (w `div` 2 ^ 31) `mod` 2 ^ 1 = b20).
  { subst w. change (2 ^ 31) with 2147483648; change (2 ^ 1) with 2; change (2 ^ 19) with 524288;
    change (2 ^ 9) with 512; change (2 ^ 8) with 256. Z.to_euclidean_division_equations; lia. }
  assert (E2 : (w `div` 2 ^ 12) `mod` 2 ^ 8 = b19_12).
  { subst w. change (2 ^ 12) with 4096; change (2 ^ 19) with 524288;
    change (2 ^ 9) with 512; change (2 ^ 8) with 256. Z.to_euclidean_division_equations; lia. }
  assert (E3 : (w `div` 2 ^ 20) `mod` 2 ^ 1 = b11).
  { subst w. change (2 ^ 20) with 1048576; change (2 ^ 1) with 2; change (2 ^ 19) with 524288;
    change (2 ^ 9) with 512; change (2 ^ 8) with 256. Z.to_euclidean_division_equations; lia. }
  assert (E4 : (w `div` 2 ^ 21) `mod` 2 ^ 10 = b10_1).
  { subst w. change (2 ^ 21) with 2097152; change (2 ^ 10) with 1024; change (2 ^ 19) with 524288;
    change (2 ^ 9) with 512; change (2 ^ 8) with 256. Z.to_euclidean_division_equations; lia. }
  rewrite E1, E2, E3, E4. clearbody w. clear E1 E2 E3 E4.
  rewrite <- !Z.lor_assoc. rewrite (lor_low_add 11) by (rewrite ?shiftl_pow; lia).
  rewrite (lor_low_add 12) by (rewrite ?shiftl_pow; lia).
  rewrite (lor_low_add 20) by (rewrite ?shiftl_pow; lia).
  rewrite shiftl_pow by done. lia.
Qed.

(** The bits of an even offset, put back together. *)
Lemma branch_bits v : 0 <= v < 2 ^ 13 -> v .& 1 = 0 ->
  ((v >> 12) .& 1) * 4096 + ((v >> 11) .& 1) * 2048 + ((v >> 5) .& 0x3F) * 32
    + ((v >> 1) .& 0xF) * 2 = v.
Proof.
  intros Hv He. revert He. fold_masks. rewrite !shiftr_pow by done.
  change (2 ^ 1) with 2. change (2 ^ 12) with 4096. change (2 ^ 11) with 2048.
  change (2 ^ 5) with 32. change (2 ^ 6) with 64. change (2 ^ 4) with 16.
  intros He. Z.to_euclidean_division_equations; lia.
Qed.

Lemma jal_bits v : 0 <= v < 2 ^ 21 -> v .& 1 = 0 ->
  ((v >> 20) .& 1) * 2 ^ 20 + ((v >> 12) .& 0xFF) * 2 ^ 12 + ((v >> 11) .& 1) * 2 ^ 11
    + ((v >> 1) .& 0x3FF) * 2 = v.
Proof.
  intros Hv He. revert He. fold_masks. rewrite !shiftr_pow by done.
  change (2 ^ 1) with 2. change (2 ^ 20) with 1048576. change (2 ^ 12) with 4096.
  change (2 ^ 11) with 2048. change (2 ^ 8) with 256. change (2 ^ 10) with 1024.
  intros He. Z.to_euclidean_division_equations; lia.
Qed.

(** ** Assembled instructions, executed *)

Lemma op_nonzero w : w_op w <> 0 -> (w =? 0) = false.
Proof. intros H. apply Z.eqb_neq. intros ->. done. Qed.

Ltac by_fields :=
  rewrite ?r_word_op, ?r_word_rd, ?r_word_f3, ?r_word_rs1, ?r_word_rs2, ?r_word_f7,
    ?u_word_op, ?u_word_rd by (lia || done).

(** [step] on a word whose major opcode is known. *)
Ltac step_op Hop :=
  unfold step; cbv zeta; rewrite op_nonzero by (rewrite Hop; done); rewrite Hop;
  cbn [Z.eqb Pos.eqb OP_R OP_32 OP_I OP_IMM32 OP_LOAD OP_STORE OP_BRANCH OP_JAL OP_JALR OP_LUI
       OP_AUIPC OP_SYSTEM].

Lemma table_range {A} (d : list (string * A)) (P : A -> bool) k v :
  forallb (fun kv => P (snd kv)) d = true -> dict_get d k = Ok v -> P v = true.
Proof.
  intros Hf Hg. unfold dict_get in Hg. destruct (dict_find d k) as [v'|] eqn:E; [|done].
  apply Ok_inj in Hg as <-. induction d as [|[k' v''] d IH]; cbn in E, Hf; [done|].
  apply andb_true_iff in Hf as [H1 H2]. destruct (String.eqb k k'); [congruence|auto].
Qed.

Lemma branch_decodes mn rs1 rs2 tok w :
  0 <= rs1 < 32 -> 0 <= rs2 < 32 -> branch mn rs1 rs2 tok = Ok w ->
  exists f3 off,
    dict_get BRANCH mn = Ok f3 /\ 0 <= f3 < 8 /\ imm tok 13 true = Ok (wrap 13 off) /\
    - 2 ^ 12 <= off < 2 ^ 12 /\ Z.even off = true /\
    w_op w = OP_BRANCH /\ w_rs1 w = rs1 /\ w_rs2 w = rs2 /\ w_f3 w = f3 /\ off_b w = off.
Proof.
  intros H1 H2 H. unfold branch in H.
  apply bind_Ok in H as (f3 & Hf & H). apply bind_Ok in H as (v & Hv & H).
  assert (Hf3 : 0 <= f3 < 8).
  { apply (table_range BRANCH (fun f => (0 <=? f) && (f <? 8)) mn f3 eq_refl) in Hf. lia. }
  pose proof (imm_ok_inv tok 13 true v ltac:(done) Hv) as (off & -> & Hr & _).
  pose proof (wrap_range 13 off ltac:(done)) as Hw.
  assert (He : wrap 13 off .& 1 = 0).
  { destruct (truthy (wrap 13 off .& 1)) eqn:E; [done|]. by apply negb_false_iff, Z.eqb_eq in E. }
  destruct (truthy (wrap 13 off .& 1)); [done|]. apply Ok_inj in H as <-.
  set (v := wrap 13 off) in *.
  assert (Hb : forall k w, 0 <= k -> 0 <= w -> 0 <= (v >> k) .& Z.ones w < 2 ^ w).
  { intros. apply field_range. done. }
  pose proof (Hb 12 1 ltac:(done) ltac:(done)) as B1. pose proof (Hb 11 1 ltac:(done) ltac:(done)) as B2.
  pose proof (Hb 5 6 ltac:(done) ltac:(done)) as B3. pose proof (Hb 1 4 ltac:(done) ltac:(done)) as B4.
  change (Z.ones 1) with 1 in *. change (Z.ones 6) with 0x3F in *. change (Z.ones 4) with 0xF in *.
  change (2 ^ 1) with 2 in *. change (2 ^ 6) with 64 in *. change (2 ^ 4) with 16 in *.
  rewrite branch_word_fields by done.
  exists f3, off. split; [done|split; [done|split; [done|split] ] ].
  { unfold imm_lo, imm_hi in Hr. lia. }
  assert (Heven : Z.even off = true).
  { rewrite <- Z.negb_odd. rewrite land_1_b2z in He. unfold v in He.
    rewrite wrap_testbit in He by done. change (0 <? 13) with true in He.
    rewrite ?andb_true_r, ?andb_true_l, Z.bit0_odd in He. by destruct (Z.odd off). }
  split; [done|].
  assert (0 <= (v >> 12 .& 1) * 64 + (v >> 5 .& 63) < 128) by lia.
  assert (0 <= (v >> 1 .& 15) * 2 + (v >> 11 .& 1) < 32) by lia.
  split_and!; by_fields; try done.
  rewrite off_b_fields by (done || lia).
  rewrite (Z.div_add_l _ 64), (Z.div_small _ 64), Z.add_0_r by lia.
  rewrite (Z.add_comm _ (v >> 5 .& 63)), Z.mod_add, (Z.mod_small _ 64) by lia.
  rewrite (Z.add_comm _ (v >> 11 .& 1)), Z.mod_add, (Z.mod_small _ 2) by lia.
  rewrite Z.div_add, (Z.div_small _ 2), Z.add_0_l by lia.
  rewrite branch_bits by done. apply sext_imm; done.
Qed.

(** ** Mnemonics and their meaning *)

(** What the register-register mnemonics compute on two registers holding
    [a] and [b], modulo 2^XLEN (the AES and crossbar-permutation
    instructions are covered by their own definitions). *)
Definition reg_meaning (mn : string) (xl a b : Z) : option Z :=
  let sh := b `mod` xl in
  let sg := swrap xl in
  dict_find
    [("add", a + b); ("sub", a - b); ("xor", Z.lxor a b); ("or", Z.lor a b); ("and", Z.land a b);
     ("sll", a * 2 ^ sh); ("srl", a `div` 2 ^ sh); ("sra", sg a `div` 2 ^ sh);
     ("slt", Z.b2z (sg a <? sg b)); ("sltu", Z.b2z (a <? b));
     ("mul", a * b); ("mulh", (sg a * sg b) `div` 2 ^ xl); ("mulhsu", (sg a * b) `div` 2 ^ xl);
     ("mulhu", (a * b) `div` 2 ^ xl);
     ("div", if b =? 0 then -1 else Z.quot (sg a) (sg b)); ("divu", if b =? 0 then -1 else a `div` b);
     ("rem", if b =? 0 then a else Z.rem (sg a) (sg b)); ("remu", if b =? 0 then a else a `mod` b);
     ("andn", Z.ldiff a b); ("orn", Z.lor a (Z.lnot b)); ("xnor", Z.lnot (Z.lxor a b));
     ("min", if sg a <? sg b then a else b); ("max", if sg b <? sg a then a else b);
     ("minu", Z.min a b); ("maxu", Z.max a b);
     ("rol", wrap xl (a * 2 ^ sh) + a `div` 2 ^ (xl - sh));
     ("ror", a `div` 2 ^ sh + wrap xl (a * 2 ^ (xl - sh)));
     ("sh1add", 2 * a + b); ("sh2add", 4 * a + b); ("sh3add", 8 * a + b);
     ("bclr", Z.clearbit a sh); ("bset", Z.setbit a sh); ("binv", Z.lxor a (2 ^ sh));
     ("bext", Z.b2z (Z.testbit a sh));
     ("clmul", clprod xl a b); ("clmulh", clprod xl a b `div` 2 ^ xl);
     ("pack", (b `mod` 2 ^ (xl `div` 2)) * 2 ^ (xl `div` 2) + a `mod` 2 ^ (xl `div` 2));
     ("packh", (b `mod` 256) * 256 + a `mod` 256)] mn.

(** Writing a register only depends on the value modulo 2^XLEN. *)
Lemma retire_ext s rd v v' : 0 <= xlen s -> wrap (xlen s) v = wrap (xlen s) v' ->
  retire s rd v = retire s rd v'.
Proof.
  intros Hx Hw. unfold retire, wr, uxlen. by rewrite !uXLEN_wrap, Hw by done.
Qed.

Section RegMeaning.
Context (xl a b : Z) (Hxl : xl = 32 \/ xl = 64) (Ha : 0 <= a < 2 ^ xl) (Hb : 0 <= b < 2 ^ xl).

Lemma xl_pos : 0 < xl.
Proof. lia. Qed.

Lemma shamt_mod : b .& (xl - 1) = b `mod` xl.
Proof.
  destruct Hxl as [H|H]; rewrite H.
  - change (32 - 1) with (Z.ones 5). by rewrite land_mask.
  - change (64 - 1) with (Z.ones 6). by rewrite land_mask.
Qed.

Lemma shamt_range : 0 <= b `mod` xl < xl.
Proof. apply Z.mod_pos_bound, xl_pos. Qed.

Lemma ux_a : uXLEN a xl = a.
Proof. pose proof xl_pos. rewrite uXLEN_wrap by lia. by apply wrap_small. Qed.
Lemma ux_b : uXLEN b xl = b.
Proof. pose proof xl_pos. rewrite uXLEN_wrap by lia. by apply wrap_small. Qed.
Lemma wrap_ux v : wrap xl (uXLEN v xl) = wrap xl v.
Proof. pose proof xl_pos. rewrite uXLEN_wrap by lia. apply wrap_wrap. lia. Qed.

Lemma rol_sum sh : 0 <= sh < xl ->
  rol xl a sh = a * 2 ^ sh + a `div` 2 ^ (xl - sh).
Proof.
  intros Hs. unfold rol. rewrite ux_a. destruct (Z.eqb_spec sh 0) as [->|Hn]; cbn [truthy].
  - unfold truthy. cbn. rewrite Z.sub_0_r, Z.div_small by done. lia.
  - unfold truthy. rewrite (proj2 (Z.eqb_neq sh 0) Hn). cbn [negb].
    rewrite shiftr_pow by lia. apply lor_low_add; [lia|].
    split; [apply Z.div_pos; [lia|apply pow2_pos; lia]|].
    apply Z.div_lt_upper_bound; [apply pow2_pos; lia|].
    rewrite <- Z.pow_add_r by lia. replace (xl - sh + sh) with xl by lia. lia.
Qed.

Lemma ror_sum sh : 0 <= sh < xl ->
  ror xl a sh = a `div` 2 ^ sh + (if sh =? 0 then 0 else a * 2 ^ (xl - sh)).
Proof.
  intros Hs. unfold ror. rewrite ux_a. destruct (Z.eqb_spec sh 0) as [->|Hn].
  - unfold truthy. cbn. rewrite Z.div_1_r. lia.
  - unfold truthy. rewrite (proj2 (Z.eqb_neq sh 0) Hn). cbn [negb].
    rewrite shiftr_pow by lia. rewrite Z.lor_comm, lor_low_add; [lia|lia|].
    split; [apply Z.div_pos; [lia|apply pow2_pos; lia]|].
    apply Z.div_lt_upper_bound; [apply pow2_pos; lia|].
    rewrite <- Z.pow_add_r by lia. replace (sh + (xl - sh)) with xl by lia. lia.
Qed.

Lemma wrap_shift_out : wrap xl (a * 2 ^ xl) = 0.
Proof. unfold wrap. apply Z_mod_mult. Qed.
End RegMeaning.

(** Case analysis on a table lookup, a case per entry. *)
Ltac table_cases H :=
  repeat match type of H with
  | (if String.eqb ?k ?c then _ else _) = _ =>
      let E := fresh "E" in
      destruct (String.eqb k c) eqn:E; [apply String.eqb_eq in E; subst k|clear E]
  end; try discriminate H.

Ltac meaning H :=
  unfold reg_meaning in H; cbn [dict_find String.eqb Ascii.eqb Bool.eqb] in H;
  first [discriminate H|injection H as <-].

Section RegExec.
Context (xl a b : Z) (Hxl : xl = 32 \/ xl = 64) (Ha : 0 <= a < 2 ^ xl) (Hb : 0 <= b < 2 ^ xl).

Lemma exec_M_div : wrap xl (exec_M xl 4 a b) = wrap xl (if b =? 0 then -1 else Z.quot (swrap xl a) (swrap xl b)).
Proof.
  destruct (Z.eqb_spec b 0) as [->|Hn].
  - unfold exec_M; cbn [Z.eqb Pos.eqb]. by apply wrap_ux.
  - rewrite exec_div_quot by (done || lia). apply wrap_wrap; lia.
Qed.

Lemma exec_M_rem : wrap xl (exec_M xl 6 a b) = wrap xl (if b =? 0 then a else Z.rem (swrap xl a) (swrap xl b)).
Proof.
  destruct (Z.eqb_spec b 0) as [->|Hn]; [done|].
  rewrite exec_rem_rem by (done || lia). apply wrap_wrap; lia.
Qed.

(** The multiply/divide family. *)
Lemma exec_M_meaning mn f3 m :
  dict_find R_TYPE mn = Some (FUNCT7_MULDIV, f3) -> reg_meaning mn xl a b = Some m ->
  wrap xl (exec_M xl f3 a b) = wrap xl m.
Proof.
  intros Hf Hm. unfold R_TYPE in Hf. cbn [dict_find] in Hf.
  table_cases Hf; injection Hf as <-; meaning Hm; try apply exec_M_div; try apply exec_M_rem;
    unfold exec_M; cbn [Z.eqb Pos.eqb];
    rewrite ?(ux_a xl a), ?(ux_a xl b), ?sXLEN_swrap by (done || lia);
    rewrite ?wrap_ux by done; rewrite ?shiftr_pow by lia; try done.
  destruct (b =? 0); [by apply wrap_ux|done].
Qed.

(** Every other row of the table. *)
Lemma exec_R_meaning mn f7 f3 m :
  dict_find R_TYPE mn = Some (f7, f3) -> reg_meaning mn xl a b = Some m ->
  exists v, exec_R xl f7 f3 a b = Ok v /\ wrap xl v = wrap xl m.
Proof.
  intros Hf Hm. pose proof (shamt_range xl b Hxl) as Hs.
  destruct (Z.eq_dec f7 FUNCT7_MULDIV) as [->|Hn].
  { exists (exec_M xl f3 a b). split; [done|]. by apply (exec_M_meaning mn). }
  unfold R_TYPE in Hf. cbn [dict_find] in Hf.
  table_cases Hf; injection Hf as <- <-; try (by destruct Hn); meaning Hm; clear Hn;
    unfold exec_R; cbn [Z.eqb Pos.eqb andb FUNCT7_BASE FUNCT7_ALT]; eexists; (split; [reflexivity|]);
    rewrite ?(ux_a xl a), ?(ux_a xl b), ?sXLEN_swrap, ?(shamt_mod xl b Hxl) by (done || lia);
    rewrite ?wrap_ux by done; rewrite ?(shiftr_pow (b `mod` xl)), ?(shiftl_pow (b `mod` xl) a), ?(shiftl_pow 1),
      ?(shiftl_pow 2), ?(shiftl_pow 3) by lia; try done.
  - by rewrite Z.ldiff_land.
  - destruct (Z.ltb_spec a b); f_equal; lia.
  - rewrite Z.gtb_ltb. done.
  - rewrite Z.gtb_ltb. destruct (Z.ltb_spec b a); f_equal; lia.
  - rewrite rol_sum by done. by rewrite wrap_add_l by lia.
  - rewrite ror_sum by done. rewrite !(Z.add_comm (a `div` _)), wrap_add_l by lia.
    destruct (Z.eqb_spec (b `mod` xl) 0) as [->|]; [|done].
    rewrite Z.sub_0_r, <- (wrap_add_l xl (a * 2 ^ xl)) by lia. by rewrite wrap_shift_out.
  - f_equal; lia.
  - f_equal; lia.
  - f_equal; lia.
  - by rewrite Z.shiftl_1_l, Z.clearbit_spec', Z.ldiff_land.
  - rewrite <- shiftr_pow, bit_b2z by lia. done.
  - by rewrite Z.shiftl_1_l.
  - rewrite clmul_clprod by lia. apply wrap_wrap; lia.
  - by rewrite clmulh_clprod by (done || lia).
  - unfold pack. rewrite wrap_ux by done. cbv zeta.
    assert (Hh : 0 < xl `div` 2) by (destruct Hxl as [-> | ->]; done).
    rewrite !shiftl_1_sub_1, !land_mask by lia. rewrite lor_low_add; [done|lia|].
    apply Z.mod_pos_bound, pow2_pos; lia.
  - unfold packh. change 0xFF with (Z.ones 8). rewrite !land_mask by done.
    rewrite lor_low_add; [done|done|]. by apply Z.mod_pos_bound.
Qed.
End RegExec.

(** The rows of the table whose meaning is not arithmetic on the two
    registers: the crossbar permutations and the AES rounds. *)
Definition permutation_rows : list string :=
  ["xperm4"; "xperm8"; "aes64esm"; "aes64es"; "aes64dsm"; "aes64ds"; "aes64ks2"].

Lemma reg_meaning_total mn f xl a b :
  dict_find R_TYPE mn = Some f -> mn ∉ permutation_rows -> exists m, reg_meaning mn xl a b = Some m.
Proof.
  intros Hf Hp. unfold R_TYPE in Hf. cbn [dict_find] in Hf.
  table_cases Hf; first
    [exfalso; apply Hp; apply list_elem_of_In; cbn [In permutation_rows]; tauto
    |unfold reg_meaning; cbn [dict_find String.eqb Ascii.eqb Bool.eqb]; eexists; reflexivity].
Qed.

(** [C20] Each mnemonic of the assembler's register-register table (major
    opcode OP: the base and multiply/divide instructions, Zba, Zbb, Zbc, Zbs
    and the packing ones, but for the crossbar permutations and the AES
    rounds) computes what it names: the encoder accepts it for any three
    registers, and the word, decoded and executed by [step] in any
    well-formed machine, leaves in [rd] the mathematical result of the
    operation on the two source registers modulo 2^XLEN and advances the
    pc. *)
Theorem reg_mnemonics_mean s mn rd rs1 rs2 :
  wf s -> 0 <= rd < 32 -> 0 <= rs1 < 32 -> 0 <= rs2 < 32 ->
  dict_has R_TYPE mn = true -> mn ∉ permutation_rows ->
  exists w m, r_type mn rd rs1 rs2 = Ok w /\
    reg_meaning mn (xlen s) (Machine.reg s rs1) (Machine.reg s rs2) = Some m /\
    step s w = Ok (retire s rd m).
Proof.
  intros Hwf Hrd H1 H2 Hk Hp. pose proof (wf_xlen s Hwf) as Hxl.
  unfold dict_has in Hk. destruct (dict_find R_TYPE mn) as [ [f7 f3]|] eqn:E; [|done]. clear Hk.
  destruct (reg_meaning_total mn (f7, f3) (xlen s) (Machine.reg s rs1) (Machine.reg s rs2) E Hp) as [m Hm].
  assert (Hf : dict_get R_TYPE mn = Ok (f7, f3)) by (unfold dict_get; by rewrite E).
  pose proof (table_range R_TYPE (fun f => (0 <=? fst f) && (fst f <? 128) && (0 <=? snd f) && (snd f <? 8))
    mn (f7, f3) eq_refl Hf) as Hr. cbn [fst snd] in Hr.
  exists (r_word f7 rs2 rs1 f3 rd OP_R), m. split; [unfold r_type; by rewrite Hf|]. split; [exact Hm|].
  destruct (exec_R_meaning (xlen s) (Machine.reg s rs1) (Machine.reg s rs2) Hxl
    (wf_reg s rs1 Hwf) (wf_reg s rs2 Hwf) mn f7 f3 m E Hm) as (v & Hv & Hvm).
  step_op (r_word_op f7 rs2 rs1 f3 rd OP_R ltac:(lia) H2 H1 ltac:(lia) Hrd ltac:(done)).
  by_fields. rewrite Hv. cbn. f_equal. by apply retire_ext; [lia|].
Qed.

Lemma reg_mnemonics_mean_witness :
  exists w m, r_type "add" 5 5 5 = Ok w /\
    reg_meaning "add" 64 (Machine.reg (wr (init 64 64) 5 7) 5) (Machine.reg (wr (init 64 64) 5 7) 5) = Some m /\
    step (wr (init 64 64) 5 7) w = Ok (retire (wr (init 64 64) 5 7) 5 m).
Proof.
  apply (reg_mnemonics_mean (wr (init 64 64) 5 7) "add" 5 5 5); try done.
  - apply wf_wr; [apply wf_init|]; try done. by right.
  - apply (bool_decide_unpack ("add" ∉ permutation_rows)). vm_compute. exact I.
Defined.

(** ** Control flow *)

(** The conditions the branch mnemonics name ([ble] and [bgt] are this
    core's own signed extensions). *)
Definition branch_meaning (mn : string) (xl a b : Z) : option bool :=
  let sg := swrap xl in
  dict_find
    [("beq", a =? b); ("bne", negb (a =? b)); ("blt", sg a <? sg b); ("bge", sg b <=? sg a);
     ("ble", sg a <=? sg b); ("bgt", sg b <? sg a); ("bltu", a <? b); ("bgeu", b <=? a)] mn.

Lemma swrap_eqb xl a b : 0 < xl -> in_width xl a -> in_width xl b ->
  (swrap xl a =? swrap xl b) = (a =? b).
Proof.
  intros Hx Ha Hb. apply Bool.eq_iff_eq_true. rewrite !Z.eqb_eq.
  rewrite <- wrap_inj_swrap by done. by rewrite !wrap_small.
Qed.

Lemma branch_taken_meaning mn xl a b f3 c : 0 < xl -> in_width xl a -> in_width xl b ->
  dict_get BRANCH mn = Ok f3 -> branch_meaning mn xl a b = Some c ->
  branch_taken xl f3 a b = c.
Proof.
  intros Hx Ha Hb Hf Hc. unfold dict_get in Hf.
  destruct (dict_find BRANCH mn) as [f|] eqn:E; [|done]. apply Ok_inj in Hf as <-.
  unfold BRANCH in E. cbn [dict_find] in E.
  table_cases E; injection E as <-; unfold branch_meaning in Hc;
    cbn [dict_find String.eqb Ascii.eqb Bool.eqb] in Hc; injection Hc as <-;
    unfold branch_taken; cbn [Z.eqb Pos.eqb];
    rewrite ?sXLEN_swrap, ?uXLEN_wrap, ?swrap_eqb, ?(wrap_small xl a), ?(wrap_small xl b) by (done || lia);
    rewrite ?Z.gtb_ltb, ?Z.geb_leb; done.
Qed.

Lemma branch_meaning_total mn xl a b f3 :
  dict_get BRANCH mn = Ok f3 -> exists c, branch_meaning mn xl a b = Some c.
Proof.
  intros Hf. unfold dict_get in Hf. destruct (dict_find BRANCH mn) as [f|] eqn:E; [|done].
  unfold BRANCH in E. cbn [dict_find] in E. table_cases E; eexists; reflexivity.
Qed.

(** [C21] A branch mnemonic assembled with byte offset [off] jumps, on the
    condition it names, exactly [off] bytes from its own address (modulo
    2^XLEN), and falls through to pc + 4 otherwise: the scattered immediate
    bits survive encoding and decoding. *)
Theorem branch_reaches_target s mn rs1 rs2 off w :
  wf s -> 0 <= rs1 < 32 -> 0 <= rs2 < 32 -> branch mn rs1 rs2 (OInt off) = Ok w ->
  exists c, branch_meaning mn (xlen s) (Machine.reg s rs1) (Machine.reg s rs2) = Some c /\
    step s w = Ok (set_pc s (if c then wrap (xlen s) (pc s + off) else pc s + 4)).
Proof.
  intros Hwf H1 H2 Hw. pose proof (wf_width s Hwf) as Hx.
  destruct (branch_decodes mn rs1 rs2 (OInt off) w H1 H2 Hw)
    as (f3 & off' & Hf & H3 & Him & Hr & _ & Hop & E1 & E2 & E3 & E4).
  assert (off' = off) as ->.
  { pose proof (imm_ok_inv (OInt off) 13 true _ ltac:(done) Him) as (v & Hv & Hb & ->).
    rewrite <- (swrap_small 13 off') by (done || lia). unfold imm_lo, imm_hi in Hb.
    rewrite <- (swrap_small 13 off) by (done || lia). by apply wrap_inj_swrap. }
  destruct (branch_meaning_total mn (xlen s) (Machine.reg s rs1) (Machine.reg s rs2) f3 Hf) as [c Hc].
  exists c. split; [done|]. step_op Hop. unfold exec_branch. rewrite E1, E2, E3, E4.
  erewrite branch_taken_meaning by (done || by apply wf_reg).
  destruct c; [|done]. unfold uxlen. rewrite uXLEN_wrap by lia. done.
Qed.

Lemma branch_reaches_target_witness :
  exists c, branch_meaning "bne" 32 64 0 = Some c /\
    step (init 64 32) 0xFE011CE3 = Ok (set_pc (init 64 32) (if c then 2 ^ 32 - 8 else 4)).
Proof.
  apply (branch_reaches_target (init 64 32) "bne" 2 0 (-8)); try done.
  apply wf_init; [by left|done].
Defined.

(** The branch encoder refuses what the instruction cannot hold: an
    offset is encoded when it is an even number in [-4096, 4094], and every
    other offset is a [ValueError]. *)
Theorem branch_offset_range mn rs1 rs2 off f3 :
  dict_get BRANCH mn = Ok f3 ->
  (is_ok (branch mn rs1 rs2 (OInt off)) = true <-> -4096 <= off < 4096 /\ Z.even off = true) /\
  (is_ok (branch mn rs1 rs2 (OInt off)) = false ->
     exists e, branch mn rs1 rs2 (OInt off) = Raise (ValueError e)).
Proof.
  intros Hf. unfold branch. rewrite Hf. cbn [mbind result_bind]. rewrite imm_int by done.
  change (imm_lo 13 true) with (-4096). change (imm_hi 13 true) with 4095.
  destruct (Z.leb_spec (-4096) off), (Z.leb_spec off 4095); cbn [andb mbind result_bind];
    try (split; [split; [done|intros [? _]; lia]|intros _; eexists; reflexivity]).
  assert (He : truthy (wrap 13 off .& 1) = negb (Z.even off)).
  { rewrite land_1_b2z, truthy_b2z, wrap_testbit by done. change (0 <? 13) with true.
    by rewrite andb_true_l, Z.bit0_odd, Z.negb_even. }
  rewrite He. destruct (Z.even off); cbn [negb is_ok].
  - split; [split; [intros _; split; [lia|done]|done]|discriminate].
  - split; [split; [done|by intros [_ ?]]|intros _; eexists; reflexivity].
Qed.

Lemma branch_offset_range_witness :
  is_ok (branch "blt" 1 2 (OInt 4094)) = true <-> -4096 <= 4094 < 4096 /\ Z.even 4094 = true.
Proof. apply (branch_offset_range "blt" 1 2 4094 4). reflexivity. Defined.

Lemma jal_decodes rd off w : 0 <= rd < 32 -> jal rd (OInt off) = Ok w ->
  w_op w = OP_JAL /\ w_rd w = rd /\ off_j w = off.
Proof.
  intros Hrd H. unfold jal in H. apply bind_Ok in H as (v & Hv & H).
  pose proof (imm_ok_inv (OInt off) 21 true v ltac:(done) Hv) as (o & -> & Hr & ->).
  pose proof (wrap_range 21 off ltac:(done)) as Hw.
  assert (He : wrap 21 off .& 1 = 0).
  { destruct (truthy (wrap 21 off .& 1)) eqn:E; [done|]. by apply negb_false_iff, Z.eqb_eq in E. }
  destruct (truthy (wrap 21 off .& 1)); [done|]. apply Ok_inj in H as <-.
  set (v := wrap 21 off) in *.
  assert (Hb : forall k w, 0 <= k -> 0 <= w -> 0 <= (v >> k) .& Z.ones w < 2 ^ w).
  { intros. apply field_range. done. }
  pose proof (Hb 20 1 ltac:(done) ltac:(done)) as B1. pose proof (Hb 12 8 ltac:(done) ltac:(done)) as B2.
  pose proof (Hb 11 1 ltac:(done) ltac:(done)) as B3. pose proof (Hb 1 10 ltac:(done) ltac:(done)) as B4.
  change (Z.ones 1) with 1 in *. change (Z.ones 8) with 0xFF in *. change (Z.ones 10) with 0x3FF in *.
  rewrite jal_word_fields by done.
  assert (0 <= (v >> 20 .& 1) * 2 ^ 19 + (v >> 1 .& 1023) * 2 ^ 9 + (v >> 11 .& 1) * 2 ^ 8
            + (v >> 12 .& 255) < 2 ^ 20) by lia.
  split_and!; by_fields; try done.
  rewrite off_j_fields by done. rewrite jal_bits by done. by apply sext_imm.
Qed.

(** [jal] assembled with byte offset [off] links pc + 4 and continues
    exactly [off] bytes from its own address, modulo 2^XLEN. *)
Theorem jal_reaches_target s rd off w :
  wf s -> 0 <= rd < 32 -> jal rd (OInt off) = Ok w ->
  step s w = Ok (set_pc (wr s rd (pc s + 4)) (wrap (xlen s) (pc s + off))).
Proof.
  intros Hwf Hrd Hw. pose proof (wf_width s Hwf) as Hx.
  destruct (jal_decodes rd off w Hrd Hw) as (Hop & E1 & E2).
  step_op Hop. unfold exec_jal. rewrite E1, E2.
  assert (Hp : forall v, pc (wr s rd v) = pc s /\ xlen (wr s rd v) = xlen s).
  { intros v. unfold wr. by destruct (negb _). }
  destruct (Hp (pc s + 4)) as [Ep Ex]. unfold uxlen. by rewrite Ep, Ex, uXLEN_wrap by lia.
Qed.

Lemma jal_reaches_target_witness :
  step (init 64 32) 0xFF5FF0EF = Ok (set_pc (wr (init 64 32) 1 4) (2 ^ 32 - 12)).
Proof.
  apply (jal_reaches_target (init 64 32) 1 (-12)); try done. apply wf_init; [by left|done].
Defined.

(** ** Loads and stores *)

Lemma land_12 i : 0 <= i < 4096 -> i .& 0xFFF = i.
Proof. intros. change 0xFFF with (Z.ones 12). rewrite land_mask, Z.mod_small by lia. done. Qed.

Lemma u12 v : 0 <= v < 2 ^ 12 -> u v 12 = v.
Proof. intros. unfold u. change ((1 << 12) - 1) with 0xFFF. by apply land_12. Qed.

(** The fields of an I-type word. *)
Lemma imm_i_word off rs1 f3 rd op :
  0 <= rs1 < 32 -> 0 <= f3 < 8 -> 0 <= rd < 32 -> 0 <= op < 128 -> - 2 ^ 11 <= off < 2 ^ 11 ->
  let w := (u (wrap 12 off) 12 << 20) .| (rs1 << 15) .| (f3 << 12) .| (rd << 7) .| op in
  w_op w = op /\ w_rd w = rd /\ w_rs1 w = rs1 /\ w_f3 w = f3 /\ imm_i w = off.
Proof.
  intros H1 H3 Hd Ho Hoff. cbv zeta. pose proof (wrap_range 12 off ltac:(done)) as Hw.
  rewrite u12, i_word_fields by done.
  assert (0 <= wrap 12 off `div` 32 < 128 /\ 0 <= wrap 12 off `mod` 32 < 32)
    by (Z.to_euclidean_division_equations; lia).
  split_and!; by_fields; try done.
  unfold imm_i. rewrite r_word_top12 by (done || lia).
  rewrite <- (Z.mul_comm 32), <- Z.div_mod by done.
  apply sext_imm; [done|]. unfold imm_lo, imm_hi. change (12 - 1) with 11. lia.
Qed.

(** The fields of an S-type word. *)
Lemma imm_s_word off rs2 rs1 f3 op :
  0 <= rs2 < 32 -> 0 <= rs1 < 32 -> 0 <= f3 < 8 -> 0 <= op < 128 -> - 2 ^ 11 <= off < 2 ^ 11 ->
  let w := ((((wrap 12 off) >> 5) .& 0x7F) << 25) .| (rs2 << 20) .| (rs1 << 15) .| (f3 << 12)
             .| ((wrap 12 off .& 0x1F) << 7) .| op in
  w_op w = op /\ w_rs2 w = rs2 /\ w_rs1 w = rs1 /\ w_f3 w = f3 /\ imm_s w = off.
Proof.
  intros H2 H1 H3 Ho Hoff. cbv zeta. pose proof (wrap_range 12 off ltac:(done)) as Hw.
  set (v := wrap 12 off) in *.
  assert (Ehi : (v >> 5) .& 0x7F = v `div` 32).
  { change 0x7F with (Z.ones 7). rewrite land_mask, shiftr_pow by done. change (2 ^ 5) with 32.
    apply Z.mod_small. Z.to_euclidean_division_equations; lia. }
  assert (Elo : v .& 0x1F = v `mod` 32).
  { change 0x1F with (Z.ones 5). by rewrite land_mask. }
  rewrite Ehi, Elo. fold (r_word (v `div` 32) rs2 rs1 f3 (v `mod` 32) op).
  assert (0 <= v `div` 32 < 128 /\ 0 <= v `mod` 32 < 32) by (Z.to_euclidean_division_equations; lia).
  split_and!; by_fields; try done.
  rewrite r_word_imm_s by (done || lia). rewrite <- (Z.mul_comm 32), <- Z.div_mod by done.
  apply sext_imm; [done|]. unfold imm_lo, imm_hi. change (12 - 1) with 11. lia.
Qed.

Lemma imm12_int off v : imm (OInt off) 12 true = Ok v -> v = wrap 12 off /\ - 2 ^ 11 <= off < 2 ^ 11.
Proof.
  intros H. pose proof (imm_ok_inv (OInt off) 12 true v ltac:(done) H) as (o & -> & Hr & ->).
  split; [done|]. unfold imm_lo, imm_hi in Hr. change (12 - 1) with 11 in Hr. lia.
Qed.

(** The load and store mnemonics access the address they name: the
    executed word translates rs1 + off for the right kind of access and
    moves the width the mnemonic's funct3 selects. *)
Theorem memory_mnemonics_access s rd rs1 off w mn :
  0 <= rd < 32 -> 0 <= rs1 < 32 ->
  (load mn rd (OInt off) rs1 = Ok w -> exists f3, dict_get LOAD mn = Ok f3 /\
     step s w = with_addr s (Machine.reg s rs1 + off) Mmu.load (fun s addr =>
       res ← load_value s f3 addr; Ok (retire s rd res))) /\
  (store mn rd (OInt off) rs1 = Ok w -> exists f3, dict_get STORE mn = Ok f3 /\
     step s w = with_addr s (Machine.reg s rs1 + off) Mmu.store (fun s' addr =>
       s' ← store_value s' f3 addr (Machine.reg s rd); Ok (set_pc s' (pc s' + 4)))).
Proof.
  intros Hd H1. split; intros H.
  - unfold load in H. apply bind_Ok in H as (v & Hv & H). apply bind_Ok in H as (f3 & Hf & H).
    apply imm12_int in Hv as [-> Hr]. apply Ok_inj in H as <-. exists f3. split; [done|].
    apply (table_range LOAD (fun f => (0 <=? f) && (f <? 8)) mn f3 eq_refl) in Hf.
    destruct (imm_i_word off rs1 f3 rd OP_LOAD H1 ltac:(lia) Hd ltac:(done) Hr)
      as (Hop & E1 & E2 & E3 & E4).
    set (w := _ .| OP_LOAD) in *. clearbody w. step_op Hop. unfold exec_load. by rewrite E1, E2, E3, E4.
  - unfold store in H. apply bind_Ok in H as (v & Hv & H). apply bind_Ok in H as (f3 & Hf & H).
    apply imm12_int in Hv as [-> Hr]. apply Ok_inj in H as <-. exists f3. split; [done|].
    apply (table_range STORE (fun f => (0 <=? f) && (f <? 8)) mn f3 eq_refl) in Hf.
    destruct (imm_s_word off rd rs1 f3 OP_STORE Hd H1 ltac:(lia) ltac:(done) Hr)
      as (Hop & E1 & E2 & E3 & E4).
    set (w := _ .| OP_STORE) in *. clearbody w. step_op Hop. unfold exec_store. by rewrite E1, E2, E3, E4.
Qed.

Lemma memory_mnemonics_access_witness :
  exists f3, dict_get LOAD "lbu" = Ok f3 /\
    step (init 64 32) 0xFFC14283 = with_addr (init 64 32) (64 + -4) Mmu.load (fun s addr =>
       res ← load_value s f3 addr; Ok (retire s 5 res)).
Proof.
  apply (memory_mnemonics_access (init 64 32) 5 2 (-4) 0xFFC14283 "lbu"); [done|done|].
  vm_compute. reflexivity.
Defined.
