(* ===== verification/AsmText.v ===== *)
(** * The assembler's text level

    [assemble] and [write_mem] of [sim/tools/asm.py]: the label pass, the
    mnemonic dispatch (one definition per family of the [elif] chain, each
    taking what the rest of the chain does as its last argument) and the
    memory image. *)

From S2P Require Import Prelude Words PyStr Step Asm.
#[local] Open Scope string_scope.
#[local] Open Scope Z_scope.

(** ** Definitions: operands of a statement *)

(** [reg(args[i])] and [freg(args[i])]. *)
Definition arg_reg (args : list string) (i : nat) : result Z := a ← list_get args i; reg a.
Definition arg_freg (args : list string) (i : nat) : result Z := a ← list_get args i; freg a.
Definition arg_tok (args : list string) (i : nat) : result operand := a ← list_get args i; Ok (OTok a).

Definition prefix_char (c : ascii) (s : string) : option string :=
  match s with
  | String d s' => if Ascii.eqb c d then Some s' else None
  | "" => None
  end.

(** [re.match(r"(-?\w+)\((x\d+)\)", tok)]: the two groups. [\w+] and [\d+]
    are followed by a character outside their class, so the greedy match is
    the only one. *)
Definition match_mem (tok : string) : option (string * string) :=
  let '(sign, s) := match prefix_char "-" tok with Some s => ("-", s) | None => ("", tok) end in
  let '(w, s) := span is_word s in
  match w with
  | "" => None
  | _ =>
      s ← prefix_char "(" s; s ← prefix_char "x" s;
      let '(d, s) := span is_digit s in
      match d with
      | "" => None
      | _ => _ ← prefix_char ")" s; Some (sign ++ w, "x" ++ d)
      end
  end.

(** The [off(reg)] operand: [m.group] of a failed match raises. *)
Definition arg_mem (args : list string) (i : nat) : result (operand * Z) :=
  a ← list_get args i;
  match match_mem a with
  | None => Raise (AttributeError "'NoneType' object has no attribute 'group'")
  | Some (off, r) => rs1 ← reg r; Ok (OTok off, rs1)
  end.

(** ** Definitions: the label pass *)

(** [raw.split("#", 1)[0].strip()]. *)
Definition clean_line (raw : string) : string := strip (before "#" raw).
Definition ends_with_colon (line : string) : bool :=
  match last_char line with Some c => Ascii.eqb c ":" | None => false end.

Record layout := mkLayout {
  stmts : list (Z * string);
  labels : list (string * Z);
  here : Z
}.

(** One line of pass 1 ([labels] holds the latest binding first). *)
Definition scan_line (l : layout) (raw : string) : layout :=
  let line := clean_line raw in
  if String.eqb line "" then l
  else if ends_with_colon line then
    mkLayout (stmts l) ((strip (but_last line), here l) :: labels l) (here l)
  else mkLayout (stmts l ++ [(here l, line)]) (labels l) (here l + 4).

Definition scan (lines : list string) : layout :=
  fold_left scan_line lines (mkLayout [] [] 0).

Definition resolve (labels : list (string * Z)) (tok : string) (cur_addr : Z) : result operand :=
  let tok := strip tok in
  match dict_find labels tok with
  | Some a => Ok (OInt (a - cur_addr))
  | None => v ← int_base0 tok; Ok (OInt v)
  end.

(** ** Definitions: the mnemonic dispatch *)

Definition in_names (mn : string) (l : list string) : bool := existsb (String.eqb mn) l.

(** [nop] .. [slli.uw]: the integer computation mnemonics. *)
Definition asm_compute (xlen : Z) (mn : string) (args : list string) (rest : result Z) : result Z :=
  if String.eqb mn "nop" then i_type "addi" 0 0 (OInt 0) 32
  else if dict_has R_TYPE mn then
    rd ← arg_reg args 0; rs1 ← arg_reg args 1; rs2 ← arg_reg args 2; r_type mn rd rs1 rs2
  else if dict_has I_TYPE mn then
    rd ← arg_reg args 0; rs1 ← arg_reg args 1; i ← arg_tok args 2; i_type mn rd rs1 i xlen
  else if dict_has I_TYPE_BEXT_SHAMT mn then
    rd ← arg_reg args 0; rs1 ← arg_reg args 1; i ← arg_tok args 2;
    i_type_bext_shamt mn rd rs1 i xlen
  else if dict_has I_TYPE_BEXT_FIXED mn then
    rd ← arg_reg args 0; rs1 ← arg_reg args 1; i_type_bext_fixed mn rd rs1
  else if String.eqb mn "rev8" then
    rd ← arg_reg args 0; rs1 ← arg_reg args 1; Ok (rev8 rd rs1 xlen)
  else if String.eqb mn "zext.w" then
    rd ← arg_reg args 0; rs1 ← arg_reg args 1; r_type_w "add.uw" rd rs1 0
  else if dict_has R_TYPE_W mn then
    rd ← arg_reg args 0; rs1 ← arg_reg args 1; rs2 ← arg_reg args 2; r_type_w mn rd rs1 rs2
  else if dict_has I_TYPE_W mn then
    rd ← arg_reg args 0; rs1 ← arg_reg args 1; i ← arg_tok args 2; i_type_w mn rd rs1 i
  else if dict_has I_TYPE_W_BEXT_FIXED mn then
    rd ← arg_reg args 0; rs1 ← arg_reg args 1; i_type_w_bext_fixed mn rd rs1
  else if String.eqb mn "roriw" then
    rd ← arg_reg args 0; rs1 ← arg_reg args 1; i ← arg_tok args 2; roriw rd rs1 i
  else if String.eqb mn "slli.uw" then
    rd ← arg_reg args 0; rs1 ← arg_reg args 1; i ← arg_tok args 2; slli_uw rd rs1 i
  else rest.

(** Loads, stores, branches, jumps and the upper-immediate instructions. *)
Definition asm_control (labels : list (string * Z)) (cur_addr : Z) (mn : string)
    (args : list string) (rest : result Z) : result Z :=
  if dict_has LOAD mn then
    rd ← arg_reg args 0; '(off, rs1) ← arg_mem args 1; load mn rd off rs1
  else if dict_has STORE mn then
    rs2 ← arg_reg args 0; '(off, rs1) ← arg_mem args 1; store mn rs2 off rs1
  else if dict_has BRANCH mn then
    rs1 ← arg_reg args 0; rs2 ← arg_reg args 1;
    t ← list_get args 2; off ← resolve labels t cur_addr; branch mn rs1 rs2 off
  else if String.eqb mn "jal" then
    rd ← arg_reg args 0; t ← list_get args 1; off ← resolve labels t cur_addr; jal rd off
  else if String.eqb mn "jalr" then
    rd ← arg_reg args 0; '(off, rs1) ← arg_mem args 1; jalr rd off rs1
  else if String.eqb mn "lui" then
    rd ← arg_reg args 0; i ← arg_tok args 1; u_type OP_LUI rd i
  else if String.eqb mn "auipc" then
    rd ← arg_reg args 0; i ← arg_tok args 1; u_type OP_AUIPC rd i
  else rest.

(** CSR and privileged mnemonics, [fence] and [word]. *)
Definition asm_system (mn : string) (args : list string) (rest : result Z) : result Z :=
  if in_names mn ["csrrw"; "csrrs"; "csrrc"] then
    rd ← arg_reg args 0; csr ← arg_tok args 1; rs1 ← arg_reg args 2; csr_reg mn rd csr rs1
  else if in_names mn ["csrrwi"; "csrrsi"; "csrrci"] then
    rd ← arg_reg args 0; csr ← arg_tok args 1; uimm ← arg_tok args 2; csr_imm mn rd csr uimm
  else if in_names mn ["ecall"; "ebreak"; "mret"; "sret"] then system_noarg mn
  else if String.eqb mn "sfence.vma" then
    rs1 ← (if (0 <? List.length args)%nat then arg_reg args 0 else Ok 0);
    rs2 ← (if (1 <? List.length args)%nat then arg_reg args 1 else Ok 0);
    Ok (sfence_vma rs1 rs2)
  else if String.eqb mn "fence" then Ok fence
  else if String.eqb mn "word" then
    a ← list_get args 0; v ← int_base0 a; Ok (u v 32)
  else rest.

(** The RV32F mnemonics. *)
Definition asm_float (mn : string) (args : list string) (rest : result Z) : result Z :=
  if String.eqb mn "flw" then
    rd ← arg_freg args 0; '(off, rs1) ← arg_mem args 1; flw rd off rs1
  else if String.eqb mn "fsw" then
    rs2 ← arg_freg args 0; '(off, rs1) ← arg_mem args 1; fsw rs2 off rs1
  else if dict_has FP_ARITH mn then
    rd ← arg_freg args 0; rs1 ← arg_freg args 1; rs2 ← arg_freg args 2;
    rm ← parse_rm args 3; f5 ← dict_get FP_ARITH mn; Ok (fp_r_type f5 rd rs1 rs2 rm)
  else if String.eqb mn "fsqrt.s" then
    rd ← arg_freg args 0; rs1 ← arg_freg args 1; rm ← parse_rm args 2; Ok (fp_sqrt rd rs1 rm)
  else if dict_has FP_SGNJ mn then
    rd ← arg_freg args 0; rs1 ← arg_freg args 1; rs2 ← arg_freg args 2; fp_sgnj mn rd rs1 rs2
  else if dict_has FP_MINMAX mn then
    rd ← arg_freg args 0; rs1 ← arg_freg args 1; rs2 ← arg_freg args 2; fp_minmax mn rd rs1 rs2
  else if dict_has FP_CMP mn then
    rd ← arg_reg args 0; rs1 ← arg_freg args 1; rs2 ← arg_freg args 2; fp_cmp mn rd rs1 rs2
  else if in_names mn ["fcvt.w.s"; "fcvt.wu.s"] then
    rd ← arg_reg args 0; rs1 ← arg_freg args 1; rm ← parse_rm args 2;
    Ok (fp_cvt_w_s (String.eqb mn "fcvt.wu.s") rd rs1 rm)
  else if in_names mn ["fcvt.s.w"; "fcvt.s.wu"] then
    rd ← arg_freg args 0; rs1 ← arg_reg args 1; rm ← parse_rm args 2;
    Ok (fp_cvt_s_w (String.eqb mn "fcvt.s.wu") rd rs1 rm)
  else if String.eqb mn "fmv.x.w" then
    rd ← arg_reg args 0; rs1 ← arg_freg args 1; Ok (fp_mv_x_w rd rs1)
  else if String.eqb mn "fclass.s" then
    rd ← arg_reg args 0; rs1 ← arg_freg args 1; Ok (fp_class rd rs1)
  else if String.eqb mn "fmv.w.x" then
    rd ← arg_freg args 0; rs1 ← arg_reg args 1; Ok (fp_mv_w_x rd rs1)
  else if dict_has MADD_OPCODES mn then
    rd ← arg_freg args 0; rs1 ← arg_freg args 1; rs2 ← arg_freg args 2; rs3 ← arg_freg args 3;
    rm ← parse_rm args 4; op ← dict_get MADD_OPCODES mn; Ok (fp_r4_type op rd rs1 rs2 rs3 rm)
  else rest.

(** The tail of the chain. *)
Definition asm_rest (mn line : string) (args : list string) : result Z :=
  if String.eqb mn "aes64ks1i" then
    rd ← arg_reg args 0; rs1 ← arg_reg args 1; i ← arg_tok args 2; aes64ks1i rd rs1 i
  else if String.eqb mn ".word" then
    a ← list_get args 0; v ← int_base0 a; Ok (v .& 0xFFFFFFFF)
  else Raise (ValueError ("unknown mnemonic " ++ repr mn ++ " in line: " ++ repr line)).

Definition asm_stmt (labels : list (string * Z)) (xlen cur_addr : Z) (line : string) : result Z :=
  match split_args (strip line) with
  | [] => Raise (IndexError "list index out of range")
  | p :: args =>
      let mn := lower p in
      asm_compute xlen mn args (asm_control labels cur_addr mn args
        (asm_system mn args (asm_float mn args (asm_rest mn line args))))
  end.

Definition assemble (lines : list string) (xlen : Z) : result (list Z) :=
  let l := scan lines in
  mapR (fun '(cur_addr, line) => asm_stmt (labels l) xlen cur_addr line) (stmts l).

(** ** Definitions: the memory image *)

Definition newline : string := String (ascii_of_nat 10) "".

(** [f"{b:08b}\n"] per byte. *)
Definition mem_text (data : list Z) : list string := map (fun b => fmt_0b 8 b) data.

(** The loop [for i, w in enumerate(words)] over the [bytearray]. *)
Fixpoint write_words (size_bytes : Z) (words : list Z) (i : Z) (data : list Z) : result (list Z) :=
  match words with
  | [] => Ok data
  | w :: words' =>
      let off := i * 4 in
      if off + 4 >? size_bytes then
        Raise (ValueError ("program exceeds " ++ fmt_d size_bytes ++ "-byte instruction memory"))
      else
        let data := updZ data (off + 0) (w .& 0xFF) in
        let data := updZ data (off + 1) ((w >> 8) .& 0xFF) in
        let data := updZ data (off + 2) ((w >> 16) .& 0xFF) in
        let data := updZ data (off + 3) ((w >> 24) .& 0xFF) in
        write_words size_bytes words' (i + 1) data
  end.

(** The lines of the file [write_mem] writes. *)
Definition write_mem (words : list Z) (size_bytes : Z) : result (list string) :=
  if size_bytes <? 0 then Raise (ValueError "negative count")
  else
    data ← write_words size_bytes words 0 (replicate (Z.to_nat size_bytes) 0);
    Ok (mem_text data).

(** [asm.py] run on the program: the image and the instruction count it
    prints, or the exception that ends it. *)
Definition asm_main (lines : list string) (size xlen : Z) : result (list string * Z) :=
  words ← assemble lines xlen;
  image ← write_mem words size;
  Ok (image, Z.of_nat (List.length words)).

Example assemble_loop :
  assemble ["# count down"; "  addi x5, x0, 10"; "loop:"; "  addi x5, x5, -1  # step";
            "  bne x5, x0, loop"; "  lw x1, -4(x2)"; "  fadd.s f1, f2, f3, RTZ"; "halt:";
            "  jal x0, halt"] 32
  = Ok [0x00A00293; 0xFFF28293; 0xFE029EE3; 0xFFC12083; 0x003110D3; 0x0000006F].
Proof. vm_compute. reflexivity. Qed.

Example assemble_errors :
  assemble ["frobnicate x1"] 32 =
    Raise (ValueError "unknown mnemonic 'frobnicate' in line: 'frobnicate x1'") /\
  assemble ["lw x1, x2"] 32 = Raise (AttributeError "'NoneType' object has no attribute 'group'") /\
  assemble ["add x1, x2"] 32 = Raise (IndexError "list index out of range").
Proof. vm_compute. repeat split. Qed.
