(* ===== verification/WordRange.v ===== *)
(** * Assembled words are 32-bit

    [assemble] of [sim/tools/asm.py] returns 32-bit words, whatever source it
    accepts: no operand leaks out of its field.  [fits] is the predicate on
    results the dispatch is checked against, arm by arm. *)

From S2P Require Import Prelude Words PyStr Step Asm AsmFacts AsmText.
#[local] Open Scope string_scope.
#[local] Open Scope Z_scope.

(** ** Fitting results *)

Definition fits {A} (P : A -> Prop) (r : result A) : Prop := forall a, r = Ok a -> P a.
Definition w32 : result Z -> Prop := fits (in_width 32).

Lemma fits_ok {A} (P : A -> Prop) a : P a -> fits P (Ok a).
Proof. by intros H b <-%Ok_inj. Qed.

Lemma fits_raise {A} (P : A -> Prop) e : fits P (Raise e).
Proof. by intros a H. Qed.

Lemma fits_bind {A B} (Q : A -> Prop) (P : B -> Prop) m (k : A -> result B) :
  fits Q m -> (forall a, Q a -> fits P (k a)) -> fits P (m ≫= k).
Proof. intros Hm Hk b (a & Ha & Hb)%bind_Ok. eapply Hk; eauto. Qed.

Lemma fits_any {A} (r : result A) : fits (fun _ => True) r.
Proof. done. Qed.

(** A field of [k] bits at place [n]. *)
Lemma field32 v n k : 0 <= v < 2 ^ k -> 0 <= n -> 0 <= k -> n + k <= 32 -> 0 <= v << n < 2 ^ 32.
Proof.
  intros Hv Hn Hk Hs. apply shiftl_bound; [lia|]. split; [lia|].
  assert (2 ^ k <= 2 ^ (32 - n)) by (apply Z.pow_le_mono_r; lia). lia.
Qed.

(** ** Operands *)

Definition field (k v : Z) : Prop := 0 <= v < 2 ^ k.
Definition field2 (k1 k2 : Z) (p : Z * Z) : Prop := field k1 (fst p) /\ field k2 (snd p).

Lemma reg_fits tok : fits (field 5) (reg tok).
Proof.
  unfold reg. destruct (match_reg "x" tok) as [n|]; [|apply fits_raise].
  destruct ((0 <=? n) && (n <=? 31)) eqn:E; [|apply fits_raise]. apply fits_ok.
  apply andb_true_iff in E as [E1%Z.leb_le E2%Z.leb_le]. unfold field. lia.
Qed.

Lemma freg_fits tok : fits (field 5) (freg tok).
Proof.
  unfold freg. destruct (match_reg "f" tok) as [n|]; [|apply fits_raise].
  destruct ((0 <=? n) && (n <=? 31)) eqn:E; [|apply fits_raise]. apply fits_ok.
  apply andb_true_iff in E as [E1%Z.leb_le E2%Z.leb_le]. unfold field. lia.
Qed.

Lemma arg_reg_fits args i : fits (field 5) (arg_reg args i).
Proof. eapply fits_bind; [apply fits_any|]. intros a _. apply reg_fits. Qed.
Lemma arg_freg_fits args i : fits (field 5) (arg_freg args i).
Proof. eapply fits_bind; [apply fits_any|]. intros a _. apply freg_fits. Qed.

Lemma arg_mem_fits args i : fits (fun p => field 5 (snd p)) (arg_mem args i).
Proof.
  eapply fits_bind; [apply fits_any|]. intros a _. cbv beta.
  destruct (match_mem a) as [[off r]|]; [|apply fits_raise].
  eapply fits_bind; [apply reg_fits|]. intros b Hb. by apply fits_ok.
Qed.

Lemma imm_fits tok bits signed : 0 < bits -> fits (field bits) (imm tok bits signed).
Proof. intros Hb r H. apply imm_ok_inv in H as (v & -> & _); [|done]. apply wrap_range. lia. Qed.

Lemma u_field v bits : 0 <= bits -> field bits (u v bits).
Proof. intros. unfold field, u. rewrite shiftl_1_sub_1, land_mask by done. by apply Z.mod_pos_bound, Z.pow_pos_nonneg. Qed.

Lemma land_field v n : 0 <= n -> field n (v .& Z.ones n).
Proof. intros. unfold field. rewrite land_mask by done. by apply Z.mod_pos_bound, Z.pow_pos_nonneg. Qed.

Definition field_b (k v : Z) : bool := (0 <=? v) && (v <? 2 ^ k).
Lemma field_b_spec k v : field_b k v = true -> field k v.
Proof. unfold field_b, field. intros [H1%Z.leb_le H2%Z.ltb_lt]%andb_true_iff. done. Qed.

Lemma dict_field (d : list (string * Z)) k n : forallb (fun kv => field_b n (snd kv)) d = true ->
  fits (field n) (dict_get d k).
Proof. intros H v Hv. apply field_b_spec. exact (table_range d (field_b n) k v H Hv). Qed.
Lemma dict_field2 (d : list (string * (Z * Z))) k n m :
  forallb (fun kv => field_b n (fst (snd kv)) && field_b m (snd (snd kv))) d = true ->
  fits (field2 n m) (dict_get d k).
Proof.
  intros H v Hv.
  pose proof (table_range d (fun p => field_b n (fst p) && field_b m (snd p)) k v H Hv) as [H1 H2]%andb_true_iff.
  split; by apply field_b_spec.
Qed.

Lemma parse_rm_fits args i : fits (field 3) (parse_rm args i).
Proof.
  unfold parse_rm. assert (H : forall k, fits (field 3) (dict_get RM_NAMES k)) by (intros k; by apply dict_field).
  destruct (nth_error args i) as [a|]; [|apply H]. destruct (strip a); [apply H|].
  destruct (dict_has _ _); [apply H|apply fits_raise].
Qed.

(** ** Words *)

(** An [or] of fields: each is bounded on its own. *)
Ltac word32 :=
  unfold in_width; repeat (apply lor_bound; [done|..]);
  match goal with
  | |- 0 <= _ << _ < _ =>
      first [ eapply field32; [eassumption|lia..]
            | apply (field32 _ _ 12); [apply u_field; done|lia..]
            | apply (field32 _ _ 8); [apply (land_field _ 8); done|lia..]
            | apply (field32 _ _ 10); [apply (land_field _ 10); done|lia..]
            | apply (field32 _ _ 7); [apply (land_field _ 7); done|lia..]
            | apply (field32 _ _ 6); [apply (land_field _ 6); done|lia..]
            | apply (field32 _ _ 5); [apply (land_field _ 5); done|lia..]
            | apply (field32 _ _ 4); [apply (land_field _ 4); done|lia..]
            | apply (field32 _ _ 1); [apply (land_field _ 1); done|lia..]
            | split; [done|reflexivity] ]
  | H : field 7 ?op |- 0 <= ?op < _ => apply (pow_bound_mono _ 7); [exact H|lia]
  | _ => try (split; [done|reflexivity])
  end.

(** One step of the walk through an encoder or an arm of the dispatch. *)
Ltac fit :=
  repeat match goal with
  | |- fits _ (mbind _ (dict_get ?t _)) =>
      first [ eapply fits_bind; [by apply (dict_field2 t _ 7 3)|]; intros [? ?] [? ?]; cbn [fst snd] in *
            | eapply fits_bind; [by apply (dict_field t _ 3)|]; intros ? ?
            | eapply fits_bind; [apply fits_any|]; intros ? _ ]
  | |- fits _ (mbind _ (imm _ ?b _)) => eapply fits_bind; [apply (imm_fits _ b); try done|]; intros ? ?
  | |- fits _ (mbind _ (arg_reg _ _)) => eapply fits_bind; [apply arg_reg_fits|]; intros ? ?
  | |- fits _ (mbind _ (arg_freg _ _)) => eapply fits_bind; [apply arg_freg_fits|]; intros ? ?
  | |- fits _ (mbind _ (parse_rm _ _)) => eapply fits_bind; [apply parse_rm_fits|]; intros ? ?
  | |- fits _ (mbind _ (arg_mem _ _)) => eapply fits_bind; [apply arg_mem_fits|]; intros [? ?] ?; cbn [snd] in *
  | |- fits _ (mbind _ _) => eapply fits_bind; [apply fits_any|]; intros ? _
  | |- fits _ (Raise _) => apply fits_raise
  | |- fits _ (let _ := _ in _) => cbv zeta
  | |- fits _ (if ?b then _ else _) => destruct b
  | |- fits _ (Ok _) => apply fits_ok
  end.

Section Encoders.
Context (rd rs1 rs2 rs3 rm : Z).
Context (Hd : field 5 rd) (H1 : field 5 rs1) (H2 : field 5 rs2) (H3 : field 5 rs3) (Hm : field 3 rm).

Lemma i_raw_fits i f3 op : field 3 f3 -> field 7 op -> in_width 32 (i_type_raw i f3 rd rs1 op).
Proof. intros Hf Ho. unfold i_type_raw. word32. Qed.

Lemma r_type_fits mn : w32 (r_type mn rd rs1 rs2).
Proof. unfold w32, r_type. fit. word32. Qed.
Lemma r_type_w_fits mn : w32 (r_type_w mn rd rs1 rs2).
Proof. unfold w32, r_type_w. fit. word32. Qed.
Lemma i_type_fits mn i xl : w32 (i_type mn rd rs1 i xl).
Proof. unfold w32, i_type. fit. all: word32. Qed.
Lemma i_type_w_fits mn i : w32 (i_type_w mn rd rs1 i).
Proof. unfold w32, i_type_w. fit. all: word32. Qed.
Lemma bext_shamt_fits mn i xl : w32 (i_type_bext_shamt mn rd rs1 i xl).
Proof. unfold w32, i_type_bext_shamt. fit. by apply i_raw_fits. Qed.
Lemma bext_fixed_fits mn : w32 (i_type_bext_fixed mn rd rs1).
Proof.
  unfold w32, i_type_bext_fixed. eapply fits_bind; [by apply (dict_field2 _ _ 12 3)|]. intros [v f3] [Hv Hf].
  apply fits_ok. by apply i_raw_fits.
Qed.
Lemma w_bext_fixed_fits mn : w32 (i_type_w_bext_fixed mn rd rs1).
Proof. unfold w32, i_type_w_bext_fixed. fit. by apply i_raw_fits. Qed.
Lemma roriw_fits i : w32 (roriw rd rs1 i).
Proof. unfold w32, roriw. fit. by apply i_raw_fits. Qed.
Lemma slli_uw_fits i : w32 (slli_uw rd rs1 i).
Proof. unfold w32, slli_uw. fit. by apply i_raw_fits. Qed.
Lemma aes64ks1i_fits i : w32 (aes64ks1i rd rs1 i).
Proof. unfold w32, aes64ks1i. fit. by apply i_raw_fits. Qed.
Lemma load_fits mn i : w32 (load mn rd i rs1).
Proof. unfold w32, load. fit. word32. Qed.
Lemma store_fits mn i : w32 (store mn rs2 i rs1).
Proof. unfold w32, store. fit. word32. Qed.
Lemma jalr_fits i : w32 (jalr rd i rs1).
Proof. unfold w32, jalr. fit. word32. Qed.
Lemma u_type_fits op i : field 7 op -> w32 (u_type op rd i).
Proof. intros Ho. unfold w32, u_type. fit. word32. Qed.
Lemma branch_fits mn i : w32 (branch mn rs1 rs2 i).
Proof. unfold w32, branch. fit. word32. Qed.
Lemma jal_fits i : w32 (jal rd i).
Proof. unfold w32, jal. fit. word32. Qed.
Lemma csr_reg_fits mn c : w32 (csr_reg mn rd c rs1).
Proof. unfold w32, csr_reg. fit. word32. Qed.
Lemma csr_imm_fits mn c i : w32 (csr_imm mn rd c i).
Proof. unfold w32, csr_imm. fit. word32. Qed.
Lemma fp_r_fits f5 : field 5 f5 -> in_width 32 (fp_r_type f5 rd rs1 rs2 rm).
Proof. intros H5. unfold fp_r_type. word32. Qed.
Lemma fp_r4_fits op : field 7 op -> in_width 32 (fp_r4_type op rd rs1 rs2 rs3 rm).
Proof. intros Ho. unfold fp_r4_type. word32. Qed.
Lemma fp_sgnj_fits mn : w32 (fp_sgnj mn rd rs1 rs2).
Proof. unfold w32, fp_sgnj. fit. word32. Qed.
Lemma fp_minmax_fits mn : w32 (fp_minmax mn rd rs1 rs2).
Proof. unfold w32, fp_minmax. fit. word32. Qed.
Lemma fp_cmp_fits mn : w32 (fp_cmp mn rd rs1 rs2).
Proof. unfold w32, fp_cmp. fit. word32. Qed.
Lemma flw_fits i : w32 (flw rd i rs1).
Proof. unfold w32, flw. fit. word32. Qed.
Lemma fsw_fits i : w32 (fsw rs2 i rs1).
Proof. unfold w32, fsw. fit. word32. Qed.
End Encoders.

(** ** The dispatch *)

Create HintDb word32.
#[local] Hint Resolve r_type_fits r_type_w_fits i_type_fits i_type_w_fits bext_shamt_fits bext_fixed_fits
  w_bext_fixed_fits roriw_fits slli_uw_fits aes64ks1i_fits load_fits store_fits jalr_fits branch_fits jal_fits
  csr_reg_fits csr_imm_fits fp_sgnj_fits fp_minmax_fits fp_cmp_fits flw_fits fsw_fits : word32.

(** An arm: its operands, then its encoder. *)
Ltac arm32 := unfold w32; fit; fold w32; eauto with word32.

(** The arms of a stretch of the chain, one goal each. *)
Ltac arms :=
  repeat match goal with |- w32 (if ?b then _ else _) => destruct b end; try assumption; arm32.

Lemma compute_fits xl mn args rest : w32 rest -> w32 (asm_compute xl mn args rest).
Proof.
  intros Hr. unfold asm_compute. arms.
  - by apply i_type_fits.
  - unfold rev8. cbv zeta. by apply i_raw_fits.
  - by apply r_type_w_fits.
Qed.

Lemma control_fits labels cur mn args rest : w32 rest -> w32 (asm_control labels cur mn args rest).
Proof. intros Hr. unfold asm_control. arms; by apply u_type_fits. Qed.

Lemma system_noarg_fits mn : w32 (system_noarg mn).
Proof.
  unfold w32, system_noarg. eapply fits_bind; [by apply (dict_field _ _ 12)|]. intros i Hi. apply fits_ok. word32.
Qed.

(** An operand that may be left out. *)
Lemma optional_reg_fits (b : bool) args i : fits (field 5) (if b then arg_reg args i else Ok 0).
Proof. destruct b; [apply arg_reg_fits|by apply fits_ok]. Qed.

Lemma system_fits mn args rest : w32 rest -> w32 (asm_system mn args rest).
Proof.
  intros Hr. unfold asm_system.
  repeat match goal with |- w32 (if ?b then _ else _) => destruct b end; try assumption.
  - arm32.
  - arm32.
  - apply system_noarg_fits.
  - eapply fits_bind; [apply optional_reg_fits|]. intros rs1 H1.
    eapply fits_bind; [apply optional_reg_fits|]. intros rs2 H2. apply fits_ok. unfold sfence_vma. word32.
  - by apply fits_ok.
  - eapply fits_bind; [apply fits_any|]. intros a _. eapply fits_bind; [apply fits_any|]. intros v _.
    apply fits_ok. by apply (u_field v 32).
Qed.

Lemma float_fits mn args rest : w32 rest -> w32 (asm_float mn args rest).
Proof.
  intros Hr. unfold asm_float.
  repeat match goal with |- w32 (if ?b then _ else _) => destruct b end; try assumption.
  3: { do 4 (eapply fits_bind; [first [apply arg_freg_fits|apply parse_rm_fits]|]; intros ? ?).
       eapply fits_bind; [by apply (dict_field _ _ 5)|]. intros f5 H5. apply fits_ok. by apply fp_r_fits. }
  12: { do 5 (eapply fits_bind; [first [apply arg_freg_fits|apply parse_rm_fits]|]; intros ? ?).
       eapply fits_bind; [by apply (dict_field _ _ 7)|]. intros op Ho. apply fits_ok. by apply fp_r4_fits. }
  all: arm32.
  - unfold fp_sqrt. word32.
  - unfold fp_cvt_w_s. cbv zeta. destruct (String.eqb mn "fcvt.wu.s"); word32.
  - unfold fp_cvt_s_w. cbv zeta. destruct (String.eqb mn "fcvt.s.wu"); word32.
  - unfold fp_mv_x_w. word32.
  - unfold fp_class. word32.
  - unfold fp_mv_w_x. word32.
Qed.

Lemma rest_fits mn line args : w32 (asm_rest mn line args).
Proof.
  unfold asm_rest. repeat match goal with |- w32 (if ?b then _ else _) => destruct b end.
  - arm32.
  - eapply fits_bind; [apply fits_any|]. intros a _. eapply fits_bind; [apply fits_any|]. intros v _.
    apply fits_ok. change 0xFFFFFFFF with (Z.ones 32). by apply (land_field v 32).
  - apply fits_raise.
Qed.

Lemma asm_stmt_fits labels xlen cur line : w32 (asm_stmt labels xlen cur line).
Proof.
  unfold asm_stmt. destruct (split_args (strip line)) as [|p args]; [apply fits_raise|]. cbv zeta.
  apply compute_fits, control_fits, system_fits, float_fits, rest_fits.
Qed.

Lemma assembled_fit lines xlen ws : assemble lines xlen = Ok ws -> Forall (in_width 32) ws.
Proof.
  unfold assemble. cbv zeta.
  revert ws. induction (stmts (scan lines)) as [|[cur line] l IH]; intros ws; cbn [mapR].
  { intros <-%Ok_inj. constructor. }
  intros (w & Hw & (ws' & H & <-%Ok_inj)%bind_Ok)%bind_Ok. constructor; [|by apply IH].
  eapply asm_stmt_fits, Hw.
Qed.

(** [C26] Whatever source the assembler accepts, it returns one 32-bit word per
    statement: no operand reaches outside its field of the encoding. *)
Theorem assembled_words_32 lines xlen ws :
  assemble lines xlen = Ok ws ->
  Forall (in_width 32) ws /\ List.length ws = List.length (stmts (scan lines)).
Proof. intros H. split; [by eapply assembled_fit|]. by apply mapR_length in H. Qed.

Lemma assembled_words_32_witness :
  let ws := [0x00A00293; 0xFFF28293; 0xFE029EE3] in
  Forall (in_width 32) ws /\ List.length ws = List.length (stmts (scan ["addi x5, x0, 10"; "loop:"; "addi x5, x5, -1"; "bne x5, x0, loop"])).
Proof.
  intros ws. apply (assembled_words_32 ["addi x5, x0, 10"; "loop:"; "addi x5, x5, -1"; "bne x5, x0, loop"] 32 ws).
  vm_compute. reflexivity.
Defined.
