(* ===== verification/Disasm.v ===== *)
(** * The disassembler

    [sim/tools/disasm.py]: the mnemonic text of an instruction word, one
    definition per major opcode of the [disasm] chain.  It is the source's
    second, independent reading of the encoding. *)

From S2P Require Import Prelude Words PyStr Step.
#[local] Open Scope string_scope.
#[local] Open Scope Z_scope.

(** ** Definitions: tables *)

Definition MADD_NAMES : list (Z * string) :=
  [(OP_FMADD, "fmadd.s"); (OP_FMSUB, "fmsub.s"); (OP_FNMSUB, "fnmsub.s"); (OP_FNMADD, "fnmadd.s")].
Definition RM_NAMES : list (Z * string) :=
  [(0x0, "rne"); (0x1, "rtz"); (0x2, "rdn"); (0x3, "rup"); (0x4, "rmm"); (0x7, "dyn")].
Definition CSR_NAMES : list (Z * string) :=
  [(0x300, "mstatus"); (0x305, "mtvec"); (0x340, "mscratch"); (0x341, "mepc"); (0x342, "mcause");
   (0x001, "fflags"); (0x002, "frm"); (0x003, "fcsr")].

(** Dictionaries with integer keys, and with pairs of integers as keys. *)
Fixpoint zfind {A} (d : list (Z * A)) (k : Z) : option A :=
  match d with
  | [] => None
  | (k', v) :: d' => if k =? k' then Some v else zfind d' k
  end.
Fixpoint zzfind {A} (d : list (Z * Z * A)) (k1 k2 : Z) : option A :=
  match d with
  | [] => None
  | ((k1', k2'), v) :: d' => if (k1 =? k1') && (k2 =? k2') then Some v else zzfind d' k1 k2
  end.
(** [d.get(k, default)]. *)
Definition get_or {A} (o : option A) (d : A) : A := match o with Some v => v | None => d end.

Definition rm_name (rm : Z) : string := get_or (zfind RM_NAMES rm) ("rm?" ++ fmt_d rm).
Definition csr_name (addr : Z) : string := get_or (zfind CSR_NAMES addr) ("0x" ++ fmt_0x 3 addr).

(** The operand texts [x{n}] and [f{n}]. *)
Definition x_ (n : Z) : string := "x" ++ fmt_d n.
Definition f_ (n : Z) : string := "f" ++ fmt_d n.
Definition rrr (mn : string) (word : Z) : string :=
  mn ++ " " ++ x_ (w_rd word) ++ "," ++ x_ (w_rs1 word) ++ "," ++ x_ (w_rs2 word).
Definition rr (mn : string) (word : Z) : string :=
  mn ++ " " ++ x_ (w_rd word) ++ "," ++ x_ (w_rs1 word).
Definition rri (mn : string) (word i : Z) : string := rr mn word ++ "," ++ fmt_d i.

(** ** Definitions: one opcode each *)

(** [sext(word >> 20, 12)] and the S-type immediate. *)
Definition d_imm_i (word : Z) : Z := sext (word >> 20) 12.
Definition d_imm_s (word : Z) : Z := sext (((word >> 25) << 5) .| ((word >> 7) .& 0x1F)) 12.

Definition muldiv_names : list (Z * string) :=
  [(0, "mul"); (1, "mulh"); (2, "mulhsu"); (3, "mulhu"); (4, "div"); (5, "divu"); (6, "rem");
   (7, "remu")].
Definition bext_names : list (Z * Z * string) :=
  [((0x20, 0x7), "andn"); ((0x20, 0x6), "orn"); ((0x20, 0x4), "xnor");
   ((0x5, 0x4), "min"); ((0x5, 0x5), "minu"); ((0x5, 0x6), "max"); ((0x5, 0x7), "maxu");
   ((0x30, 0x1), "rol"); ((0x30, 0x5), "ror");
   ((0x10, 0x2), "sh1add"); ((0x10, 0x4), "sh2add"); ((0x10, 0x6), "sh3add");
   ((0x24, 0x1), "bclr"); ((0x24, 0x5), "bext"); ((0x34, 0x1), "binv"); ((0x14, 0x1), "bset");
   ((0x5, 0x1), "clmul"); ((0x5, 0x3), "clmulh");
   ((0x4, 0x4), "pack"); ((0x4, 0x7), "packh");
   ((0x14, 0x2), "xperm4"); ((0x14, 0x4), "xperm8");
   ((0x1b, 0x0), "aes64esm"); ((0x19, 0x0), "aes64es");
   ((0x1f, 0x0), "aes64dsm"); ((0x1d, 0x0), "aes64ds");
   ((0x3f, 0x0), "aes64ks2")].
Definition base_r_names : list (Z * Z * string) :=
  [((0, 0), "add"); ((0x20, 0), "sub"); ((0, 1), "sll"); ((0, 2), "slt"); ((0, 3), "sltu");
   ((0, 4), "xor"); ((0, 5), "srl"); ((0x20, 5), "sra"); ((0, 6), "or"); ((0, 7), "and")].

Definition disasm_r (word : Z) : string :=
  let f3 := w_f3 word in
  let f7 := w_f7 word in
  if f7 =? 0x1 then rrr (get_or (zfind muldiv_names f3) "") word
  else match zzfind bext_names f7 f3 with
  | Some mn => rrr mn word
  | None =>
      rrr (get_or (zzfind base_r_names f7 f3)
             ("r-type?(f7=" ++ fmt_hash_0x 4 f7 ++ ",f3=" ++ fmt_d f3 ++ ")")) word
  end.

Definition sha_names : list (Z * string) :=
  [(0x100, "sha256sum0"); (0x101, "sha256sum1"); (0x102, "sha256sig0"); (0x103, "sha256sig1");
   (0x104, "sha512sum0"); (0x105, "sha512sum1"); (0x106, "sha512sig0"); (0x107, "sha512sig1")].
Definition unary_names : list (Z * string) :=
  [(0, "clz"); (1, "ctz"); (2, "cpop"); (4, "sext.b"); (5, "sext.h")].
Definition imm_names : list (Z * string) :=
  [(0, "addi"); (2, "slti"); (3, "sltiu"); (4, "xori"); (6, "ori"); (7, "andi")].

(** The B and K arms of OP-IMM: [None] falls through to the base arms. *)
Definition disasm_i_ext (word : Z) : option string :=
  let f3 := w_f3 word in
  let imm12 := (word >> 20) .& 0xFFF in
  let f6 := (word >> 26) .& 0x3F in
  let sub := imm12 .& 0x1F in
  let rs2_c := (word >> 20) .& 0x1F in
  if (f3 =? 1) && (f6 =? 0x12) then Some (rri "bclri" word (imm12 .& 0x3F))
  else if (f3 =? 5) && (f6 =? 0x12) then Some (rri "bexti" word (imm12 .& 0x3F))
  else if (f3 =? 1) && (f6 =? 0x1a) then Some (rri "binvi" word (imm12 .& 0x3F))
  else if (f3 =? 1) && (f6 =? 0xa) then Some (rri "bseti" word (imm12 .& 0x3F))
  else if (f3 =? 1) && (f6 =? 0x18) && bool_decide (is_Some (zfind unary_names sub)) then
    Some (rr (get_or (zfind unary_names sub) "") word)
  else if (f3 =? 5) && (f6 =? 0x18) then Some (rri "rori" word (imm12 .& 0x3F))
  else if (f3 =? 5) && (imm12 =? 0x287) then Some (rr "orc.b" word)
  else if (f3 =? 5) && ((imm12 =? 0x698) || (imm12 =? 0x6B8)) then Some (rr "rev8" word)
  else if (f3 =? 5) && (imm12 =? 0x687) then Some (rr "brev8" word)
  else if (f3 =? 1) && bool_decide (is_Some (zfind sha_names imm12)) then
    Some (rr (get_or (zfind sha_names imm12) "") word)
  else if (f3 =? 1) && (f6 =? 0xc) then
    if rs2_c =? 0 then Some (rr "aes64im" word) else Some (rri "aes64ks1i" word (rs2_c .& 0xF))
  else None.

Definition disasm_i (word xlen : Z) : string :=
  match disasm_i_ext word with
  | Some s => s
  | None =>
      let f3 := w_f3 word in
      let f6 := (word >> 26) .& 0x3F in
      if (f3 =? 1) || (f3 =? 5) then
        let shamt := if xlen >=? 64 then (word >> 20) .& 0x3F else (word >> 20) .& 0x1F in
        let alt := if xlen >=? 64 then f6 =? 0x10 else w_f7 word =? 0x20 in
        let mn := if f3 =? 1 then "slli" else if alt then "srai" else "srli" in
        rri mn word shamt
      else rri (get_or (zfind imm_names f3) "i-type?") word (d_imm_i word)
  end.

Definition muldivw_names : list (Z * string) :=
  [(0, "mulw"); (4, "divw"); (5, "divuw"); (6, "remw"); (7, "remuw")].
Definition w_bext_names : list (Z * Z * string) :=
  [((0x30, 0x1), "rolw"); ((0x30, 0x5), "rorw"); ((0x4, 0x0), "add.uw");
   ((0x10, 0x2), "sh1add.uw"); ((0x10, 0x4), "sh2add.uw"); ((0x10, 0x6), "sh3add.uw");
   ((0x4, 0x4), "packw")].
Definition base_w_names : list (Z * Z * string) :=
  [((0, 0), "addw"); ((0x20, 0), "subw"); ((0, 1), "sllw"); ((0, 5), "srlw"); ((0x20, 5), "sraw")].

Definition disasm_32 (word : Z) : string :=
  let f3 := w_f3 word in
  let f7 := w_f7 word in
  if f7 =? 0x1 then rrr (get_or (zfind muldivw_names f3) "op32muldiv?") word
  else match zzfind w_bext_names f7 f3 with
  | Some mn => rrr mn word
  | None =>
      rrr (get_or (zzfind base_w_names f7 f3)
             ("op32?(f7=" ++ fmt_hash_0x 4 f7 ++ ",f3=" ++ fmt_d f3 ++ ")")) word
  end.

Definition unaryw_names : list (Z * string) := [(0, "clzw"); (1, "ctzw"); (2, "cpopw")].

Definition disasm_imm32 (word : Z) : string :=
  let f3 := w_f3 word in
  let f7 := w_f7 word in
  let imm12 := (word >> 20) .& 0xFFF in
  let f6 := (word >> 26) .& 0x3F in
  let sub := imm12 .& 0x1F in
  if (f3 =? 1) && (f7 =? 0x30) && bool_decide (is_Some (zfind unaryw_names sub)) then
    rr (get_or (zfind unaryw_names sub) "") word
  else if (f3 =? 5) && (f7 =? 0x30) then rri "roriw" word (imm12 .& 0x1F)
  else if (f3 =? 1) && (f6 =? 0x2) then rri "slli.uw" word (imm12 .& 0x3F)
  else if (f3 =? 1) || (f3 =? 5) then
    let mn := if f3 =? 1 then "slliw" else if f7 =? 0x20 then "sraiw" else "srliw" in
    rri mn word ((word >> 20) .& 0x1F)
  else rri (if f3 =? 0 then "addiw" else "opimm32?") word (d_imm_i word).

(** [off(xN)]. *)
Definition at_reg (off r : Z) : string := fmt_d off ++ "(" ++ x_ r ++ ")".

Definition load_names : list (Z * string) :=
  [(0, "lb"); (1, "lh"); (2, "lw"); (3, "ld"); (4, "lbu"); (5, "lhu"); (6, "lwu")].
Definition store_names : list (Z * string) := [(0, "sb"); (1, "sh"); (2, "sw"); (3, "sd")].
Definition branch_names : list (Z * string) :=
  [(0, "beq"); (1, "bne"); (2, "ble"); (3, "bgt"); (4, "blt"); (5, "bge"); (6, "bltu"); (7, "bgeu")].

Definition disasm_load (word : Z) : string :=
  get_or (zfind load_names (w_f3 word)) "load?" ++ " " ++ x_ (w_rd word) ++ "," ++
    at_reg (d_imm_i word) (w_rs1 word).
Definition disasm_store (word : Z) : string :=
  get_or (zfind store_names (w_f3 word)) "store?" ++ " " ++ x_ (w_rs2 word) ++ "," ++
    at_reg (d_imm_s word) (w_rs1 word).
Definition disasm_branch (word : Z) : string :=
  let b12 := (word >> 31) .& 1 in
  let b11 := (word >> 7) .& 1 in
  let b10_5 := (word >> 25) .& 0x3F in
  let b4_1 := (word >> 8) .& 0xF in
  let off := sext ((b12 << 12) .| (b11 << 11) .| (b10_5 << 5) .| (b4_1 << 1)) 13 in
  get_or (zfind branch_names (w_f3 word)) "branch?" ++ " " ++ x_ (w_rs1 word) ++ "," ++
    x_ (w_rs2 word) ++ "," ++ fmt_plus_d off.
Definition disasm_jal (word : Z) : string :=
  let b20 := (word >> 31) .& 1 in
  let b19_12 := (word >> 12) .& 0xFF in
  let b11 := (word >> 20) .& 1 in
  let b10_1 := (word >> 21) .& 0x3FF in
  let off := sext ((b20 << 20) .| (b19_12 << 12) .| (b11 << 11) .| (b10_1 << 1)) 21 in
  "jal " ++ x_ (w_rd word) ++ "," ++ fmt_plus_d off.
Definition disasm_jalr (word : Z) : string :=
  "jalr " ++ x_ (w_rd word) ++ "," ++ at_reg (d_imm_i word) (w_rs1 word).
Definition disasm_upper (mn : string) (word : Z) : string :=
  mn ++ " " ++ x_ (w_rd word) ++ ",0x" ++ fmt_x ((word >> 12) .& 0xFFFFF).

Definition system_names : list (Z * string) := [(0x000, "ecall"); (0x001, "ebreak"); (0x302, "mret")].
Definition csr_op_names : list (Z * string) :=
  [(0x1, "csrrw"); (0x2, "csrrs"); (0x3, "csrrc"); (0x5, "csrrwi"); (0x6, "csrrsi"); (0x7, "csrrci")].

Definition disasm_system (word : Z) : string :=
  let csr_addr := (word >> 20) .& 0xFFF in
  let f3 := w_f3 word in
  if f3 =? 0 then
    get_or (zfind system_names csr_addr) ("system?(imm12=" ++ fmt_hash_x csr_addr ++ ")")
  else
    let mn := get_or (zfind csr_op_names f3) "csr?" in
    if truthy (f3 .& 0x4) then
      mn ++ " " ++ x_ (w_rd word) ++ "," ++ csr_name csr_addr ++ "," ++ fmt_d (w_rs1 word)
    else mn ++ " " ++ x_ (w_rd word) ++ "," ++ csr_name csr_addr ++ "," ++ x_ (w_rs1 word).

Definition disasm_flw (word : Z) : string :=
  "flw " ++ f_ (w_rd word) ++ "," ++ at_reg (d_imm_i word) (w_rs1 word).
Definition disasm_fsw (word : Z) : string :=
  "fsw " ++ f_ (w_rs2 word) ++ "," ++ at_reg (d_imm_s word) (w_rs1 word).
Definition disasm_madd (mn : string) (word : Z) : string :=
  let rs3 := (word >> 27) .& 0x1F in
  mn ++ " " ++ f_ (w_rd word) ++ "," ++ f_ (w_rs1 word) ++ "," ++ f_ (w_rs2 word) ++ "," ++
    f_ rs3 ++ "," ++ rm_name (w_f3 word).

Definition fp_arith_names : list (Z * string) :=
  [(0x0, "fadd.s"); (0x1, "fsub.s"); (0x2, "fmul.s"); (0x3, "fdiv.s")].
Definition sgnj_names : list (Z * string) := [(0x0, "fsgnj.s"); (0x1, "fsgnjn.s"); (0x2, "fsgnjx.s")].
Definition minmax_names : list (Z * string) := [(0x0, "fmin.s"); (0x1, "fmax.s")].
Definition cmp_names : list (Z * string) := [(0x0, "fle.s"); (0x1, "flt.s"); (0x2, "feq.s")].

Definition disasm_fp (word : Z) : string :=
  let rd := w_rd word in
  let rs1 := w_rs1 word in
  let rs2 := w_rs2 word in
  let f3 := w_f3 word in
  let funct5 := (word >> 27) .& 0x1F in
  let fff mn := mn ++ " " ++ f_ rd ++ "," ++ f_ rs1 ++ "," ++ f_ rs2 in
  match zfind fp_arith_names funct5 with
  | Some mn => fff mn ++ "," ++ rm_name f3
  | None =>
      if funct5 =? 0xb then "fsqrt.s " ++ f_ rd ++ "," ++ f_ rs1 ++ "," ++ rm_name f3
      else if funct5 =? 0x4 then fff (get_or (zfind sgnj_names f3) "fsgnj?")
      else if funct5 =? 0x5 then fff (get_or (zfind minmax_names f3) "fminmax?")
      else if funct5 =? 0x14 then
        get_or (zfind cmp_names f3) "fcmp?" ++ " " ++ x_ rd ++ "," ++ f_ rs1 ++ "," ++ f_ rs2
      else if funct5 =? 0x18 then
        (if rs2 =? 1 then "fcvt.wu.s" else "fcvt.w.s") ++ " " ++ x_ rd ++ "," ++ f_ rs1 ++ "," ++
          rm_name f3
      else if funct5 =? 0x1a then
        (if rs2 =? 1 then "fcvt.s.wu" else "fcvt.s.w") ++ " " ++ f_ rd ++ "," ++ x_ rs1 ++ "," ++
          rm_name f3
      else if funct5 =? 0x1c then
        if f3 =? 1 then "fclass.s " ++ x_ rd ++ "," ++ f_ rs1
        else "fmv.x.w " ++ x_ rd ++ "," ++ f_ rs1
      else if funct5 =? 0x1e then "fmv.w.x " ++ f_ rd ++ "," ++ x_ rs1
      else "op-fp?(funct5=" ++ fmt_hash_0b 7 funct5 ++ ")"
  end.

(** ** Definitions: the chain *)

Definition disasm (word xlen : Z) : string :=
  if word =? 0x00000013 then "nop"
  else if word =? 0 then "—"
  else
    let op := w_op word in
    if op =? OP_R then disasm_r word
    else if op =? OP_I then disasm_i word xlen
    else if op =? OP_32 then disasm_32 word
    else if op =? OP_IMM32 then disasm_imm32 word
    else if op =? OP_LOAD then disasm_load word
    else if op =? OP_STORE then disasm_store word
    else if op =? OP_BRANCH then disasm_branch word
    else if op =? OP_JAL then disasm_jal word
    else if op =? OP_JALR then disasm_jalr word
    else if op =? OP_LUI then disasm_upper "lui" word
    else if op =? OP_AUIPC then disasm_upper "auipc" word
    else if op =? OP_SYSTEM then disasm_system word
    else if op =? OP_FLW then disasm_flw word
    else if op =? OP_FSW then disasm_fsw word
    else match zfind MADD_NAMES op with
    | Some mn => disasm_madd mn word
    | None => if op =? OP_FP then disasm_fp word else "0x" ++ fmt_0x 8 word ++ "?"
    end.

Example disasm_samples :
  disasm 0x00A00293 32 = "addi x5,x0,10" /\ disasm 0xFE029EE3 32 = "bne x5,x0,-4" /\
  disasm 0xFFC12083 32 = "lw x1,-4(x2)" /\ disasm 0x003110D3 32 = "fadd.s f1,f2,f3,rtz" /\
  disasm 0x0000006F 32 = "jal x0,+0" /\ disasm 0x40415093 64 = "srai x1,x2,4".
Proof. vm_compute. repeat split. Qed.
