(* ===== verification/TextFacts.v ===== *)
(** * Text lemmas

    Printing and parsing of numbers are inverse, and an assembler statement
    splits into the tokens it was joined from. Shared by the theorems on the
    assembler, the disassembler and the memory images. *)

From S2P Require Import Prelude PyStr AsmText.
#[local] Open Scope string_scope.
#[local] Open Scope Z_scope.

(** ** Strings as sequences of characters *)

Fixpoint str_all (p : ascii -> bool) (s : string) : bool :=
  match s with "" => true | String c s' => p c && str_all p s' end.

Lemma app_cons (c : ascii) (a b : string) : String c a ++ b = String c (a ++ b).
Proof. reflexivity. Qed.

Lemma app_empty (b : string) : "" ++ b = b.
Proof. reflexivity. Qed.

Lemma app_assoc_s (a b c : string) : (a ++ b) ++ c = a ++ (b ++ c).
Proof. induction a as [|x a IH]; [done|]. rewrite !app_cons. by rewrite IH. Qed.

Lemma app_nil_s (a : string) : a ++ "" = a.
Proof. induction a as [|x a IH]; [done|]. by rewrite app_cons, IH. Qed.

Lemma str_all_app p a b : str_all p (a ++ b) = str_all p a && str_all p b.
Proof. induction a as [|x a IH]; [done|]. rewrite app_cons. cbn. by rewrite IH, andb_assoc. Qed.

Lemma str_all_impl (p q : ascii -> bool) s :
  (forall c, p c = true -> q c = true) -> str_all p s = true -> str_all q s = true.
Proof.
  intros Hpq. induction s as [|c s IH]; [done|]. cbn. intros [H1 H2]%andb_true_iff.
  apply andb_true_iff; auto.
Qed.

Lemma span_app p a c s : str_all p a = true -> p c = false ->
  PyStr.span p (a ++ String c s) = (a, String c s).
Proof.
  intros Ha Hc. induction a as [|x a IH]; [rewrite app_empty; cbn; by rewrite Hc|].
  rewrite app_cons. cbn in *. apply andb_true_iff in Ha as [Hx Ha]. by rewrite Hx, IH.
Qed.

Lemma span_all p a : str_all p a = true -> PyStr.span p a = (a, "").
Proof.
  intros Ha. induction a as [|x a IH]; cbn in *; [done|].
  apply andb_true_iff in Ha as [Hx Ha]. by rewrite Hx, IH.
Qed.

Lemma lstrip_first c s : is_space c = false -> lstrip (String c s) = String c s.
Proof. intros H. cbn. by rewrite H. Qed.

Lemma rstrip_solid t : str_all (fun c => negb (is_space c)) t = true -> rstrip t = t.
Proof.
  induction t as [|c t IH]; [done|]. cbn. intros [Hc Ht]%andb_true_iff. rewrite (IH Ht).
  destruct t; [|done]. by destruct (is_space c).
Qed.

Lemma rstrip_app s t : str_all (fun c => negb (is_space c)) t = true -> t <> "" ->
  rstrip (s ++ t) = s ++ t.
Proof.
  intros Ht Hn. induction s as [|c s IH]; [by apply rstrip_solid|].
  rewrite app_cons. cbn. rewrite IH. destruct (s ++ t) eqn:E; [|done]. destruct s, t; done.
Qed.

Lemma last_char_app s t : t <> "" -> last_char (s ++ t) = last_char t.
Proof.
  intros Ht. induction s as [|c s IH]; [done|]. rewrite app_cons. cbn.
  destruct (s ++ t) eqn:E; [destruct s, t; done|]. exact IH.
Qed.

Lemma last_char_all p s c : str_all p s = true -> last_char s = Some c -> p c = true.
Proof.
  induction s as [|x s IH]; [done|]. cbn. intros [Hx Hs]%andb_true_iff.
  destruct s; [by intros [= <-]|auto].
Qed.

(** ** Digits *)

Lemma digit_char_facts : forall d, 0 <= d < 16 ->
  digit_value (digit_char d) = d /\ is_word (digit_char d) = true /\
  Ascii.eqb (digit_char d) "_" = false /\ (d < 10 -> is_digit (digit_char d) = true).
Proof.
  intros d Hd.
  assert (Hall : forallb (fun d => (digit_value (digit_char d) =? d) && is_word (digit_char d) &&
    negb (Ascii.eqb (digit_char d) "_") && ((10 <=? d) || is_digit (digit_char d))) (range 16) = true)
    by reflexivity.
  rewrite forallb_forall in Hall. specialize (Hall d).
  rewrite <- list_elem_of_In, elem_of_range in Hall. specialize (Hall Hd).
  apply andb_true_iff in Hall as [[[H1 H2]%andb_true_iff H3]%andb_true_iff H4].
  split; [by apply Z.eqb_eq|]. split; [done|]. split; [by apply negb_true_iff|].
  intros Hlt. apply orb_true_iff in H4 as [H4|H4]; [lia|done].
Qed.

Section Digits.
Context (base : Z) (Hb : 2 <= base <= 16).

Lemma digits_parse fuel : forall n acc prev, 0 <= n < base ^ Z.of_nat fuel ->
  int_digits base (digits base fuel n acc) 0 prev = int_digits base acc n (if fuel is O then prev else true).
Proof.
  induction fuel as [|fuel IH]; intros n acc prev Hn.
  - cbn in *. by replace n with 0 by lia.
  - rewrite digits_S. pose proof (Z.mod_pos_bound n base ltac:(lia)) as Hm.
    destruct (digit_char_facts (n `mod` base) ltac:(lia)) as (Hv & _ & Hu & _).
    destruct (Z.eqb_spec (n `div` base) 0) as [H0|H0].
    + cbn [int_digits]. rewrite Hu, Hv. destruct (Z.ltb_spec (n `mod` base) base); [|lia].
      f_equal. pose proof (Z.div_mod n base). lia.
    + rewrite IH.
      * cbn [int_digits]. rewrite Hu, Hv. destruct (Z.ltb_spec (n `mod` base) base); [|lia].
        destruct fuel; [|f_equal; pose proof (Z.div_mod n base); lia].
        exfalso. apply H0, Z.div_small. change (Z.of_nat 1) with 1 in Hn. lia.
      * split; [apply Z.div_pos; lia|]. apply Z.div_lt_upper_bound; [lia|].
        rewrite Nat2Z.inj_succ, Z.pow_succ_r in Hn by lia. lia.
Qed.

Lemma digits_fuel_enough n : 0 <= n -> n < base ^ Z.of_nat (digits_fuel n).
Proof.
  intros Hn. unfold digits_fuel. rewrite Nat2Z.inj_succ, Z2Nat.id by apply Z.log2_nonneg.
  destruct (Z.eq_dec n 0) as [->|]; [apply Z.pow_pos_nonneg; cbn; lia|].
  pose proof (Z.log2_spec n ltac:(lia)) as [_ Hl].
  eapply Z.lt_le_trans; [apply Hl|]. apply Z.pow_le_mono_l. pose proof (Z.log2_nonneg n). lia.
Qed.

(** The printed digits parse back, to any continuation. *)
Lemma fmt_nat_parse n prev : 0 <= n -> int_digits base (fmt_nat base n) 0 prev = Some n.
Proof.
  intros Hn. unfold fmt_nat. rewrite digits_parse by (split; [done|by apply digits_fuel_enough]).
  reflexivity.
Qed.

Lemma digits_all (p : ascii -> bool) fuel : (forall d, 0 <= d < base -> p (digit_char d) = true) ->
  forall n acc, str_all p acc = true -> str_all p (digits base fuel n acc) = true.
Proof.
  intros Hp. induction fuel as [|fuel IH]; intros n acc Ha; [done|]. rewrite digits_S.
  assert (Hacc : str_all p (String (digit_char (n `mod` base)) acc) = true).
  { cbn. rewrite Ha, Hp by (apply Z.mod_pos_bound; lia). done. }
  destruct (_ =? 0); [done|]. by apply IH.
Qed.

Lemma fmt_nat_all (p : ascii -> bool) n : (forall d, 0 <= d < base -> p (digit_char d) = true) ->
  str_all p (fmt_nat base n) = true.
Proof. intros Hp. by apply digits_all. Qed.

(** No leading zero, except for zero itself. *)
Lemma digits_head fuel : forall n acc, 0 <= n < base ^ Z.of_nat fuel -> (0 < n \/ fuel <> O) ->
  exists d s, digits base fuel n acc = String (digit_char d) s /\ 0 <= d < base /\
    (n <> 0 -> d <> 0) /\ (n = 0 -> s = acc).
Proof.
  induction fuel as [|fuel IH]; intros n acc Hn Hf; [cbn in Hn; lia|].
  rewrite digits_S. pose proof (Z.mod_pos_bound n base ltac:(lia)) as Hm.
  destruct (Z.eqb_spec (n `div` base) 0) as [H0|H0].
  - exists (n `mod` base), acc. split; [done|]. split; [lia|]. split; [|done].
    intros ?. pose proof (Z.div_mod n base). lia.
  - assert (0 < n `div` base) by (pose proof (Z.div_pos n base); lia).
    destruct (IH (n `div` base) (String (digit_char (n `mod` base)) acc)) as (d & s & E & Hd & Hnz & _).
    + split; [lia|]. apply Z.div_lt_upper_bound; [lia|].
      rewrite Nat2Z.inj_succ, Z.pow_succ_r in Hn by lia. lia.
    + by left.
    + exists d, s. split; [done|]. split; [done|]. split; [intros _; apply Hnz; lia|].
      intros ->. by rewrite Z.div_0_l in H0 by lia.
Qed.

Lemma fmt_nat_head n : 0 <= n ->
  exists d s, fmt_nat base n = String (digit_char d) s /\ 0 <= d < base /\
    (n <> 0 -> d <> 0) /\ (n = 0 -> s = "").
Proof.
  intros Hn. apply digits_head; [split; [done|by apply digits_fuel_enough]|by right].
Qed.
End Digits.

(** ** Numbers *)

Lemma str_all_cons p c s : str_all p (String c s) = p c && str_all p s.
Proof. reflexivity. Qed.

(** What a printed digit is not. *)
Lemma digit_char_not d : 0 <= d < 16 -> forall c, is_word c = false -> Ascii.eqb (digit_char d) c = false.
Proof.
  intros Hd c Hc. destruct (Ascii.eqb (digit_char d) c) eqn:E; [|done].
  apply Ascii.eqb_eq in E as <-. destruct (digit_char_facts d Hd) as (_ & Hw & _). congruence.
Qed.

Lemma word_not_space c : is_word c = true -> is_space c = false.
Proof. destruct c as [[] [] [] [] [] [] [] []]; vm_compute; congruence. Qed.

Lemma strip_word s : str_all is_word s = true -> strip s = s.
Proof.
  intros H. assert (Hs : str_all (fun c => negb (is_space c)) s = true).
  { eapply str_all_impl; [|exact H]. intros c Hc. by rewrite word_not_space. }
  unfold strip. destruct s as [|c s]; [done|]. rewrite str_all_cons in Hs.
  apply andb_true_iff in Hs as [Hc Hs]. rewrite lstrip_first by (by apply negb_true_iff).
  apply rstrip_solid. rewrite str_all_cons, Hc. done.
Qed.

Lemma fmt_nat_word base n : 2 <= base <= 16 -> str_all is_word (fmt_nat base n) = true.
Proof.
  intros Hb. apply (fmt_nat_all base Hb). intros d Hd. apply (digit_char_facts d). lia.
Qed.

(** A digit below ten, case by case. *)
Ltac digit_cases d :=
  let H := fresh in
  assert (H : d = 0 \/ d = 1 \/ d = 2 \/ d = 3 \/ d = 4 \/ d = 5 \/ d = 6 \/ d = 7 \/ d = 8 \/ d = 9) by lia;
  destruct H as [->|[->|[->|[->|[->|[->|[->|[->|[->| ->] ] ] ] ] ] ] ] ].

(** A body that is a decimal literal. *)
Lemma int_body_decimal n : 0 <= n -> int_body (fmt_nat 10 n) = Some n.
Proof.
  intros Hn. destruct (Z.eq_dec n 0) as [->|Hn0]; [reflexivity|].
  rewrite <- (fmt_nat_parse 10 ltac:(lia) n false Hn).
  destruct (fmt_nat_head 10 ltac:(lia) n Hn) as (d & s & E & Hd & Hnz & _). rewrite E in *.
  specialize (Hnz Hn0). digit_cases d; solve [lia | reflexivity].
Qed.

Lemma signed_int_decimal body n : 0 <= n -> signed_int body (fmt_nat 10 n) = body (fmt_nat 10 n).
Proof.
  intros Hn. destruct (fmt_nat_head 10 ltac:(lia) n Hn) as (d & s & -> & Hd & _).
  digit_cases d; reflexivity.
Qed.

(** The characters of a signed decimal. *)
Definition is_num (c : ascii) : bool := is_word c || Ascii.eqb c "-" || Ascii.eqb c "+".

Lemma num_not_space c : is_num c = true -> is_space c = false.
Proof. destruct c as [[] [] [] [] [] [] [] []]; vm_compute; congruence. Qed.

Lemma strip_num s : str_all is_num s = true -> strip s = s.
Proof.
  intros H. assert (Hs : str_all (fun c => negb (is_space c)) s = true).
  { eapply str_all_impl; [|exact H]. intros c Hc. by rewrite num_not_space. }
  unfold strip. destruct s as [|c s]; [done|]. rewrite str_all_cons in Hs.
  apply andb_true_iff in Hs as [Hc Hs]. rewrite lstrip_first by (by apply negb_true_iff).
  apply rstrip_solid. rewrite str_all_cons, Hc. done.
Qed.

Lemma word_num s : str_all is_word s = true -> str_all is_num s = true.
Proof. apply str_all_impl. intros c H. unfold is_num. by rewrite H. Qed.

Lemma fmt_d_num v : str_all is_num (fmt_d v) = true.
Proof.
  unfold fmt_d. destruct (_ <? _); [rewrite str_all_app|]; try rewrite andb_true_iff;
    try split; try reflexivity; by apply word_num, fmt_nat_word.
Qed.

Lemma fmt_plus_d_num v : str_all is_num (fmt_plus_d v) = true.
Proof.
  unfold fmt_plus_d. destruct (_ <? _); rewrite str_all_app, andb_true_iff;
    split; try reflexivity; by apply word_num, fmt_nat_word.
Qed.

(** [int(f"{v}", 0)] and [int(f"{v:+d}", 0)] give [v] back. *)
Lemma int_base0_fmt_d v : int_base0 (fmt_d v) = Ok v.
Proof.
  unfold int_base0. rewrite strip_num by apply fmt_d_num.
  unfold fmt_d. destruct (Z.ltb_spec v 0).
  - change (signed_int int_body ("-" ++ fmt_nat 10 (- v))) with (Z.opp <$> int_body (fmt_nat 10 (- v))).
    rewrite int_body_decimal by lia. cbn. by rewrite Z.opp_involutive.
  - by rewrite signed_int_decimal, int_body_decimal.
Qed.

Lemma int_base0_fmt_plus_d v : int_base0 (fmt_plus_d v) = Ok v.
Proof.
  unfold int_base0. rewrite strip_num by apply fmt_plus_d_num.
  unfold fmt_plus_d. destruct (Z.ltb_spec v 0).
  - change (signed_int int_body ("-" ++ fmt_nat 10 (- v))) with (Z.opp <$> int_body (fmt_nat 10 (- v))).
    rewrite int_body_decimal by lia. cbn. by rewrite Z.opp_involutive.
  - change (signed_int int_body ("+" ++ fmt_nat 10 v)) with (int_body (fmt_nat 10 v)).
    by rewrite int_body_decimal.
Qed.

(** [int(f"0x{v:x}", 0)]. *)
Lemma int_base0_hex v : 0 <= v -> int_base0 ("0x" ++ fmt_nat 16 v) = Ok v.
Proof.
  intros Hv. unfold int_base0. rewrite strip_word.
  - change (signed_int int_body ("0x" ++ fmt_nat 16 v)) with
      (match fmt_nat 16 v with "" => None | _ => int_prefixed 16 (fmt_nat 16 v) end).
    destruct (fmt_nat_head 16 ltac:(lia) v Hv) as (d & s & E & _). rewrite E. rewrite <- E.
    unfold int_prefixed. by rewrite fmt_nat_parse by lia.
  - rewrite str_all_app, fmt_nat_word by lia. done.
Qed.

(** [f"{n:03x}"] keeps the value. *)
Lemma int_digits_zeros base k s : 2 <= base -> 
  int_digits base (zeros k ++ s) 0 true = int_digits base s 0 true.
Proof.
  intros Hb. induction k as [|k IH]; [done|]. change (zeros (S k) ++ s) with (String "0" (zeros k ++ s)).
  cbn [int_digits Ascii.eqb Bool.eqb]. change (digit_value "0") with 0.
  destruct (Z.ltb_spec 0 base); [|lia]. by replace (base * 0 + 0) with 0 by lia.
Qed.

Lemma zeros_word k : str_all is_word (zeros k) = true.
Proof. by induction k. Qed.

Lemma int_base0_hex_pad w v : 0 <= v -> int_base0 ("0x" ++ fmt_0x w v) = Ok v.
Proof.
  intros Hv. unfold fmt_0x, zfill. set (k := (w - _)%nat).
  destruct k as [|k].
  - change (zeros 0 ++ fmt_nat 16 v) with (fmt_nat 16 v). by apply int_base0_hex.
  - unfold int_base0. rewrite strip_word.
    + change (signed_int int_body ("0x" ++ (zeros (S k) ++ fmt_nat 16 v))) with
        (int_digits 16 (zeros (S k) ++ fmt_nat 16 v) 0 true).
      rewrite int_digits_zeros by lia. by rewrite fmt_nat_parse by lia.
    + rewrite !str_all_app, zeros_word, fmt_nat_word by lia. done.
Qed.

(** ** Statements *)

(** A character that ends no token and starts no comment or label. *)
Definition plain (c : ascii) : bool :=
  negb (is_sep c) && negb (Ascii.eqb c "#") && negb (Ascii.eqb c ":").
Definition token (s : string) : bool := negb (String.eqb s "") && str_all plain s.

(** [mn a,b,c] and, with another separator, [mn a, b, c]. *)
Definition joined (sep : string) (args : list string) : string := String.concat sep args.
Definition statement_by (sep mn : string) (args : list string) : string := mn ++ " " ++ joined sep args.
Definition statement (mn : string) (args : list string) : string := statement_by "," mn args.

Lemma token_spec s : token s = true -> s <> "" /\ str_all plain s = true.
Proof.
  intros [H1 H2]%andb_true_iff. split; [|done]. by apply negb_true_iff, String.eqb_neq in H1.
Qed.

Lemma plain_not_space c : plain c = true -> is_space c = false.
Proof. destruct c as [[] [] [] [] [] [] [] []]; vm_compute; congruence. Qed.

Lemma plain_solid s : str_all plain s = true -> str_all (fun c => negb (is_space c)) s = true.
Proof. apply str_all_impl. intros c H. by rewrite plain_not_space. Qed.

Lemma num_plain s : str_all is_num s = true -> str_all plain s = true.
Proof. apply str_all_impl. intros c. destruct c as [[] [] [] [] [] [] [] []]; vm_compute; congruence. Qed.

Lemma split_plain a s cur : str_all plain a = true ->
  split_seps (a ++ s) cur false = split_seps s (cur ++ a) false.
Proof.
  revert cur. induction a as [|c a IH]; intros cur Ha; [by rewrite app_nil_s|].
  rewrite str_all_cons in Ha. apply andb_true_iff in Ha as [Hc Ha].
  rewrite app_cons. cbn [split_seps]. unfold plain in Hc.
  destruct (is_sep c); [done|]. rewrite IH by done. by rewrite app_assoc_s.
Qed.

Lemma split_token a s cur : token a = true ->
  split_seps (a ++ s) cur true = split_seps s (cur ++ a) false.
Proof.
  intros [Hn Ha]%token_spec. rewrite <- split_plain by done. destruct a as [|c a]; [done|].
  rewrite str_all_cons in Ha. apply andb_true_iff in Ha as [Hc Ha].
  rewrite app_cons. cbn [split_seps]. unfold plain in Hc. by destruct (is_sep c).
Qed.

(** Separators and white space between two tokens. *)
Lemma split_sep sep s cur : str_all is_sep sep = true -> sep <> "" ->
  split_seps (sep ++ s) cur false = cur :: split_seps s "" true.
Proof.
  destruct sep as [|c sep]; [done|]. rewrite str_all_cons. intros [Hc Hs]%andb_true_iff _.
  rewrite app_cons. cbn [split_seps]. rewrite Hc. f_equal.
  induction sep as [|d sep IH]; [done|]. rewrite str_all_cons in Hs. apply andb_true_iff in Hs as [Hd Hs].
  rewrite app_cons. cbn [split_seps]. rewrite Hd. by apply IH.
Qed.

Section Statements.
(** A separator of statements: commas and blanks. *)
Context (sep : string) (Hsep : str_all is_sep sep = true) (Hne : sep <> "").

Lemma joined_cons a b args : joined sep (a :: b :: args) = a ++ sep ++ joined sep (b :: args).
Proof. done. Qed.

Lemma split_joined args : args <> [] -> forallb token args = true ->
  split_seps (joined sep args) "" true = args.
Proof.
  induction args as [|a args IH]; [done|]. intros _. cbn [forallb]. intros [Ha Hargs]%andb_true_iff.
  destruct args as [|b args].
  - cbn [joined String.concat]. rewrite <- (app_nil_s a) at 1. by rewrite split_token.
  - rewrite joined_cons, split_token, app_empty, split_sep by done. by rewrite IH.
Qed.

(** A statement splits into its mnemonic and its operands. *)
Lemma split_statement mn args : token mn = true -> args <> [] -> forallb token args = true ->
  split_args (statement_by sep mn args) = mn :: args.
Proof.
  intros Hm Hn Ha. unfold split_args, statement_by.
  change (" " ++ joined sep args) with (String " " (joined sep args)).
  apply token_spec in Hm as [_ Hm]. rewrite split_plain by done.
  cbn [split_seps is_sep is_space Ascii.eqb Bool.eqb orb]. by rewrite app_empty, split_joined.
Qed.

(** The last token, for the end of a line. *)
Lemma joined_last args : args <> [] -> forallb token args = true ->
  exists pre l, joined sep args = pre ++ l /\ token l = true.
Proof.
  induction args as [|a args IH]; [done|]. intros _. cbn [forallb]. intros [Ha Hargs]%andb_true_iff.
  destruct args as [|b args]; [by exists "", a|].
  destruct (IH ltac:(done) Hargs) as (pre & l & E & Hl).
  exists (a ++ sep ++ pre), l. split; [|done]. by rewrite joined_cons, E, !app_assoc_s.
Qed.

Lemma statement_strip mn args : token mn = true -> args <> [] -> forallb token args = true ->
  strip (statement_by sep mn args) = statement_by sep mn args /\
  ends_with_colon (statement_by sep mn args) = false.
Proof.
  intros Hm Hn Ha. destruct (joined_last args Hn Ha) as (pre & l & E & [Hl0 Hl]%token_spec).
  assert (Es : statement_by sep mn args = (mn ++ " " ++ pre) ++ l)
    by (unfold statement_by; by rewrite E, !app_assoc_s).
  split.
  - unfold strip. replace (lstrip (statement_by sep mn args)) with (statement_by sep mn args).
    + rewrite Es. apply rstrip_app; [by apply plain_solid|done].
    + apply token_spec in Hm as [Hm0 Hm]. unfold statement_by. destruct mn as [|c mn]; [done|].
      rewrite str_all_cons in Hm. apply andb_true_iff in Hm as [Hc _].
      rewrite app_cons. symmetry. apply lstrip_first. by apply plain_not_space.
  - unfold ends_with_colon. rewrite Es, last_char_app by done.
    destruct (last_char l) as [c|] eqn:Ec; [|done].
    apply (last_char_all plain) in Ec; [|done]. unfold plain in Ec.
    apply andb_true_iff in Ec as [_ Ec]. by apply negb_true_iff.
Qed.

Lemma str_all_joined (p : ascii -> bool) args : str_all p sep = true -> forallb (str_all p) args = true ->
  str_all p (joined sep args) = true.
Proof.
  intros Hp. induction args as [|a args IH]; [done|]. cbn [forallb]. intros [Ha Hargs]%andb_true_iff.
  destruct args as [|b args]; [done|].
  rewrite joined_cons, !str_all_app, Ha, Hp, IH by done. done.
Qed.

Lemma before_none c s : str_all (fun d => negb (Ascii.eqb c d)) s = true -> before c s = s.
Proof. intros H. unfold before. by rewrite span_all. Qed.

Lemma token_no_comment s : token s = true -> str_all (fun d => negb (Ascii.eqb "#" d)) s = true.
Proof.
  intros [_ Hs]%token_spec. eapply str_all_impl; [|exact Hs].
  intros c. unfold plain. rewrite (Ascii.eqb_sym c "#"). intros [[_ H]%andb_true_iff _]%andb_true_iff. done.
Qed.

Lemma clean_statement mn args : token mn = true -> args <> [] -> forallb token args = true ->
  clean_line (statement_by sep mn args) = statement_by sep mn args.
Proof.
  intros Hm Hn Ha. unfold clean_line. rewrite before_none; [by apply statement_strip|].
  unfold statement_by. rewrite !str_all_app, token_no_comment by done.
  cbn [str_all andb negb Ascii.eqb Bool.eqb].
  apply str_all_joined; [|rewrite forallb_forall in *; intros s Hs; auto using token_no_comment].
  eapply str_all_impl; [|exact Hsep]. intros c. destruct c as [[] [] [] [] [] [] [] []]; vm_compute; congruence.
Qed.

(** The label pass files a statement under the current address. *)
Lemma scan_statement l mn args : token mn = true -> args <> [] -> forallb token args = true ->
  scan_line l (statement_by sep mn args) =
    mkLayout (stmts l ++ [(here l, statement_by sep mn args)]) (labels l) (here l + 4).
Proof.
  intros Hm Hn Ha. destruct (statement_strip mn args Hm Hn Ha) as [Hst Hcol].
  assert (Hne' : String.eqb (statement_by sep mn args) "" = false).
  { apply String.eqb_neq. apply token_spec in Hm as [Hm _]. unfold statement_by. destruct mn; done. }
  unfold scan_line. by rewrite clean_statement, Hcol, Hne' by done.
Qed.

(** The dispatch on a statement. *)
Lemma asm_stmt_statement lbls xlen cur mn args :
  token mn = true -> args <> [] -> forallb token args = true ->
  asm_stmt lbls xlen cur (statement_by sep mn args) =
    asm_compute xlen (lower mn) args (asm_control lbls cur (lower mn) args
       (asm_system (lower mn) args (asm_float (lower mn) args
          (asm_rest (lower mn) (statement_by sep mn args) args)))).
Proof.
  intros Hm Hn Ha. unfold asm_stmt.
  by rewrite (proj1 (statement_strip mn args Hm Hn Ha)), split_statement by done.
Qed.
End Statements.

(** A one-statement program assembles to the statement's word. *)
Lemma assemble_statement mn args xlen : token mn = true -> args <> [] -> forallb token args = true ->
  assemble [statement mn args] xlen =
    (w ← asm_compute xlen (lower mn) args (asm_control [] 0 (lower mn) args
       (asm_system (lower mn) args (asm_float (lower mn) args
          (asm_rest (lower mn) (statement mn args) args)))); Ok [w]).
Proof.
  intros Hm Hn Ha. unfold assemble, scan, statement. cbn [fold_left].
  rewrite scan_statement by done. cbn [mapR stmts labels app here].
  by rewrite asm_stmt_statement by done.
Qed.

(** A bare mnemonic. *)
Lemma bare_line mn : token mn = true ->
  strip mn = mn /\ clean_line mn = mn /\ ends_with_colon mn = false /\ split_args mn = [mn].
Proof.
  intros Hm. pose proof (token_no_comment mn Hm) as Hc. apply token_spec in Hm as Ht. destruct Ht as [H0 Hp].
  assert (Hs : strip mn = mn).
  { unfold strip. destruct mn as [|c mn]; [done|]. rewrite str_all_cons in Hp.
    pose proof Hp as [Hc' _]%andb_true_iff. rewrite lstrip_first by (by apply plain_not_space).
    apply rstrip_solid, plain_solid. by rewrite str_all_cons. }
  split_and!; [done| | |].
  - unfold clean_line. by rewrite before_none.
  - unfold ends_with_colon. destruct (last_char mn) as [c|] eqn:E; [|done].
    apply (last_char_all plain) in E; [|done]. unfold plain in E.
    apply andb_true_iff in E as [_ E]. by apply negb_true_iff.
  - unfold split_args. rewrite <- (app_nil_s mn) at 1. by rewrite split_plain.
Qed.
