(* ===== verification/DisasmTexts.v ===== *)
(** * Texts of instruction words

    Lemmas for the round trip of the disassembler and the assembler: how
    operand texts parse, what each family of the dispatch does with a
    mnemonic, and the text [disasm] prints for a word with given fields. *)

From S2P Require Import Prelude Words PyStr Machine Mmu IntAlu Float32 Float32Facts Step StepFacts.
From S2P Require Import Asm AsmFacts AsmText Disasm TextFacts.
#[local] Open Scope string_scope.
#[local] Open Scope Z_scope.

(** ** Operand texts *)

Definition reg5 (n : Z) : Prop := 0 <= n < 32.

Lemma match_reg_text c n : 0 <= n -> is_space c = false ->
  match_reg c (String c (fmt_nat 10 n)) = Some n.
Proof.
  intros Hn Hc. unfold match_reg.
  assert (Hd : str_all is_digit (fmt_nat 10 n) = true).
  { apply (fmt_nat_all 10 ltac:(lia)). intros d Hd.
    destruct (digit_char_facts d ltac:(lia)) as (_ & _ & _ & H). apply H. lia. }
  assert (Hs : str_all (fun c => negb (is_space c)) (fmt_nat 10 n) = true).
  { eapply str_all_impl; [|apply (fmt_nat_word 10 n ltac:(lia))].
    intros c' H. by rewrite word_not_space. }
  assert (Hst : strip (String c (fmt_nat 10 n)) = String c (fmt_nat 10 n)).
  { unfold strip. rewrite lstrip_first by done. apply rstrip_solid.
    rewrite str_all_cons, Hc. done. }
  rewrite Hst, Ascii.eqb_refl, span_all by done.
  pose proof (fmt_nat_parse 10 ltac:(lia) n false Hn) as Hp.
  destruct (fmt_nat_head 10 ltac:(lia) n Hn) as (d & s & E & _). rewrite E in *. done.
Qed.

Lemma fmt_d_nat n : 0 <= n -> fmt_d n = fmt_nat 10 n.
Proof. intros Hn. unfold fmt_d. destruct (Z.ltb_spec n 0); [lia|done]. Qed.

Lemma reg_x n : reg5 n -> Asm.reg (x_ n) = Ok n.
Proof.
  intros Hn. unfold reg5 in Hn. unfold Asm.reg, x_. rewrite fmt_d_nat by lia.
  change ("x" ++ fmt_nat 10 n) with (String "x" (fmt_nat 10 n)).
  rewrite match_reg_text by (lia || done).
  destruct (Z.leb_spec 0 n), (Z.leb_spec n 31); (lia || done).
Qed.

Lemma freg_f n : reg5 n -> Asm.freg (f_ n) = Ok n.
Proof.
  intros Hn. unfold reg5 in Hn. unfold Asm.freg, f_. rewrite fmt_d_nat by lia.
  change ("f" ++ fmt_nat 10 n) with (String "f" (fmt_nat 10 n)).
  rewrite match_reg_text by (lia || done).
  destruct (Z.leb_spec 0 n), (Z.leb_spec n 31); (lia || done).
Qed.

Lemma token_num c s : plain c = true -> str_all is_num s = true -> token (String c s) = true.
Proof.
  intros Hc Hs. unfold token. rewrite str_all_cons, Hc, (num_plain s Hs). done.
Qed.

Lemma token_x n : token (x_ n) = true.
Proof. apply (token_num "x"); [done|apply fmt_d_num]. Qed.
Lemma token_f n : token (f_ n) = true.
Proof. apply (token_num "f"); [done|apply fmt_d_num]. Qed.

Lemma fmt_d_nonempty v : String.eqb (fmt_d v) "" = false.
Proof.
  unfold fmt_d. destruct (Z.ltb_spec v 0); [done|].
  destruct (fmt_nat_head 10 ltac:(lia) v ltac:(lia)) as (d & s & -> & _). done.
Qed.

Lemma token_d v : token (fmt_d v) = true.
Proof. unfold token. rewrite fmt_d_nonempty, num_plain by apply fmt_d_num. done. Qed.

Lemma token_plus_d v : token (fmt_plus_d v) = true.
Proof.
  unfold token. rewrite num_plain by apply fmt_plus_d_num.
  unfold fmt_plus_d. by destruct (v <? 0).
Qed.

Lemma token_at off r : token (at_reg off r) = true.
Proof.
  unfold token, at_reg. apply andb_true_iff. split.
  - apply negb_true_iff, String.eqb_neq. pose proof (fmt_d_nonempty off) as H.
    apply String.eqb_neq in H. by destruct (fmt_d off).
  - rewrite !str_all_app, num_plain by apply fmt_d_num. destruct (token_spec _ (token_x r)) as [_ H].
    by rewrite H.
Qed.

Lemma match_mem_at off r : reg5 r -> match_mem (at_reg off r) = Some (fmt_d off, x_ r).
Proof.
  intros Hr. unfold reg5 in Hr. unfold match_mem, at_reg.
  assert (Hw : forall n, str_all is_word (fmt_nat 10 n) = true) by (intros; apply fmt_nat_word; lia).
  assert (Hd : str_all is_digit (fmt_nat 10 r) = true).
  { apply (fmt_nat_all 10 ltac:(lia)). intros d Hd.
    destruct (digit_char_facts d ltac:(lia)) as (_ & _ & _ & H). apply H. lia. }
  unfold x_. rewrite (fmt_d_nat r) by lia.
  change ("(" ++ ("x" ++ fmt_nat 10 r) ++ ")") with (String "(" (String "x" (fmt_nat 10 r ++ String ")" ""))).
  assert (Hcore : forall sg n, 0 <= n ->
    (let '(w, s) := PyStr.span is_word (fmt_nat 10 n ++ String "(" (String "x" (fmt_nat 10 r ++ String ")" ""))) in
     match w with
     | "" => None
     | _ =>
         s ← prefix_char "(" s; s ← prefix_char "x" s;
         let '(d, s) := PyStr.span is_digit s in
         match d with "" => None | _ => _ ← prefix_char ")" s; Some (sg ++ w, "x" ++ d) end
     end) = Some (sg ++ fmt_nat 10 n, "x" ++ fmt_nat 10 r)).
  { intros sg n Hn. rewrite span_app by done.
    destruct (fmt_nat_head 10 ltac:(lia) n Hn) as (d & s & E & _). rewrite E. rewrite <- E. cbn [mbind option_bind prefix_char Ascii.eqb Bool.eqb].
    rewrite span_app by done.
    destruct (fmt_nat_head 10 ltac:(lia) r ltac:(lia)) as (d' & s' & E' & _). rewrite E'. rewrite <- E'.
    reflexivity. }
  unfold fmt_d. destruct (Z.ltb_spec off 0).
  - exact (Hcore "-" (- off) ltac:(lia)).
  - assert (Hp : forall t, prefix_char "-" (fmt_nat 10 off ++ t) = None).
    { intros t. destruct (fmt_nat_head 10 ltac:(lia) off ltac:(lia)) as (d & s & -> & Hd' & _).
      rewrite app_cons. unfold prefix_char. rewrite Ascii.eqb_sym, digit_char_not by (lia || done). done. }
    rewrite Hp. exact (Hcore "" off ltac:(lia)).
Qed.

(** A token that parses to [v] encodes as the integer [v]. *)
Lemma imm_tok t v bits signed : int_base0 t = Ok v -> imm (OTok t) bits signed = imm (OInt v) bits signed.
Proof. intros H. unfold imm. by rewrite H. Qed.

(** ** The dispatch, one family at a time *)

Definition compute_mn (mn : string) : bool :=
  in_names mn ["nop"; "rev8"; "zext.w"; "roriw"; "slli.uw"] || dict_has R_TYPE mn || dict_has I_TYPE mn ||
  dict_has I_TYPE_BEXT_SHAMT mn || dict_has I_TYPE_BEXT_FIXED mn || dict_has R_TYPE_W mn ||
  dict_has I_TYPE_W mn || dict_has I_TYPE_W_BEXT_FIXED mn.
Definition control_mn (mn : string) : bool :=
  in_names mn ["jal"; "jalr"; "lui"; "auipc"] || dict_has LOAD mn || dict_has STORE mn ||
  dict_has BRANCH mn.
Definition system_mn (mn : string) : bool :=
  in_names mn ["csrrw"; "csrrs"; "csrrc"; "csrrwi"; "csrrsi"; "csrrci"; "ecall"; "ebreak"; "mret";
               "sret"; "sfence.vma"; "fence"; "word"].

Lemma asm_compute_skip xl mn args rest : compute_mn mn = false -> asm_compute xl mn args rest = rest.
Proof.
  intros H. unfold compute_mn, in_names in H. cbn [existsb] in H. unfold asm_compute.
  repeat (apply orb_false_iff in H as [H ?]).
  repeat match goal with H : _ || _ = false |- _ => apply orb_false_iff in H as [? ?] end.
  by repeat match goal with H : ?b = false |- context [if ?b then _ else _] => rewrite H end.
Qed.

Lemma asm_control_skip lbls cur mn args rest : control_mn mn = false ->
  asm_control lbls cur mn args rest = rest.
Proof.
  intros H. unfold control_mn, in_names in H. cbn [existsb] in H. unfold asm_control.
  repeat match goal with H : _ || _ = false |- _ => apply orb_false_iff in H as [? ?] end.
  by repeat match goal with H : ?b = false |- context [if ?b then _ else _] => rewrite H end.
Qed.

Lemma asm_system_skip mn args rest : system_mn mn = false -> asm_system mn args rest = rest.
Proof.
  intros H. unfold system_mn, in_names in H. cbn [existsb] in H. unfold asm_system, in_names. cbn [existsb].
  repeat match goal with H : _ || _ = false |- _ => apply orb_false_iff in H as [? ?] end.
  by repeat match goal with H : ?b = false |- context [?b] => rewrite H; cbn [orb] end.
Qed.

(** A mnemonic that is its own lower case. *)
Definition mnemonic (mn : string) : bool := token mn && String.eqb (lower mn) mn.

Lemma table_keys {A} (d : list (string * A)) (P : string -> bool) k v :
  forallb (fun kv => P (fst kv)) d = true -> dict_get d k = Ok v -> P k = true.
Proof.
  intros Hf Hg. unfold dict_get in Hg. destruct (dict_find d k) as [v'|] eqn:E; [|done].
  clear Hg. induction d as [|[k' v''] d IH]; cbn in E, Hf; [done|].
  apply andb_true_iff in Hf as [H1 H2]. destruct (String.eqb k k') eqn:Ek; [|auto].
  apply String.eqb_eq in Ek as ->. done.
Qed.

Lemma dict_get_has {A} (d : list (string * A)) k v : dict_get d k = Ok v -> dict_has d k = true.
Proof. unfold dict_get, dict_has. by destruct (dict_find d k). Qed.

Lemma dict_get_find {A} (d : list (string * A)) k v : dict_get d k = Ok v -> dict_find d k = Some v.
Proof. unfold dict_get. destruct (dict_find d k); [by intros ->%Ok_inj|done]. Qed.

(** What each family of mnemonics does with its operands. *)
Section Dispatch.
Context (xl : Z) (mn : string) (args : list string).
Context (Hmn : mnemonic mn = true) (Hargs : args <> []) (Htok : forallb token args = true).

Lemma assemble_mnemonic :
  assemble [statement mn args] xl =
    (w ← asm_compute xl mn args (asm_control [] 0 mn args
       (asm_system mn args (asm_float mn args (asm_rest mn (statement mn args) args)))); Ok [w]).
Proof.
  unfold mnemonic in Hmn. apply andb_true_iff in Hmn as [Ht Hl%String.eqb_eq].
  rewrite assemble_statement by done. by rewrite Hl.
Qed.

Lemma assemble_control : compute_mn mn = false ->
  assemble [statement mn args] xl =
    (w ← asm_control [] 0 mn args
       (asm_system mn args (asm_float mn args (asm_rest mn (statement mn args) args))); Ok [w]).
Proof. intros H. by rewrite assemble_mnemonic, asm_compute_skip. Qed.

Lemma assemble_system : compute_mn mn = false -> control_mn mn = false ->
  assemble [statement mn args] xl =
    (w ← asm_system mn args (asm_float mn args (asm_rest mn (statement mn args) args)); Ok [w]).
Proof. intros H1 H2. by rewrite assemble_control, asm_control_skip. Qed.

Lemma assemble_float : compute_mn mn = false -> control_mn mn = false -> system_mn mn = false ->
  assemble [statement mn args] xl =
    (w ← asm_float mn args (asm_rest mn (statement mn args) args); Ok [w]).
Proof. intros H1 H2 H3. by rewrite assemble_system, asm_system_skip. Qed.
End Dispatch.

(** ** Words and texts *)

(** The disassembler's dispatch on a word of known major opcode. *)
Ltac disasm_op Hop :=
  unfold disasm;
  rewrite (proj2 (Z.eqb_neq _ 0x13)) by (intros Hz; rewrite Hz in Hop; discriminate Hop);
  rewrite (proj2 (Z.eqb_neq _ 0)) by (intros Hz; rewrite Hz in Hop; discriminate Hop);
  cbv zeta; rewrite Hop;
  cbn [Z.eqb Pos.eqb OP_R OP_32 OP_I OP_IMM32 OP_LOAD OP_STORE OP_BRANCH OP_JAL OP_JALR OP_LUI
       OP_AUIPC OP_SYSTEM OP_FLW OP_FSW OP_FP OP_FMADD OP_FMSUB OP_FNMSUB OP_FNMADD zfind MADD_NAMES].

Lemma rrr_statement mn w : rrr mn w = statement mn [x_ (w_rd w); x_ (w_rs1 w); x_ (w_rs2 w)].
Proof. reflexivity. Qed.

Lemma rr_statement mn w : rr mn w = statement mn [x_ (w_rd w); x_ (w_rs1 w)].
Proof. reflexivity. Qed.

Lemma rri_statement mn w i : rri mn w i = statement mn [x_ (w_rd w); x_ (w_rs1 w); fmt_d i].
Proof. unfold rri, rr, statement, statement_by. cbn [joined String.concat]. by rewrite !app_assoc_s. Qed.

(** The fields of a word, as the disassembler reads them. *)
Record decoded (w f7 rs2 rs1 f3 rd op : Z) : Prop := {
  dec_op : w_op w = op;
  dec_rd : w_rd w = rd;
  dec_f3 : w_f3 w = f3;
  dec_rs1 : w_rs1 w = rs1;
  dec_rs2 : w_rs2 w = rs2;
  dec_f7 : w_f7 w = f7;
  dec_f6 : (w >> 26) .& 0x3F = f7 `div` 2;
  dec_f5 : (w >> 27) .& 0x1F = f7 `div` 4;
  dec_top : (w >> 20) .& 0xFFF = f7 * 32 + rs2;
  dec_sh6 : (w >> 20) .& 0x3F = (f7 * 32 + rs2) `mod` 64
}.

Lemma decoded_r_word f7 rs2 rs1 f3 rd op :
  0 <= f7 < 128 -> reg5 rs2 -> reg5 rs1 -> 0 <= f3 < 8 -> reg5 rd -> 0 <= op < 128 ->
  decoded (r_word f7 rs2 rs1 f3 rd op) f7 rs2 rs1 f3 rd op.
Proof.
  unfold reg5. intros. constructor;
    [by apply r_word_op|by apply r_word_rd|by apply r_word_f3|by apply r_word_rs1|by apply r_word_rs2
    |by apply r_word_f7| | |by apply r_word_top12|];
    rewrite r_word_sum by done; fold_masks; rewrite ?shiftr_pow by done;
    change (2 ^ 27) with 134217728; change (2 ^ 26) with 67108864;
    change (2 ^ 25) with 33554432; change (2 ^ 20) with 1048576; change (2 ^ 15) with 32768;
    change (2 ^ 12) with 4096; change (2 ^ 7) with 128; change (2 ^ 6) with 64; change (2 ^ 5) with 32;
    Z.to_euclidean_division_equations; lia.
Qed.

(** Rewrite a text with the fields of its word. *)
Ltac by_decoded H :=
  unfold rrr; rewrite ?(dec_rd _ _ _ _ _ _ _ H), ?(dec_f3 _ _ _ _ _ _ _ H),
    ?(dec_rs1 _ _ _ _ _ _ _ H), ?(dec_rs2 _ _ _ _ _ _ _ H), ?(dec_f7 _ _ _ _ _ _ _ H),
    ?(dec_f6 _ _ _ _ _ _ _ H), ?(dec_f5 _ _ _ _ _ _ _ H), ?(dec_top _ _ _ _ _ _ _ H),
    ?(dec_sh6 _ _ _ _ _ _ _ H).

Definition f73_ok (f : Z * Z) : bool := (0 <=? fst f) && (fst f <? 128) && (0 <=? snd f) && (snd f <? 8).

Lemma f73_range f7 f3 : f73_ok (f7, f3) = true -> 0 <= f7 < 128 /\ 0 <= f3 < 8.
Proof. unfold f73_ok. cbn [fst snd]. lia. Qed.

(** Register-register mnemonics. *)
Section Texts.
Context (xl w rd rs1 rs2 f7 f3 : Z) (mn : string).

Lemma r_type_text : decoded w f7 rs2 rs1 f3 rd OP_R -> dict_get R_TYPE mn = Ok (f7, f3) ->
  disasm w xl = statement mn [x_ rd; x_ rs1; x_ rs2].
Proof.
  intros D Hf%dict_get_find. pose proof (dec_op _ _ _ _ _ _ _ D) as Hop.
  disasm_op Hop. unfold disasm_r. by_decoded D.
  unfold R_TYPE in Hf. cbn [dict_find] in Hf. table_cases Hf; injection Hf as <- <-; reflexivity.
Qed.

Lemma r_type_w_text : decoded w f7 rs2 rs1 f3 rd OP_32 -> dict_get R_TYPE_W mn = Ok (f7, f3) ->
  disasm w xl = statement mn [x_ rd; x_ rs1; x_ rs2].
Proof.
  intros D Hf%dict_get_find. pose proof (dec_op _ _ _ _ _ _ _ D) as Hop.
  disasm_op Hop. unfold disasm_32. by_decoded D.
  unfold R_TYPE_W in Hf. cbn [dict_find] in Hf. table_cases Hf; injection Hf as <- <-; reflexivity.
Qed.
End Texts.

(** ** Immediate mnemonics *)

(** The fields of an I-type word with immediate field [v]. *)
Record decoded_i (w v rs1 f3 rd op : Z) : Prop := {
  di_op : w_op w = op;
  di_rd : w_rd w = rd;
  di_f3 : w_f3 w = f3;
  di_rs1 : w_rs1 w = rs1;
  di_rs2 : (w >> 20) .& 0x1F = v `mod` 32;
  di_f7 : w_f7 w = v `div` 32;
  di_f6 : (w >> 26) .& 0x3F = v `div` 64;
  di_top : (w >> 20) .& 0xFFF = v;
  di_sh6 : (w >> 20) .& 0x3F = v `mod` 64;
  di_imm : d_imm_i w = sext v 12
}.

Lemma d_imm_i_top w : d_imm_i w = sext ((w >> 20) .& 0xFFF) 12.
Proof.
  unfold d_imm_i. change 0xFFF with (Z.ones 12). rewrite land_mask, !sext_swrap by done.
  symmetry. by apply swrap_wrap.
Qed.

Lemma decoded_i_word v f3 rd rs1 op :
  0 <= v < 4096 -> reg5 rs1 -> 0 <= f3 < 8 -> reg5 rd -> 0 <= op < 128 ->
  decoded_i (i_type_raw v f3 rd rs1 op) v rs1 f3 rd op.
Proof.
  intros Hv H1 H3 Hd Ho. unfold i_type_raw. rewrite u12 by done. rewrite i_word_fields by done.
  assert (0 <= v `div` 32 < 128 /\ 0 <= v `mod` 32 < 32) as [Ha Hb]
    by (Z.to_euclidean_division_equations; lia).
  pose proof (decoded_r_word (v `div` 32) (v `mod` 32) rs1 f3 rd op Ha Hb H1 H3 Hd Ho) as D.
  assert (Ev : v `div` 32 * 32 + v `mod` 32 = v) by (Z.to_euclidean_division_equations; lia).
  destruct D as [E1 E2 E3 E4 E5 E6 E7 E8 E9 E10]. rewrite Ev in *.
  constructor; try done.
  - rewrite E7. by rewrite Z.div_div by done.
  - by rewrite d_imm_i_top, E9.
Qed.

Ltac by_decoded_i H :=
  rewrite ?rri_statement, ?rr_statement, ?rrr_statement;
  rewrite ?(di_rd _ _ _ _ _ _ H), ?(di_f3 _ _ _ _ _ _ H),
    ?(di_rs1 _ _ _ _ _ _ H), ?(di_rs2 _ _ _ _ _ _ H), ?(di_f7 _ _ _ _ _ _ H),
    ?(di_f6 _ _ _ _ _ _ H), ?(di_top _ _ _ _ _ _ H), ?(di_sh6 _ _ _ _ _ _ H),
    ?(di_imm _ _ _ _ _ _ H).

(** Decide the comparisons of a dispatch on a word with known fields. *)
Ltac decide_eqbs :=
  repeat match goal with
  | |- context [Z.eqb ?a ?b] =>
      first [ rewrite (proj2 (Z.eqb_neq a b)) by lia | rewrite (proj2 (Z.eqb_eq a b)) by lia ]
  end; cbn [andb orb negb].

Lemma mask_shamt f w s : 0 <= s < 2 ^ w -> 0 <= w -> (f << w) .| s = f * 2 ^ w + s.
Proof. intros. by apply lor_low_add. Qed.

Section ImmTexts.
Context (xl w rd rs1 : Z).

(** The base immediate arms print the sign-extended immediate. *)
Lemma i_plain_text v f3 mn : decoded_i w v rs1 f3 rd OP_I -> w <> 0x13 ->
  f3 <> 1 -> f3 <> 5 -> zfind imm_names f3 = Some mn ->
  disasm w xl = statement mn [x_ rd; x_ rs1; fmt_d (sext v 12)].
Proof.
  intros D Hn H1 H5 Hz. pose proof (di_op _ _ _ _ _ _ D) as Hop.
  unfold disasm. rewrite (proj2 (Z.eqb_neq w 0x13)) by done.
  rewrite (proj2 (Z.eqb_neq w 0)) by (intros ->; discriminate Hop). cbv zeta. rewrite Hop.
  cbn [Z.eqb Pos.eqb OP_I OP_R]. unfold disasm_i, disasm_i_ext. cbv zeta. by_decoded_i D.
  rewrite (proj2 (Z.eqb_neq f3 1)), (proj2 (Z.eqb_neq f3 5)) by done. cbn [andb orb]. by rewrite Hz.

Qed.
End ImmTexts.

Lemma sha_none v : v < 0x100 \/ 0x107 < v -> zfind sha_names v = None.
Proof. intros H. cbn [zfind sha_names]. by decide_eqbs. Qed.

Lemma low6 f s : 0 <= s < 64 -> (f * 64 + s) `div` 64 = f /\ (f * 64 + s) `mod` 64 = s.
Proof. intros H. Z.to_euclidean_division_equations; lia. Qed.

Lemma low5 f s : 0 <= s < 32 ->
  (f * 32 + s) `div` 32 = f /\ (f * 32 + s) `mod` 32 = s /\ (f * 32 + s) `div` 64 = f `div` 2.
Proof. intros H. Z.to_euclidean_division_equations; lia. Qed.

Lemma land_63 v : v .& 0x3F = v `mod` 64.
Proof. change 0x3F with (Z.ones 6). by apply land_mask. Qed.

Lemma land_31 v : v .& 0x1F = v `mod` 32.
Proof. change 0x1F with (Z.ones 5). by apply land_mask. Qed.

Ltac opI Hop Hn :=
  unfold disasm; rewrite (proj2 (Z.eqb_neq _ 0x13)) by exact Hn;
  rewrite (proj2 (Z.eqb_neq _ 0)) by (intros Hz; rewrite Hz in Hop; discriminate Hop);
  cbv zeta; rewrite Hop; cbn [Z.eqb Pos.eqb OP_I OP_R].

Section ShiftTexts.
Context (xl w rd rs1 s : Z) (Hn : w <> 0x13).

Lemma shift64_text f6 f3 : 64 <= xl -> 0 <= s < 64 ->
  (f6 = 0 /\ (f3 = 1 \/ f3 = 5)) \/ (f6 = 0x10 /\ f3 = 5) ->
  decoded_i w (f6 * 64 + s) rs1 f3 rd OP_I ->
  disasm w xl = statement (if f3 =? 1 then "slli" else if f6 =? 0x10 then "srai" else "srli")
                  [x_ rd; x_ rs1; fmt_d s].
Proof.
  intros Hx Hs Hf D. pose proof (di_op _ _ _ _ _ _ D) as Hop. opI Hop Hn.
  unfold disasm_i, disasm_i_ext. cbv zeta. by_decoded_i D.
  rewrite sha_none by lia. destruct (low6 f6 s Hs) as [E1 E2]. rewrite E1, E2.
  destruct (Z.geb_spec xl 64); [|lia].
  destruct Hf as [[-> [-> | ->]]|[-> ->]]; cbn [Z.eqb Pos.eqb andb orb bool_decide]; decide_eqbs; reflexivity.
Qed.

Lemma shift32_text f7 f3 : xl < 64 -> 0 <= s < 32 ->
  (f7 = 0 /\ (f3 = 1 \/ f3 = 5)) \/ (f7 = 0x20 /\ f3 = 5) ->
  decoded_i w (f7 * 32 + s) rs1 f3 rd OP_I ->
  disasm w xl = statement (if f3 =? 1 then "slli" else if f7 =? 0x20 then "srai" else "srli")
                  [x_ rd; x_ rs1; fmt_d s].
Proof.
  intros Hx Hs Hf D. pose proof (di_op _ _ _ _ _ _ D) as Hop. opI Hop Hn.
  unfold disasm_i, disasm_i_ext. cbv zeta. by_decoded_i D.
  rewrite sha_none by lia. destruct (low5 f7 s Hs) as (E1 & E2 & E3). rewrite E1, E2, E3.
  destruct (Z.geb_spec xl 64); [lia|].
  destruct Hf as [[-> [-> | ->]]|[-> ->]]; decide_eqbs; reflexivity.
Qed.

(** Single-bit and rotate immediates. *)
Lemma bext_shamt_text mn f6 f3 : 0 <= s < 64 -> dict_get I_TYPE_BEXT_SHAMT mn = Ok (f6, f3) ->
  decoded_i w (f6 * 64 + s) rs1 f3 rd OP_I ->
  disasm w xl = statement mn [x_ rd; x_ rs1; fmt_d s].
Proof.
  intros Hs Hf%dict_get_find D. pose proof (di_op _ _ _ _ _ _ D) as Hop. opI Hop Hn.
  unfold disasm_i, disasm_i_ext. cbv zeta. by_decoded_i D.
  rewrite land_63. destruct (low6 f6 s Hs) as [E1 E2]. rewrite E1, E2.
  unfold I_TYPE_BEXT_SHAMT in Hf. cbn [dict_find] in Hf.
  table_cases Hf; injection Hf as <- <-; reflexivity.
Qed.

(** Unary mnemonics with a fixed immediate field. *)
Lemma bext_fixed_text mn v f3 : dict_get I_TYPE_BEXT_FIXED mn = Ok (v, f3) ->
  decoded_i w v rs1 f3 rd OP_I -> disasm w xl = statement mn [x_ rd; x_ rs1].
Proof.
  intros Hf%dict_get_find D. pose proof (di_op _ _ _ _ _ _ D) as Hop. opI Hop Hn.
  unfold disasm_i, disasm_i_ext. cbv zeta. by_decoded_i D.
  unfold I_TYPE_BEXT_FIXED in Hf. cbn [dict_find] in Hf.
  table_cases Hf; injection Hf as <- <-; reflexivity.
Qed.

Lemma rev8_text v : v = 0x698 \/ v = 0x6B8 -> decoded_i w v rs1 5 rd OP_I ->
  disasm w xl = statement "rev8" [x_ rd; x_ rs1].
Proof.
  intros Hv D. pose proof (di_op _ _ _ _ _ _ D) as Hop. opI Hop Hn.
  unfold disasm_i, disasm_i_ext. cbv zeta. by_decoded_i D. destruct Hv as [-> | ->]; reflexivity.
Qed.

Lemma aes64ks1i_text : 0 <= s < 16 -> decoded_i w (0x310 + s) rs1 1 rd OP_I ->
  disasm w xl = statement "aes64ks1i" [x_ rd; x_ rs1; fmt_d s].
Proof.
  intros Hs D. pose proof (di_op _ _ _ _ _ _ D) as Hop. opI Hop Hn.
  unfold disasm_i, disasm_i_ext. cbv zeta. by_decoded_i D.
  rewrite sha_none by lia. assert (E : (0x310 + s) `div` 64 = 12) by (Z.to_euclidean_division_equations; lia).
  assert (E' : (0x310 + s) `mod` 32 = 16 + s) by (Z.to_euclidean_division_equations; lia).
  rewrite E, E'. decide_eqbs. change 0xF with (Z.ones 4). rewrite land_mask by done.
  rewrite <- (Z.mod_small s (2 ^ 4)) at 2 by done. by rewrite <- (Z.add_mod_idemp_l 16) by done.
Qed.
End ShiftTexts.

Section Imm32Texts.
Context (xl w rd rs1 : Z).

Lemma i_w_text v mn s f3 : decoded_i w v rs1 f3 rd OP_IMM32 ->
  (f3 = 0 /\ mn = "addiw" /\ s = sext v 12) \/
  (f3 = 1 /\ mn = "slliw" /\ v = s /\ 0 <= s < 32) \/
  (f3 = 5 /\ mn = "srliw" /\ v = s /\ 0 <= s < 32) \/
  (f3 = 5 /\ mn = "sraiw" /\ v = 0x20 * 32 + s /\ 0 <= s < 32) ->
  disasm w xl = statement mn [x_ rd; x_ rs1; fmt_d s].
Proof.
  intros D H. pose proof (di_op _ _ _ _ _ _ D) as Hop. disasm_op Hop.
  unfold disasm_imm32. cbv zeta. by_decoded_i D.
  destruct H as [(-> & -> & ->)|[(-> & -> & -> & Hs)|[(-> & -> & -> & Hs)|(-> & -> & -> & Hs)]]].
  - reflexivity.
  - assert (E : s `div` 32 = 0 /\ s `mod` 32 = s /\ s `div` 64 = 0) by (Z.to_euclidean_division_equations; lia).
    destruct E as (E1 & E2 & E3). rewrite E1, E2, E3. reflexivity.
  - assert (E : s `div` 32 = 0 /\ s `mod` 32 = s) by (Z.to_euclidean_division_equations; lia).
    destruct E as (E1 & E2). rewrite E1, E2. reflexivity.
  - destruct (low5 0x20 s Hs) as (E1 & E2 & E3). rewrite E1, E2, E3. reflexivity.
Qed.

Lemma w_fixed_text mn v : dict_get I_TYPE_W_BEXT_FIXED mn = Ok v ->
  decoded_i w v rs1 1 rd OP_IMM32 -> disasm w xl = statement mn [x_ rd; x_ rs1].
Proof.
  intros Hf%dict_get_find D. pose proof (di_op _ _ _ _ _ _ D) as Hop. disasm_op Hop.
  unfold disasm_imm32. cbv zeta. by_decoded_i D.
  unfold I_TYPE_W_BEXT_FIXED in Hf. cbn [dict_find] in Hf.
  table_cases Hf; injection Hf as <-; reflexivity.
Qed.

Lemma roriw_text s : 0 <= s < 32 -> decoded_i w (0x30 * 32 + s) rs1 5 rd OP_IMM32 ->
  disasm w xl = statement "roriw" [x_ rd; x_ rs1; fmt_d s].
Proof.
  intros Hs D. pose proof (di_op _ _ _ _ _ _ D) as Hop. disasm_op Hop.
  unfold disasm_imm32. cbv zeta. by_decoded_i D. rewrite land_31.
  destruct (low5 0x30 s Hs) as (E1 & E2 & E3). rewrite E1, E2, E3. reflexivity.
Qed.

Lemma slli_uw_text s : 0 <= s < 64 -> decoded_i w (2 * 64 + s) rs1 1 rd OP_IMM32 ->
  disasm w xl = statement "slli.uw" [x_ rd; x_ rs1; fmt_d s].
Proof.
  intros Hs D. pose proof (di_op _ _ _ _ _ _ D) as Hop. disasm_op Hop.
  unfold disasm_imm32. cbv zeta. by_decoded_i D. rewrite land_63.
  destruct (low6 2 s Hs) as [E1 E2]. rewrite E1, E2.
  assert ((2 * 64 + s) `div` 32 = 4 \/ (2 * 64 + s) `div` 32 = 5) as [E|E]
    by (Z.to_euclidean_division_equations; lia); rewrite E; reflexivity.
Qed.
End Imm32Texts.

(** ** Memory, control flow and system mnemonics *)

Section OtherTexts.
Context (xl w rd rs1 rs2 off f3 : Z) (mn : string).

Lemma load_text : w_op w = OP_LOAD -> w_rd w = rd -> w_rs1 w = rs1 -> w_f3 w = f3 -> imm_i w = off ->
  dict_get LOAD mn = Ok f3 -> disasm w xl = statement mn [x_ rd; at_reg off rs1].
Proof.
  intros Hop E1 E2 E3 E4 Hf%dict_get_find. disasm_op Hop. unfold disasm_load.
  rewrite E1, E2, E3, d_imm_i_top. change (sext ((w >> 20) .& 0xFFF) 12) with (imm_i w). rewrite E4.
  unfold LOAD in Hf. cbn [dict_find] in Hf. table_cases Hf; injection Hf as <-; reflexivity.
Qed.

Lemma store_text : w_op w = OP_STORE -> w_rs2 w = rs2 -> w_rs1 w = rs1 -> w_f3 w = f3 -> imm_s w = off ->
  dict_get STORE mn = Ok f3 -> disasm w xl = statement mn [x_ rs2; at_reg off rs1].
Proof.
  intros Hop E1 E2 E3 E4 Hf%dict_get_find. disasm_op Hop. unfold disasm_store.
  change (d_imm_s w) with (imm_s w). rewrite E1, E2, E3, E4.
  unfold STORE in Hf. cbn [dict_find] in Hf. table_cases Hf; injection Hf as <-; reflexivity.
Qed.

Lemma flw_text : w_op w = OP_FLW -> w_rd w = rd -> w_rs1 w = rs1 -> imm_i w = off ->
  disasm w xl = statement "flw" [f_ rd; at_reg off rs1].
Proof.
  intros Hop E1 E2 E4. disasm_op Hop. unfold disasm_flw.
  rewrite E1, E2, d_imm_i_top. change (sext ((w >> 20) .& 0xFFF) 12) with (imm_i w). by rewrite E4.
Qed.

Lemma fsw_text : w_op w = OP_FSW -> w_rs2 w = rs2 -> w_rs1 w = rs1 -> imm_s w = off ->
  disasm w xl = statement "fsw" [f_ rs2; at_reg off rs1].
Proof.
  intros Hop E1 E2 E4. disasm_op Hop. unfold disasm_fsw.
  change (d_imm_s w) with (imm_s w). by rewrite E1, E2, E4.
Qed.

Lemma jalr_text : w_op w = OP_JALR -> w_rd w = rd -> w_rs1 w = rs1 -> imm_i w = off ->
  disasm w xl = statement "jalr" [x_ rd; at_reg off rs1].
Proof.
  intros Hop E1 E2 E4. disasm_op Hop. unfold disasm_jalr.
  rewrite E1, E2, d_imm_i_top. change (sext ((w >> 20) .& 0xFFF) 12) with (imm_i w). by rewrite E4.
Qed.

Lemma branch_text : w_op w = OP_BRANCH -> w_rs1 w = rs1 -> w_rs2 w = rs2 -> w_f3 w = f3 -> off_b w = off ->
  dict_get BRANCH mn = Ok f3 -> disasm w xl = statement mn [x_ rs1; x_ rs2; fmt_plus_d off].
Proof.
  intros Hop E1 E2 E3 E4 Hf%dict_get_find. disasm_op Hop.
  change (disasm_branch w) with (get_or (zfind branch_names (w_f3 w)) "branch?" ++ " " ++ x_ (w_rs1 w) ++ "," ++
    x_ (w_rs2 w) ++ "," ++ fmt_plus_d (off_b w)). rewrite E1, E2, E3, E4.
  unfold BRANCH in Hf. cbn [dict_find] in Hf. table_cases Hf; injection Hf as <-; reflexivity.
Qed.

Lemma jal_text : w_op w = OP_JAL -> w_rd w = rd -> off_j w = off ->
  disasm w xl = statement "jal" [x_ rd; fmt_plus_d off].
Proof.
  intros Hop E1 E2. disasm_op Hop.
  change (disasm_jal w) with ("jal " ++ x_ (w_rd w) ++ "," ++ fmt_plus_d (off_j w)). by rewrite E1, E2.
Qed.

(** [lui] and [auipc] print the twenty upper bits in hexadecimal. *)
Lemma upper_text V op : op = OP_LUI \/ op = OP_AUIPC -> 0 <= V < 2 ^ 20 -> reg5 rd -> w = u_word V rd op ->
  disasm w xl = statement (if op =? OP_LUI then "lui" else "auipc") [x_ rd; "0x" ++ fmt_x V].
Proof.
  intros Ho HV Hd ->. unfold reg5 in Hd.
  assert (Hop : w_op (u_word V rd op) = op) by (apply u_word_op; destruct Ho as [-> | ->]; done || lia).
  assert (E1 : w_rd (u_word V rd op) = rd) by (apply u_word_rd; destruct Ho as [-> | ->]; done || lia).
  assert (E2 : (u_word V rd op >> 12) .& 0xFFFFF = V).
  { rewrite u_word_sum by (destruct Ho as [-> | ->]; done || lia).
    change 0xFFFFF with (Z.ones 20). rewrite land_mask, shiftr_pow by done.
    change (2 ^ 12) with 4096. change (2 ^ 20) with 1048576 in *.
    destruct Ho as [-> | ->]; [change OP_LUI with 55|change OP_AUIPC with 23];
      Z.to_euclidean_division_equations; lia. }
  destruct Ho as [-> | ->]; disasm_op Hop; unfold disasm_upper; rewrite E1, E2; reflexivity.
Qed.
End OtherTexts.

(** ** CSR and floating-point mnemonics *)

(** The CSRs whose name the disassembler prints and the assembler does not
    read back. *)
Definition csr_unreadable (a : Z) : bool := (a =? 1) || (a =? 2) || (a =? 3).

Lemma csr_name_cases a : csr_unreadable a = false ->
  (exists nm, csr_name a = nm /\ dict_find CSR_ADDR nm = Some a /\ token nm = true) \/
  csr_name a = "0x" ++ fmt_0x 3 a.
Proof.
  intros H. unfold csr_unreadable in H.
  repeat match goal with H : _ || _ = false |- _ => apply orb_false_iff in H as [? ?] end.
  unfold csr_name. cbn [zfind CSR_NAMES].
  repeat match goal with
  | |- context [if a =? ?c then _ else _] =>
      destruct (Z.eqb_spec a c); [subst; first [discriminate|left; eexists; repeat split; reflexivity]|]
  end. by right.
Qed.

Lemma csr_lookup_name a : 0 <= a -> csr_unreadable a = false -> csr_lookup (OTok (csr_name a)) = Ok a.
Proof.
  intros Ha Hu. unfold csr_lookup. destruct (csr_name_cases a Hu) as [(nm & -> & E & _)|E].
  - by rewrite E.
  - rewrite E. change (dict_find CSR_ADDR ("0x" ++ fmt_0x 3 a)) with (@None Z).
    by apply int_base0_hex_pad.
Qed.

Lemma token_hex w a : token ("0x" ++ fmt_0x w a) = true.
Proof.
  apply (token_num "0"); [done|]. apply word_num.
  change (str_all is_word (String "x" (fmt_0x w a)) = true). rewrite str_all_cons.
  unfold fmt_0x, zfill. by rewrite str_all_app, zeros_word, fmt_nat_word by lia.
Qed.

Lemma token_csr a : csr_unreadable a = false -> token (csr_name a) = true.
Proof. intros Hu. destruct (csr_name_cases a Hu) as [(nm & -> & _ & Ht)|E]; [done|]. rewrite E. apply token_hex. Qed.

Definition rm_ok (rm : Z) : bool := (0 <=? rm) && ((rm <=? 4) || (rm =? 7)).

Lemma rm_cases rm : rm_ok rm = true -> rm = 0 \/ rm = 1 \/ rm = 2 \/ rm = 3 \/ rm = 4 \/ rm = 7.
Proof. unfold rm_ok. lia. Qed.

Lemma parse_rm_name args i rm : rm_ok rm = true -> nth_error args i = Some (rm_name rm) ->
  parse_rm args i = Ok rm.
Proof.
  intros H E. unfold parse_rm. rewrite E.
  destruct (rm_cases rm H) as [->|[->|[->|[->|[->| ->]]]]]; reflexivity.
Qed.

Lemma token_rm rm : rm_ok rm = true -> token (rm_name rm) = true.
Proof. intros H. destruct (rm_cases rm H) as [->|[->|[->|[->|[->| ->]]]]]; reflexivity. Qed.

Section FpTexts.
Context (xl w rd rs1 rs2 rs3 f5 f3 : Z) (mn : string).

Lemma csr_text a : decoded_i w a rs1 f3 rd OP_SYSTEM -> dict_get CSR_OP mn = Ok f3 ->
  disasm w xl = statement mn [x_ rd; csr_name a; if truthy (f3 .& 4) then fmt_d rs1 else x_ rs1].
Proof.
  intros D Hf%dict_get_find. pose proof (di_op _ _ _ _ _ _ D) as Hop. disasm_op Hop.
  unfold disasm_system. cbv zeta. by_decoded_i D.
  unfold CSR_OP in Hf. cbn [dict_find] in Hf. table_cases Hf; injection Hf as <-; reflexivity.
Qed.

(** Two float operands and a rounding mode; one operand and a rounding mode. *)
Lemma fp_arith_text : decoded w (f5 * 4) rs2 rs1 f3 rd OP_FP -> dict_get FP_ARITH mn = Ok f5 ->
  disasm w xl = statement mn [f_ rd; f_ rs1; f_ rs2; rm_name f3].
Proof.
  intros D Hf%dict_get_find. pose proof (dec_op _ _ _ _ _ _ _ D) as Hop. disasm_op Hop.
  unfold disasm_fp. cbv zeta. by_decoded D. rewrite Z.div_mul by done.
  unfold FP_ARITH in Hf. cbn [dict_find] in Hf.
  table_cases Hf; injection Hf as <-; unfold statement, statement_by; cbn [joined String.concat zfind fp_arith_names FUNCT5_FADD FUNCT5_FSUB
    FUNCT5_FMUL FUNCT5_FDIV Z.eqb Pos.eqb]; by rewrite !app_assoc_s.
Qed.

Lemma fp_sqrt_text : decoded w (0xb * 4) 0 rs1 f3 rd OP_FP ->
  disasm w xl = statement "fsqrt.s" [f_ rd; f_ rs1; rm_name f3].
Proof.
  intros D. pose proof (dec_op _ _ _ _ _ _ _ D) as Hop. disasm_op Hop.
  unfold disasm_fp. cbv zeta. by_decoded D. reflexivity.
Qed.

Lemma fp_sgnj_text : decoded w (0x4 * 4) rs2 rs1 f3 rd OP_FP -> dict_get FP_SGNJ mn = Ok f3 ->
  disasm w xl = statement mn [f_ rd; f_ rs1; f_ rs2].
Proof.
  intros D Hf%dict_get_find. pose proof (dec_op _ _ _ _ _ _ _ D) as Hop. disasm_op Hop.
  unfold disasm_fp. cbv zeta. by_decoded D.
  unfold FP_SGNJ in Hf. cbn [dict_find] in Hf. table_cases Hf; injection Hf as <-; reflexivity.
Qed.

Lemma fp_minmax_text : decoded w (0x5 * 4) rs2 rs1 f3 rd OP_FP -> dict_get FP_MINMAX mn = Ok f3 ->
  disasm w xl = statement mn [f_ rd; f_ rs1; f_ rs2].
Proof.
  intros D Hf%dict_get_find. pose proof (dec_op _ _ _ _ _ _ _ D) as Hop. disasm_op Hop.
  unfold disasm_fp. cbv zeta. by_decoded D.
  unfold FP_MINMAX in Hf. cbn [dict_find] in Hf. table_cases Hf; injection Hf as <-; reflexivity.
Qed.

Lemma fp_cmp_text : decoded w (0x14 * 4) rs2 rs1 f3 rd OP_FP -> dict_get FP_CMP mn = Ok f3 ->
  disasm w xl = statement mn [x_ rd; f_ rs1; f_ rs2].
Proof.
  intros D Hf%dict_get_find. pose proof (dec_op _ _ _ _ _ _ _ D) as Hop. disasm_op Hop.
  unfold disasm_fp. cbv zeta. by_decoded D.
  unfold FP_CMP in Hf. cbn [dict_find] in Hf. table_cases Hf; injection Hf as <-; reflexivity.
Qed.

Lemma fp_cvt_w_s_text (un : bool) : decoded w (0x18 * 4) (if un then 1 else 0) rs1 f3 rd OP_FP ->
  disasm w xl = statement (if un then "fcvt.wu.s" else "fcvt.w.s") [x_ rd; f_ rs1; rm_name f3].
Proof.
  intros D. pose proof (dec_op _ _ _ _ _ _ _ D) as Hop. disasm_op Hop.
  unfold disasm_fp. cbv zeta. by_decoded D. by destruct un.
Qed.

Lemma fp_cvt_s_w_text (un : bool) : decoded w (0x1a * 4) (if un then 1 else 0) rs1 f3 rd OP_FP ->
  disasm w xl = statement (if un then "fcvt.s.wu" else "fcvt.s.w") [f_ rd; x_ rs1; rm_name f3].
Proof.
  intros D. pose proof (dec_op _ _ _ _ _ _ _ D) as Hop. disasm_op Hop.
  unfold disasm_fp. cbv zeta. by_decoded D. by destruct un.
Qed.

Lemma fp_move_text : decoded w (f5 * 4) 0 rs1 f3 rd OP_FP ->
  (f5 = 0x1c /\ f3 = 0 /\ mn = "fmv.x.w") \/ (f5 = 0x1c /\ f3 = 1 /\ mn = "fclass.s") ->
  disasm w xl = statement mn [x_ rd; f_ rs1].
Proof.
  intros D H. pose proof (dec_op _ _ _ _ _ _ _ D) as Hop. disasm_op Hop.
  unfold disasm_fp. cbv zeta. by_decoded D. destruct H as [(-> & -> & ->)|(-> & -> & ->)]; reflexivity.
Qed.

Lemma fp_mv_w_x_text : decoded w (0x1e * 4) 0 rs1 0 rd OP_FP ->
  disasm w xl = statement "fmv.w.x" [f_ rd; x_ rs1].
Proof.
  intros D. pose proof (dec_op _ _ _ _ _ _ _ D) as Hop. disasm_op Hop.
  unfold disasm_fp. cbv zeta. by_decoded D. reflexivity.
Qed.

Lemma madd_text op : decoded w (rs3 * 4) rs2 rs1 f3 rd op -> dict_get MADD_OPCODES mn = Ok op ->
  disasm w xl = statement mn [f_ rd; f_ rs1; f_ rs2; f_ rs3; rm_name f3].
Proof.
  intros D Hf%dict_get_find. pose proof (dec_op _ _ _ _ _ _ _ D) as Hop.
  unfold MADD_OPCODES in Hf. cbn [dict_find] in Hf.
  table_cases Hf; injection Hf as <-; disasm_op Hop; unfold disasm_madd; cbv zeta; by_decoded D;
    rewrite Z.div_mul by done; reflexivity.
Qed.
End FpTexts.
