(* ===== verification/RoundTrip.v ===== *)
(** * Disassembly and assembly

    The text [disasm] prints for a word the assembler can emit assembles
    back to that word. *)

From S2P Require Import Prelude Words PyStr Machine Mmu IntAlu Float32 Float32Facts Step StepFacts.
From S2P Require Import Asm AsmFacts AsmText Disasm TextFacts DisasmTexts.
#[local] Open Scope string_scope.
#[local] Open Scope Z_scope.

(** Every register operand parses. *)
Ltac operands :=
  unfold arg_reg, arg_freg, arg_tok, arg_mem; cbn [list_get nth_error mbind result_bind];
  repeat (first [rewrite reg_x by assumption|rewrite freg_f by assumption
                |rewrite match_mem_at by assumption];
          cbn [mbind result_bind]).

Ltac tokens := cbn [forallb]; rewrite ?token_x, ?token_f, ?token_d, ?token_at, ?token_plus_d; reflexivity.

Lemma r_type_round xl mn rd rs1 rs2 w : reg5 rd -> reg5 rs1 -> reg5 rs2 ->
  r_type mn rd rs1 rs2 = Ok w -> assemble [disasm w xl] xl = Ok [w].
Proof.
  intros Hd H1 H2 Hw. pose proof Hw as Hw'.
  unfold r_type in Hw'. apply bind_Ok in Hw' as ([f7 f3] & Hf & Hw'). apply Ok_inj in Hw'.
  destruct (f73_range f7 f3 (table_range R_TYPE f73_ok mn _ eq_refl Hf)).
  rewrite (r_type_text xl w rd rs1 rs2 f7 f3 mn) by (first [done | rewrite <- Hw'; by apply decoded_r_word]).
  pose proof (table_keys R_TYPE (fun k => mnemonic k && negb (String.eqb k "nop")) mn _ eq_refl Hf)
    as [Hm Hn%negb_true_iff]%andb_true_iff.
  rewrite assemble_mnemonic by (done || tokens).
  unfold asm_compute. rewrite Hn, (dict_get_has _ _ _ Hf). operands. by rewrite Hw.
Qed.

Lemma r_type_w_round xl mn rd rs1 rs2 w : reg5 rd -> reg5 rs1 -> reg5 rs2 ->
  r_type_w mn rd rs1 rs2 = Ok w -> assemble [disasm w xl] xl = Ok [w].
Proof.
  intros Hd H1 H2 Hw. pose proof Hw as Hw'.
  unfold r_type_w in Hw'. apply bind_Ok in Hw' as ([f7 f3] & Hf & Hw'). apply Ok_inj in Hw'.
  destruct (f73_range f7 f3 (table_range R_TYPE_W f73_ok mn _ eq_refl Hf)).
  rewrite (r_type_w_text xl w rd rs1 rs2 f7 f3 mn) by (first [done | rewrite <- Hw'; by apply decoded_r_word]).
  apply dict_get_find in Hf as Hf'. unfold R_TYPE_W in Hf'. cbn [dict_find] in Hf'.
  rewrite assemble_mnemonic
    by (first [done | tokens | by apply (table_keys R_TYPE_W mnemonic mn _ eq_refl Hf)]).
  table_cases Hf'; injection Hf' as <- <-;
    match goal with |- context [asm_compute xl ?m ?a ?r] =>
      change (asm_compute xl m a r) with
        (rd ← arg_reg a 0; rs1 ← arg_reg a 1; rs2 ← arg_reg a 2; r_type_w m rd rs1 rs2) end;
    operands; by rewrite Hw.
Qed.

(** ** Computation mnemonics *)

Lemma imm_u i b v : 0 < b -> imm (OInt i) b false = Ok v -> v = i /\ 0 <= i < 2 ^ b.
Proof.
  intros Hb H. apply imm_ok_inv in H as (x & -> & Hr & ->); [|done].
  unfold imm_lo, imm_hi in Hr. split; [apply wrap_small; lia|lia].
Qed.

Lemma imm_s12 i v : imm (OInt i) 12 true = Ok v -> v = wrap 12 i /\ 0 <= v < 4096 /\ sext v 12 = i.
Proof.
  intros H. pose proof (imm_ok_inv (OInt i) 12 true v ltac:(done) H) as (x & -> & Hr & ->).
  split; [done|]. split; [by apply wrap_range|by apply sext_imm].
Qed.

Lemma i_type_tok t i mn rd rs1 xl : int_base0 t = Ok i ->
  i_type mn rd rs1 (OTok t) xl = i_type mn rd rs1 (OInt i) xl.
Proof. intros H. unfold i_type. by rewrite !(imm_tok t i _ _ H). Qed.

(** What the encoder made of the operands. *)
Lemma i_type_inv mn rd rs1 i xl w : i_type mn rd rs1 (OInt i) xl = Ok w ->
  exists f3 v, dict_get I_TYPE mn = Ok f3 /\ w = i_type_raw v f3 rd rs1 OP_I /\
    (if is_shift mn then
       if xl >=? 64 then v = (if String.eqb mn "srai" then 0x10 else 0) * 64 + i /\ 0 <= i < 64
       else v = (if String.eqb mn "srai" then 0x20 else 0) * 32 + i /\ 0 <= i < 32
     else 0 <= v < 4096 /\ sext v 12 = i).
Proof.
  intros H. unfold i_type in H. apply bind_Ok in H as (f3 & Hf & H). apply bind_Ok in H as (v & Hv & H).
  apply Ok_inj in H as <-. exists f3, v. split; [done|]. split; [done|].
  destruct (is_shift mn); [|by apply imm_s12 in Hv as (_ & ? & ?)].
  destruct (xl >=? 64); apply bind_Ok in Hv as (s & Hs & Hv); apply imm_u in Hs as [-> Hs]; try done;
    apply Ok_inj in Hv as <-; (split; [|done]).
  - by rewrite (mask_shamt _ 6) by done.
  - rewrite (mask_shamt _ 5) by done. by destruct (String.eqb mn "srai").
Qed.

Lemma nop_round xl : assemble [disasm 0x13 xl] xl = Ok [0x13].
Proof. reflexivity. Qed.

(** The text of an I-type word. *)
Lemma i_type_disasm mn rd rs1 i xl w : reg5 rd -> reg5 rs1 -> w <> 0x13 ->
  i_type mn rd rs1 (OInt i) xl = Ok w -> disasm w xl = statement mn [x_ rd; x_ rs1; fmt_d i].
Proof.
  intros Hd H1 Hn H. apply i_type_inv in H as (f3 & v & Hf & -> & Hv).
  pose proof (table_range I_TYPE (fun f => (0 <=? f) && (f <? 8)) mn f3 eq_refl Hf) as H3. cbv beta in H3.
  assert (D : 0 <= v < 4096 -> decoded_i (i_type_raw v f3 rd rs1 OP_I) v rs1 f3 rd OP_I)
    by (intros; apply decoded_i_word; done || lia).
  apply dict_get_find in Hf. unfold I_TYPE in Hf. cbn [dict_find] in Hf.
  table_cases Hf; injection Hf as <-; cbn [is_shift String.eqb Ascii.eqb Bool.eqb orb] in Hv;
    try (destruct Hv as [Hr <-]; by eapply i_plain_text; [apply D| | | |]);
    (destruct (Z.geb_spec xl 64); destruct Hv as [-> Hi];
     [match goal with |- disasm (i_type_raw (?f * 64 + i) ?f3 _ _ _) _ = _ =>
        etransitivity; [apply (shift64_text xl _ rd rs1 i Hn f f3)|reflexivity] end
     |match goal with |- disasm (i_type_raw (?f * 32 + i) ?f3 _ _ _) _ = _ =>
        etransitivity; [apply (shift32_text xl _ rd rs1 i Hn f f3)|reflexivity] end]);
    first [done | lia | apply D; lia].
Qed.

Lemma i_type_round mn rd rs1 i xl w : reg5 rd -> reg5 rs1 ->
  i_type mn rd rs1 (OInt i) xl = Ok w -> assemble [disasm w xl] xl = Ok [w].
Proof.
  intros Hd H1 Hw. destruct (Z.eq_dec w 0x13) as [->|Hn]; [apply nop_round|].
  rewrite (i_type_disasm mn rd rs1 i xl w Hd H1 Hn Hw).
  pose proof (i_type_inv _ _ _ _ _ _ Hw) as (f3 & v & Hf & _).
  pose proof (table_keys I_TYPE (fun k => mnemonic k && negb (String.eqb k "nop") && negb (dict_has R_TYPE k))
    mn _ eq_refl Hf) as [[Hm Hn1%negb_true_iff]%andb_true_iff Hn2%negb_true_iff]%andb_true_iff.
  rewrite assemble_mnemonic by (done || tokens).
  unfold asm_compute. rewrite Hn1, Hn2, (dict_get_has _ _ _ Hf). operands.
  by rewrite (i_type_tok _ i), Hw by apply int_base0_fmt_d.
Qed.

Lemma i_type_w_round mn rd rs1 i xl w : reg5 rd -> reg5 rs1 ->
  i_type_w mn rd rs1 (OInt i) = Ok w -> assemble [disasm w xl] xl = Ok [w].
Proof.
  intros Hd H1 Hw. pose proof Hw as H.
  unfold i_type_w in H. apply bind_Ok in H as (f3 & Hf & H). apply bind_Ok in H as (v & Hv & H).
  apply Ok_inj in H. change (i_type_raw v f3 rd rs1 OP_IMM32 = w) in H.
  pose proof (table_range I_TYPE_W (fun f => (0 <=? f) && (f <? 8)) mn f3 eq_refl Hf) as H3. cbv beta in H3.
  assert (Htok : i_type_w mn rd rs1 (OTok (fmt_d i)) = Ok w).
  { rewrite <- Hw. unfold i_type_w. by rewrite !(imm_tok _ i) by apply int_base0_fmt_d. }
  assert (D : 0 <= v < 4096 -> decoded_i w v rs1 f3 rd OP_IMM32)
    by (intros; rewrite <- H; apply decoded_i_word; done || lia).
  assert (Htext : disasm w xl = statement mn [x_ rd; x_ rs1; fmt_d i]).
  { apply dict_get_find in Hf. unfold I_TYPE_W in Hf. cbn [dict_find] in Hf.
    table_cases Hf; injection Hf as <-; cbn [String.eqb Ascii.eqb Bool.eqb orb] in Hv;
      [apply imm_s12 in Hv as (_ & Hr & <-)
      |apply bind_Ok in Hv as (s & Hs & Hv); apply imm_u in Hs as [-> Hs]; [|done];
       apply Ok_inj in Hv; rewrite (mask_shamt _ 5) in Hv by done; change (2 ^ 5) with 32 in *; subst v ..];
      unfold FUNCT7_BASE, FUNCT7_ALT in *; eapply (i_w_text xl w rd rs1); try (apply D; lia);
      first [ left; by repeat split | right; left; repeat split; done || lia
            | right; right; left; repeat split; done || lia
            | right; right; right; repeat split; done || lia ]. }
  rewrite Htext.
  pose proof (table_keys I_TYPE_W (fun k => mnemonic k) mn _ eq_refl Hf) as Hm.
  rewrite assemble_mnemonic by (done || tokens).
  apply dict_get_find in Hf. unfold I_TYPE_W in Hf. cbn [dict_find] in Hf.
  table_cases Hf; injection Hf as <-;
    match goal with |- context [asm_compute xl ?m ?a ?r] =>
      change (asm_compute xl m a r) with
        (rd ← arg_reg a 0; rs1 ← arg_reg a 1; i ← arg_tok a 2; i_type_w m rd rs1 i) end;
    operands; by rewrite Htok.
Qed.

Lemma bext_shamt_round mn rd rs1 i xl w : reg5 rd -> reg5 rs1 ->
  i_type_bext_shamt mn rd rs1 (OInt i) xl = Ok w -> assemble [disasm w xl] xl = Ok [w].
Proof.
  intros Hd H1 Hw. pose proof Hw as H.
  unfold i_type_bext_shamt in H. apply bind_Ok in H as ([f6 f3] & Hf & H).
  apply bind_Ok in H as (v & Hv & H). apply Ok_inj in H.
  pose proof (table_range I_TYPE_BEXT_SHAMT (fun f => (0 <=? fst f) && (fst f <? 64) && (0 <=? snd f) && (snd f <? 8))
    mn _ eq_refl Hf) as H3. cbn [fst snd] in H3.
  assert (v = i /\ 0 <= i < 64) as [-> Hi].
  { destruct (xl >=? 64); apply imm_u in Hv as [-> Hi]; try done; split; try done.
    change (2 ^ 5) with 32 in Hi. lia. }
  rewrite (mask_shamt _ 6) in H by done. change (2 ^ 6) with 64 in H.
  assert (Hn : w <> 0x13).
  { intros ->. apply dict_get_find in Hf. unfold I_TYPE_BEXT_SHAMT in Hf. cbn [dict_find] in Hf.
    pose proof (decoded_i_word (f6 * 64 + i) f3 rd rs1 OP_I ltac:(lia) H1 ltac:(lia) Hd ltac:(done)) as D.
    rewrite H in D. pose proof (di_f3 _ _ _ _ _ _ D) as E. change (w_f3 0x13) with 0 in E.
    table_cases Hf; injection Hf as <- <-; discriminate E. }
  rewrite (bext_shamt_text xl w rd rs1 i Hn mn f6 f3)
    by (first [done | rewrite <- H; apply decoded_i_word; done || lia]).
  assert (Htok : i_type_bext_shamt mn rd rs1 (OTok (fmt_d i)) xl = Ok w).
  { rewrite <- Hw. unfold i_type_bext_shamt. by rewrite !(imm_tok _ i) by apply int_base0_fmt_d. }
  pose proof (table_keys I_TYPE_BEXT_SHAMT mnemonic mn _ eq_refl Hf) as Hm.
  rewrite assemble_mnemonic by (done || tokens).
  apply dict_get_find in Hf. unfold I_TYPE_BEXT_SHAMT in Hf. cbn [dict_find] in Hf.
  table_cases Hf; injection Hf as <- <-;
    match goal with |- context [asm_compute xl ?m ?a ?r] =>
      change (asm_compute xl m a r) with
        (rd ← arg_reg a 0; rs1 ← arg_reg a 1; i ← arg_tok a 2; i_type_bext_shamt m rd rs1 i xl) end;
    operands; by rewrite Htok.
Qed.

Lemma bext_fixed_round mn rd rs1 xl w : reg5 rd -> reg5 rs1 ->
  i_type_bext_fixed mn rd rs1 = Ok w -> assemble [disasm w xl] xl = Ok [w].
Proof.
  intros Hd H1 Hw. pose proof Hw as H.
  unfold i_type_bext_fixed in H. apply bind_Ok in H as ([v f3] & Hf & H). apply Ok_inj in H.
  pose proof (table_range I_TYPE_BEXT_FIXED (fun f => (0 <=? fst f) && (fst f <? 4096) && (1 <=? snd f) && (snd f <? 8))
    mn _ eq_refl Hf) as H3. cbn [fst snd] in H3.
  pose proof (decoded_i_word v f3 rd rs1 OP_I ltac:(lia) H1 ltac:(lia) Hd ltac:(done)) as D. rewrite H in D.
  assert (Hn : w <> 0x13).
  { intros ->. pose proof (di_f3 _ _ _ _ _ _ D) as E. change (w_f3 0x13) with 0 in E. lia. }
  rewrite (bext_fixed_text xl w rd rs1 Hn mn v f3) by done.
  pose proof (table_keys I_TYPE_BEXT_FIXED mnemonic mn _ eq_refl Hf) as Hm.
  rewrite assemble_mnemonic by (done || tokens).
  apply dict_get_find in Hf. unfold I_TYPE_BEXT_FIXED in Hf. cbn [dict_find] in Hf.
  table_cases Hf; injection Hf as <- <-;
    match goal with |- context [asm_compute xl ?m ?a ?r] =>
      change (asm_compute xl m a r) with
        (rd ← arg_reg a 0; rs1 ← arg_reg a 1; i_type_bext_fixed m rd rs1) end;
    operands; by rewrite Hw.
Qed.

Lemma w_fixed_round mn rd rs1 xl w : reg5 rd -> reg5 rs1 ->
  i_type_w_bext_fixed mn rd rs1 = Ok w -> assemble [disasm w xl] xl = Ok [w].
Proof.
  intros Hd H1 Hw. pose proof Hw as H.
  unfold i_type_w_bext_fixed in H. apply bind_Ok in H as (v & Hf & H). apply Ok_inj in H.
  pose proof (table_range I_TYPE_W_BEXT_FIXED (fun f => (0 <=? f) && (f <? 4096)) mn _ eq_refl Hf) as H3.
  cbv beta in H3.
  pose proof (decoded_i_word v 1 rd rs1 OP_IMM32 ltac:(lia) H1 ltac:(lia) Hd ltac:(done)) as D. rewrite H in D.
  rewrite (w_fixed_text xl w rd rs1 mn v) by done.
  pose proof (table_keys I_TYPE_W_BEXT_FIXED mnemonic mn _ eq_refl Hf) as Hm.
  rewrite assemble_mnemonic by (done || tokens).
  apply dict_get_find in Hf. unfold I_TYPE_W_BEXT_FIXED in Hf. cbn [dict_find] in Hf.
  table_cases Hf; injection Hf as <-;
    match goal with |- context [asm_compute xl ?m ?a ?r] =>
      change (asm_compute xl m a r) with
        (rd ← arg_reg a 0; rs1 ← arg_reg a 1; i_type_w_bext_fixed m rd rs1) end;
    operands; by rewrite Hw.
Qed.

Lemma rev8_round rd rs1 xl : reg5 rd -> reg5 rs1 ->
  assemble [disasm (rev8 rd rs1 xl) xl] xl = Ok [rev8 rd rs1 xl].
Proof.
  intros Hd H1. set (w := rev8 rd rs1 xl).
  assert (exists v, (v = 0x698 \/ v = 0x6B8) /\ decoded_i w v rs1 5 rd OP_I) as (v & Hv & D).
  { unfold w, rev8. destruct (xl =? 32); eexists; (split; [|by apply decoded_i_word]); auto. }
  assert (Hn : w <> 0x13).
  { intros E. pose proof (di_f3 _ _ _ _ _ _ D) as E'. rewrite E in E'. discriminate E'. }
  rewrite (rev8_text xl w rd rs1 Hn v) by done.
  rewrite assemble_mnemonic by (done || tokens).
  match goal with |- context [asm_compute xl ?m ?a ?r] =>
    change (asm_compute xl m a r) with (rd ← arg_reg a 0; rs1 ← arg_reg a 1; Ok (rev8 rd rs1 xl)) end.
  operands. done.
Qed.

Lemma roriw_round rd rs1 i xl w : reg5 rd -> reg5 rs1 ->
  roriw rd rs1 (OInt i) = Ok w -> assemble [disasm w xl] xl = Ok [w].
Proof.
  intros Hd H1 Hw. pose proof Hw as H. unfold roriw in H. apply bind_Ok in H as (v & Hv & H).
  apply imm_u in Hv as [-> Hi]; [|done]. apply Ok_inj in H.
  change (0x30 << 5 .| i) with ((0x30 << 5) .| i) in H. rewrite (mask_shamt 0x30 5) in H by done.
  rewrite (roriw_text xl w rd rs1 i) by (first [done | rewrite <- H; apply decoded_i_word; done || lia]).
  rewrite assemble_mnemonic by (done || tokens).
  match goal with |- context [asm_compute xl ?m ?a ?r] =>
    change (asm_compute xl m a r) with
      (rd ← arg_reg a 0; rs1 ← arg_reg a 1; i ← arg_tok a 2; roriw rd rs1 i) end.
  operands. unfold roriw. rewrite (imm_tok _ i) by apply int_base0_fmt_d.
  change (imm (OInt i) 5 false ≫= _) with (roriw rd rs1 (OInt i)). by rewrite Hw.
Qed.

Lemma slli_uw_round rd rs1 i xl w : reg5 rd -> reg5 rs1 ->
  slli_uw rd rs1 (OInt i) = Ok w -> assemble [disasm w xl] xl = Ok [w].
Proof.
  intros Hd H1 Hw. pose proof Hw as H. unfold slli_uw in H. apply bind_Ok in H as (v & Hv & H).
  apply imm_u in Hv as [-> Hi]; [|done]. apply Ok_inj in H. rewrite (mask_shamt 2 6) in H by done.
  rewrite (slli_uw_text xl w rd rs1 i) by (first [done | rewrite <- H; apply decoded_i_word; done || lia]).
  rewrite assemble_mnemonic by (done || tokens).
  match goal with |- context [asm_compute xl ?m ?a ?r] =>
    change (asm_compute xl m a r) with
      (rd ← arg_reg a 0; rs1 ← arg_reg a 1; i ← arg_tok a 2; slli_uw rd rs1 i) end.
  operands. unfold slli_uw. rewrite (imm_tok _ i) by apply int_base0_fmt_d.
  change (imm (OInt i) 6 false ≫= _) with (slli_uw rd rs1 (OInt i)). by rewrite Hw.
Qed.

Lemma aes64ks1i_round rd rs1 i xl w : reg5 rd -> reg5 rs1 ->
  aes64ks1i rd rs1 (OInt i) = Ok w -> assemble [disasm w xl] xl = Ok [w].
Proof.
  intros Hd H1 Hw. pose proof Hw as H. unfold aes64ks1i in H. apply bind_Ok in H as (v & Hv & H).
  apply imm_u in Hv as [-> Hi]; [|done]. apply Ok_inj in H. change (2 ^ 4) with 16 in Hi.
  assert (E : (0x18 << 5) .| 0x10 .| i = 0x310 + i).
  { change ((0x18 << 5) .| 0x10) with (0x31 << 4). by apply (lor_low_add 4). }
  rewrite E in H.
  pose proof (decoded_i_word (0x310 + i) 1 rd rs1 OP_I ltac:(lia) H1 ltac:(lia) Hd ltac:(done)) as D.
  rewrite H in D.
  assert (Hn : w <> 0x13).
  { intros E0. pose proof (di_f3 _ _ _ _ _ _ D) as E'. rewrite E0 in E'. discriminate E'. }
  rewrite (aes64ks1i_text xl w rd rs1 i Hn) by done.
  rewrite assemble_float by (done || tokens).
  match goal with |- context [asm_float ?m ?a ?r] =>
    change (asm_float m a r) with
      (rd ← arg_reg a 0; rs1 ← arg_reg a 1; i ← arg_tok a 2; aes64ks1i rd rs1 i) end.
  operands. unfold aes64ks1i. rewrite (imm_tok _ i) by apply int_base0_fmt_d.
  change (imm (OInt i) 4 false ≫= _) with (aes64ks1i rd rs1 (OInt i)). by rewrite Hw.
Qed.

(** ** Memory and control-flow mnemonics *)

Lemma load_round mn rd rs1 off xl w : reg5 rd -> reg5 rs1 ->
  load mn rd (OInt off) rs1 = Ok w -> assemble [disasm w xl] xl = Ok [w].
Proof.
  intros Hd H1 Hw. pose proof Hw as H. unfold load in H.
  apply bind_Ok in H as (v & Hv & H). apply bind_Ok in H as (f3 & Hf & H). apply imm12_int in Hv as [-> Hr].
  apply Ok_inj in H.
  pose proof (table_range LOAD (fun f => (0 <=? f) && (f <? 8)) mn f3 eq_refl Hf) as H3. cbv beta in H3.
  destruct (imm_i_word off rs1 f3 rd OP_LOAD H1 ltac:(lia) Hd ltac:(done) Hr) as (Hop & E1 & E2 & E3 & E4).
  rewrite H in *. rewrite (load_text xl w rd rs1 off f3 mn) by done.
  pose proof (table_keys LOAD (fun k => mnemonic k && negb (compute_mn k)) mn _ eq_refl Hf)
    as [Hm Hc%negb_true_iff]%andb_true_iff.
  rewrite assemble_control by (done || tokens).
  unfold asm_control. rewrite (dict_get_has _ _ _ Hf). operands.
  unfold load. rewrite (imm_tok _ off) by apply int_base0_fmt_d.
  change (imm (OInt off) 12 true ≫= _) with (load mn rd (OInt off) rs1). by rewrite Hw.
Qed.

Lemma store_round mn rs2 rs1 off xl w : reg5 rs2 -> reg5 rs1 ->
  store mn rs2 (OInt off) rs1 = Ok w -> assemble [disasm w xl] xl = Ok [w].
Proof.
  intros Hd H1 Hw. pose proof Hw as H. unfold store in H.
  apply bind_Ok in H as (v & Hv & H). apply bind_Ok in H as (f3 & Hf & H). apply imm12_int in Hv as [-> Hr].
  apply Ok_inj in H.
  pose proof (table_range STORE (fun f => (0 <=? f) && (f <? 8)) mn f3 eq_refl Hf) as H3. cbv beta in H3.
  destruct (imm_s_word off rs2 rs1 f3 OP_STORE Hd H1 ltac:(lia) ltac:(done) Hr) as (Hop & E1 & E2 & E3 & E4).
  rewrite H in *. rewrite (store_text xl w rs1 rs2 off f3 mn) by done.
  pose proof (table_keys STORE (fun k => mnemonic k && negb (compute_mn k) && negb (dict_has LOAD k)) mn _ eq_refl Hf)
    as [[Hm Hc%negb_true_iff]%andb_true_iff Hl%negb_true_iff]%andb_true_iff.
  rewrite assemble_control by (done || tokens).
  unfold asm_control. rewrite Hl, (dict_get_has _ _ _ Hf). operands.
  unfold store. rewrite (imm_tok _ off) by apply int_base0_fmt_d.
  change (imm (OInt off) 12 true ≫= _) with (store mn rs2 (OInt off) rs1). by rewrite Hw.
Qed.

(** A printed offset resolves to itself when no label is defined. *)
Lemma resolve_plus_d off cur : resolve [] (fmt_plus_d off) cur = Ok (OInt off).
Proof.
  unfold resolve. rewrite strip_num by apply fmt_plus_d_num. cbn [dict_find].
  by rewrite int_base0_fmt_plus_d.
Qed.

Lemma branch_round mn rs1 rs2 off xl w : reg5 rs1 -> reg5 rs2 ->
  branch mn rs1 rs2 (OInt off) = Ok w -> assemble [disasm w xl] xl = Ok [w].
Proof.
  intros H1 H2 Hw.
  destruct (branch_decodes mn rs1 rs2 (OInt off) w H1 H2 Hw)
    as (f3 & off' & Hf & H3 & Him & Hr & _ & Hop & E1 & E2 & E3 & E4).
  assert (off' = off) as ->.
  { pose proof (imm_ok_inv (OInt off) 13 true _ ltac:(done) Him) as (v & Hv & Hb & ->).
    rewrite <- (swrap_small 13 off') by (done || lia). unfold imm_lo, imm_hi in Hb.
    rewrite <- (swrap_small 13 off) by (done || lia). by apply wrap_inj_swrap. }
  rewrite (branch_text xl w rs1 rs2 off f3 mn) by done.
  pose proof (table_keys BRANCH (fun k => mnemonic k && negb (compute_mn k) && negb (dict_has LOAD k) && negb (dict_has STORE k))
    mn _ eq_refl Hf)
    as [[[Hm Hc%negb_true_iff]%andb_true_iff Hl%negb_true_iff]%andb_true_iff Hs%negb_true_iff]%andb_true_iff.
  rewrite assemble_control by (done || tokens).
  unfold asm_control. rewrite Hl, Hs, (dict_get_has _ _ _ Hf). operands.
  rewrite resolve_plus_d. cbn [mbind result_bind]. by rewrite Hw.
Qed.

Lemma jal_round rd off xl w : reg5 rd -> jal rd (OInt off) = Ok w -> assemble [disasm w xl] xl = Ok [w].
Proof.
  intros Hd Hw. destruct (jal_decodes rd off w Hd Hw) as (Hop & E1 & E2).
  rewrite (jal_text xl w rd off) by done. rewrite assemble_control by (done || tokens).
  match goal with |- context [asm_control ?l ?c ?m ?a ?r] =>
    change (asm_control l c m a r) with
      (rd ← arg_reg a 0; t ← list_get a 1; off ← resolve l t c; jal rd off) end.
  operands. rewrite resolve_plus_d. cbn [mbind result_bind]. by rewrite Hw.
Qed.

Lemma jalr_round rd rs1 off xl w : reg5 rd -> reg5 rs1 ->
  jalr rd (OInt off) rs1 = Ok w -> assemble [disasm w xl] xl = Ok [w].
Proof.
  intros Hd H1 Hw. pose proof Hw as H. unfold jalr in H.
  apply bind_Ok in H as (v & Hv & H). apply imm12_int in Hv as [-> Hr]. apply Ok_inj in H.
  destruct (imm_i_word off rs1 0 rd OP_JALR H1 ltac:(lia) Hd ltac:(done) Hr) as (Hop & E1 & E2 & _ & E4).
  rewrite Z.shiftl_0_l, Z.lor_0_r in *. rewrite H in *.
  rewrite (jalr_text xl w rd rs1 off) by done. rewrite assemble_control by (done || tokens).
  match goal with |- context [asm_control ?l ?c ?m ?a ?r] =>
    change (asm_control l c m a r) with (rd ← arg_reg a 0; '(off, rs1) ← arg_mem a 1; jalr rd off rs1) end.
  operands. unfold jalr. rewrite (imm_tok _ off) by apply int_base0_fmt_d.
  change (imm (OInt off) 12 true ≫= _) with (jalr rd (OInt off) rs1). by rewrite Hw.
Qed.

Lemma upper_round op rd i xl w : op = OP_LUI \/ op = OP_AUIPC -> reg5 rd ->
  u_type op rd (OInt i) = Ok w -> assemble [disasm w xl] xl = Ok [w].
Proof.
  intros Ho Hd Hw. pose proof Hw as H. unfold u_type in H.
  apply bind_Ok in H as (v & Hv & H). apply imm_u in Hv as [-> Hi]; [|done]. apply Ok_inj in H.
  rewrite (upper_text xl w rd i op) by done.
  assert (Htok : u_type op rd (OTok ("0x" ++ fmt_x i)) = Ok w).
  { rewrite <- Hw. unfold u_type. rewrite (imm_tok _ i); [done|]. apply int_base0_hex. lia. }
  assert (Ht : token ("0x" ++ fmt_x i) = true).
  { apply (token_num "0"); [done|]. apply word_num. change (str_all is_word (String "x" (fmt_nat 16 i)) = true).
    rewrite str_all_cons. by rewrite fmt_nat_word by lia. }
  rewrite assemble_control by (first [by destruct Ho as [-> | ->] | cbn [forallb]; by rewrite token_x, Ht]).
  destruct Ho as [-> | ->];
    match goal with |- context [asm_control ?l ?c ?m ?a ?r] =>
      change (asm_control l c m a r) with
        (rd ← arg_reg a 0; i ← arg_tok a 1; u_type (if String.eqb m "lui" then OP_LUI else OP_AUIPC) rd i) end;
    operands; cbn [Z.eqb Pos.eqb OP_LUI OP_AUIPC String.eqb Ascii.eqb Bool.eqb] in *; by rewrite Htok.
Qed.

(** ** CSR, system and floating-point mnemonics *)

Lemma csr_unreadable_cases a : csr_unreadable a = true -> a = 1 \/ a = 2 \/ a = 3.
Proof. unfold csr_unreadable. lia. Qed.

Lemma token_csr_name a : token (csr_name a) = true.
Proof.
  destruct (csr_unreadable a) eqn:E; [|by apply token_csr].
  by destruct (csr_unreadable_cases a E) as [->|[->| ->] ].
Qed.

(** The names the assembler does not know are read as numbers. *)
Lemma csr_lookup_unreadable a : csr_unreadable a = true ->
  exists msg, csr_lookup (OTok (csr_name a)) = Raise (ValueError msg).
Proof. intros H. destruct (csr_unreadable_cases a H) as [->|[->| ->] ]; eexists; vm_compute; reflexivity. Qed.

(** What assembling the text of a CSR instruction comes to: the encoder on
    the printed name. *)
Lemma csr_reg_reassembles mn rd a rs1 xl w : reg5 rd -> reg5 rs1 -> 0 <= a < 4096 ->
  in_names mn ["csrrw"; "csrrs"; "csrrc"] = true -> csr_reg mn rd (OInt a) rs1 = Ok w ->
  assemble [disasm w xl] xl = (w' ← csr_reg mn rd (OTok (csr_name a)) rs1; Ok [w']).
Proof.
  intros Hd H1 Ha Hmn H. unfold csr_reg in H. cbn [csr_lookup mbind result_bind] in H.
  apply bind_Ok in H as (f3 & Hf & H). apply Ok_inj in H. fold (i_type_raw a f3 rd rs1 OP_SYSTEM) in H.
  pose proof (table_range CSR_OP (fun f => (0 <=? f) && (f <? 8)) mn f3 eq_refl Hf) as H3. cbv beta in H3.
  rewrite (csr_text xl w rd rs1 f3 mn a) by (first [done | rewrite <- H; apply decoded_i_word; done || lia]).
  assert (Ht : truthy (f3 .& 4) = false).
  { apply dict_get_find in Hf. unfold CSR_OP in Hf. cbn [dict_find] in Hf.
    table_cases Hf; injection Hf as <-; try done; discriminate Hmn. }
  rewrite Ht.
  pose proof (table_keys CSR_OP (fun k => mnemonic k && negb (compute_mn k) && negb (control_mn k)) mn _ eq_refl Hf)
    as [[Hm Hc%negb_true_iff]%andb_true_iff Hl%negb_true_iff]%andb_true_iff.
  rewrite assemble_system by (first [done | cbn [forallb]; by rewrite !token_x, token_csr_name]).
  unfold asm_system. rewrite Hmn. operands. reflexivity.
Qed.

Lemma csr_imm_reassembles mn rd a i xl w : reg5 rd -> 0 <= a < 4096 ->
  in_names mn ["csrrwi"; "csrrsi"; "csrrci"] = true -> csr_imm mn rd (OInt a) (OInt i) = Ok w ->
  assemble [disasm w xl] xl = (w' ← csr_imm mn rd (OTok (csr_name a)) (OTok (fmt_d i)); Ok [w']).
Proof.
  intros Hd Ha Hmn H. unfold csr_imm in H. cbn [csr_lookup mbind result_bind] in H.
  apply bind_Ok in H as (v & Hv & H). apply imm_u in Hv as [-> Hi]; [|done]. change (2 ^ 5) with 32 in Hi.
  apply bind_Ok in H as (f3 & Hf & H). apply Ok_inj in H. fold (i_type_raw a f3 rd i OP_SYSTEM) in H.
  pose proof (table_range CSR_OP (fun f => (0 <=? f) && (f <? 8)) mn f3 eq_refl Hf) as H3. cbv beta in H3.
  rewrite (csr_text xl w rd i f3 mn a) by (first [done | rewrite <- H; apply decoded_i_word; done || lia]).
  assert (Ht : truthy (f3 .& 4) = true).
  { apply dict_get_find in Hf. unfold CSR_OP in Hf. cbn [dict_find] in Hf.
    table_cases Hf; injection Hf as <-; try done; discriminate Hmn. }
  rewrite Ht.
  pose proof (table_keys CSR_OP (fun k => mnemonic k && negb (compute_mn k) && negb (control_mn k)) mn _ eq_refl Hf)
    as [[Hm Hc%negb_true_iff]%andb_true_iff Hl%negb_true_iff]%andb_true_iff.
  rewrite assemble_system by (first [done | cbn [forallb]; by rewrite token_x, token_csr_name, token_d]).
  unfold asm_system.
  assert (Hr : in_names mn ["csrrw"; "csrrs"; "csrrc"] = false).
  { apply dict_get_find in Hf. unfold CSR_OP in Hf. cbn [dict_find] in Hf.
    table_cases Hf; try done; discriminate Hmn. }
  rewrite Hr, Hmn. operands. reflexivity.
Qed.

Lemma csr_reg_round mn rd a rs1 xl w : reg5 rd -> reg5 rs1 -> 0 <= a < 4096 -> csr_unreadable a = false ->
  in_names mn ["csrrw"; "csrrs"; "csrrc"] = true ->
  csr_reg mn rd (OInt a) rs1 = Ok w -> assemble [disasm w xl] xl = Ok [w].
Proof.
  intros Hd H1 Ha Hu Hmn Hw. rewrite (csr_reg_reassembles mn rd a rs1 xl w) by done.
  assert (Htok : csr_reg mn rd (OTok (csr_name a)) rs1 = Ok w).
  { rewrite <- Hw. unfold csr_reg. by rewrite csr_lookup_name by (done || lia). }
  by rewrite Htok.
Qed.

Lemma csr_imm_round mn rd a i xl w : reg5 rd -> 0 <= a < 4096 -> csr_unreadable a = false ->
  in_names mn ["csrrwi"; "csrrsi"; "csrrci"] = true ->
  csr_imm mn rd (OInt a) (OInt i) = Ok w -> assemble [disasm w xl] xl = Ok [w].
Proof.
  intros Hd Ha Hu Hmn Hw. rewrite (csr_imm_reassembles mn rd a i xl w) by done.
  assert (Htok : csr_imm mn rd (OTok (csr_name a)) (OTok (fmt_d i)) = Ok w).
  { rewrite <- Hw. unfold csr_imm. rewrite csr_lookup_name by (done || lia).
    by rewrite (imm_tok _ i) by apply int_base0_fmt_d. }
  by rewrite Htok.
Qed.

Lemma system_round mn xl w : mn <> "sret" -> system_noarg mn = Ok w -> assemble [disasm w xl] xl = Ok [w].
Proof.
  intros Hn Hw. unfold system_noarg in Hw. apply bind_Ok in Hw as (i & Hf & Hw). apply Ok_inj in Hw as <-.
  apply dict_get_find in Hf. unfold SYSTEM_IMM12 in Hf. cbn [dict_find] in Hf.
  table_cases Hf; injection Hf as <-; try reflexivity. by destruct Hn.
Qed.

Lemma flw_round rd rs1 off xl w : reg5 rd -> reg5 rs1 ->
  flw rd (OInt off) rs1 = Ok w -> assemble [disasm w xl] xl = Ok [w].
Proof.
  intros Hd H1 Hw. pose proof Hw as H. unfold flw in H.
  apply bind_Ok in H as (v & Hv & H). apply imm12_int in Hv as [-> Hr]. apply Ok_inj in H.
  destruct (imm_i_word off rs1 2 rd OP_FLW H1 ltac:(lia) Hd ltac:(done) Hr) as (Hop & E1 & E2 & _ & E4).
  rewrite H in *. rewrite (flw_text xl w rd rs1 off) by done. rewrite assemble_float by (done || tokens).
  match goal with |- context [asm_float ?m ?a ?r] =>
    change (asm_float m a r) with (rd ← arg_freg a 0; '(off, rs1) ← arg_mem a 1; flw rd off rs1) end.
  operands. unfold flw. rewrite (imm_tok _ off) by apply int_base0_fmt_d.
  change (imm (OInt off) 12 true ≫= _) with (flw rd (OInt off) rs1). by rewrite Hw.
Qed.

Lemma fsw_round rs2 rs1 off xl w : reg5 rs2 -> reg5 rs1 ->
  fsw rs2 (OInt off) rs1 = Ok w -> assemble [disasm w xl] xl = Ok [w].
Proof.
  intros Hd H1 Hw. pose proof Hw as H. unfold fsw in H.
  apply bind_Ok in H as (v & Hv & H). apply imm12_int in Hv as [-> Hr]. apply Ok_inj in H.
  destruct (imm_s_word off rs2 rs1 2 OP_FSW Hd H1 ltac:(lia) ltac:(done) Hr) as (Hop & E1 & E2 & _ & E4).
  rewrite H in *. rewrite (fsw_text xl w rs1 rs2 off) by done. rewrite assemble_float by (done || tokens).
  match goal with |- context [asm_float ?m ?a ?r] =>
    change (asm_float m a r) with (rs2 ← arg_freg a 0; '(off, rs1) ← arg_mem a 1; fsw rs2 off rs1) end.
  operands. unfold fsw. rewrite (imm_tok _ off) by apply int_base0_fmt_d.
  change (imm (OInt off) 12 true ≫= _) with (fsw rs2 (OInt off) rs1). by rewrite Hw.
Qed.

(** The OP-FP layout: funct5 over a zero format field. *)
Lemma fp_word f5 rs2 rs1 f3 rd op :
  0 <= f5 < 32 -> reg5 rs2 -> reg5 rs1 -> 0 <= f3 < 8 -> reg5 rd -> 0 <= op < 128 ->
  decoded ((f5 << 27) .| (rs2 << 20) .| (rs1 << 15) .| (f3 << 12) .| (rd << 7) .| op)
    (f5 * 4) rs2 rs1 f3 rd op.
Proof.
  intros. replace (f5 << 27) with ((f5 * 4) << 25) by (rewrite !shiftl_pow by done; lia).
  apply decoded_r_word; done || lia.
Qed.

Lemma rm_range rm : rm_ok rm = true -> 0 <= rm < 8.
Proof. unfold rm_ok. lia. Qed.

Ltac rm_operand :=
  erewrite parse_rm_name by (eassumption || reflexivity); cbn [mbind result_bind].
Ltac rm_tokens H := cbn [forallb]; rewrite ?token_x, ?token_f, (token_rm _ H); reflexivity.

Lemma fp_arith_round mn f5 rd rs1 rs2 rm xl : reg5 rd -> reg5 rs1 -> reg5 rs2 -> rm_ok rm = true ->
  dict_get FP_ARITH mn = Ok f5 ->
  assemble [disasm (fp_r_type f5 rd rs1 rs2 rm) xl] xl = Ok [fp_r_type f5 rd rs1 rs2 rm].
Proof.
  intros Hd H1 H2 Hrm Hf.
  pose proof (table_range FP_ARITH (fun f => (0 <=? f) && (f <? 32)) mn f5 eq_refl Hf) as H5. cbv beta in H5.
  pose proof (rm_range rm Hrm).
  rewrite (fp_arith_text xl _ rd rs1 rs2 f5 rm mn) by (first [done | apply fp_word; done || lia]).
  pose proof (table_keys FP_ARITH (fun k => mnemonic k && negb (compute_mn k) && negb (control_mn k) && negb (system_mn k))
    mn _ eq_refl Hf) as [[[Hm Hc%negb_true_iff]%andb_true_iff Hl%negb_true_iff]%andb_true_iff Hs%negb_true_iff]%andb_true_iff.
  rewrite assemble_float by (first [done | rm_tokens Hrm]).
  assert (Hx : String.eqb mn "flw" = false /\ String.eqb mn "fsw" = false).
  { pose proof (table_keys FP_ARITH (fun k => negb (String.eqb k "flw") && negb (String.eqb k "fsw")) mn _ eq_refl Hf)
      as [?%negb_true_iff ?%negb_true_iff]%andb_true_iff. done. }
  unfold asm_float. rewrite (proj1 Hx), (proj2 Hx), (dict_get_has _ _ _ Hf). operands. rm_operand.
  by rewrite Hf.
Qed.

Lemma madd_round mn op rd rs1 rs2 rs3 rm xl : reg5 rd -> reg5 rs1 -> reg5 rs2 -> reg5 rs3 -> rm_ok rm = true ->
  dict_get MADD_OPCODES mn = Ok op ->
  assemble [disasm (fp_r4_type op rd rs1 rs2 rs3 rm) xl] xl = Ok [fp_r4_type op rd rs1 rs2 rs3 rm].
Proof.
  intros Hd H1 H2 H3 Hrm Hf.
  pose proof (table_range MADD_OPCODES (fun f => (0 <=? f) && (f <? 128)) mn op eq_refl Hf) as H5. cbv beta in H5.
  pose proof (rm_range rm Hrm).
  rewrite (madd_text xl _ rd rs1 rs2 rs3 rm mn op) by (first [done | apply fp_word; done || lia]).
  apply dict_get_find in Hf as Hf'. unfold MADD_OPCODES in Hf'. cbn [dict_find] in Hf'.
  table_cases Hf'; injection Hf' as <-;
    (rewrite assemble_float by (first [done | rm_tokens Hrm]));
    match goal with |- context [asm_float ?m ?a ?r] =>
      change (asm_float m a r) with
        (rd ← arg_freg a 0; rs1 ← arg_freg a 1; rs2 ← arg_freg a 2; rs3 ← arg_freg a 3;
         rm ← parse_rm a 4; op ← dict_get MADD_OPCODES m; Ok (fp_r4_type op rd rs1 rs2 rs3 rm)) end;
    operands; rm_operand; reflexivity.
Qed.

Lemma fp_sqrt_round rd rs1 rm xl : reg5 rd -> reg5 rs1 -> rm_ok rm = true ->
  assemble [disasm (fp_sqrt rd rs1 rm) xl] xl = Ok [fp_sqrt rd rs1 rm].
Proof.
  intros Hd H1 Hrm. pose proof (rm_range rm Hrm).
  rewrite (fp_sqrt_text xl _ rd rs1 rm) by (apply (fp_word 0xb 0); done || lia).
  rewrite assemble_float by (first [done | rm_tokens Hrm]).
  match goal with |- context [asm_float ?m ?a ?r] =>
    change (asm_float m a r) with
      (rd ← arg_freg a 0; rs1 ← arg_freg a 1; rm ← parse_rm a 2; Ok (fp_sqrt rd rs1 rm)) end.
  operands; rm_operand; reflexivity.
Qed.

Lemma fp_cvt_w_s_round un rd rs1 rm xl : reg5 rd -> reg5 rs1 -> rm_ok rm = true ->
  assemble [disasm (fp_cvt_w_s un rd rs1 rm) xl] xl = Ok [fp_cvt_w_s un rd rs1 rm].
Proof.
  intros Hd H1 Hrm. pose proof (rm_range rm Hrm).
  rewrite (fp_cvt_w_s_text xl _ rd rs1 rm un) by (apply (fp_word 0x18); done || lia || by destruct un).
  rewrite assemble_float by (first [by destruct un | rm_tokens Hrm]).
  destruct un; match goal with |- context [asm_float ?m ?a ?r] =>
    change (asm_float m a r) with
      (rd ← arg_reg a 0; rs1 ← arg_freg a 1; rm ← parse_rm a 2;
       Ok (fp_cvt_w_s (String.eqb m "fcvt.wu.s") rd rs1 rm)) end;
  operands; rm_operand; reflexivity.
Qed.

Lemma fp_cvt_s_w_round un rd rs1 rm xl : reg5 rd -> reg5 rs1 -> rm_ok rm = true ->
  assemble [disasm (fp_cvt_s_w un rd rs1 rm) xl] xl = Ok [fp_cvt_s_w un rd rs1 rm].
Proof.
  intros Hd H1 Hrm. pose proof (rm_range rm Hrm).
  rewrite (fp_cvt_s_w_text xl _ rd rs1 rm un) by (apply (fp_word 0x1a); done || lia || by destruct un).
  rewrite assemble_float by (first [by destruct un | rm_tokens Hrm]).
  destruct un; match goal with |- context [asm_float ?m ?a ?r] =>
    change (asm_float m a r) with
      (rd ← arg_freg a 0; rs1 ← arg_reg a 1; rm ← parse_rm a 2;
       Ok (fp_cvt_s_w (String.eqb m "fcvt.s.wu") rd rs1 rm)) end;
  operands; rm_operand; reflexivity.
Qed.

(** Sign injection, minimum, maximum and comparison. *)
Lemma fp_sgnj_round mn rd rs1 rs2 xl w : reg5 rd -> reg5 rs1 -> reg5 rs2 ->
  fp_sgnj mn rd rs1 rs2 = Ok w -> assemble [disasm w xl] xl = Ok [w].
Proof.
  intros Hd H1 H2 Hw. pose proof Hw as H. unfold fp_sgnj in H. apply bind_Ok in H as (f3 & Hf & H).
  apply Ok_inj in H.
  pose proof (table_range FP_SGNJ (fun f => (0 <=? f) && (f <? 8)) mn f3 eq_refl Hf) as H3. cbv beta in H3.
  rewrite (fp_sgnj_text xl w rd rs1 rs2 f3 mn) by (first [done | rewrite <- H; apply (fp_word 0x4); done || lia]).
  apply dict_get_find in Hf as Hf'. unfold FP_SGNJ in Hf'. cbn [dict_find] in Hf'.
  table_cases Hf'; injection Hf' as <-; (rewrite assemble_float by (done || tokens));
    match goal with |- context [asm_float ?m ?a ?r] =>
      change (asm_float m a r) with
        (rd ← arg_freg a 0; rs1 ← arg_freg a 1; rs2 ← arg_freg a 2; fp_sgnj m rd rs1 rs2) end;
    operands; by rewrite Hw.
Qed.

Lemma fp_minmax_round mn rd rs1 rs2 xl w : reg5 rd -> reg5 rs1 -> reg5 rs2 ->
  fp_minmax mn rd rs1 rs2 = Ok w -> assemble [disasm w xl] xl = Ok [w].
Proof.
  intros Hd H1 H2 Hw. pose proof Hw as H. unfold fp_minmax in H. apply bind_Ok in H as (f3 & Hf & H).
  apply Ok_inj in H.
  pose proof (table_range FP_MINMAX (fun f => (0 <=? f) && (f <? 8)) mn f3 eq_refl Hf) as H3. cbv beta in H3.
  rewrite (fp_minmax_text xl w rd rs1 rs2 f3 mn) by (first [done | rewrite <- H; apply (fp_word 0x5); done || lia]).
  apply dict_get_find in Hf as Hf'. unfold FP_MINMAX in Hf'. cbn [dict_find] in Hf'.
  table_cases Hf'; injection Hf' as <-; (rewrite assemble_float by (done || tokens));
    match goal with |- context [asm_float ?m ?a ?r] =>
      change (asm_float m a r) with
        (rd ← arg_freg a 0; rs1 ← arg_freg a 1; rs2 ← arg_freg a 2; fp_minmax m rd rs1 rs2) end;
    operands; by rewrite Hw.
Qed.

Lemma fp_cmp_round mn rd rs1 rs2 xl w : reg5 rd -> reg5 rs1 -> reg5 rs2 ->
  fp_cmp mn rd rs1 rs2 = Ok w -> assemble [disasm w xl] xl = Ok [w].
Proof.
  intros Hd H1 H2 Hw. pose proof Hw as H. unfold fp_cmp in H. apply bind_Ok in H as (f3 & Hf & H).
  apply Ok_inj in H.
  pose proof (table_range FP_CMP (fun f => (0 <=? f) && (f <? 8)) mn f3 eq_refl Hf) as H3. cbv beta in H3.
  rewrite (fp_cmp_text xl w rd rs1 rs2 f3 mn) by (first [done | rewrite <- H; apply (fp_word 0x14); done || lia]).
  apply dict_get_find in Hf as Hf'. unfold FP_CMP in Hf'. cbn [dict_find] in Hf'.
  table_cases Hf'; injection Hf' as <-; (rewrite assemble_float by (done || tokens));
    match goal with |- context [asm_float ?m ?a ?r] =>
      change (asm_float m a r) with
        (rd ← arg_reg a 0; rs1 ← arg_freg a 1; rs2 ← arg_freg a 2; fp_cmp m rd rs1 rs2) end;
    operands; by rewrite Hw.
Qed.

(** One-operand words: the rs2 field is absent. *)
Lemma fp_word1 f5 rs1 f3 rd op :
  0 <= f5 < 32 -> reg5 rs1 -> 0 <= f3 < 8 -> reg5 rd -> 0 <= op < 128 ->
  decoded ((f5 << 27) .| (rs1 << 15) .| (f3 << 12) .| (rd << 7) .| op) (f5 * 4) 0 rs1 f3 rd op.
Proof.
  intros. pose proof (fp_word f5 0 rs1 f3 rd op) as D. rewrite Z.shiftl_0_l, Z.lor_0_r in D.
  apply D; done || lia.
Qed.

Lemma fp_moves_round rd rs1 xl : reg5 rd -> reg5 rs1 ->
  assemble [disasm (fp_mv_x_w rd rs1) xl] xl = Ok [fp_mv_x_w rd rs1] /\
  assemble [disasm (fp_class rd rs1) xl] xl = Ok [fp_class rd rs1] /\
  assemble [disasm (fp_mv_w_x rd rs1) xl] xl = Ok [fp_mv_w_x rd rs1].
Proof.
  intros Hd H1. split; [|split].
  - rewrite (fp_move_text xl _ rd rs1 0x1c 0 "fmv.x.w") by (first [apply (fp_word1 0x1c); done || lia | auto]).
    rewrite assemble_float by (done || tokens).
    match goal with |- context [asm_float ?m ?a ?r] =>
      change (asm_float m a r) with (rd ← arg_reg a 0; rs1 ← arg_freg a 1; Ok (fp_mv_x_w rd rs1)) end.
    operands. reflexivity.
  - rewrite (fp_move_text xl _ rd rs1 0x1c 1 "fclass.s") by (first [apply (fp_word1 0x1c); done || lia | auto]).
    rewrite assemble_float by (done || tokens).
    match goal with |- context [asm_float ?m ?a ?r] =>
      change (asm_float m a r) with (rd ← arg_reg a 0; rs1 ← arg_freg a 1; Ok (fp_class rd rs1)) end.
    operands. reflexivity.
  - assert (D : decoded (fp_mv_w_x rd rs1) (0x1e * 4) 0 rs1 0 rd OP_FP).
    { pose proof (fp_word1 0x1e rs1 0 rd OP_FP) as D. rewrite Z.shiftl_0_l, Z.lor_0_r in D. apply D; done || lia. }
    rewrite (fp_mv_w_x_text xl _ rd rs1) by done. rewrite assemble_float by (done || tokens).
    match goal with |- context [asm_float ?m ?a ?r] =>
      change (asm_float m a r) with (rd ← arg_freg a 0; rs1 ← arg_reg a 1; Ok (fp_mv_w_x rd rs1)) end.
    operands. reflexivity.
Qed.

(** ** The round trip *)

(** The words the assembler emits, with valid register numbers; left out are
    [sret], [sfence.vma] and [fence], and the CSRs [fflags], [frm] and
    [fcsr], whose texts do not read back. *)
Inductive emitted (xl : Z) : Z -> Prop :=
| em_reg mn rd rs1 rs2 w : reg5 rd -> reg5 rs1 -> reg5 rs2 ->
    r_type mn rd rs1 rs2 = Ok w \/ r_type_w mn rd rs1 rs2 = Ok w -> emitted xl w
| em_imm mn rd rs1 i w : reg5 rd -> reg5 rs1 ->
    i_type mn rd rs1 (OInt i) xl = Ok w \/ i_type_w mn rd rs1 (OInt i) = Ok w \/
    i_type_bext_shamt mn rd rs1 (OInt i) xl = Ok w \/ roriw rd rs1 (OInt i) = Ok w \/
    slli_uw rd rs1 (OInt i) = Ok w \/ aes64ks1i rd rs1 (OInt i) = Ok w -> emitted xl w
| em_unary mn rd rs1 w : reg5 rd -> reg5 rs1 ->
    i_type_bext_fixed mn rd rs1 = Ok w \/ i_type_w_bext_fixed mn rd rs1 = Ok w \/ w = rev8 rd rs1 xl ->
    emitted xl w
| em_memory mn r rs1 off w : reg5 r -> reg5 rs1 ->
    load mn r (OInt off) rs1 = Ok w \/ store mn r (OInt off) rs1 = Ok w \/
    flw r (OInt off) rs1 = Ok w \/ fsw r (OInt off) rs1 = Ok w \/ jalr r (OInt off) rs1 = Ok w ->
    emitted xl w
| em_branch mn rs1 rs2 off w : reg5 rs1 -> reg5 rs2 -> branch mn rs1 rs2 (OInt off) = Ok w -> emitted xl w
| em_jal rd off w : reg5 rd -> jal rd (OInt off) = Ok w -> emitted xl w
| em_upper op rd i w : op = OP_LUI \/ op = OP_AUIPC -> reg5 rd -> u_type op rd (OInt i) = Ok w -> emitted xl w
| em_csr_reg mn rd a rs1 w : reg5 rd -> reg5 rs1 -> 0 <= a < 4096 -> csr_unreadable a = false ->
    in_names mn ["csrrw"; "csrrs"; "csrrc"] = true -> csr_reg mn rd (OInt a) rs1 = Ok w -> emitted xl w
| em_csr_imm mn rd a i w : reg5 rd -> 0 <= a < 4096 -> csr_unreadable a = false ->
    in_names mn ["csrrwi"; "csrrsi"; "csrrci"] = true -> csr_imm mn rd (OInt a) (OInt i) = Ok w -> emitted xl w
| em_system mn w : mn <> "sret" -> system_noarg mn = Ok w -> emitted xl w
| em_fp_arith mn f5 rd rs1 rs2 rm : reg5 rd -> reg5 rs1 -> reg5 rs2 -> rm_ok rm = true ->
    dict_get FP_ARITH mn = Ok f5 -> emitted xl (fp_r_type f5 rd rs1 rs2 rm)
| em_madd mn op rd rs1 rs2 rs3 rm : reg5 rd -> reg5 rs1 -> reg5 rs2 -> reg5 rs3 -> rm_ok rm = true ->
    dict_get MADD_OPCODES mn = Ok op -> emitted xl (fp_r4_type op rd rs1 rs2 rs3 rm)
| em_fp_select mn rd rs1 rs2 w : reg5 rd -> reg5 rs1 -> reg5 rs2 ->
    fp_sgnj mn rd rs1 rs2 = Ok w \/ fp_minmax mn rd rs1 rs2 = Ok w \/ fp_cmp mn rd rs1 rs2 = Ok w ->
    emitted xl w
| em_fp_convert un rd rs1 rm w : reg5 rd -> reg5 rs1 -> rm_ok rm = true ->
    w = fp_sqrt rd rs1 rm \/ w = fp_cvt_w_s un rd rs1 rm \/ w = fp_cvt_s_w un rd rs1 rm -> emitted xl w
| em_fp_move rd rs1 w : reg5 rd -> reg5 rs1 ->
    w = fp_mv_x_w rd rs1 \/ w = fp_class rd rs1 \/ w = fp_mv_w_x rd rs1 -> emitted xl w.

(** The round trip of the instruction the hypothesis names. *)
Ltac round_of w :=
  match goal with
  | H : r_type _ _ _ _ = Ok w |- _ => eapply r_type_round; [..|exact H]
  | H : r_type_w _ _ _ _ = Ok w |- _ => eapply r_type_w_round; [..|exact H]
  | H : i_type _ _ _ _ _ = Ok w |- _ => eapply i_type_round; [..|exact H]
  | H : i_type_w _ _ _ _ = Ok w |- _ => eapply i_type_w_round; [..|exact H]
  | H : i_type_bext_shamt _ _ _ _ _ = Ok w |- _ => eapply bext_shamt_round; [..|exact H]
  | H : roriw _ _ _ = Ok w |- _ => eapply roriw_round; [..|exact H]
  | H : slli_uw _ _ _ = Ok w |- _ => eapply slli_uw_round; [..|exact H]
  | H : aes64ks1i _ _ _ = Ok w |- _ => eapply aes64ks1i_round; [..|exact H]
  | H : i_type_bext_fixed _ _ _ = Ok w |- _ => eapply bext_fixed_round; [..|exact H]
  | H : i_type_w_bext_fixed _ _ _ = Ok w |- _ => eapply w_fixed_round; [..|exact H]
  | H : load _ _ _ _ = Ok w |- _ => eapply load_round; [..|exact H]
  | H : store _ _ _ _ = Ok w |- _ => eapply store_round; [..|exact H]
  | H : flw _ _ _ = Ok w |- _ => eapply flw_round; [..|exact H]
  | H : fsw _ _ _ = Ok w |- _ => eapply fsw_round; [..|exact H]
  | H : jalr _ _ _ = Ok w |- _ => eapply jalr_round; [..|exact H]
  | H : branch _ _ _ _ = Ok w |- _ => eapply branch_round; [..|exact H]
  | H : jal _ _ = Ok w |- _ => eapply jal_round; [..|exact H]
  | H : u_type _ _ _ = Ok w |- _ => eapply upper_round; [..|exact H]
  | H : csr_reg _ _ _ _ = Ok w |- _ => eapply csr_reg_round; [..|exact H]
  | H : csr_imm _ _ _ _ = Ok w |- _ => eapply csr_imm_round; [..|exact H]
  | H : system_noarg _ = Ok w |- _ => eapply system_round; [..|exact H]
  | H : fp_sgnj _ _ _ _ = Ok w |- _ => eapply fp_sgnj_round; [..|exact H]
  | H : fp_minmax _ _ _ _ = Ok w |- _ => eapply fp_minmax_round; [..|exact H]
  | H : fp_cmp _ _ _ _ = Ok w |- _ => eapply fp_cmp_round; [..|exact H]
  | H : dict_get FP_ARITH _ = Ok _ |- _ => eapply fp_arith_round; [..|exact H]
  | H : dict_get MADD_OPCODES _ = Ok _ |- _ => eapply madd_round; [..|exact H]
  | H : w = rev8 _ _ _ |- _ => rewrite H; apply rev8_round
  | H : w = fp_sqrt _ _ _ |- _ => rewrite H; apply fp_sqrt_round
  | H : w = fp_cvt_w_s _ _ _ _ |- _ => rewrite H; apply fp_cvt_w_s_round
  | H : w = fp_cvt_s_w _ _ _ _ |- _ => rewrite H; apply fp_cvt_s_w_round
  | H : w = fp_mv_x_w _ _ |- _ => rewrite H; eapply (fun hd h1 => proj1 (fp_moves_round _ _ _ hd h1))
  | H : w = fp_class _ _ |- _ => rewrite H; eapply (fun hd h1 => proj1 (proj2 (fp_moves_round _ _ _ hd h1)))
  | H : w = fp_mv_w_x _ _ |- _ => rewrite H; eapply (fun hd h1 => proj2 (proj2 (fp_moves_round _ _ _ hd h1)))
  end.

(** The other words the instruction encoders emit: [sret], [fence],
    [sfence.vma], and the CSR instructions on [fflags], [frm] and [fcsr]. *)
Inductive unreadable : Z -> Prop :=
| un_sret w : system_noarg "sret" = Ok w -> unreadable w
| un_fence : unreadable fence
| un_sfence rs1 rs2 : reg5 rs1 -> reg5 rs2 -> unreadable (sfence_vma rs1 rs2)
| un_csr_reg mn rd a rs1 w : reg5 rd -> reg5 rs1 -> csr_unreadable a = true ->
    in_names mn ["csrrw"; "csrrs"; "csrrc"] = true -> csr_reg mn rd (OInt a) rs1 = Ok w -> unreadable w
| un_csr_imm mn rd a i w : reg5 rd -> csr_unreadable a = true ->
    in_names mn ["csrrwi"; "csrrsi"; "csrrci"] = true -> csr_imm mn rd (OInt a) (OInt i) = Ok w -> unreadable w.

Definition refused (r : result (list Z)) : bool :=
  match r with Raise (ValueError _) => true | _ => false end.

Lemma refused_raises r : refused r = true -> exists msg, r = Raise (ValueError msg).
Proof. destruct r as [|[] ]; try done. by eexists. Qed.

(** The text of [sfence.vma] depends on its second register only. *)
Lemma sfence_refused xl rs1 rs2 : reg5 rs1 -> reg5 rs2 -> refused (assemble [disasm (sfence_vma rs1 rs2) xl] xl) = true.
Proof.
  assert (Hall : forallb (fun rs1 => forallb (fun rs2 => refused (assemble [disasm (sfence_vma rs1 rs2) xl] xl)) (range 32))
    (range 32) = true) by (vm_compute; reflexivity).
  intros H1 H2. rewrite forallb_forall in Hall. specialize (Hall rs1). cbv beta in Hall. rewrite forallb_forall in Hall.
  apply Hall; apply list_elem_of_In, elem_of_range; done.
Qed.

(** [C7] Assembling the disassembly, for every word the instruction encoders
    of the assembler emit with valid operands, at either register width.
    For all but five kinds [disasm] prints one statement that [assemble]
    accepts and encodes as the same word.  The five kinds, [sret], [fence],
    [sfence.vma] and the CSR instructions on the floating-point CSRs [fflags],
    [frm] and [fcsr] with a register or with an immediate, are printed as a
    text that [assemble] refuses with [ValueError].  (Data placed with
    [.word] is not an instruction and is not covered.) *)
Theorem disasm_assembles xl w :
  (emitted xl w -> assemble [disasm w xl] xl = Ok [w]) /\
  (unreadable w -> exists msg, assemble [disasm w xl] xl = Raise (ValueError msg)).
Proof.
  split.
  - destruct 1; repeat match goal with H : _ \/ _ |- _ => destruct H as [H|H] end;
      lazymatch goal with
      | |- assemble [disasm ?w _] _ = _ => round_of w
      end; assumption || (left; assumption) || (right; assumption).
  - destruct 1 as [w Hw| |rs1 rs2 H1 H2|mn rd a rs1 w Hd H1 Hu Hmn Hw|mn rd a i w Hd Hu Hmn Hw].
    + apply Ok_inj in Hw as <-. apply refused_raises. vm_compute. reflexivity.
    + apply refused_raises. vm_compute. reflexivity.
    + by apply refused_raises, sfence_refused.
    + rewrite (csr_reg_reassembles mn rd a rs1 xl w)
        by (first [done|destruct (csr_unreadable_cases a Hu) as [->|[->| ->] ]; lia]).
      destruct (csr_lookup_unreadable a Hu) as [msg E]. exists msg. unfold csr_reg. by rewrite E.
    + rewrite (csr_imm_reassembles mn rd a i xl w)
        by (first [done|destruct (csr_unreadable_cases a Hu) as [->|[->| ->] ]; lia]).
      destruct (csr_lookup_unreadable a Hu) as [msg E]. exists msg. unfold csr_imm. by rewrite E.
Qed.

Lemma disasm_assembles_witness :
  assemble [disasm 0xFE011CE3 32] 32 = Ok [0xFE011CE3] /\
  exists msg, assemble [disasm 0x00111073 64] 64 = Raise (ValueError msg).
Proof.
  split.
  - apply (proj1 (disasm_assembles 32 0xFE011CE3)), (em_branch 32 "bne" 2 0 (-8)); [done..|].
    vm_compute. reflexivity.
  - apply (proj2 (disasm_assembles 64 0x00111073)), (un_csr_reg "csrrw" 0 1 2); [done..|].
    vm_compute. reflexivity.
Defined.

(** The three float CSRs: the printed name is not one the assembler knows. *)
Example csr_names_unreadable :
  disasm 0x00111073 32 = "csrrw x0,fflags,x2" /\
  assemble [disasm 0x00111073 32] 32 =
    Raise (ValueError "invalid literal for int() with base 0: 'fflags'").
Proof. vm_compute. split; reflexivity. Qed.
