(* ===== verification/Progress.v ===== *)
(** * Forward-only programs

    A program all of whose instructions move on or jump forward, and whose
    last word is a self-loop, is run by [ISS.run] to that word in fewer
    steps than it has instructions.  [sequential] words are those machine
    mode executes without a trap or a jump. *)

From S2P Require Import Prelude Words PyStr Machine Mmu Crypto IntAlu Float32.
From S2P Require Import Float32Facts Step StepFacts Run Asm AsmFacts.

(** ** Definitions *)

(** The instruction neither traps nor jumps in M-mode. *)
Definition sequential (xl w : Z) : Prop :=
  forall s, wf s -> xlen s = xl -> priv_mode s = PRIV_M ->
    exists s', step s w = Ok s' /\ pc s' = pc s + 4 /\ priv_mode s' = PRIV_M.

(** Run from instruction [i] in M-mode, the word leads to a later
    instruction, at most [n]. *)
Definition forward (xl n i w : Z) : Prop :=
  self_loop w = false /\
  forall s, wf s -> xlen s = xl -> priv_mode s = PRIV_M -> pc s = 4 * i ->
    exists s' j, step s w = Ok s' /\ priv_mode s' = PRIV_M /\ pc s' = 4 * j /\ i < j <= n.

Record forward_program (xl n : Z) (words : list Z) : Prop := {
  fp_len : 0 <= n < Z.of_nat (List.length words);
  fp_range : 4 * (n + 1) <= 2 ^ 32;
  fp_body : forall i, 0 <= i < n -> forward xl n i (nthZ 0 words i);
  fp_halt : self_loop (nthZ 0 words n) = true
}.

(** ** Running *)

Lemma m_mode_translate s va acc : priv_mode s = PRIV_M -> translate s va acc = (Some (uxlen s va), s).
Proof. intros Hm. apply translate_bare. unfold paging. by rewrite Hm. Qed.

Lemma uxlen_u32 s v : wf s -> 0 <= v < 2 ^ 32 -> uxlen s v = v.
Proof.
  intros Hs Hv. unfold uxlen. pose proof (wf_width s Hs). rewrite uXLEN_wrap by lia.
  apply wrap_small. unfold in_width. destruct (wf_xlen s Hs) as [-> | ->]; [done|].
  assert (2 ^ 32 <= 2 ^ 64) by done. lia.
Qed.

(** One turn of the loop in machine mode with nothing pending. *)
Lemma m_mode_turn words s steps i :
  wf s -> priv_mode s = PRIV_M -> pending_interrupt s = None -> pc s = 4 * i ->
  0 <= i < Z.of_nat (List.length words) -> 4 * i < 2 ^ 32 ->
  run_turn words s steps =
    if self_loop (nthZ 0 words i) then Break s steps
    else match step s (nthZ 0 words i) with Ok s' => Again s' (steps + 1) | Raise e => Crash e end.
Proof.
  intros Hs Hm Hp Hpc Hi Hr. unfold run_turn, interrupt_due. rewrite Hp.
  rewrite m_mode_translate by done. rewrite uxlen_u32, Hpc by (done || lia).
  rewrite Z.geb_leb. destruct (Z.leb_spec (Z.of_nat (List.length words) * 4) (4 * i)); [lia|].
  cbv zeta. by replace ((4 * i) `div` 4) with i by (rewrite Z.mul_comm, Z.div_mul; lia).
Qed.

Lemma run_forward fuel xl n words : forward_program xl n words ->
  forall s i steps max_steps,
  wf s -> xlen s = xl -> priv_mode s = PRIV_M -> pending_interrupt s = None ->
  pc s = 4 * i -> 0 <= i <= n -> steps + (n - i) < max_steps -> n - i < Z.of_nat fuel ->
  exists s' k, run_loop fuel words max_steps s steps = Returned s' k /\
    pc s' = 4 * n /\ steps <= k <= steps + (n - i) /\ wf s' /\ priv_mode s' = PRIV_M.
Proof.
  intros [Hl Hr Hb Hh]. induction fuel as [|fuel IH];
    intros s i steps max_steps Hs Hx Hm Hp Hpc Hi Hst Hf; [lia|].
  cbn [run_loop]. destruct (Z.ltb_spec steps max_steps) as [_|]; [|lia].
  rewrite (m_mode_turn words s steps i) by (done || lia).
  destruct (Z.eq_dec i n) as [->|Hne].
  { rewrite Hh. exists s, steps. split_and!; (done || lia). }
  destruct (Hb i ltac:(lia)) as [-> Hstep].
  destruct (Hstep s Hs Hx Hm Hpc) as (s' & j & E & Hm' & Hpc' & Hj). rewrite E.
  destruct (step_const s _ s' Hs E) as [Hx' Hp'].
  destruct (IH s' j (steps + 1) max_steps) as (s2 & k & H & Hend & Hk & Hrest);
    [by eapply wf_step|congruence|done|congruence|done|lia|lia|lia|].
  destruct Hrest. exists s2, k. split_and!; try done; lia.
Qed.

(** ** Sequential instructions *)

Lemma retire_next s rd v : pc (retire s rd v) = pc s + 4 /\ priv_mode (retire s rd v) = priv_mode s.
Proof. split; [done|apply quiet_retire]. Qed.

Lemma is_ok_ex {A} (r : result A) : is_ok r = true -> exists a, r = Ok a.
Proof. destruct r; [eauto|done]. Qed.

(** Whether the sub-opcode is defined does not depend on the operands. *)
Lemma exec_R_defined xl f7 f3 A B : is_ok (exec_R xl f7 f3 0 0) = true -> is_ok (exec_R xl f7 f3 A B) = true.
Proof. unfold exec_R. repeat case_match; done. Qed.
Lemma exec_OP32_defined f7 f3 A B : is_ok (exec_OP32 f7 f3 0 0) = true -> is_ok (exec_OP32 f7 f3 A B) = true.
Proof. unfold exec_OP32. repeat case_match; done. Qed.

Section Sequential.
Context (xl w : Z).

Lemma seq_result (r : ISS -> result Z) :
  (forall s, wf s -> xlen s = xl -> is_ok (r s) = true) ->
  (forall s, xlen s = xl -> step s w = (v ← r s; Ok (retire s (w_rd w) v))) -> sequential xl w.
Proof.
  intros Hr Hstep s Hs Hx Hm. rewrite Hstep by done.
  destruct (is_ok_ex _ (Hr s Hs Hx)) as [v ->]. eexists. split; [reflexivity|].
  destruct (retire_next s (w_rd w) v) as [-> ->]. done.
Qed.

Lemma seq_R : w_op w = OP_R -> is_ok (exec_R xl (w_f7 w) (w_f3 w) 0 0) = true -> sequential xl w.
Proof.
  intros Hop Hd. apply (seq_result (fun s => exec_R xl (w_f7 w) (w_f3 w) (Machine.reg s (w_rs1 w)) (Machine.reg s (w_rs2 w)))).
  - intros. by apply exec_R_defined.
  - intros s Hx. step_op Hop. by rewrite Hx.
Qed.

Lemma seq_OP32 : w_op w = OP_32 -> is_ok (exec_OP32 (w_f7 w) (w_f3 w) 0 0) = true -> sequential xl w.
Proof.
  intros Hop Hd. apply (seq_result (fun s => exec_OP32 (w_f7 w) (w_f3 w) (Machine.reg s (w_rs1 w)) (Machine.reg s (w_rs2 w)))).
  - intros. by apply exec_OP32_defined.
  - intros s Hx. step_op Hop. done.
Qed.

(** The only undefined I-type words are SHA-2 functions that do not exist. *)
Lemma seq_I : w_op w = OP_I ->
  (w_f3 w = 1 -> (w >> 26) .& 0x3F = 4 -> is_Some (sha_fn ((w >> 20) .& 0x1F))) -> sequential xl w.
Proof.
  intros Hop Hd.
  apply (seq_result (fun s => exec_I xl w (w_f3 w) (w_f7 w) (imm_i w) (Machine.reg s (w_rs1 w)))).
  - intros s _ _. pose proof (w_f3_range w) as H3. generalize dependent (w_f3 w). intros f3 Hd H3.
    assert (Hc : f3 = 0 \/ f3 = 1 \/ f3 = 2 \/ f3 = 3 \/ f3 = 4 \/ f3 = 5 \/ f3 = 6 \/ f3 = 7) by lia.
    unfold exec_I. cbv zeta. clear H3.
    repeat destruct Hc as [-> |Hc]; [..|subst f3]; cbn [Z.eqb Pos.eqb andb orb]; try reflexivity;
      repeat match goal with
      | |- is_ok (Ok _) = true => reflexivity
      | |- is_ok (if Z.eqb ?a 4 then _ else _) = true => destruct (Z.eqb_spec a 4)
      | |- is_ok (if ?b then _ else _) = true => destruct b
      end.
    destruct (Hd eq_refl) as [f ->]; done.
  - intros s Hx. step_op Hop. by rewrite Hx.
Qed.

Lemma seq_OPIMM32 : w_op w = OP_IMM32 -> w_f3 w = 0 \/ w_f3 w = 1 \/ w_f3 w = 5 -> sequential xl w.
Proof.
  intros Hop Hd.
  apply (seq_result (fun s => exec_OPIMM32 w (w_f3 w) (w_f7 w) (w_rs2 w) (imm_i w) (Machine.reg s (w_rs1 w)))).
  - intros s _ _. unfold exec_OPIMM32. cbv zeta. destruct Hd as [-> |[-> | ->]];
      cbn [Z.eqb Pos.eqb andb orb]; by repeat case_match.
  - intros s Hx. step_op Hop. done.
Qed.
End Sequential.

(** Accesses in machine mode reach their continuation. *)
Lemma m_mode_with_addr s va acc k : priv_mode s = PRIV_M ->
  with_addr s va acc k = k s (uxlen s (uxlen s va)).
Proof. intros Hm. unfold with_addr. by rewrite m_mode_translate. Qed.

Lemma store_n_pc s a v n : pc (store_n s a v n) = pc s.
Proof.
  unfold store_n. generalize (range n) as l. intros l. revert s.
  induction l as [|i l IH]; intros s; [done|]. cbn [fold_left]. rewrite IH.
  unfold store_mem_byte. by case_match.
Qed.

Lemma store_byte_pc s a v : pc (store_mem_byte s a v) = pc s.
Proof. unfold store_mem_byte. by case_match. Qed.

Lemma csr_write_pc s a v : pc (csr_write s a v) = pc s.
Proof. unfold csr_write, csr_store. cbv zeta. by repeat case_match. Qed.

Lemma load_value_defined s f3 a : 0 <= f3 < 7 -> is_ok (load_value s f3 a) = true.
Proof.
  intros H. assert (Hc : f3 = 0 \/ f3 = 1 \/ f3 = 2 \/ f3 = 3 \/ f3 = 4 \/ f3 = 5 \/ f3 = 6) by lia.
  unfold load_value. by repeat destruct Hc as [-> |Hc]; [..|subst f3].
Qed.

Ltac step_op' Hop :=
  unfold step; cbv zeta; rewrite op_nonzero by (rewrite Hop; done); rewrite Hop;
  cbn [Z.eqb Pos.eqb orb andb OP_R OP_32 OP_I OP_IMM32 OP_LOAD OP_STORE OP_BRANCH OP_JAL OP_JALR OP_LUI
       OP_AUIPC OP_SYSTEM OP_FLW OP_FSW OP_FP OP_FMADD OP_FMSUB OP_FNMSUB OP_FNMADD OP_FENCE].

Section SequentialEffects.
Context (xl w : Z).

Lemma seq_load : w_op w = OP_LOAD -> 0 <= w_f3 w < 7 -> sequential xl w.
Proof.
  intros Hop Hf s Hs Hx Hm. step_op Hop. unfold exec_load. rewrite m_mode_with_addr by done.
  destruct (is_ok_ex _ (load_value_defined s (w_f3 w) (uxlen s (uxlen s (Machine.reg s (w_rs1 w) + imm_i w))) Hf))
    as [v ->].
  eexists. split; [reflexivity|]. destruct (retire_next s (w_rd w) v) as [-> ->]. done.
Qed.

Lemma seq_store : w_op w = OP_STORE -> 0 <= w_f3 w < 4 -> sequential xl w.
Proof.
  intros Hop Hf s Hs Hx Hm. step_op Hop. unfold exec_store. rewrite m_mode_with_addr by done.
  assert (Hc : w_f3 w = 0 \/ w_f3 w = 1 \/ w_f3 w = 2 \/ w_f3 w = 3) by lia.
  unfold store_value. repeat destruct Hc as [Hc|Hc]; rewrite Hc; cbn [Z.eqb Pos.eqb mbind result_bind];
    (eexists; split; [reflexivity|]); cbn [pc set_pc]; rewrite ?store_n_pc, ?store_byte_pc; (split; [done|]).
  - change (priv_mode (store_mem_byte s (uxlen s (uxlen s (Machine.reg s (w_rs1 w) + imm_s w)))
      (Machine.reg s (w_rs2 w))) = PRIV_M). rewrite (proj1 (quiet_store_byte _ _ _)). done.
  - etransitivity; [exact (proj1 (quiet_store_byte _ _ _))|].
    etransitivity; [exact (proj1 (quiet_store_byte _ _ _))|done].
  - etransitivity; [exact (proj1 (quiet_store_n _ _ _ _))|done].
  - etransitivity; [exact (proj1 (quiet_store_n _ _ _ _))|done].
Qed.

Lemma seq_lui : w_op w = OP_LUI -> sequential xl w.
Proof.
  intros Hop s Hs Hx Hm. step_op Hop. eexists. split; [reflexivity|].
  by destruct (retire_next s (w_rd w) (s32 (w .& 0xFFFFF000))) as [-> ->].
Qed.

(** Every CSR is accessible in machine mode. *)
Lemma seq_csr : w_op w = OP_SYSTEM -> w_f3 w <> 0 -> sequential xl w.
Proof.
  intros Hop Hf s Hs Hx Hm. step_op Hop. unfold exec_system.
  rewrite (proj2 (Z.eqb_neq _ _)) by done. unfold exec_csr. cbv zeta. rewrite Hm.
  destruct (Z.ltb_spec PRIV_M ((((w >> 20) .& 0xFFF) >> 8) .& 3)) as [Hlt|_].
  { pose proof (field_width 3 (((w >> 20) .& 0xFFF) >> 8) 2 ltac:(done) eq_refl) as Hb.
    unfold in_width in Hb. change (2 ^ 2) with 4 in Hb. unfold PRIV_M in Hlt. lia. }
  eexists. split; [reflexivity|].
  match goal with |- context [retire ?s0 ?rd ?v] => destruct (retire_next s0 rd v) as [-> ->] end.
  by rewrite csr_write_pc, csr_write_priv.
Qed.

Lemma seq_flw : w_op w = OP_FLW -> sequential xl w.
Proof.
  intros Hop s Hs Hx Hm. step_op' Hop. unfold exec_flw. rewrite m_mode_with_addr by done.
  eexists. split; [reflexivity|]. done.
Qed.

Lemma seq_fsw : w_op w = OP_FSW -> sequential xl w.
Proof.
  intros Hop s Hs Hx Hm. step_op' Hop. unfold exec_fsw. rewrite m_mode_with_addr by done.
  cbv zeta. eexists. split; [reflexivity|]. cbn [pc set_pc]. rewrite store_n_pc. split; [done|].
  etransitivity; [exact (proj1 (quiet_store_n _ _ _ _))|done].
Qed.

(** The OP-FP functions. *)
Definition fp_functs : list Z := [0x00; 0x01; 0x02; 0x03; 0x0B; 0x04; 0x05; 0x14; 0x18; 0x1A; 0x1C; 0x1E].

Lemma seq_fp : w_op w = OP_FP -> (w >> 27) .& 0x1F ∈ fp_functs -> sequential xl w.
Proof.
  intros Hop Hf s Hs Hx Hm. step_op' Hop. unfold exec_fp. cbv zeta.
  apply list_elem_of_In in Hf. unfold fp_functs in Hf. cbn [In] in Hf.
  assert (Hk : forall s1, priv_mode s1 = priv_mode s ->
    exists s', Ok (set_pc s1 (pc s + 4)) = Ok s' /\ pc s' = pc s + 4 /\ priv_mode s' = PRIV_M).
  { intros s1 Hq. eexists. split; [reflexivity|]. cbn. split; congruence. }
  repeat destruct Hf as [Hf|Hf]; try rewrite <- Hf; try done; cbn [Z.eqb Pos.eqb mbind result_bind];
    try (by apply Hk).
  - destruct (f_sqrt_ok (Machine.freg s (w_rs1 w)) (resolve_rm s (w_f3 w)) ltac:(by apply wf_freg)) as (r & -> & _).
    by apply Hk.
  - apply Hk. exact (proj1 (quiet_wr s (w_rd w) _)).
  - apply Hk. exact (proj1 (quiet_wr s (w_rd w) _)).
  - destruct (w_f3 w =? 1); cbn [mbind result_bind]; apply Hk; exact (proj1 (quiet_wr s (w_rd w) _)).
Qed.

Lemma seq_fmadd : w_op w ∈ [OP_FMADD; OP_FMSUB; OP_FNMSUB; OP_FNMADD] -> sequential xl w.
Proof.
  intros Hop s Hs Hx Hm. exists (exec_fmadd s w). split; [|done].
  apply list_elem_of_In in Hop. cbn [In] in Hop. repeat destruct Hop as [Hop|Hop]; try done;
    symmetry in Hop; by step_op' Hop.
Qed.

Lemma seq_fence : w_op w = OP_FENCE -> w_f3 w = 0 -> sequential xl w.
Proof.
  intros Hop Hf s Hs Hx Hm. exists (set_pc s (pc s + 4)). split; [|done].
  step_op' Hop. by rewrite Hf.
Qed.
End SequentialEffects.

(** ** Forward instructions *)

Lemma forward_sequential xl n i w : sequential xl w -> w_op w <> OP_JAL -> 0 <= i < n -> forward xl n i w.
Proof.
  intros Hw Hop Hi. split.
  - unfold self_loop. fold (w_op w). by rewrite (proj2 (Z.eqb_neq _ _)).
  - intros s Hs Hx Hm Hpc. destruct (Hw s Hs Hx Hm) as (s' & E & Hpc' & Hm').
    exists s', (i + 1). split_and!; try done; lia.
Qed.

(** A word whose only effect on the pc is [pc + 4] or a later target. *)
Lemma forward_target_pc s i j n : wf s -> pc s = 4 * i -> 0 <= i -> i < j <= n -> 4 * (n + 1) <= 2 ^ 32 ->
  uxlen s (pc s + 4 * (j - i)) = 4 * j.
Proof. intros Hs Hpc Hi Hj Hn. rewrite uxlen_u32 by (done || lia). lia. Qed.

Lemma forward_branch xl n i j mn rs1 rs2 w :
  0 <= rs1 < 32 -> 0 <= rs2 < 32 -> branch mn rs1 rs2 (OInt (4 * (j - i))) = Ok w ->
  0 <= i -> i < j <= n -> 4 * (n + 1) <= 2 ^ 32 -> forward xl n i w.
Proof.
  intros H1 H2 Hw Hi Hj Hn.
  destruct (branch_decodes mn rs1 rs2 _ w H1 H2 Hw) as (f3 & off & Hf & _ & Himm & Hoff & _ & Hop & _ & _ & _ & Ho).
  pose proof (imm_ok_inv (OInt (4 * (j - i))) 13 true _ ltac:(done) Himm) as (o & Ew & Hr & ->).
  assert (off = 4 * (j - i)) as ->.
  { apply (f_equal (fun v => sext v 13)) in Ew. rewrite !sext_imm in Ew; [done|done|exact Hr|done|].
    unfold imm_lo, imm_hi. change (13 - 1) with 12. lia. }
  split; [unfold self_loop; fold (w_op w); by rewrite Hop|].
  intros s Hs Hx Hm Hpc. step_op Hop. unfold exec_branch. rewrite Ho.
  destruct (branch_taken _ _ _ _).
  - exists (set_pc s (uxlen s (pc s + 4 * (j - i)))), j. split_and!; try done; try lia.
    cbn [pc set_pc]. by apply (forward_target_pc s i j n).
  - exists (set_pc s (pc s + 4)), (i + 1). split_and!; try done; cbn [pc set_pc]; lia.
Qed.

Lemma forward_jal xl n i j rd w :
  0 <= rd < 32 -> jal rd (OInt (4 * (j - i))) = Ok w ->
  0 <= i -> i < j <= n -> 4 * (n + 1) <= 2 ^ 32 -> forward xl n i w.
Proof.
  intros Hd Hw Hi Hj Hn. destruct (jal_decodes rd _ w Hd Hw) as (Hop & Hrd & Ho).
  split.
  { unfold self_loop. fold (w_op w). rewrite Hop, Ho. cbn [Z.eqb Pos.eqb OP_JAL andb].
    apply Z.eqb_neq. lia. }
  intros s Hs Hx Hm Hpc. step_op Hop. unfold exec_jal. rewrite Ho. cbv zeta.
  assert (Hs1 : wf (wr s (w_rd w) (pc s + 4))) by (apply wf_wr; [done|lia]).
  assert (Hpc1 : pc (wr s (w_rd w) (pc s + 4)) = 4 * i) by (unfold wr; by case_match).
  eexists _, j. split; [reflexivity|]. split; [exact (eq_trans (proj1 (quiet_wr _ _ _)) Hm)|].
  split; [|lia]. cbn [pc set_pc]. by apply (forward_target_pc _ i j n).
Qed.

(** The halt loop. *)
Lemma halt_word rd w : 0 <= rd < 32 -> jal rd (OInt 0) = Ok w -> self_loop w = true.
Proof.
  intros Hd Hw. destruct (jal_decodes rd _ w Hd Hw) as (Hop & _ & Ho).
  unfold self_loop. fold (w_op w). by rewrite Hop, Ho.
Qed.
