(* ===== verification/UserMode.v ===== *)
(** * Running in user mode

    The body of a translation-mode program runs in user mode on one
    identity-mapped page.  [user_word] words keep the base register, address
    memory only through it and touch no privileged register; on them a step
    in user mode is the step of machine mode, and it keeps the page table. *)

From S2P Require Import Prelude Words PyStr Machine Mmu Crypto IntAlu Float32.
From S2P Require Import Float32Facts Step StepFacts Run Asm AsmFacts Progress.

(** ** Definitions *)

(** OP-FP functions with an integer destination. *)
Definition int_functs : list Z := [0x14; 0x18; 0x1C].

(** The word keeps register 31, reaches memory only at a non-negative offset
    from it, and uses only the floating-point CSRs. *)
Definition user_word (w : Z) : bool :=
  let op := w_op w in
  let keeps := negb (w_rd w =? 31) in
  if op =? OP_LOAD then keeps && (w_f3 w <? 7) && (w_rs1 w =? 31) && (0 <=? imm_i w)
  else if op =? OP_FLW then (w_rs1 w =? 31) && (0 <=? imm_i w)
  else if (op =? OP_STORE) || (op =? OP_FSW) then
    ((op =? OP_FSW) || (w_f3 w <? 4)) && (w_rs1 w =? 31) && (0 <=? imm_s w)
  else if op =? OP_SYSTEM then keeps && negb (w_f3 w =? 0) && ((w >> 20) .& 0xFFF <? 4)
  else if op =? OP_FP then keeps || negb (existsb (Z.eqb ((w >> 27) .& 0x1F)) int_functs)
  else if op =? OP_FENCE then w_f3 w =? 0
  else if (op =? OP_BRANCH) || (op =? OP_FMADD) || (op =? OP_FMSUB) || (op =? OP_FNMSUB) || (op =? OP_FNMADD)
  then true
  else ((op =? OP_R) || (op =? OP_32) || (op =? OP_I) || (op =? OP_IMM32) || (op =? OP_LUI) || (op =? OP_JAL))
       && keeps.

(** Control state, memory and the base register are as before. *)
Definition kept (s s' : ISS) : Prop :=
  quiet s s' /\ mem s' = mem s /\ Machine.reg s' 31 = Machine.reg s 31.

(** The same machine in machine mode. *)
Definition twin (s : ISS) : ISS := set_priv s PRIV_M.

Lemma kept_refl s : kept s s.
Proof. done. Qed.

Lemma kept_trans a b c : kept a b -> kept b c -> kept a c.
Proof. intros (Hq & Hm & Hr) (Hq' & Hm' & Hr'). split; [by eapply quiet_trans|]. split; congruence. Qed.

Lemma kept_pc s p : kept s (set_pc s p).
Proof. done. Qed.

Lemma kept_wr s rd v : 0 <= rd -> rd <> 31 -> kept s (wr s rd v).
Proof.
  intros H0 Hr. split; [apply quiet_wr|]. unfold wr. destruct (negb (rd =? 0)); [|done]. split; [done|].
  unfold Machine.reg. cbn [regs set_regs]. by apply nthZ_updZ_ne.
Qed.

Lemma kept_retire s rd v : 0 <= rd -> rd <> 31 -> kept s (retire s rd v).
Proof. intros H0 Hr. unfold retire. eapply kept_trans; [by apply kept_wr|apply kept_pc]. Qed.

(** Back from machine mode. *)
Definition user (s s2 : ISS) : ISS := set_priv s2 (priv_mode s).

Lemma user_twin s : user s (twin s) = s.
Proof. by destruct s. Qed.

Lemma user_pc s s2 p : user s (set_pc s2 p) = set_pc (user s s2) p.
Proof. done. Qed.

Lemma user_wr s s2 rd v : user s (wr s2 rd v) = wr (user s s2) rd v.
Proof. unfold wr. by destruct (negb (rd =? 0)). Qed.

Lemma user_retire s rd v : user s (retire (twin s) rd v) = retire s rd v.
Proof. unfold retire. by rewrite user_pc, user_wr, user_twin. Qed.

Lemma user_fp_result s rd r : user s (fp_result (twin s) rd r) = fp_result s rd r.
Proof. unfold fp_result, set_fflags, put_freg. by destruct s. Qed.

Lemma user_int_result s rd r : user s (int_result (twin s) rd r) = int_result s rd r.
Proof.
  unfold int_result, set_fflags. transitivity (set_ff (user s (wr (twin s) rd (fst r)))
    ((fflags (user s (wr (twin s) rd (fst r))) .| snd r) .& 0x1F)); [done|]. by rewrite user_wr, user_twin.
Qed.

(** The words whose only effects are on registers. *)
Definition register_op (op : Z) : bool :=
  (op =? OP_R) || (op =? OP_32) || (op =? OP_I) || (op =? OP_IMM32) || (op =? OP_LUI) || (op =? OP_JAL)
  || (op =? OP_BRANCH) || (op =? OP_FP) || (op =? OP_FMADD) || (op =? OP_FMSUB) || (op =? OP_FNMSUB)
  || (op =? OP_FNMADD) || (op =? OP_FENCE).

Ltac op_cases H :=
  unfold register_op in H; rewrite !orb_true_iff, !Z.eqb_eq in H;
  repeat match type of H with _ \/ _ => destruct H as [H|H] end.

Lemma bind_intro {A B} (m : result A) (k : A -> result B) a r : m = Ok a -> k a = r -> m ≫= k = r.
Proof. intros ->. done. Qed.

Lemma user_exec_fp s w s2 : exec_fp (twin s) w = Ok s2 -> exec_fp s w = Ok (user s s2).
Proof.
  unfold exec_fp. cbv zeta. change (Machine.reg (twin s)) with (Machine.reg s).
  change (Machine.freg (twin s)) with (Machine.freg s). change (resolve_rm (twin s)) with (resolve_rm s).
  intros (s1 & H & <-%Ok_inj)%bind_Ok. apply (bind_intro _ _ (user s s1)); [|done]. revert H.
  repeat match goal with |- (if ?b then _ else _) = _ -> _ => destruct b end;
    try (intros <-%Ok_inj; by rewrite ?user_fp_result, ?user_int_result, ?user_wr, ?user_twin);
    try discriminate.
  intros (r & Hr & <-%Ok_inj)%bind_Ok. rewrite Hr. cbn [mbind result_bind]. by rewrite user_fp_result.
Qed.

Lemma user_exec_fmadd s w : user s (exec_fmadd (twin s) w) = exec_fmadd s w.
Proof.
  unfold exec_fmadd. cbv zeta. change (Machine.freg (twin s)) with (Machine.freg s).
  change (resolve_rm (twin s)) with (resolve_rm s). by rewrite user_pc, user_fp_result.
Qed.

Lemma step_register s w s2 : register_op (w_op w) = true -> (w_op w = OP_FENCE -> w_f3 w = 0) ->
  step (twin s) w = Ok s2 -> step s w = Ok (user s s2).
Proof.
  intros Hop Hf. op_cases Hop; step_op' Hop; change (xlen (twin s)) with (xlen s);
    change (Machine.reg (twin s)) with (Machine.reg s); change (Machine.freg (twin s)) with (Machine.freg s);
    try (intros (v & Hv & <-%Ok_inj)%bind_Ok; rewrite Hv; cbn [mbind result_bind]; by rewrite user_retire);
    try (intros <-%Ok_inj; by rewrite ?user_retire, ?user_exec_fmadd).
  - intros <-%Ok_inj. unfold exec_jal. rewrite user_pc, user_wr, user_twin.
    f_equal. f_equal. unfold uxlen, wr, twin. by destruct (negb (w_rd w =? 0)).
  - intros <-%Ok_inj. f_equal. unfold exec_branch. change (xlen (twin s)) with (xlen s).
    change (Machine.reg (twin s)) with (Machine.reg s). destruct (branch_taken _ _ _ _); by destruct s.
  - apply user_exec_fp.
  - rewrite (Hf Hop). cbn. intros <-%Ok_inj. by destruct s.
Qed.

(** ** What the words keep *)

Lemma kept_put_freg s rd v : kept s (put_freg s rd v).
Proof. done. Qed.
Lemma kept_fp_result s rd r : kept s (fp_result s rd r).
Proof. done. Qed.
Lemma kept_int_result s rd r : 0 <= rd -> rd <> 31 -> kept s (int_result s rd r).
Proof. intros H0 Hr. exact (kept_wr s rd (fst r) H0 Hr). Qed.

(** The test of a known opcode. *)
Ltac word_op Hop H := unfold user_word in H; cbv zeta in H; rewrite Hop in H;
  cbn [Z.eqb Pos.eqb orb andb OP_R OP_32 OP_I OP_IMM32 OP_LOAD OP_STORE OP_BRANCH OP_JAL OP_JALR OP_LUI
       OP_AUIPC OP_SYSTEM OP_FLW OP_FSW OP_FP OP_FMADD OP_FMSUB OP_FNMSUB OP_FNMADD OP_FENCE] in H.

Lemma keeps_base b : negb (b =? 31) = true -> b <> 31.
Proof. intros H. apply negb_true_iff, Z.eqb_neq in H. exact H. Qed.

Lemma kept_exec_fp s w s' : user_word w = true -> w_op w = OP_FP -> exec_fp s w = Ok s' -> kept s s'.
Proof.
  intros Hu Hop. word_op Hop Hu. pose proof (w_rd_range w) as [Hrd _].
  unfold exec_fp. cbv zeta. intros (s1 & H & <-%Ok_inj)%bind_Ok. eapply kept_trans; [|apply kept_pc]. revert H.
  assert (Hint : forall f, ((w >> 27) .& 0x1F =? f) = true -> f ∈ int_functs -> w_rd w <> 31).
  { intros f Hf%Z.eqb_eq Hin. apply orb_true_iff in Hu as [Hu|Hu]; [by apply keeps_base|]. exfalso.
    apply negb_true_iff in Hu. rewrite Hf in Hu. apply not_true_iff_false in Hu. apply Hu, existsb_exists.
    exists f. split; [by apply list_elem_of_In|apply Z.eqb_refl]. }
  repeat match goal with |- (if ?b then _ else _) = _ -> _ => destruct b eqn:? end;
    try discriminate; try (intros <-%Ok_inj; first [apply kept_fp_result|apply kept_put_freg]).
  - intros (r & _ & <-%Ok_inj)%bind_Ok. apply kept_fp_result.
  - intros <-%Ok_inj. apply kept_int_result; [done|]. eapply Hint; [done|by apply list_elem_of_In; left].
  - intros <-%Ok_inj. apply kept_int_result; [done|]. eapply Hint; [done|by apply list_elem_of_In; right; left].
  - intros <-%Ok_inj. apply kept_wr; [done|]. eapply Hint; [done|by apply list_elem_of_In; right; right; left].
  - intros <-%Ok_inj. apply kept_wr; [done|]. eapply Hint; [done|by apply list_elem_of_In; right; right; left].
Qed.

Lemma kept_register s w s' : user_word w = true -> register_op (w_op w) = true -> step s w = Ok s' -> kept s s'.
Proof.
  intros Hu Hr. pose proof (w_rd_range w) as [Hrd _].
  op_cases Hr; pose proof Hu as Hu'; word_op Hr Hu'; step_op' Hr;
    try (intros (v & _ & <-%Ok_inj)%bind_Ok; apply kept_retire; [done|by apply keeps_base]).
  - intros <-%Ok_inj. apply kept_retire; [done|by apply keeps_base].
  - intros <-%Ok_inj. unfold exec_jal. eapply kept_trans; [|apply kept_pc]. apply kept_wr; [done|by apply keeps_base].
  - intros <-%Ok_inj. unfold exec_branch. by destruct (branch_taken _ _ _ _).
  - by apply kept_exec_fp.
  - by intros <-%Ok_inj.
  - by intros <-%Ok_inj.
  - by intros <-%Ok_inj.
  - by intros <-%Ok_inj.
  - rewrite Hu'. by intros <-%Ok_inj.
Qed.

(** ** The user environment *)

(** Addresses of the first page are mapped to themselves. *)
Definition first_page (s : ISS) : Prop :=
  if xlen s =? 64 then csr_get s CSR_SATP = 0
  else csr_get s CSR_SATP = 0x80000000 /\ sv32_pte s 0 0 = 0x401 /\ sv32_pte s 1 0 = 0x1F.

Record user_env (xl : Z) (s : ISS) : Prop := {
  ue_plain : plain_memory s;
  ue_size : 8192 <= mem_size s;
  ue_xlen : xlen s = xl;
  ue_priv : priv_mode s = PRIV_U;
  ue_none : pending_interrupt s = None;
  ue_page : first_page s
}.

Lemma walk_first_page s va acc : priv_mode s = PRIV_U -> sv32_pte s 0 0 = 0x401 -> sv32_pte s 1 0 = 0x1F ->
  0 <= va < 4096 -> sv32_walk s acc 0x80000000 va = Some va.
Proof.
  intros Hp H1 H0 Hva. unfold sv32_walk. cbn [walk]. change (0x80000000 `mod` 2 ^ 20) with 0.
  assert (E1 : vpn 10 va 1 = 0).
  { unfold vpn. change (2 ^ (12 + 10 * Z.of_nat 1)) with 4194304. rewrite Z.div_small by lia. done. }
  assert (E0 : vpn 10 va 0 = 0).
  { unfold vpn. change (2 ^ (12 + 10 * Z.of_nat 0)) with 4096. rewrite Z.div_small by lia. done. }
  rewrite E1, E0, H1. change (pte_valid 0x401) with true. change (pte_is_leaf 0x401) with false.
  change (pte_ppn 0x401) with 1. cbn [negb]. rewrite H0.
  change (pte_valid 0x1F) with true. change (pte_is_leaf 0x1F) with true. change (pte_ppn 0x1F) with 0.
  assert (Hok : pte_perm_ok s 0x1F acc = true) by (unfold pte_perm_ok; rewrite Hp; by destruct acc).
  rewrite Hok. change (0 `mod` 2 ^ (10 * Z.of_nat 0)) with 0. cbn [negb Z.eqb].
  change (span 10 0) with 12. change (2 ^ 12) with 4096. f_equal. by rewrite Z.mod_small.
Qed.

Lemma user_translate xl s va acc : user_env xl s -> 0 <= va < 4096 -> translate s va acc = (Some va, s).
Proof.
  intros [[Hs _] _ _ Hp _ Hpg] Hva. unfold first_page in Hpg.
  destruct (wf_xlen s Hs) as [Hx|Hx]; rewrite Hx in Hpg; cbn [Z.eqb Pos.eqb] in Hpg.
  - destruct Hpg as (Hsatp & H1 & H0). unfold translate. rewrite Hx, Hp, Hsatp.
    change (PRIV_U =? PRIV_M) with false. change (32 =? 32) with true.
    change (negb (truthy ((0x80000000 >> SATP_MODE_BIT) .& 1))) with false. cbv iota.
    rewrite translate_sv32_walk, u32_small by lia. by rewrite walk_first_page.
  - rewrite translate_bare.
    + unfold uxlen. rewrite Hx, uXLEN_wrap, wrap_small; [done|unfold in_width; lia|done].
    + unfold paging. rewrite Hx, Hpg. by rewrite andb_comm.
Qed.

Lemma user_with_addr xl s va acc k : user_env xl s -> 0 <= va < 4096 -> with_addr s va acc k = k s va.
Proof.
  intros Hs Hva. unfold with_addr. destruct (ue_plain _ _ Hs) as [Hw _].
  assert (Hva' : 0 <= va < 2 ^ 32) by lia. rewrite (uxlen_u32 s va Hw Hva').
  by rewrite (user_translate xl s va acc Hs Hva).
Qed.

(** The two entries the identity mapping is made of. *)
Definition tables_kept (s s' : ISS) : Prop :=
  forall b, 0 <= b < 4 \/ 4096 <= b < 4100 -> load_mem_byte s' b = load_mem_byte s b.

Lemma tables_kept_pte s s' : tables_kept s s' -> sv32_pte s' 0 0 = sv32_pte s 0 0 /\ sv32_pte s' 1 0 = sv32_pte s 1 0.
Proof.
  intros H. unfold sv32_pte, read_pte. cbv zeta. change ((0 * 2 ^ 12 + 0 * 4) .& 0xFFFFFFFF) with 0.
  change ((1 * 2 ^ 12 + 0 * 4) .& 0xFFFFFFFF) with 4096. by rewrite !H by lia.
Qed.

Lemma user_env_keep xl s s' : user_env xl s -> plain_memory s' -> quiet s s' -> tables_kept s s' -> user_env xl s'.
Proof.
  intros [Hp Hsz Hx Hpr Hn Hpg] Hp' (Hq1 & Hq2 & Hq3 & Hq4 & Hq5) Ht.
  destruct (tables_kept_pte s s' Ht) as [T1 T0]. split; [done|unfold mem_size in *; by rewrite Hq5|congruence..|].
  unfold first_page, csr_get in *. by rewrite Hq3, Hq2, T1, T0.
Qed.

Lemma user_env_same xl s s' : user_env xl s -> wf s' -> quiet s s' -> mem s' = mem s -> user_env xl s'.
Proof.
  intros Hu Hw Hq Hm. pose proof (ue_plain _ _ Hu) as [Hs (k & Hk)].
  assert (Hmask : mem_mask s' = mem_mask s).
  { destruct (wf_mem_size s Hs) as [_ ->], (wf_mem_size s' Hw) as [_ ->]. by rewrite Hm. }
  apply (user_env_keep xl s); try done.
  - split; [done|]. exists k. by rewrite Hm.
  - intros b _. unfold load_mem_byte. by rewrite Hm, Hmask.
Qed.

Lemma user_env_kept xl s s' : user_env xl s -> wf s' -> kept s s' -> user_env xl s'.
Proof. intros Hu Hw (Hq & Hm & _). by apply (user_env_same xl s). Qed.

Lemma user_env_retire xl s rd v : user_env xl s -> 0 <= rd -> user_env xl (retire s rd v).
Proof.
  intros Hu Hrd. pose proof (ue_plain _ _ Hu) as [Hs _].
  apply (user_env_same xl s); [done|by apply wf_retire|apply quiet_retire|].
  unfold retire, wr. by destruct (negb (rd =? 0)).
Qed.

(** ** One instruction *)

Lemma sext12_max v : sext v 12 <= 2047.
Proof. rewrite sext_swrap by done. pose proof (swrap_range 12 v ltac:(done)) as H. cbn in H. lia. Qed.

Lemma twin_with_addr xl s va acc k : user_env xl s -> 0 <= va < 4096 -> with_addr (twin s) va acc k = k (twin s) va.
Proof.
  intros Hs Hva. rewrite m_mode_with_addr by done. destruct (ue_plain _ _ Hs) as [Hw _].
  assert (Hva' : 0 <= va < 2 ^ 32) by lia. change (uxlen (twin s)) with (uxlen s). by rewrite !(uxlen_u32 s va Hw Hva').
Qed.

Lemma store_n_regs s a v n : regs (store_n s a v n) = regs s.
Proof.
  unfold store_n. generalize (range n) as l. intros l. revert s. induction l as [|i l IH]; intros s; [done|].
  cbn [fold_left]. rewrite IH. unfold store_mem_byte. by destruct (MMIO_BASE <=? _).
Qed.

Lemma user_env_store xl s a v n p : user_env xl s -> 0 <= n -> 4 <= a -> a + n <= 4096 -> 0 <= p ->
  user_env xl (set_pc (store_n s a v n) p).
Proof.
  intros Hs Hn Ha He Hp0. pose proof (ue_size _ _ Hs) as Hsz. pose proof (ue_plain _ _ Hs) as Hp.
  destruct (load_store_n s a v n 0 Hp Hn ltac:(lia) ltac:(lia) ltac:(lia)) as ([Hw Hk] & _ & _).
  assert (Hq : quiet s (set_pc (store_n s a v n) p))
    by exact (quiet_trans _ _ _ (quiet_store_n s a v n) (quiet_pc _ _)).
  apply (user_env_keep xl s); [done| |exact Hq|].
  - split; [by apply wf_set_pc|exact Hk].
  - intros b Hb. change (load_mem_byte (store_n s a v n) b = load_mem_byte s b).
    destruct (load_store_n s a v n b Hp Hn ltac:(lia) ltac:(lia) ltac:(lia)) as (_ & _ & ->).
    destruct (Z.leb_spec a b), (Z.ltb_spec b (a + n)); try lia; done.
Qed.

Lemma kept_csr_user s a v : 0 <= a < 4 -> csr s !! 0 = None -> kept s (csr_write s a v).
Proof.
  intros Ha H0. assert (Hc : a = 0 \/ a = 1 \/ a = 2 \/ a = 3) by lia.
  destruct Hc as [-> |[-> |[-> | ->]]]; try done. unfold csr_write. cbn. unfold csr_store. by rewrite H0.
Qed.

(** The machine is in the user environment with [base] in register 31. *)
Definition user_state (base xl : Z) (s : ISS) : Prop := user_env xl s /\ Machine.reg s 31 = base.

Lemma user_state_kept base xl s s' : user_state base xl s -> wf s' -> kept s s' -> user_state base xl s'.
Proof. intros [Hu Hr] Hw Hk. split; [by eapply user_env_kept|]. destruct Hk as (_ & _ & ->). exact Hr. Qed.

(** The words whose effects are not on registers alone. *)
Lemma user_word_ops w : user_word w = true ->
  register_op (w_op w) = true \/ w_op w = OP_LOAD \/ w_op w = OP_FLW \/ w_op w = OP_STORE \/ w_op w = OP_FSW \/
  w_op w = OP_SYSTEM.
Proof.
  intros H. unfold user_word in H. cbv zeta in H. unfold register_op.
  destruct (Z.eqb_spec (w_op w) OP_LOAD); [tauto|]. destruct (Z.eqb_spec (w_op w) OP_FLW); [tauto|].
  destruct (Z.eqb_spec (w_op w) OP_STORE); [tauto|]. destruct (Z.eqb_spec (w_op w) OP_FSW); [tauto|].
  destruct (Z.eqb_spec (w_op w) OP_SYSTEM); [tauto|]. left. cbn [orb] in H. revert H.
  destruct (w_op w =? OP_FP); [by rewrite ?orb_true_r|]. destruct (w_op w =? OP_FENCE); [by rewrite ?orb_true_r|].
  by repeat match goal with |- context [w_op w =? ?c] => destruct (w_op w =? c); cbn [orb andb] end.
Qed.

Section UserStep.
Context (base xl : Z) (Hbase : 4 <= base <= 2040).

Lemma user_register s w s2 : user_state base xl s -> user_word w = true -> register_op (w_op w) = true ->
  step (twin s) w = Ok s2 -> exists s', step s w = Ok s' /\ pc s' = pc s2 /\ user_state base xl s'.
Proof.
  intros Hs Hu Hr H. exists (user s s2). pose proof (ue_plain _ _ (proj1 Hs)) as [Hw _].
  assert (E : step s w = Ok (user s s2)).
  { apply step_register; [done| |done]. intros Hop. word_op Hop Hu. by apply Z.eqb_eq. }
  split; [done|]. split; [done|]. apply (user_state_kept base xl s); [done|by eapply wf_step|by eapply kept_register].
Qed.

(** Addresses of accesses through the base register. *)
Lemma user_address s off : user_state base xl s -> 0 <= off <= 2047 ->
  Machine.reg s 31 + off = base + off /\ 0 <= base + off < 4096.
Proof. intros [_ ->] Ho. lia. Qed.

Lemma user_load s w s2 : user_state base xl s -> user_word w = true -> w_op w = OP_LOAD ->
  step (twin s) w = Ok s2 -> exists s', step s w = Ok s' /\ pc s' = pc s2 /\ user_state base xl s'.
Proof.
  intros Hs Hu Hop. word_op Hop Hu. apply andb_true_iff in Hu as [[[Hk%keeps_base Hf]%andb_true_iff Hr%Z.eqb_eq]%andb_true_iff Ho%Z.leb_le].
  pose proof (sext12_max ((w >> 20) .& 0xFFF)) as Hmax. fold (imm_i w) in Hmax.
  destruct (user_address s (imm_i w) Hs ltac:(lia)) as [Ea Hr'].
  step_op Hop. unfold exec_load. rewrite Hr. change (Machine.reg (twin s) 31) with (Machine.reg s 31). rewrite Ea.
  rewrite (twin_with_addr xl s), (user_with_addr xl s) by (done || apply Hs).
  change (load_value (twin s)) with (load_value s). intros (v & Hv & <-%Ok_inj)%bind_Ok. rewrite Hv.
  eexists. split; [reflexivity|]. split; [done|].
  pose proof (ue_plain _ _ (proj1 Hs)) as [Hw _]. pose proof (w_rd_range w) as [Hrd _].
  apply (user_state_kept base xl s); [done|by apply wf_retire|by apply kept_retire].
Qed.

Lemma user_flw s w s2 : user_state base xl s -> user_word w = true -> w_op w = OP_FLW ->
  step (twin s) w = Ok s2 -> exists s', step s w = Ok s' /\ pc s' = pc s2 /\ user_state base xl s'.
Proof.
  intros Hs Hu Hop. word_op Hop Hu. apply andb_true_iff in Hu as [Hr%Z.eqb_eq Ho%Z.leb_le].
  pose proof (sext12_max ((w >> 20) .& 0xFFF)) as Hmax. fold (imm_i w) in Hmax.
  destruct (user_address s (imm_i w) Hs ltac:(lia)) as [Ea Hr'].
  intros H. pose proof (ue_plain _ _ (proj1 Hs)) as [Hw _]. revert H.
  assert (Hwf : forall s', step s w = Ok s' -> wf s') by (intros s'; by apply wf_step). revert Hwf.
  step_op' Hop. unfold exec_flw. rewrite Hr. change (Machine.reg (twin s) 31) with (Machine.reg s 31). rewrite Ea.
  rewrite (twin_with_addr xl s), (user_with_addr xl s) by (done || apply Hs).
  intros Hwf <-%Ok_inj. eexists. split; [reflexivity|]. split; [done|].
  apply (user_state_kept base xl s); [done|by apply Hwf|by apply kept_put_freg].
Qed.

(** A store of [n] bytes through the base register. *)
Lemma user_stored s a v n : user_state base xl s -> 4 <= a -> 0 <= n <= 8 -> a + n <= 4096 ->
  user_state base xl (set_pc (store_n s a v n) (pc (store_n s a v n) + 4)).
Proof.
  intros [Hs Hr] Ha Hn He. pose proof (ue_plain _ _ Hs) as [Hw _]. split.
  - apply user_env_store; try done; [lia|]. rewrite store_n_pc. pose proof (wf_pc s Hw). lia.
  - unfold Machine.reg in *. cbn [regs set_pc]. by rewrite store_n_regs.
Qed.

Lemma store_value_n f3 : 0 <= f3 < 4 ->
  exists n, 0 <= n <= 8 /\ forall s a B, store_value s f3 a B = Ok (store_n s a B n).
Proof.
  intros Hf. assert (Hc : f3 = 0 \/ f3 = 1 \/ f3 = 2 \/ f3 = 3) by lia.
  destruct Hc as [-> |[-> |[-> | ->]]].
  - exists 1. split; [lia|]. intros. by rewrite store_n_1.
  - exists 2. split; [lia|]. intros. by rewrite store_n_2.
  - exists 4. split; [lia|done].
  - exists 8. split; [lia|done].
Qed.

Lemma user_store s w s2 : user_state base xl s -> user_word w = true -> w_op w = OP_STORE ->
  step (twin s) w = Ok s2 -> exists s', step s w = Ok s' /\ pc s' = pc s2 /\ user_state base xl s'.
Proof.
  intros Hs Hu Hop. word_op Hop Hu. apply andb_true_iff in Hu as [[Hf Hr%Z.eqb_eq]%andb_true_iff Ho%Z.leb_le].
  pose proof (sext12_max (((w >> 25) << 5) .| ((w >> 7) .& 0x1F))) as Hmax. fold (imm_s w) in Hmax.
  destruct (user_address s (imm_s w) Hs ltac:(lia)) as [Ea Hr'].
  step_op Hop. unfold exec_store. rewrite Hr. change (Machine.reg (twin s)) with (Machine.reg s). rewrite Ea.
  rewrite (twin_with_addr xl s), (user_with_addr xl s) by (done || apply Hs).
  destruct (store_value_n (w_f3 w)) as (n & Hn & E); [pose proof (w_f3_range w); lia|]. rewrite !E.
  cbn [mbind result_bind]. intros <-%Ok_inj. eexists. split; [reflexivity|].
  split; [cbn [pc set_pc]; by rewrite !store_n_pc|]. apply user_stored; [done|lia|lia|lia].
Qed.

Lemma user_fsw s w s2 : user_state base xl s -> user_word w = true -> w_op w = OP_FSW ->
  step (twin s) w = Ok s2 -> exists s', step s w = Ok s' /\ pc s' = pc s2 /\ user_state base xl s'.
Proof.
  intros Hs Hu Hop. word_op Hop Hu. apply andb_true_iff in Hu as [Hr%Z.eqb_eq Ho%Z.leb_le].
  pose proof (sext12_max (((w >> 25) << 5) .| ((w >> 7) .& 0x1F))) as Hmax. fold (imm_s w) in Hmax.
  destruct (user_address s (imm_s w) Hs ltac:(lia)) as [Ea Hr'].
  step_op' Hop. unfold exec_fsw. rewrite Hr. change (Machine.reg (twin s)) with (Machine.reg s). rewrite Ea.
  rewrite (twin_with_addr xl s), (user_with_addr xl s) by (done || apply Hs). cbv zeta.
  intros <-%Ok_inj. eexists. split; [reflexivity|].
  split; [cbn [pc set_pc]; by rewrite !store_n_pc|]. apply user_stored; [done|lia|lia|lia].
Qed.

(** The floating-point CSRs are accessible to user mode. *)
Lemma user_csr s w s2 : user_state base xl s -> user_word w = true -> w_op w = OP_SYSTEM ->
  step (twin s) w = Ok s2 -> exists s', step s w = Ok s' /\ pc s' = pc s2 /\ user_state base xl s'.
Proof.
  intros Hs Hu Hop. word_op Hop Hu.
  apply andb_true_iff in Hu as [[Hk%keeps_base Hf%negb_true_iff]%andb_true_iff Ha%Z.ltb_lt].
  pose proof (field_width 0xFFF (w >> 20) 12 ltac:(done) eq_refl) as [Ha0 _].
  pose proof (ue_plain _ _ (proj1 Hs)) as [Hw _]. pose proof (w_rd_range w) as [Hrd _].
  intros H. assert (Hwf : forall s', step s w = Ok s' -> wf s') by (intros s'; by apply wf_step). revert H Hwf.
  step_op Hop. unfold exec_system. rewrite Hf. unfold exec_csr. cbv zeta.
  set (a := (w >> 20) .& 0xFFF) in *. assert (Hreq : (a >> 8) .& 3 = 0).
  { assert (Hc : a = 0 \/ a = 1 \/ a = 2 \/ a = 3) by lia. by destruct Hc as [-> |[-> |[-> | ->]]]. }
  rewrite Hreq. change (priv_mode (twin s) <? 0) with false. rewrite (ue_priv _ _ (proj1 Hs)).
  change (PRIV_U <? 0) with false. cbv iota. intros <-%Ok_inj Hwf. eexists. split; [reflexivity|]. split.
  - unfold retire. cbn [pc set_pc]. by rewrite !csr_write_pc.
  - apply (user_state_kept base xl s); [done|by apply Hwf|]. eapply kept_trans; [|by apply kept_retire].
    apply kept_csr_user; [lia|]. destruct (csr s !! 0) eqn:E; [|done]. exfalso.
    assert (Hin : 0 ∈ csr_keys) by (apply (wf_csr_dom s Hw); eauto).
    apply list_elem_of_In in Hin. cbn in Hin. repeat destruct Hin as [Hin|Hin]; done.
Qed.

(** On user words, user mode follows machine mode. *)
Lemma user_step s w s2 : user_state base xl s -> user_word w = true -> step (twin s) w = Ok s2 ->
  exists s', step s w = Ok s' /\ pc s' = pc s2 /\ user_state base xl s'.
Proof.
  intros Hs Hu. destruct (user_word_ops w Hu) as [Hop|[Hop|[Hop|[Hop|[Hop|Hop]]]]];
    [by apply user_register|by apply user_load|by apply user_flw|by apply user_store|by apply user_fsw|by apply user_csr].
Qed.

(** ** Running *)

Lemma user_forward n i w s : forward xl n i w -> user_word w = true -> user_state base xl s -> pc s = 4 * i ->
  exists s' j, step s w = Ok s' /\ user_state base xl s' /\ pc s' = 4 * j /\ i < j <= n.
Proof.
  intros [_ Hf] Hu Hs Hpc. pose proof (ue_plain _ _ (proj1 Hs)) as [Hw _].
  destruct (Hf (twin s)) as (s2 & j & E & _ & Hpc2 & Hj);
    [by apply wf_set_priv|exact (ue_xlen _ _ (proj1 Hs))|done|exact Hpc|].
  destruct (user_step s w s2 Hs Hu E) as (s' & E' & Hp & Hs'). exists s', j. split_and!; (done || lia).
Qed.

(** One turn of the loop in the user environment. *)
Lemma user_turn words s steps i :
  user_env xl s -> pc s = 4 * i -> 0 <= i < Z.of_nat (List.length words) -> 4 * i < 4096 ->
  run_turn words s steps =
    if self_loop (nthZ 0 words i) then Break s steps
    else match step s (nthZ 0 words i) with Ok s' => Again s' (steps + 1) | Raise e => Crash e end.
Proof.
  intros Hs Hpc Hi Hr. unfold run_turn, interrupt_due. rewrite (ue_none _ _ Hs), Hpc.
  rewrite (user_translate xl) by (done || lia).
  rewrite Z.geb_leb. destruct (Z.leb_spec (Z.of_nat (List.length words) * 4) (4 * i)); [lia|].
  cbv zeta. by replace ((4 * i) `div` 4) with i by (rewrite Z.mul_comm, Z.div_mul; lia).
Qed.

(** From instruction [lo] on, the program is forward-only, of user words, up
    to its halt loop. *)
Record user_program (lo n : Z) (words : list Z) : Prop := {
  up_len : 0 <= lo <= n /\ n < Z.of_nat (List.length words);
  up_page : 4 * n < 4096;
  up_body : forall i, lo <= i < n -> forward xl n i (nthZ 0 words i) /\ user_word (nthZ 0 words i) = true;
  up_halt : self_loop (nthZ 0 words n) = true
}.

Lemma run_user fuel lo n words : user_program lo n words -> forall s i steps max_steps,
  user_state base xl s -> pc s = 4 * i -> lo <= i <= n ->
  steps + (n - i) < max_steps -> n - i < Z.of_nat fuel ->
  exists s' k, run_loop fuel words max_steps s steps = Returned s' k /\
    pc s' = 4 * n /\ steps <= k <= steps + (n - i) /\ user_state base xl s'.
Proof.
  intros [Hl Hr Hb Hh]. induction fuel as [|fuel IH]; intros s i steps max_steps Hs Hpc Hi Hst Hf; [lia|].
  cbn [run_loop]. destruct (Z.ltb_spec steps max_steps) as [_|]; [|lia].
  rewrite (user_turn words s steps i) by (apply Hs || done || lia).
  destruct (Z.eq_dec i n) as [->|Hne].
  { rewrite Hh. exists s, steps. split_and!; (done || lia). }
  destruct (Hb i ltac:(lia)) as [Hfw Hu]. rewrite (proj1 Hfw).
  destruct (user_forward n i _ s Hfw Hu Hs Hpc) as (s' & j & E & Hs' & Hpc' & Hj). rewrite E.
  destruct (IH s' j (steps + 1) max_steps) as (s2 & k & H & Hend & Hk & Hrest); [done|done|lia|lia|lia|].
  exists s2, k. split_and!; try done; lia.
Qed.
End UserStep.
