(* ===== verification/Layout.v ===== *)
(** * Labels and addresses

    What the label pass of the assembler computes: statements are numbered
    in order, four bytes apart, and a label names the address of the next
    statement, its last definition counting.  A program every branch of
    which is followed by its label assembles to a forward-only program. *)

From S2P Require Import Prelude Words PyStr Machine Mmu IntAlu Float32 Float32Facts Step StepFacts Run.
From S2P Require Import Asm AsmFacts AsmText TextFacts Progress UserMode.
#[local] Open Scope string_scope.
#[local] Open Scope Z_scope.
#[local] Open Scope list_scope.

(** ** Lines *)

(** What a source line is to the label pass. *)
Inductive line_kind :=
| Blank
| Label (nm : string)
| Statement (text : string).

Definition kind (raw : string) : line_kind :=
  let line := clean_line raw in
  if String.eqb line "" then Blank
  else if ends_with_colon line then Label (strip (but_last line))
  else Statement line.

(** The number of statements, the statements with their addresses from [a]
    on, and the label bindings, latest first. *)
Fixpoint count (ks : list line_kind) : Z :=
  match ks with
  | [] => 0
  | Statement _ :: ks' => 1 + count ks'
  | _ :: ks' => count ks'
  end.
Fixpoint addressed (a : Z) (ks : list line_kind) : list (Z * string) :=
  match ks with
  | [] => []
  | Statement t :: ks' => (a, t) :: addressed (a + 4) ks'
  | _ :: ks' => addressed a ks'
  end.
Fixpoint bindings (a : Z) (ks : list line_kind) : list (string * Z) :=
  match ks with
  | [] => []
  | Statement _ :: ks' => bindings (a + 4) ks'
  | Label nm :: ks' => bindings a ks' ++ [(nm, a)]
  | Blank :: ks' => bindings a ks'
  end.

Lemma count_nonneg ks : 0 <= count ks.
Proof. induction ks as [|[] ks IH]; cbn; lia. Qed.

Lemma count_app ks ks' : count (ks ++ ks') = count ks + count ks'.
Proof. induction ks as [|[] ks IH]; cbn; lia. Qed.

Lemma addressed_length a ks : Z.of_nat (List.length (addressed a ks)) = count ks.
Proof. revert a. induction ks as [|[] ks IH]; intros a; cbn; [done|done|done|]. rewrite <- (IH (a + 4)). lia. Qed.

Lemma addressed_app a ks ks' : addressed a (ks ++ ks') = addressed a ks ++ addressed (a + 4 * count ks) ks'.
Proof.
  revert a. induction ks as [|[] ks IH]; intros a; cbn [app addressed count]; [by rewrite Z.add_0_r|by rewrite IH..|].
  rewrite IH. cbn [app]. do 3 f_equal. lia.
Qed.

Lemma bindings_app a ks ks' : bindings a (ks ++ ks') = bindings (a + 4 * count ks) ks' ++ bindings a ks.
Proof.
  revert a. induction ks as [|[] ks IH]; intros a; cbn [app bindings count].
  - by rewrite Z.add_0_r, app_nil_r.
  - by rewrite IH.
  - by rewrite IH, app_assoc.
  - rewrite IH. do 2 f_equal. lia.
Qed.

(** One line, by its kind. *)
Lemma scan_line_kind l raw : scan_line l raw =
  match kind raw with
  | Blank => l
  | Label nm => mkLayout (stmts l) ((nm, here l) :: labels l) (here l)
  | Statement t => mkLayout (stmts l ++ [(here l, t)]) (labels l) (here l + 4)
  end.
Proof. unfold scan_line, kind. by repeat case_match. Qed.

Lemma fold_scan lines l : fold_left scan_line lines l =
  let ks := map kind lines in
  mkLayout (stmts l ++ addressed (here l) ks) (bindings (here l) ks ++ labels l) (here l + 4 * count ks).
Proof.
  revert l. induction lines as [|raw lines IH]; intros [st lb hr].
  { cbn. by rewrite app_nil_r, Z.add_0_r. }
  cbn [fold_left map]. rewrite scan_line_kind. cbv zeta in *.
  destruct (kind raw); rewrite IH; cbn [stmts labels here count addressed bindings].
  - done.
  - by rewrite <- app_assoc.
  - rewrite <- app_assoc. f_equal. lia.
Qed.

Lemma scan_layout lines :
  let ks := map kind lines in scan lines = mkLayout (addressed 0 ks) (bindings 0 ks) (4 * count ks).
Proof. unfold scan. rewrite fold_scan. cbn [stmts labels here app]. by rewrite app_nil_r. Qed.

(** ** What a label names *)

Lemma dict_find_app {A} (d d' : list (string * A)) k :
  dict_find (d ++ d') k = match dict_find d k with Some v => Some v | None => dict_find d' k end.
Proof. induction d as [|[k' v] d IH]; [done|]. cbn. by destruct (String.eqb k k'). Qed.

(** An unbound name has no label line, and the other way round. *)
Lemma bindings_none a ks nm : dict_find (bindings a ks) nm = None <-> Label nm ∉ ks.
Proof.
  revert a. induction ks as [|k ks IH]; intros a; [split; [intros _ H; by apply elem_of_nil in H|done] |].
  rewrite not_elem_of_cons. destruct k as [|nm'|t]; cbn [bindings].
  - rewrite IH. by firstorder congruence.
  - rewrite dict_find_app. cbn [dict_find]. destruct (String.eqb_spec nm nm') as [<-|Hn].
    + destruct (dict_find (bindings a ks) nm); by firstorder congruence.
    + rewrite <- (IH a). destruct (dict_find (bindings a ks) nm); by firstorder congruence.
  - rewrite IH. by firstorder congruence.
Qed.

Lemma bindings_find a ks nm v : dict_find (bindings a ks) nm = Some v <->
  exists pre post, ks = pre ++ Label nm :: post /\ (Label nm ∉ post) /\ v = a + 4 * count pre.
Proof.
  split.
  - revert a. induction ks as [|k ks IH]; intros a H; [done|].
    assert (Hcons : forall a', dict_find (bindings a' ks) nm = Some v -> a' = a + 4 * count [k] ->
      exists pre post, k :: ks = pre ++ Label nm :: post /\ (Label nm ∉ post) /\ v = a + 4 * count pre).
    { intros a' H' ->. destruct (IH _ H') as (pre & post & -> & Hp & ->). exists (k :: pre), post.
      split_and!; [done|done|]. change (k :: pre) with ([k] ++ pre). rewrite count_app. lia. }
    destruct k as [|nm'|t]; cbn [bindings] in H; [apply (Hcons a H); cbn; lia| |apply (Hcons _ H); cbn; lia].
    rewrite dict_find_app in H. destruct (dict_find (bindings a ks) nm) as [v'|] eqn:E.
    + apply (Hcons a); [congruence|cbn; lia].
    + cbn [dict_find] in H. destruct (String.eqb_spec nm nm') as [<-|]; [|done]. injection H as <-.
      exists [], ks. split_and!; [done|by apply (bindings_none a)|cbn; lia].
  - intros (pre & post & -> & Hp & ->). rewrite bindings_app. cbn [bindings]. rewrite !dict_find_app.
    rewrite (proj2 (bindings_none _ post nm) Hp). cbn [dict_find]. by rewrite String.eqb_refl.
Qed.

Lemma addressed_nth a ks i x t : addressed a ks !! i = Some (x, t) -> x = a + 4 * Z.of_nat i.
Proof.
  revert a i. induction ks as [|[] ks IH]; intros a i; cbn [addressed]; [done|apply IH..|].
  destruct i as [|i]; [intros [= <- <-]; lia|]. intros H%IH. lia.
Qed.

(** The statement addresses are 0, 4, 8, ... in order, and a label resolves
    to [a] exactly when the last line defining it has [a / 4] statements
    before it. *)
Theorem label_names_next_statement lines nm a :
  let ks := map kind lines in
  (forall i x t, stmts (scan lines) !! i = Some (x, t) -> x = 4 * Z.of_nat i) /\
  (dict_find (labels (scan lines)) nm = Some a <->
   exists pre post, ks = pre ++ Label nm :: post /\ (Label nm ∉ post) /\ a = 4 * count pre).
Proof.
  cbv zeta. rewrite scan_layout. cbn [stmts labels]. split; [|apply bindings_find].
  intros i x t H%addressed_nth. lia.
Qed.

Lemma label_names_next_statement_witness :
  dict_find (labels (scan ["a:"; "nop"; "b: # here"; "a:"; "  fence"])) "a" = Some 4.
Proof.
  apply (label_names_next_statement ["a:"; "nop"; "b: # here"; "a:"; "  fence"] "a" 4).
  exists [Label "a"; Statement "nop"; Label "b"], [Statement "fence"].
  split_and!; [vm_compute; reflexivity|by rewrite not_elem_of_cons, elem_of_nil; split; [|intros []]|done].
Defined.

(** ** Forward-only source *)

(** What a program may do: anything, or only what user mode allows. *)
Definition allowed (u : bool) (w : Z) : Prop := u = true -> user_word w = true.

(** A statement that assembles anywhere to a sequential instruction. *)
Definition plain_stmt (u : bool) (xl : Z) (t : string) : Prop :=
  forall lbls cur, exists w, asm_stmt lbls xl cur t = Ok w /\ sequential xl w /\ w_op w <> OP_JAL /\ allowed u w.

(** A statement that assembles to a branch or [jal] to the label [nm]. *)
Definition jump_stmt (xl : Z) (t nm : string) : Prop :=
  (exists mn rs1 rs2 f3, 0 <= rs1 < 32 /\ 0 <= rs2 < 32 /\ dict_get BRANCH mn = Ok f3 /\
     forall lbls cur a, dict_find lbls nm = Some a ->
       asm_stmt lbls xl cur t = branch mn rs1 rs2 (OInt (a - cur))) \/
  (exists rd, 0 <= rd < 31 /\
     forall lbls cur a, dict_find lbls nm = Some a -> asm_stmt lbls xl cur t = jal rd (OInt (a - cur))).

(** Every jump is followed by its label. *)
Inductive forward_lines (u : bool) (xl : Z) : list line_kind -> Prop :=
| fl_nil : forward_lines u xl []
| fl_blank ks : forward_lines u xl ks -> forward_lines u xl (Blank :: ks)
| fl_label nm ks : forward_lines u xl ks -> forward_lines u xl (Label nm :: ks)
| fl_plain t ks : plain_stmt u xl t -> forward_lines u xl ks -> forward_lines u xl (Statement t :: ks)
| fl_jump t nm ks : jump_stmt xl t nm -> Label nm ∈ ks -> forward_lines u xl ks ->
    forward_lines u xl (Statement t :: ks).

Lemma forward_lines_app u xl ks ks' :
  forward_lines u xl ks -> forward_lines u xl ks' -> forward_lines u xl (ks ++ ks').
Proof.
  intros H H'. induction H; cbn [app]; [done|by constructor|by constructor|by apply fl_plain|].
  eapply fl_jump; [done| |done]. apply elem_of_app. by left.
Qed.

(** Short even offsets are encodable. *)
Lemma even_bit v : 0 < v -> Z.even v = true -> forall w, 0 < w -> truthy (wrap w v .& 1) = false.
Proof.
  intros _ He w Hw. rewrite land_1_b2z, truthy_b2z, wrap_testbit by lia.
  destruct (Z.ltb_spec 0 w); [|lia]. by rewrite andb_true_l, Z.bit0_odd, <- Z.negb_even, He.
Qed.

Lemma jal_encodable rd d : 0 <= d < 1024 -> exists w, jal rd (OInt (4 * d)) = Ok w.
Proof.
  intros Hd. unfold jal. rewrite imm_int by done.
  change (imm_lo 21 true) with (-1048576). change (imm_hi 21 true) with 1048575.
  destruct (Z.leb_spec (-1048576) (4 * d)), (Z.leb_spec (4 * d) 1048575); try lia. cbn [andb mbind result_bind].
  destruct (Z.eq_dec d 0) as [->|]; [eexists; reflexivity|].
  rewrite even_bit by (rewrite ?Z.even_mul; lia || done). eexists. reflexivity.
Qed.

Lemma mapR_app {A B} (f : A -> result B) l l' :
  mapR f (l ++ l') = (ys ← mapR f l; ys' ← mapR f l'; Ok (ys ++ ys')).
Proof.
  induction l as [|x l IH]; cbn [app mapR]; [by destruct (mapR f l')|].
  rewrite IH. destruct (f x); [|done]. cbn. destruct (mapR f l); [|done]. cbn. by destruct (mapR f l').
Qed.

Lemma user_branch mn rs1 rs2 i w : 0 <= rs1 < 32 -> 0 <= rs2 < 32 -> branch mn rs1 rs2 i = Ok w -> user_word w = true.
Proof.
  intros H1 H2 Hw. destruct (branch_decodes mn rs1 rs2 _ w H1 H2 Hw) as (f3 & off & _ & _ & _ & _ & _ & Hop & _).
  unfold user_word. by rewrite Hop.
Qed.

Lemma user_jal rd i w : 0 <= rd < 31 -> jal rd (OInt i) = Ok w -> user_word w = true.
Proof.
  intros Hd Hw. destruct (jal_decodes rd i w ltac:(lia) Hw) as (Hop & Hrd & _).
  unfold user_word. rewrite Hop, Hrd. cbn. destruct (Z.eqb_spec rd 31); [lia|done].
Qed.

(** The range error of a jump: the distance is beyond what the 13 bits of a
    branch, or the 21 of a [jal], can hold. *)
Definition out_of_reach (e : exn) : Prop :=
  exists bits d, (bits = 13 \/ bits = 21) /\ imm_hi bits true < d /\
    e = ValueError ("immediate " ++ fmt_d d ++ " out of range [" ++ fmt_d (imm_lo bits true)
                    ++ "," ++ fmt_d (imm_hi bits true) ++ "]")%string.

(** A property of the result, or a jump out of reach: never in less than
    1024 instructions. *)
Definition reaches {A} (n : Z) (r : result A) (P : A -> Prop) : Prop :=
  match r with Ok x => P x | Raise e => 1024 <= n /\ out_of_reach e end.

Lemma reaches_bind {A B} n (r : result A) (f : A -> result B) P Q :
  reaches n r P -> (forall x, P x -> reaches n (f x) Q) -> reaches n (x ← r; f x) Q.
Proof. destruct r as [x|e]; cbn; [intros H Hf; by apply Hf|done]. Qed.

Lemma reaches_Ok {A} n (r : result A) P : reaches n r P -> n < 1024 -> exists x, r = Ok x /\ P x.
Proof. destruct r as [x|e]; cbn; [by exists x|lia]. Qed.

Lemma reaches_weaken {A} n (r : result A) (P Q : A -> Prop) : reaches n r P -> (forall x, P x -> Q x) -> reaches n r Q.
Proof. destruct r; cbn; auto. Qed.

Lemma even_four d : Z.even (4 * d) = true.
Proof. by rewrite Z.even_mul. Qed.

Lemma branch_reaches mn rs1 rs2 f3 d n : dict_get BRANCH mn = Ok f3 -> 0 < d <= n ->
  reaches n (branch mn rs1 rs2 (OInt (4 * d))) (fun _ => True).
Proof.
  intros Hf Hd. unfold branch. rewrite Hf. cbn [mbind result_bind]. rewrite imm_int by done.
  change (imm_lo 13 true) with (-4096). change (imm_hi 13 true) with 4095.
  destruct (Z.leb_spec (-4096) (4 * d)), (Z.leb_spec (4 * d) 4095); try lia; cbn [andb mbind result_bind].
  - by rewrite even_bit by (apply even_four || lia).
  - split; [lia|]. exists 13, (4 * d). by split_and!; [left|change (imm_hi 13 true) with 4095; lia|].
Qed.

Lemma jal_reaches rd d n : 0 <= d <= n -> reaches n (jal rd (OInt (4 * d))) (fun _ => True).
Proof.
  intros Hd. unfold jal. rewrite imm_int by done.
  change (imm_lo 21 true) with (-1048576). change (imm_hi 21 true) with 1048575.
  destruct (Z.leb_spec (-1048576) (4 * d)), (Z.leb_spec (4 * d) 1048575); try lia; cbn [andb mbind result_bind].
  - destruct (Z.eq_dec d 0) as [->|]; [done|]. by rewrite even_bit by (apply even_four || lia).
  - split; [lia|]. exists 21, (4 * d). by split_and!; [right|change (imm_hi 21 true) with 1048575; lia|].
Qed.

(** A jump to a later instruction assembles forward, if it is in reach. *)
Lemma jump_forward xl t nm lbls n i j : jump_stmt xl t nm -> dict_find lbls nm = Some (4 * j) ->
  0 <= i -> i < j <= n -> 4 * (n + 1) <= 2 ^ 32 ->
  reaches n (asm_stmt lbls xl (4 * i) t) (fun w => forward xl n i w /\ user_word w = true).
Proof.
  intros [(mn & rs1 & rs2 & f3 & H1 & H2 & Hf & Ht)|(rd & Hd & Ht)] Hl Hi Hj Hn;
    rewrite (Ht _ _ _ Hl); replace (4 * j - 4 * i) with (4 * (j - i)) by lia.
  - pose proof (branch_reaches mn rs1 rs2 f3 (j - i) n Hf ltac:(lia)) as Hr.
    destruct (branch mn rs1 rs2 _) as [w|e] eqn:Hw; cbn in *; [|exact Hr].
    split; [|exact (user_branch mn rs1 rs2 _ w H1 H2 Hw)].
    apply (forward_branch xl n i j mn rs1 rs2 w); try done; lia.
  - pose proof (jal_reaches rd (j - i) n ltac:(lia)) as Hr.
    destruct (jal rd _) as [w|e] eqn:Hw; cbn in *; [|exact Hr].
    split; [|exact (user_jal rd _ w Hd Hw)].
    apply (forward_jal xl n i j rd w); try done; lia.
Qed.

(** A label that occurs in a stretch of lines is bound at or after its
    start. *)
Lemma binding_later pre ks post nm : Label nm ∈ ks ->
  exists j, dict_find (bindings 0 (pre ++ ks ++ post)) nm = Some (4 * j) /\
    count pre <= j <= count (pre ++ ks ++ post).
Proof.
  intros Hin. rewrite !bindings_app, !dict_find_app.
  destruct (dict_find (bindings (0 + 4 * count pre + 4 * count ks) post) nm) as [v|] eqn:E1.
  - apply bindings_find in E1 as (p & q & -> & _ & ->). exists (count pre + count ks + count p).
    split; [f_equal; lia|]. rewrite !count_app. pose proof (count_nonneg ks). pose proof (count_nonneg p).
    pose proof (count_nonneg (Label nm :: q)). lia.
  - destruct (dict_find (bindings (0 + 4 * count pre) ks) nm) as [v|] eqn:E2.
    + apply bindings_find in E2 as (p & q & -> & _ & ->). exists (count pre + count p).
      split; [f_equal; lia|]. rewrite !count_app. pose proof (count_nonneg post). pose proof (count_nonneg p).
      pose proof (count_nonneg (Label nm :: q)). lia.
    + by apply bindings_none in E2.
Qed.

(** The second pass over part of the lines. *)
Definition words_of (xl : Z) (lbls : list (string * Z)) (a : Z) (ks : list line_kind) : result (list Z) :=
  mapR (fun '(cur, line) => asm_stmt lbls xl cur line) (addressed a ks).

Lemma words_of_app xl lbls a ks ks' : words_of xl lbls a (ks ++ ks') =
  (ws ← words_of xl lbls a ks; ws' ← words_of xl lbls (a + 4 * count ks) ks'; Ok (ws ++ ws')).
Proof. unfold words_of. by rewrite addressed_app, mapR_app. Qed.

Lemma words_of_length xl lbls a ks ws : words_of xl lbls a ks = Ok ws -> Z.of_nat (List.length ws) = count ks.
Proof.
  unfold words_of. rewrite <- (addressed_length a ks). generalize (addressed a ks). clear.
  intros l. revert ws. induction l as [|[cur t] l IH]; intros ws; cbn [mapR]; [by intros <-%Ok_inj|].
  destruct (asm_stmt lbls xl cur t); [|done]. cbn. destruct (mapR _ l) as [ws'|]; [|done]. cbn.
  intros <-%Ok_inj. cbn. specialize (IH ws' eq_refl). lia.
Qed.

(** The statements of [ks], which [pre] precedes, assemble forward. *)
Definition stretch (u : bool) (xl n : Z) (lbls : list (string * Z)) (pre ks : list line_kind) : Prop :=
  reaches n (words_of xl lbls (4 * count pre) ks) (fun ws =>
    Z.of_nat (List.length ws) = count ks /\
    forall i, 0 <= i < count ks -> forward xl n (count pre + i) (nthZ 0 ws i) /\ allowed u (nthZ 0 ws i)).

Lemma stretch_skip u xl n lbls pre k ks : count [k] = 0 -> addressed (4 * count pre) (k :: ks) =
  addressed (4 * count pre) ks -> stretch u xl n lbls (pre ++ [k]) ks -> stretch u xl n lbls pre (k :: ks).
Proof.
  intros Hk Ha. unfold stretch, words_of. rewrite Ha, count_app, Hk, Z.add_0_r.
  change (k :: ks) with ([k] ++ ks). by rewrite (count_app [k]), Hk, Z.add_0_l.
Qed.

Lemma stretch_cons u xl n lbls pre t ks :
  reaches n (asm_stmt lbls xl (4 * count pre) t) (fun w => forward xl n (count pre) w /\ allowed u w) ->
  stretch u xl n lbls (pre ++ [Statement t]) ks -> stretch u xl n lbls pre (Statement t :: ks).
Proof.
  intros Hw Hs. unfold stretch, words_of in *. rewrite count_app in Hs. cbn [addressed mapR count] in *.
  eapply reaches_bind; [exact Hw|]. intros w Hf.
  replace (4 * count pre + 4) with (4 * (count pre + (1 + 0))) by lia.
  eapply reaches_bind; [exact Hs|]. intros ws [Hlen Hws]. cbn [reaches]. split; [cbn; lia|]. intros i Hi.
  destruct (Z.eq_dec i 0) as [->|Hi0]; [by rewrite Z.add_0_r|].
  unfold nthZ. replace (Z.to_nat i) with (S (Z.to_nat (i - 1))) by lia.
  specialize (Hws (i - 1) ltac:(lia)). by replace (count pre + i) with (count pre + (1 + 0) + (i - 1)) by lia.
Qed.

(** The statements of forward-only lines, in their program. *)
Lemma forward_lines_words u xl ks post lbls n : forward_lines u xl ks -> 4 * (n + 1) <= 2 ^ 32 -> forall pre,
  lbls = bindings 0 (pre ++ ks ++ post) -> n = count (pre ++ ks ++ post) -> stretch u xl n lbls pre ks.
Proof.
  intros H Hn1. assert (Hmove : forall k ks0 pre, pre ++ (k :: ks0) ++ post = (pre ++ [k]) ++ ks0 ++ post).
  { intros. by rewrite <- (app_assoc pre [k]). }
  induction H as [|ks0 _ IH|nm ks0 _ IH|t ks0 Ht _ IH|t nm ks0 Ht Hin _ IH]; intros pre El En.
  1: { split; [done|cbn; lia]. }
  all: rewrite Hmove in El, En; specialize (IH (pre ++ [_]) El En).
  - by apply stretch_skip.
  - by apply stretch_skip.
  - apply stretch_cons; [|done]. destruct (Ht lbls (4 * count pre)) as (w & -> & Hs & Hj & Hu). split; [|done].
    apply forward_sequential; [done..|]. rewrite !count_app in En. cbn [count] in En.
    pose proof (count_nonneg pre). pose proof (count_nonneg ks0). pose proof (count_nonneg post). lia.
  - destruct (binding_later (pre ++ [Statement t]) ks0 post nm Hin) as (j & Hj & Hr).
    rewrite <- El in Hj. rewrite <- En, count_app in Hr. cbn [count] in Hr.
    apply stretch_cons; [|done].
    eapply reaches_weaken; [apply (jump_forward xl t nm lbls n (count pre) j Ht Hj); [apply count_nonneg|lia|done] |].
    cbn beta. intros w [Hw Hu]. by split; [|intros _].
Qed.

(** In less than 1024 instructions every jump is in reach. *)
Lemma forward_stretch u xl ks post pre : forward_lines u xl ks ->
  let n := count (pre ++ ks ++ post) in n < 1024 ->
  exists ws, words_of xl (bindings 0 (pre ++ ks ++ post)) (4 * count pre) ks = Ok ws /\
    Z.of_nat (List.length ws) = count ks /\
    forall i, 0 <= i < count ks -> forward xl n (count pre + i) (nthZ 0 ws i) /\ allowed u (nthZ 0 ws i).
Proof.
  intros H n Hn. apply (reaches_Ok n); [|done].
  apply (forward_lines_words u xl ks post _ n); [done| |done|done]. change (2 ^ 32) with 4294967296. lia.
Qed.

(** A forward-only source that ends in its halt loop assembles to a
    forward-only program, a word per statement, or has a jump out of reach. *)
Lemma forward_source_assembles u xl lines body halt t :
  map kind lines = body ++ [Label halt; Statement t] ->
  forward_lines u xl body -> 4 * (count body + 1) <= 2 ^ 32 ->
  (exists rd, 0 <= rd < 32 /\
     forall lbls cur a, dict_find lbls halt = Some a -> asm_stmt lbls xl cur t = jal rd (OInt (a - cur))) ->
  reaches (count body) (assemble lines xl) (fun ws =>
    Z.of_nat (List.length ws) = count body + 1 /\ forward_program xl (count body) ws).
Proof.
  intros Hk Hb Hc (rd & Hd & Ht). unfold assemble. rewrite scan_layout, Hk. cbn [stmts labels].
  set (lbls := bindings 0 (body ++ [Label halt; Statement t])).
  assert (El : lbls = bindings 0 ([] ++ body ++ [Label halt])) by (unfold lbls; cbn [app]; by rewrite !bindings_app).
  pose proof (forward_lines_words u xl body [Label halt] lbls (count body) Hb Hc [] El) as Hs.
  specialize (Hs ltac:(rewrite !count_app; cbn; lia)).
  assert (Eh : dict_find lbls halt = Some (4 * count body)).
  { unfold lbls. rewrite bindings_app. cbn [bindings app dict_find]. by rewrite String.eqb_refl. }
  destruct (jal_encodable rd 0 ltac:(lia)) as [w Hw].
  assert (Ew : asm_stmt lbls xl (4 * count body) t = Ok w) by (rewrite (Ht _ _ _ Eh), Z.sub_diag; exact Hw).
  pose proof (count_nonneg body) as Hc0.
  change (reaches (count body) (words_of xl lbls 0 (body ++ [Label halt; Statement t])) (fun ws =>
    Z.of_nat (List.length ws) = count body + 1 /\ forward_program xl (count body) ws)).
  rewrite words_of_app. eapply reaches_bind; [exact Hs|]. cbn beta. intros ws [Hlen Hf].
  unfold words_of. cbn [addressed mapR]. rewrite Z.add_0_l, Ew. cbn [mbind result_bind reaches].
  split; [rewrite length_app; cbn; lia|]. split; [rewrite length_app; cbn; lia|done| |].
  - intros i Hi. unfold nthZ. rewrite app_nth1 by lia. exact (proj1 (Hf i Hi)).
  - unfold nthZ. rewrite app_nth2 by lia. replace (Z.to_nat (count body) - List.length ws)%nat with O by lia.
    cbn [nth]. by apply (halt_word rd).
Qed.
