(* ===== verification/MemImage.v ===== *)
(** * Memory images

    The [.mem] files between the tools: one byte per line in binary.  The
    readers ([load_words] of [sim/tools/run_random_tests.py] and
    [debugger.py]), the ELF converter [sim/tools/elf2mem.py] and the dump
    reader [sim/tools/read_dump.py].  The binutils programs the converter
    starts are parameters: what each run of one prints. *)

From S2P Require Import Prelude Words PyStr Asm AsmText WordRange TextFacts.
#[local] Open Scope string_scope.
#[local] Open Scope Z_scope.
#[local] Open Scope list_scope.

(** ** Definitions: Python *)

(** [l[a:b]] and [l[a:b] = v]: bounds count from the end when negative and
    are clamped. *)
Definition slice_index (n i : Z) : Z := Z.max 0 (Z.min n (if i <? 0 then i + n else i)).
Definition slice {A} (l : list A) (a b : Z) : list A :=
  let n := Z.of_nat (List.length l) in
  take (Z.to_nat (slice_index n b - slice_index n a)) (drop (Z.to_nat (slice_index n a)) l).
Definition slice_set {A} (l : list A) (a b : Z) (v : list A) : list A :=
  let n := Z.of_nat (List.length l) in
  take (Z.to_nat (slice_index n a)) l ++ v ++
  drop (Z.to_nat (Z.max (slice_index n a) (slice_index n b))) l.

(** [int(s, 2)] and [int(s, 16)]: the base's own prefix is allowed. *)
Definition int_base (base : Z) (mark : ascii) (s : string) : result Z :=
  let body t :=
    match t with
    | String "0" (String c t') =>
        if Ascii.eqb (lower_char c) mark then
          match t' with "" => None | _ => int_prefixed base t' end
        else int_digits base t 0 false
    | _ => int_digits base t 0 false
    end in
  match signed_int body (strip s) with
  | Some v => Ok v
  | None => Raise (ValueError ("invalid literal for int() with base " +:+ fmt_d base +:+ ": " +:+ repr s))
  end.
Definition int_base2 : string -> result Z := int_base 2 "b".
Definition int_base16 : string -> result Z := int_base 16 "x".

(** [s.split()]: the words between runs of white space. *)
Fixpoint split_ws_from (s cur : string) : list string :=
  match s with
  | "" => if String.eqb cur "" then [] else [cur]
  | String c s' =>
      if is_space c then
        if String.eqb cur "" then split_ws_from s' "" else cur :: split_ws_from s' ""
      else split_ws_from s' (cur +:+ String c "")
  end.
Definition split_ws (s : string) : list string := split_ws_from s "".

(** [repr] of a list of texts. *)
Definition repr_list (l : list string) : string := "[" +:+ String.concat ", " (map repr l) +:+ "]".

(** The lines of a file, stripped, without the empty ones. *)
Definition nonempty (s : string) : bool := negb (String.eqb s "").
Definition stripped_lines (lines : list string) : list string :=
  List.filter nonempty (map strip lines).

(** ** Definitions: [load_words] *)

(** The loop over groups of four lines; a short last group ends it. *)
Fixpoint load_groups (lines : list string) : result (list Z) :=
  match lines with
  | b0 :: b1 :: b2 :: b3 :: rest =>
      w ← int_base2 (b3 +:+ b2 +:+ b1 +:+ b0);
      ws ← load_groups rest;
      Ok (w :: ws)
  | _ => Ok []
  end.
Definition load_words (file : list string) : result (list Z) := load_groups (stripped_lines file).

(** ** Definitions: [read_dump.py] *)

Definition load_mem (file : list string) : result (list Z) :=
  vals ← mapR (fun l => v ← int_base10 l; Ok (v .& 0xFF)) (stripped_lines file);
  Ok (slice vals 32 (Z.of_nat (List.length vals))).

Definition read_le (mem : list Z) (addr size : Z) (signed : bool) : Z :=
  let b := slice mem addr (addr + size) in
  let v := fold_left (fun v '(i, byte) => v .| (byte << (8 * i)))
                     (zip (range (Z.of_nat (List.length b))) b) 0 in
  if signed && truthy (v .& (1 << (size * 8 - 1))) then v - (1 << (size * 8)) else v.

(** The values [main] prints for one address option: [count] of them. *)
Definition read_values (mem : list Z) (size : Z) (signed : bool) (addrs : list Z) (count : Z) :
    list (Z * Z) :=
  flat_map (fun addr => map (fun i => (addr + i * size, read_le mem (addr + i * size) size signed))
                            (range count)) addrs.

(** ** Definitions: [elf2mem.py] *)

(** What [subprocess.run] returns: the return code, the text on stderr, and
    what the program produced. *)
Record process (A : Type) := { returncode : Z; stderr : string; output : A }.
Arguments returncode {A}.
Arguments stderr {A}.
Arguments output {A}.

Section Converter.

(** [objcopy -O binary --only-section s], [objdump -h] and [nm] on the ELF
    file. *)
Context (objcopy : string -> process (list Z)).
Context (objdump_h nm_out : process (list string)).
Context (elf_path : string).

Definition extract_raw (section : string) : result (list Z) :=
  let r := objcopy section in
  if negb (returncode r =? 0) then Raise (RuntimeError ("objcopy failed: " +:+ strip (stderr r)))
  else Ok (output r).

Definition extract_binary (sections : list string) (size : Z) : result (list Z) :=
  blobs ← mapR extract_raw sections;
  let data := List.concat blobs in
  if Z.of_nat (List.length data) >? size then
    Raise (ValueError ("extracted " +:+ fmt_d (Z.of_nat (List.length data)) +:+ " bytes for sections "
      +:+ repr_list sections +:+ ", exceeds the " +:+ fmt_d size +:+ "-byte region -- shrink the program or grow --imem-size/--dmem-size"))
  else Ok (data ++ replicate (Z.to_nat (size - Z.of_nat (List.length data))) 0).

(** The first line of [objdump -h] whose second word is the section. *)
Fixpoint find_vma (section : string) (lines : list string) : result (option Z) :=
  match lines with
  | [] => Ok None
  | line :: lines' =>
      match split_ws line with
      | _ :: name :: _ :: vma :: _ =>
          if String.eqb name section then v ← int_base16 vma; Ok (Some v) else find_vma section lines'
      | _ => find_vma section lines'
      end
  end.

Definition get_section_vma (section : string) : result (option Z) :=
  if negb (returncode objdump_h =? 0) then
    Raise (RuntimeError ("objdump -h failed: " +:+ strip (stderr objdump_h)))
  else find_vma section (output objdump_h).

(** The first line of [nm] of at least three words whose last word is the
    name. *)
Fixpoint find_symbol (name : string) (lines : list string) : result Z :=
  match lines with
  | [] => Raise (ValueError ("symbol " +:+ repr name +:+ " not found in " +:+ elf_path
                             +:+ " (nm output had no matching line)"))
  | line :: lines' =>
      match split_ws line with
      | a :: b :: c :: rest =>
          if String.eqb (List.last (c :: rest) "") name then int_base16 a else find_symbol name lines'
      | _ => find_symbol name lines'
      end
  end.

Definition get_symbol (name : string) : result Z :=
  if negb (returncode nm_out =? 0) then Raise (RuntimeError ("nm failed: " +:+ strip (stderr nm_out)))
  else find_symbol name (output nm_out).

(** [buf[off:off + len(blob)] = blob] after the size check; [where_] and
    [flag] are the texts of its message. *)
Definition place_blob (where_ flag : string) (size off : Z) (blob buf : list Z) : result (list Z) :=
  let n := Z.of_nat (List.length blob) in
  if off + n >? size then
    Raise (ValueError (where_ +:+ " + " +:+ fmt_d n +:+ " bytes exceeds the " +:+ fmt_d size
                       +:+ "-byte region -- grow " +:+ flag))
  else Ok (slice_set buf off (off + n) blob).

(** The instruction memory: each section at its own address. *)
Fixpoint place_sections (imem_size : Z) (sections : list string) (imem : list Z) : result (list Z) :=
  match sections with
  | [] => Ok imem
  | section :: sections' =>
      raw ← extract_raw section;
      match raw with
      | [] => place_sections imem_size sections' imem
      | _ =>
          vma ← get_section_vma section;
          match vma with
          | None => Raise (ValueError ("section " +:+ repr section
                             +:+ " has content but no VMA found in objdump -h output"))
          | Some vma =>
              imem ← place_blob (section +:+ " at VMA " +:+ fmt_hash_x vma) "--imem-size" imem_size vma raw imem;
              place_sections imem_size sections' imem
          end
      end
  end.

Definition build_imem (imem_size : Z) (sections : list string) : result (list Z) :=
  if imem_size <? 0 then Raise (ValueError "negative count")
  else place_sections imem_size sections (replicate (Z.to_nat imem_size) 0).

(** The data memory: [.rodata] and [.data] at their linker symbols. *)
Definition build_dmem (dmem_size : Z) : result (list Z) :=
  rodata_raw ← extract_raw ".rodata";
  data_raw ← extract_raw ".data";
  rodata_off ← match rodata_raw with [] => Ok 0 | _ => get_symbol "_rodata_start" end;
  data_off ← match data_raw with [] => Ok 0 | _ => get_symbol "_data_start" end;
  dmem ← (if dmem_size <? 0 then Raise (ValueError "negative count") else Ok (replicate (Z.to_nat dmem_size) 0));
  dmem ← place_blob (".rodata at VMA " +:+ fmt_d rodata_off) "--dmem-size" dmem_size rodata_off rodata_raw dmem;
  place_blob (".data at VMA " +:+ fmt_d data_off) "--dmem-size" dmem_size data_off data_raw dmem.
End Converter.

(** [out[i:i+4] = data[i:i+4][::-1]] for each group of four. *)
Fixpoint swap_groups (data : list Z) : list Z :=
  match data with
  | a :: b :: c :: d :: rest => d :: c :: b :: a :: swap_groups rest
  | _ => data
  end.
Definition swap_instruction_words (data : list Z) : result (list Z) :=
  if Z.of_nat (List.length data) `mod` 4 =? 0 then Ok (swap_groups data) else Raise (AssertionError "").

(** [write_mem] of the converter: [f"{b:08b}\n"] per byte. *)
Definition write_image (data : list Z) : list string := mem_text data.

Example load_words_ex :
  load_words ["00010011"; "00000000"; "00000000"; "00000000"; "  "; "11111111"; "00000001"; "00000000"; "10000000"; "1"]
    = Ok [0x13; 0x800001FF] /\
  raises (load_words ["0"; "1"; "2"; "0"]) = true.
Proof. split; vm_compute; reflexivity. Qed.
Example split_ws_ex : split_ws "  0 .text   000010 00000100 " = ["0"; ".text"; "000010"; "00000100"].
Proof. reflexivity. Qed.
Example read_le_ex :
  read_le [0; 1; 0xFE; 0xFF] 2 2 true = -2 /\ read_le [0; 1; 0xFE; 0xFF] 2 4 false = 0xFFFE.
Proof. split; vm_compute; reflexivity. Qed.

(** ** One byte, one line *)

Definition byte (b : Z) : Prop := 0 <= b < 256.

Definition bit_char (x : bool) : ascii := if x then "1"%char else "0"%char.
Definition bin8 (b : Z) : string :=
  foldr (fun i s => String (bit_char (Z.testbit b i)) s) "" [7; 6; 5; 4; 3; 2; 1; 0].

Lemma fmt_byte b : byte b -> fmt_0b 8 b = bin8 b.
Proof.
  assert (H : forallb (fun b => String.eqb (fmt_0b 8 b) (bin8 b)) (range 256) = true) by (vm_compute; reflexivity).
  rewrite forallb_forall in H. intros Hb. apply String.eqb_eq, H, list_elem_of_In, elem_of_range. exact Hb.
Qed.

Lemma byte_bits b : byte b ->
  foldr (fun i s => Z.b2z (Z.testbit b i) * 2 ^ i + s) 0 [7; 6; 5; 4; 3; 2; 1; 0] = b.
Proof.
  assert (H : forallb (fun b => foldr (fun i s => Z.b2z (Z.testbit b i) * 2 ^ i + s) 0 [7; 6; 5; 4; 3; 2; 1; 0] =? b)
                (range 256) = true) by (vm_compute; reflexivity).
  rewrite forallb_forall in H. intros Hb. apply Z.eqb_eq, H, list_elem_of_In, elem_of_range. exact Hb.
Qed.

Lemma int_digits_bit x s acc prev :
  int_digits 2 (String (bit_char x) s) acc prev = int_digits 2 s (2 * acc + Z.b2z x) true.
Proof. by destruct x. Qed.

Lemma int_digits_byte b s acc prev : byte b ->
  int_digits 2 (fmt_0b 8 b +:+ s) acc prev = int_digits 2 s (256 * acc + b) true.
Proof.
  intros Hb. rewrite fmt_byte by done. unfold bin8. cbn [foldr]. rewrite !app_cons, app_empty, !int_digits_bit.
  f_equal. pose proof (byte_bits b Hb) as E. cbn [foldr] in E. change (2 ^ 7) with 128 in E.
  change (2 ^ 6) with 64 in E. change (2 ^ 5) with 32 in E. change (2 ^ 4) with 16 in E.
  change (2 ^ 3) with 8 in E. change (2 ^ 2) with 4 in E. change (2 ^ 1) with 2 in E. change (2 ^ 0) with 1 in E. lia.
Qed.

Lemma fmt_byte_word b : str_all is_word (fmt_0b 8 b) = true.
Proof. unfold fmt_0b, zfill. by rewrite str_all_app, zeros_word, fmt_nat_word. Qed.

(** The four lines of a word, most significant byte first. *)
Lemma int_base2_word b0 b1 b2 b3 : byte b0 -> byte b1 -> byte b2 -> byte b3 ->
  int_base2 (fmt_0b 8 b3 +:+ fmt_0b 8 b2 +:+ fmt_0b 8 b1 +:+ fmt_0b 8 b0) =
    Ok (b0 + 2 ^ 8 * b1 + 2 ^ 16 * b2 + 2 ^ 24 * b3).
Proof.
  intros H0 H1 H2 H3. unfold int_base2, int_base.
  rewrite strip_word by (by rewrite !str_all_app, !fmt_byte_word).
  assert (E : int_digits 2 (fmt_0b 8 b3 +:+ fmt_0b 8 b2 +:+ fmt_0b 8 b1 +:+ fmt_0b 8 b0) 0 false =
    Some (b0 + 2 ^ 8 * b1 + 2 ^ 16 * b2 + 2 ^ 24 * b3)).
  { rewrite !int_digits_byte by done. rewrite <- (app_nil_s (fmt_0b 8 b0)), int_digits_byte by done.
    cbn [int_digits]. f_equal. lia. }
  revert E. rewrite (fmt_byte b3) by done. unfold bin8. cbn [foldr]. rewrite !app_cons, app_empty.
  generalize (fmt_0b 8 b2 +:+ fmt_0b 8 b1 +:+ fmt_0b 8 b0). intros rest E.
  destruct (Z.testbit b3 7), (Z.testbit b3 6); cbn [bit_char] in *; cbn [signed_int];
    try (rewrite E; reflexivity).
Qed.

(** A line of a written image is not empty and has nothing to strip. *)
Lemma stripped_mem_text data : Forall byte data -> stripped_lines (mem_text data) = mem_text data.
Proof.
  unfold stripped_lines, mem_text. induction 1 as [|b data Hb _ IH]; [done|]. cbn [map List.filter].
  rewrite strip_word by apply fmt_byte_word. rewrite IH.
  rewrite fmt_byte by done. done.
Qed.

(** ** Words and bytes *)

Definition word_bytes (w : Z) : list Z :=
  [w .& 0xFF; (w >> 8) .& 0xFF; (w >> 16) .& 0xFF; (w >> 24) .& 0xFF].

Lemma byte_land v : byte (v .& 0xFF).
Proof. unfold byte. change 0xFF with (Z.ones 8). rewrite land_mask by done. by apply Z.mod_pos_bound. Qed.
#[local] Hint Resolve byte_land : core.

Lemma word_bytes_value w :
  (w .& 0xFF) + 2 ^ 8 * ((w >> 8) .& 0xFF) + 2 ^ 16 * ((w >> 16) .& 0xFF) + 2 ^ 24 * ((w >> 24) .& 0xFF) = wrap 32 w.
Proof.
  unfold wrap. fold_masks. rewrite !shiftr_pow by done.
  assert (Hd : (w `div` 2 ^ 8) `div` 2 ^ 8 = w `div` 2 ^ 16) by (by rewrite Z.div_div).
  assert (Hd' : (w `div` 2 ^ 16) `div` 2 ^ 8 = w `div` 2 ^ 24) by (by rewrite Z.div_div).
  pose proof (Z.rem_mul_r w (2 ^ 8) (2 ^ 24) ltac:(done) ltac:(done)) as E1.
  pose proof (Z.rem_mul_r (w `div` 2 ^ 8) (2 ^ 8) (2 ^ 16) ltac:(done) ltac:(done)) as E2.
  pose proof (Z.rem_mul_r (w `div` 2 ^ 16) (2 ^ 8) (2 ^ 8) ltac:(done) ltac:(done)) as E3.
  rewrite <- !Z.pow_add_r in E1, E2, E3 by done. rewrite Hd in E2. rewrite Hd' in E3.
  change (8 + 24) with 32 in E1. change (8 + 16) with 24 in E2. change (8 + 8) with 16 in E3.
  rewrite E1, E2, E3. clear. generalize (w `mod` 2 ^ 8), ((w `div` 2 ^ 8) `mod` 2 ^ 8), ((w `div` 2 ^ 16) `mod` 2 ^ 8),
    ((w `div` 2 ^ 24) `mod` 2 ^ 8). intros. lia.
Qed.

Lemma word_bytes_0 : word_bytes 0 = [0; 0; 0; 0].
Proof. reflexivity. Qed.

Lemma load_groups_word w file :
  load_groups (mem_text (word_bytes w) ++ file) =
    (ws ← load_groups file; Ok (wrap 32 w :: ws)).
Proof.
  unfold word_bytes, mem_text. cbn [map app load_groups]. rewrite int_base2_word by auto.
  by rewrite word_bytes_value.
Qed.

Lemma load_groups_words ws file :
  load_groups (mem_text (flat_map word_bytes ws) ++ file) =
    (rest ← load_groups file; Ok (map (wrap 32) ws ++ rest)).
Proof.
  induction ws as [|w ws IH]; [cbn; by destruct (load_groups file)|]. cbn [flat_map].
  unfold mem_text. rewrite map_app, <- app_assoc. fold (mem_text (word_bytes w)).
  fold (mem_text (flat_map word_bytes ws)). rewrite load_groups_word, IH. by destruct (load_groups file).
Qed.

(** ** Writing *)

Lemma updZ_app {A} (pre l : list A) n j v : n = Z.of_nat (List.length pre) -> 0 <= j ->
  updZ (pre ++ l) (n + j) v = pre ++ updZ l j v.
Proof.
  intros -> Hj. unfold updZ. rewrite insert_app_r_alt by lia.
  replace (Z.to_nat (Z.of_nat (List.length pre) + j) - List.length pre)%nat with (Z.to_nat j) by lia. done.
Qed.

Lemma flat_map_bytes_length ws : List.length (flat_map word_bytes ws) = (4 * List.length ws)%nat.
Proof. induction ws as [|w ws IH]; [done|]. cbn [flat_map]. rewrite length_app, IH. cbn. lia. Qed.

Lemma flat_map_bytes ws : Forall byte (flat_map word_bytes ws).
Proof.
  induction ws as [|w ws IH]; [constructor|]. cbn [flat_map]. apply Forall_app_2; [|done].
  repeat apply Forall_cons_2; auto.
Qed.

(** The loop of [write_mem] lays the words down from the front. *)
Lemma write_words_data ws : forall pre k size i,
  i * 4 = Z.of_nat (List.length pre) -> size = i * 4 + Z.of_nat k -> 4 * Z.of_nat (List.length ws) <= Z.of_nat k ->
  write_words size ws i (pre ++ replicate k 0) =
    Ok (pre ++ flat_map word_bytes ws ++ replicate (k - 4 * List.length ws) 0).
Proof.
  induction ws as [|w ws IH]; intros pre k size i Hp Hs Hk; cbn [write_words flat_map List.length] in *.
  { by rewrite Nat.mul_0_r, Nat.sub_0_r. }
  cbv zeta. rewrite Z.gtb_ltb. destruct (Z.ltb_spec size (i * 4 + 4)); [lia|].
  destruct k as [|[|[|[|k]]]]; try lia. cbn [replicate]. rewrite !(updZ_app pre) by (done || lia).
  match goal with |- context [updZ ?l 3 ?v] => change (updZ l 3 v) with (word_bytes w ++ replicate k 0) end.
  rewrite app_assoc, (IH (pre ++ word_bytes w)%list k size (i + 1)).
  - rewrite <- !app_assoc. by replace (S (S (S (S k))) - 4 * S (List.length ws))%nat with (k - 4 * List.length ws)%nat by lia.
  - rewrite length_app. cbn. lia.
  - lia.
  - lia.
Qed.

(** It raises as soon as a word does not fit. *)
Lemma write_words_overflow ws : forall size i data, 0 <= i ->
  size < 4 * (i + Z.of_nat (List.length ws)) -> ws <> [] -> i * 4 <= size ->
  exists m, write_words size ws i data = Raise (ValueError m).
Proof.
  induction ws as [|w ws IH]; intros size i data Hi Hs Hn Hf; [done|]. cbn [write_words]. cbv zeta.
  rewrite Z.gtb_ltb. destruct (Z.ltb_spec size (i * 4 + 4)); [eauto|].
  destruct ws as [|w' ws]; [cbn in Hs; lia|]. apply IH; [lia| |done|lia]. cbn [List.length] in *. lia.
Qed.

Lemma write_mem_ok ws size : 4 * Z.of_nat (List.length ws) <= size ->
  write_mem ws size =
    Ok (mem_text (flat_map word_bytes ws ++ replicate (Z.to_nat (size - 4 * Z.of_nat (List.length ws))) 0)).
Proof.
  intros Hs. unfold write_mem. destruct (Z.ltb_spec size 0); [lia|].
  pose proof (write_words_data ws [] (Z.to_nat size) size 0) as E. cbn [app] in E. rewrite E by (cbn; lia).
  cbn [mbind result_bind].
  by replace (Z.to_nat (size - 4 * Z.of_nat (List.length ws))) with (Z.to_nat size - 4 * List.length ws)%nat by lia.
Qed.

Lemma write_mem_raises ws size : 0 <= size -> size < 4 * Z.of_nat (List.length ws) ->
  exists m, write_mem ws size = Raise (ValueError m).
Proof.
  intros H0 Hs. unfold write_mem. destruct (Z.ltb_spec size 0); [lia|].
  destruct (write_words_overflow ws size 0 (replicate (Z.to_nat size) 0)) as [m E]; try lia.
  { intros ->. cbn in Hs. lia. }
  exists m. by rewrite E.
Qed.

Lemma zero_bytes k : mem_text (replicate (4 * k) 0) = mem_text (flat_map word_bytes (replicate k 0)).
Proof.
  f_equal. induction k as [|k IH]; [done|]. replace (4 * S k)%nat with (S (S (S (S (4 * k))))) by lia.
  cbn [replicate flat_map app]. by rewrite IH.
Qed.

Lemma map_zeros k : map (wrap 32) (replicate k 0) = replicate k 0.
Proof. induction k as [|k IH]; [done|]. cbn [replicate map]. by rewrite IH. Qed.

Lemma load_groups_short l : (List.length l < 4)%nat -> load_groups l = Ok [].
Proof. intros H. destruct l as [|? [|? [|? [|? ?]]]]; try done. cbn in H. lia. Qed.

Lemma load_image ws n : (4 * List.length ws <= n)%nat ->
  load_words (mem_text (flat_map word_bytes ws ++ replicate (n - 4 * List.length ws) 0)) =
    Ok (map (wrap 32) ws ++ replicate (n / 4 - List.length ws)%nat 0).
Proof.
  intros Hn. unfold load_words.
  rewrite stripped_mem_text by (apply Forall_app_2; [apply flat_map_bytes|by apply Forall_replicate]).
  set (k := (n / 4 - List.length ws)%nat). set (r := (n mod 4)%nat).
  assert (Hk : (n - 4 * List.length ws = 4 * k + r)%nat).
  { unfold k, r. pose proof (Nat.div_mod_eq n 4). pose proof (Nat.Div0.div_le_mono (4 * List.length ws) n 4 Hn) as Hdiv.
    rewrite (Nat.mul_comm 4), Nat.div_mul in Hdiv by done. lia. }
  rewrite Hk, replicate_add. unfold mem_text. rewrite !map_app. fold (mem_text (flat_map word_bytes ws)).
  rewrite load_groups_words. fold (mem_text (replicate (4 * k) 0)). rewrite zero_bytes, load_groups_words.
  rewrite load_groups_short
    by (rewrite length_map, length_replicate; unfold r; pose proof (Nat.mod_upper_bound n 4); lia).
  cbn [mbind result_bind]. by rewrite app_nil_r, map_zeros.
Qed.

(** ** The image round trip *)

Lemma map_wrap_words ws : Forall (in_width 32) ws -> map (wrap 32) ws = ws.
Proof. induction 1 as [|w ws Hw _ IH]; [done|]. cbn [map]. by rewrite IH, wrap_small. Qed.

(** A source that is accepted and fits is written, and loads back as its
    words followed by zero words. *)
Lemma asm_main_loads lines size xl ws : assemble lines xl = Ok ws -> 4 * Z.of_nat (List.length ws) <= size ->
  exists image, asm_main lines size xl = Ok (image, Z.of_nat (List.length ws)) /\
    load_words image = Ok (ws ++ replicate (Z.to_nat (size `div` 4) - List.length ws)%nat 0).
Proof.
  intros E Hs. unfold asm_main. rewrite E. cbn [mbind result_bind]. rewrite write_mem_ok by done. cbn [mbind result_bind].
  eexists. split; [done|].
  replace (Z.to_nat (size - 4 * Z.of_nat (List.length ws))) with (Z.to_nat size - 4 * List.length ws)%nat by lia.
  rewrite load_image by lia. rewrite map_wrap_words by (by eapply assembled_fit).
  do 3 f_equal. replace 4%nat with (Z.to_nat 4) by done. by rewrite <- Z2Nat.inj_div by lia.
Qed.

(** [C27] A program written to a memory image and read back by the test harness or
    the debugger is the same program, every word reduced to 32 bits and the
    rest of the memory as zero words; a program the memory does not hold is
    refused. *)
Theorem image_roundtrip ws size :
  if 4 * Z.of_nat (List.length ws) <=? size then
    exists file, write_mem ws size = Ok file /\ Z.of_nat (List.length file) = size /\
      load_words file = Ok (map (wrap 32) ws ++ replicate (Z.to_nat (size `div` 4) - List.length ws)%nat 0)
  else exists m, write_mem ws size = Raise (ValueError m).
Proof.
  destruct (Z.leb_spec (4 * Z.of_nat (List.length ws)) size) as [Hs|Hs].
  - eexists. split; [by apply write_mem_ok|]. split.
    + unfold mem_text. rewrite length_map, length_app, flat_map_bytes_length, length_replicate. lia.
    + replace (Z.to_nat (size - 4 * Z.of_nat (List.length ws))) with (Z.to_nat size - 4 * List.length ws)%nat by lia.
      rewrite load_image by lia. do 3 f_equal. replace 4%nat with (Z.to_nat 4) by done.
      rewrite <- Z2Nat.inj_div by lia. done.
  - destruct (Z.ltb_spec size 0); [|by apply write_mem_raises].
    exists "negative count". unfold write_mem. by destruct (Z.ltb_spec size 0); [|lia].
Qed.

(** ** Slices *)

Lemma slice_index_in n i : 0 <= i <= n -> slice_index n i = i.
Proof. intros. unfold slice_index. destruct (Z.ltb_spec i 0); lia. Qed.

Lemma slice_in {A} (l : list A) a b : 0 <= a <= b -> b <= Z.of_nat (List.length l) ->
  slice l a b = take (Z.to_nat (b - a)) (drop (Z.to_nat a) l).
Proof. intros. unfold slice. by rewrite !slice_index_in by lia. Qed.

Lemma slice_length {A} (l : list A) a b : 0 <= a <= b -> b <= Z.of_nat (List.length l) ->
  Z.of_nat (List.length (slice l a b)) = b - a.
Proof. intros. rewrite slice_in, length_take, length_drop by lia. lia. Qed.

Lemma nthZ_slice {A} (d : A) l a b i : 0 <= a <= b -> b <= Z.of_nat (List.length l) -> 0 <= i < b - a ->
  nthZ d (slice l a b) i = nthZ d l (a + i).
Proof.
  intros. rewrite slice_in by lia. unfold nthZ. rewrite !nth_lookup, lookup_take_lt, lookup_drop by lia.
  by replace (Z.to_nat a + Z.to_nat i)%nat with (Z.to_nat (a + i)) by lia.
Qed.

Lemma slice_set_in {A} (l : list A) off v : 0 <= off -> off + Z.of_nat (List.length v) <= Z.of_nat (List.length l) ->
  slice_set l off (off + Z.of_nat (List.length v)) v =
    take (Z.to_nat off) l ++ v ++ drop (Z.to_nat off + List.length v) l.
Proof.
  intros. unfold slice_set. rewrite !slice_index_in by lia. rewrite Z.max_r by lia.
  by replace (Z.to_nat (off + Z.of_nat (List.length v))) with (Z.to_nat off + List.length v)%nat by lia.
Qed.

Lemma slice_set_length {A} (l : list A) off v : 0 <= off -> off + Z.of_nat (List.length v) <= Z.of_nat (List.length l) ->
  List.length (slice_set l off (off + Z.of_nat (List.length v)) v) = List.length l.
Proof. intros. rewrite slice_set_in by lia. rewrite !length_app, length_take, length_drop. lia. Qed.

Lemma nthZ_slice_set {A} (d : A) l off v a : 0 <= off -> off + Z.of_nat (List.length v) <= Z.of_nat (List.length l) ->
  0 <= a -> nthZ d (slice_set l off (off + Z.of_nat (List.length v)) v) a =
    if (off <=? a) && (a <? off + Z.of_nat (List.length v)) then nthZ d v (a - off) else nthZ d l a.
Proof.
  intros Ho Hl Ha. rewrite slice_set_in by lia. unfold nthZ. rewrite !nth_lookup.
  destruct (Z.leb_spec off a); cbn [andb].
  - rewrite lookup_app_r by (rewrite length_take; lia). rewrite length_take, Nat.min_l by lia.
    destruct (Z.ltb_spec a (off + Z.of_nat (List.length v))).
    + rewrite lookup_app_l by lia. by replace (Z.to_nat a - Z.to_nat off)%nat with (Z.to_nat (a - off)) by lia.
    + rewrite lookup_app_r, lookup_drop by lia. do 2 f_equal. lia.
  - rewrite lookup_app_l by (rewrite length_take; lia). by rewrite lookup_take_lt by lia.
Qed.

(** ** Sections *)

Section Placement.
Context (objcopy : string -> process (list Z)) (objdump_h : process (list string)).

(** The byte the sections put at address [a]: the last one that covers it. *)
Definition section_byte (a b : Z) (section : string) : Z :=
  let raw := output (objcopy section) in
  match get_section_vma objdump_h section with
  | Ok (Some v) => if (v <=? a) && (a <? v + Z.of_nat (List.length raw)) then nthZ 0 raw (a - v) else b
  | _ => b
  end.

Lemma place_sections_spec size sections : forall imem img,
  (forall s v, get_section_vma objdump_h s = Ok (Some v) -> 0 <= v) ->
  Z.of_nat (List.length imem) = size -> place_sections objcopy objdump_h size sections imem = Ok img ->
  Z.of_nat (List.length img) = size /\
  forall a, 0 <= a < size -> nthZ 0 img a = fold_left (section_byte a) sections (nthZ 0 imem a).
Proof.
  induction sections as [|s sections IH]; intros imem img Hv Hl; cbn [place_sections fold_left].
  { intros <-%Ok_inj. by split. }
  intros (raw & Hr & H)%bind_Ok.
  assert (raw = output (objcopy s)) as Er.
  { unfold extract_raw in Hr. cbv zeta in Hr. by destruct (negb _); [|injection Hr]. }
  unfold section_byte at 2. rewrite <- Er. destruct raw as [|x raw].
  - destruct (IH imem img Hv Hl H) as [H1 H2]. split; [done|]. intros a Ha. rewrite (H2 a Ha). f_equal.
    destruct (get_section_vma objdump_h s) as [[v|]|]; try done. cbn [List.length].
    destruct (Z.leb_spec v a); [|done]. destruct (Z.ltb_spec a (v + Z.of_nat 0)); [lia|done].
  - apply bind_Ok in H as (vma & Hvma & H). rewrite Hvma. destruct vma as [v|]; [|done].
    apply bind_Ok in H as (imem' & Hp & H). unfold place_blob in Hp. cbv zeta in Hp.
    rewrite Z.gtb_ltb in Hp. destruct (Z.ltb_spec size (v + Z.of_nat (List.length (x :: raw)))) as [|Hfit]; [done|].
    apply Ok_inj in Hp as <-. specialize (Hv s v Hvma) as Hv0.
    apply IH in H as [H1 H2]; [|done|rewrite slice_set_length by lia; exact Hl]. split; [done|].
    intros a Ha. rewrite (H2 a Ha), nthZ_slice_set by lia. done.
Qed.

(** The instruction memory the converter writes has the size asked for; each
    address holds the byte of the last section that covers it, at its offset
    in the section, and zero where no section lies. *)
Theorem build_imem_spec size sections img :
  (forall s v, get_section_vma objdump_h s = Ok (Some v) -> 0 <= v) ->
  build_imem objcopy objdump_h size sections = Ok img ->
  Z.of_nat (List.length img) = size /\
  forall a, 0 <= a < size -> nthZ 0 img a = fold_left (section_byte a) sections 0.
Proof.
  intros Hv. unfold build_imem. destruct (Z.ltb_spec size 0) as [|Hs]; [done|]. intros H.
  apply place_sections_spec in H as [H1 H2]; [|done|rewrite length_replicate; lia]. split; [done|].
  intros a Ha. rewrite (H2 a Ha). f_equal. unfold nthZ. rewrite nth_lookup, lookup_replicate_2 by lia. done.
Qed.
End Placement.

(** A converter run: two code sections, the second one eight bytes up. *)
Definition demo_objcopy (s : string) : process (list Z) :=
  {| returncode := 0; stderr := "";
     output := if String.eqb s ".text.init" then [0x13; 0; 0; 0]
               else if String.eqb s ".text" then [0x6F; 0; 0; 0] else [] |}.
Definition demo_objdump : process (list string) :=
  {| returncode := 0; stderr := "";
     output := ["a.elf:     file format elf32-littleriscv"; "";
                "Idx Name          Size      VMA       LMA       File off  Algn";
                "  0 .text.init    00000004  00000000  00000000  00001000  2**2";
                "  1 .text         00000004  00000008  00000008  00001008  2**2"] |}.

Lemma nthZ_zeros n a : nthZ 0 (replicate n 0) a = 0.
Proof.
  unfold nthZ. rewrite nth_lookup. destruct (replicate n 0 !! Z.to_nat a) as [x|] eqn:E; [|done].
  by apply lookup_replicate in E as [-> _].
Qed.

(** Section addresses are not negative when no line has a signed one. *)
Definition vma_unsigned (line : string) : bool :=
  match split_ws line with
  | _ :: _ :: _ :: vma :: _ => match int_base16 vma with Ok v => 0 <=? v | _ => true end
  | _ => true
  end.

Lemma find_vma_nonneg s v lines : forallb vma_unsigned lines = true -> find_vma s lines = Ok (Some v) -> 0 <= v.
Proof.
  induction lines as [|l lines IH]; [done|]. cbn [forallb find_vma]. unfold vma_unsigned at 1. intros [Hl Hr]%andb_true_iff.
  destruct (split_ws l) as [|? [|name [|? [|vma ?]]]]; auto.
  destruct (String.eqb name s); [|auto]. destruct (int_base16 vma) as [u|]; [|done].
  cbn. intros [= <-]. by apply Z.leb_le.
Qed.

Lemma demo_vma s v : get_section_vma demo_objdump s = Ok (Some v) -> 0 <= v.
Proof. by apply find_vma_nonneg. Qed.

Lemma build_imem_spec_witness :
  let img := [0x13; 0; 0; 0; 0; 0; 0; 0; 0x6F; 0; 0; 0; 0; 0; 0; 0] in
  Z.of_nat (List.length img) = 16 /\
  forall a, 0 <= a < 16 ->
    nthZ 0 img a = fold_left (section_byte demo_objcopy demo_objdump a) [".text.init"; ".text"] 0.
Proof.
  apply (build_imem_spec demo_objcopy demo_objdump 16 [".text.init"; ".text"]); [exact demo_vma|].
  vm_compute. reflexivity.
Defined.

(** ** Dumps *)

Lemma int_base10_fmt_d v : int_base10 (fmt_d v) = Ok v.
Proof.
  unfold int_base10. rewrite strip_num by apply fmt_d_num. unfold fmt_d.
  destruct (Z.ltb_spec v 0) as [Hv|Hv].
  - rewrite app_cons, app_empty. cbn [signed_int]. rewrite fmt_nat_parse by lia. cbn. do 2 f_equal. lia.
  - rewrite signed_int_decimal by done. by rewrite fmt_nat_parse by lia.
Qed.

Lemma stripped_fmt_d vals : stripped_lines (map fmt_d vals) = map fmt_d vals.
Proof.
  unfold stripped_lines. induction vals as [|v vals IH]; [done|]. cbn [map List.filter].
  rewrite strip_num by apply fmt_d_num. rewrite IH. replace (nonempty (fmt_d v)) with true; [done|].
  unfold nonempty. destruct (String.eqb_spec (fmt_d v) "") as [E|]; [|done].
  pose proof (int_base10_fmt_d v) as H. rewrite E in H. discriminate H.
Qed.

(** The dump file of a simulation: the registers and the bytes, one number a
    line. *)
Lemma load_mem_dump regs mem : List.length regs = 32%nat -> Forall byte mem ->
  load_mem (map fmt_d (regs ++ mem)) = Ok mem.
Proof.
  intros Hr Hm. unfold load_mem. rewrite stripped_fmt_d.
  assert (E : forall l, mapR (fun l => v ← int_base10 l; Ok (v .& 0xFF)) (map fmt_d l) = Ok (map (fun v => v .& 0xFF) l)).
  { induction l as [|v l IH]; [done|]. cbn [map mapR]. by rewrite int_base10_fmt_d, IH. }
  rewrite E. cbn [mbind result_bind].
  rewrite map_app, slice_in by (rewrite length_app, !length_map, Hr; lia).
  rewrite drop_app_length' by (by rewrite length_map, Hr). rewrite take_ge by (rewrite length_app, !length_map, Hr; lia).
  f_equal. clear Hr E. induction Hm as [|b mem Hb _ IH]; [done|]. cbn [map]. rewrite IH. f_equal.
  change 0xFF with (Z.ones 8). rewrite land_mask by done. by apply Z.mod_small.
Qed.

(** [read_le] gathers the bytes at the address. *)
Lemma read_le_unsigned mem addr size : 0 <= addr -> 0 <= size -> addr + size <= Z.of_nat (List.length mem) ->
  read_le mem addr size false = gather 8 size (fun i => nthZ 0 mem (addr + i)).
Proof.
  intros Ha Hs Hl. unfold read_le. cbn [andb]. set (b := slice mem addr (addr + size)).
  assert (Hb : Z.of_nat (List.length b) = size) by (unfold b; rewrite slice_length by lia; lia).
  transitivity (gather 8 size (fun i => nthZ 0 b i)).
  - unfold gather. rewrite Hb. clear -Hb.
    assert (Hz : forall (l : list Z) a v, fold_left (fun v '(i, byte) => v .| (byte << (8 * i)))
        (zip (seqZ a (Z.of_nat (List.length l))) l) v =
      fold_left (fun out i => out .| (nthZ 0 l (i - a) << (8 * i))) (seqZ a (Z.of_nat (List.length l))) v).
    { induction l as [|x l IH]; intros a v; [done|]. cbn [List.length].
      rewrite Nat2Z.inj_succ, seqZ_cons by lia.
      replace (Z.pred (Z.succ (Z.of_nat (List.length l)))) with (Z.of_nat (List.length l)) by lia.
      cbn [zip zip_with fold_left]. rewrite IH. rewrite Z.sub_diag. unfold nthZ at 3. cbn [nth Z.to_nat].
      apply fold_left_ext_in. intros o i Hi%elem_of_seqZ. do 2 f_equal. unfold nthZ.
      by replace (Z.to_nat (i - a)) with (S (Z.to_nat (i - Z.succ a))) by lia. }
    unfold range. rewrite <- Hb, Hz. apply fold_left_ext_in. intros o i _. by rewrite Z.sub_0_r.
  - apply gather_ext. intros i Hi. unfold b. rewrite nthZ_slice by lia. done.
Qed.

(** A value with sign bit [2 ^ (n - 1)]: subtracting [2 ^ n] moves it into the
    signed range and keeps its low bytes. *)
Lemma sign_fold v n : 0 < n -> 0 <= v < 2 ^ (8 * n) ->
  let u := if truthy (v .& (1 << (n * 8 - 1))) then v - (1 << (n * 8)) else v in
  - 2 ^ (8 * n - 1) <= u < 2 ^ (8 * n - 1) /\
  forall i, 0 <= i < n -> (u >> (8 * i)) `mod` 2 ^ 8 = (v >> (8 * i)) `mod` 2 ^ 8.
Proof.
  intros Hn Hv. cbv zeta.
  replace (n * 8 - 1) with (8 * n - 1) by lia. replace (n * 8) with (8 * n) by lia.
  rewrite truthy_bit, testbit_top by lia. rewrite (shiftl_pow (8 * n)), Z.mul_1_l by lia.
  assert (E : 2 ^ (8 * n) = 2 * 2 ^ (8 * n - 1)) by (rewrite <- Z.pow_succ_r by lia; f_equal; lia).
  destruct (Z.leb_spec (2 ^ (8 * n - 1)) v); (split; [lia|]); [|done]. intros i Hi.
  rewrite !shiftr_pow by lia. replace (8 * n) with (8 * i + (8 * (n - i - 1) + 8)) by lia.
  rewrite Z.pow_add_r by lia.
  replace (v - 2 ^ (8 * i) * 2 ^ (8 * (n - i - 1) + 8)) with (v + (- 2 ^ (8 * (n - i - 1) + 8)) * 2 ^ (8 * i)) by lia.
  rewrite Z.div_add by lia. rewrite Z.pow_add_r, <- Z.mul_opp_l by lia. by rewrite Z.mod_add by done.
Qed.

(** A dump of 32 register lines and the data memory, read at an address that
    lies in it, gives the little-endian number of the bytes there: its [i]th
    byte is the memory's, and it is in the range of the access. *)
Theorem dump_reads_memory regs mem addr size (signed : bool) :
  List.length regs = 32%nat -> Forall byte mem -> 0 <= addr -> 0 < size ->
  addr + size <= Z.of_nat (List.length mem) ->
  exists m v, load_mem (map fmt_d (regs ++ mem)) = Ok m /\ read_le m addr size signed = v /\
    (forall i, 0 <= i < size -> (v >> (8 * i)) `mod` 2 ^ 8 = nthZ 0 mem (addr + i)) /\
    (if signed then - 2 ^ (8 * size - 1) <= v < 2 ^ (8 * size - 1) else 0 <= v < 2 ^ (8 * size)).
Proof.
  intros Hr Hm Ha Hs Hl. exists mem. eexists. split; [by apply load_mem_dump|]. split; [reflexivity|].
  pose proof (read_le_unsigned mem addr size Ha ltac:(lia) Hl) as Hu.
  assert (Hb : forall i, 0 <= i < size -> 0 <= nthZ 0 mem (addr + i) < 2 ^ 8).
  { intros i Hi. by apply (Forall_nthZ byte). }
  pose proof (gather_bound 8 size (fun i => nthZ 0 mem (addr + i)) ltac:(done) ltac:(lia) Hb) as Hg.
  pose proof (fun i => gather_field 8 size (fun i => nthZ 0 mem (addr + i)) i ltac:(done) Hb) as Hf.
  rewrite <- Hu in Hg, Hf. destruct signed; [|by split].
  destruct (sign_fold (read_le mem addr size false) size Hs Hg) as [Hrange Hbytes].
  change (read_le mem addr size true) with
    (if truthy (read_le mem addr size false .& (1 << (size * 8 - 1))) then read_le mem addr size false - (1 << (size * 8))
     else read_le mem addr size false).
  split; [|done]. intros i Hi. by rewrite Hbytes, Hf.
Qed.

Lemma dump_reads_memory_witness :
  exists m v, load_mem (map fmt_d (replicate 32 7 ++ [1; 0xFE; 0xFF; 2])) = Ok m /\ read_le m 1 2 true = v /\
    (forall i, 0 <= i < 2 -> (v >> (8 * i)) `mod` 2 ^ 8 = nthZ 0 [1; 0xFE; 0xFF; 2] (1 + i)) /\
    - 2 ^ (8 * 2 - 1) <= v < 2 ^ (8 * 2 - 1).
Proof.
  apply (dump_reads_memory (replicate 32 7) [1; 0xFE; 0xFF; 2] 1 2 true); [reflexivity| |lia|lia|cbn; lia].
  repeat constructor; done.
Defined.

(** Swapping the words' bytes twice gives the data back. *)
Lemma swap_groups_involutive n : forall data, List.length data = (4 * n)%nat -> swap_groups (swap_groups data) = data.
Proof.
  induction n as [|n IH]; intros data H; [by destruct data|].
  destruct data as [|a [|b [|c [|d rest]]]]; cbn in H; try lia. cbn [swap_groups]. rewrite IH by lia. done.
Qed.

Lemma swap_instruction_words_involutive data out :
  swap_instruction_words data = Ok out -> swap_instruction_words out = Ok data.
Proof.
  unfold swap_instruction_words. destruct (Z.eqb_spec (Z.of_nat (List.length data) `mod` 4) 0) as [Hd|]; [|done].
  intros <-%Ok_inj. assert (List.length data = 4 * (List.length data / 4))%nat as Hn.
  { apply Nat2Z.inj. rewrite Nat2Z.inj_mul, Nat2Z.inj_div.
    pose proof (Z.div_mod (Z.of_nat (List.length data)) 4). lia. }
  assert (Hl : forall n (l : list Z), List.length l = (4 * n)%nat -> List.length (swap_groups l) = List.length l).
  { induction n as [|n IH]; intros l H; [by destruct l|].
    destruct l as [|a [|b [|c [|d rest]]]]; cbn in H; try lia. cbn [swap_groups List.length]. rewrite IH; lia. }
  rewrite (Hl _ _ Hn), Hd. cbn [Z.eqb]. by rewrite (swap_groups_involutive _ _ Hn).
Qed.
