(* ===== verification/RandomGen.v ===== *)
(** * The random program generator

    [sim/tools/random_gen.py]: the instruction pools, the constant builders,
    one definition per instruction kind, the label pass and the prefixes of
    the interrupt and translation modes.  The stream of random choices is the
    interface [Random] (the calls of Python's [random.Random] the generator
    makes), so everything said about a generated program holds for every
    seed. *)

From S2P Require Import Prelude Words PyStr Asm AsmText.
#[local] Open Scope string_scope.
#[local] Open Scope Z_scope.
#[local] Open Scope list_scope.

(** ** The random source *)

(** [randbelow n]: an integer below [n]; [choose ws]: the index
    [random.choices] picks with weights [ws]; [coin]: [random() < 0.5]. *)
Class Random (G : Type) := {
  randbelow : Z -> G -> Z * G;
  choose : list Z -> G -> nat * G;
  coin : G -> bool * G
}.

(** What [random.Random] documents of them. *)
Class RandomLaws (G : Type) `{Random G} := {
  randbelow_range n g : 0 < n -> 0 <= fst (randbelow n g) < n;
  choose_range ws g : (exists w, w ∈ ws /\ 0 < w) ->
    exists w, ws !! fst (choose ws g) = Some w /\ 0 < w
}.

(** A generator that can raise. *)
Definition gen (G A : Type) : Type := G -> result (A * G).
#[export] Instance gen_ret {G} : MRet (gen G) := fun A a g => Ok (a, g).
#[export] Instance gen_bind {G} : MBind (gen G) := fun A B k m g =>
  match m g with Ok (a, g') => k a g' | Raise e => Raise e end.
Definition gen_raise {G A} (e : exn) : gen G A := fun _ => Raise e.

(** ** Definitions: pools *)

Definition R_TYPE : list string :=
  ["add"; "sub"; "sll"; "slt"; "sltu"; "xor"; "srl"; "sra"; "or"; "and";
   "mul"; "mulh"; "mulhsu"; "mulhu"; "div"; "divu"; "rem"; "remu"].
Definition I_TYPE : list string := ["addi"; "slti"; "sltiu"; "xori"; "ori"; "andi"].
Definition SHIFT_I : list string := ["slli"; "srli"; "srai"].
Definition BRANCH : list string := ["beq"; "bne"; "blt"; "bge"; "ble"; "bgt"; "bltu"; "bgeu"].
Definition CSR_REG_OP : list string := ["csrrw"; "csrrs"; "csrrc"].
Definition CSR_IMM_OP : list string := ["csrrwi"; "csrrsi"; "csrrci"].
Definition CSR_NAMES : list string := ["mstatus"; "mtvec"; "mscratch"; "mepc"; "mcause"].
Definition BASE_REG : Z := 31.
Definition GP_REGS : list Z := seqZ 1 30.
Definition FREGS : list Z := seqZ 0 32.
Definition FP_ARITH : list string := ["fadd.s"; "fsub.s"; "fmul.s"; "fdiv.s"].
Definition FP_SGNJ : list string := ["fsgnj.s"; "fsgnjn.s"; "fsgnjx.s"].
Definition FP_MINMAX : list string := ["fmin.s"; "fmax.s"].
Definition FP_CMP : list string := ["feq.s"; "flt.s"; "fle.s"].
Definition FP_CVT_TO_INT : list string := ["fcvt.w.s"; "fcvt.wu.s"].
Definition FP_CVT_FROM_INT : list string := ["fcvt.s.w"; "fcvt.s.wu"].
Definition FMADD_FAMILY : list string := ["fmadd.s"; "fmsub.s"; "fnmsub.s"; "fnmadd.s"].
Definition RM_NAMES : list string := ["rne"; "rtz"; "rdn"; "rup"; "rmm"; "dyn"].
Definition FCSR_NAMES : list string := ["fflags"; "frm"; "fcsr"].
Definition FCSR_ADDR : list (string * string) := [("fflags", "0x1"); ("frm", "0x2"); ("fcsr", "0x3")].
Definition OOO_TRAILER_NOP_COUNT : Z := 1.
Definition FLOAT_SEED_BITS : list Z :=
  [0x00000000; 0x3F800000; 0xBF800000; 0x7F800000; 0x7FC00000; 0x00400000].
Definition R_TYPE_W : list string :=
  ["addw"; "subw"; "sllw"; "srlw"; "sraw"; "mulw"; "divw"; "divuw"; "remw"; "remuw"].
Definition I_TYPE_W : list string := ["addiw"; "slliw"; "srliw"; "sraiw"].
Definition B_R_TYPE : list string :=
  ["andn"; "orn"; "xnor"; "min"; "minu"; "max"; "maxu"; "rol"; "ror";
   "sh1add"; "sh2add"; "sh3add"; "bclr"; "bext"; "binv"; "bset"].
Definition B_SHAMT : list string := ["bclri"; "bexti"; "binvi"; "bseti"; "rori"].
Definition B_FIXED : list string := ["clz"; "ctz"; "cpop"; "sext.b"; "sext.h"; "orc.b"; "rev8"].
Definition B_R_TYPE_W : list string :=
  ["rolw"; "rorw"; "add.uw"; "sh1add.uw"; "sh2add.uw"; "sh3add.uw"].
Definition B_FIXED_W : list string := ["clzw"; "ctzw"; "cpopw"].
Definition B_SHAMT_W : list string := ["roriw"; "slli.uw"].
Definition K_R_TYPE : list string :=
  ["clmul"; "clmulh"; "pack"; "packh"; "xperm4"; "xperm8";
   "aes64esm"; "aes64es"; "aes64dsm"; "aes64ds"; "aes64ks2"].
Definition K_FIXED : list string :=
  ["brev8"; "sha256sum0"; "sha256sum1"; "sha256sig0"; "sha256sig1";
   "sha512sum0"; "sha512sum1"; "sha512sig0"; "sha512sig1"; "aes64im"].
Definition K_R_TYPE_W : list string := ["packw"].

(** ** Definitions: lines *)

(** The f-strings [f"x{n}"], [f"f{n}"], [f"{off}(x{r})"] and
    [f"{mn} {a}, {b}, ..."]. *)
Definition xr (n : Z) : string := "x" +:+ fmt_d n.
Definition fr (n : Z) : string := "f" +:+ fmt_d n.
Definition mem_operand (off r : Z) : string := fmt_d off +:+ "(" +:+ xr r +:+ ")".
Definition ins (mn : string) (args : list string) : string := mn +:+ " " +:+ String.concat ", " args.

(** ** Definitions: constants *)

Definition chunk_bits : Z := 11.

Definition const_to_reg_instrs (rd bits32 : Z) (no_lui : bool) : list string :=
  if no_lui then
    let bits32 := bits32 .& 0xFFFFFFFF in
    let n_chunks := 3 in
    let top_shift := (n_chunks - 1) * chunk_bits in
    let chunks := map (fun i => (bits32 >> (top_shift - i * chunk_bits)) .& ((1 << chunk_bits) - 1))
                      (range n_chunks) in
    ins "addi" [xr rd; "x0"; fmt_d (nthZ 0 chunks 0)]
      :: flat_map (fun c => ins "slli" [xr rd; xr rd; fmt_d chunk_bits]
                            :: (if truthy c then [ins "addi" [xr rd; xr rd; fmt_d c]] else []))
                  (drop 1 chunks)
  else
    let lo := bits32 .& 0xFFF in
    let hi := (bits32 >> 12) .& 0xFFFFF in
    let hi := if truthy (lo .& 0x800) then (hi + 1) .& 0xFFFFF else hi in
    ins "lui" [xr rd; fmt_hash_x hi]
      :: (if negb (lo =? 0) then
            let lo_signed := if truthy (lo .& 0x800) then lo - 0x1000 else lo in
            [ins "addi" [xr rd; xr rd; fmt_d lo_signed]]
          else []).

Definition const64_to_reg_instrs (rd rd_scratch bits64 : Z) (no_lui : bool) : list string :=
  let hi32 := (bits64 >> 32) .& 0xFFFFFFFF in
  let lo32 := bits64 .& 0xFFFFFFFF in
  const_to_reg_instrs rd hi32 no_lui
    ++ [ins "slli" [xr rd; xr rd; "32"]]
    ++ const_to_reg_instrs rd_scratch lo32 no_lui
    ++ [ins "slli" [xr rd_scratch; xr rd_scratch; "32"];
        ins "srli" [xr rd_scratch; xr rd_scratch; "32"];
        ins "or" [xr rd; xr rd; xr rd_scratch]].

(** [sext32] of the self-checks. *)
Definition sext32 (v : Z) : Z :=
  let v := v .& 0xFFFFFFFF in
  if truthy (v .& 0x80000000) then v - (1 << 32) else v.

(** [_self_check_const64]: the asserted value. *)
Definition self_check_const64 (bits64 : Z) : Z :=
  let hi32 := (bits64 >> 32) .& 0xFFFFFFFF in
  let lo32 := bits64 .& 0xFFFFFFFF in
  let MASK64 := (1 << 64) - 1 in
  let rd := sext32 hi32 .& MASK64 in
  let rd := (rd << 32) .& MASK64 in
  let scratch := sext32 lo32 .& MASK64 in
  let scratch := (scratch << 32) .& MASK64 in
  let scratch := scratch >> 32 in
  (rd .| scratch) .& MASK64.

(** [s.rsplit(",", 1)[1]] of a text with a comma: what follows the last. *)
Fixpoint after_last (c : ascii) (s : string) : option string :=
  match s with
  | "" => None
  | String d s' =>
      match after_last c s' with
      | Some t => Some t
      | None => if Ascii.eqb c d then Some s' else None
      end
  end.
Definition last_operand (s : string) : result string :=
  match after_last "," s with Some t => Ok t | None => Raise (IndexError "list index out of range") end.

(** [_self_check_const32_no_lui]: the value its assertion compares. *)
Definition self_check_const32_no_lui (bits32 : Z) : result Z :=
  let MASK32 := (1 << 32) - 1 in
  let lines := const_to_reg_instrs 0 bits32 true in
  l0 ← list_get lines 0; t0 ← last_operand l0; n0 ← int_base10 t0;
  foldl (fun v ln => v ← v;
           if String.prefix "slli" (strip ln) then Ok ((v << 11) .& MASK32)
           else t ← last_operand ln; n ← int_base10 t; Ok ((v + n) .& MASK32))
        (Ok (sext32 n0)) (drop 1 lines).

(** ** Definitions: random calls *)

Section Generator.
Context {G : Type} `{Random G}.

Definition choice {A} (seq : list A) : gen G A :=
  match seq with
  | [] => gen_raise (IndexError "Cannot choose from an empty sequence")
  | d :: _ => fun g => let '(i, g') := randbelow (Z.of_nat (List.length seq)) g in Ok (nthZ d seq i, g')
  end.

Definition randint (a b : Z) : gen G Z := fun g =>
  let width := b + 1 - a in
  if 0 <? width then let '(i, g') := randbelow width g in Ok (a + i, g')
  else Raise (ValueError ("empty range in randrange(" +:+ fmt_d a +:+ ", " +:+ fmt_d (b + 1) +:+ ")")).

(** [randrange(start, stop, step)] with a positive step. *)
Definition randrange (start stop step : Z) : gen G Z := fun g =>
  let n := (stop - start + step - 1) `div` step in
  if 0 <? n then let '(i, g') := randbelow n g in Ok (start + step * i, g')
  else Raise (ValueError ("empty range in randrange(" +:+ fmt_d start +:+ ", " +:+ fmt_d stop +:+ ", " +:+
                          fmt_d step +:+ ")")).

(** [choices(population, weights=ws)[0]]. *)
Definition choices {A} (d : A) (population : list A) (ws : list Z) : gen G A := fun g =>
  let '(i, g') := choose ws g in Ok (nth i population d, g').

Definition below_half : gen G bool := fun g => Ok (coin g).

(** ** Definitions: one instruction *)

(** An element of [instrs]: a line, or a jump whose target is not known
    yet. *)
Inductive item :=
| Line (text : string)
| Branch (mn : string) (rs1 rs2 : Z)
| Jal (rd : Z).

Definition gp : gen G Z := choice GP_REGS.
Definition fp : gen G Z := choice FREGS.

(** [f"{mn} x{rd}, x{rs1}, x{rs2}"] with random registers. *)
Definition gen_rrr (pool : list string) : gen G item :=
  mn ← choice pool; rd ← gp; rs1 ← gp; rs2 ← gp;
  mret (Line (ins mn [xr rd; xr rs1; xr rs2])).

Definition gen_i : gen G item :=
  mn ← choice I_TYPE; rd ← gp; rs1 ← gp; imm ← randint (-2048) 2047;
  mret (Line (ins mn [xr rd; xr rs1; fmt_d imm])).

Definition gen_iw : gen G item :=
  mn ← choice I_TYPE_W; rd ← gp; rs1 ← gp;
  imm ← (if String.eqb mn "addiw" then randint (-2048) 2047 else randint 0 31);
  mret (Line (ins mn [xr rd; xr rs1; fmt_d imm])).

Definition shamt_of (xlen : Z) : gen G Z := if xlen >=? 64 then randint 0 63 else randint 0 31.

Definition gen_shift (xlen : Z) : gen G item :=
  mn ← choice SHIFT_I; rd ← gp; rs1 ← gp; shamt ← shamt_of xlen;
  mret (Line (ins mn [xr rd; xr rs1; fmt_d shamt])).

Definition gen_b_ext (xlen : Z) : gen G item :=
  sub ← choice ["r"; "shamt"; "fixed"]; rd ← gp; rs1 ← gp;
  if String.eqb sub "r" then
    mn ← choice B_R_TYPE; rs2 ← gp; mret (Line (ins mn [xr rd; xr rs1; xr rs2]))
  else if String.eqb sub "shamt" then
    mn ← choice B_SHAMT; shamt ← shamt_of xlen; mret (Line (ins mn [xr rd; xr rs1; fmt_d shamt]))
  else mn ← choice B_FIXED; mret (Line (ins mn [xr rd; xr rs1])).

Definition gen_b_ext_w : gen G item :=
  sub ← choice ["r"; "shamt"; "fixed"]; rd ← gp; rs1 ← gp;
  if String.eqb sub "r" then
    mn ← choice B_R_TYPE_W; rs2 ← gp; mret (Line (ins mn [xr rd; xr rs1; xr rs2]))
  else if String.eqb sub "shamt" then
    mn ← choice B_SHAMT_W;
    shamt ← (if String.eqb mn "roriw" then randint 0 31 else randint 0 63);
    mret (Line (ins mn [xr rd; xr rs1; fmt_d shamt]))
  else mn ← choice B_FIXED_W; mret (Line (ins mn [xr rd; xr rs1])).

Definition gen_k_ext : gen G item :=
  sub ← choice ["r"; "fixed"; "ks1i"]; rd ← gp; rs1 ← gp;
  if String.eqb sub "r" then
    mn ← choice K_R_TYPE; rs2 ← gp; mret (Line (ins mn [xr rd; xr rs1; xr rs2]))
  else if String.eqb sub "fixed" then
    mn ← choice K_FIXED; mret (Line (ins mn [xr rd; xr rs1]))
  else rnum ← randint 0 10; mret (Line (ins "aes64ks1i" [xr rd; xr rs1; fmt_d rnum])).

(** A random aligned offset of an access of [width] bytes. *)
Definition gen_offset (addr_space base_addr width : Z) : gen G Z :=
  let max_off := Z.min (addr_space - base_addr - width) 2047 in
  if max_off >=? 0 then randrange 0 (max_off + 1) width else mret 0.

Definition load_mnemonics (xlen : Z) : list string :=
  ["lb"; "lh"; "lw"; "lbu"; "lhu"] ++ (if xlen >=? 64 then ["ld"; "lwu"] else []).
Definition store_mnemonics (xlen : Z) : list string :=
  ["sb"; "sh"; "sw"] ++ (if xlen >=? 64 then ["sd"] else []).
Definition load_widths : list (string * Z) :=
  [("lb", 1); ("lbu", 1); ("lh", 2); ("lhu", 2); ("lw", 4); ("lwu", 4); ("ld", 8)].
Definition store_widths : list (string * Z) := [("sb", 1); ("sh", 2); ("sw", 4); ("sd", 8)].

Definition lift {A} (r : result A) : gen G A := fun g => a ← r; Ok (a, g).

Definition gen_load (xlen addr_space base_addr : Z) : gen G item :=
  mn ← choice (load_mnemonics xlen); rd ← gp; width ← lift (dict_get load_widths mn);
  off ← gen_offset addr_space base_addr width;
  mret (Line (ins mn [xr rd; mem_operand off BASE_REG])).

Definition gen_store (xlen addr_space base_addr : Z) : gen G item :=
  mn ← choice (store_mnemonics xlen); rs2 ← gp; width ← lift (dict_get store_widths mn);
  off ← gen_offset addr_space base_addr width;
  mret (Line (ins mn [xr rs2; mem_operand off BASE_REG])).

Definition gen_branch : gen G item :=
  mn ← choice BRANCH; rs1 ← gp; rs2 ← gp; mret (Branch mn rs1 rs2).

(** [csrrX] on a given CSR token. *)
Definition gen_csr_op (csr : string) : gen G item :=
  rd ← gp; b ← below_half;
  if (b : bool) then
    mn ← choice CSR_REG_OP; rs1 ← gp; mret (Line (ins mn [xr rd; csr; xr rs1]))
  else
    mn ← choice CSR_IMM_OP; uimm ← randint 0 31; mret (Line (ins mn [xr rd; csr; fmt_d uimm])).

Definition gen_csr (csr_names_pool : list string) : gen G item :=
  csr ← choice csr_names_pool; gen_csr_op csr.
Definition gen_fcsr : gen G item :=
  nm ← choice FCSR_NAMES; csr ← lift (dict_get FCSR_ADDR nm); gen_csr_op csr.

Definition gen_jal : gen G item := rd ← gp; mret (Jal rd).

Definition gen_fp_arith : gen G item :=
  mn ← choice FP_ARITH; rd ← fp; rs1 ← fp; rs2 ← fp; rm ← choice RM_NAMES;
  mret (Line (ins mn [fr rd; fr rs1; fr rs2; rm])).
Definition gen_fp_sqrt : gen G item :=
  rd ← fp; rs1 ← fp; rm ← choice RM_NAMES; mret (Line (ins "fsqrt.s" [fr rd; fr rs1; rm])).
Definition gen_fff (pool : list string) : gen G item :=
  mn ← choice pool; rd ← fp; rs1 ← fp; rs2 ← fp; mret (Line (ins mn [fr rd; fr rs1; fr rs2])).
Definition gen_fp_cmp : gen G item :=
  mn ← choice FP_CMP; rd ← gp; rs1 ← fp; rs2 ← fp; mret (Line (ins mn [xr rd; fr rs1; fr rs2])).
Definition gen_fp_cvt_to_int : gen G item :=
  mn ← choice FP_CVT_TO_INT; rd ← gp; rs1 ← fp; rm ← choice RM_NAMES;
  mret (Line (ins mn [xr rd; fr rs1; rm])).
Definition gen_fp_cvt_from_int : gen G item :=
  mn ← choice FP_CVT_FROM_INT; rd ← fp; rs1 ← gp; rm ← choice RM_NAMES;
  mret (Line (ins mn [fr rd; xr rs1; rm])).
Definition gen_fp_madd : gen G item :=
  mn ← choice FMADD_FAMILY; rd ← fp; rs1 ← fp; rs2 ← fp; rs3 ← fp; rm ← choice RM_NAMES;
  mret (Line (ins mn [fr rd; fr rs1; fr rs2; fr rs3; rm])).
Definition gen_fload (addr_space base_addr : Z) : gen G item :=
  rd ← fp; off ← gen_offset addr_space base_addr 4;
  mret (Line (ins "flw" [fr rd; mem_operand off BASE_REG])).
Definition gen_fstore (addr_space base_addr : Z) : gen G item :=
  rs2 ← fp; off ← gen_offset addr_space base_addr 4;
  mret (Line (ins "fsw" [fr rs2; mem_operand off BASE_REG])).

(** ** Definitions: the instruction mix *)

(** [mode] of a generated program: [ooo] restricts the pool, [xlen] widens
    it. *)
Definition kind_names (xlen : Z) (ooo : bool) : list string :=
  if ooo then
    ["r"; "i"; "shift"; "load"; "store"; "branch"; "jal"; "csr";
     "fp_arith"; "fp_sqrt"; "fp_sgnj"; "fp_minmax"; "b_ext"]
    ++ (if xlen >=? 64 then ["k_ext"] else [])
  else
    ["r"; "i"; "shift"; "load"; "store"; "branch"; "jal"; "csr";
     "fp_arith"; "fp_sqrt"; "fp_sgnj"; "fp_minmax"; "fp_cmp";
     "fp_cvt_to_int"; "fp_cvt_from_int"; "fp_madd"; "fload"; "fstore"; "fcsr"; "b_ext"]
    ++ (if xlen >=? 64 then ["rw"; "iw"; "b_ext_w"; "k_ext"; "k_ext_w"] else []).

Definition kind_weights (csr_weight xlen : Z) (ooo : bool) : list Z :=
  if ooo then
    [24; 16; 8; 10; 10; 8; 5; csr_weight; 10; 4; 4; 4; 16]
    ++ (if xlen >=? 64 then [16] else [])
  else
    [24; 16; 8; 10; 10; 8; 5; csr_weight; 10; 4; 4; 4; 4; 4; 4; 6; 6; 6; 4; 16]
    ++ (if xlen >=? 64 then [12; 8; 8; 16; 4] else []).

(** [[n for n in CSR_NAMES if n not in (...)]] when interrupts are injected
    or the program is for the out-of-order core. *)
Definition csr_pool (interrupt : option string) (ooo : bool) : list string :=
  if (match interrupt with None => true | Some _ => false end) && negb ooo then CSR_NAMES
  else List.filter (fun n => negb (in_names n ["mstatus"; "mepc"; "mcause"; "mtvec"])) CSR_NAMES.

(** The body of the instruction loop, after [kind] is drawn: the element
    appended to [instrs], if any. *)
Definition gen_kind (xlen addr_space base_addr : Z) (csrs : list string) (kind : string) :
    gen G (list item) :=
  let one (m : gen G item) : gen G (list item) := i ← m; mret [i] in
  if String.eqb kind "r" then one (gen_rrr R_TYPE)
  else if String.eqb kind "rw" then one (gen_rrr R_TYPE_W)
  else if String.eqb kind "i" then one gen_i
  else if String.eqb kind "iw" then one gen_iw
  else if String.eqb kind "shift" then one (gen_shift xlen)
  else if String.eqb kind "b_ext" then one (gen_b_ext xlen)
  else if String.eqb kind "b_ext_w" then one gen_b_ext_w
  else if String.eqb kind "k_ext" then one gen_k_ext
  else if String.eqb kind "k_ext_w" then one (gen_rrr K_R_TYPE_W)
  else if String.eqb kind "load" then one (gen_load xlen addr_space base_addr)
  else if String.eqb kind "store" then one (gen_store xlen addr_space base_addr)
  else if String.eqb kind "branch" then one gen_branch
  else if String.eqb kind "csr" then one (gen_csr csrs)
  else if String.eqb kind "jal" then one gen_jal
  else if String.eqb kind "fp_arith" then one gen_fp_arith
  else if String.eqb kind "fp_sqrt" then one gen_fp_sqrt
  else if String.eqb kind "fp_sgnj" then one (gen_fff FP_SGNJ)
  else if String.eqb kind "fp_minmax" then one (gen_fff FP_MINMAX)
  else if String.eqb kind "fp_cmp" then one gen_fp_cmp
  else if String.eqb kind "fp_cvt_to_int" then one gen_fp_cvt_to_int
  else if String.eqb kind "fp_cvt_from_int" then one gen_fp_cvt_from_int
  else if String.eqb kind "fp_madd" then one gen_fp_madd
  else if String.eqb kind "fload" then one (gen_fload addr_space base_addr)
  else if String.eqb kind "fstore" then one (gen_fstore addr_space base_addr)
  else if String.eqb kind "fcsr" then one gen_fcsr
  else mret [].

(** [for _ in range(n_instrs)]. *)
Fixpoint gen_items (kinds : list string) (weights : list Z) (xlen addr_space base_addr : Z)
    (csrs : list string) (n : nat) : gen G (list item) :=
  match n with
  | O => mret []
  | S n' =>
      kind ← choices "" kinds weights;
      i ← gen_kind xlen addr_space base_addr csrs kind;
      rest ← gen_items kinds weights xlen addr_space base_addr csrs n';
      mret (i ++ rest)
  end.

(** ** Definitions: the label pass *)

Definition label_name (target_idx : Z) : string := "__L" +:+ fmt_d target_idx.

(** [labels_at.setdefault(k, v)]. *)
Definition setdefault (d : gmap Z string) (k : Z) (v : string) : gmap Z string :=
  match d !! k with Some _ => d | None => <[k := v]> d end.

(** A strictly forward target, or the end label. *)
Definition forward_target (cur_idx n : Z) : gen G Z := randint (Z.min (cur_idx + 1) n) n.

(** One turn of the second pass: the lines it appends and the labels. *)
Definition place_item (n cur_idx : Z) (labels_at : gmap Z string) (i : item) :
    gen G (list string * gmap Z string) :=
  '(line, labels_at) ←
    match i with
    | Branch mn rs1 rs2 =>
        t ← forward_target cur_idx n;
        mret (ins mn [xr rs1; xr rs2; label_name t], setdefault labels_at t (label_name t))
    | Jal rd =>
        t ← forward_target cur_idx n;
        mret (ins "jal" [xr rd; label_name t], setdefault labels_at t (label_name t))
    | Line text => mret (text, labels_at)
    end;
  mret ((line :: match labels_at !! (cur_idx + 1) with Some l => [l +:+ ":"] | None => [] end), labels_at).

Fixpoint place (n cur_idx : Z) (labels_at : gmap Z string) (items : list item) :
    gen G (list string * gmap Z string) :=
  match items with
  | [] => mret ([], labels_at)
  | i :: items' =>
      '(out, labels_at) ← place_item n cur_idx labels_at i;
      '(rest, labels_at) ← place n (cur_idx + 1) labels_at items';
      mret ((out ++ rest), labels_at)
  end.

(** The body of the program: the placed instructions and the end label. *)
Definition gen_body (items : list item) : gen G (list string) :=
  let n := Z.of_nat (List.length items) in
  '(out, labels_at) ← place n 1 ∅ items;
  mret (out ++ match labels_at !! n with Some l => [l +:+ ":"] | None => [] end).

(** The halt loop. *)
Definition trailer (ooo : bool) : list string :=
  if ooo then ["__ooo_halt:"; "jal x0, __ooo_halt"]
  else ["fence"; "__halt:"; "jal x0, __halt"].

(** ** Definitions: seeds and budget *)

(** Float registers [f1], [f2], ... from [FLOAT_SEED_BITS]; [x29] at
    XLEN=64. *)
Definition float_seeds (ooo : bool) : list string :=
  flat_map (fun '(i, bits) => const_to_reg_instrs 30 bits ooo ++ [ins "fmv.w.x" [fr (i + 1); "x30"]])
           (zip (range (Z.of_nat (List.length FLOAT_SEED_BITS))) FLOAT_SEED_BITS).
Definition seed_lines (xlen : Z) (ooo : bool) : list string :=
  float_seeds ooo ++ (if xlen >=? 64 then const64_to_reg_instrs 29 30 0xDEADBEEF12345678 ooo else []).

Definition source_cost : list (string * Z) := [("timer", 4); ("uart", 3); ("msi", 3); ("both", 7)].

Definition budget (n_instrs xlen interrupt_prefix_cost : Z) (mmu ooo : bool) : Z :=
  let mmu_prefix_cost := if mmu then (if xlen >=? 64 then 24 else 13) else 0 in
  let xlen64_seed_cost := if xlen >=? 64 then (if ooo then 20 else 8) else 0 in
  let trailer_cost := if ooo then OOO_TRAILER_NOP_COUNT else 1 in
  1 + (if ooo then 6 else 2) * Z.of_nat (List.length FLOAT_SEED_BITS) + xlen64_seed_cost + n_instrs
    + trailer_cost + interrupt_prefix_cost + mmu_prefix_cost.

(** ** Definitions: prefixes *)

(** [s.replace(old, new)]. *)
Fixpoint replace_from (old new s : string) (skip : nat) : string :=
  match s with
  | "" => ""
  | String c s' =>
      match skip with
      | S k => replace_from old new s' k
      | O =>
          if String.prefix old s then new +:+ replace_from old new s' (String.length old - 1)
          else String c (replace_from old new s' O)
      end
  end.
Definition replace (old new s : string) : string := replace_from old new s 0.

(** [sum(1 for l in lines if not l.rstrip().endswith(":"))]. *)
Definition instr_count (lines : list string) : Z :=
  Z.of_nat (List.length (List.filter (fun l => negb (ends_with_colon (rstrip l))) lines)).

Definition MEPC_PLACEHOLDER : string := "__MEPC_PLACEHOLDER__".
Definition MTVEC_PLACEHOLDER : string := "__MTVEC_PLACEHOLDER__".

(** The end both translation prefixes share: satp is in x1. *)
Definition enter_user : list string :=
  ["csrrw x0, 0x180, x1"; "addi x1, x0, " +:+ MEPC_PLACEHOLDER; "csrrw x0, mepc, x1"; "mret"].

Definition sv39_prefix : list string :=
  (const_to_reg_instrs 1 0x401 false ++ ["sw x1, 0(x0)"]) ++
  (["lui x4, 0x1"] ++ const_to_reg_instrs 2 0x801 false ++ ["sw x2, 0(x4)"]) ++
  (["lui x5, 0x2"] ++ const_to_reg_instrs 3 0x1F false ++ ["sw x3, 0(x5)"]) ++
  ["fence"] ++ const64_to_reg_instrs 1 6 (8 << 60) false ++ enter_user.

Definition sv32_prefix : list string :=
  (const_to_reg_instrs 1 0x401 false ++ ["sw x1, 0(x0)"]) ++
  (["lui x3, 0x1"] ++ const_to_reg_instrs 2 0x1F false ++ ["sw x2, 0(x3)"]) ++
  ["fence"] ++ const_to_reg_instrs 1 0x80000000 false ++ enter_user.

(** The prefix with [mepc] set to the address of the line after it. *)
Definition mmu_prefix (xlen : Z) : list string :=
  let prefix := if xlen >=? 64 then sv39_prefix else sv32_prefix in
  let mepc_target := instr_count prefix * 4 in
  map (replace MEPC_PLACEHOLDER (fmt_d mepc_target)) prefix.

(** The prefix that arms an interrupt source, and its cause. *)
Definition interrupt_prefix (source : string) (interrupt_k : Z) : result (list string * Z) :=
  let mtimecmp_est := 100 + interrupt_k * 10 in
  if String.eqb source "timer" then
    Ok ((["lui   x2, 0x10104"; "addi  x5, x0, " +:+ MTVEC_PLACEHOLDER; "csrrw x0, mtvec, x5";
         "addi  x6, x0, 128"; "csrrw x0, mie, x6"]
        ++ const_to_reg_instrs 7 mtimecmp_est false
        ++ ["sw    x7, 0(x2)"; "csrrsi x0, mstatus, 8"]), 0x80000007)
  else if String.eqb source "uart" then
    Ok ((["lui   x1, 0x10000"; "addi  x5, x0, " +:+ MTVEC_PLACEHOLDER; "csrrw x0, mtvec, x5";
         "addi  x6, x0, -2048"; "csrrw x0, mie, x6"; "addi  x8, x0, 1"; "sw    x8, 4(x1)";
         "csrrsi x0, mstatus, 8"]), 0x8000000B)
  else if String.eqb source "msi" then
    Ok ((["lui   x2, 0x10100"; "addi  x5, x0, " +:+ MTVEC_PLACEHOLDER; "csrrw x0, mtvec, x5";
         "addi  x6, x0, 8"; "csrrw x0, mie, x6"; "addi  x7, x0, 1"; "sw    x7, 0(x2)";
         "csrrsi x0, mstatus, 8"]), 0x80000003)
  else if String.eqb source "both" then
    Ok ((["lui   x1, 0x10000"; "lui   x2, 0x10104"; "addi  x5, x0, " +:+ MTVEC_PLACEHOLDER;
         "csrrw x0, mtvec, x5"; "addi  x6, x0, -1920"; "csrrw x0, mie, x6"]
        ++ const_to_reg_instrs 7 mtimecmp_est false
        ++ ["sw    x7, 0(x2)"; "addi  x8, x0, 1"; "sw    x8, 4(x1)"; "csrrsi x0, mstatus, 8"]),
        0x8000000B)
  else Raise (ValueError ("unknown interrupt source " +:+ repr source)).

Definition handler : list string := ["handler:"; "csrrw x0, mie, x0"; "mret"].

(** ** Definitions: the program *)

(** [interrupt_info]. *)
Record injection := { after : Z; cause : Z }.

(** The lines of the program: the translation prefix, the interrupt prefix
    and handler, or neither around the core program [out]. *)
Definition wrap_program (xlen : Z) (mmu : bool) (interrupt : option string) (interrupt_k : Z)
    (out : list string) : result (list string * option injection) :=
  if mmu then Ok ((mmu_prefix xlen ++ out), None)
  else
    match interrupt with
    | None => Ok (out, None)
    | Some source =>
        let core_instr_count := instr_count out in
        '(prefix, cause) ← interrupt_prefix source interrupt_k;
        let handler_addr := (instr_count prefix + core_instr_count) * 4 in
        let prefix := map (replace MTVEC_PLACEHOLDER (fmt_d handler_addr)) prefix in
        Ok ((prefix ++ out ++ handler), Some {| after := interrupt_k; cause := cause |})
    end.

Definition gen_lines (n_instrs base_addr mem_size : Z) (interrupt : option string)
    (mmu : bool) (xlen : Z) (ooo : bool) : gen G (list string * option injection) :=
  let has_interrupt := match interrupt with Some _ => true | None => false end in
  if has_interrupt && mmu then
    gen_raise (ValueError "interrupt and mmu modes are mutually exclusive in this generator (Phase F7 scope)")
  else if ooo && (has_interrupt || mmu) then
    gen_raise (ValueError "ooo mode is mutually exclusive with interrupt/mmu in this generator (Gen6-L scope -- OOOCore.v implements neither yet)")
  else
    let addr_space := if mmu then Z.min mem_size 4096 else mem_size in
    interrupt_prefix_cost ← lift (match interrupt with
                                  | Some source => c ← dict_get source_cost source; Ok (5 + c + 2)
                                  | None => Ok 0
                                  end);
    let budget := budget n_instrs xlen interrupt_prefix_cost mmu ooo in
    if budget >? mem_size `div` 4 then
      gen_raise (ValueError ("n_instrs=" +:+ fmt_d n_instrs +:+ " would overflow the " +:+ fmt_d mem_size +:+
        "-byte budget (everything else already uses " +:+ fmt_d (budget - n_instrs) +:+ " instructions)"))
    else
      interrupt_k ← (if has_interrupt then randint 1 n_instrs else mret 0);
      let csr_weight := if mmu then 0 else 6 in
      items ← gen_items (kind_names xlen ooo) (kind_weights csr_weight xlen ooo) xlen addr_space
                base_addr (csr_pool interrupt ooo) (Z.to_nat n_instrs);
      body ← gen_body items;
      let out := [ins "addi" [xr BASE_REG; "x0"; fmt_d base_addr]] ++ seed_lines xlen ooo
                 ++ body ++ trailer ooo in
      lift (wrap_program xlen mmu interrupt interrupt_k out).

(** ["\n".join(lines) + "\n"]. *)
Definition join_lines (lines : list string) : string := String.concat newline lines +:+ newline.

Definition gen_program (n_instrs base_addr mem_size : Z) (interrupt : option string)
    (mmu : bool) (xlen : Z) (ooo : bool) : gen G (string * option injection) :=
  '(lines, info) ← gen_lines n_instrs base_addr mem_size interrupt mmu xlen ooo;
  mret (join_lines lines, info).
End Generator.

(** ** A concrete source *)

(** A linear congruential stream, the instance the examples run on. *)
#[export] Instance lcg : Random Z := {
  randbelow n g := let g := (g * 6364136223846793005 + 1442695040888963407) `mod` 2 ^ 64 in
                   ((g >> 33) `mod` n, g);
  choose ws g :=
    let g := (g * 6364136223846793005 + 1442695040888963407) `mod` 2 ^ 64 in
    let pool := List.filter (fun i => 0 <? nth i ws 0) (seq 0 (List.length ws)) in
    (nth (Z.to_nat ((g >> 33) `mod` Z.of_nat (List.length pool))) pool O, g);
  coin g := let g := (g * 6364136223846793005 + 1442695040888963407) `mod` 2 ^ 64 in
            (Z.testbit g 40, g)
}.
