(* ===== verification/GenFacts.v ===== *)
(** * Generated programs

    Every line the random generator emits assembles; every program of its
    plain and out-of-order modes is forward-only, so the simulator runs it to
    its halt loop. *)

From S2P Require Import Prelude Words PyStr Machine Mmu IntAlu Float32 Float32Facts Step StepFacts Run.
From S2P Require Import Asm AsmFacts AsmText Disasm TextFacts DisasmTexts RoundTrip Progress UserMode Layout RandomGen.
#[local] Open Scope string_scope.
#[local] Open Scope Z_scope.
#[local] Open Scope list_scope.

(** ** Statements of the generator *)

(** The dispatch of [asm_stmt] on a split statement. *)
Definition chain (xl : Z) (lbls : list (string * Z)) (cur : Z) (mn : string) (args : list string)
    (line : string) : result Z :=
  asm_compute xl mn args (asm_control lbls cur mn args
    (asm_system mn args (asm_float mn args (asm_rest mn line args)))).

Lemma ins_statement mn args : ins mn args = statement_by ", " mn args.
Proof. reflexivity. Qed.

Lemma mnemonic_spec mn : mnemonic mn = true -> token mn = true /\ lower mn = mn.
Proof. unfold mnemonic. intros [H1 H2%String.eqb_eq]%andb_true_iff. done. Qed.

Lemma asm_stmt_ins lbls xl cur mn args : mnemonic mn = true -> args <> [] -> forallb token args = true ->
  asm_stmt lbls xl cur (ins mn args) = chain xl lbls cur mn args (ins mn args).
Proof.
  intros [Hm Hl]%mnemonic_spec Hn Ha. rewrite ins_statement, asm_stmt_statement by done. by rewrite Hl.
Qed.

Lemma kind_ins mn args : mnemonic mn = true -> args <> [] -> forallb token args = true ->
  kind (ins mn args) = Statement (ins mn args).
Proof.
  intros [Hm _]%mnemonic_spec Hn Ha. rewrite ins_statement. unfold kind. rewrite clean_statement by done.
  rewrite (proj2 (statement_strip ", " mn args Hm Hn Ha)).
  replace (String.eqb (statement_by ", " mn args) "") with false; [done|].
  symmetry. apply String.eqb_neq. apply token_spec in Hm as [Hm _]. unfold statement_by. by destruct mn.
Qed.

(** The dispatch of a concrete mnemonic is its arm, and its operands parse. *)
Ltac arm f :=
  match goal with |- chain ?xl ?lbls ?cur ?m ?a ?line = _ =>
    let t := f m a in change (chain xl lbls cur m a line) with t end; operands.

(** The table lookups of an encoder at a concrete mnemonic. *)
Ltac enc :=
  cbn [dict_get dict_find Asm.I_TYPE Asm.I_TYPE_W String.eqb Ascii.eqb Bool.eqb is_shift orb mbind result_bind
       Z.geb Z.compare Pos.compare Pos.compare_cont].
Ltac imm_bounds := unfold imm_lo, imm_hi; cbn; lia.

(** Pool members, one goal each. *)
Ltac pool H :=
  apply list_elem_of_In in H; cbv [In B_SHAMT B_FIXED K_FIXED B_SHAMT_W B_FIXED_W RandomGen.FP_ARITH
    RandomGen.FP_SGNJ RandomGen.FP_MINMAX RandomGen.FP_CMP FP_CVT_TO_INT FP_CVT_FROM_INT FMADD_FAMILY
    RandomGen.CSR_REG_OP RandomGen.CSR_IMM_OP app] in H;
  repeat destruct H as [<-|H]; [..|destruct H].

(** OP-FP functions. *)
Ltac in_functs := first [apply list_elem_of_In; cbn; tauto | intros; solve [auto] ].

(** Whether the lines are to run in user mode too. *)
Section Lines.
Context (um : bool).

(** [w] runs on to the next instruction. *)
Definition runs (xl w : Z) : Prop := sequential xl w /\ w_op w <> OP_JAL /\ allowed um w.

(** An integer destination: user mode keeps the base register. *)
Definition dest (rd : Z) : Prop := reg5 rd /\ (um = true -> rd <> 31).

Lemma allowed_keeps w : w_op w ∈ [OP_R; OP_32; OP_I; OP_IMM32; OP_LUI] -> (um = true -> w_rd w <> 31) -> allowed um w.
Proof.
  intros Hop Hq Hu. apply list_elem_of_In in Hop. cbn [In] in Hop. specialize (Hq Hu).
  unfold user_word. rewrite (proj2 (Z.eqb_neq (w_rd w) 31)) by done.
  by repeat destruct Hop as [<-|Hop].
Qed.

(** A line that is a statement and runs on. *)
Definition good_line (xl : Z) (t : string) : Prop := kind t = Statement t /\ plain_stmt um xl t.

Lemma good_ins xl mn args w : mnemonic mn = true -> args <> [] -> forallb token args = true ->
  (forall lbls cur line, chain xl lbls cur mn args line = Ok w) -> runs xl w -> good_line xl (ins mn args).
Proof.
  intros Hm Hn Ha Hc Hr. split; [by apply kind_ins|].
  intros lbls cur. exists w. by rewrite asm_stmt_ins.
Qed.

(** Immediate operands. *)
Lemma imm_text i bits signed : 0 < bits -> imm_lo bits signed <= i <= imm_hi bits signed ->
  imm (OTok (fmt_d i)) bits signed = Ok (wrap bits i).
Proof.
  intros Hb Hi. rewrite (imm_tok _ i) by apply int_base0_fmt_d. rewrite imm_int by done.
  destruct (Z.leb_spec (imm_lo bits signed) i), (Z.leb_spec i (imm_hi bits signed)); try lia. done.
Qed.

(** Words of the immediate formats. *)
Lemma runs_I xl v f3 rd rs1 : 0 <= v < 4096 -> 0 <= f3 < 8 -> dest rd -> reg5 rs1 ->
  (f3 = 1 -> v `div` 64 = 4 -> is_Some (sha_fn (v `mod` 32))) -> runs xl (i_type_raw v f3 rd rs1 OP_I).
Proof.
  intros Hv Hf Hd H1 Hs. destruct Hd as [Hd Hq]. pose proof (decoded_i_word v f3 rd rs1 OP_I Hv H1 Hf Hd ltac:(done)) as D.
  split; [|split; [by rewrite (di_op _ _ _ _ _ _ D)|] ];
    [|apply allowed_keeps; [rewrite (di_op _ _ _ _ _ _ D); in_functs|by rewrite (di_rd _ _ _ _ _ _ D)] ].
  apply seq_I; [by apply D|]. rewrite (di_f3 _ _ _ _ _ _ D), (di_f6 _ _ _ _ _ _ D).
  rewrite (di_rs2 _ _ _ _ _ _ D). exact Hs.
Qed.

Lemma runs_IMM32 xl v f3 rd rs1 : 0 <= v < 4096 -> f3 = 0 \/ f3 = 1 \/ f3 = 5 -> dest rd -> reg5 rs1 ->
  runs xl (i_type_raw v f3 rd rs1 OP_IMM32).
Proof.
  intros Hv Hf Hd H1. destruct Hd as [Hd Hq].
  pose proof (decoded_i_word v f3 rd rs1 OP_IMM32 Hv H1 ltac:(lia) Hd ltac:(done)) as D.
  split; [|split; [by rewrite (di_op _ _ _ _ _ _ D)|] ];
    [|apply allowed_keeps; [rewrite (di_op _ _ _ _ _ _ D); in_functs|by rewrite (di_rd _ _ _ _ _ _ D)] ].
  apply seq_OPIMM32; [by apply D|]. by rewrite (di_f3 _ _ _ _ _ _ D).
Qed.

(** ** Register-register lines *)

Definition check_R (mn : string) : bool :=
  mnemonic mn && negb (String.eqb mn "nop") &&
  match dict_get Asm.R_TYPE mn with
  | Ok (f7, f3) => f73_ok (f7, f3) && is_ok (exec_R 32 f7 f3 0 0) && is_ok (exec_R 64 f7 f3 0 0)
  | Raise _ => false
  end.

Lemma good_rrr xl mn rd rs1 rs2 : xl = 32 \/ xl = 64 -> check_R mn = true ->
  dest rd -> reg5 rs1 -> reg5 rs2 -> good_line xl (ins mn [xr rd; xr rs1; xr rs2]).
Proof.
  intros Hx Hc Hd H1 H2. destruct Hd as [Hd Hq]. unfold check_R in Hc.
  apply andb_true_iff in Hc as [[Hm Hn%negb_true_iff]%andb_true_iff Hc].
  destruct (dict_get Asm.R_TYPE mn) as [[f7 f3]|] eqn:Ef; [|done].
  apply andb_true_iff in Hc as [[Hf H32]%andb_true_iff H64]. apply f73_range in Hf as [H7 H3].
  pose proof (decoded_r_word f7 rs2 rs1 f3 rd OP_R H7 H2 H1 H3 Hd ltac:(done)) as D.
  apply (good_ins xl _ _ (r_word f7 rs2 rs1 f3 rd OP_R)); [done|done|tokens| |].
  - intros lbls cur line. unfold chain, asm_compute. rewrite Hn, (dict_get_has _ _ _ Ef).
    operands. unfold r_type. by rewrite Ef.
  - split; [|split; [by rewrite (dec_op _ _ _ _ _ _ _ D)|] ];
    [|apply allowed_keeps; [rewrite (dec_op _ _ _ _ _ _ _ D); in_functs|by rewrite (dec_rd _ _ _ _ _ _ _ D)] ]. apply seq_R; [by apply D|].
    rewrite (dec_f7 _ _ _ _ _ _ _ D), (dec_f3 _ _ _ _ _ _ _ D). by destruct Hx as [-> | ->].
Qed.

Definition check_RW (mn : string) : bool :=
  mnemonic mn &&
  match dict_get Asm.R_TYPE_W mn with
  | Ok (f7, f3) => f73_ok (f7, f3) && is_ok (exec_OP32 f7 f3 0 0)
  | Raise _ => false
  end.

Lemma good_rrr_w xl mn rd rs1 rs2 : check_RW mn = true ->
  dest rd -> reg5 rs1 -> reg5 rs2 -> good_line xl (ins mn [xr rd; xr rs1; xr rs2]).
Proof.
  intros Hc Hd H1 H2. destruct Hd as [Hd Hq]. unfold check_RW in Hc. apply andb_true_iff in Hc as [Hm Hc].
  destruct (dict_get Asm.R_TYPE_W mn) as [[f7 f3]|] eqn:Ef; [|done].
  apply andb_true_iff in Hc as [Hf Hex]. apply f73_range in Hf as [H7 H3].
  pose proof (decoded_r_word f7 rs2 rs1 f3 rd OP_32 H7 H2 H1 H3 Hd ltac:(done)) as D.
  apply (good_ins xl _ _ (r_word f7 rs2 rs1 f3 rd OP_32)); [done|done|tokens| |].
  - intros lbls cur line. assert (Ew : r_type_w mn rd rs1 rs2 = Ok (r_word f7 rs2 rs1 f3 rd OP_32))
      by (unfold r_type_w; by rewrite Ef).
    apply dict_get_find in Ef. unfold Asm.R_TYPE_W in Ef. cbn [dict_find] in Ef.
    table_cases Ef; injection Ef as <- <-;
      arm ltac:(fun m a => constr:(rd ← arg_reg a 0; rs1 ← arg_reg a 1; rs2 ← arg_reg a 2; r_type_w m rd rs1 rs2)); exact Ew.
  - split; [|split; [by rewrite (dec_op _ _ _ _ _ _ _ D)|] ];
    [|apply allowed_keeps; [rewrite (dec_op _ _ _ _ _ _ _ D); in_functs|by rewrite (dec_rd _ _ _ _ _ _ _ D)] ]. apply seq_OP32; [by apply D|].
    by rewrite (dec_f7 _ _ _ _ _ _ _ D), (dec_f3 _ _ _ _ _ _ _ D).
Qed.

(** ** Immediate lines *)

Lemma imm_int_ok i bits signed : 0 < bits -> imm_lo bits signed <= i <= imm_hi bits signed ->
  imm (OInt i) bits signed = Ok (wrap bits i).
Proof. intros Hb Hi. rewrite <- (imm_text i bits signed Hb Hi). symmetry. apply imm_tok, int_base0_fmt_d. Qed.

(** I-type lines the encoder accepts. *)
Lemma good_i_type xl mn rd rs1 i : dest rd -> reg5 rs1 ->
  is_ok (i_type mn rd rs1 (OInt i) xl) = true -> good_line xl (ins mn [xr rd; xr rs1; fmt_d i]).
Proof.
  intros Hd H1 [w Hw]%is_ok_ex. destruct Hd as [Hd Hq]. pose proof (i_type_inv _ _ _ _ _ _ Hw) as (f3 & v & Hf & Ew & Hv).
  pose proof (table_keys Asm.I_TYPE (fun k => mnemonic k && negb (String.eqb k "nop") && negb (dict_has Asm.R_TYPE k))
    mn _ eq_refl Hf) as [[Hm Hn1%negb_true_iff]%andb_true_iff Hn2%negb_true_iff]%andb_true_iff.
  apply (good_ins xl _ _ w); [done|done|tokens| |].
  { intros lbls cur line. unfold chain, asm_compute. rewrite Hn1, Hn2, (dict_get_has _ _ _ Hf). operands.
    by rewrite (i_type_tok _ i), Hw by apply int_base0_fmt_d. }
  pose proof (table_range Asm.I_TYPE (fun f => (0 <=? f) && (f <? 8)) mn f3 eq_refl Hf) as H3. cbv beta in H3.
  assert (Hv' : 0 <= v < 4096 /\ (is_shift mn = true -> v `div` 64 <> 4)).
  { destruct (is_shift mn); [|split; [apply Hv|done] ]. destruct (xl >=? 64);
      [destruct (String.eqb mn "srai")|destruct (String.eqb mn "srai")]; destruct Hv as [-> Hi];
      (split; [lia|intros _; Z.to_euclidean_division_equations; lia]). }
  rewrite Ew. apply runs_I; [apply Hv'|lia|done|done|]. intros E1 E2. exfalso.
  apply Hv'; [|done]. subst f3. apply dict_get_find in Hf. unfold Asm.I_TYPE in Hf. cbn [dict_find] in Hf.
  table_cases Hf; (discriminate Hf || reflexivity).
Qed.

Lemma good_imm xl mn rd rs1 i : dest rd -> reg5 rs1 -> mn ∈ RandomGen.I_TYPE -> -2048 <= i <= 2047 ->
  good_line xl (ins mn [xr rd; xr rs1; fmt_d i]).
Proof.
  intros Hd H1 Hmn Hi. apply good_i_type; [done..|].
  apply list_elem_of_In in Hmn. unfold RandomGen.I_TYPE in Hmn. cbn [In] in Hmn. unfold i_type.
  repeat destruct Hmn as [<-|Hmn]; try done; enc; (rewrite imm_int_ok; [reflexivity|done|imm_bounds]).
Qed.

Lemma good_shift xl mn rd rs1 i : xl = 32 \/ xl = 64 -> dest rd -> reg5 rs1 ->
  mn ∈ RandomGen.SHIFT_I -> 0 <= i < xl -> good_line xl (ins mn [xr rd; xr rs1; fmt_d i]).
Proof.
  intros Hx Hd H1 Hmn Hi. apply good_i_type; [done..|].
  apply list_elem_of_In in Hmn. unfold SHIFT_I in Hmn. cbn [In] in Hmn. unfold i_type.
  destruct Hx as [Hx|Hx]; rewrite Hx in *;
    repeat destruct Hmn as [<-|Hmn]; try done; enc; (rewrite imm_int_ok; [reflexivity|done|imm_bounds]).
Qed.

Lemma good_iw xl mn rd rs1 i : dest rd -> reg5 rs1 -> mn ∈ RandomGen.I_TYPE_W ->
  (if String.eqb mn "addiw" then -2048 <= i <= 2047 else 0 <= i <= 31) ->
  good_line xl (ins mn [xr rd; xr rs1; fmt_d i]).
Proof.
  intros Hd H1 Hmn Hi. destruct Hd as [Hd Hq].
  assert (H : exists f3 v, i_type_w mn rd rs1 (OTok (fmt_d i)) = Ok (i_type_raw v f3 rd rs1 OP_IMM32) /\
    0 <= v < 4096 /\ (f3 = 0 \/ f3 = 1 \/ f3 = 5)).
  { pose proof (Z.mod_pos_bound i 4096 ltac:(done)) as Hr.
    apply list_elem_of_In in Hmn. unfold RandomGen.I_TYPE_W in Hmn. cbn [In] in Hmn. unfold i_type_w.
    repeat destruct Hmn as [<-|Hmn]; try done; cbn [String.eqb Ascii.eqb Bool.eqb orb] in *;
      rewrite imm_text by (done || imm_bounds); cbn [mbind result_bind];
      cbn [dict_get dict_find Asm.I_TYPE_W String.eqb Ascii.eqb Bool.eqb mbind result_bind];
      eexists _, _; (split; [reflexivity|]); (split; [|lia]); unfold FUNCT7_BASE, FUNCT7_ALT;
      rewrite ?wrap_small by (unfold in_width; cbn; lia); rewrite ?(mask_shamt _ 5) by lia; cbn; try lia;
      exact Hr. }
  destruct H as (f3 & v & Hw & Hv & Hf).
  apply (good_ins xl _ _ (i_type_raw v f3 rd rs1 OP_IMM32)); [|done|tokens| |by apply runs_IMM32].
  - apply list_elem_of_In in Hmn. by repeat destruct Hmn as [<-|Hmn].
  - intros lbls cur line. apply list_elem_of_In in Hmn.
    repeat destruct Hmn as [<-|Hmn]; try done;
      arm ltac:(fun m a => constr:(rd ← arg_reg a 0; rs1 ← arg_reg a 1; i ← arg_tok a 2; i_type_w m rd rs1 i)); exact Hw.
Qed.

(** ** B- and K-extension immediate forms *)

Lemma good_shamt xl mn rd rs1 i : xl = 32 \/ xl = 64 -> dest rd -> reg5 rs1 ->
  mn ∈ B_SHAMT -> 0 <= i < xl -> good_line xl (ins mn [xr rd; xr rs1; fmt_d i]).
Proof.
  intros Hx Hd H1 Hmn Hi. destruct Hd as [Hd Hq].
  assert (H : exists f6 f3, i_type_bext_shamt mn rd rs1 (OTok (fmt_d i)) xl =
    Ok (i_type_raw (f6 * 64 + i) f3 rd rs1 OP_I) /\ 8 <= f6 < 63 /\ (f3 = 1 \/ f3 = 5)).
  { assert (Hb : imm (OTok (fmt_d i)) (if xl >=? 64 then 6 else 5) false = Ok i).
    { rewrite imm_text; [f_equal; apply wrap_small; unfold in_width| |];
        destruct Hx as [Hx|Hx]; rewrite Hx in *; done || imm_bounds. }
    assert (Hi' : 0 <= i < 2 ^ 6) by (destruct Hx; subst xl; cbn; lia).
    unfold i_type_bext_shamt. pool Hmn; cbn [dict_get dict_find I_TYPE_BEXT_SHAMT String.eqb Ascii.eqb Bool.eqb
      mbind result_bind]; rewrite Hb; cbn [mbind result_bind]; rewrite (mask_shamt _ 6) by done;
      eexists _, _; (split; [reflexivity|]); lia. }
  destruct H as (f6 & f3 & Hw & Hf6 & Hf3). assert (0 <= i < 64) by (destruct Hx; lia).
  apply (good_ins xl _ _ (i_type_raw (f6 * 64 + i) f3 rd rs1 OP_I)); [by pool Hmn|done|tokens| |].
  - intros lbls cur line. pool Hmn;
      arm ltac:(fun m a => constr:(rd ← arg_reg a 0; rs1 ← arg_reg a 1; i ← arg_tok a 2; i_type_bext_shamt m rd rs1 i xl)); exact Hw.
  - apply runs_I; [lia|lia|done|done|]. intros _ E. exfalso. Z.to_euclidean_division_equations; lia.
Qed.

(** The unary mnemonics with a fixed immediate. *)
Lemma good_fixed xl mn rd rs1 : dest rd -> reg5 rs1 -> mn ∈ B_FIXED ++ K_FIXED -> mn <> "rev8" ->
  good_line xl (ins mn [xr rd; xr rs1]).
Proof.
  intros Hd H1 Hmn Hr. destruct Hd as [Hd Hq].
  assert (H : exists v f3, i_type_bext_fixed mn rd rs1 = Ok (i_type_raw v f3 rd rs1 OP_I) /\ 0 <= v < 4096 /\
    0 <= f3 < 8 /\ (f3 = 1 -> v `div` 64 = 4 -> is_Some (sha_fn (v `mod` 32)))).
  { unfold i_type_bext_fixed. pool Hmn; try done;
      cbn [dict_get dict_find I_TYPE_BEXT_FIXED String.eqb Ascii.eqb Bool.eqb mbind result_bind];
      eexists _, _; (split; [reflexivity|]); (split; [done|]); (split; [done|]); intros E1 E2;
      first [discriminate E1|discriminate E2|by eexists]. }
  destruct H as (v & f3 & Hw & Hv & Hf & Hs).
  apply (good_ins xl _ _ (i_type_raw v f3 rd rs1 OP_I)); [by pool Hmn|done|tokens| |by apply runs_I].
  intros lbls cur line. pool Hmn; try done;
    arm ltac:(fun m a => constr:(rd ← arg_reg a 0; rs1 ← arg_reg a 1; i_type_bext_fixed m rd rs1)); exact Hw.
Qed.

Lemma good_rev8 xl rd rs1 : dest rd -> reg5 rs1 -> good_line xl (ins "rev8" [xr rd; xr rs1]).
Proof.
  intros Hd H1. destruct Hd as [Hd Hq]. apply (good_ins xl _ _ (Asm.rev8 rd rs1 xl)); [done|done|tokens| |].
  - intros lbls cur line.
    arm ltac:(fun m a => constr:(rd ← arg_reg a 0; rs1 ← arg_reg a 1; Ok (Asm.rev8 rd rs1 xl))). reflexivity.
  - unfold Asm.rev8. cbv zeta. destruct (xl =? 32); apply runs_I; done.
Qed.

Lemma good_unary xl mn rd rs1 : dest rd -> reg5 rs1 -> mn ∈ B_FIXED ++ K_FIXED ->
  good_line xl (ins mn [xr rd; xr rs1]).
Proof.
  intros Hd H1 Hmn. destruct (decide (mn = "rev8")) as [->|Hn]; [by apply good_rev8|by apply good_fixed].
Qed.

Lemma good_aes64ks1i xl rd rs1 i : dest rd -> reg5 rs1 -> 0 <= i <= 10 ->
  good_line xl (ins "aes64ks1i" [xr rd; xr rs1; fmt_d i]).
Proof.
  intros Hd H1 Hi. destruct Hd as [Hd Hq].
  assert (Hw : Asm.aes64ks1i rd rs1 (OTok (fmt_d i)) = Ok (i_type_raw (((0x18 << 5) .| 0x10) .| i) 1 rd rs1 OP_I)).
  { unfold Asm.aes64ks1i. rewrite imm_text by (done || imm_bounds). cbn [mbind result_bind].
    by rewrite wrap_small by (unfold in_width; cbn; lia). }
  change ((0x18 << 5) .| 0x10) with (0x31 << 4) in Hw. rewrite lor_low_add in Hw by (cbn; lia).
  change (2 ^ 4) with 16 in Hw.
  apply (good_ins xl _ _ (i_type_raw (0x31 * 16 + i) 1 rd rs1 OP_I)); [done|done|tokens| |].
  - intros lbls cur line.
    arm ltac:(fun m a => constr:(rd ← arg_reg a 0; rs1 ← arg_reg a 1; i ← arg_tok a 2; Asm.aes64ks1i rd rs1 i)). exact Hw.
  - apply runs_I; [lia|done|done|done|]. intros _ E. exfalso. Z.to_euclidean_division_equations; lia.
Qed.

Lemma good_shamt_w xl mn rd rs1 i : dest rd -> reg5 rs1 -> mn ∈ B_SHAMT_W ->
  0 <= i <= (if String.eqb mn "roriw" then 31 else 63) -> good_line xl (ins mn [xr rd; xr rs1; fmt_d i]).
Proof.
  intros Hd H1 Hmn Hi. destruct Hd as [Hd Hq]. pool Hmn; cbn [String.eqb Ascii.eqb Bool.eqb] in Hi.
  - assert (Hw : roriw rd rs1 (OTok (fmt_d i)) = Ok (i_type_raw (0x30 * 32 + i) 5 rd rs1 OP_IMM32)).
    { unfold roriw. rewrite imm_text by (done || imm_bounds). cbn [mbind result_bind].
      rewrite wrap_small by (unfold in_width; cbn; lia). by rewrite (mask_shamt _ 5) by (cbn; lia). }
    apply (good_ins xl _ _ (i_type_raw (0x30 * 32 + i) 5 rd rs1 OP_IMM32)); [done|done|tokens| |].
    + intros lbls cur line.
      arm ltac:(fun m a => constr:(rd ← arg_reg a 0; rs1 ← arg_reg a 1; i ← arg_tok a 2; roriw rd rs1 i)). exact Hw.
    + apply runs_IMM32; by try lia.
  - assert (Hw : slli_uw rd rs1 (OTok (fmt_d i)) = Ok (i_type_raw (2 * 64 + i) 1 rd rs1 OP_IMM32)).
    { unfold slli_uw. rewrite imm_text by (done || imm_bounds). cbn [mbind result_bind].
      rewrite wrap_small by (unfold in_width; cbn; lia). by rewrite (mask_shamt _ 6) by (cbn; lia). }
    apply (good_ins xl _ _ (i_type_raw (2 * 64 + i) 1 rd rs1 OP_IMM32)); [done|done|tokens| |].
    + intros lbls cur line.
      arm ltac:(fun m a => constr:(rd ← arg_reg a 0; rs1 ← arg_reg a 1; i ← arg_tok a 2; slli_uw rd rs1 i)). exact Hw.
    + apply runs_IMM32; by try lia.
Qed.

Lemma good_fixed_w xl mn rd rs1 : dest rd -> reg5 rs1 -> mn ∈ B_FIXED_W -> good_line xl (ins mn [xr rd; xr rs1]).
Proof.
  intros Hd H1 Hmn. destruct Hd as [Hd Hq].
  assert (H : exists v, i_type_w_bext_fixed mn rd rs1 = Ok (i_type_raw v 1 rd rs1 OP_IMM32) /\ 0 <= v < 4096).
  { unfold i_type_w_bext_fixed. pool Hmn;
      cbn [dict_get dict_find I_TYPE_W_BEXT_FIXED String.eqb Ascii.eqb Bool.eqb mbind result_bind];
      eexists; (split; [reflexivity|done]). }
  destruct H as (v & Hw & Hv).
  apply (good_ins xl _ _ (i_type_raw v 1 rd rs1 OP_IMM32)); [by pool Hmn|done|tokens| |].
  - intros lbls cur line. pool Hmn;
      arm ltac:(fun m a => constr:(rd ← arg_reg a 0; rs1 ← arg_reg a 1; i_type_w_bext_fixed m rd rs1)); exact Hw.
  - apply runs_IMM32; try done. lia.
Qed.

(** ** Memory and CSR lines *)

Lemma base_reg5 : reg5 BASE_REG.
Proof. done. Qed.

Lemma good_load xl mn rd off : dest rd -> 0 <= off <= 2047 -> dict_has LOAD mn = true ->
  good_line xl (ins mn [xr rd; mem_operand off BASE_REG]).
Proof.
  intros [Hd Hq] Hi Hmn. pose proof base_reg5 as H1. set (rs1 := BASE_REG) in *. unfold dict_has in Hmn. destruct (dict_find LOAD mn) as [f3|] eqn:Ef; [|done].
  assert (Hf : dict_get LOAD mn = Ok f3) by (unfold dict_get; by rewrite Ef).
  pose proof (table_range LOAD (fun f => (0 <=? f) && (f <? 7)) mn f3 eq_refl Hf) as H3. cbv beta in H3.
  assert (Hw : Asm.load mn rd (OTok (fmt_d off)) rs1 = Ok (i_type_raw (wrap 12 off) f3 rd rs1 OP_LOAD)).
  { unfold Asm.load. rewrite imm_text by (done || imm_bounds). by rewrite Hf. }
  apply (good_ins xl _ _ (i_type_raw (wrap 12 off) f3 rd rs1 OP_LOAD)).
  - by apply (table_keys LOAD mnemonic mn _ eq_refl Hf).
  - done.
  - change (mem_operand off rs1) with (at_reg off rs1). tokens.
  - intros lbls cur line. unfold LOAD in Ef. cbn [dict_find] in Ef.
    change (mem_operand off rs1) with (at_reg off rs1).
    table_cases Ef; try done;
      arm ltac:(fun m a => constr:(rd ← arg_reg a 0; '(off, rs1) ← arg_mem a 1; Asm.load m rd off rs1));
      exact Hw.
  - assert (Hr : - 2 ^ 11 <= off < 2 ^ 11) by (cbn; lia).
    destruct (imm_i_word off rs1 f3 rd OP_LOAD H1 ltac:(lia) Hd ltac:(done) Hr) as (Hop & E1 & E2 & E3 & E4).
    unfold i_type_raw. split; [apply seq_load; [done|by rewrite E3; lia]|]. split; [by rewrite Hop|].
    intros Hu. specialize (Hq Hu). unfold user_word. rewrite Hop, E1, E2, E3, E4. cbn [Z.eqb Pos.eqb OP_LOAD].
    change (rs1 =? 31) with true. destruct (Z.eqb_spec rd 31), (Z.ltb_spec f3 7), (Z.leb_spec 0 off); lia || done.
Qed.

Lemma good_store xl mn rs2 off : reg5 rs2 -> 0 <= off <= 2047 -> dict_has STORE mn = true ->
  good_line xl (ins mn [xr rs2; mem_operand off BASE_REG]).
Proof.
  intros Hd Hi Hmn. pose proof base_reg5 as H1. set (rs1 := BASE_REG) in *. unfold dict_has in Hmn. destruct (dict_find STORE mn) as [f3|] eqn:Ef; [|done].
  assert (Hf : dict_get STORE mn = Ok f3) by (unfold dict_get; by rewrite Ef).
  pose proof (table_range STORE (fun f => (0 <=? f) && (f <? 4)) mn f3 eq_refl Hf) as H3. cbv beta in H3.
  assert (Hr : - 2 ^ 11 <= off < 2 ^ 11) by (cbn; lia).
  pose proof (imm_s_word off rs2 rs1 f3 OP_STORE Hd H1 ltac:(lia) ltac:(done) Hr) as Hw. cbv zeta in Hw.
  match type of Hw with w_op ?x = _ /\ _ => set (w := x) in Hw end.
  assert (Ew : Asm.store mn rs2 (OTok (fmt_d off)) rs1 = Ok w).
  { unfold Asm.store. rewrite imm_text by (done || imm_bounds). by rewrite Hf. }
  destruct Hw as (Hop & _ & E2 & E3 & E4).
  apply (good_ins xl _ _ w).
  - by apply (table_keys STORE mnemonic mn _ eq_refl Hf).
  - done.
  - change (mem_operand off rs1) with (at_reg off rs1). tokens.
  - intros lbls cur line. unfold STORE in Ef. cbn [dict_find] in Ef.
    change (mem_operand off rs1) with (at_reg off rs1).
    table_cases Ef; try done;
      arm ltac:(fun m a => constr:(rs2 ← arg_reg a 0; '(off, rs1) ← arg_mem a 1; Asm.store m rs2 off rs1));
      exact Ew.
  - split; [apply seq_store; [done|rewrite E3; lia]|]. split; [by rewrite Hop|].
    intros Hu. unfold user_word. rewrite Hop, E2, E3, E4. cbn [Z.eqb Pos.eqb orb OP_LOAD OP_FLW OP_STORE OP_FSW].
    change (rs1 =? 31) with true. destruct (Z.leb_spec 0 off); [|lia]. destruct (Z.ltb_spec f3 4); [done|lia].
Qed.

Lemma good_flw xl rd off : reg5 rd -> 0 <= off <= 2047 ->
  good_line xl (ins "flw" [fr rd; mem_operand off BASE_REG]).
Proof.
  intros Hd Hi. pose proof base_reg5 as H1. set (rs1 := BASE_REG) in *. assert (Hr : - 2 ^ 11 <= off < 2 ^ 11) by (cbn; lia).
  pose proof (imm_i_word off rs1 2 rd OP_FLW H1 ltac:(done) Hd ltac:(done) Hr) as (Hop & _ & E2 & _ & E4).
  change (mem_operand off rs1) with (at_reg off rs1).
  apply (good_ins xl _ _ (i_type_raw (wrap 12 off) 2 rd rs1 OP_FLW)); [done|done|tokens| |].
  - intros lbls cur line.
    arm ltac:(fun m a => constr:(rd ← arg_freg a 0; '(off, rs1) ← arg_mem a 1; flw rd off rs1)).
    unfold flw. by rewrite imm_text by (done || imm_bounds).
  - unfold i_type_raw. split; [by apply seq_flw|]. split; [by rewrite Hop|].
    intros Hu. unfold user_word. rewrite Hop, E2, E4. cbn [Z.eqb Pos.eqb OP_LOAD OP_FLW].
    change (rs1 =? 31) with true. destruct (Z.leb_spec 0 off); [done|lia].
Qed.

Lemma good_fsw xl rs2 off : reg5 rs2 -> 0 <= off <= 2047 ->
  good_line xl (ins "fsw" [fr rs2; mem_operand off BASE_REG]).
Proof.
  intros Hd Hi. pose proof base_reg5 as H1. set (rs1 := BASE_REG) in *. assert (Hr : - 2 ^ 11 <= off < 2 ^ 11) by (cbn; lia).
  pose proof (imm_s_word off rs2 rs1 2 OP_FSW Hd H1 ltac:(done) ltac:(done) Hr) as Hw. cbv zeta in Hw.
  match type of Hw with w_op ?x = _ /\ _ => set (w := x) in Hw end. destruct Hw as (Hop & _ & E2 & _ & E4).
  change (mem_operand off rs1) with (at_reg off rs1).
  apply (good_ins xl _ _ w); [done|done|tokens| |].
  - intros lbls cur line.
    arm ltac:(fun m a => constr:(rs2 ← arg_freg a 0; '(off, rs1) ← arg_mem a 1; fsw rs2 off rs1)).
    unfold fsw. by rewrite imm_text by (done || imm_bounds).
  - split; [by apply seq_fsw|]. split; [by rewrite Hop|].
    intros Hu. unfold user_word. rewrite Hop, E2, E4. cbn [Z.eqb Pos.eqb orb OP_LOAD OP_FLW OP_STORE OP_FSW].
    change (rs1 =? 31) with true. destruct (Z.leb_spec 0 off); [|lia]. done.
Qed.

(** A CSR operand: one of the names or addresses the generator uses; in
    user mode, of the floating-point registers. *)
Definition csr_limit : Z := if um then 4 else 4096.
Definition csr_token (c : string) : bool :=
  token c && match csr_lookup (OTok c) with Ok a => (0 <=? a) && (a <? csr_limit) | Raise _ => false end.

Lemma csr_token_spec c : csr_token c = true ->
  token c = true /\ exists a, csr_lookup (OTok c) = Ok a /\ 0 <= a < csr_limit.
Proof.
  unfold csr_token. intros [Ht H]%andb_true_iff. split; [done|].
  destruct (csr_lookup (OTok c)) as [a|]; [|done]. exists a. split; [done|lia].
Qed.

Lemma runs_csr xl a f3 rd rs1 : 0 <= a < csr_limit -> 0 < f3 < 8 -> dest rd -> reg5 rs1 ->
  runs xl ((u a 12 << 20) .| (rs1 << 15) .| (f3 << 12) .| (rd << 7) .| OP_SYSTEM).
Proof.
  intros Hal Hf Hd H1. destruct Hd as [Hd Hq].
  assert (Ha : 0 <= a < 4096) by (unfold csr_limit in Hal; destruct um; lia). pose proof (decoded_i_word a f3 rd rs1 OP_SYSTEM Ha H1 ltac:(lia) Hd ltac:(done)) as D.
  unfold i_type_raw in D. split; [|split; [by rewrite (di_op _ _ _ _ _ _ D)|] ];
    [|intros Hu; unfold csr_limit in Hal; rewrite Hu in Hal; unfold user_word;
      rewrite (di_op _ _ _ _ _ _ D), (di_rd _ _ _ _ _ _ D), (di_f3 _ _ _ _ _ _ D), (di_top _ _ _ _ _ _ D);
      specialize (Hq Hu); cbn; destruct (Z.eqb_spec rd 31), (Z.eqb_spec f3 0), (Z.ltb_spec a 4); lia || done ].
  apply seq_csr; [by apply D|]. rewrite (di_f3 _ _ _ _ _ _ D). lia.
Qed.

Lemma good_csr_reg xl mn c rd rs1 : dest rd -> reg5 rs1 -> mn ∈ CSR_REG_OP -> csr_token c = true ->
  good_line xl (ins mn [xr rd; c; xr rs1]).
Proof.
  intros Hd H1 Hmn (Ht & a & Ha & Hr)%csr_token_spec. destruct Hd as [Hd Hq].
  assert (H : exists f3, dict_get CSR_OP mn = Ok f3 /\ 0 < f3 < 8) by (pool Hmn; (eexists; split; [reflexivity|done])).
  destruct H as (f3 & Hf & H3).
  eapply (good_ins xl _ _ _); [by pool Hmn|done|cbn [forallb]; by rewrite !token_x, Ht| |by apply (runs_csr xl a f3 rd rs1)].
  intros lbls cur line. pool Hmn;
    arm ltac:(fun m a => constr:(rd ← arg_reg a 0; csr ← arg_tok a 1; rs1 ← arg_reg a 2; csr_reg m rd csr rs1));
    unfold csr_reg; by rewrite Ha, Hf.
Qed.

Lemma good_csr_imm xl mn c rd i : dest rd -> 0 <= i <= 31 -> mn ∈ CSR_IMM_OP -> csr_token c = true ->
  good_line xl (ins mn [xr rd; c; fmt_d i]).
Proof.
  intros Hd H1 Hmn (Ht & a & Ha & Hr)%csr_token_spec. destruct Hd as [Hd Hq].
  assert (H : exists f3, dict_get CSR_OP mn = Ok f3 /\ 0 < f3 < 8) by (pool Hmn; (eexists; split; [reflexivity|done])).
  destruct H as (f3 & Hf & H3).
  eapply (good_ins xl _ _ _);
    [by pool Hmn|done|cbn [forallb]; by rewrite token_x, token_d, Ht| |apply (runs_csr xl a f3 rd i); try done].
  - intros lbls cur line. pool Hmn;
      arm ltac:(fun m a => constr:(rd ← arg_reg a 0; csr ← arg_tok a 1; uimm ← arg_tok a 2; csr_imm m rd csr uimm));
      unfold csr_imm; rewrite Ha; cbn [mbind result_bind]; rewrite imm_text by (done || imm_bounds);
      cbn [mbind result_bind]; rewrite Hf, wrap_small by (unfold in_width; cbn; lia); reflexivity.
  - unfold reg5. lia.
Qed.

(** ** Floating-point lines *)

Lemma rm_pool c : c ∈ RandomGen.RM_NAMES -> exists rm, c = rm_name rm /\ rm_ok rm = true.
Proof.
  intros H. apply list_elem_of_In in H. cbv [In RandomGen.RM_NAMES] in H.
  repeat destruct H as [<-|H]; [by exists 0|by exists 1|by exists 2|by exists 3|by exists 4|by exists 7|done].
Qed.

(** OP-FP and fused words. *)
Lemma runs_fp xl f5 rs2 rs1 f3 rd : 0 <= f5 < 32 -> f5 ∈ fp_functs -> reg5 rs2 -> reg5 rs1 -> 0 <= f3 < 8 ->
  reg5 rd -> (um = true -> existsb (Z.eqb f5) int_functs = true -> rd <> 31) -> runs xl ((f5 << 27) .| (rs2 << 20) .| (rs1 << 15) .| (f3 << 12) .| (rd << 7) .| OP_FP).
Proof.
  intros H5 Hin H2 H1 H3 Hd Hq. pose proof (fp_word f5 rs2 rs1 f3 rd OP_FP H5 H2 H1 H3 Hd ltac:(done)) as D.
  split; [|split; [by rewrite (dec_op _ _ _ _ _ _ _ D)|] ].
  2: { intros Hu. unfold user_word.
    rewrite (dec_op _ _ _ _ _ _ _ D), (dec_rd _ _ _ _ _ _ _ D), (dec_f5 _ _ _ _ _ _ _ D), Z.div_mul by done.
    cbn [Z.eqb Pos.eqb orb OP_FP OP_LOAD OP_FLW OP_STORE OP_FSW OP_SYSTEM].
    destruct (Z.eqb_spec rd 31) as [->|]; [|done]. cbn [negb orb]. apply negb_true_iff, not_true_iff_false.
    intros Hf. by apply (Hq Hu). }
  apply seq_fp; [by apply D|].
  rewrite (dec_f5 _ _ _ _ _ _ _ D), Z.div_mul by done. exact Hin.
Qed.

Lemma good_fp_arith xl mn rd rs1 rs2 c : reg5 rd -> reg5 rs1 -> reg5 rs2 -> mn ∈ RandomGen.FP_ARITH ->
  c ∈ RandomGen.RM_NAMES -> good_line xl (ins mn [fr rd; fr rs1; fr rs2; c]).
Proof.
  intros Hd H1 H2 Hmn (rm & -> & Hrm)%rm_pool. pose proof (rm_range rm Hrm).
  assert (H5 : exists f5, dict_get Asm.FP_ARITH mn = Ok f5 /\ 0 <= f5 < 32 /\ f5 ∈ fp_functs /\
    existsb (Z.eqb f5) int_functs = false).
  { pool Hmn; (eexists; split; [reflexivity|split; [done|split; [in_functs|done] ]]). }
  destruct H5 as (f5 & Hf & H5 & Hin & Hni).
  apply (good_ins xl _ _ (fp_r_type f5 rd rs1 rs2 rm)); [by pool Hmn|done|rm_tokens Hrm| |apply runs_fp; try done; congruence].
  intros lbls cur line. pool Hmn;
    arm ltac:(fun m a => constr:(rd ← arg_freg a 0; rs1 ← arg_freg a 1; rs2 ← arg_freg a 2;
      rm ← parse_rm a 3; f5 ← dict_get Asm.FP_ARITH m; Ok (fp_r_type f5 rd rs1 rs2 rm)));
    rm_operand; by rewrite Hf.
Qed.

Lemma good_fp_sqrt xl rd rs1 c : reg5 rd -> reg5 rs1 -> c ∈ RandomGen.RM_NAMES ->
  good_line xl (ins "fsqrt.s" [fr rd; fr rs1; c]).
Proof.
  intros Hd H1 (rm & -> & Hrm)%rm_pool. pose proof (rm_range rm Hrm).
  apply (good_ins xl _ _ (fp_sqrt rd rs1 rm)); [done|done|rm_tokens Hrm| |].
  - intros lbls cur line.
    arm ltac:(fun m a => constr:(rd ← arg_freg a 0; rs1 ← arg_freg a 1; rm ← parse_rm a 2; Ok (fp_sqrt rd rs1 rm))).
    rm_operand. reflexivity.
  - apply (runs_fp xl 0xB 0); try done. in_functs.
Qed.

Lemma good_fp_sgnj xl mn rd rs1 rs2 : reg5 rd -> reg5 rs1 -> reg5 rs2 -> mn ∈ RandomGen.FP_SGNJ ->
  good_line xl (ins mn [fr rd; fr rs1; fr rs2]).
Proof.
  intros Hd H1 H2 Hmn.
  assert (H3 : exists f3, dict_get Asm.FP_SGNJ mn = Ok f3 /\ 0 <= f3 < 8)
    by (pool Hmn; (eexists; split; [reflexivity|done])).
  destruct H3 as (f3 & Hf & H3).
  eapply (good_ins xl _ _ _); [by pool Hmn|done|tokens| |apply (runs_fp xl 0x4 rs2 rs1 f3 rd); try done; in_functs].
  intros lbls cur line. pool Hmn;
    arm ltac:(fun m a => constr:(rd ← arg_freg a 0; rs1 ← arg_freg a 1; rs2 ← arg_freg a 2; fp_sgnj m rd rs1 rs2));
    unfold fp_sgnj; by rewrite Hf.
Qed.

Lemma good_fp_minmax xl mn rd rs1 rs2 : reg5 rd -> reg5 rs1 -> reg5 rs2 -> mn ∈ RandomGen.FP_MINMAX ->
  good_line xl (ins mn [fr rd; fr rs1; fr rs2]).
Proof.
  intros Hd H1 H2 Hmn.
  assert (H3 : exists f3, dict_get Asm.FP_MINMAX mn = Ok f3 /\ 0 <= f3 < 8)
    by (pool Hmn; (eexists; split; [reflexivity|done])).
  destruct H3 as (f3 & Hf & H3).
  eapply (good_ins xl _ _ _); [by pool Hmn|done|tokens| |apply (runs_fp xl 0x5 rs2 rs1 f3 rd); try done; in_functs].
  intros lbls cur line. pool Hmn;
    arm ltac:(fun m a => constr:(rd ← arg_freg a 0; rs1 ← arg_freg a 1; rs2 ← arg_freg a 2; fp_minmax m rd rs1 rs2));
    unfold fp_minmax; by rewrite Hf.
Qed.

Lemma good_fp_cmp xl mn rd rs1 rs2 : dest rd -> reg5 rs1 -> reg5 rs2 -> mn ∈ RandomGen.FP_CMP ->
  good_line xl (ins mn [xr rd; fr rs1; fr rs2]).
Proof.
  intros Hd H1 H2 Hmn. destruct Hd as [Hd Hq].
  assert (H3 : exists f3, dict_get Asm.FP_CMP mn = Ok f3 /\ 0 <= f3 < 8)
    by (pool Hmn; (eexists; split; [reflexivity|done])).
  destruct H3 as (f3 & Hf & H3).
  eapply (good_ins xl _ _ _); [by pool Hmn|done|tokens| |apply (runs_fp xl 0x14 rs2 rs1 f3 rd); try done; in_functs].
  intros lbls cur line. pool Hmn;
    arm ltac:(fun m a => constr:(rd ← arg_reg a 0; rs1 ← arg_freg a 1; rs2 ← arg_freg a 2; fp_cmp m rd rs1 rs2));
    unfold fp_cmp; by rewrite Hf.
Qed.

Lemma good_fp_cvt_to_int xl mn rd rs1 c : dest rd -> reg5 rs1 -> mn ∈ FP_CVT_TO_INT -> c ∈ RandomGen.RM_NAMES ->
  good_line xl (ins mn [xr rd; fr rs1; c]).
Proof.
  intros Hd H1 Hmn (rm & -> & Hrm)%rm_pool. destruct Hd as [Hd Hq]. pose proof (rm_range rm Hrm).
  apply (good_ins xl _ _ (fp_cvt_w_s (String.eqb mn "fcvt.wu.s") rd rs1 rm)); [by pool Hmn|done|rm_tokens Hrm| |].
  - intros lbls cur line. pool Hmn;
      arm ltac:(fun m a => constr:(rd ← arg_reg a 0; rs1 ← arg_freg a 1; rm ← parse_rm a 2;
        Ok (fp_cvt_w_s (String.eqb m "fcvt.wu.s") rd rs1 rm)));
      rm_operand; reflexivity.
  - unfold fp_cvt_w_s. apply (runs_fp xl 0x18); try done; [in_functs|by destruct (String.eqb mn "fcvt.wu.s")|in_functs].
Qed.

Lemma good_fp_cvt_from_int xl mn rd rs1 c : reg5 rd -> reg5 rs1 -> mn ∈ FP_CVT_FROM_INT -> c ∈ RandomGen.RM_NAMES ->
  good_line xl (ins mn [fr rd; xr rs1; c]).
Proof.
  intros Hd H1 Hmn (rm & -> & Hrm)%rm_pool. pose proof (rm_range rm Hrm).
  apply (good_ins xl _ _ (fp_cvt_s_w (String.eqb mn "fcvt.s.wu") rd rs1 rm)); [by pool Hmn|done|rm_tokens Hrm| |].
  - intros lbls cur line. pool Hmn;
      arm ltac:(fun m a => constr:(rd ← arg_freg a 0; rs1 ← arg_reg a 1; rm ← parse_rm a 2;
        Ok (fp_cvt_s_w (String.eqb m "fcvt.s.wu") rd rs1 rm)));
      rm_operand; reflexivity.
  - unfold fp_cvt_s_w. apply (runs_fp xl 0x1A); try done; [in_functs|by destruct (String.eqb mn "fcvt.s.wu")].
Qed.

Lemma good_fp_madd xl mn rd rs1 rs2 rs3 c : reg5 rd -> reg5 rs1 -> reg5 rs2 -> reg5 rs3 ->
  mn ∈ FMADD_FAMILY -> c ∈ RandomGen.RM_NAMES -> good_line xl (ins mn [fr rd; fr rs1; fr rs2; fr rs3; c]).
Proof.
  intros Hd H1 H2 H3 Hmn (rm & -> & Hrm)%rm_pool. pose proof (rm_range rm Hrm).
  assert (Ho : exists op, dict_get MADD_OPCODES mn = Ok op /\ 0 <= op < 128 /\ op ∈ [OP_FMADD; OP_FMSUB; OP_FNMSUB; OP_FNMADD]).
  { pool Hmn; (eexists; split; [reflexivity|split; [done|in_functs]]). }
  destruct Ho as (op & Hf & Ho & Hin).
  pose proof (fp_word rs3 rs2 rs1 rm rd op H3 H2 H1 ltac:(done) Hd Ho) as D.
  apply (good_ins xl _ _ (fp_r4_type op rd rs1 rs2 rs3 rm)); [by pool Hmn|done|rm_tokens Hrm| |].
  - intros lbls cur line. pool Hmn;
      arm ltac:(fun m a => constr:(rd ← arg_freg a 0; rs1 ← arg_freg a 1; rs2 ← arg_freg a 2; rs3 ← arg_freg a 3;
        rm ← parse_rm a 4; op ← dict_get MADD_OPCODES m; Ok (fp_r4_type op rd rs1 rs2 rs3 rm)));
      rm_operand; by rewrite Hf.
  - unfold fp_r4_type. split; [apply seq_fmadd; by rewrite (dec_op _ _ _ _ _ _ _ D)|].
    unfold allowed, user_word. rewrite (dec_op _ _ _ _ _ _ _ D). apply list_elem_of_In in Hin. cbn in Hin.
    by repeat destruct Hin as [<-|Hin].
Qed.

(** ** Lines of the seeds and the trailer *)

Lemma good_lui xl rd v : dest rd -> 0 <= v < 2 ^ 20 -> good_line xl (ins "lui" [xr rd; fmt_hash_x v]).
Proof.
  intros Hd Hv. destruct Hd as [Hd Hq]. pose proof (u_word_op v rd OP_LUI Hv Hd ltac:(done)) as Hop.
  assert (Hw : u_type OP_LUI rd (OTok (fmt_hash_x v)) = Ok (u_word v rd OP_LUI)).
  { unfold u_type. rewrite (imm_tok _ v) by (apply int_base0_hex; lia). rewrite imm_int_ok; [|done|imm_bounds].
    cbn [mbind result_bind]. rewrite wrap_small by done. unfold u_word. reflexivity. }
  assert (Ht : token (fmt_hash_x v) = true).
  { change (fmt_hash_x v) with (String "0" (String "x" (fmt_nat 16 v))). apply token_num; [done|].
    apply word_num. rewrite str_all_cons. by rewrite fmt_nat_word by lia. }
  apply (good_ins xl _ _ (u_word v rd OP_LUI)); [done|done|cbn [forallb]; by rewrite token_x, Ht| |].
  - intros lbls cur line. arm ltac:(fun m a => constr:(rd ← arg_reg a 0; i ← arg_tok a 1; u_type OP_LUI rd i)). exact Hw.
  - split; [by apply seq_lui|]. split; [by rewrite Hop|]. apply allowed_keeps; [rewrite Hop; in_functs|by rewrite (u_word_rd v rd OP_LUI)].
Qed.

Lemma good_fmv_w_x xl rd rs1 : reg5 rd -> reg5 rs1 -> good_line xl (ins "fmv.w.x" [fr rd; xr rs1]).
Proof.
  intros Hd H1. apply (good_ins xl _ _ (fp_mv_w_x rd rs1)); [done|done|tokens| |].
  - intros lbls cur line. arm ltac:(fun m a => constr:(rd ← arg_freg a 0; rs1 ← arg_reg a 1; Ok (fp_mv_w_x rd rs1))).
    reflexivity.
  - pose proof (runs_fp xl 0x1E 0 rs1 0 rd ltac:(done) ltac:(in_functs) ltac:(done) H1 ltac:(done) Hd) as H.
    rewrite Z.shiftl_0_l, !Z.lor_0_r in H. exact (H ltac:(done)).
Qed.

Lemma good_fence xl : good_line xl "fence".
Proof.
  split; [reflexivity|]. intros lbls cur. exists Asm.fence. split; [reflexivity|].
  split; [by apply seq_fence|done].
Qed.

(** ** What the generator draws *)

Section Ensures.
Context {G : Type} `{RandomLaws G}.

(** [m] does not raise, and what it returns satisfies [P], whatever the
    random source does. *)
Definition ensures {A} (m : gen G A) (P : A -> Prop) : Prop :=
  forall g, exists a g', m g = Ok (a, g') /\ P a.

Lemma ensures_ret {A} (a : A) (P : A -> Prop) : P a -> ensures (base.mret a) P.
Proof. intros Ha g. by exists a, g. Qed.

Lemma ensures_bind {A B} (m : gen G A) (k : A -> gen G B) (Q : A -> Prop) (P : B -> Prop) :
  ensures m Q -> (forall a, Q a -> ensures (k a) P) -> ensures (m ≫= k) P.
Proof.
  intros Hm Hk g. destruct (Hm g) as (a & g' & E & Ha). destruct (Hk a Ha g') as (b & g2 & E2 & Hb).
  exists b, g2. split; [|done]. unfold mbind, gen_bind. by rewrite E.
Qed.

Lemma ensures_mono {A} (m : gen G A) (Q P : A -> Prop) : ensures m Q -> (forall a, Q a -> P a) -> ensures m P.
Proof. intros Hm Hi g. destruct (Hm g) as (a & g' & E & Ha). exists a, g'. auto. Qed.

Lemma ensures_choice {A} (l : list A) : l <> [] -> ensures (choice l) (fun a => a ∈ l).
Proof.
  intros Hl g. destruct l as [|d l]; [done|]. unfold choice.
  pose proof (randbelow_range (Z.of_nat (List.length (d :: l))) g ltac:(cbn; lia)) as Hr.
  destruct (randbelow _ g) as [i g']. exists (nthZ d (d :: l) i), g'. split; [done|].
  cbn [fst] in Hr. unfold nthZ. apply list_elem_of_In, nth_In. lia.
Qed.

Lemma ensures_randint a b : a <= b -> ensures (randint a b) (fun v => a <= v <= b).
Proof.
  intros Hab g. unfold randint. cbv zeta. destruct (Z.ltb_spec 0 (b + 1 - a)); [|lia].
  pose proof (randbelow_range (b + 1 - a) g ltac:(lia)) as Hr. destruct (randbelow _ g) as [i g'].
  exists (a + i), g'. split; [done|]. cbn [fst] in Hr. lia.
Qed.

Lemma ensures_below_half : ensures below_half (fun _ => True).
Proof. intros g. unfold below_half. destruct (coin g) as [b g']. by exists b, g'. Qed.

Lemma ensures_lift {A} (r : result A) (a : A) (P : A -> Prop) : r = Ok a -> P a -> ensures (lift r) P.
Proof. intros -> Ha g. by exists a, g. Qed.

(** An aligned offset that keeps the access inside the address space; 0 when
    the space is too small. *)
Lemma ensures_offset addr_space base_addr width : 0 < width ->
  ensures (gen_offset addr_space base_addr width)
    (fun off => 0 <= off <= 2047 /\
       (base_addr + width <= addr_space -> base_addr + off + width <= addr_space) /\ (width | off)).
Proof.
  intros Hw. unfold gen_offset. cbv zeta. set (mx := Z.min _ 2047). rewrite Z.geb_leb.
  destruct (Z.leb_spec 0 mx) as [Hm|Hm].
  - intros g. unfold randrange. cbv zeta.
    assert (Hn : 0 < (mx + 1 - 0 + width - 1) `div` width) by (apply Z.div_str_pos; lia).
    destruct (Z.ltb_spec 0 ((mx + 1 - 0 + width - 1) `div` width)); [|lia].
    pose proof (randbelow_range _ g Hn) as Hr. destruct (randbelow _ g) as [i g'].
    exists (0 + width * i), g'. split; [done|]. cbn [fst] in Hr.
    assert (Hi : width * i <= mx).
    { assert (i + 1 <= (mx + width) `div` width) by (replace (mx + width) with (mx + 1 - 0 + width - 1) by lia; lia).
      pose proof (Z.mul_div_le (mx + width) width Hw). nia. }
    split; [nia|]. split; [lia|]. exists i. lia.
  - apply ensures_ret. split; [lia|]. split; [lia|]. by exists 0.
Qed.

(** ** Generated instructions *)

Definition good_item (xl : Z) (i : item) : Prop :=
  match i with
  | Line t => good_line xl t
  | Branch mn rs1 rs2 => mn ∈ RandomGen.BRANCH /\ reg5 rs1 /\ reg5 rs2
  | Jal rd => 0 <= rd < 31
  end.

Lemma gp_reg5 : ensures gp (fun r => (0 <= r < 31 /\ reg5 r) /\ dest r).
Proof.
  eapply ensures_mono; [by apply ensures_choice|]. intros r Hr. unfold GP_REGS in Hr.
  apply elem_of_seqZ in Hr. unfold dest, reg5. split_and!; lia.
Qed.

Lemma fp_reg5 : ensures fp reg5.
Proof.
  eapply ensures_mono; [by apply ensures_choice|]. intros r Hr. unfold FREGS in Hr.
  apply elem_of_seqZ in Hr. unfold reg5. lia.
Qed.

(** One draw at a time. *)
Ltac draw :=
  first
  [ eapply ensures_bind; [exact gp_reg5|intros ? [ [? ?] ?] ]
  | eapply ensures_bind; [exact fp_reg5|intros ? ?]
  | eapply ensures_bind; [apply ensures_below_half|intros [] _]
  | eapply ensures_bind; [by apply ensures_choice|intros ? ?]
  | eapply ensures_bind; [apply ensures_randint; lia|intros ? ?]
  | apply ensures_ret ].
Ltac draws := repeat draw; cbn [good_item].

Context (xl : Z) (Hxl : xl = 32 \/ xl = 64).

Lemma gen_rrr_good pool : pool <> [] -> forallb check_R pool = true \/ forallb check_RW pool = true ->
  ensures (gen_rrr pool) (good_item xl).
Proof.
  intros Hp Hc. unfold gen_rrr. eapply ensures_bind; [by apply ensures_choice|]. intros mn Hmn. draws.
  destruct Hc as [Hc|Hc]; rewrite forallb_forall in Hc; apply list_elem_of_In in Hmn as Hin;
    [by apply good_rrr; auto|by apply good_rrr_w; auto].
Qed.

Lemma gen_i_good : ensures gen_i (good_item xl).
Proof. unfold gen_i. draws. by apply good_imm. Qed.

Lemma gen_iw_good : ensures gen_iw (good_item xl).
Proof.
  unfold gen_iw. do 3 draw. destruct (String.eqb a "addiw") eqn:E; draws; apply good_iw; try done; by rewrite E.
Qed.

Lemma shamt_good : ensures (shamt_of xl) (fun s => 0 <= s < xl).
Proof.
  unfold shamt_of. destruct Hxl as [Hx|Hx]; rewrite Hx; cbn;
    (eapply ensures_mono; [by apply ensures_randint|cbn; lia]).
Qed.

Lemma gen_shift_good : ensures (gen_shift xl) (good_item xl).
Proof.
  unfold gen_shift. do 3 draw. eapply ensures_bind; [exact shamt_good|intros ? ?]. draws. by apply good_shift.
Qed.

(** Choose an arm of a drawn case. *)
Ltac arm_of H := apply list_elem_of_In in H; cbn [In] in H; repeat destruct H as [<-|H]; try done;
  cbn [String.eqb Ascii.eqb Bool.eqb].

Lemma gen_b_ext_good : ensures (gen_b_ext xl) (good_item xl).
Proof.
  unfold gen_b_ext. eapply ensures_bind; [by apply ensures_choice|]. intros sub Hsub. do 2 draw. arm_of Hsub.
  - draws. apply good_rrr; try done. by eapply (proj1 (forallb_forall check_R B_R_TYPE)); [|apply list_elem_of_In].
  - draw. eapply ensures_bind; [exact shamt_good|intros ? ?]. draws. by apply good_shamt.
  - draws. apply good_unary; try done. apply elem_of_app. by left.
Qed.

Lemma gen_b_ext_w_good : ensures gen_b_ext_w (good_item xl).
Proof.
  unfold gen_b_ext_w. eapply ensures_bind; [by apply ensures_choice|]. intros sub Hsub. do 2 draw. arm_of Hsub.
  - draws. apply good_rrr_w; try done. by eapply (proj1 (forallb_forall check_RW B_R_TYPE_W)); [|apply list_elem_of_In].
  - eapply ensures_bind; [by apply ensures_choice|]. intros mn Hmn. destruct (String.eqb mn "roriw") eqn:E;
      draws; apply good_shamt_w; try done; rewrite E; done.
  - draws. by apply good_fixed_w.
Qed.

Lemma gen_k_ext_good : ensures gen_k_ext (good_item xl).
Proof.
  unfold gen_k_ext. eapply ensures_bind; [by apply ensures_choice|]. intros sub Hsub. do 2 draw. arm_of Hsub.
  - draws. apply good_rrr; try done. by eapply (proj1 (forallb_forall check_R K_R_TYPE)); [|apply list_elem_of_In].
  - draws. apply good_unary; try done. apply elem_of_app. by right.
  - draws. by apply good_aes64ks1i.
Qed.

(** ** Memory accesses *)

(** A memory line on the base register whose bytes lie inside the address
    space, aligned to the width. *)
Definition access_in (space base : Z) (widths : list (string * Z)) (file : Z -> string)
    (ok : Z -> Prop) (i : item) : Prop :=
  exists mn r off width, i = Line (ins mn [file r; mem_operand off BASE_REG]) /\ ok r /\
    dict_get widths mn = Ok width /\ 0 <= off <= 2047 /\ (width | off) /\
    (base + width <= space -> base + off + width <= space).

Lemma gen_load_access space base : ensures (gen_load xl space base) (access_in space base load_widths xr dest).
Proof.
  unfold gen_load. eapply ensures_bind; [apply ensures_choice; by destruct (xl >=? 64)|]. intros mn Hmn. draw.
  assert (Hw : exists w, dict_get load_widths mn = Ok w /\ 0 < w).
  { unfold load_mnemonics in Hmn. destruct (xl >=? 64); arm_of Hmn; (eexists; split; [reflexivity|done]). }
  destruct Hw as (w & Hw & Hpos). eapply ensures_bind; [by eapply (ensures_lift _ w (fun v => v = w))|].
  intros ? ->. eapply ensures_bind; [by apply ensures_offset|]. intros off (Ho & Hs & Hd).
  apply ensures_ret. by exists mn, a, off, w.
Qed.

Lemma gen_store_access space base : ensures (gen_store xl space base) (access_in space base store_widths xr reg5).
Proof.
  unfold gen_store. eapply ensures_bind; [apply ensures_choice; by destruct (xl >=? 64)|]. intros mn Hmn. draw.
  assert (Hw : exists w, dict_get store_widths mn = Ok w /\ 0 < w).
  { unfold store_mnemonics in Hmn. destruct (xl >=? 64); arm_of Hmn; (eexists; split; [reflexivity|done]). }
  destruct Hw as (w & Hw & Hpos). eapply ensures_bind; [by eapply (ensures_lift _ w (fun v => v = w))|].
  intros ? ->. eapply ensures_bind; [by apply ensures_offset|]. intros off (Ho & Hs & Hd).
  apply ensures_ret. by exists mn, a, off, w.
Qed.

Lemma gen_fload_access space base :
  ensures (gen_fload space base) (access_in space base [("flw", 4)] fr reg5).
Proof.
  unfold gen_fload. draw. eapply ensures_bind; [by apply ensures_offset|]. intros off (Ho & Hs & Hd).
  apply ensures_ret. by exists "flw", a, off, 4.
Qed.

Lemma gen_fstore_access space base :
  ensures (gen_fstore space base) (access_in space base [("fsw", 4)] fr reg5).
Proof.
  unfold gen_fstore. draw. eapply ensures_bind; [by apply ensures_offset|]. intros off (Ho & Hs & Hd).
  apply ensures_ret. by exists "fsw", a, off, 4.
Qed.

Lemma widths_known (d : list (string * Z)) (table : list (string * Z)) mn w :
  forallb (fun kv => dict_has table (fst kv)) d = true -> dict_get d mn = Ok w -> dict_has table mn = true.
Proof. apply table_keys. Qed.

Lemma access_good space base widths file ok i :
  (widths = load_widths /\ file = xr /\ ok = dest \/ widths = store_widths /\ file = xr /\ ok = reg5 \/
   widths = [("flw", 4)] /\ file = fr /\ ok = reg5 \/ widths = [("fsw", 4)] /\ file = fr /\ ok = reg5) ->
  access_in space base widths file ok i -> good_item xl i.
Proof.
  intros Hc (mn & r & off & w & -> & Hr & Hw & Ho & _). unfold good_item.
  destruct Hc as [(-> & -> & ->)|[(-> & -> & ->)|[(-> & -> & ->)|(-> & -> & ->)]]].
  - apply good_load; try done. by apply (widths_known load_widths LOAD mn w eq_refl).
  - apply good_store; try done. by apply (widths_known store_widths STORE mn w eq_refl).
  - unfold dict_get in Hw. cbn [dict_find] in Hw. destruct (String.eqb_spec mn "flw") as [->|]; [by apply good_flw|done].
  - unfold dict_get in Hw. cbn [dict_find] in Hw. destruct (String.eqb_spec mn "fsw") as [->|]; [by apply good_fsw|done].
Qed.

(** ** The other kinds *)

Lemma gen_branch_good : ensures gen_branch (good_item xl).
Proof. unfold gen_branch. by draws. Qed.

Lemma gen_jal_good : ensures gen_jal (good_item xl).
Proof. unfold gen_jal. by draws. Qed.

Lemma gen_csr_op_good c : csr_token c = true -> ensures (gen_csr_op c) (good_item xl).
Proof. intros Hc. unfold gen_csr_op. draw. draw; draws; [by apply good_csr_reg|by apply good_csr_imm]. Qed.

Lemma gen_csr_good csrs : csrs <> [] -> forallb csr_token csrs = true -> ensures (gen_csr csrs) (good_item xl).
Proof.
  intros Hn Hc. unfold gen_csr. draw. apply gen_csr_op_good. rewrite forallb_forall in Hc.
  apply Hc. by apply list_elem_of_In.
Qed.

Lemma gen_fcsr_good : ensures gen_fcsr (good_item xl).
Proof.
  unfold gen_fcsr. eapply ensures_bind; [by apply ensures_choice|]. intros nm Hnm.
  assert (Hc : exists c, dict_get FCSR_ADDR nm = Ok c /\ csr_token c = true)
    by (arm_of Hnm; (eexists; split; [reflexivity|unfold csr_token, csr_limit; by destruct um])).
  destruct Hc as (c & Hc & Ht). eapply ensures_bind; [by eapply (ensures_lift _ c (fun v => v = c))|].
  intros ? ->. by apply gen_csr_op_good.
Qed.

Lemma gen_fp_arith_good : ensures gen_fp_arith (good_item xl).
Proof. unfold gen_fp_arith. draws. by apply good_fp_arith. Qed.
Lemma gen_fp_sqrt_good : ensures gen_fp_sqrt (good_item xl).
Proof. unfold gen_fp_sqrt. draws. by apply good_fp_sqrt. Qed.
Lemma gen_fp_sgnj_good : ensures (gen_fff RandomGen.FP_SGNJ) (good_item xl).
Proof. unfold gen_fff. draws. by apply good_fp_sgnj. Qed.
Lemma gen_fp_minmax_good : ensures (gen_fff RandomGen.FP_MINMAX) (good_item xl).
Proof. unfold gen_fff. draws. by apply good_fp_minmax. Qed.
Lemma gen_fp_cmp_good : ensures gen_fp_cmp (good_item xl).
Proof. unfold gen_fp_cmp. draws. by apply good_fp_cmp. Qed.
Lemma gen_fp_cvt_to_int_good : ensures gen_fp_cvt_to_int (good_item xl).
Proof. unfold gen_fp_cvt_to_int. draws. by apply good_fp_cvt_to_int. Qed.
Lemma gen_fp_cvt_from_int_good : ensures gen_fp_cvt_from_int (good_item xl).
Proof. unfold gen_fp_cvt_from_int. draws. by apply good_fp_cvt_from_int. Qed.
Lemma gen_fp_madd_good : ensures gen_fp_madd (good_item xl).
Proof. unfold gen_fp_madd. draws. by apply good_fp_madd. Qed.

(** ** The instruction loop *)

Definition all_kinds : list string := kind_names 64 true ++ kind_names 64 false.

(** The kinds of a mode: user mode has no CSR instruction on the pool. *)
Definition csrs_ok (csrs : list string) : Prop := um = false -> forallb csr_token csrs = true.
Definition kind_ok (k : string) : Prop := k ∈ all_kinds /\ (um = true -> k <> "csr").

Lemma gen_kind_good space base csrs k : csrs <> [] -> csrs_ok csrs -> kind_ok k ->
  ensures (gen_kind xl space base csrs k) (fun l => exists i, l = [i] /\ good_item xl i).
Proof.
  intros Hn Hc [Hk Hnc].
  assert (Hone : forall m : gen G item, ensures m (good_item xl) ->
    ensures (i ← m; base.mret [i]) (fun l => exists i, l = [i] /\ good_item xl i)).
  { intros m Hm. eapply ensures_bind; [exact Hm|]. intros i Hi. apply ensures_ret. eauto. }
  assert (Hacc : forall m widths file ok, (widths = load_widths /\ file = xr /\ ok = dest \/
      widths = store_widths /\ file = xr /\ ok = reg5 \/ widths = [("flw", 4)] /\ file = fr /\ ok = reg5 \/
      widths = [("fsw", 4)] /\ file = fr /\ ok = reg5) ->
    ensures m (access_in space base widths file ok) -> ensures m (good_item xl)).
  { intros m widths file ok Hf Hm. eapply ensures_mono; [exact Hm|]. intros i. by apply access_good. }
  apply list_elem_of_In in Hk. cbv [all_kinds kind_names Z.geb Z.compare Pos.compare Pos.compare_cont app In] in Hk.
  unfold gen_kind. cbv zeta.
  repeat destruct Hk as [<-|Hk]; try done; cbn [String.eqb Ascii.eqb Bool.eqb]; apply Hone;
    auto using gen_i_good, gen_iw_good, gen_shift_good, gen_b_ext_good, gen_b_ext_w_good, gen_k_ext_good,
      gen_branch_good, gen_jal_good, gen_fcsr_good, gen_fp_arith_good, gen_fp_sqrt_good,
      gen_fp_sgnj_good, gen_fp_minmax_good, gen_fp_cmp_good, gen_fp_cvt_to_int_good,
      gen_fp_cvt_from_int_good, gen_fp_madd_good;
    first
    [ apply gen_csr_good; [done|]; apply Hc; by destruct um; [exfalso; apply Hnc|]
    | apply gen_rrr_good; [done|by left]
    | apply gen_rrr_good; [done|by right]
    | apply (Hacc _ load_widths xr dest); [tauto|apply gen_load_access]
    | apply (Hacc _ store_widths xr reg5); [tauto|apply gen_store_access]
    | apply (Hacc _ [("flw", 4)] fr reg5); [tauto|apply gen_fload_access]
    | apply (Hacc _ [("fsw", 4)] fr reg5); [tauto|apply gen_fstore_access] ].
Qed.

Lemma choices_elem {A} (d : A) population ws : List.length population = List.length ws ->
  (exists w, w ∈ ws /\ 0 < w) ->
  ensures (choices d population ws) (fun a => exists i w, population !! i = Some a /\ ws !! i = Some w /\ 0 < w).
Proof.
  intros Hl Hw g. unfold choices. destruct (choose_range ws g Hw) as (w & Hi & Hpos).
  destruct (choose ws g) as [i g']. cbn [fst] in Hi. pose proof (lookup_lt_Some _ _ _ Hi) as Hlt.
  exists (nth i population d), g'. split; [done|]. exists i, w. split_and!; [|done|done].
  destruct (lookup_lt_is_Some_2 population i) as [a Ha]; [lia|]. by rewrite (nth_lookup population), Ha.
Qed.

(** Pools and weights: one weight per kind, and the kinds that can be drawn
    are known. *)
Definition kinds_ok (ks : list string) (ws : list Z) : Prop :=
  List.length ks = List.length ws /\ (exists w, w ∈ ws /\ 0 < w) /\
  (forall i k w, ks !! i = Some k -> ws !! i = Some w -> 0 < w -> kind_ok k).

Lemma gen_items_good ks ws space base csrs n : kinds_ok ks ws -> csrs <> [] -> csrs_ok csrs ->
  ensures (gen_items ks ws xl space base csrs n) (fun l => List.length l = n /\ Forall (good_item xl) l).
Proof.
  intros (Hl & Hw & Hk) Hn Hc. induction n as [|n IH]; [by apply ensures_ret|]. cbn [gen_items].
  eapply ensures_bind; [by apply choices_elem|]. intros k (j & w & Hj & Hjw & Hpos).
  eapply ensures_bind; [apply gen_kind_good; [done|done|by eapply Hk]|]. intros l (i & -> & Hi).
  eapply ensures_bind; [exact IH|]. intros rest [Hlen Hr]. apply ensures_ret. cbn. split; [lia|by constructor].
Qed.

(** The pools and weights of the two modes. *)
Lemma kinds_known cw (ooo : bool) : (um = true -> cw <= 0) ->
  kinds_ok (kind_names xl ooo) (kind_weights cw xl ooo).
Proof.
  intros Hcw. assert (Hsub : forall k l, forallb (fun k => in_names k all_kinds) l = true -> k ∈ l -> k ∈ all_kinds).
  { intros k l Hf Hk. rewrite forallb_forall in Hf. apply list_elem_of_In in Hk. specialize (Hf k Hk).
    unfold in_names in Hf. apply existsb_exists in Hf as (k' & Hk' & <-%String.eqb_eq). by apply list_elem_of_In. }
  assert (Hcsr : forall i w, kind_names xl ooo !! i = Some "csr" -> kind_weights cw xl ooo !! i = Some w -> w = cw).
  { intros i w. destruct Hxl as [Hx|Hx]; rewrite Hx; destruct ooo; cbn;
      do 26 (destruct i as [|i]; [cbn; intros; by simplify_eq|]); by intros. }
  split_and!.
  - by destruct Hxl as [Hx|Hx]; rewrite Hx; destruct ooo.
  - exists 24. split; [|done]. destruct ooo; apply list_elem_of_In; by left.
  - intros i k w Hi Hw Hpos. split.
    + apply (Hsub _ (kind_names xl ooo)); [|by eapply list_elem_of_lookup_2].
      by destruct Hxl as [Hx|Hx]; rewrite Hx; destruct ooo.
    + intros Hu ->. specialize (Hcsr i w Hi Hw). specialize (Hcw Hu). lia.
Qed.

(** ** The label pass *)

Lemma kind_label nm : token nm = true -> kind (nm +:+ ":") = Label nm.
Proof.
  intros Hm. pose proof (token_no_comment nm Hm) as Hc. destruct (bare_line nm Hm) as (Hs & _).
  apply token_spec in Hm as [Hnil Hp].
  assert (Hsp : strip (nm +:+ ":") = nm +:+ ":").
  { unfold strip. replace (lstrip (nm +:+ ":")) with (nm +:+ ":").
    - by apply rstrip_app.
    - destruct nm as [|c nm]; [done|]. rewrite str_all_cons in Hp. apply andb_true_iff in Hp as [Hc' _].
      rewrite app_cons. symmetry. apply lstrip_first. by apply plain_not_space. }
  unfold kind, clean_line. rewrite before_none by (rewrite str_all_app, Hc; done). rewrite Hsp.
  assert (Hne : String.eqb (nm +:+ ":") "" = false) by (by destruct nm).
  rewrite Hne. unfold ends_with_colon. rewrite last_char_app by done. cbn [last_char Ascii.eqb Bool.eqb].
  f_equal. assert (Hb : but_last (nm +:+ ":") = nm).
  { clear. induction nm as [|c nm IH]; [done|]. rewrite app_cons. cbn [but_last].
    destruct (nm +:+ ":") eqn:E; [by destruct nm|]. by rewrite IH. }
  by rewrite Hb.
Qed.

Lemma token_label t : token (label_name t) = true.
Proof. unfold label_name. change ("__L" +:+ fmt_d t) with (String "_" (String "_" (String "L" (fmt_d t)))).
  apply token_num; [done|]. rewrite !str_all_cons, fmt_d_num. done. Qed.

(** The label operand resolves to the distance. *)
Lemma resolve_label lbls nm cur a : token nm = true -> dict_find lbls nm = Some a ->
  resolve lbls nm cur = Ok (OInt (a - cur)).
Proof. intros Ht Ha. unfold resolve. by rewrite (proj1 (bare_line nm Ht)), Ha. Qed.

Lemma branch_line mn rs1 rs2 nm : mn ∈ RandomGen.BRANCH -> reg5 rs1 -> reg5 rs2 -> token nm = true ->
  kind (ins mn [xr rs1; xr rs2; nm]) = Statement (ins mn [xr rs1; xr rs2; nm]) /\
  jump_stmt xl (ins mn [xr rs1; xr rs2; nm]) nm.
Proof.
  intros Hmn H1 H2 Ht. apply list_elem_of_In in Hmn. cbv [In RandomGen.BRANCH] in Hmn.
  assert (Hm : mnemonic mn = true) by (by repeat destruct Hmn as [<-|Hmn]).
  assert (Ha : forallb token [xr rs1; xr rs2; nm] = true) by (cbn [forallb]; by rewrite !token_x, Ht).
  split; [by apply kind_ins|]. left.
  assert (Hf : exists f3, dict_get Asm.BRANCH mn = Ok f3) by (repeat destruct Hmn as [<-|Hmn]; try done; eexists; reflexivity).
  destruct Hf as [f3 Hf]. exists mn, rs1, rs2, f3. split_and!; [apply H1|apply H1|apply H2|apply H2|done|].
  intros lbls cur a Hl. rewrite asm_stmt_ins by done.
  repeat destruct Hmn as [<-|Hmn]; try done;
    arm ltac:(fun m a => constr:(rs1 ← arg_reg a 0; rs2 ← arg_reg a 1; t ← list_get a 2;
      off ← resolve lbls t cur; branch m rs1 rs2 off));
    by rewrite (resolve_label lbls nm cur a).
Qed.

Lemma jal_line rd nm : reg5 rd -> token nm = true ->
  kind (ins "jal" [xr rd; nm]) = Statement (ins "jal" [xr rd; nm]) /\
  forall lbls cur a, dict_find lbls nm = Some a -> asm_stmt lbls xl cur (ins "jal" [xr rd; nm]) = jal rd (OInt (a - cur)).
Proof.
  intros Hd Ht. assert (Ha : forallb token [xr rd; nm] = true) by (cbn [forallb]; by rewrite !token_x, Ht).
  split; [by apply kind_ins|]. intros lbls cur a Hl. rewrite asm_stmt_ins by done.
  arm ltac:(fun m a => constr:(rd ← arg_reg a 0; t ← list_get a 1; off ← resolve lbls t cur; jal rd off)).
  by rewrite (resolve_label lbls nm cur a).
Qed.

(** The labels hold their own names. *)
Definition named (labs : gmap Z string) : Prop := forall t l, labs !! t = Some l -> l = label_name t.

Lemma setdefault_named labs t : named labs -> named (setdefault labs t (label_name t)).
Proof.
  intros Hl t' l. unfold setdefault. destruct (labs !! t) eqn:E; [apply Hl|].
  rewrite lookup_insert. case_decide; [intros [= <-]; congruence|apply Hl].
Qed.

Lemma setdefault_keeps labs t v t' : is_Some (labs !! t') \/ t' = t -> is_Some (setdefault labs t v !! t').
Proof.
  unfold setdefault. destruct (labs !! t) eqn:E.
  - intros [Hs| ->]; [done|by rewrite E].
  - rewrite lookup_insert. case_decide; [by eexists|]. by intros [Hs| ->].
Qed.

(** The lines after an instruction: its label, if it has one. *)
Definition label_line (labs : gmap Z string) (t : Z) : list string :=
  match labs !! t with Some l => [l +:+ ":"] | None => [] end.

Lemma label_line_kind labs t : named labs ->
  map kind (label_line labs t) = match labs !! t with Some _ => [Label (label_name t)] | None => [] end.
Proof.
  intros Hn. unfold label_line. destruct (labs !! t) as [l|] eqn:E; [|done].
  rewrite (Hn t l E). cbn [map]. by rewrite kind_label by apply token_label.
Qed.

(** A line the assembler takes as it is: a statement, or a label. *)
Definition tidy (l : string) : Prop :=
  kind l = Statement l \/ exists nm, token nm = true /\ l = nm +:+ ":".

Lemma label_line_tidy labs t : named labs -> Forall tidy (label_line labs t).
Proof.
  intros Hn. unfold label_line. destruct (labs !! t) as [l|] eqn:E; [|apply Forall_nil_2].
  rewrite (Hn t l E). apply Forall_cons_2; [|apply Forall_nil_2]. right. exists (label_name t). split; [apply token_label|done].
Qed.

Lemma good_lines_tidy lines : Forall (good_line xl) lines -> Forall tidy lines.
Proof. intros Hg. eapply List.Forall_impl; [|exact Hg]. intros t [Hk _]. by left. Qed.

(** One instruction placed: its line, what it jumps to, the labels. *)
Lemma place_item_spec n cur labs i : good_item xl i -> named labs -> cur <= n ->
  ensures (place_item n cur labs i) (fun '(out, labs') =>
    named labs' /\ (forall t, is_Some (labs !! t) -> is_Some (labs' !! t)) /\
    exists line, out = line :: label_line labs' (cur + 1) /\ kind line = Statement line /\
      (plain_stmt um xl line \/
       exists t, jump_stmt xl line (label_name t) /\ is_Some (labs' !! t) /\ (cur < t <= n \/ t = n))).
Proof.
  intros Hi Hn Hc. unfold place_item. destruct i as [text|mn rs1 rs2|rd]; cbn [good_item] in Hi.
  - eapply ensures_bind; [apply (ensures_ret _ (fun p => p = (text, labs))); done|]. intros [l lb] [= -> ->].
    apply ensures_ret. split; [done|]. split; [done|]. exists text. split; [done|].
    split; [apply Hi|]. left. apply Hi.
  - destruct Hi as (Hmn & H1 & H2).
    eapply (ensures_bind _ _ (fun p => exists t, p = (ins mn [xr rs1; xr rs2; label_name t],
      setdefault labs t (label_name t)) /\ (cur < t <= n \/ t = n))).
    + eapply ensures_bind; [apply ensures_randint; lia|]. intros t Ht. cbv beta in Ht. apply ensures_ret. exists t. split; [done|lia].
    + intros [l lb] (t & [= -> ->] & Ht). apply ensures_ret. split; [by apply setdefault_named|].
      split; [intros t' Hs; apply setdefault_keeps; by left|].
      destruct (branch_line mn rs1 rs2 (label_name t) Hmn H1 H2 (token_label t)) as [Hk Hj].
      eexists. split; [reflexivity|]. split; [exact Hk|]. right. exists t. split; [exact Hj|].
      split; [apply setdefault_keeps; by right|done].
  - eapply (ensures_bind _ _ (fun p => exists t, p = (ins "jal" [xr rd; label_name t],
      setdefault labs t (label_name t)) /\ (cur < t <= n \/ t = n))).
    + eapply ensures_bind; [apply ensures_randint; lia|]. intros t Ht. cbv beta in Ht. apply ensures_ret. exists t. split; [done|lia].
    + intros [l lb] (t & [= -> ->] & Ht). apply ensures_ret. split; [by apply setdefault_named|].
      split; [intros t' Hs; apply setdefault_keeps; by left|].
      destruct (jal_line rd (label_name t) ltac:(unfold reg5; lia) (token_label t)) as [Hk Hj].
      eexists. split; [reflexivity|]. split; [exact Hk|]. right. exists t.
      split; [right; exists rd; split; [apply Hi|exact Hj]|]. split; [apply setdefault_keeps; by right|done].
Qed.

(** The instructions placed: every label pending at the start or used inside
    is defined inside, the end label excepted, and with that label after
    them the lines are forward-only. *)
Lemma place_forward n items : Forall (good_item xl) items -> forall cur labs, named labs ->
  cur + Z.of_nat (List.length items) = n + 1 ->
  ensures (place n cur labs items) (fun '(out, labs') =>
    named labs' /\ (forall t, is_Some (labs !! t) -> is_Some (labs' !! t)) /\ Forall tidy out /\
    count (map kind out) = Z.of_nat (List.length items) /\
    (forall t, cur < t <= n -> is_Some (labs !! t) -> Label (label_name t) ∈ map kind out) /\
    (forall post, (is_Some (labs' !! n) -> Label (label_name n) ∈ post) ->
       forward_lines um xl post -> forward_lines um xl (map kind out ++ post))).
Proof.
  induction 1 as [|i items Hi _ IH]; intros cur labs Hn Hlen; cbn [place List.length] in *.
  { apply ensures_ret. split_and!; [done|done|apply Forall_nil_2|done|lia|done]. }
  eapply ensures_bind; [apply place_item_spec; [done|done|lia]|]. intros [out1 labs1].
  intros (Hn1 & Hk1 & line & -> & Hkl & Hj).
  eapply ensures_bind; [apply (IH (cur + 1) labs1 Hn1); lia|]. intros [rest labs2] (Hn2 & Hk2 & Ht2 & Hc & Hdef & Hf).
  apply ensures_ret. split; [done|]. split; [eauto|].
  split; [cbn [app]; apply Forall_cons_2; [by left|by apply Forall_app_2; [apply label_line_tidy|] ]|].
  assert (Hmap : map kind ((line :: label_line labs1 (cur + 1)) ++ rest) =
    Statement line :: match labs1 !! (cur + 1) with Some _ => [Label (label_name (cur + 1))] | None => [] end
      ++ map kind rest).
  { rewrite map_app. cbn [map app]. by rewrite Hkl, label_line_kind. }
  rewrite Hmap. cbn [count]. rewrite count_app.
  assert (Hin : forall t, cur < t <= n -> is_Some (labs1 !! t) -> Label (label_name t) ∈
    match labs1 !! (cur + 1) with Some _ => [Label (label_name (cur + 1))] | None => [] end ++ map kind rest).
  { intros t Ht Hs. apply elem_of_app. destruct (Z.eq_dec t (cur + 1)) as [->|].
    - left. destruct Hs as [l ->]. by apply list_elem_of_In; left.
    - right. apply Hdef; [lia|done]. }
  split_and!.
  - destruct (labs1 !! (cur + 1)); cbn [count]; lia.
  - intros t Ht Hs. apply list_elem_of_further. auto.
  - intros post Hpost Hfp. cbn [app]. rewrite <- app_assoc.
    assert (Hrest : forward_lines um xl (match labs1 !! (cur + 1) with
      Some _ => [Label (label_name (cur + 1))] | None => [] end ++ map kind rest ++ post)).
    { apply forward_lines_app; [destruct (labs1 !! (cur + 1)); repeat constructor|by apply Hf]. }
    destruct Hj as [Hp|(t & Hj & Hs & Ht)]; [by apply fl_plain|].
    apply (fl_jump _ _ _ (label_name t)); [done| |done]. rewrite app_assoc. apply elem_of_app.
    destruct (decide (cur < t <= n)) as [Hr|Hr]; [left; by apply Hin|]. right.
    assert (t = n) as -> by lia. auto.
Qed.

Lemma gen_body_forward items : Forall (good_item xl) items ->
  ensures (gen_body items) (fun out =>
    Forall tidy out /\ forward_lines um xl (map kind out) /\
    count (map kind out) = Z.of_nat (List.length items)).
Proof.
  intros Hg. unfold gen_body. eapply ensures_bind; [apply (place_forward _ items Hg 1 ∅); [done|lia]|].
  intros [out labs] (Hn & _ & Ht & Hc & _ & Hf). apply ensures_ret.
  change (match labs !! Z.of_nat (List.length items) with Some l => [l +:+ ":"] | None => [] end)
    with (label_line labs (Z.of_nat (List.length items))).
  rewrite map_app, label_line_kind, count_app by done. split_and!.
  - apply Forall_app_2; [exact Ht|by apply label_line_tidy].
  - apply Hf.
    + intros [l ->]. by apply list_elem_of_In; left.
    + destruct (labs !! _); repeat constructor.
  - destruct (labs !! _); cbn [count]; lia.
Qed.
End Ensures.

(** ** Constants *)

Lemma good_addi xl rd rs1 i : dest rd -> reg5 rs1 -> -2048 <= i <= 2047 ->
  good_line xl (ins "addi" [xr rd; xr rs1; fmt_d i]).
Proof. intros. apply good_imm; try done. by apply list_elem_of_In; left. Qed.

Lemma good_slli xl rd rs1 i : xl = 32 \/ xl = 64 -> dest rd -> reg5 rs1 -> 0 <= i < xl ->
  good_line xl (ins "slli" [xr rd; xr rs1; fmt_d i]).
Proof. intros. apply good_shift; try done. by apply list_elem_of_In; left. Qed.

Lemma const_to_reg_good xl rd bits no_lui : xl = 32 \/ xl = 64 -> dest rd ->
  Forall (good_line xl) (const_to_reg_instrs rd bits no_lui).
Proof.
  intros Hx Hd. pose proof (proj1 Hd : reg5 rd) as Hd5. unfold const_to_reg_instrs. destruct no_lui.
  - assert (Hc : forall v, -2048 <= v .& ((1 << chunk_bits) - 1) <= 2047).
    { intros v. change ((1 << chunk_bits) - 1) with (Z.ones 11). rewrite land_mask by done.
      pose proof (Z.mod_pos_bound v (2 ^ 11) ltac:(done)) as Hm. change (2 ^ 11) with 2048 in *. lia. }
    assert (Hs : good_line xl (ins "slli" [xr rd; xr rd; fmt_d chunk_bits]))
      by (apply good_slli; try done; by destruct Hx; subst xl).
    cbv zeta. change (range 3) with [0; 1; 2]. cbn [map nthZ nth Z.to_nat drop flat_map].
    change "x0" with (xr 0).
    repeat first
      [ apply Forall_nil_2 | apply Forall_app_2 | apply Forall_cons_2
      | match goal with |- Forall _ (if ?b then _ else _) => destruct b end
      | match goal with
        | |- good_line _ (ins "slli" _) => exact Hs
        | |- good_line _ (ins "addi" _) => apply good_addi; [done|done|apply Hc]
        end ].
  - cbv zeta. set (lo := bits .& 0xFFF).
    assert (Hlo : 0 <= lo < 4096) by (unfold lo; change 0xFFF with (Z.ones 12); rewrite land_mask by done;
      apply Z.mod_pos_bound; done).
    assert (H20 : forall v, 0 <= v .& 0xFFFFF < 2 ^ 20).
    { intros v. change 0xFFFFF with (Z.ones 20). rewrite land_mask by done. by apply Z.mod_pos_bound. }
    apply Forall_cons_2; [apply (good_lui xl rd _ Hd); destruct (truthy (lo .& 0x800)); apply H20|].
    destruct (negb (lo =? 0)); [|constructor]. apply Forall_cons_2; [|constructor].
    apply good_addi; [done..|]. change 0x800 with (1 << 11). rewrite truthy_bit by done.
    rewrite (testbit_top 12 lo : _ -> _ -> Z.testbit lo 11 = (2048 <=? lo)) by (done || lia). destruct (Z.leb_spec 2048 lo); lia.
Qed.

Lemma const64_to_reg_good rd rs bits no_lui : dest rd -> dest rs ->
  Forall (good_line 64) (const64_to_reg_instrs rd rs bits no_lui).
Proof.
  intros Hd Hs. pose proof (proj1 Hd : reg5 rd) as Hd5. pose proof (proj1 Hs : reg5 rs) as Hs5.
  unfold const64_to_reg_instrs. change "32" with (fmt_d 32).
  repeat first
    [ apply Forall_nil_2 | apply Forall_app_2 | apply Forall_cons_2
    | apply const_to_reg_good; [by right|done]
    | match goal with
      | |- good_line _ (ins "slli" _) => apply good_slli; [by right|done..]
      | |- good_line _ (ins "srli" _) => apply good_shift; [by right|done|done|apply list_elem_of_In; cbn; tauto|done]
      | |- good_line _ (ins "or" _) => apply good_rrr; [by right|done..]
      end ].
Qed.

Lemma seed_lines_good xl ooo : xl = 32 \/ xl = 64 -> Forall (good_line xl) (seed_lines xl ooo).
Proof.
  intros Hx. unfold seed_lines. apply Forall_app_2.
  - unfold float_seeds. change (zip _ _) with (zip (range 6) FLOAT_SEED_BITS). change (range 6) with [0; 1; 2; 3; 4; 5].
    cbn [zip zip_with flat_map FLOAT_SEED_BITS].
    repeat first
      [ apply Forall_nil_2 | apply Forall_app_2 | apply Forall_cons_2
      | apply const_to_reg_good; [done|done]
      | match goal with |- good_line _ (ins "fmv.w.x" [fr ?n; "x30"]) => apply (good_fmv_w_x xl n 30); done end ].
  - destruct Hx as [-> | ->]; [apply Forall_nil_2|by apply const64_to_reg_good].
Qed.

(** Good lines are forward-only statements. *)
Lemma good_lines_forward xl lines : Forall (good_line xl) lines ->
  forward_lines um xl (map kind lines) /\ count (map kind lines) = Z.of_nat (List.length lines).
Proof.
  induction 1 as [|t lines [Hk Hp] _ [IH1 IH2]]; [by split; constructor|]. cbn [map]. rewrite Hk.
  split; [by apply fl_plain|]. cbn [count List.length]. lia.
Qed.

Lemma seed_lines_length xl ooo : xl = 32 \/ xl = 64 ->
  Z.of_nat (List.length (seed_lines xl ooo)) = if xl =? 32 then (if ooo then 24 else 12) else (if ooo then 38 else 20).
Proof. intros [-> | ->]; destruct ooo; vm_compute; reflexivity. Qed.

End Lines.

(** ** Whole programs *)

Section Programs.
Context {G : Type} `{RandomLaws G}.

(** The halt loop and its label. *)
Lemma trailer_spec xl (ooo : bool) : exists pre halt t,
  map kind (trailer ooo) = map kind pre ++ [Label halt; Statement t] /\ Forall (good_line false xl) pre /\
  Z.of_nat (List.length pre) = (if ooo then 0 else 1) /\
  (exists rd, 0 <= rd < 32 /\
     forall lbls cur a, dict_find lbls halt = Some a -> asm_stmt lbls xl cur t = jal rd (OInt (a - cur))).
Proof.
  assert (Hj : forall nm, token nm = true -> exists rd, 0 <= rd < 32 /\ forall lbls cur a,
    dict_find lbls nm = Some a -> asm_stmt lbls xl cur (ins "jal" [xr 0; nm]) = jal rd (OInt (a - cur))).
  { intros nm Hn. exists 0. split; [done|]. by apply jal_line. }
  destruct ooo.
  - exists [], "__ooo_halt", (ins "jal" [xr 0; "__ooo_halt"]). split_and!; [reflexivity|constructor|done|by apply Hj].
  - exists ["fence"], "__halt", (ins "jal" [xr 0; "__halt"]). split_and!; [reflexivity| |done|by apply Hj].
    apply Forall_cons_2; [apply good_fence|constructor].
Qed.

(** The number of instructions around the [n] random ones. *)
Definition overhead (xl : Z) (ooo : bool) : Z :=
  1 + (if xl =? 32 then (if ooo then 24 else 12) else (if ooo then 38 else 20)) + (if ooo then 1 else 2).

(** A plain program: what [gen_lines] returns when the budget allows it. *)
Lemma overhead_range xl ooo : xl = 32 \/ xl = 64 -> 15 <= overhead xl ooo <= 41.
Proof. intros [-> | ->]; unfold overhead; destruct ooo; cbn; lia. Qed.

(** The budget of the plain and the out-of-order mode is at most one short of
    the program's length. *)
Lemma budget_length n xl ooo : xl = 32 \/ xl = 64 -> n + overhead xl ooo - 1 <= budget n xl 0 false ooo.
Proof.
  unfold budget, overhead. change (Z.of_nat (List.length FLOAT_SEED_BITS)) with 6.
  intros [-> | ->]; destruct ooo; unfold OOO_TRAILER_NOP_COUNT; cbn [Z.geb Z.eqb Z.compare Pos.compare Pos.compare_cont Pos.eqb]; lia.
Qed.

Lemma gen_lines_reaches n base mem_size xl (ooo : bool) :
  xl = 32 \/ xl = 64 -> -2048 <= base <= 2047 -> 0 <= n -> mem_size < 2 ^ 32 ->
  budget n xl 0 false ooo <= mem_size `div` 4 ->
  ensures (gen_lines n base mem_size None false xl ooo) (fun '(lines, info) => info = None /\
    reaches (n + overhead xl ooo - 1) (assemble lines xl) (fun ws =>
      Z.of_nat (List.length ws) = n + overhead xl ooo /\ forward_program xl (n + overhead xl ooo - 1) ws)).
Proof.
  intros Hx Hb Hn Hm Hbud. unfold gen_lines. cbv zeta. cbn [andb orb negb].
  rewrite andb_false_r.
  eapply ensures_bind; [by eapply (ensures_lift _ 0 (fun v => v = 0))|]. intros ? ->.
  rewrite Z.gtb_ltb. destruct (Z.ltb_spec (mem_size `div` 4) (budget n xl 0 false ooo)); [lia|].
  eapply ensures_bind; [apply (ensures_ret 0 (fun _ => True)); done|]. intros ? _.
  pose proof (kinds_known false xl Hx 6 ooo ltac:(done)) as Hk.
  eapply ensures_bind; [apply (gen_items_good false); [done|exact Hk|by destruct ooo|intros _; by destruct ooo]|].
  intros items [Hlen Hg]. eapply ensures_bind; [by apply (gen_body_forward false)|]. intros body (_ & Hf & Hc).
  eapply (ensures_lift _ _); [reflexivity|]. split; [done|].
  destruct (trailer_spec xl ooo) as (pre & halt & t & Et & Hpre & Hplen & Hj).
  set (lines := ([ins "addi" [xr BASE_REG; "x0"; fmt_d base]] ++ seed_lines xl ooo ++ body ++ trailer ooo)%list).
  set (core := map kind ([ins "addi" [xr BASE_REG; "x0"; fmt_d base]] ++ seed_lines xl ooo)
                 ++ map kind body ++ map kind pre).
  assert (Ek : map kind lines = core ++ [Label halt; Statement t]).
  { unfold lines, core. rewrite !map_app, Et, <- !app_assoc. done. }
  assert (Hhead : Forall (good_line false xl) ([ins "addi" [xr BASE_REG; "x0"; fmt_d base]] ++ seed_lines xl ooo)).
  { apply Forall_app_2; [|by apply seed_lines_good]. apply Forall_cons_2; [|constructor].
    change "x0" with (xr 0). by apply good_addi. }
  destruct (good_lines_forward false xl _ Hhead) as [Hh1 Hh2]. destruct (good_lines_forward false xl _ Hpre) as [Hp1 Hp2].
  assert (Hcore : forward_lines false xl core).
  { unfold core. apply forward_lines_app; [done|]. by apply forward_lines_app. }
  assert (Hcount : count core = n + overhead xl ooo - 1).
  { unfold core. rewrite !count_app, Hh2, Hc, Hp2, Hlen, Hplen, length_app, Nat2Z.inj_add, seed_lines_length by done.
    unfold overhead. cbn [List.length]. destruct Hx as [-> | ->], ooo; cbn; lia. }
  pose proof (forward_source_assembles false xl lines core halt t Ek Hcore) as Hr. rewrite Hcount in Hr.
  eapply reaches_weaken; [apply Hr; [|exact Hj] |].
  - pose proof (budget_length n xl ooo Hx). pose proof (Z.mul_div_le mem_size 4 ltac:(done)).
    change (2 ^ 32) with 4294967296 in *. pose proof (Z.div_le_mono mem_size 4294967295 4 ltac:(done) ltac:(lia)) as Hd.
    change (4294967295 `div` 4) with 1073741823 in Hd. lia.
  - cbn beta. intros ws [Hl Hfw]. split; [lia|exact Hfw].
Qed.

(** Programs of at most 900 random instructions have no jump out of reach. *)
Lemma gen_lines_forward n base mem_size xl (ooo : bool) :
  xl = 32 \/ xl = 64 -> -2048 <= base <= 2047 -> 0 <= n <= 900 -> mem_size < 2 ^ 32 ->
  budget n xl 0 false ooo <= mem_size `div` 4 ->
  ensures (gen_lines n base mem_size None false xl ooo) (fun '(lines, info) => info = None /\
    exists ws, assemble lines xl = Ok ws /\ Z.of_nat (List.length ws) = n + overhead xl ooo /\
      forward_program xl (n + overhead xl ooo - 1) ws).
Proof.
  intros Hx Hb Hn Hm Hbud g. pose proof (overhead_range xl ooo Hx).
  destruct (gen_lines_reaches n base mem_size xl ooo Hx Hb ltac:(lia) Hm Hbud g) as ([lines info] & g' & E & Hi & Hr).
  exists (lines, info), g'. split; [exact E|]. split; [exact Hi|]. by apply (reaches_Ok _ _ _ Hr); lia.
Qed.

(** [C3] Every program of the plain and the out-of-order mode that the budget
    check lets through, for any number of random instructions and a data base
    in the twelve bits of the [addi] that loads it: whatever the random source
    draws, either the program assembles to one word per instruction and
    [ISS.run] reaches its halt loop having executed each instruction at most
    once, so that a step limit of the program's length is never exceeded; or
    it has more than 1024 instructions and the assembler raises the
    [ValueError] of a jump whose target is too far for its immediate. *)
Theorem generated_program_halts n base mem_size xl (ooo : bool) (g : G) :
  xl = 32 \/ xl = 64 -> -2048 <= base <= 2047 -> 0 <= n -> mem_size < 2 ^ 32 ->
  budget n xl 0 false ooo <= mem_size `div` 4 ->
  let len := n + overhead xl ooo in
  exists lines g', gen_lines n base mem_size None false xl ooo g = Ok ((lines, None), g') /\
    match assemble lines xl with
    | Ok ws => Z.of_nat (List.length ws) = len /\
        exists s k, run (List.length ws) ws len (init mem_size xl) = Returned s k /\
          pc s = 4 * (len - 1) /\ k < len /\ priv_mode s = PRIV_M
    | Raise e => 1024 < len /\ out_of_reach e
    end.
Proof.
  intros Hx Hb Hn Hm Hbud len. pose proof (overhead_range xl ooo Hx) as Ho.
  destruct (gen_lines_reaches n base mem_size xl ooo Hx Hb Hn Hm Hbud g) as ([lines info] & g' & E & -> & Hr).
  exists lines, g'. split; [exact E|]. destruct (assemble lines xl) as [ws|e]; destruct Hr as [Hl Hf];
    [|split; [unfold len; lia|exact Hf] ].
  split; [exact Hl|].
  assert (Hw : wf (init mem_size xl)).
  { apply wf_init; [done|]. assert (0 < budget n xl 0 false ooo).
    { unfold budget, OOO_TRAILER_NOP_COUNT. cbn. destruct ooo, (xl >=? 64); lia. }
    assert (2 ^ 32 <= 2 ^ xl) by (destruct Hx as [-> | ->]; done).
    pose proof (Z.mul_div_le mem_size 4 ltac:(done)). lia. }
  destruct (run_forward (List.length ws) xl _ ws Hf (init mem_size xl) 0 0 len Hw)
    as (s & k & Hrun & Hpc & Hk & _ & Hp); [done|done|done|done|lia|lia|unfold len; lia|].
  exists s, k. unfold len in *. split_and!; try done; lia.
Qed.
End Programs.

(** ** The concrete source *)

#[export] Instance lcg_laws : RandomLaws Z.
Proof.
  split.
  - intros n g Hn. cbn. by apply Z.mod_pos_bound.
  - intros ws g (w & Hw & Hp). cbn [choose lcg fst]. cbv zeta.
    set (pool := List.filter _ _). set (i := Z.to_nat _).
    assert (Hin : forall j, j ∈ pool <-> (j < List.length ws)%nat /\ 0 < nth j ws 0).
    { intros j. unfold pool. rewrite list_elem_of_In, filter_In, in_seq, Z.ltb_lt. cbn. intuition lia. }
    assert (Hpos : (0 < List.length pool)%nat).
    { apply list_elem_of_lookup in Hw as [j Hj]. pose proof (lookup_lt_Some _ _ _ Hj) as Hlt.
      assert (j ∈ pool) as Hjp.
      { apply Hin. split; [done|]. by rewrite nth_lookup, Hj. }
      destruct pool; [by apply elem_of_nil in Hjp|cbn; lia]. }
    assert (Hi : (i < List.length pool)%nat).
    { unfold i. match goal with |- context [?a `mod` ?b] => pose proof (Z.mod_pos_bound a b ltac:(lia)) end. lia. }
    assert (Hn : nth i pool O ∈ pool) by (apply list_elem_of_In, nth_In; exact Hi).
    apply Hin in Hn as [Hlt Hp'].
    exists (nth (nth i pool O) ws 0). split; [|done].
    destruct (lookup_lt_is_Some_2 ws _ Hlt) as [v Hv]. by rewrite (nth_lookup ws), Hv.
Qed.

(** Four random instructions in the default memory of 128 bytes; and as many
    as the memory of 8 KiB holds. *)
Lemma generated_program_halts_witness :
  (exists lines g', gen_lines 4 32 128 None false 32 false 7 = Ok ((lines, None), g') /\
    match assemble lines 32 with
    | Ok ws => Z.of_nat (List.length ws) = 4 + overhead 32 false /\
        exists s k, run (List.length ws) ws (4 + overhead 32 false) (init 128 32) = Returned s k /\
          pc s = 4 * (4 + overhead 32 false - 1) /\ k < 4 + overhead 32 false /\ priv_mode s = PRIV_M
    | Raise e => 1024 < 4 + overhead 32 false /\ out_of_reach e
    end) /\
  (exists lines g', gen_lines 1900 32 8192 None false 64 true 7 = Ok ((lines, None), g') /\
    match assemble lines 64 with
    | Ok ws => Z.of_nat (List.length ws) = 1900 + overhead 64 true /\
        exists s k, run (List.length ws) ws (1900 + overhead 64 true) (init 8192 64) = Returned s k /\
          pc s = 4 * (1900 + overhead 64 true - 1) /\ k < 1900 + overhead 64 true /\ priv_mode s = PRIV_M
    | Raise e => 1024 < 1900 + overhead 64 true /\ out_of_reach e
    end).
Proof.
  split.
  - apply (generated_program_halts (G := Z) 4 32 128 32 false 7); [by left|lia|lia|done|vm_compute; discriminate].
  - apply (generated_program_halts (G := Z) 1900 32 8192 64 true 7); [by right|lia|lia|done|vm_compute; discriminate].
Defined.

(** The second case happens: the budget lets a program of 1900 random
    instructions through, and a forward branch of it is out of reach. *)
Example large_program_out_of_reach :
  match gen_lines 1900 32 8192 None false 32 false 7 with
  | Ok ((lines, _), _) => assemble lines 32
  | Raise e => Raise e
  end = Raise (ValueError "immediate 5580 out of range [-4096,4095]").
Proof. vm_compute. reflexivity. Qed.
