(* ===== verification/GenModes.v ===== *)
(** * Interrupt and translation programs

    The programs of the interrupt and the translation mode of
    [sim/tools/random_gen.py]: the prefix whose placeholder the generator
    replaces by an address it counts itself, and the handler after the halt
    loop.  The addresses are those the assembler computes. *)

From S2P Require Import Prelude Words PyStr Machine Mmu IntAlu Float32 Float32Facts Step StepFacts Run.
From S2P Require Import Asm AsmFacts AsmText Disasm TextFacts DisasmTexts RoundTrip Progress UserMode Layout RandomGen GenFacts.
#[local] Open Scope string_scope.
#[local] Open Scope Z_scope.
#[local] Open Scope list_scope.

(** ** Counting instructions *)

Lemma rstrip_idem s : rstrip (rstrip s) = rstrip s.
Proof.
  induction s as [|c s IH]; [done|]. cbn [rstrip].
  destruct (rstrip s) as [|d t] eqn:E.
  - destruct (is_space c) eqn:Es; [done|]. cbn [rstrip]. by rewrite Es.
  - change (rstrip (String c (String d t))) with
      (match rstrip (String d t) with "" => if is_space c then "" else String c "" | u => String c u end).
    by rewrite IH.
Qed.

Lemma tidy_rstrip l : tidy l -> rstrip l = l.
Proof.
  intros [Hk|(nm & _ & ->)]; [|by apply rstrip_app].
  unfold kind in Hk. destruct (String.eqb (clean_line l) ""); [done|].
  destruct (ends_with_colon (clean_line l)); [done|]. injection Hk as Hk.
  rewrite <- Hk at 1. unfold clean_line, strip. rewrite rstrip_idem. exact Hk.
Qed.

Lemma statement_no_colon l : kind l = Statement l -> ends_with_colon l = false.
Proof.
  unfold kind. destruct (String.eqb (clean_line l) ""); [done|].
  destruct (ends_with_colon (clean_line l)) eqn:E; [done|]. intros [= Hk]. by rewrite Hk in E.
Qed.

(** The generator's count is the assembler's. *)
Lemma tidy_count ls : Forall tidy ls -> instr_count ls = count (map kind ls).
Proof.
  unfold instr_count. induction 1 as [|l ls Hl _ IH]; [done|]. cbn [List.filter map].
  rewrite tidy_rstrip by done. destruct Hl as [Hk|(nm & Hn & ->)].
  - rewrite Hk, (statement_no_colon l Hk). cbn [negb List.length count]. lia.
  - rewrite kind_label by done. unfold ends_with_colon. rewrite last_char_app by done.
    cbn [last_char Ascii.eqb Bool.eqb negb count]. exact IH.
Qed.

(** ** Placeholders *)

Definition no_underscore (s : string) : bool := str_all (fun c => negb (Ascii.eqb c "_")) s.

Lemma num_no_underscore s : str_all is_digit s = true -> no_underscore s = true.
Proof. apply str_all_impl. intros c. destruct c as [[] [] [] [] [] [] [] []]; vm_compute; congruence. Qed.

Section Replace.
Context (old new : string).
#[local] Abbreviation place := (String "_" old).

Lemma replace_prefix_none a s : no_underscore a = true ->
  replace place new (a +:+ s) = a +:+ replace place new s.
Proof.
  unfold replace. induction a as [|c a IH]; [done|]. unfold no_underscore. rewrite str_all_cons.
  intros [Hc Ha]%andb_true_iff. rewrite !app_cons. cbn [replace_from].
  replace (String.prefix place (String c (a +:+ s))) with false.
  - by rewrite IH.
  - cbn [String.prefix]. destruct (ascii_dec "_" c) as [<-|]; [by rewrite Ascii.eqb_refl in Hc|done].
Qed.

Lemma replace_none s : no_underscore s = true -> replace place new s = s.
Proof. intros Hs. rewrite <- (app_nil_s s) at 1. by rewrite replace_prefix_none, app_nil_s. Qed.

Lemma replace_from_skip s : replace_from place new s (String.length s) = "".
Proof. induction s as [|c s IH]; [done|exact IH]. Qed.

Lemma prefix_refl s : String.prefix s s = true.
Proof. induction s as [|c s IH]; [done|]. cbn. by destruct (ascii_dec c c). Qed.

(** A placeholder at the end of a line. *)
Lemma replace_last a : no_underscore a = true -> replace place new (a +:+ place) = a +:+ new.
Proof.
  intros Ha. rewrite replace_prefix_none by done. f_equal. unfold replace. cbn [replace_from].
  rewrite prefix_refl. cbn [String.length]. replace (S (String.length old) - 1)%nat with (String.length old) by lia.
  by rewrite replace_from_skip, app_nil_s.
Qed.
End Replace.

(** ** Prefix lines *)

(** A statement that assembles anywhere. *)
Definition steady (xl : Z) (t : string) : Prop :=
  kind t = Statement t /\ forall lbls cur, exists w, asm_stmt lbls xl cur t = Ok w.

Lemma good_steady u xl t : good_line u xl t -> steady xl t.
Proof. intros [Hk Hp]. split; [done|]. intros lbls cur. destruct (Hp lbls cur) as (w & Hw & _). by exists w. Qed.

Lemma steady_words xl lines : Forall (steady xl) lines -> forall lbls a,
  exists ws, mapR (fun '(cur, line) => asm_stmt lbls xl cur line) (addressed a (map kind lines)) = Ok ws /\
    List.length ws = List.length lines.
Proof.
  induction 1 as [|t lines [Hk Ht] _ IH]; intros lbls a; [by exists []|]. cbn [map]. rewrite Hk.
  cbn [addressed mapR]. destruct (Ht lbls a) as [w ->]. destruct (IH lbls (a + 4)) as (ws & -> & Hl).
  exists (w :: ws). cbn. split; [done|by rewrite Hl].
Qed.

Lemma steady_count xl lines : Forall (steady xl) lines ->
  count (map kind lines) = Z.of_nat (List.length lines) /\ Forall tidy lines.
Proof.
  induction 1 as [|t lines [Hk _] _ [IH1 IH2]]; [by split|]. cbn [map]. rewrite Hk. cbn [count List.length].
  split; [lia|]. apply Forall_cons_2; [by left|done].
Qed.

Lemma split_seps_token d : token d = true -> split_seps d "" true = [d].
Proof. intros Hd. rewrite <- (app_nil_s d) at 1. by rewrite split_token. Qed.

Lemma kind_closing c pre d : is_space c = false -> token d = true ->
  str_all (fun e => negb (Ascii.eqb "#" e)) (String c pre) = true ->
  kind (String c pre +:+ d) = Statement (String c pre +:+ d) /\ strip (String c pre +:+ d) = String c pre +:+ d.
Proof.
  intros Hs Hd Hp. pose proof (token_no_comment d Hd) as Hc. apply token_spec in Hd as [Hn Hd].
  assert (Hst : strip (String c pre +:+ d) = String c pre +:+ d).
  { unfold strip. rewrite app_cons, lstrip_first by done. rewrite <- app_cons.
    apply rstrip_app; [by apply plain_solid|done]. }
  split; [|exact Hst]. unfold kind, clean_line. rewrite before_none by (by rewrite str_all_app, Hp).
  rewrite Hst. replace (String.eqb (String c pre +:+ d) "") with false by done.
  unfold ends_with_colon. rewrite last_char_app by done. destruct (last_char d) as [e|] eqn:E; [|done].
  apply (last_char_all plain) in E; [|done]. unfold plain in E. apply andb_true_iff in E as [_ E%negb_true_iff].
  by rewrite E.
Qed.

(** The exception of an address of more than eleven bits. *)
Definition no_room (i : Z) : exn :=
  ValueError ("immediate " +:+ fmt_d i +:+ " out of range [-2048,2047]").

(** The line that loads the address [i] into [rd]: its word, or the
    exception of an operand the format has no room for. *)
Lemma addi_line xl pre rd : 0 <= rd < 32 ->
  (forall d, split_args (pre +:+ d) = "addi" :: xr rd :: "x0" :: split_seps d "" true) ->
  (exists c p, pre = String c p /\ is_space c = false) ->
  str_all (fun e => negb (Ascii.eqb "#" e)) pre = true -> forall i,
  let t := pre +:+ fmt_d i in
  kind t = Statement t /\
  (-2048 <= i <= 2047 -> forall lbls cur, asm_stmt lbls xl cur t = Ok (i_type_raw (wrap 12 i) 0 rd 0 OP_I)) /\
  (~ -2048 <= i <= 2047 -> forall lbls cur, asm_stmt lbls xl cur t = Raise (no_room i)).
Proof.
  intros Hrd Hsp (c & p & -> & Hc) Hp i t.
  assert (Ht : token (fmt_d i) = true) by apply token_d.
  destruct (kind_closing c p (fmt_d i) Hc Ht Hp) as [Hk Hst]. split; [exact Hk|].
  assert (Ha : forall lbls cur, asm_stmt lbls xl cur t = i_type "addi" rd 0 (OTok (fmt_d i)) xl).
  { intros lbls cur. unfold asm_stmt, t. rewrite Hst, Hsp, split_seps_token by exact Ht. cbv zeta.
    change (chain xl lbls cur "addi" [xr rd; xr 0; fmt_d i] (String c p +:+ fmt_d i) = i_type "addi" rd 0 (OTok (fmt_d i)) xl).
    arm ltac:(fun m a => constr:(rd ← arg_reg a 0; rs1 ← arg_reg a 1; i ← arg_tok a 2; i_type m rd rs1 i xl)).
    rewrite !reg_x by done. reflexivity. }
  split.
  - intros Hi lbls cur. rewrite Ha. unfold i_type. enc. by rewrite imm_text by (done || imm_bounds).
  - intros Hi lbls cur. rewrite Ha. unfold i_type. enc.
    rewrite (imm_tok _ i) by apply int_base0_fmt_d. rewrite imm_int by done.
    change (imm_lo 12 true) with (-2048). change (imm_hi 12 true) with 2047.
    destruct (Z.leb_spec (-2048) i), (Z.leb_spec i 2047); try lia; reflexivity.
Qed.

(** ** The prefixes *)

Lemma fmt_nat_no_underscore base n : 2 <= base <= 16 -> no_underscore (fmt_nat base n) = true.
Proof.
  intros Hb. apply fmt_nat_all; [done|]. intros d Hd.
  assert (Hall : forallb (fun d => negb (Ascii.eqb (digit_char d) "_")) (range 16) = true) by reflexivity.
  rewrite forallb_forall in Hall. apply Hall, list_elem_of_In, elem_of_range. lia.
Qed.

Lemma fmt_d_no_underscore n : no_underscore (fmt_d n) = true.
Proof.
  unfold fmt_d. pose proof (fun v => fmt_nat_no_underscore 10 v ltac:(lia)) as Hn. unfold no_underscore in *.
  destruct (_ <? _); [|apply Hn]. by rewrite str_all_app, Hn.
Qed.

Lemma ins_no_underscore mn args : no_underscore mn = true -> forallb no_underscore args = true ->
  no_underscore (ins mn args) = true.
Proof.
  intros Hm Ha. unfold no_underscore in *. unfold ins. rewrite !str_all_app, Hm.
  by rewrite (str_all_joined ", " _ args).
Qed.

Lemma xr_no_underscore n : no_underscore (xr n) = true.
Proof. unfold xr, no_underscore. rewrite str_all_app. apply fmt_d_no_underscore. Qed.

Lemma const_to_reg_no_underscore rd v : Forall (fun l => no_underscore l = true) (const_to_reg_instrs rd v false).
Proof.
  unfold const_to_reg_instrs. cbv zeta. apply Forall_cons_2.
  - apply ins_no_underscore; [done|]. cbn [forallb]. rewrite xr_no_underscore. cbn [andb].
    rewrite andb_true_r. unfold fmt_hash_x, no_underscore. rewrite str_all_app.
    by apply fmt_nat_no_underscore.
  - destruct (negb _); [|apply Forall_nil_2]. apply Forall_cons_2; [|apply Forall_nil_2].
    apply ins_no_underscore; [done|]. cbn [forallb]. by rewrite !xr_no_underscore, fmt_d_no_underscore.
Qed.

Lemma const_to_reg_length rd v : (List.length (const_to_reg_instrs rd v false) <= 2)%nat.
Proof. unfold const_to_reg_instrs. cbv zeta. destruct (negb _); cbn; lia. Qed.

(** What is around the placeholder: lines that assemble anywhere and hold no
    underscore. *)
Definition stable (xl : Z) (t : string) : Prop := steady xl t /\ no_underscore t = true.

Lemma const_to_reg_stable xl rd v : xl = 32 \/ xl = 64 -> reg5 rd ->
  Forall (stable xl) (const_to_reg_instrs rd v false).
Proof.
  intros Hx Hd. unfold stable. apply Forall_and; [|apply const_to_reg_no_underscore].
  eapply List.Forall_impl; [|by apply (const_to_reg_good false xl rd v false)]. intros t. apply good_steady.
Qed.

(** Closed lines. *)
Ltac stable_line :=
  split; [split; [vm_compute; reflexivity|intros ? ?; eexists; vm_compute; reflexivity]|vm_compute; reflexivity].
Ltac stable_lines :=
  repeat first [apply Forall_nil_2 | apply Forall_app_2 | apply Forall_cons_2
               | assumption | stable_line].

Definition mtvec_line (d : string) : string := "addi  x5, x0, " +:+ d.
Definition mepc_line (d : string) : string := "addi x1, x0, " +:+ d.

(** Which line of the prefix loads the handler's address. *)
Definition load_index (source : string) : nat := if String.eqb source "both" then 2 else 1.
Definition cause_of (source : string) : Z :=
  if String.eqb source "timer" then 0x80000007 else if String.eqb source "msi" then 0x80000003 else 0x8000000B.

Lemma interrupt_prefix_shape xl source c k : xl = 32 \/ xl = 64 -> dict_get source_cost source = Ok c ->
  exists a b, interrupt_prefix source k = Ok ((a ++ mtvec_line MTVEC_PLACEHOLDER :: b)%list, cause_of source) /\
    Forall (stable xl) a /\ Forall (stable xl) b /\ List.length a = load_index source /\
    Z.of_nat (List.length a + 1 + List.length b) <= 5 + c.
Proof.
  intros Hx Hc. apply dict_get_find in Hc. unfold source_cost in Hc. cbn [dict_find] in Hc.
  unfold interrupt_prefix, cause_of, load_index. cbv zeta.
  pose proof (const_to_reg_length 7 (100 + k * 10)) as Hl.
  pose proof (const_to_reg_stable xl 7 (100 + k * 10) Hx ltac:(done)) as Hs.
  revert Hl Hs. generalize (const_to_reg_instrs 7 (100 + k * 10) false). intros cs Hl Hs.
  table_cases Hc; injection Hc as <-; cbn [String.eqb Ascii.eqb Bool.eqb].
  - exists ["lui   x2, 0x10104"], (["csrrw x0, mtvec, x5"; "addi  x6, x0, 128"; "csrrw x0, mie, x6"] ++
      cs ++ ["sw    x7, 0(x2)"; "csrrsi x0, mstatus, 8"]).
    split_and!; [reflexivity|stable_lines|stable_lines|reflexivity|].
    rewrite !length_app. cbn [List.length]. lia.
  - exists ["lui   x1, 0x10000"], ["csrrw x0, mtvec, x5"; "addi  x6, x0, -2048"; "csrrw x0, mie, x6";
      "addi  x8, x0, 1"; "sw    x8, 4(x1)"; "csrrsi x0, mstatus, 8"].
    split_and!; [reflexivity|stable_lines|stable_lines|reflexivity|]. cbn [List.length]. lia.
  - exists ["lui   x2, 0x10100"], ["csrrw x0, mtvec, x5"; "addi  x6, x0, 8"; "csrrw x0, mie, x6";
      "addi  x7, x0, 1"; "sw    x7, 0(x2)"; "csrrsi x0, mstatus, 8"].
    split_and!; [reflexivity|stable_lines|stable_lines|reflexivity|]. cbn [List.length]. lia.
  - exists ["lui   x1, 0x10000"; "lui   x2, 0x10104"], (["csrrw x0, mtvec, x5"; "addi  x6, x0, -1920"; "csrrw x0, mie, x6"] ++
      cs ++ ["sw    x7, 0(x2)"; "addi  x8, x0, 1"; "sw    x8, 4(x1)"; "csrrsi x0, mstatus, 8"]).
    split_and!; [reflexivity|stable_lines|stable_lines|reflexivity|].
    rewrite !length_app. cbn [List.length]. lia.
Qed.

(** ** Assembling around a forward-only core *)

Lemma assemble_around xl lines pk core post :
  map kind lines = pk ++ core ++ post -> forward_lines false xl core -> count (pk ++ core ++ post) <= 1000 ->
  let lbls := bindings 0 (pk ++ core ++ post) in
  labels (scan lines) = lbls /\
  exists cws, Z.of_nat (List.length cws) = count core /\
    assemble lines xl =
      (pws ← words_of xl lbls 0 pk; tws ← words_of xl lbls (4 * (count pk + count core)) post;
       Ok (pws ++ cws ++ tws)).
Proof.
  intros Hk Hc Hn lbls. unfold assemble. rewrite scan_layout, Hk. cbn [stmts labels]. split; [done|].
  destruct (forward_stretch false xl core post pk Hc ltac:(lia)) as (cws & Ews & Hl & _). fold lbls in Ews.
  exists cws. split; [exact Hl|].
  change (mapR _ (addressed 0 (pk ++ core ++ post))) with (words_of xl lbls 0 (pk ++ core ++ post)).
  rewrite !words_of_app. destruct (words_of xl lbls 0 pk) as [pws|e]; [|done]. cbn [mbind result_bind].
  replace (words_of xl lbls (0 + 4 * count pk) core) with (Ok cws) by (symmetry; unfold words_of; by rewrite Z.add_0_l).
  cbn [mbind result_bind]. replace (0 + 4 * count pk + 4 * count core) with (4 * (count pk + count core)) by lia.
  by destruct (words_of xl lbls _ post).
Qed.

(** The lines between prefix and handler: the first sets the base
    register. *)
Definition base_line (base : Z) : string := ins "addi" [xr BASE_REG; "x0"; fmt_d base].
Definition out_lines (base xl : Z) (body : list string) : list string :=
  [base_line base] ++ seed_lines xl false ++ body ++ trailer false.

Definition halt_kinds : list line_kind := [Label "__halt"; Statement (ins "jal" [xr 0; "__halt"])].

Lemma base_line_good xl base : -2048 <= base <= 2047 -> good_line false xl (base_line base).
Proof. intros Hb. unfold base_line. change "x0" with (xr 0). by apply good_addi. Qed.

Lemma out_lines_spec u base xl n body : xl = 32 \/ xl = 64 -> -2048 <= base <= 2047 ->
  Forall tidy body -> forward_lines u xl (map kind body) -> count (map kind body) = n ->
  Forall tidy (out_lines base xl body) /\
  exists core, map kind (out_lines base xl body) = Statement (base_line base) :: core ++ halt_kinds /\
    forward_lines u xl core /\ count core = n + overhead xl false - 2.
Proof.
  intros Hx Hb Ht Hf Hc. unfold out_lines.
  assert (Hk : kind (base_line base) = Statement (base_line base)) by (by apply (base_line_good xl)).
  pose proof (seed_lines_good u xl false Hx) as Hseed.
  assert (Hfence : Forall (good_line u xl) ["fence"]) by (apply Forall_cons_2; [apply good_fence|apply Forall_nil_2]).
  destruct (good_lines_forward u xl _ Hseed) as [Hh1 Hh2]. destruct (good_lines_forward u xl _ Hfence) as [Hp1 Hp2].
  split.
  - apply Forall_cons_2; [by left|]. apply Forall_app_2; [by eapply good_lines_tidy|]. apply Forall_app_2; [done|].
    apply Forall_cons_2; [by left|]. apply Forall_cons_2; [right; by exists "__halt"|].
    apply Forall_cons_2; [by left|apply Forall_nil_2].
  - exists (map kind (seed_lines xl false) ++ map kind body ++ map kind ["fence"]). split_and!.
    + rewrite !map_app, <- !app_assoc. cbn [map app]. by rewrite Hk.
    + apply forward_lines_app; [done|]. by apply forward_lines_app.
    + rewrite !count_app, Hh2, Hc, Hp2, seed_lines_length by done.
      unfold overhead. cbn [List.length]. destruct Hx as [-> | ->]; cbn; lia.
Qed.

(** With the first line, for machine mode. *)
Lemma base_line_forward xl base core : -2048 <= base <= 2047 -> forward_lines false xl core ->
  forward_lines false xl (Statement (base_line base) :: core).
Proof. intros Hb. apply fl_plain. by apply (base_line_good xl). Qed.

(** ** Interrupt programs *)

Lemma map_replace_stable xl old new lines : Forall (stable xl) lines ->
  map (replace (String "_" old) new) lines = lines.
Proof. induction 1 as [|t lines [_ Ht] _ IH]; [done|]. cbn [map]. by rewrite replace_none, IH. Qed.

Lemma stable_steady xl lines : Forall (stable xl) lines -> Forall (steady xl) lines.
Proof. intros H. eapply List.Forall_impl; [|exact H]. by intros t []. Qed.

Lemma mtvec_line_spec xl i : let t := mtvec_line (fmt_d i) in
  kind t = Statement t /\
  (-2048 <= i <= 2047 -> forall lbls cur, asm_stmt lbls xl cur t = Ok (i_type_raw (wrap 12 i) 0 5 0 OP_I)) /\
  (~ -2048 <= i <= 2047 -> forall lbls cur, asm_stmt lbls xl cur t = Raise (no_room i)).
Proof. apply (addi_line xl "addi  x5, x0, " 5); [done|done|by eexists _, _|done]. Qed.

Lemma mepc_line_spec xl i : let t := mepc_line (fmt_d i) in
  kind t = Statement t /\
  (-2048 <= i <= 2047 -> forall lbls cur, asm_stmt lbls xl cur t = Ok (i_type_raw (wrap 12 i) 0 1 0 OP_I)) /\
  (~ -2048 <= i <= 2047 -> forall lbls cur, asm_stmt lbls xl cur t = Raise (no_room i)).
Proof. apply (addi_line xl "addi x1, x0, " 1); [done|done|by eexists _, _|done]. Qed.

(** The handler and the halt loop before it. *)
Definition handler_kinds : list line_kind :=
  [Label "handler"; Statement "csrrw x0, mie, x0"; Statement "mret"].

Lemma halt_words xl lbls a : dict_find lbls "__halt" = Some a ->
  words_of xl lbls a halt_kinds = Ok [0x0000006F].
Proof.
  intros Ha. destruct (jal_line xl 0 "__halt" ltac:(done) ltac:(done)) as [_ Hj].
  unfold words_of, halt_kinds. cbn [addressed mapR]. rewrite (Hj _ _ _ Ha), Z.sub_diag. reflexivity.
Qed.

Lemma handler_words xl lbls a : words_of xl lbls a handler_kinds = Ok [0x30401073; 0x30200073].
Proof. vm_compute. reflexivity. Qed.

Lemma handler_kind : map kind handler = handler_kinds.
Proof. reflexivity. Qed.

(** The placeholder's address is the number of instructions before the
    handler. *)
Lemma wrap_interrupt xl source c k out : xl = 32 \/ xl = 64 -> dict_get source_cost source = Ok c -> Forall tidy out ->
  exists a b h, wrap_program xl false (Some source) k out =
      Ok (a ++ mtvec_line (fmt_d h) :: b ++ out ++ handler, Some {| after := k; cause := cause_of source |}) /\
    Forall (steady xl) a /\ Forall (steady xl) b /\ List.length a = load_index source /\
    h = 4 * (Z.of_nat (List.length a + 1 + List.length b) + count (map kind out)) /\
    Z.of_nat (List.length a + 1 + List.length b) <= 5 + c.
Proof.
  intros Hx Hc Ht. destruct (interrupt_prefix_shape xl source c k Hx Hc) as (a & b & Ep & Ha & Hb & Hl & Hn).
  exists a, b, (4 * (Z.of_nat (List.length a + 1 + List.length b) + count (map kind out))).
  destruct (steady_count xl a (stable_steady _ _ Ha)) as [Ca Ta].
  destruct (steady_count xl b (stable_steady _ _ Hb)) as [Cb Tb].
  assert (Hp : tidy (mtvec_line MTVEC_PLACEHOLDER)) by (left; vm_compute; reflexivity).
  assert (Hi : instr_count (a ++ mtvec_line MTVEC_PLACEHOLDER :: b) = Z.of_nat (List.length a + 1 + List.length b)).
  { rewrite tidy_count by (apply Forall_app_2; [done|by apply Forall_cons_2]).
    rewrite map_app, count_app, Ca. change (map kind (mtvec_line MTVEC_PLACEHOLDER :: b)) with
      (Statement (mtvec_line MTVEC_PLACEHOLDER) :: map kind b). cbn [count]. rewrite Cb. lia. }
  split_and!; [|by apply stable_steady|by apply stable_steady|exact Hl|reflexivity|exact Hn].
  unfold wrap_program. rewrite Ep. cbn [mbind result_bind]. cbv zeta. rewrite Hi, (tidy_count out Ht).
  rewrite Z.mul_comm. set (h := 4 * _). do 2 f_equal.
  rewrite map_app. cbn [map]. unfold MTVEC_PLACEHOLDER. rewrite !(map_replace_stable xl) by done.
  unfold mtvec_line at 1. rewrite replace_last by done. by rewrite <- app_assoc.
Qed.

(** The words of an interrupt program, or the exception of its [mtvec]. *)
Lemma interrupt_assembles xl a b h out core n :
  Forall (steady xl) a -> Forall (steady xl) b -> map kind out = core ++ halt_kinds ->
  forward_lines false xl core -> count core = n -> 0 <= n ->
  Z.of_nat (List.length a + 1 + List.length b) + n + 3 <= 1000 ->
  h = 4 * (Z.of_nat (List.length a + 1 + List.length b) + n + 1) ->
  let lines := a ++ mtvec_line (fmt_d h) :: b ++ out ++ handler in
  dict_find (labels (scan lines)) "handler" = Some h /\
  if h <=? 2047 then
    exists pws cws, assemble lines xl = Ok (pws ++ cws ++ [0x0000006F; 0x30401073; 0x30200073]) /\
      Z.of_nat (List.length pws) = Z.of_nat (List.length a + 1 + List.length b) /\
      Z.of_nat (List.length cws) = n /\
      pws !! List.length a = Some (i_type_raw h 0 5 0 OP_I)
  else assemble lines xl = Raise (no_room h).
Proof.
  intros Ha Hb Ho Hf Hn Hn0 Hlen Hh lines.
  destruct (mtvec_line_spec xl h) as (Hk & Hin & Hout). cbv zeta in *.
  destruct (steady_count xl a Ha) as [Ca _]. destruct (steady_count xl b Hb) as [Cb _].
  set (pk := map kind a ++ Statement (mtvec_line (fmt_d h)) :: map kind b).
  assert (Ek : map kind lines = pk ++ core ++ halt_kinds ++ handler_kinds).
  { unfold lines, pk. rewrite map_app. cbn [map]. rewrite Hk, !map_app, Ho, handler_kind.
    rewrite <- !app_assoc. cbn [app]. rewrite <- ?app_assoc. reflexivity. }
  assert (Cp : count pk = Z.of_nat (List.length a + 1 + List.length b)).
  { unfold pk. rewrite count_app. cbn [count]. lia. }
  destruct (assemble_around xl lines pk core (halt_kinds ++ handler_kinds) Ek Hf) as [Hlab (cws & Hcl & Hasm)].
  { rewrite !count_app, Cp, Hn. cbn [halt_kinds handler_kinds count]. lia. }
  set (lbls := bindings 0 _) in *.
  assert (Hb2 : exists rest, lbls = ("handler", h) :: ("__halt", h - 4) :: rest).
  { eexists. unfold lbls. rewrite !bindings_app. cbn [halt_kinds handler_kinds bindings app count].
    rewrite Cp, Hn. 
    match goal with |- ?x :: ?y :: ?l = _ => assert (Ex : x = ("handler", h)) by (f_equal; lia); assert (Ey : y = ("__halt", h - 4)) by (f_equal; lia);
      rewrite Ex, Ey; exact eq_refl end. }
  destruct Hb2 as [rest El]. split; [rewrite Hlab, El; reflexivity|].
  destruct (steady_words xl a Ha lbls 0) as (aws & Eaw & Hal). change (words_of xl lbls 0 (map kind a) = Ok aws) in Eaw.
  set (cur := 0 + 4 * count (map kind a)).
  destruct (steady_words xl b Hb lbls (cur + 4)) as (bws & Ebw & Hbl).
  assert (Epk : words_of xl lbls 0 pk =
    (w ← asm_stmt lbls xl cur (mtvec_line (fmt_d h)); Ok (aws ++ w :: bws))).
  { unfold pk. rewrite (words_of_app xl lbls 0), Eaw. cbn [mbind result_bind]. fold cur.
    unfold words_of. cbn [addressed mapR]. destruct (asm_stmt _ _ cur _); [|reflexivity].
    cbn [mbind result_bind]. by rewrite Ebw. }
  rewrite Hasm, Epk. destruct (Z.leb_spec h 2047).
  - rewrite Hin by lia. cbn [mbind result_bind]. rewrite (words_of_app xl lbls _ halt_kinds), handler_words.
    replace (4 * (count pk + count core)) with (h - 4) by lia.
    rewrite (halt_words xl lbls (h - 4)) by (rewrite El; reflexivity). cbn [mbind result_bind app].
    rewrite wrap_small by (unfold in_width; change (2 ^ 12) with 4096; lia).
    exists (aws ++ i_type_raw h 0 5 0 OP_I :: bws), cws. split_and!; [reflexivity| |lia|].
    + rewrite length_app. cbn [List.length]. lia.
    + rewrite lookup_app_r by lia. by replace (List.length a - List.length aws)%nat with O by lia.
  - rewrite Hout by lia. reflexivity.
Qed.

Section Modes.
Context {G : Type} `{RandomLaws G}.

(** The instruction loop and the label pass of any mode but the
    out-of-order one. *)
Lemma gen_out_spec u cw xl n space base csrs {A} (k : list string -> gen G A) (Q : A -> Prop) :
  xl = 32 \/ xl = 64 -> -2048 <= base <= 2047 -> 0 <= n -> (u = true -> cw <= 0) -> csrs <> [] -> csrs_ok u csrs ->
  (forall out core, Forall tidy out -> map kind out = Statement (base_line base) :: core ++ halt_kinds ->
     forward_lines u xl core -> count core = n + overhead xl false - 2 -> ensures (k out) Q) ->
  ensures (items ← gen_items (kind_names xl false) (kind_weights cw xl false) xl space base csrs (Z.to_nat n);
           body ← gen_body items; k (out_lines base xl body)) Q.
Proof.
  intros Hx Hb Hn Hcw Hc Ht Hk.
  eapply ensures_bind; [by apply (gen_items_good u); [|apply kinds_known|..]|]. intros items [Hlen Hg].
  eapply ensures_bind; [by apply (gen_body_forward u)|]. intros body (Hty & Hf & Hcnt).
  destruct (out_lines_spec u base xl n body Hx Hb Hty Hf ltac:(lia)) as (Hto & core & Ek & Hfc & Hcc).
  by apply (Hk _ core).
Qed.

(** The program [lines] loads the address [h] of its handler, or does not
    assemble because [h] does not fit the operand. *)
Definition handler_placed (xl : Z) (source : string) (lines : list string) (h : Z) : Prop :=
  dict_find (labels (scan lines)) "handler" = Some h /\
  lines !! load_index source = Some (mtvec_line (fmt_d h)) /\
  if h <=? 2047 then
    exists ws, assemble lines xl = Ok ws /\ Z.of_nat (List.length ws) = h `div` 4 + 2 /\
      ws !! load_index source = Some (i_type_raw h 0 5 0 OP_I) /\
      drop (Z.to_nat (h `div` 4 - 1)) ws = [0x0000006F; 0x30401073; 0x30200073]
  else assemble lines xl = Raise (no_room h).

Lemma interrupt_placed xl source c k out core n : xl = 32 \/ xl = 64 -> dict_get source_cost source = Ok c ->
  Forall tidy out -> map kind out = core ++ halt_kinds -> forward_lines false xl core -> count core = n ->
  0 <= n -> n + c <= 990 ->
  exists lines h, wrap_program xl false (Some source) k out = Ok (lines, Some {| after := k; cause := cause_of source |}) /\
    handler_placed xl source lines h /\ 4 * (n + 1) < h <= 4 * (n + 6 + c).
Proof.
  intros Hx Hc Hto Ek Hfc Hcc Hn0 Hn.
  destruct (wrap_interrupt xl source c k out Hx Hc Hto) as (a & b & h & Ew & Ha & Hb & Hla & Hh & Hpl).
  rewrite Ek, count_app, Hcc in Hh. cbn [halt_kinds count] in Hh.
  destruct (interrupt_assembles xl a b h out core n Ha Hb Ek Hfc Hcc) as [Hlab Hasm]; [lia|lia|lia|].
  eexists _, h. split; [exact Ew|]. split; [|lia]. split; [exact Hlab|]. split.
  - rewrite lookup_app_r by lia. by rewrite Hla, Nat.sub_diag.
  - rewrite <- Hla. clear - Hasm Hh. destruct (h <=? 2047); [|exact Hasm].
    destruct Hasm as (pws & cws & E & Hp & Hcw & Hl). eexists. split; [exact E|]. split_and!.
    + rewrite !length_app. cbn [List.length]. Z.to_euclidean_division_equations; lia.
    + by apply lookup_app_l_Some.
    + rewrite app_assoc. apply drop_app_length'. rewrite length_app. Z.to_euclidean_division_equations; lia.
Qed.

(** [C4] In interrupt mode the address the generator patches into [mtvec] is
    the address the assembler gives the handler, whatever the random source
    draws. If it fits the 12-bit operand of the [addi] that loads it, the
    program assembles: the handler's two instructions come right after the
    halt loop, at that address, and the cause reported is the source's. If
    it does not, the budget check has not noticed and the assembler raises
    [ValueError] on the generated program. *)
Theorem interrupt_program_handler n base mem_size xl source c (g : G) :
  xl = 32 \/ xl = 64 -> -2048 <= base <= 2047 -> 1 <= n <= 900 -> dict_get source_cost source = Ok c ->
  budget n xl (5 + c + 2) false false <= mem_size `div` 4 ->
  exists lines k g' h,
    gen_lines n base mem_size (Some source) false xl false g =
      Ok ((lines, Some {| after := k; cause := cause_of source |}), g') /\
    1 <= k <= n /\ handler_placed xl source lines h /\
    4 * (n + overhead xl false) < h <= 4 * (n + overhead xl false + 5 + c).
Proof.
  intros Hx Hb Hn Hc Hbud.
  assert (Hcr : 0 <= c <= 7).
  { pose proof (table_range source_cost (fun v => (0 <=? v) && (v <=? 7)) source c eq_refl Hc) as Hr. cbv beta in Hr. lia. }
  assert (Hov : 15 <= overhead xl false <= 41) by (unfold overhead; destruct Hx as [-> | ->]; cbn; lia).
  assert (HQ : ensures (gen_lines n base mem_size (Some source) false xl false)
    (fun p => exists k h, p.2 = Some {| after := k; cause := cause_of source |} /\ 1 <= k <= n /\
       handler_placed xl source p.1 h /\ 4 * (n + overhead xl false) < h <= 4 * (n + overhead xl false + 5 + c))).
  { unfold gen_lines. cbv zeta. cbn [andb orb negb].
    eapply ensures_bind; [eapply (ensures_lift _ (5 + c + 2) (fun v => v = 5 + c + 2)); [by rewrite Hc|done]|].
    intros ? ->. rewrite Z.gtb_ltb. destruct (Z.ltb_spec (mem_size `div` 4) (budget n xl (5 + c + 2) false false)); [lia|].
    eapply ensures_bind; [apply ensures_randint; lia|]. intros k Hk. cbv beta in Hk.
    apply (gen_out_spec false 6 xl n mem_size base (csr_pool (Some source) false)
      (fun out => lift (wrap_program xl false (Some source) k out))); [done|done|lia|done|done|done|].
    intros out core Hto Ek Hfc%(base_line_forward xl base) Hcc; [|done].
    destruct (interrupt_placed xl source c k out (Statement (base_line base) :: core) (n + overhead xl false - 1)
      Hx Hc Hto Ek Hfc ltac:(cbn [count]; lia)) as (lines & h & Ew & Hp & Hh); [lia|lia|].
    eapply ensures_lift; [exact Ew|]. exists k, h. split_and!; [done|lia|lia|exact Hp|lia|lia]. }
  destruct (HQ g) as ([lines info] & g' & E & k & h & Ei & Hk & Hp & Hh). cbn [fst snd] in *.
  exists lines, k, g', h. rewrite <- Ei. split_and!; [exact E|lia|lia|exact Hp|lia|lia].
Qed.
End Modes.

(** A timer program of the default size, and one the [addi] has no room
    for. *)
Lemma interrupt_program_handler_witness :
  (exists lines k g' h,
    gen_lines 4 32 128 (Some "timer") false 32 false 7 =
      Ok ((lines, Some {| after := k; cause := cause_of "timer" |}), g') /\
    1 <= k <= 4 /\ handler_placed 32 "timer" lines h /\ 4 * (4 + overhead 32 false) < h <= 4 * (4 + overhead 32 false + 5 + 4)) /\
  (exists lines k g' h,
    gen_lines 600 32 4096 (Some "uart") false 32 false 7 =
      Ok ((lines, Some {| after := k; cause := cause_of "uart" |}), g') /\
    1 <= k <= 600 /\ handler_placed 32 "uart" lines h /\
    4 * (600 + overhead 32 false) < h <= 4 * (600 + overhead 32 false + 5 + 3)).
Proof.
  split.
  - apply (interrupt_program_handler (G := Z) 4 32 128 32 "timer" 4 7);
      [by left|lia|lia|reflexivity|vm_compute; discriminate].
  - apply (interrupt_program_handler (G := Z) 600 32 4096 32 "uart" 3 7);
      [by left|lia|lia|reflexivity|vm_compute; discriminate].
Defined.

(** ** Translation programs *)

(** The words of the prefix and the memory size the harness gives the mode. *)
Definition prefix_words (xl : Z) : list Z :=
  match words_of xl [] 0 (map kind (mmu_prefix xl)) with Ok ws => ws | Raise _ => [] end.
Definition mmu_mem_size (xl : Z) : Z := if xl =? 32 then 8192 else 16384.
Definition entry_index (xl : Z) : nat := List.length (prefix_words xl).

(** The machine at the [mret]'s target. *)
Definition user_entry (xl : Z) : ISS :=
  match run_loop (entry_index xl) (prefix_words xl) 100 (init (mmu_mem_size xl) xl) 0 with
  | Running s _ => s
  | _ => init (mmu_mem_size xl) xl
  end.

Lemma prefix_assembles xl lbls : xl = 32 \/ xl = 64 ->
  words_of xl lbls 0 (map kind (mmu_prefix xl)) = Ok (prefix_words xl).
Proof. intros [-> | ->]; vm_compute; reflexivity. Qed.

Lemma prefix_tidy xl : xl = 32 \/ xl = 64 -> Z.of_nat (entry_index xl) = count (map kind (mmu_prefix xl)).
Proof. intros [-> | ->]; vm_compute; reflexivity. Qed.

Lemma prefix_runs xl : xl = 32 \/ xl = 64 ->
  run_loop (entry_index xl) (prefix_words xl) 100 (init (mmu_mem_size xl) xl) 0 =
    Running (user_entry xl) (Z.of_nat (entry_index xl)).
Proof. intros [-> | ->]; vm_compute; reflexivity. Qed.

(** Words after those a run has not reached do not matter to it. *)
Lemma run_turn_app words rest s steps s' k : words <> [] -> run_turn words s steps = Again s' k ->
  run_turn (words ++ rest) s steps = Again s' k.
Proof.
  intros Hne. assert (0 < List.length words)%nat by (destruct words; [done|cbn; lia]).
  unfold run_turn. destruct (interrupt_due s steps); [done|]. destruct (translate s (pc s) fetch) as [[a|] s1]; [|done].
  rewrite length_app, !Z.geb_leb. destruct (Z.leb_spec (Z.of_nat (List.length words) * 4) a) as [|Ha]; [done|].
  destruct (Z.leb_spec (Z.of_nat (List.length words + List.length rest) * 4) a); [lia|].
  cbv zeta. unfold nthZ. rewrite app_nth1; [done|]. Z.to_euclidean_division_equations; lia.
Qed.

Lemma run_turn_steps words s steps s' k : run_turn words s steps = Again s' k -> steps <= k.
Proof.
  unfold run_turn. destruct (interrupt_due s steps); [intros [= <- <-]; lia|].
  destruct (translate s (pc s) fetch) as [[a|] s1]; [|intros [= <- <-]; lia].
  destruct (a >=? _); [done|]. cbv zeta. destruct (self_loop _); [done|].
  destruct (step s1 _); [intros [= <- <-]; lia|done].
Qed.

Lemma run_loop_steps f words max s steps s' k : run_loop f words max s steps = Running s' k -> steps <= k.
Proof.
  revert s steps. induction f as [|f IH]; intros s steps; cbn [run_loop]; [intros [= <- <-]; lia|].
  destruct (steps <? max); [|done]. destruct (run_turn words s steps) as [s1 k1| |] eqn:E; [|done..].
  apply run_turn_steps in E. intros H%IH. lia.
Qed.

Lemma run_loop_app f fuel words rest max0 max s steps s' k :
  words <> [] -> run_loop f words max0 s steps = Running s' k -> k < max ->
  run_loop (f + fuel) (words ++ rest) max s steps = run_loop fuel (words ++ rest) max s' k.
Proof.
  intros Hne. revert s steps. induction f as [|f IH]; intros s steps; cbn [run_loop Nat.add]; [by intros [= <- <-]|].
  destruct (Z.ltb_spec steps max0); [|done]. destruct (run_turn words s steps) as [s1 k1| |] eqn:E; [|done..].
  intros Hr Hk. pose proof (run_turn_steps _ _ _ _ _ E). pose proof (run_loop_steps _ _ _ _ _ _ _ Hr).
  destruct (Z.ltb_spec steps max); [|lia]. rewrite (run_turn_app _ rest _ _ _ _ Hne E). by apply IH.
Qed.

(** The page table of the prefix: one entry in each table. *)
Lemma entry_tables : (let s := user_entry 32 in forallb (fun i =>
  (sv32_pte s 0 i =? (if i =? 0 then 0x401 else 0)) &&
  (sv32_pte s 1 i =? (if i =? 0 then 0x1F else 0))) (range 1024)) = true.
Proof. vm_compute. reflexivity. Qed.

Lemma entry_state xl : xl = 32 \/ xl = 64 ->
  xlen (user_entry xl) = xl /\ priv_mode (user_entry xl) = PRIV_U /\
  pc (user_entry xl) = 4 * Z.of_nat (entry_index xl) /\
  csr_get (user_entry xl) CSR_SATP = (if xl =? 32 then 0x80000000 else 0) /\
  csr_get (user_entry xl) CSR_MTVEC = 0.
Proof. intros [-> | ->]; vm_compute; done. Qed.

Lemma entry_perm acc : pte_perm_ok (user_entry 32) 0x1F acc = true.
Proof. destruct acc; vm_compute; reflexivity. Qed.

#[local] Opaque user_entry.

Lemma entry_pte i : 0 <= i < 1024 ->
  sv32_pte (user_entry 32) 0 i = (if i =? 0 then 0x401 else 0) /\
  sv32_pte (user_entry 32) 1 i = (if i =? 0 then 0x1F else 0).
Proof.
  intros Hi. pose proof entry_tables as Ha. cbv zeta in Ha. rewrite forallb_forall in Ha.
  specialize (Ha i ltac:(by apply list_elem_of_In, elem_of_range)).
  apply andb_true_iff in Ha as [H0 H1]. split; by apply Z.eqb_eq.
Qed.

(** What user mode sees. *)
Lemma entry_walk va acc : 0 <= va < 2 ^ 32 ->
  sv32_walk (user_entry 32) acc 0x80000000 va = if va <? 4096 then Some va else None.
Proof.
  intros Hva. unfold sv32_walk. cbn [walk]. change (0x80000000 `mod` 2 ^ 20) with 0.
  pose proof (vpn_range 10 va 1 ltac:(done)) as H1. pose proof (vpn_range 10 va 0 ltac:(done)) as H0.
  change (2 ^ 10) with 1024 in H1, H0. rewrite (proj1 (entry_pte _ H1)).
  assert (E1 : vpn 10 va 1 = va `div` 4194304).
  { unfold vpn. change (2 ^ (12 + 10 * Z.of_nat 1)) with 4194304. change (2 ^ 10) with 1024.
    change (2 ^ 32) with 4294967296 in Hva. Z.to_euclidean_division_equations; lia. }
  assert (E0 : vpn 10 va 1 = 0 -> vpn 10 va 0 = va `div` 4096).
  { rewrite E1. unfold vpn. change (2 ^ (12 + 10 * Z.of_nat 0)) with 4096. change (2 ^ 10) with 1024.
    intros. Z.to_euclidean_division_equations; lia. }
  destruct (Z.eqb_spec (vpn 10 va 1) 0) as [Hz|Hz].
  - change (pte_valid 0x401) with true. change (pte_is_leaf 0x401) with false. change (pte_ppn 0x401) with 1.
    cbn [negb]. rewrite (proj2 (entry_pte _ H0)), (E0 Hz).
    destruct (Z.eqb_spec (va `div` 4096) 0) as [Hp|Hp].
    + change (pte_valid 0x1F) with true. change (pte_is_leaf 0x1F) with true. change (pte_ppn 0x1F) with 0.
      rewrite entry_perm. change (0 `mod` 2 ^ (10 * Z.of_nat 0)) with 0. cbn [negb Z.eqb].
      change (span 10 0) with 12. change (2 ^ 12) with 4096.
      destruct (Z.ltb_spec va 4096); Z.to_euclidean_division_equations; [f_equal; lia|lia].
    + destruct (Z.ltb_spec va 4096); [Z.to_euclidean_division_equations; lia|reflexivity].
  - destruct (Z.ltb_spec va 4096); [rewrite E1 in Hz; Z.to_euclidean_division_equations; lia|reflexivity].
Qed.

Lemma translate_user_32 s va acc : xlen s = 32 -> priv_mode s = PRIV_U -> csr_get s CSR_SATP = 0x80000000 ->
  0 <= va < 2 ^ 32 -> translate s va acc = walk_outcome s acc va (sv32_walk s acc 0x80000000 va).
Proof.
  intros Hx Hp Hs Hva. unfold translate. rewrite Hx, Hp, Hs.
  change (PRIV_U =? PRIV_M) with false. change (32 =? 32) with true.
  change (negb (truthy ((0x80000000 >> SATP_MODE_BIT) .& 1))) with false. cbv iota.
  by rewrite translate_sv32_walk, u32_small.
Qed.

Lemma translate_user_64 s va acc : xlen s = 64 -> csr_get s CSR_SATP = 0 ->
  translate s va acc = (Some (wrap 64 va), s).
Proof.
  intros Hx Hs. rewrite translate_bare; [unfold uxlen; by rewrite Hx, uXLEN_wrap|].
  unfold paging. rewrite Hx, Hs. by rewrite andb_comm.
Qed.

Lemma entry_translate xl va acc : xl = 32 \/ xl = 64 -> 0 <= va < 2 ^ xl ->
  translate (user_entry xl) va acc =
    if (xl =? 64) || (va <? 4096) then (Some va, user_entry xl) else page_fault (user_entry xl) acc va.
Proof.
  intros Hxl Hva. destruct (entry_state xl Hxl) as (Hx & Hp & _ & Hs & _).
  destruct Hxl as [-> | ->]; cbn [Z.eqb Pos.eqb orb] in *.
  - rewrite (translate_user_32 _ va acc Hx Hp Hs Hva), entry_walk by exact Hva. by destruct (va <? 4096).
  - rewrite (translate_user_64 _ va acc Hx Hs). by rewrite wrap_small.
Qed.

(** ** Running in user mode *)

Lemma wf_run_running fuel words max s steps s' k : wf s -> run_loop fuel words max s steps = Running s' k -> wf s'.
Proof.
  revert s steps. induction fuel as [|f IH]; intros s steps Hs; cbn [run_loop]; [by intros [= <- <-]|].
  destruct (steps <? max); [|done]. pose proof (wf_run_turn words s steps Hs) as Ht.
  destruct (run_turn words s steps) as [s1 k1| |]; [|done..]. apply IH. exact (proj1 Ht).
Qed.

Lemma entry_facts xl : xl = 32 \/ xl = 64 -> (let s := user_entry xl in
  (Z.of_nat (List.length (mem s)) =? 2 ^ (if xl =? 32 then 13 else 14)) && (xlen s =? xl) && (priv_mode s =? PRIV_U) &&
  match pending_interrupt s with None => true | Some _ => false end &&
  (if xlen s =? 64 then csr_get s CSR_SATP =? 0
   else (csr_get s CSR_SATP =? 0x80000000) && (sv32_pte s 0 0 =? 0x401) && (sv32_pte s 1 0 =? 0x1F))) = true.
Proof. intros [-> | ->]; vm_compute; reflexivity. Qed.

Lemma entry_wf xl : xl = 32 \/ xl = 64 -> wf (user_entry xl).
Proof.
  intros Hx. eapply (wf_run_running _ _ _ (init (mmu_mem_size xl) xl)); [|by apply prefix_runs].
  apply wf_init; [done|]. by destruct Hx as [-> | ->]; vm_compute.
Qed.

Lemma entry_env xl : xl = 32 \/ xl = 64 -> user_env xl (user_entry xl).
Proof.
  intros Hx. pose proof (entry_wf xl Hx) as Hw. pose proof (entry_facts xl Hx) as Hf. cbv zeta in Hf.
  generalize dependent (user_entry xl). intros s Hw Hf.
  apply andb_true_iff in Hf as [[[[Hm%Z.eqb_eq Hxl%Z.eqb_eq]%andb_true_iff Hp%Z.eqb_eq]%andb_true_iff Hn]%andb_true_iff Hpg].
  split; try done.
  - split; [done|]. eexists. split; [|split; [exact Hm|] ]; by destruct (xl =? 32).
  - unfold mem_size. rewrite Hm. by destruct (xl =? 32).
  - by destruct (pending_interrupt s).
  - unfold first_page. destruct (xlen s =? 64); [by apply Z.eqb_eq|].
    apply andb_true_iff in Hpg as [[H1%Z.eqb_eq H2%Z.eqb_eq]%andb_true_iff H3%Z.eqb_eq]. done.
Qed.

(** The first instruction after the prefix. *)
Definition base_word (base : Z) : Z := i_type_raw (wrap 12 base) 0 31 0 OP_I.

Lemma base_line_word xl base : -2048 <= base <= 2047 -> kind (base_line base) = Statement (base_line base) /\
  forall lbls cur, asm_stmt lbls xl cur (base_line base) = Ok (base_word base).
Proof.
  intros Hb. destruct (addi_line xl "addi x31, x0, " 31 ltac:(done) ltac:(done) ltac:(by eexists _, _) ltac:(done) base)
    as (Hk & Hin & _). split; [exact Hk|]. exact (Hin Hb).
Qed.

Lemma base_no_loop base : 0 <= base <= 2047 -> self_loop (base_word base) = false.
Proof.
  intros Hb. assert (Hr : 0 <= base < 4096) by lia. unfold base_word.
  rewrite wrap_small by (unfold in_width; change (2 ^ 12) with 4096; lia).
  pose proof (decoded_i_word base 0 31 0 OP_I Hr ltac:(done) ltac:(done) ltac:(done) ltac:(done)) as D.
  unfold self_loop. fold (w_op (i_type_raw base 0 31 0 OP_I)). by rewrite (di_op _ _ _ _ _ _ D).
Qed.

Lemma base_step s base : wf s -> 0 <= base <= 2047 -> step s (base_word base) = Ok (retire s 31 base).
Proof.
  intros Hs Hb. assert (Hr : 0 <= base < 4096) by lia. unfold base_word.
  rewrite wrap_small by (unfold in_width; change (2 ^ 12) with 4096; lia).
  pose proof (decoded_i_word base 0 31 0 OP_I Hr ltac:(done) ltac:(done) ltac:(done) ltac:(done)) as D.
  set (w := i_type_raw base 0 31 0 OP_I) in *. pose proof (di_op _ _ _ _ _ _ D) as Hop. step_op Hop.
  rewrite (di_f3 _ _ _ _ _ _ D), (di_rs1 _ _ _ _ _ _ D), (di_rd _ _ _ _ _ _ D), (wf_x0 s Hs).
  assert (Hi : imm_i w = base).
  { unfold imm_i. rewrite (di_top _ _ _ _ _ _ D), sext_swrap by done. apply swrap_small; [done|]. cbn. lia. }
  unfold exec_I. cbv zeta. cbn [Z.eqb Pos.eqb andb orb]. rewrite Hi.
  replace (uXLEN (0 + base) (xlen s)) with base; [done|].
  symmetry. rewrite Z.add_0_l. apply (uxlen_u32 s base Hs). change (2 ^ 32) with 4294967296. lia.
Qed.

Section Translation.
Context {G : Type} `{RandomLaws G}.

(** The program's words: prefix, base register, body, halt loop. *)
Definition mmu_words (base xl : Z) (cws : list Z) : list Z :=
  (prefix_words xl ++ base_word base :: cws ++ [0x0000006F])%list.

(** The body, from the instruction after the prefix on, in user mode. *)
Definition user_body (xl : Z) (cws : list Z) : Prop :=
  let n := Z.of_nat (List.length cws) in
  let p := Z.of_nat (entry_index xl) in
  forall i, 0 <= i < n -> forward xl (p + 1 + n) (p + 1 + i) (nthZ 0 cws i) /\ user_word (nthZ 0 cws i) = true.

Lemma mmu_assembles base xl out core : xl = 32 \/ xl = 64 -> -2048 <= base <= 2047 ->
  map kind out = Statement (base_line base) :: core ++ halt_kinds ->
  forward_lines true xl core -> count core <= 100000 ->
  reaches (Z.of_nat (entry_index xl) + 1 + count core) (assemble (mmu_prefix xl ++ out) xl) (fun ws =>
    exists cws, ws = mmu_words base xl cws /\ Z.of_nat (List.length cws) = count core /\ user_body xl cws).
Proof.
  intros Hx Hb Ek Hf Hn. pose proof (prefix_tidy xl Hx) as Hp.
  destruct (base_line_word xl base Hb) as [_ Hbase].
  assert (Hp22 : Z.of_nat (entry_index xl) <= 22) by (destruct Hx as [-> | ->]; vm_compute; discriminate).
  set (pk := map kind (mmu_prefix xl) ++ [Statement (base_line base)]).
  assert (Cp : count pk = Z.of_nat (entry_index xl) + 1) by (unfold pk; rewrite count_app, <- Hp; done).
  pose proof (count_nonneg core) as Hc0.
  assert (El : map kind (mmu_prefix xl ++ out) = pk ++ core ++ halt_kinds).
  { unfold pk. rewrite map_app, Ek, <- app_assoc. done. }
  set (lbls := bindings 0 (pk ++ core ++ halt_kinds)).
  assert (Elb : lbls = bindings 0 (pk ++ core ++ [Label "__halt"])) by (unfold lbls; by rewrite !bindings_app).
  assert (Hs : stretch true xl (count pk + count core) lbls pk core).
  { apply (forward_lines_words true xl core [Label "__halt"]); [done| |exact Elb|].
    - change (2 ^ 32) with 4294967296. lia.
    - rewrite !count_app. cbn [count]. lia. }
  unfold assemble. rewrite scan_layout, El. cbn [stmts labels]. fold lbls. rewrite <- Cp.
  match goal with |- reaches _ _ ?P => change (reaches (count pk + count core) (words_of xl lbls 0 (pk ++ core ++ halt_kinds)) P) end.
  unfold pk at 2. rewrite <- app_assoc, (words_of_app xl lbls 0), (prefix_assembles xl lbls Hx). cbn [mbind result_bind].
  assert (Eb : words_of xl lbls (0 + 4 * count (map kind (mmu_prefix xl))) ([Statement (base_line base)] ++ core ++ halt_kinds) =
    (ws ← words_of xl lbls (4 * count pk) (core ++ halt_kinds); Ok (base_word base :: ws))).
  { unfold words_of at 1. cbn [app addressed mapR]. rewrite Hbase. cbn [mbind result_bind].
    by replace (0 + 4 * count (map kind (mmu_prefix xl)) + 4) with (4 * count pk) by lia. }
  rewrite Eb, (words_of_app xl lbls (4 * count pk)). unfold stretch in Hs. clear Eb.
  destruct (words_of xl lbls (4 * count pk) core) as [cws|e]; [|exact Hs]. destruct Hs as [Hlen Hall].
  assert (Eh : words_of xl lbls (4 * count pk + 4 * count core) halt_kinds = Ok [0x0000006F]).
  { apply (halt_words xl lbls). unfold lbls. rewrite !bindings_app.
    cbn [halt_kinds bindings app dict_find String.eqb Ascii.eqb Bool.eqb]. reflexivity. }
  cbn [mbind result_bind]. rewrite Eh. exists cws. split; [done|]. split; [exact Hlen|].
  unfold user_body. cbv zeta. rewrite Hlen. intros i Hi. rewrite <- Cp.
  destruct (Hall i Hi) as [Hfw Hu]. split; [exact Hfw|by apply Hu].
Qed.

Lemma mmu_budget n xl : xl = 32 \/ xl = 64 -> budget n xl 0 true false <= n + 46.
Proof.
  intros Hx. unfold budget. change (Z.of_nat (List.length FLOAT_SEED_BITS)) with 6.
  destruct Hx as [-> | ->]; cbn [Z.geb Z.compare Pos.compare Pos.compare_cont]; lia.
Qed.

Lemma mmu_memory xl : xl = 32 \/ xl = 64 -> 2048 <= mmu_mem_size xl `div` 4 <= 4096.
Proof. intros [-> | ->]; vm_compute; split; discriminate. Qed.

Lemma mmu_length n xl : xl = 32 \/ xl = 64 -> n <= budget n xl 0 true false.
Proof.
  intros Hx. unfold budget. change (Z.of_nat (List.length FLOAT_SEED_BITS)) with 6.
  destruct Hx as [-> | ->]; cbn [Z.geb Z.compare Pos.compare Pos.compare_cont]; lia.
Qed.

Lemma entry_count xl : xl = 32 \/ xl = 64 -> Z.of_nat (entry_index xl) = if xl =? 32 then 13 else 22.
Proof. intros [-> | ->]; vm_compute; reflexivity. Qed.

Lemma mmu_words_length base xl cws : xl = 32 \/ xl = 64 ->
  Z.of_nat (List.length (mmu_words base xl cws)) = (if xl =? 32 then 13 else 22) + Z.of_nat (List.length cws) + 2.
Proof.
  intros Hx. rewrite <- (entry_count xl Hx). unfold mmu_words, entry_index. rewrite length_app. cbn [List.length].
  rewrite length_app. cbn [List.length]. lia.
Qed.

(** What the generator returns in translation mode. *)
Lemma mmu_generates n base xl : xl = 32 \/ xl = 64 -> -2048 <= base <= 2047 -> 0 <= n ->
  budget n xl 0 true false <= mmu_mem_size xl `div` 4 ->
  ensures (gen_lines n base (mmu_mem_size xl) None true xl false) (fun r => r.2 = None /\
    reaches (Z.of_nat (entry_index xl) + n + overhead xl false - 1) (assemble r.1 xl) (fun ws =>
      exists cws, ws = mmu_words base xl cws /\
        Z.of_nat (List.length cws) = n + overhead xl false - 2 /\ user_body xl cws)).
Proof.
  intros Hx Hb Hn Hbud. pose proof (overhead_range xl false Hx) as Hov.
  pose proof (mmu_length n xl Hx). pose proof (mmu_memory xl Hx).
  unfold gen_lines. cbv zeta. cbn [andb orb negb].
  eapply ensures_bind; [by eapply (ensures_lift _ 0 (fun v => v = 0))|]. intros ? ->.
  rewrite Z.gtb_ltb. destruct (Z.ltb_spec (mmu_mem_size xl `div` 4) (budget n xl 0 true false)) as [Hlt|_]; [lia|].
  eapply ensures_bind; [apply (ensures_ret 0 (fun _ => True)); done|]. intros ? _.
  apply (gen_out_spec true 0 xl n _ base (csr_pool None false) (fun out => lift (wrap_program xl true None 0 out)));
    [done|done|lia|done|done|done|].
  intros out core _ Ek Hf Hc. pose proof (mmu_assembles base xl out core Hx Hb Ek Hf ltac:(lia)) as Ha.
  eapply ensures_lift; [reflexivity|]. split; [done|]. cbn [fst].
  replace (Z.of_nat (entry_index xl) + n + overhead xl false - 1) with (Z.of_nat (entry_index xl) + 1 + count core) by lia.
  eapply reaches_weaken; [exact Ha|]. cbn beta. intros ws (cws & -> & Hl & Hu). exists cws. split; [done|]. split; [lia|exact Hu].
Qed.

(** Behind the prefix and the base register's line, the words are a user
    program. *)
Lemma mmu_words_nth base xl cws i : 0 <= i ->
  nthZ 0 (mmu_words base xl cws) (Z.of_nat (entry_index xl) + i) = nthZ 0 (base_word base :: cws ++ [0x0000006F]) i.
Proof.
  intros Hi. assert (Hl : List.length (prefix_words xl) = entry_index xl) by done.
  unfold nthZ, mmu_words. rewrite app_nth2 by lia. f_equal. lia.
Qed.

Lemma mmu_user_program base xl cws : xl = 32 \/ xl = 64 -> Z.of_nat (List.length cws) <= 960 -> user_body xl cws ->
  let p := Z.of_nat (entry_index xl) in
  user_program xl (p + 1) (p + 1 + Z.of_nat (List.length cws)) (mmu_words base xl cws).
Proof.
  intros Hx Hn Hu p. set (n := List.length cws).
  assert (Hp : 0 <= p <= 22) by (unfold p; destruct Hx as [-> | ->]; vm_compute; split; discriminate).
  assert (Hlen : Z.of_nat (List.length (mmu_words base xl cws)) = p + 2 + Z.of_nat n).
  { unfold mmu_words. rewrite length_app. cbn [List.length]. rewrite length_app. unfold p, n, entry_index. cbn. lia. }
  split; [lia|lia| |].
  - intros i Hi. destruct (Hu (i - (p + 1)) ltac:(lia)) as [Hfw Hw]. fold p n in Hfw.
    replace (p + 1 + (i - (p + 1))) with i in Hfw by lia.
    assert (E : nthZ 0 (mmu_words base xl cws) i = nthZ 0 cws (i - (p + 1))).
    { replace i with (p + (i - p)) at 1 by lia. unfold p. rewrite mmu_words_nth by (fold p; lia). fold p. unfold nthZ.
      replace (Z.to_nat (i - p)) with (S (Z.to_nat (i - (p + 1)))) by lia.
      cbn [nth]. by rewrite app_nth1 by lia. }
    rewrite E. done.
  - replace (p + 1 + Z.of_nat n) with (p + (Z.of_nat n + 1)) by lia. unfold p. rewrite mmu_words_nth by lia.
    unfold nthZ. replace (Z.to_nat (Z.of_nat n + 1)) with (S n) by lia. cbn [nth].
    rewrite app_nth2 by lia. by replace (n - List.length cws)%nat with O by lia.
Qed.

(** The whole run: the prefix in machine mode, then the body in user mode. *)
Lemma mmu_runs base xl cws : xl = 32 \/ xl = 64 -> 4 <= base <= 2040 -> Z.of_nat (List.length cws) <= 960 ->
  user_body xl cws ->
  let ws := mmu_words base xl cws in
  exists s k, run (List.length ws) ws (Z.of_nat (List.length ws)) (init (mmu_mem_size xl) xl) = Returned s k /\
    pc s = 4 * (Z.of_nat (List.length ws) - 1) /\ k < Z.of_nat (List.length ws) /\ user_state base xl s.
Proof.
  intros Hx Hb Hn Hu ws. pose proof (mmu_user_program base xl cws Hx Hn Hu) as Hup. cbv zeta in Hup. fold ws in Hup.
  pose proof (mmu_words_nth base xl cws 0 ltac:(done)) as E0. rewrite Z.add_0_r in E0.
  change (nthZ 0 ws (Z.of_nat (entry_index xl)) = base_word base) in E0.
  set (p := entry_index xl) in *. set (n := List.length cws) in *.
  assert (Hlen : List.length ws = (p + S (n + 1))%nat).
  { unfold ws, mmu_words. rewrite length_app. cbn [List.length]. rewrite length_app. unfold p, n, entry_index. cbn. lia. }
  pose proof (entry_env xl Hx) as He. pose proof (ue_plain _ _ He) as [Hw _].
  destruct (entry_state xl Hx) as (_ & _ & Hpc & _ & _). fold p in Hpc.
  assert (Hp22 : 4 * Z.of_nat p < 4096) by (unfold p; destruct Hx as [-> | ->]; vm_compute; reflexivity).
  unfold run. rewrite Hlen. rewrite (run_loop_app p (S (n + 1)) (prefix_words xl) (base_word base :: cws ++ [0x0000006F]) 100
    (Z.of_nat (p + S (n + 1))) _ 0 (user_entry xl) (Z.of_nat p)); [|by destruct Hx as [-> | ->]; vm_compute|by apply prefix_runs|lia].
  fold (mmu_words base xl cws). fold ws. generalize dependent (user_entry xl). intros s He Hw Hpc.
  cbn [run_loop]. destruct (Z.ltb_spec (Z.of_nat p) (Z.of_nat (p + S (n + 1)))) as [_|]; [|lia].
  rewrite (user_turn xl ws s (Z.of_nat p) (Z.of_nat p)) by (done || lia).
  rewrite E0, base_no_loop, base_step by (done || lia).
  assert (Hs1 : user_state base xl (retire s 31 base)).
  { split; [by apply user_env_retire|]. unfold retire. change (Machine.reg (wr s 31 base) 31 = base).
    rewrite reg_wr_eq by done. apply (uxlen_u32 s base Hw). change (2 ^ 32) with 4294967296. lia. }
  destruct (run_user base xl ltac:(lia) (n + 1) (Z.of_nat p + 1) (Z.of_nat p + 1 + Z.of_nat n) ws Hup (retire s 31 base)
    (Z.of_nat p + 1) (Z.of_nat p + 1) (Z.of_nat (p + S (n + 1)))) as (s2 & k & Hr & Hpc2 & Hk & Hs2);
    [done|cbn [retire pc set_pc]; lia|lia|lia|lia|].
  exists s2, k. split_and!; [exact Hr|lia|lia|exact Hs2].
Qed.

(** [C5] Every program of the translation mode that the budget check lets
    through, for any number of random instructions and a data base in the
    twelve bits of its [addi]: whatever the random source draws, either the
    program assembles and its prefix hands over to the body, or it has more
    than 1024 instructions and the assembler raises the [ValueError] of a jump
    out of reach. When it assembles, the run reaches the instruction after
    the prefix in user mode, whatever the step limit, and there the page
    table it built maps exactly the first page, each address to itself, for
    fetches, loads and stores; any other address faults. At XLEN=64 no address
    is translated at all: [csr_write] has cut the mode field off [satp]. *)
Theorem mmu_program_enters_user n base xl (g : G) :
  xl = 32 \/ xl = 64 -> -2048 <= base <= 2047 -> 0 <= n ->
  let m := if xl =? 32 then 8192 else 16384 in
  let p := if xl =? 32 then 13 else 22 in
  let len := p + n + overhead xl false in
  budget n xl 0 true false <= m `div` 4 ->
  exists lines g', gen_lines n base m None true xl false g = Ok ((lines, None), g') /\
    match assemble lines xl with
    | Ok ws => Z.of_nat (List.length ws) = len /\
        exists s, (forall fuel max_steps, p < max_steps ->
            run (Z.to_nat p + fuel) ws max_steps (init m xl) = run_loop fuel ws max_steps s p) /\
          pc s = 4 * p /\ priv_mode s = PRIV_U /\
          (forall va acc, 0 <= va < 2 ^ xl ->
             translate s va acc = if (xl =? 64) || (va <? 4096) then (Some va, s) else page_fault s acc va)
    | Raise e => 1024 < len /\ out_of_reach e
    end.
Proof.
  intros Hx Hb Hn m p len Hbud. pose proof (entry_count xl Hx) as Ep. fold p in Ep.
  assert (Em : m = mmu_mem_size xl) by done. rewrite Em in Hbud.
  destruct (mmu_generates n base xl Hx Hb Hn Hbud g) as ([lines info] & g' & E & Ei & Hr).
  cbn [fst snd] in *. subst info. exists lines, g'. split; [exact E|].
  destruct (assemble lines xl) as [ws|e]; [|destruct Hr as [Hr1 Hr2]; split; [unfold len; lia|exact Hr2] ].
  destruct Hr as (cws & -> & Hl & _). destruct (entry_state xl Hx) as (_ & Hpr & Hpc & _ & _).
  split; [rewrite mmu_words_length by done; fold p; unfold len; lia|].
  exists (user_entry xl). split; [|split; [|split; [exact Hpr|] ] ].
  - intros fuel max Hmax. rewrite <- Ep, Nat2Z.id, Em. unfold run, mmu_words.
    apply (run_loop_app (entry_index xl) fuel _ _ 100); [|by apply prefix_runs|lia].
    destruct Hx as [-> | ->]; vm_compute; discriminate.
  - by rewrite Hpc, Ep.
  - intros va acc Hva. by apply entry_translate.
Qed.

(** [C6] Every program of the translation mode with at most 900 random
    instructions, so that it fits the page it maps, and a data base that
    leaves the two page-table entries alone, from 4 to 2040, runs to its halt
    loop, in user mode, without a page fault: whatever the random source
    draws, the simulator executes each instruction at most once, the base
    register is kept, and at the end the first page is still mapped to
    itself. *)
Theorem mmu_program_halts n base xl (g : G) :
  xl = 32 \/ xl = 64 -> 4 <= base <= 2040 -> 0 <= n <= 900 ->
  let m := if xl =? 32 then 8192 else 16384 in
  exists lines g' ws s k,
    gen_lines n base m None true xl false g = Ok ((lines, None), g') /\
    assemble lines xl = Ok ws /\
    run (List.length ws) ws (Z.of_nat (List.length ws)) (init m xl) = Returned s k /\
    pc s = 4 * (Z.of_nat (List.length ws) - 1) /\ k < Z.of_nat (List.length ws) /\
    priv_mode s = PRIV_U /\ Machine.reg s BASE_REG = base /\
    (forall va acc, 0 <= va < 4096 -> translate s va acc = (Some va, s)).
Proof.
  intros Hx Hb Hn m. assert (Em : m = mmu_mem_size xl) by done.
  pose proof (overhead_range xl false Hx) as Hov. pose proof (mmu_budget n xl Hx). pose proof (mmu_memory xl Hx).
  destruct (mmu_generates n base xl Hx ltac:(lia) ltac:(lia) ltac:(lia) g) as ([lines info] & g' & E & Ei & Hr).
  cbn [fst snd] in *. subst info. pose proof (entry_count xl Hx) as Ep.
  apply reaches_Ok in Hr as (ws & Ea & cws & -> & Hl & Hu); [|destruct Hx as [-> | ->]; cbn in Ep; lia].
  destruct (mmu_runs base xl cws Hx Hb ltac:(lia) Hu) as (s & k & Hrun & Hpc & Hk & Hs & Hreg).
  exists lines, g', (mmu_words base xl cws), s, k. rewrite Em.
  split_and!; [exact E|exact Ea|exact Hrun|exact Hpc|exact Hk|exact (ue_priv _ _ Hs)|exact Hreg|].
  intros va acc Hva. by apply (user_translate xl).
Qed.
End Translation.

Lemma mmu_program_enters_user_witness :
  exists lines g', gen_lines 4 32 8192 None true 32 false 7 = Ok ((lines, None), g') /\
    match assemble lines 32 with
    | Ok ws => Z.of_nat (List.length ws) = 13 + 4 + overhead 32 false /\
        exists s, (forall fuel max_steps, 13 < max_steps ->
            run (Z.to_nat 13 + fuel) ws max_steps (init 8192 32) = run_loop fuel ws max_steps s 13) /\
          pc s = 4 * 13 /\ priv_mode s = PRIV_U /\
          (forall va acc, 0 <= va < 2 ^ 32 ->
             translate s va acc = if (32 =? 64) || (va <? 4096) then (Some va, s) else page_fault s acc va)
    | Raise e => 1024 < 13 + 4 + overhead 32 false /\ out_of_reach e
    end.
Proof. apply (mmu_program_enters_user (G := Z) 4 32 32 7); [by left|lia|lia|vm_compute; discriminate]. Defined.

Lemma mmu_program_halts_witness :
  exists lines g' ws s k,
    gen_lines 4 32 8192 None true 32 false 7 = Ok ((lines, None), g') /\ assemble lines 32 = Ok ws /\
    run (List.length ws) ws (Z.of_nat (List.length ws)) (init 8192 32) = Returned s k /\
    pc s = 4 * (Z.of_nat (List.length ws) - 1) /\ k < Z.of_nat (List.length ws) /\
    priv_mode s = PRIV_U /\ Machine.reg s BASE_REG = 32 /\
    (forall va acc, 0 <= va < 4096 -> translate s va acc = (Some va, s)).
Proof. apply (mmu_program_halts (G := Z) 4 32 32 7); [by left|lia|lia]. Defined.
