(* ===== verification/Harness.v ===== *)
(** * The cross-check harness

    [sim/tools/run_random_tests.py]: generate a program, assemble it to a
    memory image, load the image, run the reference simulator, run the
    Verilog simulation, and compare the final states.  The random source is
    the interface [Random]; the Verilog tools are a parameter, and so is the
    text Python prints for an uncaught exception. *)

From S2P Require Import Prelude Words PyStr Machine Mmu Step StepFacts Run Asm AsmText MemImage WordRange.
From S2P Require Import Progress Layout RandomGen GenFacts.
#[local] Open Scope string_scope.
#[local] Open Scope Z_scope.
#[local] Open Scope list_scope.

Definition SCALEUP_WINDOW_BYTES : Z := 65536.

(** ** Definitions: Python *)

(** [str(e)]. *)
Definition exn_str (e : exn) : string :=
  match e with
  | KeyError k => k
  | ValueError m | IndexError m | RuntimeError m | AssertionError m | AttributeError m | UnicodeError m | StructError m
  | ZeroDivisionError m => m
  | TypeError m => m
  end.

(** [s[:n]]. *)
Fixpoint str_take (n : nat) (s : string) : string :=
  match n, s with S n', String c s' => String c (str_take n' s') | _, _ => "" end.

(** [sub in s]. *)
Fixpoint contains (sub s : string) : bool :=
  String.prefix sub s || match s with "" => false | String _ s' => contains sub s' end.

(** ** Definitions: the result of one seed *)

Inductive verdict :=
| Pass
| Fail (msg : string)
| Hangs.

(** What the two Verilog tools do with the testbench and the image: the
    compiler's run, the simulator's run and the dump file, if written. *)
Record rtl_run := {
  iverilog : process unit;
  vvp : process string;
  dump : option (list string)
}.

(** ** Definitions: comparison *)

(** [for i in range(n): if rtl[i] != iss[i]: mismatches.append(...)]. *)
Definition compare_list (n : Z) (message : Z -> Z -> Z -> string) (rtl iss : list Z) : result (list string) :=
  l ← mapR (fun i => a ← list_get rtl (Z.to_nat i); b ← list_get iss (Z.to_nat i);
                     Ok (if negb (a =? b) then [message i a b] else [])) (range n);
  Ok (List.concat l).

Definition compare_one (message : Z -> Z -> string) (a b : Z) : list string :=
  if negb (a =? b) then [message a b] else [].

Definition x_message (i a b : Z) : string :=
  "x" +:+ fmt_d i +:+ ": RTL=" +:+ fmt_hash_x a +:+ " ISS=" +:+ fmt_hash_x b.
Definition mem_message (i a b : Z) : string :=
  "mem[" +:+ fmt_d i +:+ "]: RTL=" +:+ fmt_hash_x a +:+ " ISS=" +:+ fmt_hash_x b.
Definition f_message (i a b : Z) : string :=
  "f" +:+ fmt_d i +:+ ": RTL=" +:+ fmt_hash_0x 10 a +:+ " ISS=" +:+ fmt_hash_0x 10 b.
Definition named_message (name : string) (a b : Z) : string :=
  name +:+ ": RTL=" +:+ fmt_hash_x a +:+ " ISS=" +:+ fmt_hash_x b.

Definition report (mismatches : list string) : verdict :=
  match mismatches with
  | [] => Pass
  | _ => Fail (String.concat "; " (take 8 mismatches)
               +:+ (if (8 <? List.length mismatches)%nat then " ..." else ""))
  end.

(** [[int(l.strip()) & reg_mask for l in f if l.strip()]]. *)
Definition dump_values (xlen : Z) (file : list string) : result (list Z) :=
  let reg_mask := (1 << xlen) - 1 in
  mapR (fun l => v ← int_base10 l; Ok (v .& reg_mask)) (stripped_lines file).

(** Registers, memory and float registers against the simulator's. *)
Definition compare_state (s : ISS) (vals : list Z) (window : Z) : result (list string) :=
  a ← compare_list 32 x_message (slice vals 0 32) (regs s);
  b ← compare_list window mem_message (slice vals 32 (32 + window)) (mem s);
  c ← compare_list 32 f_message (slice vals (32 + window) (32 + window + 32)) (fregs s);
  Ok (a ++ b ++ c).

(** The checks common to both harness functions before the dump is read. *)
Definition tool_failure (r : rtl_run) : option string :=
  if negb (returncode (iverilog r) =? 0) then
    Some ("compile error: " +:+ str_take 500 (strip (stderr (iverilog r))))
  else
    let failed := Some ("simulation error: " +:+ str_take 500 (strip (output (vvp r))) +:+ " "
                        +:+ str_take 500 (strip (stderr (vvp r)))) in
    if negb (returncode (vvp r) =? 0) then failed
    else match dump r with None => failed | Some _ => None end.

Definition dump_lines (r : rtl_run) : list string := default [] (dump r).

(** The tail of [run_one_ooo]. *)
Definition judge_ooo (mem_size xlen : Z) (r : rtl_run) (s : ISS) : result verdict :=
  match tool_failure r with
  | Some m => Ok (Fail m)
  | None =>
      if contains "TIMEOUT" (output (vvp r)) then
        Ok (Fail ("RTL never reached target retirement count: " +:+ str_take 300 (strip (output (vvp r)))))
      else
        vals ← dump_values xlen (dump_lines r);
        mismatches ← compare_state s vals mem_size;
        Ok (report mismatches)
  end.

(** The tail of [run_one]: [fflags] and [frm] follow the float registers. *)
Definition judge (mem_window xlen : Z) (r : rtl_run) (s : ISS) : result verdict :=
  match tool_failure r with
  | Some m => Ok (Fail m)
  | None =>
      vals ← dump_values xlen (dump_lines r);
      rtl_fflags ← list_get vals (Z.to_nat (32 + mem_window + 32));
      rtl_frm ← list_get vals (Z.to_nat (32 + mem_window + 33));
      mismatches ← compare_state s vals mem_window;
      Ok (report (mismatches ++ compare_one (named_message "fflags") rtl_fflags (fflags s)
                  ++ compare_one (named_message "frm") rtl_frm (frm s)))
  end.

(** ** Definitions: one seed *)

(** The knobs of the pipelined core the testbench is instantiated with. *)
Record knobs := {
  hazard_strategy : Z; pipeline_profile : Z; branch_predictor : Z; cache_mode : Z;
  replacement_policy : Z; victim_entries : Z; mem_latency_i : Z; mem_latency_d : Z;
  burst_enable : Z; mem_latency_d_burst : Z; mshr_entries : Z;
  l2_size : Z; l2_ways : Z; l2_replacement : Z; prefetch_mode : Z
}.

(** [tpl.replace(k, v)] for each placeholder in turn. *)
Definition substitute (tpl : string) (substs : list (string * string)) : string :=
  fold_left (fun t '(k, v) => replace k v t) substs tpl.

Section Seeds.
Context {G : Type} `{Random G}.
Context (traceback : exn -> string).
Context (rtl : string -> list string -> rtl_run).
Context (template init_file out_path : string).

(** What [asm.py] prints on stderr: its own message for a rejected source, a
    traceback for anything else. *)
Definition asm_stderr (lines : list string) (xlen : Z) (e : exn) : string :=
  match assemble lines xlen, e with
  | Raise (ValueError m), _ => "asm error: " +:+ m
  | _, e => traceback e
  end.

Definition max_time_of (real_n_instrs : Z) : Z := (real_n_instrs * 70 + 200) * 10.

Definition ooo_substs (max_time mem_size xlen target_retired : Z) : list (string * string) :=
  [("__INIT_FILE__", init_file); ("__MAX_TIME__", fmt_d max_time); ("__OUT_FILE__", out_path);
   ("__MEM_SIZE__", fmt_d mem_size); ("__XLEN__", fmt_d xlen);
   ("__TARGET_RETIRED__", fmt_d target_retired)].

(** The reference run: [iss.run(words, max_steps=5000)], whose exceptions
    become the verdict. *)
Definition reference (fuel : nat) (words : list Z) (s : ISS) (k : ISS -> result verdict) : result verdict :=
  match run fuel words 5000 s with
  | Returned s' _ => k s'
  | Raised e => Ok (Fail ("ISS error: " +:+ exn_str e))
  | Running _ _ => Ok Hangs
  end.

Definition run_one_ooo (fuel : nat) (g : G) (n_instrs mem_size xlen : Z) : result verdict :=
  '((lines, _), _) ← gen_lines n_instrs 32 mem_size None false xlen true g;
  match asm_main lines mem_size xlen with
  | Raise e => Ok (Fail ("assembler error: " +:+ strip (asm_stderr lines xlen e)))
  | Ok (image, real_n_instrs) =>
      let target_retired := real_n_instrs - OOO_TRAILER_NOP_COUNT in
      if target_retired <=? 0 then
        Ok (Fail ("real_n_instrs=" +:+ fmt_d real_n_instrs +:+ " <= OOO_TRAILER_NOP_COUNT="
                  +:+ fmt_d OOO_TRAILER_NOP_COUNT))
      else
        words ← load_words image;
        reference fuel words (init mem_size xlen) (fun s =>
          let tpl := substitute template
                       (ooo_substs (max_time_of real_n_instrs) mem_size xlen target_retired) in
          judge_ooo mem_size xlen (rtl tpl image) s)
  end.

Definition knob_substs (c : knobs) (max_time mem_size dump_window xlen : Z) (uart_stimulus : string) :
    list (string * string) :=
  [("__INIT_FILE__", init_file); ("__MAX_TIME__", fmt_d max_time); ("__OUT_FILE__", out_path);
   ("__HAZARD_STRATEGY__", fmt_d (hazard_strategy c)); ("__PIPELINE_PROFILE__", fmt_d (pipeline_profile c));
   ("__MEM_SIZE__", fmt_d mem_size); ("__DUMP_WINDOW__", fmt_d dump_window);
   ("__BRANCH_PREDICTOR__", fmt_d (branch_predictor c)); ("__CACHE_MODE__", fmt_d (cache_mode c));
   ("__REPLACEMENT_POLICY__", fmt_d (replacement_policy c)); ("__VICTIM_ENTRIES__", fmt_d (victim_entries c));
   ("__MSHR_ENTRIES__", fmt_d (mshr_entries c)); ("__L2_SIZE_BYTES__", fmt_d (l2_size c));
   ("__L2_WAYS__", fmt_d (l2_ways c)); ("__L2_REPLACEMENT_POLICY__", fmt_d (l2_replacement c));
   ("__BURST_ENABLE__", fmt_d (burst_enable c)); ("__MEM_LATENCY_D_BURST__", fmt_d (mem_latency_d_burst c));
   ("__MEM_LATENCY_I__", fmt_d (mem_latency_i c)); ("__MEM_LATENCY_D__", fmt_d (mem_latency_d c));
   ("__XLEN__", fmt_d xlen); ("__PREFETCH_MODE__", fmt_d (prefetch_mode c));
   ("__UART_STIMULUS__", uart_stimulus)].

Definition uart_stimulus_of (interrupt : option string) : string :=
  match interrupt with
  | Some source =>
      if in_names source ["uart"; "both"] then
        "repeat (5) @(posedge clk);" +:+ newline +:+ "        drive_rx_byte(8'hA5);"
      else ""
  | None => ""
  end.

(** [windowed]: the template is the one that dumps [dump_window] bytes. *)
Definition run_one (fuel : nat) (g : G) (n_instrs mem_size : Z) (interrupt : option string) (mmu : bool)
    (xlen : Z) (c : knobs) (windowed : bool) : result verdict :=
  '((lines, interrupt_info), _) ← gen_lines n_instrs 32 mem_size interrupt mmu xlen false g;
  let dump_window := Z.min mem_size SCALEUP_WINDOW_BYTES in
  match asm_main lines dump_window xlen with
  | Raise e => Ok (Fail ("assembler error: " +:+ strip (asm_stderr lines xlen e)))
  | Ok (image, real_n_instrs) =>
      words ← load_words image;
      let iss := init mem_size xlen in
      let iss := match interrupt_info with
                 | Some i => schedule_interrupt iss (after i) (cause i)
                 | None => iss
                 end in
      reference fuel words iss (fun s =>
        let max_time := max_time_of real_n_instrs + (if truthy (cache_mode c) then 4000 else 0) in
        let tpl := substitute template
                     (knob_substs c max_time mem_size dump_window xlen (uart_stimulus_of interrupt)) in
        let mem_window := if windowed then dump_window else mem_size in
        judge mem_window xlen (rtl tpl image) s)
  end.
End Seeds.

(** ** Padding *)

(** Zero words after a forward-only program leave it forward-only. *)
Lemma forward_program_pad xl n ws zs : forward_program xl n ws -> forward_program xl n (ws ++ zs).
Proof.
  intros [Hl Hr Hb Hh].
  assert (Hn : forall i, 0 <= i <= n -> nthZ 0 (ws ++ zs) i = nthZ 0 ws i).
  { intros i Hi. unfold nthZ. apply app_nth1. lia. }
  split; [rewrite length_app; lia|done| |].
  - intros i Hi. rewrite Hn by lia. by apply Hb.
  - by rewrite Hn by lia.
Qed.

(** ** The reference run *)

Section Reference.
Context {G : Type} `{RandomLaws G}.

(** A generated program that fits is assembled, written, loaded and run to
    its halt loop. *)
Lemma reference_runs n mem_size size xl (ooo : bool) (g : G) :
  xl = 32 \/ xl = 64 -> 0 <= n <= 900 -> mem_size < 2 ^ 32 ->
  budget n xl 0 false ooo <= mem_size `div` 4 -> 4 * (n + overhead xl ooo) <= size ->
  exists lines g' image words s, 
    gen_lines n 32 mem_size None false xl ooo g = Ok ((lines, None), g') /\
    asm_main lines size xl = Ok (image, n + overhead xl ooo) /\
    load_words image = Ok words /\
    (forall fuel, (1000 < fuel)%nat -> exists k, run fuel words 5000 (init mem_size xl) = Returned s k) /\
    wf s /\ pc s = 4 * (n + overhead xl ooo - 1) /\ priv_mode s = PRIV_M.
Proof.
  intros Hx Hn Hm Hbud Hfit.
  destruct (gen_lines_forward n 32 mem_size xl ooo Hx ltac:(lia) Hn Hm Hbud g) as ([lines info] & g' & E & -> & ws & Ews & Hl & Hf).
  assert (Hov : 0 < overhead xl ooo <= 41) by (unfold overhead; destruct Hx as [-> | ->], ooo; cbn; lia).
  assert (H32 : Forall (in_width 32) ws) by (by apply (assembled_fit lines xl)).
  set (words := ws ++ replicate (Z.to_nat (size `div` 4) - List.length ws) 0).
  assert (Hw : wf (init mem_size xl)).
  { apply wf_init; [done|]. assert (0 < budget n xl 0 false ooo).
    { unfold budget, OOO_TRAILER_NOP_COUNT. cbn. destruct ooo, (xl >=? 64); lia. }
    assert (2 ^ 32 <= 2 ^ xl) by (destruct Hx as [-> | ->]; done).
    pose proof (Z.mul_div_le mem_size 4 ltac:(done)). lia. }
  pose proof (forward_program_pad _ _ ws (replicate (Z.to_nat (size `div` 4) - List.length ws) 0) Hf) as Hp.
  fold words in Hp.
  assert (Hrun : forall fuel, (1000 < fuel)%nat -> exists s k, run fuel words 5000 (init mem_size xl) = Returned s k /\
      wf s /\ pc s = 4 * (n + overhead xl ooo - 1) /\ priv_mode s = PRIV_M).
  { intros fuel Hfu.
    destruct (run_forward fuel xl _ words Hp (init mem_size xl) 0 0 5000 Hw) as (s & k & Hr & Hpc & _ & Hws & Hpm);
      [done|done|done|done|lia|lia|lia|]. by exists s, k. }
  destruct (Hrun 1001%nat ltac:(lia)) as (s & k & Hr & Hws & Hpc & Hpm).
  destruct (asm_main_loads lines size xl ws Ews ltac:(lia)) as (image & Ea & Eload). fold words in Eload.
  exists lines, g', image, words, s.
  split; [exact E|]. split; [by rewrite Ea, Hl|]. split; [exact Eload|].
  split; [|done]. intros fuel Hfu. exists k. pose proof (run_loop_mono 1001 fuel words 5000 (init mem_size xl) 0 ltac:(lia)) as Hmono.
    unfold run in *. by rewrite Hr in Hmono.
Qed.
End Reference.

(** ** The memory a run leaves *)

Lemma run_mem_length fuel words max_steps : forall s steps s' k,
  wf s -> run_loop fuel words max_steps s steps = Returned s' k ->
  List.length (mem s') = List.length (mem s).
Proof.
  induction fuel as [|fuel IH]; intros s steps s' k Hs; cbn [run_loop]; [done|].
  destruct (steps <? max_steps); [|done].
  pose proof (wf_run_turn words s steps Hs) as Ht. unfold run_turn in *.
  assert (Htrap : forall c t, mem (trap s c t) = mem s) by (intros c t; unfold trap; destruct (trap_to_s s c); reflexivity).
  destruct (interrupt_due s steps) as [c|].
  { intros H. apply IH in H; [|apply Ht]. change (mem (set_pending (trap s c 0) None)) with (mem (trap s c 0)) in H. by rewrite H, Htrap. }
  destruct (translate s (pc s) fetch) as [r s1] eqn:E.
  destruct (translate_cases s (pc s) fetch r s1 Hs E) as [(pa & -> & -> & _)|(t & -> & ->)].
  - destruct (pa >=? _); [by intros [= <- _]|]. cbv zeta in *. destruct (self_loop _); [by intros [= <- _]|].
    destruct (step s _) as [s2|] eqn:Es; [|done]. intros H. apply IH in H; [|apply Ht].
    destruct (step_fixed s _ s2 Hs Es) as (_ & _ & Hm). by rewrite H.
  - intros H. apply IH in H; [|apply Ht]. by rewrite H, Htrap.
Qed.

(** ** Comparison *)

Lemma list_get_lookup {A} (l : list A) i :
  list_get l i = match l !! i with Some v => Ok v | None => Raise (IndexError "list index out of range") end.
Proof.
  unfold list_get. assert (E : nth_error l i = l !! i); [|by rewrite E].
  revert i. induction l as [|x l IH]; intros [|i]; try done. apply IH.
Qed.

Lemma compare_list_nil n message rtl iss :
  0 <= n -> n <= Z.of_nat (List.length iss) ->
  compare_list n message rtl iss = Ok [] <->
  forall i, 0 <= i < n -> rtl !! Z.to_nat i = iss !! Z.to_nat i.
Proof.
  intros Hn Hl. unfold compare_list. split.
  - intros (l & Hm & Hc%Ok_inj)%bind_Ok i Hi.
    assert (Hi' : i ∈ range n) by (by apply elem_of_range).
    clear Hl. revert l Hm Hc Hi'. induction (range n) as [|j r IH]; intros l; cbn [mapR].
    { intros _ _ Hin. by apply elem_of_nil in Hin. }
    intros (x & Hx & (l' & Hl' & <-%Ok_inj)%bind_Ok)%bind_Ok [Hx0 Hc]%app_eq_nil [->|Hin]%elem_of_cons; [|by eapply IH].
    apply bind_Ok in Hx as (a & Ha & (b & Hb & E%Ok_inj)%bind_Ok). rewrite list_get_lookup in Ha, Hb.
    destruct (rtl !! _), (iss !! _); try done.
    apply Ok_inj in Ha as ->. apply Ok_inj in Hb as ->.
    destruct (Z.eqb_spec a b) as [->|]; [done|]. subst x. discriminate Hx0.
  - intros H. assert (E : forall r, (forall i, i ∈ r -> 0 <= i < n) ->
      mapR (fun i => a ← list_get rtl (Z.to_nat i); b ← list_get iss (Z.to_nat i);
                     Ok (if negb (a =? b) then [message i a b] else [])) r = Ok (map (fun _ => []) r)).
    { induction r as [|i r IH]; intros Hr; [done|]. cbn [mapR map].
      assert (Hi : 0 <= i < n) by (apply Hr; by left).
      destruct (lookup_lt_is_Some_2 iss (Z.to_nat i)) as [v Hv]; [lia|].
      rewrite !list_get_lookup, H, Hv by done. cbn [mbind result_bind].
      rewrite Z.eqb_refl. cbn [negb]. rewrite IH; [done|]. intros j Hj. apply Hr. by right. }
    rewrite E by (intros i Hi; by apply elem_of_range). cbn [mbind result_bind]. f_equal.
    induction (range n) as [|i r IH]; [done|]. cbn. exact IH.
Qed.

Lemma lookup_slice {A} (l : list A) a b i : 0 <= a -> 0 <= i -> i < b - a -> 
  slice l a b !! Z.to_nat i = l !! Z.to_nat (a + i).
Proof.
  intros Ha Hi Hb. unfold slice, slice_index.
  destruct (Z.ltb_spec a 0); [lia|]. destruct (Z.ltb_spec b 0); [lia|].
  destruct (decide (Z.to_nat (a + i) < List.length l)%nat) as [Hl|Hl].
  - rewrite lookup_take_lt by lia. rewrite lookup_drop. f_equal. lia.
  - rewrite (lookup_ge_None_2 l) by lia. apply lookup_ge_None_2. rewrite length_take, length_drop. lia.
Qed.

(** The values of a dump agree with the state: the registers, [w] bytes of
    the memory and the float registers, in this order. *)
Definition dump_agrees (s : ISS) (w : Z) (vals : list Z) : Prop :=
  (forall i, 0 <= i < 32 -> vals !! Z.to_nat i = Some (Machine.reg s i)) /\
  (forall i, 0 <= i < w -> vals !! Z.to_nat (32 + i) = mem s !! Z.to_nat i) /\
  (forall i, 0 <= i < 32 -> vals !! Z.to_nat (32 + w + i) = Some (Machine.freg s i)).

Lemma nth_reg l i : List.length l = 32%nat -> 0 <= i < 32 -> l !! Z.to_nat i = Some (nthZ 0 l i).
Proof.
  intros Hl Hi. unfold nthZ. destruct (lookup_lt_is_Some_2 l (Z.to_nat i)) as [v Hv]; [lia|].
  by rewrite nth_lookup, Hv.
Qed.

Lemma compare_state_nil s vals m : wf s -> 0 <= m <= Z.of_nat (List.length (mem s)) ->
  (compare_state s vals m = Ok [] <-> dump_agrees s m vals).
Proof.
  intros Hs Hm.
  pose proof (wf_regs_len s Hs) as Hr. pose proof (wf_fregs_len s Hs) as Hf.
  pose proof (compare_list_nil 32 x_message (slice vals 0 32) (regs s) ltac:(lia) ltac:(lia)) as C1.
  pose proof (compare_list_nil m mem_message (slice vals 32 (32 + m)) (mem s) ltac:(lia) ltac:(lia)) as C2.
  pose proof (compare_list_nil 32 f_message (slice vals (32 + m) (32 + m + 32)) (fregs s) ltac:(lia) ltac:(lia)) as C3.
  assert (D1 : compare_list 32 x_message (slice vals 0 32) (regs s) = Ok [] <->
    forall i, 0 <= i < 32 -> vals !! Z.to_nat i = Some (Machine.reg s i)).
  { rewrite C1. split; intros H i Hi; specialize (H i Hi); rewrite lookup_slice in * by lia;
      rewrite (nth_reg (regs s)) in * by done; exact H. }
  assert (D2 : compare_list m mem_message (slice vals 32 (32 + m)) (mem s) = Ok [] <->
    forall i, 0 <= i < m -> vals !! Z.to_nat (32 + i) = mem s !! Z.to_nat i).
  { rewrite C2. split; intros H i Hi; specialize (H i Hi); rewrite lookup_slice in * by lia; exact H. }
  assert (D3 : compare_list 32 f_message (slice vals (32 + m) (32 + m + 32)) (fregs s) = Ok [] <->
    forall i, 0 <= i < 32 -> vals !! Z.to_nat (32 + m + i) = Some (Machine.freg s i)).
  { rewrite C3. split; intros H i Hi; specialize (H i Hi); rewrite lookup_slice in * by lia;
      rewrite (nth_reg (fregs s)) in * by done; exact H. }
  unfold dump_agrees, compare_state. rewrite <- D1, <- D2, <- D3. clear. split.
  - intros (a & Ha & (b & Hb & (c & Hc & E%Ok_inj)%bind_Ok)%bind_Ok)%bind_Ok.
    apply app_eq_nil in E as [-> [-> ->]%app_eq_nil]. exact (conj Ha (conj Hb Hc)).
  - intros (-> & -> & ->). reflexivity.
Qed.

Lemma report_pass l : report l = Pass <-> l = [].
Proof. by destruct l. Qed.

Lemma judge_ooo_pass mem_size xl r s : wf s -> 0 <= mem_size <= Z.of_nat (List.length (mem s)) ->
  judge_ooo mem_size xl r s = Ok Pass <->
  tool_failure r = None /\ contains "TIMEOUT" (output (vvp r)) = false /\
  exists vals, dump_values xl (dump_lines r) = Ok vals /\ dump_agrees s mem_size vals.
Proof.
  intros Hs Hm. unfold judge_ooo. destruct (tool_failure r); [by split; [|intros (? & _)]|].
  destruct (contains _ _); [by split; [|intros (_ & ? & _)]|].
  destruct (dump_values xl (dump_lines r)) as [vals|]; cbn [mbind result_bind].
  - pose proof (compare_state_nil s vals mem_size Hs Hm) as Hc.
    destruct (compare_state s vals mem_size) as [l|].
    + split.
      * intros H%Ok_inj%report_pass. split_and!; [reflexivity..|]. exists vals. split; [reflexivity|].
        apply Hc. by rewrite H.
      * intros (_ & _ & v & <-%Ok_inj & Ha). apply Hc in Ha. by injection Ha as ->.
    + split; [done|]. intros (_ & _ & v & <-%Ok_inj & Ha). by apply Hc in Ha.
  - split; [done|]. by intros (_ & _ & v & ? & _).
Qed.

Lemma judge_pass w xl r s : wf s -> 0 <= w <= Z.of_nat (List.length (mem s)) ->
  judge w xl r s = Ok Pass <->
  tool_failure r = None /\
  exists vals, dump_values xl (dump_lines r) = Ok vals /\ dump_agrees s w vals /\
    vals !! Z.to_nat (32 + w + 32) = Some (fflags s) /\ vals !! Z.to_nat (32 + w + 33) = Some (frm s).
Proof.
  intros Hs Hm. unfold judge. destruct (tool_failure r); [by split; [|intros (? & _)]|].
  destruct (dump_values xl (dump_lines r)) as [vals|]; cbn [mbind result_bind];
    [|split; [done|by intros (_ & v & ? & _)]].
  pose proof (compare_state_nil s vals w Hs Hm) as Hc. rewrite !list_get_lookup. split.
  - intros (a & Ha & (b & Hb & (l & Hl & H%Ok_inj%report_pass)%bind_Ok)%bind_Ok)%bind_Ok. split; [reflexivity|].
    exists vals. split; [reflexivity|]. apply app_eq_nil in H as [-> [H1 H2]%app_eq_nil].
    split; [by apply Hc|]. unfold compare_one in *.
    destruct (Z.eqb_spec a (fflags s)) as [->|]; [|discriminate H1].
    destruct (Z.eqb_spec b (frm s)) as [->|]; [|discriminate H2].
    destruct (vals !! Z.to_nat (32 + w + 32)); [|done]. destruct (vals !! Z.to_nat (32 + w + 33)); [|done].
    apply Ok_inj in Ha as ->. apply Ok_inj in Hb as ->. done.
  - intros (_ & v & <-%Ok_inj & Ha & -> & ->). apply Hc in Ha. rewrite Ha. cbn [mbind result_bind app].
    unfold compare_one. rewrite !Z.eqb_refl. reflexivity.
Qed.

(** ** The verdicts *)

Section Verdicts.
Context {G : Type} `{RandomLaws G}.
Context (traceback : exn -> string) (rtl : string -> list string -> rtl_run).
Context (template init_file out_path : string).

(** What the reference side of a seed produces: the image of the program and
    the state the simulator ends in. *)
Definition reference_of (lines : list string) (size xl mem_size : Z) (image : list string) (s : ISS) : Prop :=
  exists N words, asm_main lines size xl = Ok (image, N) /\ load_words image = Ok words /\
    exists k, run 1001 words 5000 (init mem_size xl) = Returned s k.

Lemma init_run_length mem_size xl words s k : wf (init mem_size xl) -> 0 <= mem_size ->
  run 1001 words 5000 (init mem_size xl) = Returned s k -> Z.of_nat (List.length (mem s)) = mem_size.
Proof.
  intros Hw Hm Hr. apply run_mem_length in Hr; [|done]. rewrite Hr. cbn [init mem]. rewrite length_replicate. lia.
Qed.

(** The out-of-order cross-check decides what it claims: for every random
    source, with a program the generator accepts, the reference side never
    fails, and the verdict is a pass exactly when the Verilog tools succeed
    without a timeout and the dump holds the registers, the memory and the
    float registers the reference simulator ends with. *)
Theorem ooo_cross_check_exact n mem_size xl fuel (g : G) :
  xl = 32 \/ xl = 64 -> 0 <= n <= 900 -> mem_size < 2 ^ 32 ->
  budget n xl 0 false true <= mem_size `div` 4 -> (1000 < fuel)%nat ->
  exists lines g' image s,
    gen_lines n 32 mem_size None false xl true g = Ok ((lines, None), g') /\
    reference_of lines mem_size xl mem_size image s /\ wf s /\
    let N := n + overhead xl true in
    let r := rtl (substitute template (ooo_substs init_file out_path (max_time_of N) mem_size xl (N - 1))) image in
    run_one_ooo traceback rtl template init_file out_path fuel g n mem_size xl = Ok Pass <->
    tool_failure r = None /\ contains "TIMEOUT" (output (vvp r)) = false /\
    exists vals, dump_values xl (dump_lines r) = Ok vals /\ dump_agrees s mem_size vals.
Proof.
  intros Hx Hn Hm Hbud Hfu.
  assert (Hfit : 4 * (n + overhead xl true) <= mem_size).
  { pose proof (Z.mul_div_le mem_size 4 ltac:(done)). unfold budget, OOO_TRAILER_NOP_COUNT in Hbud. unfold overhead.
    destruct Hx as [-> | ->]; cbn in *; lia. }
  assert (Hov : 0 < overhead xl true - 1) by (unfold overhead; destruct Hx as [-> | ->]; cbn; lia).
  destruct (reference_runs n mem_size mem_size xl true g Hx Hn Hm Hbud Hfit)
    as (lines & g' & image & words & s & Eg & Ea & El & Hrun & Hws & _).
  exists lines, g', image, s. split; [exact Eg|]. split.
  { exists (n + overhead xl true), words. destruct (Hrun 1001%nat ltac:(lia)) as [k Hr]. eauto. }
  split; [exact Hws|]. cbv zeta. destruct (Hrun fuel Hfu) as [k Hr].
  assert (Hinit : wf (init mem_size xl)).
  { apply wf_init; [done|]. assert (2 ^ 32 <= 2 ^ xl) by (destruct Hx as [-> | ->]; done). lia. }
  destruct (Hrun 1001%nat ltac:(lia)) as [k' Hr'].
  pose proof (init_run_length mem_size xl words s k' Hinit ltac:(lia) Hr') as Hlen.
  rewrite <- (judge_ooo_pass mem_size xl _ s Hws ltac:(lia)).
  unfold run_one_ooo. rewrite Eg. cbn [mbind result_bind]. rewrite Ea. cbv zeta.
  change OOO_TRAILER_NOP_COUNT with 1.
  destruct (Z.leb_spec (n + overhead xl true - 1) 0); [lia|]. rewrite El. cbn [mbind result_bind].
  unfold reference. by rewrite Hr.
Qed.

(** The same for the pipelined core, when the program fits the instruction
    memory: the flags and the rounding mode are compared too, and a large
    memory only over the dumped window. *)
Theorem cross_check_exact n mem_size xl fuel (g : G) c (windowed : bool) :
  xl = 32 \/ xl = 64 -> 0 <= n <= 900 -> mem_size < 2 ^ 32 ->
  budget n xl 0 false false <= mem_size `div` 4 ->
  4 * (n + overhead xl false) <= Z.min mem_size SCALEUP_WINDOW_BYTES -> (1000 < fuel)%nat ->
  exists lines g' image s,
    gen_lines n 32 mem_size None false xl false g = Ok ((lines, None), g') /\
    reference_of lines (Z.min mem_size SCALEUP_WINDOW_BYTES) xl mem_size image s /\ wf s /\
    let N := n + overhead xl false in
    let window := Z.min mem_size SCALEUP_WINDOW_BYTES in
    let w := if windowed then window else mem_size in
    let time := max_time_of N + (if truthy (cache_mode c) then 4000 else 0) in
    let r := rtl (substitute template (knob_substs init_file out_path c time mem_size window xl "")) image in
    run_one traceback rtl template init_file out_path fuel g n mem_size None false xl c windowed = Ok Pass <->
    tool_failure r = None /\
    exists vals, dump_values xl (dump_lines r) = Ok vals /\ dump_agrees s w vals /\
      vals !! Z.to_nat (32 + w + 32) = Some (fflags s) /\ vals !! Z.to_nat (32 + w + 33) = Some (frm s).
Proof.
  intros Hx Hn Hm Hbud Hfit Hfu.
  assert (Hov : 0 < overhead xl false) by (unfold overhead; destruct Hx as [-> | ->]; cbn; lia).
  destruct (reference_runs n mem_size _ xl false g Hx Hn Hm Hbud Hfit)
    as (lines & g' & image & words & s & Eg & Ea & El & Hrun & Hws & _).
  exists lines, g', image, s. split; [exact Eg|]. split.
  { exists (n + overhead xl false), words. destruct (Hrun 1001%nat ltac:(lia)) as [k Hr]. eauto. }
  split; [exact Hws|]. cbv zeta. destruct (Hrun fuel Hfu) as [k Hr].
  assert (Hinit : wf (init mem_size xl)).
  { apply wf_init; [done|]. assert (2 ^ 32 <= 2 ^ xl) by (destruct Hx as [-> | ->]; done). lia. }
  destruct (Hrun 1001%nat ltac:(lia)) as [k' Hr'].
  pose proof (init_run_length mem_size xl words s k' Hinit ltac:(lia) Hr') as Hlen.
  rewrite <- (judge_pass _ xl _ s Hws) by (destruct windowed; unfold SCALEUP_WINDOW_BYTES in *; lia).
  unfold run_one. rewrite Eg. cbn [mbind result_bind]. cbv zeta. rewrite Ea, El. cbn [mbind result_bind].
  unfold reference. by rewrite Hr.
Qed.

(** [C28] The budget check of the plain mode counts the halt loop as one
    instruction and it is two: a program that uses the last word the check
    allows is generated and assembled, and then does not fit the image. *)
Theorem plain_budget_one_short n mem_size xl (g : G) :
  xl = 32 \/ xl = 64 -> 0 <= n <= 900 -> mem_size <= SCALEUP_WINDOW_BYTES ->
  mem_size `div` 4 = budget n xl 0 false false ->
  exists lines g' ws m,
    gen_lines n 32 mem_size None false xl false g = Ok ((lines, None), g') /\
    assemble lines xl = Ok ws /\ Z.of_nat (List.length ws) = mem_size `div` 4 + 1 /\
    asm_main lines mem_size xl = Raise (ValueError m) /\
    forall fuel c windowed,
      run_one traceback rtl template init_file out_path fuel g n mem_size None false xl c windowed =
        Ok (Fail ("assembler error: " +:+ strip (traceback (ValueError m)))).
Proof.
  intros Hx Hn Hm Hbud.
  destruct (gen_lines_forward n 32 mem_size xl false Hx ltac:(lia) Hn ltac:(unfold SCALEUP_WINDOW_BYTES in Hm; change (2 ^ 32) with 4294967296; lia) ltac:(lia) g)
    as ([lines info] & g' & E & -> & ws & Ews & Hl & _).
  assert (Hb : budget n xl 0 false false + 1 = n + overhead xl false).
  { unfold budget, overhead. destruct Hx as [-> | ->]; cbn; lia. }
  assert (Hov0 : 0 < overhead xl false) by (unfold overhead; destruct Hx as [-> | ->]; cbn; lia).
  pose proof (Z.mul_div_le mem_size 4 ltac:(done)) as Hd.
  pose proof (Z.mod_pos_bound mem_size 4 ltac:(done)) as Hr. pose proof (Z.div_mod mem_size 4 ltac:(done)) as Hq.
  destruct (write_mem_raises ws mem_size ltac:(lia) ltac:(lia)) as [m Hw].
  assert (Ea : asm_main lines mem_size xl = Raise (ValueError m)).
  { unfold asm_main. rewrite Ews. cbn [mbind result_bind]. by rewrite Hw. }
  exists lines, g', ws, m. split; [exact E|]. split; [exact Ews|]. split; [lia|]. split; [exact Ea|].
  intros fuel c windowed. unfold run_one. rewrite E. cbn [mbind result_bind]. cbv zeta.
  rewrite Z.min_l by done. rewrite Ea. unfold asm_stderr. by rewrite Ews.
Qed.
End Verdicts.

(** A Verilog run that dumps zeros, for the witnesses. *)
Definition demo_rtl (_ : string) (_ : list string) : rtl_run :=
  {| iverilog := {| returncode := 0; stderr := ""; output := tt |};
     vvp := {| returncode := 0; stderr := ""; output := "done" |};
     dump := Some (replicate 400 "0") |}.

Definition plain_knobs : knobs :=
  {| hazard_strategy := 0; pipeline_profile := 0; branch_predictor := 0; cache_mode := 0;
     replacement_policy := 0; victim_entries := 0; mem_latency_i := 0; mem_latency_d := 0;
     burst_enable := 0; mem_latency_d_burst := 0; mshr_entries := 1;
     l2_size := 0; l2_ways := 4; l2_replacement := 0; prefetch_mode := 0 |}.

Lemma ooo_cross_check_exact_witness :
  exists lines g' image s,
    gen_lines 4 32 256 None false 32 true 7 = Ok ((lines, None), g') /\
    reference_of lines 256 32 256 image s /\ wf s /\
    let N := 4 + overhead 32 true in
    let r := demo_rtl (substitute "tb" (ooo_substs "i" "o" (max_time_of N) 256 32 (N - 1))) image in
    run_one_ooo exn_str demo_rtl "tb" "i" "o" 1001 7 4 256 32 = Ok Pass <->
    tool_failure r = None /\ contains "TIMEOUT" (output (vvp r)) = false /\
    exists vals, dump_values 32 (dump_lines r) = Ok vals /\ dump_agrees s 256 vals.
Proof.
  apply (ooo_cross_check_exact (G := Z) exn_str demo_rtl "tb" "i" "o" 4 256 32 1001 7);
    [by left|lia|done|vm_compute; discriminate|lia].
Defined.

Lemma cross_check_exact_witness :
  exists lines g' image s,
    gen_lines 16 32 128 None false 32 false 1 = Ok ((lines, None), g') /\
    reference_of lines (Z.min 128 SCALEUP_WINDOW_BYTES) 32 128 image s /\ wf s /\
    let N := 16 + overhead 32 false in
    let window := Z.min 128 SCALEUP_WINDOW_BYTES in
    let w := if false then window else 128 in
    let time := max_time_of N + (if truthy (cache_mode plain_knobs) then 4000 else 0) in
    let r := demo_rtl (substitute "tb" (knob_substs "i" "o" plain_knobs time 128 window 32 "")) image in
    run_one exn_str demo_rtl "tb" "i" "o" 1001 1 16 128 None false 32 plain_knobs false = Ok Pass <->
    tool_failure r = None /\
    exists vals, dump_values 32 (dump_lines r) = Ok vals /\ dump_agrees s w vals /\
      vals !! Z.to_nat (32 + w + 32) = Some (fflags s) /\ vals !! Z.to_nat (32 + w + 33) = Some (frm s).
Proof.
  apply (cross_check_exact (G := Z) exn_str demo_rtl "tb" "i" "o" 16 128 32 1001 1 plain_knobs false);
    [by left|lia|done|vm_compute; discriminate|vm_compute; discriminate|lia].
Defined.

(** Eighteen instructions in the default 128 bytes. *)
Lemma plain_budget_one_short_witness :
  exists lines g' ws m,
    gen_lines 18 32 128 None false 32 false 1 = Ok ((lines, None), g') /\
    assemble lines 32 = Ok ws /\ Z.of_nat (List.length ws) = 128 `div` 4 + 1 /\
    asm_main lines 128 32 = Raise (ValueError m) /\
    forall fuel c windowed,
      run_one exn_str demo_rtl "tb" "i" "o" fuel 1 18 128 None false 32 c windowed =
        Ok (Fail ("assembler error: " +:+ strip (exn_str (ValueError m)))).
Proof.
  apply (plain_budget_one_short (G := Z) exn_str demo_rtl "tb" "i" "o" 18 128 32 1);
    [by left|lia|vm_compute; discriminate|vm_compute; reflexivity].
Defined.
