(* ===== verification/Debugger.v ===== *)
(** * The step debugger

    [sim/tools/debugger.py]: class [Debugger] as a record, its methods, and
    the command loop as a function from one input line to the lines printed
    and the next state. *)

From S2P Require Import Prelude Words PyStr Machine Mmu Step StepFacts Run Asm AsmText Disasm MemImage.
#[local] Open Scope string_scope.
#[local] Open Scope Z_scope.
#[local] Open Scope list_scope.

(** ** Definitions: Python *)

(** [l[n]]: a negative index counts from the end. *)
Definition list_index {A} (l : list A) (n : Z) : result A :=
  let n := if n <? 0 then n + Z.of_nat (List.length l) else n in
  if n <? 0 then Raise (IndexError "list index out of range") else list_get l (Z.to_nat n).

(** [sorted(s)] of a set of integers, and the text of a list of integers. *)
Fixpoint insert_sorted (x : Z) (l : list Z) : list Z :=
  match l with
  | [] => [x]
  | y :: l' => if x <=? y then x :: l else y :: insert_sorted x l'
  end.
Definition sorted (s : gset Z) : list Z := foldr insert_sorted [] (elements s).
Definition repr_ints (l : list Z) : string := "[" +:+ String.concat ", " (map fmt_d l) +:+ "]".

(** ** Definitions: class [Debugger] *)

Record Debugger := mkDebugger {
  d_words : list Z;
  d_mem_size : Z;
  d_xlen : Z;
  breakpoints : gset Z;
  history : list (Z * Z);
  d_iss : ISS
}.

Definition reg_hex_digits (d : Debugger) : nat := Z.to_nat (d_xlen d `div` 4).

Definition reset (d : Debugger) : Debugger :=
  mkDebugger (d_words d) (d_mem_size d) (d_xlen d) (breakpoints d) [] (init (d_mem_size d) (d_xlen d)).

(** [__init__]. *)
Definition new_debugger (words : list Z) (mem_size xlen : Z) : Debugger :=
  mkDebugger words mem_size xlen ∅ [] (init mem_size xlen).

Definition word_at (d : Debugger) (pc : Z) : Z :=
  let idx := pc `div` 4 in
  if (0 <=? idx) && (idx <? Z.of_nat (List.length (d_words d))) then nthZ 0 (d_words d) idx else 0.

Definition at_end (d : Debugger) : bool := pc (d_iss d) >=? Z.of_nat (List.length (d_words d)) * 4.

(** The instruction is appended to the history before it is executed. *)
Definition step_one (d : Debugger) : result (bool * Debugger) :=
  if at_end d then Ok (false, d)
  else
    let word := word_at d (pc (d_iss d)) in
    iss ← step (d_iss d) word;
    Ok (true, mkDebugger (d_words d) (d_mem_size d) (d_xlen d) (breakpoints d)
                (history d ++ [(pc (d_iss d), word)]) iss).

(** The text of the reasons a run stops. *)
Definition end_status : string := "end of program".
Definition halt_status : string := "halted (self-loop)".
Definition break_status (pc : Z) : string := "breakpoint hit @ pc=" +:+ fmt_d pc.
Definition limit_status (max_steps : Z) : string := "stopped: exceeded " +:+ fmt_d max_steps +:+ " steps".

(** [run_until]: [left] is [max_steps - steps]. *)
Fixpoint run_until_loop (left : nat) (max_steps steps : Z) (d : Debugger) : result (string * Debugger) :=
  match left with
  | O => Ok (limit_status max_steps, d)
  | S left' =>
      if at_end d then Ok (end_status, d)
      else
        let p := pc (d_iss d) in
        if self_loop (word_at d p) then Ok (halt_status, d)
        else if bool_decide (p ∈ breakpoints d) && (0 <? steps) then Ok (break_status p, d)
        else
          '(_, d') ← step_one d;
          run_until_loop left' max_steps (steps + 1) d'
  end.
Definition run_until (max_steps : Z) (d : Debugger) : result (string * Debugger) :=
  run_until_loop (Z.to_nat max_steps) max_steps 0 d.
Definition default_max_steps : Z := 200000.

(** ** Definitions: printing *)

Definition CSR_BY_ADDR : list (Z * string) :=
  [(CSR_MSTATUS, "mstatus"); (CSR_MTVEC, "mtvec"); (CSR_MSCRATCH, "mscratch"); (CSR_MEPC, "mepc");
   (CSR_MCAUSE, "mcause")].

Definition print_regs (d : Debugger) : list string :=
  let w := reg_hex_digits d in
  map (fun i => String.concat "  " (map (fun j =>
         "x" +:+ pad_right 2 (fmt_d (i + j)) +:+ "=0x" +:+ fmt_0x w (nthZ 0 (regs (d_iss d)) (i + j))) (range 4)))
      [0; 4; 8; 12; 16; 20; 24; 28].

Definition print_csrs (d : Debugger) : list string :=
  map (fun '(addr, name) => "  " +:+ pad_right 8 name +:+ " = " +:+ fmt_hash_0x 10 (csr_get (d_iss d) addr)) CSR_BY_ADDR.

Definition print_disas (d : Debugger) (n : Z) : list string :=
  let p := pc (d_iss d) in
  map (fun i =>
         let addr := p + i * 4 in
         let word := word_at d addr in
         let marker := if i =? 0 then "-> " else "   " in
         let bp := if bool_decide (addr ∈ breakpoints d) then "*" else " " in
         marker +:+ bp +:+ pad_left 5 (fmt_d addr) +:+ ": " +:+ fmt_0x 8 word +:+ "  " +:+ disasm word (d_xlen d))
      (range n).

(** ** Definitions: commands *)

Definition HELP : list string :=
  ["Commands:";
   "  step [n]          execute n instructions (default 1)";
   "  continue          run until a breakpoint, halt, or program end";
   "  break <addr>      set a breakpoint at a byte address (multiple of 4)";
   "  delete <addr>     remove a breakpoint";
   "  breakpoints       list active breakpoints";
   "  regs              dump all 32 registers";
   "  reg <n>           show register xN";
   "  mem <addr> [len]  dump `len` (default 16) bytes of data memory from `addr`";
   "  csr               dump the 5 implemented CSRs";
   "  disas [n]         disassemble n instructions starting at pc (default 5)";
   "  pc                show the current pc";
   "  restart           reset architectural state and start over";
   "  history [n]       show the last n executed instructions (default 10)";
   "  help              this message";
   "  quit              exit"; ""].

(** [step n]: up to [n] instructions. *)
Fixpoint step_n (n : nat) (d : Debugger) : result (list string * Debugger) :=
  match n with
  | O => Ok ([], d)
  | S n' =>
      '(ok, d') ← step_one d;
      if (ok : bool) then step_n n' d' else Ok (["(end of program)"], d')
  end.

Definition with_breakpoints (d : Debugger) (b : gset Z) : Debugger :=
  mkDebugger (d_words d) (d_mem_size d) (d_xlen d) b (history d) (d_iss d).

(** [int(args[0]) if args else default]. *)
Definition int_arg (args : list string) (default : Z) : result Z :=
  match args with [] => Ok default | a :: _ => int_base10 a end.

Definition history_line (d : Debugger) (e : Z * Z) : string :=
  "   " +:+ pad_left 5 (fmt_d (fst e)) +:+ ": " +:+ fmt_0x 8 (snd e) +:+ "  " +:+ disasm (snd e) (d_xlen d).

(** One turn of [repl]: the lines printed and the next state, or no state
    when the loop ends. An exception of a command ends the program. *)
Definition command (d : Debugger) (line : string) : result (list string * option Debugger) :=
  let stay (out : list string) : result (list string * option Debugger) := Ok (out, Some d) in
  match split_ws (strip line) with
  | [] => stay []
  | cmd :: args =>
      if in_names cmd ["q"; "quit"; "exit"] then Ok ([], None)
      else if in_names cmd ["h"; "help"] then stay HELP
      else if in_names cmd ["s"; "step"] then
        n ← int_arg args 1;
        '(out, d') ← step_n (Z.to_nat n) d;
        Ok (out ++ print_disas d' 1, Some d')
      else if in_names cmd ["c"; "continue"] then
        '(status, d') ← run_until default_max_steps d;
        Ok (status :: (if negb (at_end d') then print_disas d' 1 else []), Some d')
      else if String.eqb cmd "break" then
        match args with
        | [] => stay ["usage: break <addr>"]
        | a :: _ => addr ← int_base0 a; Ok ([], Some (with_breakpoints d ({[addr]} ∪ breakpoints d)))
        end
      else if String.eqb cmd "delete" then
        match args with
        | [] => stay ["usage: delete <addr>"]
        | a :: _ => addr ← int_base0 a; Ok ([], Some (with_breakpoints d (breakpoints d ∖ {[addr]})))
        end
      else if String.eqb cmd "breakpoints" then
        stay [match sorted (breakpoints d) with [] => "(none)" | l => repr_ints l end]
      else if in_names cmd ["r"; "regs"] then stay (print_regs d)
      else if String.eqb cmd "reg" then
        match args with
        | [] => stay ["usage: reg <n>"]
        | a :: _ =>
            n ← int_base10 a;
            v ← list_index (regs (d_iss d)) n;
            stay ["x" +:+ fmt_d n +:+ " = 0x" +:+ fmt_0x (reg_hex_digits d) v +:+ " (" +:+ fmt_d v +:+ ")"]
        end
      else if String.eqb cmd "mem" then
        match args with
        | [] => stay ["usage: mem <addr> [len]"]
        | a :: rest =>
            addr ← int_base0 a;
            length ← int_arg rest 16;
            stay [String.concat " " (map (fmt_0x 2) (slice (mem (d_iss d)) addr (addr + length)))]
        end
      else if String.eqb cmd "csr" then stay (print_csrs d)
      else if String.eqb cmd "disas" then n ← int_arg args 5; stay (print_disas d n)
      else if String.eqb cmd "pc" then stay [fmt_d (pc (d_iss d))]
      else if String.eqb cmd "restart" then
        let d' := reset d in Ok ("restarted" :: print_disas d' 3, Some d')
      else if String.eqb cmd "history" then
        n ← int_arg args 10;
        stay (map (history_line d) (slice (history d) (- n) (Z.of_nat (List.length (history d)))))
      else stay ["unknown command " +:+ repr cmd +:+ " -- type `help`"]
  end.

(** A session: the commands in turn, until one ends it or the input does. *)
Fixpoint session (d : Debugger) (lines : list string) : result (list string * Debugger) :=
  match lines with
  | [] => Ok ([""], d)
  | line :: lines' =>
      '(out, next) ← command d line;
      match next with
      | None => Ok (out, d)
      | Some d' => '(rest, d'') ← session d' lines'; Ok (out ++ rest, d'')
      end
  end.

Definition repl (d : Debugger) (lines : list string) : result (list string * Debugger) :=
  '(out, d') ← session d lines;
  Ok ((("Loaded " +:+ fmt_d (Z.of_nat (List.length (d_words d))) +:+ " instructions. Type `help` for commands.")
       :: print_disas d 3) ++ out, d').

(** The program a path names: an image, or a source assembled on the fly.
    None when the assembler rejects it, which ends the debugger. *)
Definition assemble_if_needed (path : string) (file : list string) (mem_size xlen : Z) : result (option (list Z)) :=
  if ends_with ".mem" path then words ← load_words file; Ok (Some words)
  else match asm_main file mem_size xlen with
       | Ok (image, _) => words ← load_words image; Ok (Some words)
       | Raise _ => Ok None
       end.

(** [loop: addi x1, x1, -1; bne x1, x0, loop] from five, with a breakpoint
    on the branch. *)
Definition demo_words : list Z := [0x00500093; 0xFFF08093; 0xFE009EE3; 0x0000006F].
Example session_ex :
  match session (new_debugger demo_words 64 32) ["break 8"; "c"; "c"; "pc"; "reg 1"; "breakpoints"; "history 2"; "quit"] with
  | Ok (out, d) => (out, pc (d_iss d)) =
      (["breakpoint hit @ pc=8"; "-> *    8: fe009ee3  bne x1,x0,-4";
        "breakpoint hit @ pc=8"; "-> *    8: fe009ee3  bne x1,x0,-4"; "8"; "x1 = 0x00000003 (3)"; "[8]";
        "       8: fe009ee3  bne x1,x0,-4"; "       4: fff08093  addi x1,x1,-1"], 8)
  | _ => False
  end.
Proof. vm_compute. reflexivity. Qed.

(** A source is debugged as the words it assembles to, then zero words. *)
Lemma assemble_if_needed_source path file mem_size xl ws : ends_with ".mem" path = false ->
  assemble file xl = Ok ws -> 4 * Z.of_nat (List.length ws) <= mem_size ->
  assemble_if_needed path file mem_size xl =
    Ok (Some (ws ++ replicate (Z.to_nat (mem_size `div` 4) - List.length ws)%nat 0)).
Proof.
  intros Hp Ha Hs. destruct (asm_main_loads file mem_size xl ws Ha Hs) as (image & E & El).
  unfold assemble_if_needed. rewrite Hp, E, El. done.
Qed.

(** ** Steps of the debugger *)

Lemma step_one_inv d ok d' : step_one d = Ok (ok, d') ->
  (ok = false /\ d' = d /\ at_end d = true) \/
  (ok = true /\ at_end d = false /\ exists s', step (d_iss d) (word_at d (pc (d_iss d))) = Ok s' /\
     d' = mkDebugger (d_words d) (d_mem_size d) (d_xlen d) (breakpoints d)
            (history d ++ [(pc (d_iss d), word_at d (pc (d_iss d)))]) s').
Proof.
  unfold step_one. destruct (at_end d); [intros [= <- <-]; by left|]. cbv zeta.
  intros (s' & Hs & E%Ok_inj)%bind_Ok. injection E as <- <-. right. split_and!; [done|done|by exists s'].
Qed.

(** [k] instructions executed one after the other. *)
Fixpoint iter_steps (k : nat) (d : Debugger) : result Debugger :=
  match k with
  | O => Ok d
  | S k' => '(ok, d') ← step_one d; if (ok : bool) then iter_steps k' d' else Raise (AssertionError "at end")
  end.

(** The run is over: past the program or at its self-loop. *)
Definition stops (d : Debugger) : bool := at_end d || self_loop (word_at d (pc (d_iss d))).

(** Why [run_until] returned from [d'] after [k] instructions. *)
Definition stop_reason (max_steps : Z) (k : nat) (d' : Debugger) (status : string) : Prop :=
  (Z.of_nat k = Z.max 0 max_steps /\ status = limit_status max_steps) \/
  (Z.of_nat k < max_steps /\
   ((at_end d' = true /\ status = end_status) \/
    (at_end d' = false /\ self_loop (word_at d' (pc (d_iss d'))) = true /\ status = halt_status) \/
    (stops d' = false /\ pc (d_iss d') ∈ breakpoints d' /\ (0 < k)%nat /\ status = break_status (pc (d_iss d'))))).

(** The states before the last one: the run goes on, and only the first of
    them may sit on a breakpoint. *)
Definition runs_through (d : Debugger) (first k : nat) : Prop :=
  forall j dj, (j < k)%nat -> iter_steps j d = Ok dj ->
    stops dj = false /\ ((first < j)%nat -> pc (d_iss dj) ∉ breakpoints dj).

Lemma run_until_loop_spec left : forall max_steps steps d,
  steps + Z.of_nat left = Z.max 0 max_steps -> 0 <= steps ->
  match run_until_loop left max_steps steps d with
  | Ok (status, d') => exists k, (k <= left)%nat /\ iter_steps k d = Ok d' /\
      (forall j dj, (j < k)%nat -> iter_steps j d = Ok dj ->
         stops dj = false /\ (0 < steps + Z.of_nat j -> pc (d_iss dj) ∉ breakpoints dj)) /\
      stop_reason max_steps (Z.to_nat steps + k) d' status
  | Raise e => exists k dk, (k < left)%nat /\ iter_steps k d = Ok dk /\ stops dk = false /\
      step (d_iss dk) (word_at dk (pc (d_iss dk))) = Raise e
  end.
Proof.
  induction left as [|left IH]; intros max_steps steps d Hn H0; cbn [run_until_loop].
  { exists O. split_and!; [lia|done|intros; lia|]. left. split; [lia|done]. }
  destruct (at_end d) eqn:Ee.
  { exists O. split_and!; [lia|done|intros; lia|]. right. split; [lia|]. by left. }
  cbv zeta. destruct (self_loop _) eqn:El.
  { exists O. split_and!; [lia|done|intros; lia|]. right. split; [lia|]. right. left. done. }
  assert (Hs : stops d = false) by (unfold stops; by rewrite Ee, El).
  destruct (bool_decide (pc (d_iss d) ∈ breakpoints d) && (0 <? steps)) eqn:Eb.
  { apply andb_true_iff in Eb as [Hb%bool_decide_eq_true Hst%Z.ltb_lt].
    exists O. split_and!; [lia|done|intros; lia|]. right. split; [lia|]. right. right. split_and!; try done. lia. }
  assert (Hnb : 0 < steps -> pc (d_iss d) ∉ breakpoints d).
  { intros Hst Hin. apply andb_false_iff in Eb as [Hb%bool_decide_eq_false|Hb%Z.ltb_ge]; [done|lia]. }
  destruct (step_one d) as [[ok d1]|e] eqn:E1; cbn [mbind result_bind].
  - destruct (step_one_inv d ok d1 E1) as [(_ & _ & Hend)|(-> & _ & _)]; [congruence|].
    specialize (IH max_steps (steps + 1) d1 ltac:(lia) ltac:(lia)).
    destruct (run_until_loop left max_steps (steps + 1) d1) as [[status d']|e].
    + destruct IH as (k & Hk & Hi & Hj & Hr). exists (S k). split_and!.
      * lia.
      * cbn [iter_steps]. by rewrite E1.
      * intros [|j] dj Hlt Hdj.
        { apply Ok_inj in Hdj as <-. split; [done|]. intros Hst. apply Hnb. lia. }
        cbn [iter_steps] in Hdj. rewrite E1 in Hdj. destruct (Hj j dj ltac:(lia) Hdj) as [H1 H2].
        split; [done|]. intros Hst. apply H2. lia.
      * by replace (Z.to_nat steps + S k)%nat with (Z.to_nat (steps + 1) + k)%nat by lia.
    + destruct IH as (k & dk & Hk & Hi & Hrest). exists (S k), dk. split_and!; try apply Hrest; [lia|].
      cbn [iter_steps]. by rewrite E1.
  - exists O, d. split_and!; [lia|done|done|]. unfold step_one in E1. rewrite Ee in E1. cbv zeta in E1.
    destruct (step (d_iss d) _); [done|]. by injection E1 as ->.
Qed.

(** [continue] executes instructions until one of its four reasons to stop
    holds for the first time: a breakpoint (not the one it starts on), the
    self-loop, the end of the program or the step limit; the status names the
    reason, and an exception is the exception of the instruction reached. *)
Theorem run_until_spec max_steps d :
  match run_until max_steps d with
  | Ok (status, d') => exists k, iter_steps k d = Ok d' /\ runs_through d 0 k /\ stop_reason max_steps k d' status
  | Raise e => exists k dk, Z.of_nat k < max_steps /\ iter_steps k d = Ok dk /\ stops dk = false /\
      step (d_iss dk) (word_at dk (pc (d_iss dk))) = Raise e
  end.
Proof.
  pose proof (run_until_loop_spec (Z.to_nat max_steps) max_steps 0 d ltac:(lia) ltac:(lia)) as H. unfold run_until.
  destruct (run_until_loop _ _ _ d) as [[status d']|e].
  - destruct H as (k & _ & Hi & Hj & Hr). exists k. split_and!; [done| |done].
    intros j dj Hlt Hdj. destruct (Hj j dj Hlt Hdj) as [H1 H2]. split; [done|]. intros Hj0. apply H2. lia.
  - destruct H as (k & dk & Hk & Hrest). exists k, dk. split; [lia|done].
Qed.

(** ** The invariant of a session *)

(** Executing a history from a state: each entry must name the pc it was
    executed at. *)
Definition replay (s : ISS) (h : list (Z * Z)) : result ISS :=
  foldl (fun r '(p, w) => s ← r; if pc s =? p then step s w else Raise (AssertionError "pc")) (Ok s) h.

(** The simulator's state is what the history, replayed from reset, leads to;
    the history holds words of the program. *)
Record consistent (d : Debugger) : Prop := {
  cons_replay : replay (init (d_mem_size d) (d_xlen d)) (history d) = Ok (d_iss d);
  cons_words : Forall (fun '(p, w) => p < Z.of_nat (List.length (d_words d)) * 4 /\ w = word_at d p) (history d)
}.

(** The program and the machine it is debugged on. *)
Definition same_program (d d' : Debugger) : Prop :=
  d_words d' = d_words d /\ d_mem_size d' = d_mem_size d /\ d_xlen d' = d_xlen d.

Lemma same_program_trans a b c : same_program a b -> same_program b c -> same_program a c.
Proof. unfold same_program. intros (? & ? & ?) (? & ? & ?). split_and!; congruence. Qed.

Definition goes_to (d d' : Debugger) : Prop := (consistent d -> consistent d') /\ same_program d d'.

Lemma goes_refl d : goes_to d d.
Proof. by split. Qed.

Lemma goes_trans a b c : goes_to a b -> goes_to b c -> goes_to a c.
Proof. intros [H1 H2] [H3 H4]. split; [auto|by eapply same_program_trans]. Qed.

Lemma step_one_goes d ok d' : step_one d = Ok (ok, d') -> goes_to d d'.
Proof.
  intros [(_ & -> & _)|(_ & Hend & s' & Hs & ->)]%step_one_inv; [apply goes_refl|]. split; [|done].
  intros [Hr Hw]. split; cbn [history d_words d_mem_size d_xlen d_iss].
  - unfold replay in *. rewrite foldl_app, Hr. cbn. by rewrite Z.eqb_refl.
  - apply Forall_app_2; [exact Hw|]. apply Forall_cons_2; [|by constructor]. split; [|done].
    unfold at_end in Hend. rewrite Z.geb_leb in Hend. by apply Z.leb_gt in Hend.
Qed.

Lemma iter_goes k : forall d d', iter_steps k d = Ok d' -> goes_to d d'.
Proof.
  induction k as [|k IH]; intros d d'; cbn [iter_steps]; [intros <-%Ok_inj; apply goes_refl|].
  intros ([[] d1] & H1 & H)%bind_Ok; [|done]. eapply goes_trans; [by eapply step_one_goes|by apply IH].
Qed.

Lemma step_n_goes n : forall d out d', step_n n d = Ok (out, d') -> goes_to d d'.
Proof.
  induction n as [|n IH]; intros d out d'; cbn [step_n]; [intros [= _ <-]; apply goes_refl|].
  intros ([[] d1] & H1 & H)%bind_Ok; apply step_one_goes in H1.
  - eapply goes_trans; [exact H1|by eapply IH].
  - by injection H as _ <-.
Qed.

Lemma run_until_goes max_steps d status d' : run_until max_steps d = Ok (status, d') -> goes_to d d'.
Proof.
  intros H. pose proof (run_until_loop_spec (Z.to_nat max_steps) max_steps 0 d ltac:(lia) ltac:(lia)) as Hs.
  unfold run_until in H. rewrite H in Hs. destruct Hs as (k & _ & Hi & _). by eapply iter_goes.
Qed.

Lemma reset_goes d : goes_to d (reset d).
Proof. split; [|done]. intros _. by split; [|constructor]. Qed.

Lemma breakpoints_go d b : goes_to d (with_breakpoints d b).
Proof. split; [|done]. intros [H1 H2]. by split. Qed.

Lemma command_goes d line out d' : command d line = Ok (out, Some d') -> goes_to d d'.
Proof.
  unfold command. destruct (split_ws (strip line)) as [|cmd args]; [intros [= _ <-]; apply goes_refl|].
  cbv zeta. next_if; [discriminate|]. next_if; [intros [= _ <-]; apply goes_refl|].
  next_if. { intros (n & _ & ([o d1] & H & [= _ <-])%bind_Ok)%bind_Ok. by eapply step_n_goes. }
  next_if. { intros ([st d1] & H & [= _ <-])%bind_Ok. by eapply run_until_goes. }
  next_if. { destruct args; [intros [= _ <-]; apply goes_refl|]. intros (a & _ & [= _ <-])%bind_Ok. apply breakpoints_go. }
  next_if. { destruct args; [intros [= _ <-]; apply goes_refl|]. intros (a & _ & [= _ <-])%bind_Ok. apply breakpoints_go. }
  next_if; [intros [= _ <-]; apply goes_refl|]. next_if; [intros [= _ <-]; apply goes_refl|].
  next_if. { destruct args; [intros [= _ <-]; apply goes_refl|].
    intros (n & _ & (v & _ & [= _ <-])%bind_Ok)%bind_Ok. apply goes_refl. }
  next_if. { destruct args; [intros [= _ <-]; apply goes_refl|].
    intros (n & _ & (v & _ & [= _ <-])%bind_Ok)%bind_Ok. apply goes_refl. }
  next_if; [intros [= _ <-]; apply goes_refl|].
  next_if. { intros (n & _ & [= _ <-])%bind_Ok. apply goes_refl. }
  next_if; [intros [= _ <-]; apply goes_refl|].
  next_if; [intros [= _ <-]; apply reset_goes|].
  next_if. { intros (n & _ & [= _ <-])%bind_Ok. apply goes_refl. }
  intros [= _ <-]. apply goes_refl.
Qed.

Lemma session_goes lines : forall d out d', session d lines = Ok (out, d') -> goes_to d d'.
Proof.
  induction lines as [|line lines IH]; intros d out d'; cbn [session]; [intros [= _ <-]; apply goes_refl|].
  intros ([o [d1|]] & Hc & H)%bind_Ok.
  - apply bind_Ok in H as ([rest d2] & Hs & [= _ <-]). eapply goes_trans; [by eapply command_goes|by eapply IH].
  - injection H as _ <-. apply goes_refl.
Qed.

(** [C30] Whatever commands are typed, the history tells the truth: replayed from
    reset, instruction by instruction at the recorded addresses, it leads to
    the state shown; its words are the program's. *)
Theorem session_history lines words mem_size xlen out d :
  session (new_debugger words mem_size xlen) lines = Ok (out, d) ->
  replay (init mem_size xlen) (history d) = Ok (d_iss d) /\
  Forall (fun '(p, w) => p < Z.of_nat (List.length words) * 4 /\ w = word_at d p) (history d) /\
  d_words d = words.
Proof.
  intros [Hc (Hw & Hm & Hx)]%session_goes. destruct Hc as [H1 H2]; [by split; [|constructor]|].
  rewrite Hm, Hx in H1. rewrite Hw in H2. done.
Qed.

Lemma session_history_witness :
  match session (new_debugger demo_words 64 32) ["s 3"; "c"; "restart"; "break 8"; "c"] with
  | Ok (_, d) =>
      replay (init 64 32) (history d) = Ok (d_iss d) /\
      Forall (fun '(p, w) => p < Z.of_nat (List.length demo_words) * 4 /\ w = word_at d p) (history d) /\
      d_words d = demo_words
  | Raise _ => False
  end.
Proof.
  destruct (session (new_debugger demo_words 64 32) ["s 3"; "c"; "restart"; "break 8"; "c"]) as [[out d]|] eqn:E.
  - exact (session_history ["s 3"; "c"; "restart"; "break 8"; "c"] demo_words 64 32 out d E).
  - vm_compute in E. discriminate E.
Defined.

(** ** The debugger and [ISS.run] *)

(** The fetch address is the pc: no translation, and the pc in range. *)
Definition flat (s : ISS) : bool := (pc s <? 2 ^ xlen s) && negb (paging s).

(** Along the next [n] instructions. *)
Fixpoint flat_for (n : nat) (d : Debugger) : bool :=
  match n with
  | O => true
  | S n' =>
      flat (d_iss d) &&
      (stops d || match step_one d with Ok (_, d') => flat_for n' d' | Raise _ => true end)
  end.

Lemma flat_turn d steps : wf (d_iss d) -> pending_interrupt (d_iss d) = None -> flat (d_iss d) = true ->
  run_turn (d_words d) (d_iss d) steps =
    if stops d then Break (d_iss d) steps
    else match step (d_iss d) (word_at d (pc (d_iss d))) with Ok s' => Again s' (steps + 1) | Raise e => Crash e end.
Proof.
  intros Hs Hp [Hpc%Z.ltb_lt Hb%negb_true_iff]%andb_true_iff. unfold run_turn, interrupt_due. rewrite Hp.
  rewrite translate_bare by done. pose proof (wf_pc _ Hs) as H0. pose proof (wf_width _ Hs) as Hw.
  assert (Hux : uxlen (d_iss d) (pc (d_iss d)) = pc (d_iss d)).
  { unfold uxlen. rewrite uXLEN_wrap by lia. by apply wrap_small. }
  rewrite Hux. unfold stops, at_end. destruct (pc (d_iss d) >=? _) eqn:Ee; [done|]. cbn [orb]. cbv zeta.
  rewrite Z.geb_leb in Ee. apply Z.leb_gt in Ee.
  assert (Hw' : word_at d (pc (d_iss d)) = nthZ 0 (d_words d) (pc (d_iss d) `div` 4)).
  { unfold word_at. cbv zeta. pose proof (Z.div_pos (pc (d_iss d)) 4 H0 ltac:(lia)).
    assert (pc (d_iss d) `div` 4 < Z.of_nat (List.length (d_words d))) by (apply Z.div_lt_upper_bound; lia).
    destruct (Z.leb_spec 0 (pc (d_iss d) `div` 4)); [|lia].
    by destruct (Z.ltb_spec (pc (d_iss d) `div` 4) (Z.of_nat (List.length (d_words d)))); [|lia]. }
  by rewrite Hw'.
Qed.

Lemma run_loop_S fuel words max_steps s steps :
  run_loop (S fuel) words max_steps s steps =
    if steps <? max_steps then
      match run_turn words s steps with
      | Again s' steps' => run_loop fuel words max_steps s' steps'
      | Break s' steps' => Returned s' steps'
      | Crash e => Raised e
      end
    else Raised (runaway max_steps).
Proof. reflexivity. Qed.

Lemma continue_run_loop n : forall d steps max_steps, steps + Z.of_nat n = max_steps -> 0 <= steps ->
  wf (d_iss d) -> pending_interrupt (d_iss d) = None -> breakpoints d = ∅ -> flat_for n d = true ->
  match run_loop (S n) (d_words d) max_steps (d_iss d) steps with
  | Returned s k => exists d', run_until_loop n max_steps steps d =
        Ok (if at_end d' then end_status else halt_status, d') /\ d_iss d' = s /\ stops d' = true /\
      Z.of_nat (List.length (history d')) = Z.of_nat (List.length (history d)) + (k - steps)
  | Raised e => (e = runaway max_steps /\ exists d', run_until_loop n max_steps steps d = Ok (limit_status max_steps, d')) \/
                run_until_loop n max_steps steps d = Raise e
  | Running _ _ => False
  end.
Proof.
  induction n as [|n IH]; intros d steps max_steps Hn H0 Hs Hp Hb Hf.
  { cbn [run_loop]. destruct (Z.ltb_spec steps max_steps); [lia|]. left. split; [done|]. by exists d. }
  cbn [flat_for] in Hf. apply andb_true_iff in Hf as [Hfl Hf].
  rewrite run_loop_S. destruct (Z.ltb_spec steps max_steps); [|lia].
  rewrite flat_turn by done. cbn [run_until_loop]. cbv zeta.
  assert (Hnb : bool_decide (pc (d_iss d) ∈ breakpoints d) = false).
  { apply bool_decide_eq_false. rewrite Hb. set_solver. }
  rewrite Hnb. cbn [andb]. unfold stops in *. destruct (at_end d) eqn:Ee.
  { exists d. rewrite Ee. split_and!; [done|done|done|lia]. }
  cbn [orb] in *. destruct (self_loop _) eqn:El.
  { exists d. rewrite Ee, El. split_and!; [done|done|done|lia]. }
  cbn [orb] in *. unfold step_one in *. rewrite Ee in *. cbv zeta in *.
  destruct (step (d_iss d) (word_at d (pc (d_iss d)))) as [s'|e] eqn:Es; [|right; done].
  cbn [mbind result_bind] in *. set (d1 := mkDebugger _ _ _ _ _ s') in *.
  destruct (step_const (d_iss d) _ s' Hs Es) as [_ Hp'].
  specialize (IH d1 (steps + 1) max_steps ltac:(lia) ltac:(lia) (wf_step _ _ _ Hs Es) (eq_trans Hp' Hp) Hb Hf).
  change (d_words d1) with (d_words d) in IH. change (d_iss d1) with s' in IH.
  destruct (run_loop (S n) (d_words d) max_steps s' (steps + 1)) as [s k| |]; [|exact IH|exact IH].
  destruct IH as (d' & Hr & Hd & Hst & Hh). exists d'. split_and!; [exact Hr|exact Hd|exact Hst|].
  rewrite Hh. unfold d1. cbn [history]. rewrite length_app. cbn [List.length]. lia.
Qed.

(** [C29] While fetches are not translated, [continue] without breakpoints is
    [ISS.run]: it stops in the state the run returns, at the end of the
    program or its self-loop, having recorded one history entry per step;
    where the run gives up at the step limit the debugger reports it, and
    any other exception of the run is the debugger's too. *)
Theorem continue_is_run d max_steps :
  wf (d_iss d) -> pending_interrupt (d_iss d) = None -> breakpoints d = ∅ -> 0 <= max_steps ->
  flat_for (Z.to_nat max_steps) d = true ->
  match run (S (Z.to_nat max_steps)) (d_words d) max_steps (d_iss d) with
  | Returned s k => exists d', run_until max_steps d = Ok (if at_end d' then end_status else halt_status, d') /\
      d_iss d' = s /\ stops d' = true /\ Z.of_nat (List.length (history d')) = Z.of_nat (List.length (history d)) + k
  | Raised e => (e = runaway max_steps /\ exists d', run_until max_steps d = Ok (limit_status max_steps, d')) \/
                run_until max_steps d = Raise e
  | Running _ _ => False
  end.
Proof.
  intros Hs Hp Hb Hm Hf.
  pose proof (continue_run_loop (Z.to_nat max_steps) d 0 max_steps ltac:(lia) ltac:(lia) Hs Hp Hb Hf) as H.
  unfold run. destruct (run_loop _ _ _ _ _) as [s k|e|]; [|exact H|exact H].
  rewrite Z.sub_0_r in H. exact H.
Qed.

Lemma continue_is_run_witness :
  let d := new_debugger demo_words 64 32 in
  match run (S (Z.to_nat 50)) demo_words 50 (d_iss d) with
  | Returned s k => exists d', run_until 50 d = Ok (if at_end d' then end_status else halt_status, d') /\
      d_iss d' = s /\ stops d' = true /\ Z.of_nat (List.length (history d')) = Z.of_nat (List.length (history d)) + k
  | Raised e => (e = runaway 50 /\ exists d', run_until 50 d = Ok (limit_status 50, d')) \/ run_until 50 d = Raise e
  | Running _ _ => False
  end.
Proof.
  apply (continue_is_run (new_debugger demo_words 64 32) 50); [|done|done|lia|vm_compute; reflexivity].
  apply wf_init; [by left|done].
Defined.

(** With translation on the two differ: the debugger fetches at the virtual
    pc. Here page 1 is not mapped: [ISS.run] takes the page fault, the
    debugger executes a word of the program. *)
Lemma debugger_ignores_translation :
  let s := set_pc demo_sv32 0x1000 in
  let d := mkDebugger (replicate 1025 0x13) 8192 32 ∅ [] s in
  (match run_turn (d_words d) s 0 with Again s' _ => priv_mode s' =? PRIV_M | _ => false end) = true /\
  (match step_one d with Ok (true, d') => (pc (d_iss d') =? 0x1004) && (priv_mode (d_iss d') =? PRIV_U) | _ => false end) = true.
Proof. split; vm_compute; reflexivity. Qed.
