(* ===== verification/Dtb.v ===== *)
(** * The device tree emitter

    [sim/tools/gen_dtb.py]: [FdtBuilder] as a record of byte lists with one
    definition per method, the tree of this core as the list of builder
    calls [build_this_core_dtb] makes, and the independent parser
    [parse_and_validate] every emitted blob goes through. *)

From S2P Require Import Prelude Words PyStr TextFacts MemImage.
#[local] Open Scope string_scope.
#[local] Open Scope Z_scope.
#[local] Open Scope list_scope.

Definition FDT_MAGIC : Z := 0xd00dfeed.
Definition FDT_VERSION : Z := 17.
Definition FDT_LAST_COMP_VERSION : Z := 16.
Definition FDT_BEGIN_NODE : Z := 1.
Definition FDT_END_NODE : Z := 2.
Definition FDT_PROP : Z := 3.
Definition FDT_END : Z := 9.

(** ** Definitions: [struct] and [bytes] *)

Definition len {A} (l : list A) : Z := Z.of_nat (List.length l).

(** [n] bytes, most significant first. *)
Definition be (n v : Z) : list Z := map (fun i => (v >> (8 * (n - 1 - i))) .& 0xFF) (range n).

(** [struct.pack(">I", v)], [struct.pack(">Q", v)] and several words. *)
Definition pack (n v : Z) : result (list Z) :=
  if (0 <=? v) && (v <? 2 ^ (8 * n)) then Ok (be n v) else Raise (StructError "argument out of range").
Definition pack_I : Z -> result (list Z) := pack 4.
Definition pack_Q : Z -> result (list Z) := pack 8.
Definition pack_all (n : Z) (vs : list Z) : result (list Z) := l ← mapR (pack n) vs; Ok (List.concat l).

(** [struct.unpack(">" + k * "I", bs)]: the buffer must have the exact
    size. *)
Definition unbe (bs : list Z) : Z := fold_left (fun a b => 256 * a + b) bs 0.
Fixpoint unpack_words (n k : nat) (bs : list Z) : list Z :=
  match k with O => [] | S k' => unbe (take n bs) :: unpack_words n k' (drop n bs) end.
Definition unpack (n k : nat) (bs : list Z) : result (list Z) :=
  if (List.length bs =? n * k)%nat then Ok (unpack_words n k bs)
  else Raise (StructError ("unpack requires a buffer of " +:+ fmt_d (Z.of_nat (n * k)) +:+ " bytes")).

(** [s.encode("ascii")]. *)
Fixpoint codes (s : string) : list Z :=
  match s with "" => [] | String c s' => Z.of_nat (nat_of_ascii c) :: codes s' end.
Definition is_ascii (c : ascii) : bool := (nat_of_ascii c <? 128)%nat.
Definition encode (s : string) : result (list Z) :=
  if str_all is_ascii s then Ok (codes s) else Raise (UnicodeError "ordinal not in range(128)").

Definition align4 (data : list Z) : list Z := data ++ replicate (Z.to_nat ((- len data) `mod` 4)) 0.

(** ** Definitions: class [FdtBuilder] *)

Record FdtBuilder := mkFdt {
  f_struct : list Z;
  f_strings : list Z;
  string_offsets : list (string * Z)
}.

Definition new_fdt : FdtBuilder := mkFdt [] [] [].
Definition add_struct (f : FdtBuilder) (bs : list Z) : FdtBuilder :=
  mkFdt (f_struct f ++ bs) (f_strings f) (string_offsets f).

(** The offset of a name in the strings block, where it is added on first
    use. *)
Definition string_off (f : FdtBuilder) (name : string) : result (Z * FdtBuilder) :=
  match dict_find (string_offsets f) name with
  | Some off => Ok (off, f)
  | None =>
      let off := len (f_strings f) in
      bs ← encode name;
      Ok (off, mkFdt (f_struct f) (f_strings f ++ bs ++ [0]) ((name, off) :: string_offsets f))
  end.

Definition begin_node (f : FdtBuilder) (name : string) : result FdtBuilder :=
  tok ← pack_I FDT_BEGIN_NODE;
  bs ← encode name;
  Ok (add_struct f (tok ++ align4 (bs ++ [0]))).

Definition end_node (f : FdtBuilder) : result FdtBuilder :=
  tok ← pack_I FDT_END_NODE; Ok (add_struct f tok).

Definition prop_raw (f : FdtBuilder) (name : string) (value : list Z) : result FdtBuilder :=
  '(off, f) ← string_off f name;
  tok ← pack_I FDT_PROP;
  hd ← pack_all 4 [len value; off];
  Ok (add_struct f (tok ++ hd ++ align4 value)).

Definition prop_empty (f : FdtBuilder) (name : string) : result FdtBuilder := prop_raw f name [].
Definition prop_u32 (f : FdtBuilder) (name : string) (val : Z) : result FdtBuilder :=
  v ← pack_I (val .& 0xFFFFFFFF); prop_raw f name v.
Definition prop_u64 (f : FdtBuilder) (name : string) (val : Z) : result FdtBuilder :=
  v ← pack_Q (val .& 0xFFFFFFFFFFFFFFFF); prop_raw f name v.
Definition prop_cells (f : FdtBuilder) (name : string) (cells : list Z) : result FdtBuilder :=
  v ← pack_all 4 (map (fun c => c .& 0xFFFFFFFF) cells); prop_raw f name v.
Definition prop_str (f : FdtBuilder) (name val : string) : result FdtBuilder :=
  v ← encode val; prop_raw f name (v ++ [0]).
Definition prop_strlist (f : FdtBuilder) (name : string) (vals : list string) : result FdtBuilder :=
  vs ← mapR (fun v => bs ← encode v; Ok (bs ++ [0])) vals; prop_raw f name (List.concat vs).

(** [build]: header, reservation block, structure block, strings. *)
Definition build (f : FdtBuilder) : result (list Z) :=
  tok ← pack_I FDT_END;
  let f := add_struct f tok in
  rsvmap ← pack_all 8 [0; 0];
  let off_mem_rsvmap := 40 in
  let off_dt_struct := off_mem_rsvmap + len rsvmap in
  let off_dt_strings := off_dt_struct + len (f_struct f) in
  let totalsize := off_dt_strings + len (f_strings f) in
  header ← pack_all 4 [FDT_MAGIC; totalsize; off_dt_struct; off_dt_strings; off_mem_rsvmap;
                       FDT_VERSION; FDT_LAST_COMP_VERSION; 0; len (f_strings f); len (f_struct f)];
  Ok (header ++ rsvmap ++ f_struct f ++ f_strings f).

(** ** Definitions: this core's tree *)

(** One call of a builder method. *)
Inductive call :=
| BeginNode (name : string)
| EndNode
| PropEmpty (name : string)
| PropU32 (name : string) (val : Z)
| PropU64 (name : string) (val : Z)
| PropCells (name : string) (cells : list Z)
| PropStr (name val : string)
| PropStrlist (name : string) (vals : list string).

Definition do_call (f : FdtBuilder) (c : call) : result FdtBuilder :=
  match c with
  | BeginNode name => begin_node f name
  | EndNode => end_node f
  | PropEmpty name => prop_empty f name
  | PropU32 name val => prop_u32 f name val
  | PropU64 name val => prop_u64 f name val
  | PropCells name cells => prop_cells f name cells
  | PropStr name val => prop_str f name val
  | PropStrlist name vals => prop_strlist f name vals
  end.

Fixpoint do_calls (f : FdtBuilder) (cs : list call) : result FdtBuilder :=
  match cs with [] => Ok f | c :: cs' => f ← do_call f c; do_calls f cs' end.

Definition core_calls (mem_size_bytes timebase_freq uart_clock_freq : Z) (bootargs : string)
    (initrd_start initrd_end : option Z) : list call :=
  [BeginNode "";
   PropU32 "#address-cells" 2;
   PropU32 "#size-cells" 2;
   PropStr "compatible" "5-stage-pipelined-processor";
   PropStr "model" "5-stage-pipelined-processor,rv64";
   BeginNode "cpus";
   PropU32 "#address-cells" 1;
   PropU32 "#size-cells" 0;
   PropU32 "timebase-frequency" timebase_freq;
   BeginNode "cpu@0";
   PropU32 "phandle" 1;
   PropStr "device_type" "cpu";
   PropU32 "reg" 0;
   PropStr "status" "okay";
   PropStr "compatible" "riscv";
   PropStr "riscv,isa" "rv64imafd";
   PropStr "mmu-type" "riscv,sv39";
   BeginNode "interrupt-controller";
   PropU32 "#interrupt-cells" 1;
   PropEmpty "interrupt-controller";
   PropStr "compatible" "riscv,cpu-intc";
   PropU32 "phandle" 2;
   EndNode; EndNode; EndNode;
   BeginNode "memory@0";
   PropStr "device_type" "memory";
   PropCells "reg" [0; 0; 0; mem_size_bytes];
   EndNode;
   BeginNode "soc";
   PropU32 "#address-cells" 2;
   PropU32 "#size-cells" 2;
   PropStr "compatible" "simple-bus";
   PropEmpty "ranges";
   BeginNode "uart@10000000";
   PropStr "compatible" "ns16550a";
   PropCells "reg" [0; 0x10000000; 0; 0x20];
   PropU32 "clock-frequency" uart_clock_freq;
   PropU32 "reg-shift" 2;
   PropU32 "reg-io-width" 4;
   EndNode;
   BeginNode "clint@10100000";
   PropStr "compatible" "riscv,clint0";
   PropCells "reg" [0; 0x10100000; 0; 0x10000];
   PropCells "interrupts-extended" [2; 3; 2; 7];
   EndNode;
   EndNode;
   BeginNode "chosen";
   PropStr "bootargs" bootargs;
   PropStr "stdout-path" "/soc/uart@10000000"]
  ++ match initrd_start, initrd_end with
     | Some start, Some stop =>
         [PropCells "linux,initrd-start" [start >> 32; start .& 0xFFFFFFFF];
          PropCells "linux,initrd-end" [stop >> 32; stop .& 0xFFFFFFFF]]
     | _, _ => []
     end
  ++ [EndNode; EndNode].

Definition build_this_core_dtb (mem_size_bytes timebase_freq uart_clock_freq : Z) (bootargs : string)
    (initrd_start initrd_end : option Z) : result (list Z) :=
  f ← do_calls new_fdt (core_calls mem_size_bytes timebase_freq uart_clock_freq bootargs initrd_start initrd_end);
  build f.

(** ** Definitions: [parse_and_validate] *)

Definition assert_ (b : bool) (msg : string) : result unit :=
  if b then Ok tt else Raise (AssertionError msg).

(** [bs.index(b"\x00", i)]. *)
Fixpoint index_zero (bs : list Z) (i : Z) : result Z :=
  match bs with
  | [] => Raise (ValueError "subsection not found")
  | b :: bs' => if b =? 0 then Ok i else index_zero bs' (i + 1)
  end.

Record info := { max_depth : Z; prop_count : Z; totalsize : Z }.

(** The token loop: [depth], [max_depth], [prop_count] when it leaves, and
    whether it saw [FDT_END]. Each turn advances by four bytes at least, so
    a fuel of the block's length is enough. *)
Fixpoint tokens (fuel : nat) (struct_bytes : list Z) (strings_len i depth max_depth prop_count : Z) :
    result (Z * Z * Z * bool) :=
  match fuel with
  | O => Raise (RuntimeError "fuel")
  | S fuel' =>
      if i <? len struct_bytes then
        toks ← unpack 4 1 (slice struct_bytes i (i + 4));
        let tok := nthZ 0 toks 0 in
        let i := i + 4 in
        if tok =? FDT_BEGIN_NODE then
          let depth := depth + 1 in
          let max_depth := Z.max max_depth depth in
          stop ← index_zero (drop (Z.to_nat i) struct_bytes) i;
          let name_len := stop - i + 1 in
          tokens fuel' struct_bytes strings_len (i + ((name_len + 3) .& .~ 3)) depth max_depth prop_count
        else if tok =? FDT_END_NODE then
          let depth := depth - 1 in
          _ ← assert_ (depth >=? 0) "END_NODE with no matching BEGIN_NODE";
          tokens fuel' struct_bytes strings_len i depth max_depth prop_count
        else if tok =? FDT_PROP then
          let prop_count := prop_count + 1 in
          hd ← unpack 4 2 (slice struct_bytes i (i + 8));
          let plen := nthZ 0 hd 0 in
          let nameoff := nthZ 0 hd 1 in
          let i := i + 8 in
          _ ← assert_ (nameoff <? strings_len) ("prop nameoff " +:+ fmt_d nameoff +:+ " outside strings block");
          tokens fuel' struct_bytes strings_len (i + ((plen + 3) .& .~ 3)) depth max_depth prop_count
        else if tok =? FDT_END then Ok (depth, max_depth, prop_count, true)
        else Raise (AssertionError ("unknown structure token " +:+ fmt_hash_x tok +:+
                                    " at struct-block offset " +:+ fmt_d (i - 4)))
      else Ok (depth, max_depth, prop_count, false)
  end.

Definition parse_and_validate (blob : list Z) : result info :=
  hd ← unpack 4 10 (slice blob 0 40);
  let magic := nthZ 0 hd 0 in
  let totalsize := nthZ 0 hd 1 in
  let off_struct := nthZ 0 hd 2 in
  let off_strings := nthZ 0 hd 3 in
  let off_rsvmap := nthZ 0 hd 4 in
  let size_strings := nthZ 0 hd 8 in
  let size_struct := nthZ 0 hd 9 in
  _ ← assert_ (magic =? FDT_MAGIC) ("bad magic: " +:+ fmt_hash_x magic);
  _ ← assert_ (totalsize =? len blob) ("totalsize " +:+ fmt_d totalsize +:+ " != actual blob length " +:+ fmt_d (len blob));
  _ ← assert_ (off_rsvmap =? 40) ("off_mem_rsvmap " +:+ fmt_d off_rsvmap +:+ " != 40 (fixed header size)");
  _ ← assert_ (off_struct =? off_rsvmap + 16) "off_dt_struct doesn't immediately follow the (one-entry) rsvmap";
  _ ← assert_ (off_strings =? off_struct + size_struct) "off_dt_strings doesn't immediately follow the struct block";
  _ ← assert_ (off_strings + size_strings =? totalsize) "strings block doesn't end exactly at totalsize";
  rsv ← unpack 8 2 (slice blob off_rsvmap (off_rsvmap + 16));
  _ ← assert_ ((nthZ 0 rsv 0 =? 0) && (nthZ 0 rsv 1 =? 0)) "rsvmap not terminated by a (0,0) entry";
  let struct_bytes := slice blob off_struct (off_struct + size_struct) in
  let strings_bytes := slice blob off_strings (off_strings + size_strings) in
  '(depth, max_depth, prop_count, saw_end) ←
    tokens (S (List.length struct_bytes)) struct_bytes (len strings_bytes) 0 0 0 0;
  _ ← assert_ (depth =? 0) ("unbalanced BEGIN_NODE/END_NODE, final depth " +:+ fmt_d depth);
  _ ← assert_ saw_end "structure block never reached FDT_END";
  _ ← assert_ (max_depth >=? 2) ("suspiciously shallow tree (max_depth=" +:+ fmt_d max_depth +:+
                                 ") -- did node emission actually run?");
  _ ← assert_ (prop_count >? 0) "zero properties emitted";
  Ok {| max_depth := max_depth; prop_count := prop_count; totalsize := totalsize |}.

Definition default_bootargs : string := "console=ttyS0 earlycon".

Example core_dtb_ex :
  match build_this_core_dtb 0x2000000 1000000 1843200 default_bootargs None None with
  | Ok blob => (len blob, parse_and_validate blob) =
      (1214, Ok {| max_depth := 4; prop_count := 34; totalsize := 1214 |})
  | Raise _ => False
  end.
Proof. vm_compute. reflexivity. Qed.

(** ** Bytes *)

Lemma len_app {A} (a b : list A) : len (a ++ b) = len a + len b.
Proof. unfold len. rewrite length_app. lia. Qed.
Lemma len_nonneg {A} (l : list A) : 0 <= len l.
Proof. unfold len. lia. Qed.
Lemma len_replicate {A} (n : Z) (x : A) : 0 <= n -> len (replicate (Z.to_nat n) x) = n.
Proof. intros. unfold len. rewrite length_replicate. lia. Qed.

Lemma be_4 v : be 4 v = [(v >> 24) .& 0xFF; (v >> 16) .& 0xFF; (v >> 8) .& 0xFF; (v >> 0) .& 0xFF].
Proof. reflexivity. Qed.

Lemma unbe_be_4 v : 0 <= v < 2 ^ 32 -> unbe (be 4 v) = v.
Proof.
  intros Hv. rewrite be_4, Z.shiftr_0_r. pose proof (word_bytes_value v) as E. rewrite wrap_small in E by done.
  unfold unbe. cbn [fold_left]. revert E. generalize (v .& 255), ((v >> 8) .& 255), ((v >> 16) .& 255), ((v >> 24) .& 255).
  change (2 ^ 8) with 256. change (2 ^ 16) with 65536. change (2 ^ 24) with 16777216. intros. lia.
Qed.

Lemma len_be n v : 0 <= n -> len (be n v) = n.
Proof. intros. unfold len, be, range. rewrite length_map, length_seqZ. lia. Qed.

Lemma pack_inv n v bs : pack n v = Ok bs -> bs = be n v /\ 0 <= v < 2 ^ (8 * n).
Proof.
  unfold pack. destruct (Z.leb_spec 0 v), (Z.ltb_spec v (2 ^ (8 * n))); cbn [andb]; try done. by intros <-%Ok_inj.
Qed.

Lemma pack_ok n v : 0 <= v < 2 ^ (8 * n) -> pack n v = Ok (be n v).
Proof.
  intros. unfold pack. by destruct (Z.leb_spec 0 v), (Z.ltb_spec v (2 ^ (8 * n))); try lia.
Qed.

Lemma pack_all_inv vs bs : pack_all 4 vs = Ok bs -> bs = flat_map (be 4) vs /\ Forall (in_width 32) vs.
Proof.
  unfold pack_all. intros (l & Hl & <-%Ok_inj)%bind_Ok. revert l Hl.
  induction vs as [|v vs IH]; intros l; cbn [mapR]; [intros <-%Ok_inj; by split; [|constructor]|].
  intros (b & [-> Hb]%pack_inv & (l' & Hl' & <-%Ok_inj)%bind_Ok)%bind_Ok. destruct (IH l' Hl') as [E H].
  cbn [List.concat flat_map]. rewrite E. split; [done|by constructor].
Qed.

Lemma pack_all_ok vs : Forall (in_width 32) vs -> pack_all 4 vs = Ok (flat_map (be 4) vs).
Proof.
  unfold pack_all. intros H.
  assert (E : mapR (pack 4) vs = Ok (map (be 4) vs)).
  { induction H as [|v vs Hv _ IH]; [done|]. cbn [mapR map]. rewrite pack_ok by exact Hv. cbn [mbind result_bind].
    by rewrite IH. }
  rewrite E. cbn [mbind result_bind]. by rewrite flat_map_concat_map.
Qed.

(** Words packed are unpacked. *)
Lemma unpack_packed vs : Forall (in_width 32) vs -> unpack 4 (List.length vs) (flat_map (be 4) vs) = Ok vs.
Proof.
  intros H. assert (Hl : List.length (flat_map (be 4) vs) = (4 * List.length vs)%nat).
  { clear H. induction vs as [|v vs IH]; [done|]. cbn [flat_map]. rewrite length_app, IH, be_4. cbn [List.length]. lia. }
  unfold unpack. rewrite Hl, Nat.eqb_refl. f_equal. clear Hl.
  induction H as [|v vs Hv _ IH]; [done|]. cbn [List.length flat_map unpack_words].
  rewrite take_app_length', drop_app_length' by (by rewrite be_4). by rewrite IH, unbe_be_4.
Qed.

Lemma unpack_word v : in_width 32 v -> unpack 4 1 (be 4 v) = Ok [v].
Proof. intros H. rewrite <- (unpack_packed [v]) by (by constructor). cbn [flat_map List.length]. by rewrite app_nil_r. Qed.

(** A slice at the boundaries of a middle part. *)
Lemma slice_mid (pre x post : list Z) a b : a = len pre -> b = len pre + len x -> slice (pre ++ x ++ post) a b = x.
Proof.
  intros -> ->. unfold len in *. rewrite slice_in by (rewrite ?length_app; lia).
  rewrite drop_app_length' by lia. rewrite take_app_length' by lia. done.
Qed.

(** ** Alignment *)

Definition aligned (k : Z) : Z := 4 * ((k + 3) `div` 4).

Lemma land_not_3 x : x .& .~ 3 = 4 * (x `div` 4).
Proof.
  rewrite <- Z.ldiff_land. change 3 with (Z.ones 2). rewrite Z.ldiff_ones_r by done.
  rewrite Z.shiftl_mul_pow2, Z.shiftr_div_pow2 by done. change (2 ^ 2) with 4. lia.
Qed.

Lemma len_align4 data : len (align4 data) = aligned (len data).
Proof.
  unfold align4. pose proof (Z.mod_pos_bound (- len data) 4 ltac:(done)).
  rewrite len_app, len_replicate by lia. unfold aligned. Z.to_euclidean_division_equations; lia.
Qed.

Lemma aligned_bounds k : 0 <= k -> k <= aligned k <= k + 3.
Proof. intros. unfold aligned. Z.to_euclidean_division_equations; lia. Qed.

(** ** Text *)

Lemma encode_inv s bs : encode s = Ok bs -> bs = codes s.
Proof. unfold encode. destruct (str_all _ s); [by intros <-%Ok_inj|done]. Qed.
Lemma encode_ok s : str_all is_ascii s = true -> encode s = Ok (codes s).
Proof. intros H. unfold encode. by rewrite H. Qed.

Lemma len_codes s : len (codes s) = Z.of_nat (String.length s).
Proof. induction s as [|c s IH]; [done|]. unfold len in *. cbn [codes List.length String.length]. lia. Qed.

(** No NUL in a name. *)
Definition no_nul (s : string) : bool := str_all (fun c => negb (nat_of_ascii c =? 0)%nat) s.

Lemma index_zero_codes s post i : no_nul s = true -> index_zero (codes s ++ 0 :: post) i = Ok (i + len (codes s)).
Proof.
  unfold no_nul. revert i. induction s as [|c s IH]; intros i Hs; cbn [codes app index_zero].
  { cbn. by rewrite Z.add_0_r. }
  cbn [str_all] in Hs. apply andb_true_iff in Hs as [Hc%negb_true_iff Hs]. apply Nat.eqb_neq in Hc.
  destruct (Z.eqb_spec (Z.of_nat (nat_of_ascii c)) 0); [lia|]. rewrite IH by done. unfold len. cbn [List.length].
  f_equal. lia.
Qed.

(** ** The structure block as a list of events *)

Inductive shape := ShBegin | ShEnd | ShProp.

Inductive event := EvBegin (name : string) | EvEnd | EvProp (off : Z) (value : list Z).

Definition event_shape (e : event) : shape :=
  match e with EvBegin _ => ShBegin | EvEnd => ShEnd | EvProp _ _ => ShProp end.

Definition call_shape (c : call) : shape :=
  match c with BeginNode _ => ShBegin | EndNode => ShEnd | _ => ShProp end.

Definition encode_event (e : event) : list Z :=
  match e with
  | EvBegin name => be 4 FDT_BEGIN_NODE ++ align4 (codes name ++ [0])
  | EvEnd => be 4 FDT_END_NODE
  | EvProp off value => be 4 FDT_PROP ++ flat_map (be 4) [len value; off] ++ align4 value
  end.

Definition unmatched_end : exn := AssertionError "END_NODE with no matching BEGIN_NODE".

(** What the parser relies on: node names without NUL, name offsets inside
    a strings block of [n] bytes. *)
Definition event_ok (n : Z) (e : event) : Prop :=
  match e with
  | EvBegin name => no_nul name = true
  | EvEnd => True
  | EvProp off value => 0 <= off < n /\ in_width 32 off /\ in_width 32 (len value)
  end.

(** The specification of a tree: its final depth, greatest depth and number
    of properties; none when a node is ended that was not begun. *)
Fixpoint nesting (es : list shape) (depth deepest props : Z) : option (Z * Z * Z) :=
  match es with
  | [] => Some (depth, deepest, props)
  | ShBegin :: es' => nesting es' (depth + 1) (Z.max deepest (depth + 1)) props
  | ShEnd :: es' => if 0 <? depth then nesting es' (depth - 1) deepest props else None
  | ShProp :: es' => nesting es' depth deepest (props + 1)
  end.

Lemma drop_pre (pre x : list Z) : drop (Z.to_nat (len pre)) (pre ++ x) = x.
Proof. unfold len. rewrite Nat2Z.id. apply drop_app_length. Qed.

Lemma len_be_4 v : len (be 4 v) = 4.
Proof. by rewrite len_be. Qed.

(** The word at the position of the loop. *)
Lemma unpack_at pre v post : in_width 32 v ->
  unpack 4 1 (slice (pre ++ be 4 v ++ post) (len pre) (len pre + 4)) = Ok [v].
Proof. intros Hv. rewrite (slice_mid pre (be 4 v) post) by (rewrite ?len_be_4; lia). by apply unpack_word. Qed.

Lemma in_block pre v post : (len pre <? len (pre ++ be 4 v ++ post)) = true.
Proof. rewrite !len_app, len_be_4. pose proof (len_nonneg post). apply Z.ltb_lt. lia. Qed.

Lemma round_up_aligned k : ((k + 3) .& .~ 3) = aligned k.
Proof. apply land_not_3. Qed.

Lemma index_zero_name name post i : no_nul name = true ->
  index_zero (align4 (codes name ++ [0]) ++ post) i = Ok (i + len (codes name)).
Proof. intros. unfold align4. rewrite <- !app_assoc. by apply index_zero_codes. Qed.

(** One turn of the parser over one event. *)
Lemma tokens_begin fuel pre name post n d m p : no_nul name = true ->
  tokens (S fuel) (pre ++ encode_event (EvBegin name) ++ post) n (len pre) d m p =
  tokens fuel (pre ++ encode_event (EvBegin name) ++ post) n (len pre + len (encode_event (EvBegin name)))
    (d + 1) (Z.max m (d + 1)) p.
Proof.
  intros Hn. cbn [encode_event]. rewrite <- app_assoc. cbn [tokens].
  rewrite in_block, unpack_at by (unfold in_width; done). cbn [mbind result_bind].
  change (nthZ 0 [FDT_BEGIN_NODE] 0 =? FDT_BEGIN_NODE) with true. cbn iota.
  replace (len pre + 4) with (len (pre ++ be 4 FDT_BEGIN_NODE)) by (rewrite len_app, len_be_4; lia).
  rewrite (app_assoc pre), drop_pre, index_zero_name by done. cbn [mbind result_bind].
  rewrite round_up_aligned. f_equal.
  rewrite !len_app, len_align4, len_app. change (len [0]) with 1.
  replace (len pre + len (be 4 FDT_BEGIN_NODE) + len (codes name) - (len pre + len (be 4 FDT_BEGIN_NODE)) + 1)
    with (len (codes name) + 1) by lia. lia.
Qed.

Lemma tokens_end fuel pre post n d m p : 0 < d ->
  tokens (S fuel) (pre ++ encode_event EvEnd ++ post) n (len pre) d m p =
  tokens fuel (pre ++ encode_event EvEnd ++ post) n (len pre + len (encode_event EvEnd)) (d - 1) m p.
Proof.
  intros Hd. cbn [encode_event tokens].
  rewrite in_block, unpack_at by (unfold in_width; done). cbn [mbind result_bind].
  change (nthZ 0 [FDT_END_NODE] 0 =? FDT_BEGIN_NODE) with false.
  change (nthZ 0 [FDT_END_NODE] 0 =? FDT_END_NODE) with true. cbn iota.
  replace (d - 1 >=? 0) with true by lia. cbn [assert_ mbind result_bind]. by rewrite len_be_4.
Qed.

Lemma tokens_unmatched fuel pre post n d m p : d <= 0 ->
  tokens (S fuel) (pre ++ encode_event EvEnd ++ post) n (len pre) d m p = Raise unmatched_end.
Proof.
  intros Hd. cbn [encode_event tokens].
  rewrite in_block, unpack_at by (unfold in_width; done). cbn [mbind result_bind].
  change (nthZ 0 [FDT_END_NODE] 0 =? FDT_BEGIN_NODE) with false.
  change (nthZ 0 [FDT_END_NODE] 0 =? FDT_END_NODE) with true. cbn iota.
  by replace (d - 1 >=? 0) with false by lia.
Qed.

Lemma tokens_prop fuel pre off value post n d m p : event_ok n (EvProp off value) ->
  tokens (S fuel) (pre ++ encode_event (EvProp off value) ++ post) n (len pre) d m p =
  tokens fuel (pre ++ encode_event (EvProp off value) ++ post) n (len pre + len (encode_event (EvProp off value)))
    d m (p + 1).
Proof.
  intros (Hn & Ho & Hl). cbn [encode_event]. rewrite <- !app_assoc. cbn [tokens].
  rewrite in_block, unpack_at by (unfold in_width; done). cbn [mbind result_bind].
  change (nthZ 0 [FDT_PROP] 0 =? FDT_BEGIN_NODE) with false.
  change (nthZ 0 [FDT_PROP] 0 =? FDT_END_NODE) with false.
  change (nthZ 0 [FDT_PROP] 0 =? FDT_PROP) with true. cbn iota.
  assert (E8 : len (flat_map (be 4) [len value; off]) = 8) by (cbn [flat_map]; rewrite !len_app, !len_be_4; done).
  replace (len pre + 4) with (len (pre ++ be 4 FDT_PROP)) by (rewrite len_app, len_be_4; lia).
  rewrite (app_assoc pre), slice_mid by (rewrite ?E8; lia).
  change 2%nat with (List.length [len value; off]).
  rewrite unpack_packed by (repeat (constructor; [done|]); constructor). cbn [mbind result_bind].
  change (nthZ 0 [len value; off] 0) with (len value). change (nthZ 0 [len value; off] 1) with off.
  replace (off <? n) with true by lia. cbn [assert_ mbind result_bind].
  rewrite round_up_aligned. f_equal. rewrite !len_app, len_align4, E8. lia.
Qed.

Lemma tokens_stop fuel pre n d m p :
  tokens (S fuel) (pre ++ be 4 FDT_END) n (len pre) d m p = Ok (d, m, p, true).
Proof.
  rewrite <- (app_nil_r (be 4 FDT_END)). cbn [tokens]. by rewrite in_block, unpack_at by (unfold in_width; done).
Qed.

(** The loop over a whole block computes the tree's specification. *)
Definition tokens_verdict (r : option (Z * Z * Z)) : result (Z * Z * Z * bool) :=
  match r with Some r => Ok (r, true) | None => Raise unmatched_end end.

Lemma tokens_events es n : forall pre fuel d m p, Forall (event_ok n) es -> (List.length es < fuel)%nat ->
  tokens fuel (pre ++ List.concat (map encode_event es) ++ be 4 FDT_END) n (len pre) d m p =
  tokens_verdict (nesting (map event_shape es) d m p).
Proof.
  induction es as [|e es IH]; intros pre [|fuel] d m p Hes Hf; cbn [List.length] in Hf; try lia.
  { apply tokens_stop. }
  apply Forall_cons_1 in Hes as [He Hes]. cbn [map List.concat]. rewrite <- (app_assoc (encode_event e)).
  assert (Next : forall d' m' p',
    tokens fuel (pre ++ encode_event e ++ List.concat (map encode_event es) ++ be 4 FDT_END) n
      (len pre + len (encode_event e)) d' m' p' = tokens_verdict (nesting (map event_shape es) d' m' p')).
  { intros d' m' p'. rewrite (app_assoc pre), <- len_app. apply IH; [done|lia]. }
  destruct e as [name| |off value]; cbn [map event_shape nesting].
  - rewrite tokens_begin by done. apply Next.
  - destruct (Z.ltb_spec 0 d); [rewrite tokens_end by done; apply Next|by apply tokens_unmatched].
  - rewrite tokens_prop by done. apply Next.
Qed.

(** ** What the builder emits for a sequence of calls *)

(** The name and the bytes of a property call. *)
Definition call_prop (c : call) : option (string * list Z) :=
  match c with
  | BeginNode _ | EndNode => None
  | PropEmpty name => Some (name, [])
  | PropU32 name val => Some (name, be 4 (val .& 0xFFFFFFFF))
  | PropU64 name val => Some (name, be 8 (val .& 0xFFFFFFFFFFFFFFFF))
  | PropCells name cells => Some (name, flat_map (be 4) (map (fun c => c .& 0xFFFFFFFF) cells))
  | PropStr name val => Some (name, codes val ++ [0])
  | PropStrlist name vals => Some (name, flat_map (fun v => codes v ++ [0]) vals)
  end.

Definition ascii_name (s : string) : bool := str_all is_ascii s.

(** Texts are ASCII, and no node name holds a NUL. *)
Definition call_ok (c : call) : bool :=
  match c with
  | BeginNode name => ascii_name name && no_nul name
  | EndNode => true
  | PropEmpty name | PropU32 name _ | PropU64 name _ | PropCells name _ => ascii_name name
  | PropStr name val => ascii_name name && ascii_name val
  | PropStrlist name vals => ascii_name name && forallb ascii_name vals
  end.

(** The bytes a call adds, at most. *)
Definition cost (c : call) : Z :=
  match c with
  | BeginNode name => 8 + len (codes name)
  | EndNode => 4
  | _ => match call_prop c with
         | Some (name, value) => 16 + len (codes name) + len value
         | None => 0
         end
  end.
Definition total_cost (cs : list call) : Z := fold_right Z.add 0 (map cost cs).

(** The name a property's offset stands for. *)
Definition name_at (strings : list Z) (off : Z) (name : string) : Prop :=
  exists pre post, strings = pre ++ codes name ++ 0 :: post /\ off = len pre.

(** The event a call must become. *)
Definition renders (strings : list Z) (c : call) (e : event) : Prop :=
  match e with
  | EvBegin name => c = BeginNode name
  | EvEnd => c = EndNode
  | EvProp off value => exists name, call_prop c = Some (name, value) /\ name_at strings off name
  end.

Definition strings_ok (f : FdtBuilder) : Prop :=
  Forall (fun '(name, off) => name_at (f_strings f) off name) (string_offsets f).
Definition size (f : FdtBuilder) : Z := len (f_struct f) + len (f_strings f).

Lemma name_at_app strings more off name : name_at strings off name -> name_at (strings ++ more) off name.
Proof. intros (pre & post & -> & ->). exists pre, (post ++ more). split; [|done]. by rewrite <- !app_assoc. Qed.

Lemma name_at_range strings off name : name_at strings off name -> 0 <= off < len strings.
Proof.
  intros (pre & post & -> & ->). rewrite !len_app. pose proof (len_nonneg pre). pose proof (len_nonneg (codes name)).
  split; [lia|]. unfold len. cbn [List.length]. lia.
Qed.

Lemma renders_app strings more c e : renders strings c e -> renders (strings ++ more) c e.
Proof. destruct e; [done..|]. intros (name & ? & ?). exists name. split; [done|by apply name_at_app]. Qed.

Lemma renders_shape strings c e : renders strings c e -> event_shape e = call_shape c.
Proof. destruct e; [by intros ->..|]. intros (name & H & _). by destruct c. Qed.

Lemma cost_nonneg c : 0 <= cost c.
Proof. destruct c; cbn [cost call_prop]; unfold len; lia. Qed.

Lemma cost_prop c name value : call_prop c = Some (name, value) -> cost c = 16 + len (codes name) + len value.
Proof. intros H. destruct c; cbn [cost]; try done; by rewrite H. Qed.

Lemma renders_ok strings c e : call_ok c = true -> cost c < 2 ^ 32 -> len strings < 2 ^ 32 ->
  renders strings c e -> event_ok (len strings) e.
Proof.
  intros Hc Hcost Hs. destruct e as [name| |off value]; [|done|].
  { intros ->. cbn [call_ok] in Hc. by apply andb_true_iff in Hc as [_ Hc]. }
  intros (name & Hp & Hr%name_at_range). apply cost_prop in Hp.
  pose proof (len_nonneg (codes name)). pose proof (len_nonneg value).
  unfold event_ok, in_width. lia.
Qed.

(** A property call is its [_prop_raw]. *)
Lemma mapR_encode vals : forallb ascii_name vals = true ->
  mapR (fun v => bs ← encode v; Ok (bs ++ [0])) vals = Ok (map (fun v => codes v ++ [0]) vals).
Proof.
  induction vals as [|v vals IH]; [done|]. cbn [forallb]. intros [Hv Hvs]%andb_true_iff.
  cbn [mapR map]. rewrite encode_ok by done. cbn [mbind result_bind]. by rewrite IH.
Qed.

Lemma masked_32 v : in_width 32 (v .& 0xFFFFFFFF).
Proof. change 0xFFFFFFFF with (Z.ones 32). rewrite Z.land_ones by done. by apply Z.mod_pos_bound. Qed.
Lemma masked_64 v : in_width 64 (v .& 0xFFFFFFFFFFFFFFFF).
Proof. change 0xFFFFFFFFFFFFFFFF with (Z.ones 64). rewrite Z.land_ones by done. by apply Z.mod_pos_bound. Qed.

Lemma do_call_prop f c name value : call_ok c = true -> call_prop c = Some (name, value) ->
  do_call f c = prop_raw f name value /\ ascii_name name = true.
Proof.
  destruct c; cbn [call_ok call_prop do_call]; intros Hc E; try done; injection E as <- <-.
  - done.
  - unfold prop_u32, pack_I. by rewrite pack_ok by apply masked_32.
  - unfold prop_u64, pack_Q. by rewrite pack_ok by apply masked_64.
  - unfold prop_cells. rewrite pack_all_ok; [done|]. apply Forall_map, Forall_true. intros. apply masked_32.
  - apply andb_true_iff in Hc as [Hn Hv]. unfold prop_str. by rewrite encode_ok.
  - apply andb_true_iff in Hc as [Hn Hv]. unfold prop_strlist. rewrite mapR_encode by done.
    cbn [mbind result_bind]. by rewrite <- flat_map_concat_map.
Qed.

Lemma dict_find_In {A} (d : list (string * A)) k v : dict_find d k = Some v -> In (k, v) d.
Proof.
  induction d as [|[k' v'] d IH]; cbn; [done|]. destruct (String.eqb_spec k k') as [<-|]; [intros [= <-]; by left|].
  intros. right. by apply IH.
Qed.

(** The string table keeps every name it handed an offset out for. *)
Lemma string_off_ok f name : ascii_name name = true -> strings_ok f ->
  exists off f' more, string_off f name = Ok (off, f') /\ f_struct f' = f_struct f /\
    f_strings f' = f_strings f ++ more /\ len more <= len (codes name) + 1 /\
    name_at (f_strings f') off name /\ strings_ok f'.
Proof.
  intros Ha Hf. unfold string_off. destruct (dict_find _ _) as [off|] eqn:E.
  { exists off, f, []. rewrite app_nil_r. split; [done|]. repeat (split; [done|]). split; [pose proof (len_nonneg (codes name)); change (len (@nil Z)) with 0; lia|].
    split; [|done]. apply dict_find_In in E. by apply (proj1 (List.Forall_forall _ _) Hf (name, off)). }
  rewrite encode_ok by done. cbn [mbind result_bind].
  eexists _, _, (codes name ++ [0]). split; [done|]. cbn [f_struct f_strings]. split; [done|]. split; [done|].
  split; [by rewrite len_app|].
  assert (Hn : name_at (f_strings f ++ codes name ++ [0]) (len (f_strings f)) name).
  { exists (f_strings f), []. done. }
  split; [done|]. unfold strings_ok. cbn [f_strings string_offsets]. constructor; [done|].
  eapply List.Forall_impl; [|exact Hf]. intros [n o]. apply name_at_app.
Qed.

Lemma pad_bound (k : Z) (x : list Z) : len x <= k -> len (align4 x) <= k + 3.
Proof. intros. rewrite len_align4. pose proof (len_nonneg x). pose proof (aligned_bounds (len x)). lia. Qed.

Lemma prop_raw_ok f name value : ascii_name name = true -> strings_ok f ->
  size f + (16 + len (codes name) + len value) < 2 ^ 32 ->
  exists off f' more, prop_raw f name value = Ok f' /\
    f_struct f' = f_struct f ++ encode_event (EvProp off value) /\
    f_strings f' = f_strings f ++ more /\ size f' <= size f + (16 + len (codes name) + len value) /\
    name_at (f_strings f') off name /\ strings_ok f'.
Proof.
  intros Ha Hf Hs. destruct (string_off_ok f name Ha Hf) as (off & f1 & more & E & Hst & Hss & Hm & Hn & Hok).
  assert (E8 : len (flat_map (be 4) [len value; off]) = 8) by (cbn [flat_map]; rewrite !len_app, !len_be_4; done).
  pose proof (pad_bound (len value) value (Z.le_refl _)) as Hp.
  pose proof (name_at_range _ _ _ Hn) as Hr. rewrite Hss, len_app in Hr. unfold size in *.
  pose proof (len_nonneg (f_struct f)). pose proof (len_nonneg value). pose proof (len_nonneg (f_strings f)).
  unfold prop_raw. rewrite E. cbn [mbind result_bind]. unfold pack_I. rewrite pack_ok by (unfold FDT_PROP; lia).
  cbn [mbind result_bind].
  rewrite pack_all_ok by (apply Forall_cons_2; [unfold in_width; lia|]; apply Forall_cons_2; [unfold in_width; lia|]; constructor).
  cbn [mbind result_bind]. exists off. eexists _, more. split; [done|]. cbn [add_struct f_struct f_strings].
  split; [by rewrite Hst|]. split; [done|]. split; [|done].
  rewrite Hst, Hss, !len_app, E8, len_be_4. lia.
Qed.

Lemma do_call_ok f c : call_ok c = true -> strings_ok f -> size f + cost c < 2 ^ 32 ->
  exists e f' more, do_call f c = Ok f' /\ f_struct f' = f_struct f ++ encode_event e /\
    f_strings f' = f_strings f ++ more /\ size f' <= size f + cost c /\
    renders (f_strings f') c e /\ strings_ok f'.
Proof.
  intros Hc Hf Hs. destruct (call_prop c) as [[name value]|] eqn:E.
  { destruct (do_call_prop f c name value Hc E) as [-> Ha]. rewrite (cost_prop c name value E) in *.
    destruct (prop_raw_ok f name value Ha Hf Hs) as (off & f' & more & H1 & H2 & H3 & H4 & H5 & H6).
    exists (EvProp off value), f', more. repeat (split; [done|]). split; [|done]. by exists name. }
  destruct c; try done; cbn [do_call call_ok cost] in *.
  - apply andb_true_iff in Hc as [Ha Hn]. exists (EvBegin name). eexists _, []. split.
    { unfold begin_node, pack_I. rewrite pack_ok by (unfold FDT_BEGIN_NODE; lia). cbn [mbind result_bind].
      rewrite encode_ok by done. done. }
    rewrite app_nil_r. cbn [add_struct f_struct f_strings]. split; [done|]. split; [done|]. split; [|done].
    unfold size. cbn [add_struct f_struct f_strings]. rewrite !len_app, len_be_4.
    pose proof (pad_bound (len (codes name) + 1) (codes name ++ [0]) ltac:(rewrite len_app; done)). lia.
  - exists EvEnd. eexists _, []. split; [done|]. rewrite app_nil_r. cbn [add_struct f_struct f_strings].
    split; [done|]. split; [done|]. split; [|done]. unfold size. cbn [add_struct f_struct f_strings].
    rewrite len_app. change (len _) with 4 at 2. lia.
Qed.

Lemma total_cost_nonneg cs : 0 <= total_cost cs.
Proof.
  induction cs as [|c cs IH]; [done|]. change (total_cost (c :: cs)) with (cost c + total_cost cs).
  pose proof (cost_nonneg c). lia.
Qed.

(** What the builder holds after the calls [cs]: their events, in order. *)
Definition emitted (f : FdtBuilder) (cs : list call) (f' : FdtBuilder) : Prop :=
  exists es more, f_struct f' = f_struct f ++ List.concat (map encode_event es) /\
    f_strings f' = f_strings f ++ more /\ Forall2 (renders (f_strings f')) cs es.

Lemma do_calls_ok cs : forall f, forallb call_ok cs = true -> strings_ok f -> size f + total_cost cs < 2 ^ 32 ->
  exists f', do_calls f cs = Ok f' /\ emitted f cs f' /\ size f' <= size f + total_cost cs.
Proof.
  induction cs as [|c cs IH]; intros f Hc Hf Hs.
  { exists f. split; [done|]. split; [|cbn; lia]. exists [], []. cbn [map List.concat]. rewrite !app_nil_r. done. }
  cbn [forallb] in Hc. apply andb_true_iff in Hc as [Hc Hcs].
  change (total_cost (c :: cs)) with (cost c + total_cost cs) in *.
  pose proof (total_cost_nonneg cs).
  destruct (do_call_ok f c Hc Hf ltac:(lia)) as (e & f1 & more & E & Hst & Hss & Hz & Hr & Hok).
  destruct (IH f1 Hcs Hok ltac:(lia)) as (f' & E' & (es & more' & Hst' & Hss' & Hr') & Hz').
  exists f'. cbn [do_calls]. rewrite E. split; [done|]. split; [|lia].
  exists (e :: es), (more ++ more'). cbn [map List.concat]. rewrite !app_assoc, <- Hst, <- Hss.
  split; [done|]. split; [done|]. constructor; [|done]. rewrite Hss'. by apply renders_app.
Qed.

(** ** The blob *)

Definition fdt_header (struct_len strings_len : Z) : list Z :=
  [FDT_MAGIC; 56 + struct_len + strings_len; 56; 56 + struct_len; 40;
   FDT_VERSION; FDT_LAST_COMP_VERSION; 0; strings_len; struct_len].

Definition blob_of (st ss : list Z) : list Z :=
  flat_map (be 4) (fdt_header (len st) (len ss)) ++ replicate 16 0 ++ st ++ ss.

Lemma header_range s t : 0 <= s -> 0 <= t -> 56 + s + t < 2 ^ 32 -> Forall (in_width 32) (fdt_header s t).
Proof.
  intros. unfold fdt_header, FDT_MAGIC, FDT_VERSION, FDT_LAST_COMP_VERSION, in_width.
  repeat (apply Forall_cons_2; [lia|]). constructor.
Qed.

Lemma len_blob st ss : len (blob_of st ss) = 56 + len st + len ss.
Proof. unfold blob_of. rewrite !len_app. change (len (flat_map _ _)) with 40. change (len (replicate 16 0)) with 16. lia. Qed.

Lemma build_ok f : size f + 60 < 2 ^ 32 -> build f = Ok (blob_of (f_struct f ++ be 4 FDT_END) (f_strings f)).
Proof.
  intros Hs. unfold build, pack_I. rewrite pack_ok by (unfold FDT_END; lia). cbn [mbind result_bind].
  change (pack_all 8 [0; 0]) with (Ok (replicate 16 0)). cbn [mbind result_bind]. cbn [add_struct f_struct f_strings].
  change (len (replicate 16 0)) with 16. change (40 + 16) with 56. unfold size in Hs.
  pose proof (len_nonneg (f_struct f)). pose proof (len_nonneg (f_strings f)).
  assert (len (f_struct f ++ be 4 FDT_END) = len (f_struct f) + 4) by (by rewrite len_app, len_be_4).
  pose proof (header_range (len (f_struct f ++ be 4 FDT_END)) (len (f_strings f))) as Hh. unfold fdt_header in Hh.
  rewrite pack_all_ok by (apply Hh; lia). done.
Qed.

Lemma assert_true {A} b msg (k : unit -> result A) : b = true -> (x ← assert_ b msg; k x) = k tt.
Proof. by intros ->. Qed.

(** What the validator must answer for a tree of the given nesting. *)
Definition verdict (r : option (Z * Z * Z)) (size : Z) : result info :=
  match r with
  | None => Raise unmatched_end
  | Some (depth, deepest, props) =>
      if negb (depth =? 0) then Raise (AssertionError ("unbalanced BEGIN_NODE/END_NODE, final depth " +:+ fmt_d depth))
      else if deepest <? 2 then Raise (AssertionError ("suspiciously shallow tree (max_depth=" +:+ fmt_d deepest +:+
                                                       ") -- did node emission actually run?"))
      else if props <=? 0 then Raise (AssertionError "zero properties emitted")
      else Ok {| max_depth := deepest; prop_count := props; totalsize := size |}
  end.

Lemma parse_blob st ss r : 56 + len st + len ss < 2 ^ 32 ->
  tokens (S (List.length st)) st (len ss) 0 0 0 0 = tokens_verdict r ->
  parse_and_validate (blob_of st ss) = verdict r (len (blob_of st ss)).
Proof.
  intros Hs Ht. pose proof (len_nonneg st). pose proof (len_nonneg ss). pose proof (len_blob st ss) as Hl.
  assert (Hh : unpack 4 10 (slice (blob_of st ss) 0 40) = Ok (fdt_header (len st) (len ss))).
  { unfold blob_of. change (flat_map (be 4) ?h ++ ?r) with ([] ++ flat_map (be 4) h ++ r).
    rewrite slice_mid by done. by apply (unpack_packed (fdt_header _ _)), header_range. }
  assert (Hr : slice (blob_of st ss) 40 56 = replicate 16 0) by (unfold blob_of; by rewrite slice_mid).
  assert (Hst : slice (blob_of st ss) 56 (56 + len st) = st).
  { unfold blob_of. rewrite (app_assoc (flat_map _ _)). by rewrite slice_mid. }
  assert (Hss : slice (blob_of st ss) (56 + len st) (56 + len st + len ss) = ss).
  { unfold blob_of. rewrite <- (app_nil_r (_ ++ _)), !app_assoc, <- app_assoc.
    rewrite slice_mid; [done| |]; rewrite !len_app; change (len (flat_map _ _)) with 40;
      change (len (replicate 16 0)) with 16; lia. }
  unfold parse_and_validate. rewrite Hh. cbn [mbind result_bind].
  set (h := fdt_header (len st) (len ss)).
  change (nthZ 0 h 0) with FDT_MAGIC. change (nthZ 0 h 1) with (56 + len st + len ss). change (nthZ 0 h 2) with 56.
  change (nthZ 0 h 3) with (56 + len st). change (nthZ 0 h 4) with 40. change (nthZ 0 h 8) with (len ss).
  change (nthZ 0 h 9) with (len st). clear h.
  change (40 + 16) with 56. rewrite !assert_true by lia. rewrite Hr. change (unpack 8 2 (replicate 16 0)) with (Ok [0; 0]).
  cbn [mbind result_bind]. change (nthZ 0 [0; 0] _) with 0. rewrite assert_true by done.
  rewrite Hst, Hss, Ht. destruct r as [[[d m] p]|]; [|done]. cbn [tokens_verdict mbind result_bind verdict].
  destruct (Z.eqb_spec d 0); [|done]. rewrite !assert_true by done.
  destruct (Z.ltb_spec m 2) as [Hm|Hm]; [by replace (m >=? 2) with false by lia|]. rewrite assert_true by lia.
  destruct (Z.leb_spec p 0) as [Hp|Hp]; [by replace (p >? 0) with false by lia|]. rewrite assert_true by lia.
  by rewrite Hl.
Qed.

(** ** Every tree the builder is asked for is emitted and accepted *)

Lemma events_of_calls strings cs es : forallb call_ok cs = true -> total_cost cs < 2 ^ 32 -> len strings < 2 ^ 32 ->
  Forall2 (renders strings) cs es ->
  Forall (event_ok (len strings)) es /\ map event_shape es = map call_shape cs.
Proof.
  intros Hc Hcost Hs. induction 1 as [|c e cs es Hr _ IH]; [by split|].
  cbn [forallb] in Hc. apply andb_true_iff in Hc as [Hc Hcs].
  change (total_cost (c :: cs)) with (cost c + total_cost cs) in Hcost.
  pose proof (cost_nonneg c). pose proof (total_cost_nonneg cs).
  destruct IH as [IH1 IH2]; [done|lia|]. split.
  - constructor; [|done]. apply (renders_ok strings c e); [done|lia|done|done].
  - cbn [map]. by rewrite IH2, (renders_shape _ _ _ Hr).
Qed.

Lemma len_events es : Z.of_nat (List.length es) <= len (List.concat (map encode_event es)).
Proof.
  induction es as [|e es IH]; [done|]. cbn [map List.concat List.length]. rewrite len_app.
  assert (1 <= len (encode_event e)).
  { destruct e; cbn [encode_event]; rewrite ?len_app, len_be_4; unfold len; lia. }
  lia.
Qed.

Lemma build_calls cs : forallb call_ok cs = true -> total_cost cs + 60 < 2 ^ 32 ->
  exists f, do_calls new_fdt cs = Ok f /\ emitted new_fdt cs f /\
    build f = Ok (blob_of (f_struct f ++ be 4 FDT_END) (f_strings f)) /\
    parse_and_validate (blob_of (f_struct f ++ be 4 FDT_END) (f_strings f)) =
      verdict (nesting (map call_shape cs) 0 0 0) (len (blob_of (f_struct f ++ be 4 FDT_END) (f_strings f))).
Proof.
  intros Hc Hcost.
  destruct (do_calls_ok cs new_fdt Hc (Forall_nil_2 _) ltac:(change (size new_fdt) with 0; lia)) as (f & E & He & Hz).
  change (size new_fdt) with 0 in Hz. exists f. split; [exact E|]. split; [exact He|].
  split; [by apply build_ok; lia|].
  destruct He as (es & more & Hst & Hss & Hr). cbn [new_fdt f_struct f_strings app] in Hst. unfold size in Hz.
  pose proof (len_nonneg (f_struct f)). pose proof (len_nonneg (f_strings f)).
  destruct (events_of_calls (f_strings f) cs es Hc ltac:(lia) ltac:(lia) Hr) as [Hok Hsh].
  apply parse_blob; [rewrite len_app, len_be_4; lia|].
  rewrite Hst, <- Hsh. apply (tokens_events es (len (f_strings f)) []); [done|].
  pose proof (len_events es) as Hl. unfold len in Hl. rewrite length_app. lia.
Qed.

(** [C31] Build and validate round trip, for every sequence of builder calls
    on ASCII texts (no NUL in a node's name) that add up to less than
    4 GiB: no call raises, [build] succeeds, and [parse_and_validate] gives
    exactly the verdict the calls deserve: the depth and the number of
    properties of the tree when every node begun is ended, and otherwise
    the assertion for a node ended but not begun, for nodes left open, for
    a tree less than two deep or for a tree without a property. *)
Theorem built_tree_verdict cs : forallb call_ok cs = true -> total_cost cs + 60 < 2 ^ 32 ->
  exists f blob, do_calls new_fdt cs = Ok f /\ build f = Ok blob /\
    parse_and_validate blob = verdict (nesting (map call_shape cs) 0 0 0) (len blob).
Proof.
  intros Hc Hcost. destruct (build_calls cs Hc Hcost) as (f & ? & _ & ? & ?). by exists f, (blob_of (f_struct f ++ be 4 FDT_END) (f_strings f)).
Qed.

Definition demo_calls : list call :=
  [BeginNode ""; BeginNode "memory@0"; PropCells "reg" [0; -1]; PropStrlist "compatible" ["a"; "b"]; EndNode].

(** One node too few is ended. *)
Lemma built_tree_verdict_witness : exists f blob, do_calls new_fdt demo_calls = Ok f /\ build f = Ok blob /\
  parse_and_validate blob = Raise (AssertionError "unbalanced BEGIN_NODE/END_NODE, final depth 1").
Proof. apply (built_tree_verdict demo_calls); reflexivity. Defined.

(** [C32] The emitted bytes render the calls: the blob is the fixed header,
    the empty reservation block, one encoded event per call in the order of
    the calls, the end token and the strings block; every property event
    carries the call's bytes, and its name offset leads to the call's name,
    NUL-terminated, in the strings block, also when the name was used
    before. *)
Theorem blob_renders_calls cs : forallb call_ok cs = true -> total_cost cs + 60 < 2 ^ 32 ->
  exists f es, do_calls new_fdt cs = Ok f /\ Forall2 (renders (f_strings f)) cs es /\
    build f = Ok (blob_of (List.concat (map encode_event es) ++ be 4 FDT_END) (f_strings f)).
Proof.
  intros Hc Hcost. destruct (build_calls cs Hc Hcost) as (f & E & (es & more & Hst & Hss & Hr) & Hb & _).
  exists f, es. split; [done|]. split; [done|]. by rewrite Hb, Hst.
Qed.

Lemma blob_renders_calls_witness :
  exists f es, do_calls new_fdt demo_calls = Ok f /\ Forall2 (renders (f_strings f)) demo_calls es /\
    build f = Ok (blob_of (List.concat (map encode_event es) ++ be 4 FDT_END) (f_strings f)).
Proof. apply (blob_renders_calls demo_calls); reflexivity. Defined.

(** ** This core's tree *)

Lemma cost_prop_u32 name v : cost (PropU32 name v) = 20 + len (codes name).
Proof. cbn [cost call_prop]. rewrite len_be_4. lia. Qed.

Lemma core_calls_ok mem timebase uart bootargs start stop : ascii_name bootargs = true ->
  forallb call_ok (core_calls mem timebase uart bootargs start stop) = true.
Proof.
  intros Ha. unfold core_calls. rewrite !forallb_app. cbn [forallb call_ok]. rewrite Ha.
  destruct start, stop; reflexivity.
Qed.

Lemma core_calls_cost mem timebase uart bootargs start stop :
  total_cost (core_calls mem timebase uart bootargs start stop) <= 4000 + len (codes bootargs).
Proof.
  unfold core_calls, total_cost. destruct start as [a|], stop as [b|];
    cbn [app map fold_right]; rewrite !cost_prop_u32;
    cbn [cost call_prop codes flat_map map app]; rewrite ?len_app, ?len_be_4; unfold len; cbn [List.length]; lia.
Qed.

Lemma core_calls_nesting mem timebase uart bootargs start stop :
  nesting (map call_shape (core_calls mem timebase uart bootargs start stop)) 0 0 0 =
  Some (0, 4, if bool_decide (is_Some start) && bool_decide (is_Some stop) then 36 else 34).
Proof. destruct start, stop; reflexivity. Qed.

(** [C33] This core's device tree is valid for every configuration: whatever
    the memory size, the timebase and UART frequencies, the initrd range and
    the ASCII boot arguments (of less than about 4 GiB), no [struct.pack] of
    [build_this_core_dtb] raises, and the validator accepts the blob: four
    levels of nodes, 34 properties, and two more exactly when both ends of
    an initrd are given. *)
Theorem core_dtb_valid mem timebase uart bootargs start stop :
  ascii_name bootargs = true -> len (codes bootargs) + 4060 < 2 ^ 32 ->
  exists blob, build_this_core_dtb mem timebase uart bootargs start stop = Ok blob /\
    parse_and_validate blob = Ok {| max_depth := 4;
      prop_count := if bool_decide (is_Some start) && bool_decide (is_Some stop) then 36 else 34;
      totalsize := len blob |}.
Proof.
  intros Ha Hl. pose proof (core_calls_cost mem timebase uart bootargs start stop).
  destruct (build_calls _ (core_calls_ok mem timebase uart bootargs start stop Ha) ltac:(lia)) as (f & E & _ & Hb & Hp).
  eexists. split; [unfold build_this_core_dtb; rewrite E; exact Hb|]. rewrite Hp, core_calls_nesting.
  generalize (len (blob_of (f_struct f ++ be 4 FDT_END) (f_strings f))). intros n.
  by destruct (bool_decide (is_Some start) && bool_decide (is_Some stop)).
Qed.

Lemma core_dtb_valid_witness :
  exists blob, build_this_core_dtb 0x2000000 1000000 1843200 default_bootargs (Some 0x84000000) (Some 0x84200000) = Ok blob /\
    parse_and_validate blob = Ok {| max_depth := 4; prop_count := 36; totalsize := len blob |}.
Proof. apply (core_dtb_valid 0x2000000 1000000 1843200 default_bootargs (Some 0x84000000) (Some 0x84200000)); reflexivity. Defined.

(** Calls with the same effect are interchangeable. *)
Definition same_call (c c' : call) : Prop := forall f, do_call f c = do_call f c'.

Lemma do_calls_same cs cs' : Forall2 same_call cs cs' -> forall f, do_calls f cs = do_calls f cs'.
Proof.
  induction 1 as [|c c' cs cs' Hc _ IH]; intros f; [done|]. cbn [do_calls]. rewrite Hc.
  destruct (do_call f c'); [|done]. apply IH.
Qed.

Lemma core_calls_mem mem mem' timebase uart bootargs start stop :
  same_call (PropCells "reg" [0; 0; 0; mem]) (PropCells "reg" [0; 0; 0; mem']) ->
  Forall2 same_call (core_calls mem timebase uart bootargs start stop) (core_calls mem' timebase uart bootargs start stop).
Proof.
  assert (R : forall cs, Forall2 same_call cs cs) by (induction cs; constructor; [by intros f|done]).
  intros H. unfold core_calls. apply Forall2_app; [|apply R].
  do 27 (constructor; [by intros f|]). constructor; [exact H|]. apply R.
Qed.

(** The memory node has one cell for the size, whatever the size: the
    high cell of [reg] is the constant 0 and the low one keeps 32 bits, so a
    core with 4 GiB more gets the very same device tree. *)
Theorem memory_size_truncated mem timebase uart bootargs start stop :
  build_this_core_dtb (mem + 2 ^ 32) timebase uart bootargs start stop =
  build_this_core_dtb mem timebase uart bootargs start stop.
Proof.
  unfold build_this_core_dtb. rewrite (do_calls_same (core_calls (mem + 2 ^ 32) timebase uart bootargs start stop)
    (core_calls mem timebase uart bootargs start stop)); [done|].
  apply core_calls_mem. intros f. cbn [do_call]. unfold prop_cells. cbn [map].
  change 0xFFFFFFFF with (Z.ones 32). rewrite (Z.land_ones mem), (Z.land_ones (mem + 2 ^ 32)) by done.
  replace ((mem + 2 ^ 32) `mod` 2 ^ 32) with (mem `mod` 2 ^ 32); [done|].
  pose proof (Z.mod_add mem 1 (2 ^ 32) ltac:(done)) as E. by rewrite Z.mul_1_l in E.
Qed.

(** ** What the validator raises *)

(** Only a mismatch found by a check is an [AssertionError]: a file
    shorter than the header raises [struct.error] instead. *)
Theorem short_blob_struct_error blob : len blob < 40 ->
  parse_and_validate blob = Raise (StructError "unpack requires a buffer of 40 bytes").
Proof.
  intros H. unfold parse_and_validate, unpack.
  assert (E : (List.length (slice blob 0 40) < 40)%nat).
  { unfold len in H. unfold slice. rewrite length_take, length_drop. unfold slice_index. cbn [Z.ltb Z.compare]. lia. }
  destruct (Nat.eqb_spec (List.length (slice blob 0 40)) (4 * 10)); [lia|done].
Qed.

Lemma short_blob_struct_error_witness :
  parse_and_validate (be 4 FDT_MAGIC) = Raise (StructError "unpack requires a buffer of 40 bytes").
Proof. apply (short_blob_struct_error (be 4 FDT_MAGIC)). reflexivity. Defined.

(** ** The validator's loop ends *)

Definition out_of_fuel {A} (r : result A) : Prop := r = Raise (RuntimeError "fuel").

Lemma bind_fuel {A B} (r : result A) (k : A -> result B) :
  ~ out_of_fuel r -> (forall x, r = Ok x -> ~ out_of_fuel (k x)) -> ~ out_of_fuel (r ≫= k).
Proof. destruct r as [x|e]; intros Hr Hk; [by apply Hk|]. intros E. apply Hr. unfold out_of_fuel in *. cbn in E. congruence. Qed.

Lemma unpack_fuel n k bs : ~ out_of_fuel (unpack n k bs).
Proof. unfold unpack, out_of_fuel. by destruct (_ =? _)%nat. Qed.
Lemma assert_fuel b msg : ~ out_of_fuel (assert_ b msg).
Proof. by destruct b. Qed.
Lemma index_zero_fuel bs i : ~ out_of_fuel (index_zero bs i).
Proof. revert i. induction bs as [|b bs IH]; intros i; cbn; [done|]. by destruct (b =? 0). Qed.

Lemma index_zero_le bs i stop : index_zero bs i = Ok stop -> i <= stop.
Proof.
  revert i. induction bs as [|b bs IH]; intros i; cbn [index_zero]; [done|].
  destruct (b =? 0); [intros <-%Ok_inj; lia|]. intros H%IH. lia.
Qed.

Lemma unbe_nonneg bs : Forall (Z.le 0) bs -> 0 <= unbe bs.
Proof.
  unfold unbe. intros H. enough (forall a, 0 <= a -> 0 <= fold_left (fun a b => 256 * a + b) bs a) as E by by apply E.
  induction H as [|b bs Hb _ IH]; intros a Ha; [done|]. apply IH. lia.
Qed.

Lemma slice_nonneg l a b : Forall (Z.le 0) l -> Forall (Z.le 0) (slice l a b).
Proof. intros. unfold slice. by apply Forall_take, Forall_drop. Qed.

Lemma unpack_nonneg n k bs vs i : Forall (Z.le 0) bs -> unpack n k bs = Ok vs -> 0 <= nthZ 0 vs i.
Proof.
  unfold unpack, nthZ. destruct (_ =? _)%nat; [|done]. intros Hb <-%Ok_inj. generalize (Z.to_nat i). clear i.
  revert bs Hb. induction k as [|k IH]; intros bs Hb [|i]; cbn [unpack_words nth]; try done.
  - by apply unbe_nonneg, Forall_take.
  - by apply IH, Forall_drop.
Qed.

(** Every turn of the loop moves on by a word at least. *)
Lemma tokens_fuel sb n : Forall (Z.le 0) sb -> forall fuel i d m p, 0 <= i -> len sb - i < Z.of_nat fuel ->
  0 < Z.of_nat fuel -> ~ out_of_fuel (tokens fuel sb n i d m p).
Proof.
  intros Hsb. induction fuel as [|fuel IH]; intros i d m p Hi Hf Hp; [lia|]. cbn [tokens].
  destruct (Z.ltb_spec i (len sb)) as [Hlt|]; [|done].
  assert (Next : forall j d' m' p', i + 4 <= j -> ~ out_of_fuel (tokens fuel sb n j d' m' p')).
  { intros. apply IH; lia. }
  apply bind_fuel; [apply unpack_fuel|]. intros toks Ht.
  destruct (_ =? FDT_BEGIN_NODE); [|destruct (_ =? FDT_END_NODE); [|destruct (_ =? FDT_PROP);
    [|by destruct (_ =? FDT_END)]]].
  - apply bind_fuel; [apply index_zero_fuel|]. intros stop Hstop%index_zero_le. apply Next.
    rewrite round_up_aligned. pose proof (aligned_bounds (stop - (i + 4) + 1)). lia.
  - apply bind_fuel; [apply assert_fuel|]. intros _ _. apply Next. lia.
  - apply bind_fuel; [apply unpack_fuel|]. intros hd Hhd. apply bind_fuel; [apply assert_fuel|]. intros _ _. apply Next.
    rewrite round_up_aligned. pose proof (unpack_nonneg _ _ _ _ 0 (slice_nonneg sb (i + 4) (i + 4 + 8) Hsb) Hhd).
    pose proof (aligned_bounds (nthZ 0 hd 0)). lia.
Qed.

(** The validator ends on every file: on any list of bytes, whatever
    the lengths and offsets it claims, the token loop leaves by its
    condition, its [break] or an exception; the bound of the model is never
    reached. *)
Theorem validator_terminates blob : Forall (Z.le 0) blob -> ~ out_of_fuel (parse_and_validate blob).
Proof.
  intros Hb. unfold parse_and_validate. apply bind_fuel; [apply unpack_fuel|]. intros hd _.
  do 6 (apply bind_fuel; [apply assert_fuel|]; intros _ _).
  apply bind_fuel; [apply unpack_fuel|]. intros rsv _. apply bind_fuel; [apply assert_fuel|]. intros _ _.
  apply bind_fuel; [apply tokens_fuel; [by apply slice_nonneg|done|unfold len; lia|lia]|].
  intros [[[d m] p] saw] _. do 4 (apply bind_fuel; [apply assert_fuel|]; intros _ _). done.
Qed.

(** A property whose length leads out of the block. *)
Definition runaway : list Z :=
  flat_map (be 4) [FDT_MAGIC; 56 + 12; 56; 56 + 12; 40; 17; 16; 0; 0; 12] ++ replicate 16 0 ++ flat_map (be 4) [3; 2 ^ 32 - 1; 0].

Lemma validator_terminates_witness : ~ out_of_fuel (parse_and_validate runaway).
Proof. apply (validator_terminates runaway). vm_compute. repeat (apply Forall_cons_2; [discriminate|]). constructor. Defined.
