(* ===== verification/Bench.v ===== *)
(** * The benchmark runner

    [sim/tools/bench_runner.py]: one benchmark through the reference
    simulator and the Verilog simulation ([run_bench], and its two variants
    for the out-of-order core), the kernels rewritten for that core, and
    [main]'s comparisons: the configurations each one runs, the results it
    keeps, and its exit status.  The Verilog tools are a parameter, as in
    [Harness]; a line printed with a float in it is kept as its data. *)

From Stdlib Require Import QArith.
From S2P Require Import Prelude Words PyStr Machine Mmu Step StepFacts Run Asm AsmText TextFacts Layout MemImage.
From S2P Require Import RandomGen Harness.
#[local] Open Scope string_scope.
#[local] Open Scope Z_scope.
#[local] Open Scope list_scope.

(** ** Definitions: tables *)

Definition MEM_SIZE_OVERRIDES : list (string * Z) := [("bench_bubble_sort", 512)].

Definition EXPECTED_X10 : list (string * Z) :=
  [("bench_fib", 832040); ("bench_sum_array", 136); ("bench_bubble_sort", 1)].

Definition OOO_COMPATIBLE_BENCHES : list string := ["bench_fib"; "bench_sum_array"].

Definition VECTOR_PAIR : string * string := ("bench_vecadd_scalar", "bench_vecadd_vector").
Definition EXPECTED_X10_VECTOR_PAIR : Z := 396.
Definition TARGET_RETIRED_VECTOR_PAIR : list (string * Z) :=
  [("bench_vecadd_scalar", 208); ("bench_vecadd_vector", 141)].

Definition mem_size_of (name : string) : Z := default 128 (dict_find MEM_SIZE_OVERRIDES name).

(** ** Definitions: one benchmark *)

(** The dictionary a run returns; the out-of-order variants have no cache
    counters.  [ipc] is the exact quotient the float stands for. *)
Record bench := {
  instructions : Z;
  cycles : Z;
  ipc : Q;
  cache_counters : option (Z * Z * Z)
}.

(** [(result, None)] or [(None, message)]. *)
Inductive answer := Result (b : bench) | Err (msg : string).

(** [a / b]. *)
Definition true_div (a b : Z) : result Q :=
  if b =? 0 then Raise (ZeroDivisionError "division by zero") else Ok (Qdiv (inject_Z a) (inject_Z b)).

(** [[int(l.strip()) for l in f if l.strip()]]. *)
Definition int_lines (file : list string) : result (list Z) := mapR int_base10 (stripped_lines file).

(** The reference run of a benchmark and its two checks. *)
Definition reference_check (fuel : nat) (name : string) (words : list Z) (mem_size xlen : Z)
    (k : Z -> result answer) : result answer :=
  match run fuel words 200000 (init mem_size xlen) with
  | Raised e => Ok (Err ("ISS error: " +:+ exn_str e))
  | Running _ _ => Raise (RuntimeError "fuel")
  | Returned iss instrs =>
      match dict_find EXPECTED_X10 name with
      | Some expected =>
          if negb (Machine.reg iss 10 =? expected) then
            Ok (Err ("ISS correctness check failed: x10=" +:+ fmt_d (Machine.reg iss 10)
                     +:+ ", expected " +:+ fmt_d expected))
          else k instrs
      | None => k instrs
      end
  end.

(** The first line reading [fence], and everything from there on, become
    padding. *)
Fixpoint cut_at_fence (lines : list string) : option (list string) :=
  match lines with
  | [] => None
  | ln :: lines' => if String.eqb (strip ln) "fence" then Some [] else l ← cut_at_fence lines'; Some (ln :: l)
  end.

Definition strip_halt_trailer_for_ooo (lines : list string) : result (list string) :=
  match cut_at_fence lines with
  | None => Raise (ValueError "no `fence` trailer line found -- benchmark doesn't match the expected shape")
  | Some kept => Ok (kept ++ replicate (Z.to_nat OOO_TRAILER_NOP_COUNT) "addi x0, x0, 0")
  end.

Section Tools.
Context (traceback : exn -> string).
Context (rtl : string -> list string -> rtl_run).
Context (template ooo_template vector_template : string).
Context (init_file : string) (out_path : string -> string).

(** The name of a run's files. *)
Definition tag (name : string) (c : knobs) : string :=
  name +:+ "_hs" +:+ fmt_d (hazard_strategy c) +:+ "_p" +:+ fmt_d (pipeline_profile c)
  +:+ "_bp" +:+ fmt_d (branch_predictor c) +:+ "_cm" +:+ fmt_d (cache_mode c)
  +:+ "_rp" +:+ fmt_d (replacement_policy c) +:+ "_ve" +:+ fmt_d (victim_entries c)
  +:+ "_be" +:+ fmt_d (burst_enable c) +:+ "_ldb" +:+ fmt_d (mem_latency_d_burst c)
  +:+ "_li" +:+ fmt_d (mem_latency_i c) +:+ "_ld" +:+ fmt_d (mem_latency_d c)
  +:+ "_me" +:+ fmt_d (mshr_entries c) +:+ "_l2" +:+ fmt_d (l2_size c) +:+ "_pf" +:+ fmt_d (prefetch_mode c).

Definition bench_max_time (instrs : Z) (c : knobs) : Z :=
  (instrs * (60 + 2 * (mem_latency_i c + mem_latency_d c)) + 500) * 10 + (if truthy (cache_mode c) then 4000 else 0).

Definition bench_substs (out : string) (c : knobs) (max_time mem_size xlen : Z) : list (string * string) :=
  [("__INIT_FILE__", init_file); ("__MAX_TIME__", fmt_d max_time); ("__OUT_FILE__", out);
   ("__MEM_SIZE__", fmt_d mem_size); ("__HAZARD_STRATEGY__", fmt_d (hazard_strategy c));
   ("__PIPELINE_PROFILE__", fmt_d (pipeline_profile c)); ("__BRANCH_PREDICTOR__", fmt_d (branch_predictor c));
   ("__CACHE_MODE__", fmt_d (cache_mode c)); ("__REPLACEMENT_POLICY__", fmt_d (replacement_policy c));
   ("__VICTIM_ENTRIES__", fmt_d (victim_entries c)); ("__MSHR_ENTRIES__", fmt_d (mshr_entries c));
   ("__L2_SIZE_BYTES__", fmt_d (l2_size c)); ("__L2_WAYS__", fmt_d (l2_ways c));
   ("__L2_REPLACEMENT_POLICY__", fmt_d (l2_replacement c)); ("__BURST_ENABLE__", fmt_d (burst_enable c));
   ("__MEM_LATENCY_D_BURST__", fmt_d (mem_latency_d_burst c)); ("__XLEN__", fmt_d xlen);
   ("__MEM_LATENCY_I__", fmt_d (mem_latency_i c)); ("__MEM_LATENCY_D__", fmt_d (mem_latency_d c));
   ("__PREFETCH_MODE__", fmt_d (prefetch_mode c))].

Definition bench_answer (instrs : Z) (r : rtl_run) : result answer :=
  match tool_failure r with
  | Some m => Ok (Err m)
  | None =>
      vals ← int_lines (dump_lines r);
      cycles ← list_get vals 0;
      icache_misses ← list_get vals 1;
      icache_accesses ← list_get vals 2;
      dcache_misses ← list_get vals 3;
      ipc ← true_div instrs cycles;
      Ok (Result {| instructions := instrs; cycles := cycles; ipc := ipc;
                    cache_counters := Some (icache_misses, icache_accesses, dcache_misses) |})
  end.

Definition run_bench (fuel : nat) (name : string) (prog : list string) (mem_size : Z) (c : knobs) (xlen : Z) :
    result answer :=
  match asm_main prog mem_size xlen with
  | Raise e => Ok (Err ("assembler error: " +:+ strip (asm_stderr traceback prog xlen e)))
  | Ok (image, _) =>
      words ← load_words image;
      reference_check fuel name words mem_size xlen (fun instrs =>
        let tpl := substitute template
                     (bench_substs (out_path (tag name c)) c (bench_max_time instrs c) mem_size xlen) in
        bench_answer instrs (rtl tpl image))
  end.

(** ** Definitions: the out-of-order variants *)

Definition retirement_substs (out : string) (max_time mem_size xlen target_retired : Z) : list (string * string) :=
  [("__INIT_FILE__", init_file); ("__MAX_TIME__", fmt_d max_time); ("__OUT_FILE__", out);
   ("__MEM_SIZE__", fmt_d mem_size); ("__XLEN__", fmt_d xlen); ("__TARGET_RETIRED__", fmt_d target_retired)].

Definition retirement_time (target_retired : Z) : Z := (target_retired * 70 + 500) * 10.

(** The checks on a run that ends by counting retired instructions. *)
Definition retirement_failure (r : rtl_run) : option string :=
  match tool_failure r with
  | Some m => Some m
  | None =>
      if contains "TIMEOUT" (output (vvp r)) then
        Some ("RTL never reached target retirement count: " +:+ str_take 300 (strip (output (vvp r))))
      else None
  end.

Definition run_bench_ooo_vector (name : string) (prog : list string) (mem_size target_retired xlen : Z) :
    result answer :=
  stripped ← strip_halt_trailer_for_ooo prog;
  match asm_main stripped mem_size xlen with
  | Raise e => Ok (Err ("assembler error: " +:+ strip (asm_stderr traceback stripped xlen e)))
  | Ok (image, _) =>
      let tpl := substitute vector_template
                   (retirement_substs (out_path (name +:+ "_ooovec")) (retirement_time target_retired)
                      mem_size xlen target_retired) in
      let r := rtl tpl image in
      match retirement_failure r with
      | Some m => Ok (Err m)
      | None =>
          vals ← int_lines (dump_lines r);
          cycles ← list_get vals 0;
          x10 ← list_get vals 1;
          if negb (x10 =? EXPECTED_X10_VECTOR_PAIR) then
            Ok (Err ("RTL correctness check failed: x10=" +:+ fmt_d x10 +:+ ", expected "
                     +:+ fmt_d EXPECTED_X10_VECTOR_PAIR))
          else
            ipc ← true_div target_retired cycles;
            Ok (Result {| instructions := target_retired; cycles := cycles; ipc := ipc; cache_counters := None |})
      end
  end.

Definition run_bench_ooo (fuel : nat) (name : string) (prog : list string) (mem_size xlen : Z) : result answer :=
  match asm_main prog mem_size xlen with
  | Raise e => Ok (Err ("assembler error (original): " +:+ strip (asm_stderr traceback prog xlen e)))
  | Ok (image, _) =>
      words ← load_words image;
      reference_check fuel name words mem_size xlen (fun dynamic_instrs =>
        let target_retired := dynamic_instrs in
        if target_retired <=? 0 then
          Ok (Err ("ISS reported dynamic_instrs=" +:+ fmt_d dynamic_instrs +:+ " <= 0"))
        else
          stripped ← strip_halt_trailer_for_ooo prog;
          match asm_main stripped mem_size xlen with
          | Raise e => Ok (Err ("assembler error (stripped): " +:+ strip (asm_stderr traceback stripped xlen e)))
          | Ok (image, _) =>
              let tpl := substitute ooo_template
                           (retirement_substs (out_path (name +:+ "_ooo")) (retirement_time target_retired)
                              mem_size xlen target_retired) in
              let r := rtl tpl image in
              match retirement_failure r with
              | Some m => Ok (Err m)
              | None =>
                  vals ← int_lines (dump_lines r);
                  cycles ← list_get vals 0;
                  ipc ← true_div target_retired cycles;
                  Ok (Result {| instructions := target_retired; cycles := cycles; ipc := ipc; cache_counters := None |})
              end
          end)
  end.
End Tools.

(** ** Definitions: the comparisons of [main] *)

(** The mutually exclusive [--compare-*] flags; the two out-of-order modes
    leave [main] early. *)
Inductive comparison :=
| Strategies | Profiles | Predictors | Cache | Latency | Replacement | Victim | Burst | Mshr | L2 | Prefetch.
Inductive mode := Single | Compare (c : comparison) | CompareVector | CompareOoo.

(** A 13-tuple of [pairs], with the two options that never vary. *)
Definition pair (a : knobs) (hs pp bp cm rp li ld ve be ldb me l2 pf : Z) : knobs :=
  {| hazard_strategy := hs; pipeline_profile := pp; branch_predictor := bp; cache_mode := cm;
     replacement_policy := rp; victim_entries := ve; mem_latency_i := li; mem_latency_d := ld;
     burst_enable := be; mem_latency_d_burst := ldb; mshr_entries := me;
     l2_size := l2; l2_ways := l2_ways a; l2_replacement := l2_replacement a; prefetch_mode := pf |}.

Definition held (a : knobs) : knobs :=
  pair a (hazard_strategy a) (pipeline_profile a) (branch_predictor a) (cache_mode a) (replacement_policy a)
    (mem_latency_i a) (mem_latency_d a) (victim_entries a) (burst_enable a) (mem_latency_d_burst a)
    (mshr_entries a) (l2_size a) (prefetch_mode a).

(** The options a comparison forces. *)
Definition with_cache (a : knobs) : knobs :=
  pair a (hazard_strategy a) (pipeline_profile a) (branch_predictor a) 1 (replacement_policy a)
    (mem_latency_i a) (mem_latency_d a) (victim_entries a) (burst_enable a) (mem_latency_d_burst a)
    (mshr_entries a) (l2_size a) (prefetch_mode a).

Definition adjust (c : comparison) (a : knobs) : knobs :=
  match c with
  | Latency =>
      if (mem_latency_i a =? 0) && (mem_latency_d a =? 0) then
        pair a (hazard_strategy a) (pipeline_profile a) (branch_predictor a) (cache_mode a) (replacement_policy a)
          3 3 (victim_entries a) (burst_enable a) (mem_latency_d_burst a) (mshr_entries a) (l2_size a) (prefetch_mode a)
      else a
  | Replacement | Victim | Mshr => with_cache a
  | Burst =>
      pair a (hazard_strategy a) (pipeline_profile a) (branch_predictor a) 1 (replacement_policy a)
        (mem_latency_i a) (if mem_latency_d a =? 0 then 5 else mem_latency_d a) (victim_entries a) 1
        (mem_latency_d_burst a) (mshr_entries a) (l2_size a) (prefetch_mode a)
  | L2 =>
      pair a (hazard_strategy a) (pipeline_profile a) (branch_predictor a) 1 (replacement_policy a)
        (mem_latency_i a) (mem_latency_d a) (victim_entries a) (burst_enable a) (mem_latency_d_burst a)
        (mshr_entries a) (if l2_size a =? 0 then 8192 else l2_size a) (prefetch_mode a)
  | Prefetch =>
      pair a (hazard_strategy a) (pipeline_profile a) (branch_predictor a) 1 (replacement_policy a)
        (mem_latency_i a) (mem_latency_d a) (victim_entries a) (burst_enable a) (mem_latency_d_burst a)
        (if mshr_entries a <=? 1 then 2 else mshr_entries a) (l2_size a)
        (if prefetch_mode a =? 0 then 1 else prefetch_mode a)
  | Strategies | Profiles | Predictors | Cache => a
  end.

Definition keys (c : comparison) (a : knobs) : list Z :=
  match c with
  | Strategies | Profiles | Cache | Latency | Burst => [0; 1]
  | Predictors => [0; 1; 2; 3]
  | Replacement => [0; 1; 2]
  | Victim => [0; 4]
  | Mshr => [1; 2; 4]
  | L2 => [0; l2_size a]
  | Prefetch => [0; prefetch_mode a]
  end.

Definition pairs (c : comparison) (a : knobs) : list knobs :=
  let hs := hazard_strategy a in let pp := pipeline_profile a in let bp := branch_predictor a in
  let cm := cache_mode a in let rp := replacement_policy a in
  let li := mem_latency_i a in let ld := mem_latency_d a in let ve := victim_entries a in
  let be := burst_enable a in let ldb := mem_latency_d_burst a in let me := mshr_entries a in
  let l2 := l2_size a in let pf := prefetch_mode a in
  match c with
  | Strategies => map (fun s => pair a s pp bp cm rp li ld ve be ldb me l2 pf) (keys c a)
  | Profiles => map (fun p => pair a hs p bp cm rp li ld ve be ldb me l2 pf) (keys c a)
  | Predictors => map (fun bp => pair a hs pp bp cm rp li ld ve be ldb me l2 pf) (keys c a)
  | Cache => map (fun cm => pair a hs pp bp cm rp li ld ve be ldb me l2 pf) (keys c a)
  | Latency => map (fun '(li, ld) => pair a hs pp bp cm rp li ld ve be ldb me l2 pf) [(0, 0); (li, ld)]
  | Replacement => map (fun rp => pair a hs pp bp cm rp li ld ve be ldb me l2 pf) (keys c a)
  | Victim => map (fun ve => pair a hs pp bp cm rp li ld ve be ldb me l2 pf) (keys c a)
  | Burst => map (fun ldb => pair a hs pp bp cm rp li ld ve be ldb me l2 pf) [ld; 0]
  | Mshr => map (fun me => pair a hs pp bp cm rp li ld ve be ldb me l2 pf) (keys c a)
  | L2 => map (fun l2 => pair a hs pp bp cm rp li ld ve be ldb me l2 pf) (keys c a)
  | Prefetch => map (fun pf => pair a hs pp bp cm rp li ld ve be ldb me l2 pf) (keys c a)
  end.

(** [zip(keys, pairs)] and the options the rest of [main] sees. *)
Definition plan (m : option comparison) (a : knobs) : list (Z * knobs) * knobs :=
  match m with
  | Some c => let a := adjust c a in (List.combine (keys c a) (pairs c a), a)
  | None => ([(hazard_strategy a, held a)], a)
  end.

Definition dict_Z (d : list (Z * string)) (k : Z) : result string :=
  match List.find (fun '(k', _) => k =? k') d with Some (_, v) => Ok v | None => Raise (KeyError (fmt_d k)) end.

(** The line above the runs of one configuration. *)
Definition section_header (c : comparison) (a k : knobs) : result string :=
  let line name := "--- " +:+ name +:+ " ---" in
  let named name v alt := Ok (line (name +:+ "=" +:+ fmt_d v +:+ " (" +:+ alt +:+ ")")) in
  match c with
  | Strategies => named "HAZARD_STRATEGY" (hazard_strategy k)
                    (if hazard_strategy k =? 0 then "forwarding" else "stall-only")
  | Profiles => named "PIPELINE_PROFILE" (pipeline_profile k)
                  (if pipeline_profile k =? 0 then "PROFILE_5STAGE" else "PROFILE_6STAGE_SPLIT_FETCH")
  | Predictors =>
      n ← dict_Z [(0, "PREDICTOR_STATIC"); (1, "PREDICTOR_DYNAMIC_BHT_BTB"); (2, "PREDICTOR_GSHARE");
                  (3, "PREDICTOR_TOURNAMENT")] (branch_predictor k);
      named "BRANCH_PREDICTOR" (branch_predictor k) n
  | Cache => named "CACHE_MODE" (cache_mode k) (if cache_mode k =? 0 then "CACHE_NONE" else "CACHE_WRITEBACK_SETASSOC")
  | Latency => Ok (line ("MEM_LATENCY_I=" +:+ fmt_d (mem_latency_i k) +:+ " MEM_LATENCY_D=" +:+ fmt_d (mem_latency_d k)))
  | Replacement =>
      n ← dict_Z [(0, "POLICY_ROUND_ROBIN"); (1, "POLICY_FIFO"); (2, "POLICY_LRU")] (replacement_policy k);
      named "REPLACEMENT_POLICY" (replacement_policy k) n
  | Victim => named "VICTIM_ENTRIES" (victim_entries k)
                (if victim_entries k =? 0 then "disabled" else fmt_d (victim_entries k) +:+ " entries")
  | Burst => named "MEM_LATENCY_D_BURST" (mem_latency_d_burst k)
               ((if mem_latency_d_burst k =? mem_latency_d k then "no discount" else "full discount")
                +:+ ", MEM_LATENCY_D=" +:+ fmt_d (mem_latency_d k))
  | Mshr => named "MSHR_ENTRIES" (mshr_entries k)
              (if mshr_entries k =? 1 then "disabled" else fmt_d (mshr_entries k) +:+ " outstanding")
  | L2 => named "L2_SIZE_BYTES" (l2_size k)
            (if l2_size k =? 0 then "disabled"
             else fmt_d (l2_size k) +:+ " bytes, L2_WAYS=" +:+ fmt_d (l2_ways a))
  | Prefetch =>
      n ← dict_Z [(0, "disabled"); (1, "PF_NEXT_LINE"); (2, "PF_STRIDE"); (3, "PF_STREAM")] (prefetch_mode k);
      named "PREFETCH_MODE" (prefetch_mode k) n
  end.

(** [labels[axis][key]]: a dictionary display keeps the last value of a
    repeated key. *)
Definition labels (c : comparison) (a : knobs) (key : Z) : result string :=
  pf ← list_get ["disabled"; "PF_NEXT_LINE"; "PF_STRIDE"; "PF_STREAM"] (Z.to_nat (prefetch_mode a));
  dict_Z (rev match c with
    | Strategies => [(0, "forwarding (HS=0)"); (1, "stall-only (HS=1)")]
    | Profiles => [(0, "PROFILE_5STAGE (PP=0)"); (1, "PROFILE_6STAGE_SPLIT_FETCH (PP=1)")]
    | Predictors => [(0, "PREDICTOR_STATIC (BP=0)"); (1, "PREDICTOR_DYNAMIC_BHT_BTB (BP=1)");
                     (2, "PREDICTOR_GSHARE (BP=2)"); (3, "PREDICTOR_TOURNAMENT (BP=3)")]
    | Cache => [(0, "CACHE_NONE (CM=0)"); (1, "CACHE_WRITEBACK_SETASSOC (CM=1)")]
    | Latency => [(0, "MEM_LATENCY_I=D=0");
                  (1, "MEM_LATENCY_I=" +:+ fmt_d (mem_latency_i a) +:+ " MEM_LATENCY_D=" +:+ fmt_d (mem_latency_d a))]
    | Replacement => [(0, "POLICY_ROUND_ROBIN (RP=0)"); (1, "POLICY_FIFO (RP=1)"); (2, "POLICY_LRU (RP=2)")]
    | Victim => [(0, "VICTIM_ENTRIES=0 (disabled)"); (4, "VICTIM_ENTRIES=4")]
    | Burst => [(0, "no discount (MEM_LATENCY_D_BURST=MEM_LATENCY_D)"); (1, "full discount (MEM_LATENCY_D_BURST=0)")]
    | Mshr => [(1, "MSHR_ENTRIES=1 (disabled)"); (2, "MSHR_ENTRIES=2"); (4, "MSHR_ENTRIES=4")]
    | L2 => [(0, "L2_SIZE_BYTES=0 (disabled)"); (l2_size a, "L2_SIZE_BYTES=" +:+ fmt_d (l2_size a))]
    | Prefetch => [(0, "PREFETCH_MODE=0 (disabled)");
                   (prefetch_mode a, "PREFETCH_MODE=" +:+ fmt_d (prefetch_mode a) +:+ " (" +:+ pf +:+ ")")]
    end) key.

(** What [main] prints: text, or the data of a line with floats in it. *)
Inductive line :=
| Text (s : string)
| BenchLine (name : string) (r : bench) (with_cache : bool)
| DiffLine (name : string) (r0 r1 : bench) (with_cache : bool)
| OooLine (name : string) (pipelined ooo : bench)
| VectorLine (scalar vector : bench).

(** [all_results]: a dictionary from keys to the list of a key's results. *)
Definition results := list (Z * list (string * option bench)).
Definition no_results (ks : list Z) : results :=
  fold_left (fun d k => if existsb (fun '(k', _) => k =? k') d then d else d ++ [(k, [])]) ks [].
Definition append_results (d : results) (key : Z) (l : list (string * option bench)) : results :=
  map (fun '(k, l0) => (k, if k =? key then l0 ++ l else l0)) d.
Definition results_of (d : results) (key : Z) : list (string * option bench) :=
  default [] (snd <$> List.find (fun '(k, _) => key =? k) d).
(** [dict(l).get(name)]. *)
Definition by_name (l : list (string * option bench)) (name : string) : option (option bench) :=
  dict_find (rev l) name.

Definition ok_result (r : answer) : option bench := match r with Result b => Some b | Err _ => None end.

(** The lines of one comparison against the baseline. *)
Definition diff_line (c : comparison) (other : list (string * option bench)) (e : string * option bench) : line :=
  match e.2, mjoin (by_name other e.1) with
  | Some r0, Some r1 => DiffLine e.1 r0 r1 (match c with Cache => true | _ => false end)
  | _, _ => Text (pad_right 20 e.1 +:+ " (incomplete, see FAIL above)")
  end.

Definition comparison_lines (c : comparison) (a : knobs) (ks : list Z) (d : results) : result (list line) :=
  match ks with
  | [] => Raise (IndexError "tuple index out of range")
  | baseline_key :: others =>
      ls ← mapR (fun key =>
        label0 ← labels c a baseline_key;
        label1 ← labels c a key;
        Ok (Text ("=== comparison: " +:+ label0 +:+ " vs. " +:+ label1 +:+ " ===")
            :: map (diff_line c (results_of d key)) (results_of d baseline_key))) others;
      Ok (List.concat ls)
  end.

(** The summary lines and the exit status. *)
Definition summary (d : results) : list line * Z :=
  let all := List.concat (map snd d) in
  let failed := map fst (List.filter (fun '(_, r) => match r with None => true | Some _ => false end) all) in
  let total := Z.of_nat (List.length all) in
  match failed with
  | [] => ([Text ""; Text ("=== " +:+ fmt_d total +:+ "/" +:+ fmt_d total +:+ " benchmark run(s) completed cleanly ===")], 0)
  | _ => ([Text ""; Text ("=== " +:+ fmt_d (Z.of_nat (List.length failed)) +:+ "/" +:+ fmt_d total
                         +:+ " benchmark run(s) FAILED: " +:+ String.concat ", " failed +:+ " ===")], 1)
  end.

Section Main.
Context (traceback : exn -> string).
Context (rtl : string -> list string -> rtl_run).
Context (template ooo_template vector_template : string).
Context (init_file : string) (out_path : string -> string) (programs_dir : string).
Context (fuel : nat).

(** One program in one configuration of the plan. *)
Definition run_config (k : knobs) (prog : string * list string) : result (line * (string * option bench)) :=
  let '(name, file) := prog in
  r ← run_bench traceback rtl template init_file out_path fuel name file (mem_size_of name) k 32;
  Ok (match r with
      | Err e => Text ("FAIL  " +:+ name +:+ ": " +:+ e)
      | Result b => BenchLine name b (truthy (cache_mode k))
      end, (name, ok_result r)).

(** The loop over the plan: the lines printed and the results by key. *)
Fixpoint run_plan (m : option comparison) (a : knobs) (progs : list (string * list string)) (l : list (Z * knobs))
    (d : results) : result (list line * results) :=
  match l with
  | [] => Ok ([], d)
  | (key, k) :: l' =>
      header ← match m with Some c => h ← section_header c a k; Ok [Text h] | None => Ok [] end;
      rs ← mapR (run_config k) progs;
      '(ls, d') ← run_plan m a progs l' (append_results d key (map snd rs));
      Ok (header ++ map fst rs ++ Text "" :: ls, d')
  end.

(** The part of [main] after the out-of-order modes. *)
Definition main_compare (m : option comparison) (a : knobs) (progs : list (string * list string)) :
    result (list line * Z) :=
  let '(l, a) := plan m a in
  match progs with
  | [] => Ok ([Text ("No bench_*.s programs found under " +:+ programs_dir)], 1)
  | _ =>
      '(ls, d) ← run_plan m a progs l (no_results (map fst l));
      diffs ← match m with Some c => comparison_lines c a (map fst l) d | None => Ok [] end;
      let '(last, status) := summary d in
      Ok (ls ++ diffs ++ last, status)
  end.

Definition not_found (name : string) : line := Text ("FAIL  " +:+ name +:+ ": not found under " +:+ programs_dir).

(** [--compare-ooo]: every knob at [run_bench]'s default. *)
Definition default_knobs : knobs :=
  {| hazard_strategy := 0; pipeline_profile := 0; branch_predictor := 0; cache_mode := 0;
     replacement_policy := 0; victim_entries := 0; mem_latency_i := 0; mem_latency_d := 0;
     burst_enable := 0; mem_latency_d_burst := 0; mshr_entries := 1;
     l2_size := 0; l2_ways := 4; l2_replacement := 0; prefetch_mode := 0 |}.

Definition answer_text (r : answer) : string := match r with Result _ => "ok" | Err e => e end.

Definition compare_ooo_one (files : string -> option (list string)) (name : string) : result (list line) :=
  match files name with
  | None => Ok [not_found name]
  | Some file =>
      let mem_size := mem_size_of name in
      pipe ← run_bench traceback rtl template init_file out_path fuel name file mem_size default_knobs 64;
      ooo ← run_bench_ooo traceback rtl ooo_template init_file out_path fuel name file (Z.max mem_size 512) 64;
      Ok [match pipe, ooo with
          | Result p, Result o => OooLine name p o
          | _, _ => Text ("FAIL  " +:+ name +:+ ": PIPELINED: " +:+ answer_text pipe
                          +:+ "  OOOCore: " +:+ answer_text ooo)
          end]
  end.

Definition main_compare_ooo (files : string -> option (list string)) : result (list line * Z) :=
  ls ← mapR (compare_ooo_one files) OOO_COMPATIBLE_BENCHES; Ok (List.concat ls, 0).

Definition compare_vector_one (files : string -> option (list string)) (name : string) :
    result (list line * option bench) :=
  match files name with
  | None => Ok ([not_found name], None)
  | Some file =>
      target ← dict_get TARGET_RETIRED_VECTOR_PAIR name;
      r ← run_bench_ooo_vector traceback rtl vector_template init_file out_path name file 512 target 64;
      Ok (match r with
          | Err e => ([Text ("FAIL  " +:+ name +:+ ": " +:+ e)], None)
          | Result b => ([BenchLine name b false], Some b)
          end)
  end.

Definition main_compare_vector (files : string -> option (list string)) : result (list line * Z) :=
  '(l0, r0) ← compare_vector_one files (fst VECTOR_PAIR);
  '(l1, r1) ← compare_vector_one files (snd VECTOR_PAIR);
  Ok (l0 ++ l1 ++ match r0, r1 with Some s, Some v => [Text ""; VectorLine s v] | _, _ => [] end, 0).

(** [main]: the lines printed and the exit status. [progs] are the sorted
    [bench_*.s] of the directory, the two functions the files the
    out-of-order modes look for by name. *)
Definition main (m : mode) (a : knobs) (progs : list (string * list string))
    (ooo_files vector_files : string -> option (list string)) : result (list line * Z) :=
  match m with
  | CompareVector => main_compare_vector vector_files
  | CompareOoo => main_compare_ooo ooo_files
  | Compare c => main_compare (Some c) a progs
  | Single => main_compare None a progs
  end.
End Main.

(** ** A comparison varies one axis *)

Inductive field := FHs | FPp | FBp | FCm | FRp | FVe | FLi | FLd | FBe | FLdb | FMe | FL2 | FL2w | FL2r | FPf.

#[global] Instance field_eq_dec : EqDecision field.
Proof. solve_decision. Defined.

Definition get (f : field) (k : knobs) : Z :=
  match f with
  | FHs => hazard_strategy k | FPp => pipeline_profile k | FBp => branch_predictor k | FCm => cache_mode k
  | FRp => replacement_policy k | FVe => victim_entries k | FLi => mem_latency_i k | FLd => mem_latency_d k
  | FBe => burst_enable k | FLdb => mem_latency_d_burst k | FMe => mshr_entries k | FL2 => l2_size k
  | FL2w => l2_ways k | FL2r => l2_replacement k | FPf => prefetch_mode k
  end.

Definition axis (c : comparison) : list field :=
  match c with
  | Strategies => [FHs] | Profiles => [FPp] | Predictors => [FBp] | Cache => [FCm] | Latency => [FLi; FLd]
  | Replacement => [FRp] | Victim => [FVe] | Burst => [FLdb] | Mshr => [FMe] | L2 => [FL2] | Prefetch => [FPf]
  end.

(** The options a comparison forces so that its axis has an effect. *)
Definition forced (c : comparison) : list field :=
  match c with
  | Strategies | Profiles | Predictors | Cache => []
  | Latency => [FLi; FLd]
  | Replacement | Victim | Mshr => [FCm]
  | Burst => [FCm; FBe; FLd]
  | L2 => [FCm; FL2]
  | Prefetch => [FCm; FMe; FPf]
  end.

Lemma NoDup_get (l : list knobs) f : NoDup (map (get f) l) -> NoDup l.
Proof. apply NoDup_fmap_1. Qed.

Ltac distinct := apply NoDup_ListNoDup; repeat (apply List.NoDup_cons; [cbn [In]; lia|]); apply List.NoDup_nil.

(** Two configurations of the latency axis differ in one of the two. *)
Lemma latency_distinct a : (mem_latency_i (adjust Latency a), mem_latency_d (adjust Latency a)) <> (0, 0).
Proof.
  cbn [adjust]. destruct (Z.eqb_spec (mem_latency_i a) 0) as [E1|E1], (Z.eqb_spec (mem_latency_d a) 0) as [E2|E2];
    cbn [andb mem_latency_i mem_latency_d pair]; intros [=]; lia.
Qed.

Lemma keys_distinct c a : NoDup (keys c (adjust c a)).
Proof.
  destruct c; cbn [keys adjust]; try distinct; cbn [l2_size prefetch_mode pair].
  - destruct (Z.eqb_spec (l2_size a) 0); distinct.
  - destruct (Z.eqb_spec (prefetch_mode a) 0); distinct.
Qed.

Lemma pairs_distinct c a : NoDup (pairs c (adjust c a)).
Proof.
  destruct c; cbn [pairs keys map];
    [apply (NoDup_get _ FHs)|apply (NoDup_get _ FPp)|apply (NoDup_get _ FBp)|apply (NoDup_get _ FCm)| |
     apply (NoDup_get _ FRp)|apply (NoDup_get _ FVe)|apply (NoDup_get _ FLdb)|apply (NoDup_get _ FMe)|
     apply (NoDup_get _ FL2)|apply (NoDup_get _ FPf)]; cbn [map get hazard_strategy pipeline_profile branch_predictor
       cache_mode replacement_policy victim_entries mem_latency_d_burst mshr_entries l2_size prefetch_mode pair];
    try distinct.
  - pose proof (latency_distinct a) as H. apply NoDup_cons_2; [|apply NoDup_singleton].
    rewrite list_elem_of_singleton. intros E. apply H.
    pose proof (f_equal mem_latency_i E) as E1. pose proof (f_equal mem_latency_d E) as E2.
    cbn [mem_latency_i mem_latency_d pair] in E1, E2. congruence.
  - cbn [adjust mem_latency_d pair]. destruct (Z.eqb_spec (mem_latency_d a) 0); distinct.
  - cbn [adjust l2_size pair]. destruct (Z.eqb_spec (l2_size a) 0); distinct.
  - cbn [adjust prefetch_mode pair]. destruct (Z.eqb_spec (prefetch_mode a) 0); distinct.
Qed.

Lemma plan_field c a f key k : f ∉ axis c -> (key, k) ∈ fst (plan (Some c) a) -> get f k = get f (adjust c a).
Proof.
  intros Hf Hk. unfold plan in Hk. cbn [fst] in Hk. apply list_elem_of_In, List.in_combine_r in Hk.
  destruct c, f; cbn [axis] in Hf; try (exfalso; apply Hf; by repeat (apply list_elem_of_here || apply list_elem_of_further)); cbn [pairs keys map In] in Hk;
    repeat (destruct Hk as [<-|Hk]; [reflexivity|]); by destruct Hk.
Qed.

Lemma combine_maps {A B} (l : list A) (l' : list B) : List.length l = List.length l' ->
  map fst (List.combine l l') = l /\ map snd (List.combine l l') = l'.
Proof.
  revert l'. induction l as [|x l IH]; intros [|y l'] H; try done. cbn in H.
  destruct (IH l' ltac:(lia)) as [E1 E2]. cbn [List.combine map fst snd]. by rewrite E1, E2.
Qed.

Lemma plan_length c a : List.length (pairs c a) = List.length (keys c a).
Proof. by destruct c. Qed.

Lemma adjust_field c a f : f ∉ forced c -> get f (adjust c a) = get f a.
Proof.
  intros Hf. destruct c, f; cbn [forced] in Hf; try (exfalso; apply Hf; by repeat (apply list_elem_of_here || apply list_elem_of_further)); try reflexivity;
    cbn [adjust]; destruct (_ && _); reflexivity.
Qed.

(** A comparison varies exactly one axis: for every [--compare-*] flag
    and every value of the other options, the configurations run are at
    least two, no two of them are equal and no two share a key of the
    results, and all of them agree with the options given on every knob
    other than the axis's own and the ones the flag documents as forced,
    which are the same in all of them. *)
Theorem comparison_varies_one_axis c a :
  let l := fst (plan (Some c) a) in
  (2 <= List.length l)%nat /\ NoDup (map fst l) /\ NoDup (map snd l) /\
  (forall key k f, (key, k) ∈ l -> f ∉ axis c -> f ∉ forced c -> get f k = get f a) /\
  (forall key k key' k' f, (key, k) ∈ l -> (key', k') ∈ l -> f ∉ axis c -> get f k = get f k').
Proof.
  cbv zeta. pose proof (plan_length c (adjust c a)) as Hl.
  destruct (combine_maps (keys c (adjust c a)) (pairs c (adjust c a)) ltac:(by rewrite Hl)) as [Ek Ep].
  split_and!.
  - cbn [plan fst]. rewrite length_combine, Hl. by destruct c; cbn; lia.
  - cbn [plan fst]. rewrite Ek. apply keys_distinct.
  - cbn [plan fst]. rewrite Ep. apply pairs_distinct.
  - intros key k f Hk Ha Hf. rewrite (plan_field c a f key k) by done. by apply adjust_field.
  - intros key k key' k' f Hk Hk' Ha. by rewrite (plan_field c a f key k), (plan_field c a f key' k').
Qed.

(** ** The files of a run *)

Definition is_dec (c : ascii) : bool := is_digit c || Ascii.eqb c "-".

Lemma fmt_d_dec v : str_all is_dec (fmt_d v) = true.
Proof.
  assert (H : forall n, str_all is_dec (fmt_nat 10 n) = true).
  { intros n. apply (fmt_nat_all 10 ltac:(lia)). intros d Hd.
    assert (E : d = 0 \/ d = 1 \/ d = 2 \/ d = 3 \/ d = 4 \/ d = 5 \/ d = 6 \/ d = 7 \/ d = 8 \/ d = 9) by lia.
    by repeat (destruct E as [->|E]; [reflexivity|]); subst d. }
  unfold fmt_d. destruct (v <? 0); [|apply H]. by rewrite app_cons, app_empty, str_all_cons, H.
Qed.

Lemma fmt_d_inj a b : fmt_d a = fmt_d b -> a = b.
Proof. intros E. pose proof (int_base0_fmt_d a) as Ha. rewrite E, int_base0_fmt_d in Ha. by apply Ok_inj in Ha. Qed.

Lemma append_inj s a b : s +:+ a = s +:+ b -> a = b.
Proof. induction s as [|c s IH]; [by rewrite !app_empty|]. rewrite !app_cons. intros [= E]. by apply IH. Qed.

(** A number ends where the next underscore begins. *)
Lemma number_cut a b s t : fmt_d a +:+ String "_" s = fmt_d b +:+ String "_" t -> a = b /\ s = t.
Proof.
  intros E. apply (f_equal (PyStr.span is_dec)) in E.
  rewrite !(span_app is_dec _ "_" _) in E by (apply fmt_d_dec || reflexivity).
  injection E as E ->. split; [by apply fmt_d_inj|done].
Qed.

Lemma tag_inj name c c' : tag name c = tag name c' -> forall f, f <> FL2w -> f <> FL2r -> get f c = get f c'.
Proof.
  unfold tag. intros E%append_inj. revert E. rewrite !app_cons, !app_empty.
  intros E. injection E as E.
  repeat (apply number_cut in E; destruct E as [? E]; injection E as E). apply fmt_d_inj in E.
  intros [] N1 N2; cbn [get]; done.
Qed.

(** A run never reads another configuration's dump: within one
    comparison, the names of the files of the runs of a benchmark, under
    which [run_bench] looks for the dump to decide that the simulation
    worked, are pairwise different. *)
Theorem comparison_files_distinct c a name : NoDup (map (fun e => tag name (snd e)) (fst (plan (Some c) a))).
Proof.
  pose proof (plan_length c (adjust c a)) as Hl.
  destruct (combine_maps (keys c (adjust c a)) (pairs c (adjust c a)) ltac:(by rewrite Hl)) as [_ Ep].
  rewrite <- (map_map snd (tag name)). cbn [plan fst]. rewrite Ep.
  pose proof (pairs_distinct c a) as Hn.
  assert (Hw : forall k, k ∈ pairs c (adjust c a) -> l2_ways k = l2_ways a /\ l2_replacement k = l2_replacement a).
  { intros k Hk. assert (E : l2_ways k = l2_ways (adjust c a) /\ l2_replacement k = l2_replacement (adjust c a)).
    { apply list_elem_of_In in Hk. destruct c; cbn [pairs keys map In] in Hk;
        repeat (destruct Hk as [<-|Hk]; [by split|]); by destruct Hk. }
    destruct E as [-> ->]. destruct c; try (by split); cbn [adjust]; destruct (_ && _); by split. }
  revert Hn Hw. generalize (pairs c (adjust c a)). intros l Hn Hw.
  apply NoDup_fmap_2_strong; [|exact Hn]. intros k k' Hk Hk' E.
  destruct (Hw k Hk) as [W1 R1], (Hw k' Hk') as [W2 R2].
  pose proof (tag_inj name k k' E) as Hf. destruct k, k'. cbn in *.
  f_equal; try congruence;
    [apply (Hf FHs)|apply (Hf FPp)|apply (Hf FBp)|apply (Hf FCm)|apply (Hf FRp)|apply (Hf FVe)|apply (Hf FLi)|
     apply (Hf FLd)|apply (Hf FBe)|apply (Hf FLdb)|apply (Hf FMe)|apply (Hf FL2)|apply (Hf FPf)]; done.
Qed.

(** ** What a reported result means *)

Section Results.
Context (traceback : exn -> string).
Context (rtl : string -> list string -> rtl_run).
Context (template ooo_template : string).
Context (init_file : string) (out_path : string -> string).

(** The reference side of a benchmark: the image, and a run of it that
    returns after [k] steps with the expected result in x10. *)
Definition reference_passes (fuel : nat) (name : string) (prog : list string) (mem_size xlen : Z)
    (image : list string) (k : Z) : Prop :=
  exists n words s, asm_main prog mem_size xlen = Ok (image, n) /\ load_words image = Ok words /\
    run fuel words 200000 (init mem_size xlen) = Returned s k /\
    (forall expected, dict_find EXPECTED_X10 name = Some expected -> Machine.reg s 10 = expected).

(** The Verilog run [run_bench] starts for [k] reference steps. *)
Definition bench_rtl (name : string) (mem_size : Z) (c : knobs) (xlen k : Z) (image : list string) : rtl_run :=
  rtl (substitute template (bench_substs init_file (out_path (tag name c)) c (bench_max_time k c) mem_size xlen)) image.

(** The dump of a successful Verilog run, as a result. *)
Definition dump_result (r : rtl_run) (b : bench) : Prop :=
  tool_failure r = None /\
  exists im ia dm rest, int_lines (dump_lines r) = Ok (cycles b :: im :: ia :: dm :: rest) /\ cycles b <> 0 /\
    ipc b = Qdiv (inject_Z (instructions b)) (inject_Z (cycles b)) /\ cache_counters b = Some (im, ia, dm).

Lemma reference_check_passes fuel name words mem_size xlen K s k :
  run fuel words 200000 (init mem_size xlen) = Returned s k ->
  (forall expected, dict_find EXPECTED_X10 name = Some expected -> Machine.reg s 10 = expected) ->
  reference_check fuel name words mem_size xlen K = K k.
Proof.
  intros Hr He. unfold reference_check. rewrite Hr. destruct (dict_find _ name) as [x|]; [|done].
  by rewrite (He x eq_refl), Z.eqb_refl.
Qed.

Lemma reference_check_inv fuel name words mem_size xlen K b :
  reference_check fuel name words mem_size xlen K = Ok (Result b) ->
  exists s k, run fuel words 200000 (init mem_size xlen) = Returned s k /\
    (forall expected, dict_find EXPECTED_X10 name = Some expected -> Machine.reg s 10 = expected) /\ K k = Ok (Result b).
Proof.
  unfold reference_check. destruct (run fuel words 200000 (init mem_size xlen)) as [s k|e|s k]; [|done|done].
  intros Ha. exists s, k. split; [done|]. destruct (dict_find EXPECTED_X10 name) as [v|]; [|by split].
  destruct (Z.eqb_spec (Machine.reg s 10) v) as [E|]; [|done]. split; [congruence|done].
Qed.

Lemma bench_answer_result k r b :
  bench_answer k r = Ok (Result b) <-> instructions b = k /\ dump_result r b.
Proof.
  unfold bench_answer, dump_result. destruct (tool_failure r); [by split; [|intros (_ & ? & _)]|].
  destruct (int_lines (dump_lines r)) as [vals|e]; cbn [mbind result_bind]; [|by split; [|intros (_ & _ & ? & ? & ? & ? & ? & _)]].
  destruct vals as [|cy [|im [|ia [|dm rest]]]];
    try (split; [done|intros (_ & _ & ? & ? & ? & ? & E & _); apply Ok_inj in E; discriminate]).
  cbn [list_get nth_error mbind result_bind]. unfold true_div. destruct (Z.eqb_spec cy 0) as [->|Hcy].
  { split; [done|]. intros (_ & _ & ? & ? & ? & ? & E & Hc & _). apply Ok_inj in E. injection E as E _ _ _ _. by rewrite <- E in Hc. }
  split.
  - intros E%Ok_inj. injection E as <-. cbn [instructions]. split; [done|]. split; [done|].
    exists im, ia, dm, rest. cbn [cycles ipc cache_counters]. by split_and!.
  - intros (<- & _ & im' & ia' & dm' & rest' & E & _ & Hi & Hc). apply Ok_inj in E. injection E as E1 E2 E3 E4 E5.
    destruct b as [i' c' q' cc]. cbn [instructions cycles ipc cache_counters] in *. by subst.
Qed.

(** [C34] What a benchmark result means, exactly: [run_bench] reports a
    result if and only if the program assembles into the memory, the
    reference simulator runs the loaded image to its halt loop with the
    expected value in x10 when one is known, both Verilog tools succeed on
    the template filled in for this configuration, and their dump starts
    with four numbers; the instructions reported are then the steps of the
    reference run, the cycles and cache counters those of the dump, and the
    IPC their quotient by a number of cycles other than zero. *)
Theorem bench_result_exact fuel name prog mem_size c xlen b :
  run_bench traceback rtl template init_file out_path fuel name prog mem_size c xlen = Ok (Result b) <->
  exists image, reference_passes fuel name prog mem_size xlen image (instructions b) /\
    dump_result (bench_rtl name mem_size c xlen (instructions b) image) b.
Proof.
  unfold run_bench, reference_passes. split.
  - destruct (asm_main prog mem_size xlen) as [[image n]|e]; [|done].
    intros (words & Hw & (s & k & Hr & He & Ha)%reference_check_inv)%bind_Ok.
    apply bench_answer_result in Ha as [<- Hd]. exists image. split; [|exact Hd]. by exists n, words, s.
  - intros (image & (n & words & s & -> & Hw & Hr & He) & Hd). rewrite Hw. cbn [mbind result_bind].
    rewrite (reference_check_passes _ _ _ _ _ _ s (instructions b)) by done. by apply bench_answer_result.
Qed.
End Results.

(** ** A kernel and a dump, for concrete runs *)

(** [sim/benchmarks/bench_fib.s], without the comment at its head. *)
Definition bench_fib_s : list string :=
  ["addi x1, x0, 0       # a = fib(0)";
   "addi x2, x0, 1       # b = fib(1)";
   "addi x3, x0, 30      # iteration counter";
   "";
   "loop:";
   "add  x4, x1, x2      # tmp = a + b";
   "add  x1, x0, x2      # a = b";
   "add  x2, x0, x4      # b = tmp";
   "addi x3, x3, -1";
   "bne  x3, x0, loop";
   "";
   "add x10, x1, x0      # result (fib(30) mod 2^32) -> x10/a0, debug_x10's tap";
   "";
   "fence";
   "halt:";
   "jal x0, halt   # spin here forever instead of running off the end of the";
   "               # program into instruction memory's zero-filled remainder --";
   "               # opcode 0000000 is not a valid instruction and (correctly,";
   "               # after docs/adr/0011) now traps. See docs/adr/0011-csr-and-exceptions.md."].

(** A dump with 1000 cycles. *)
Definition demo_bench_rtl (tpl : string) (image : list string) : rtl_run :=
  {| iverilog := {| returncode := 0; output := tt; stderr := "" |};
     vvp := {| returncode := 0; output := ""; stderr := "" |};
     dump := Some ["1000"; "0"; "0"; "0"] |}.

(** ** The results and the exit status *)

Definition all_entries (d : results) : list (string * option bench) := List.concat (map snd d).

Lemma entries_cons k l d : all_entries ((k, l) :: d) = l ++ all_entries d.
Proof. reflexivity. Qed.

Lemma append_keys d key l : map fst (append_results d key l) = map fst d.
Proof. unfold append_results. rewrite map_map. apply map_ext. by intros [k l']. Qed.

Lemma append_absent d key l e : e ∈ all_entries (append_results d key l) -> e ∈ all_entries d \/ e ∈ l.
Proof.
  induction d as [|[k l0] d IH]; [by left|]. change (append_results ((k, l0) :: d) key l) with
    ((k, if k =? key then l0 ++ l else l0) :: append_results d key l).
  rewrite !entries_cons, !elem_of_app. intros [H|H]; [|naive_solver].
  destruct (k =? key); [|naive_solver]. apply elem_of_app in H. naive_solver.
Qed.

Lemma append_present d key l e : key ∈ map fst d ->
  e ∈ all_entries (append_results d key l) <-> e ∈ all_entries d \/ e ∈ l.
Proof.
  intros Hk. split; [apply append_absent|]. intros He.
  induction d as [|[k l0] d IH]; [by apply elem_of_nil in Hk|]. change (append_results ((k, l0) :: d) key l) with
    ((k, if k =? key then l0 ++ l else l0) :: append_results d key l).
  rewrite !entries_cons in *. rewrite !elem_of_app in *. cbn [map fst] in Hk. apply elem_of_cons in Hk.
  destruct (Z.eqb_spec k key) as [->|Hne].
  - rewrite elem_of_app. destruct He as [[?|H]|?]; [naive_solver| |naive_solver]. right.
    clear IH Hk. induction d as [|[k' l'] d IH]; [done|]. change (append_results ((k', l') :: d) key l) with
      ((k', if k' =? key then l' ++ l else l') :: append_results d key l).
    rewrite !entries_cons, !elem_of_app in *. destruct (k' =? key); rewrite ?elem_of_app; naive_solver.
  - destruct Hk as [->|Hk]; [done|]. destruct He as [[?|?]|?]; naive_solver.
Qed.

Lemma no_results_spec ks : (forall k, k ∈ ks -> k ∈ map fst (no_results ks)) /\ all_entries (no_results ks) = [].
Proof.
  unfold no_results. assert (H : forall d : results, all_entries d = [] ->
    (forall k, k ∈ map fst d \/ k ∈ ks ->
       k ∈ map fst (fold_left (fun d k => if existsb (fun '(k', _) => k =? k') d then d else d ++ [(k, [])]) ks d)) /\
    all_entries (fold_left (fun d k => if existsb (fun '(k', _) => k =? k') d then d else d ++ [(k, [])]) ks d) = []).
  { induction ks as [|k0 ks IH]; intros d Hd; cbn [fold_left].
    { split; [|done]. intros k [?|H]; [done|by apply elem_of_nil in H]. }
    destruct (existsb _ d) eqn:E.
    - destruct (IH d Hd) as [H1 H2]. split; [|done]. intros k [?|[->|?]%elem_of_cons]; [by apply H1; left| |by apply H1; right].
      apply H1. left. apply existsb_exists in E as ([k' l] & Hin & ->%Z.eqb_eq).
      apply list_elem_of_In, in_map_iff. by exists (k', l).
    - destruct (IH (d ++ [(k0, [])])) as [H1 H2].
      { unfold all_entries in *. rewrite map_app, List.concat_app, Hd. done. }
      split; [|done]. intros k Hk. apply H1. rewrite map_app, elem_of_app. cbn [map fst].
      destruct Hk as [?|[->|?]%elem_of_cons]; [naive_solver|left; right; by apply list_elem_of_singleton|by right]. }
  destruct (H [] eq_refl) as [H1 H2]. split; [|done]. intros k Hk. apply H1. by right.
Qed.

Lemma summary_status d : (summary d).2 = 0 \/ (summary d).2 = 1.
Proof. unfold summary. destruct (map fst _); [by left|by right]. Qed.

Lemma summary_zero d : (summary d).2 = 0 <-> forall e, e ∈ all_entries d -> e.2 <> None.
Proof.
  unfold summary. fold (all_entries d). generalize (all_entries d). intros l.
  destruct (map fst _) as [|x xs] eqn:E.
  - split; [|done]. intros _ [nm [b|]] He; [done|]. apply map_eq_nil in E.
    assert (Hin : In (nm, None) (List.filter (fun '(_, r) => match r with None => true | Some _ => false end) l : list (string * option bench))).
    { apply filter_In. split; [by apply list_elem_of_In|done]. }
    rewrite E in Hin. by destruct Hin.
  - split; [done|]. intros H. exfalso.
    destruct (List.filter _ l) as [|[nm r] rest] eqn:Ef; [done|].
    assert (Hin : In (nm, r) ((nm, r) :: rest)) by by left. rewrite <- Ef in Hin. apply filter_In in Hin as [Hin Hr].
    destruct r; [done|]. by apply (H (nm, None)); [apply list_elem_of_In|].
Qed.

Lemma mapR_elem {A B} (f : A -> result B) l l' : mapR f l = Ok l' ->
  (forall x, x ∈ l -> exists y, f x = Ok y /\ y ∈ l') /\ (forall y, y ∈ l' -> exists x, x ∈ l /\ f x = Ok y).
Proof.
  revert l'. induction l as [|x l IH]; intros l'; cbn [mapR].
  { intros <-%Ok_inj. split; intros ? []%elem_of_nil. }
  intros (y & Hy & (ys & Hys & <-%Ok_inj)%bind_Ok)%bind_Ok. destruct (IH ys Hys) as [IH1 IH2]. split.
  - intros z [->|Hz]%elem_of_cons; [exists y; split; [done|by left]|].
    destruct (IH1 z Hz) as (w & ? & ?). exists w. split; [done|by right].
  - intros z [->|Hz]%elem_of_cons; [exists x; split; [by left|done]|].
    destruct (IH2 z Hz) as (w & ? & ?). exists w. split; [by right|done].
Qed.

Section Status.
Context (traceback : exn -> string).
Context (rtl : string -> list string -> rtl_run).
Context (template ooo_template vector_template : string).
Context (init_file : string) (out_path : string -> string) (programs_dir : string).
Context (fuel : nat).

Definition one_run (prog : string * list string) (k : knobs) : result answer :=
  run_bench traceback rtl template init_file out_path fuel prog.1 prog.2 (mem_size_of prog.1) k 32.
Definition config_of := run_config traceback rtl template init_file out_path fuel.
Definition plan_of := run_plan traceback rtl template init_file out_path fuel.

Lemma run_config_ok k prog e : config_of k prog = Ok e ->
  exists r, one_run prog k = Ok r /\ e.2 = (prog.1, ok_result r).
Proof. destruct prog as [name file]. intros (r & Hr & <-%Ok_inj)%bind_Ok. by exists r. Qed.

(** Every run of the plan is made, and its outcome is among the results. *)
Lemma run_plan_entries m a progs l : forall d ls d', plan_of m a progs l d = Ok (ls, d') ->
  (forall key k, (key, k) ∈ l -> key ∈ map fst d) ->
  (forall key k prog, (key, k) ∈ l -> prog ∈ progs -> exists r, one_run prog k = Ok r) /\
  (forall e, e ∈ all_entries d' <-> e ∈ all_entries d \/
     exists key k prog r, (key, k) ∈ l /\ prog ∈ progs /\ one_run prog k = Ok r /\ e = (prog.1, ok_result r)).
Proof.
  induction l as [|[key k] l IH]; intros d ls d' H Hd.
  { apply Ok_inj in H as [= <- <-]. split; [intros ??? []%elem_of_nil|]. intros e. split; [by left|].
    intros [?|(? & ? & ? & ? & []%elem_of_nil & _)]; done. }
  cbn [plan_of run_plan] in H. apply bind_Ok in H as (header & _ & H). apply bind_Ok in H as (rs & Hrs & H).
  apply bind_Ok in H as ([ls' d''] & Hl & [= <- <-]%Ok_inj).
  apply mapR_elem in Hrs as [Hr1 Hr2].
  destruct (IH _ _ _ Hl) as [IH1 IH2].
  { intros key' k' Hk'. rewrite append_keys. apply (Hd key' k'). by right. }
  split.
  - intros key' k' prog [[= -> ->]|Hin]%elem_of_cons Hp; [|by apply (IH1 key' k')].
    destruct (Hr1 prog Hp) as (e & (r & ? & _)%run_config_ok & _). by exists r.
  - intros e. rewrite IH2, append_present by (apply (Hd key k); by left). split.
    + intros [[?|He]|(key' & k' & prog & r & ? & ? & ? & ?)]; [by left| |].
      * apply list_elem_of_fmap in He as (x & -> & Hx). destruct (Hr2 x Hx) as (prog & Hp & (r & Hr & ->)%run_config_ok).
        right. exists key, k, prog, r. by split_and!; [left|..].
      * right. exists key', k', prog, r. by split_and!; [right|..].
    + intros [?|(key' & k' & prog & r & [[= -> ->]|Hin]%elem_of_cons & Hp & Hr & ->)]; [naive_solver| |].
      * left. right. destruct (Hr1 prog Hp) as (x & (r' & Hr' & E)%run_config_ok & Hx).
        assert (r' = r) as -> by congruence. rewrite <- E. by apply list_elem_of_fmap_2.
      * right. by exists key', k', prog, r.
Qed.

(** The exit status of a comparison (or of a plain run) tells exactly
    whether every run worked: with at least one benchmark, [main] exits with
    0 if and only if every benchmark gave a result in every configuration of
    the plan, and with 1 otherwise, whatever the programs are called and
    however often a key or a name repeats. *)
Theorem exit_status_exact m a progs ls st : progs <> [] ->
  main_compare traceback rtl template init_file out_path programs_dir fuel m a progs = Ok (ls, st) ->
  (st = 0 \/ st = 1) /\
  (st = 0 <-> forall key k prog, (key, k) ∈ fst (plan m a) -> prog ∈ progs -> exists b, one_run prog k = Ok (Result b)).
Proof.
  intros Hne. unfold main_compare. destruct (plan m a) as [l a'] eqn:Ep. cbn [fst].
  destruct progs as [|p0 progs]; [done|]. intros H. apply bind_Ok in H as ([lines d] & Hd & H).
  apply bind_Ok in H as (diffs & _ & H). destruct (summary d) as [last st'] eqn:Es. apply Ok_inj in H. injection H as _ <-.
  change st' with (last, st').2. rewrite <- Es. split; [apply summary_status|]. rewrite summary_zero.
  destruct (no_results_spec (map fst l)) as [Hk H0].
  destruct (run_plan_entries _ _ _ _ _ _ _ Hd) as [Hrun Hall].
  { intros key k Hin. apply Hk. by apply (list_elem_of_fmap_2 fst) in Hin. }
  rewrite H0 in Hall. split.
  - intros Hok key k prog Hin Hp. destruct (Hrun key k prog Hin Hp) as ([b|e] & Hr); [by exists b|].
    exfalso. apply (Hok (prog.1, None)); [|done]. apply Hall. right. by exists key, k, prog, (Err e).
  - intros Hok e He. apply Hall in He as [[]%elem_of_nil|(key & k & prog & r & Hin & Hp & Hr & ->)].
    destruct (Hok key k prog Hin Hp) as (b & Hb). rewrite Hr in Hb. by apply Ok_inj in Hb as ->.
Qed.
End Status.

Lemma exit_status_exact_witness :
  exists ls, main_compare exn_str demo_bench_rtl "tb" "i" (fun t => t) "sim/benchmarks" 300 (Some Burst) default_knobs
    [("bench_fib", bench_fib_s)] = Ok (ls, 0) /\
  ((0 = 0 \/ 0 = 1) /\
   (0 = 0 <-> forall key k prog, (key, k) ∈ fst (plan (Some Burst) default_knobs) -> prog ∈ [("bench_fib", bench_fib_s)] ->
      exists b, one_run exn_str demo_bench_rtl "tb" "i" (fun t => t) 300 prog k = Ok (Result b))).
Proof.
  assert (exists ls, main_compare exn_str demo_bench_rtl "tb" "i" (fun t => t) "sim/benchmarks" 300 (Some Burst) default_knobs
    [("bench_fib", bench_fib_s)] = Ok (ls, 0)) as (ls & E) by (eexists; vm_compute; reflexivity).
  exists ls. split; [exact E|].
  apply (exit_status_exact exn_str demo_bench_rtl "tb" "i" (fun t => t) "sim/benchmarks" 300 (Some Burst) default_knobs
    [("bench_fib", bench_fib_s)] ls 0); [discriminate|exact E].
Defined.

(** ** The kernels of the out-of-order core *)

Lemma cut_at_fence_spec lines : match cut_at_fence lines with
  | Some kept => exists f post, lines = kept ++ f :: post /\ strip f = "fence" /\ Forall (fun ln => strip ln <> "fence") kept
  | None => Forall (fun ln => strip ln <> "fence") lines
  end.
Proof.
  induction lines as [|ln lines IH]; cbn [cut_at_fence]; [constructor|].
  destruct (String.eqb_spec (strip ln) "fence") as [E|E]; [by exists ln, lines|].
  destruct (cut_at_fence lines) as [kept|]; cbn.
  - destruct IH as (f & post & -> & Hf & Hk). exists f, post. split_and!; [done|done|by apply Forall_cons_2].
  - by apply Forall_cons_2.
Qed.

Lemma padding_word lbls xl cur : asm_stmt lbls xl cur "addi x0, x0, 0" = Ok 0x13.
Proof. vm_compute. reflexivity. Qed.

Lemma assemble_padded pre xl ws : assemble pre xl = Ok ws ->
  assemble (pre ++ ["addi x0, x0, 0"]) xl = Ok (ws ++ [0x13]).
Proof.
  unfold assemble. rewrite !scan_layout. cbv zeta. cbn [stmts AsmText.labels]. rewrite map_app, addressed_app, bindings_app, mapR_app.
  change (map kind ["addi x0, x0, 0"]) with [Statement "addi x0, x0, 0"]. cbn [addressed bindings app].
  intros ->. cbn [mbind result_bind mapR]. by rewrite padding_word.
Qed.

(** The out-of-order variant of a kernel is the kernel up to its
    trailer: when a line of the source reads [fence], the lines before the
    first such line are kept, everything from it on is dropped, and if what
    is kept assembles on its own (no branch of it leads into the dropped
    part) then the rewritten source assembles to the same words followed by
    one no-op; without such a line the rewriting raises ValueError. *)
Theorem stripped_kernel_assembles lines xl :
  match strip_halt_trailer_for_ooo lines with
  | Ok lines' => exists kept f post, lines = kept ++ f :: post /\ strip f = "fence" /\
      Forall (fun ln => strip ln <> "fence") kept /\
      forall ws, assemble kept xl = Ok ws -> assemble lines' xl = Ok (ws ++ [0x13])
  | Raise e => Forall (fun ln => strip ln <> "fence") lines /\
      e = ValueError "no `fence` trailer line found -- benchmark doesn't match the expected shape"
  end.
Proof.
  unfold strip_halt_trailer_for_ooo. pose proof (cut_at_fence_spec lines) as H.
  destruct (cut_at_fence lines) as [kept|]; [|done]. destruct H as (f & post & E & Hf & Hk).
  exists kept, f, post. split_and!; [done|done|done|]. intros ws Hws. by apply assemble_padded.
Qed.
