(* ===== verification/Profiler.v ===== *)
(** * The performance profiler

    [sim/tools/profiler.py]: the static instruction mix of a kernel, the two
    instrumented programs whose epilogue reads the performance counters, and
    the figures [profile_kernel] derives from the register dumps.  The
    Verilog tools are a parameter, as in [Harness].  The report is its lines
    as texts and numbers; a float is the exact ratio it rounds. *)

From Stdlib Require Import QArith.
From S2P Require Import Prelude Words PyStr Machine Asm AsmText TextFacts Layout MemImage WordRange RandomGen Harness Bench.
#[local] Open Scope string_scope.
#[local] Open Scope Z_scope.
#[local] Open Scope list_scope.

Definition MCYCLE : Z := 0xB00.
Definition MINSTRET : Z := 0xB02.
Definition MHPMCOUNTER3_BASE : Z := 0xB03.
Definition MHPMEVENT3_BASE : Z := 0x323.
Definition NUM_HPM : Z := 9.

Definition STALL_CAUSE_NAMES : list string :=
  ["hazard"; "div"; "mem"; "fp"; "float_lu"; "itlb"; "dtlb"; "icache"; "imem_wait"].
Definition ORIGINAL_EVENT_NAMES : list string :=
  ["branches_retired"; "mispredicts"; "icache_hit"; "icache_miss"; "dcache_hit"; "dcache_miss"; "stall_aggregate";
   "interrupts"; "exceptions"].

Definition MIX_BUCKETS : list (string * list string) :=
  [("branch", ["beq"; "bne"; "blt"; "bge"; "ble"; "bgt"]);
   ("jump", ["jal"; "jalr"]);
   ("load", ["lw"; "lh"; "lb"; "lhu"; "lbu"; "flw"]);
   ("store", ["sw"; "sh"; "sb"; "fsw"]);
   ("muldiv", ["mul"; "mulh"; "mulhsu"; "mulhu"; "div"; "divu"; "rem"; "remu"]);
   ("fp", ["fadd.s"; "fsub.s"; "fmul.s"; "fdiv.s"; "fsqrt.s"; "fmadd.s"; "fmsub.s";
           "fnmadd.s"; "fnmsub.s"; "fcvt.w.s"; "fcvt.wu.s"; "fcvt.s.w"; "fcvt.s.wu";
           "fmv.x.w"; "fmv.w.x"; "fclass.s"; "feq.s"; "flt.s"; "fle.s"; "fmin.s"; "fmax.s"]);
   ("csr", ["csrrw"; "csrrs"; "csrrc"; "csrrwi"; "csrrsi"; "csrrci"]);
   ("system", ["ecall"; "ebreak"; "mret"; "sret"; "sfence.vma"; "fence"; "nop"])].

(** ** Definitions: the instruction mix *)

(** [next((name for name, mns in MIX_BUCKETS if mn in mns), "alu")]. *)
Definition bucket_of (mn : string) : string :=
  match List.find (fun '(_, mns) => in_names mn mns) MIX_BUCKETS with Some (name, _) => name | None => "alu" end.

(** [counts[bucket] = counts.get(bucket, 0) + 1], keys in insertion order. *)
Fixpoint bump (counts : list (string * Z)) (bucket : string) : list (string * Z) :=
  match counts with
  | [] => [(bucket, 1)]
  | (k, n) :: counts' => if String.eqb bucket k then (k, n + 1) :: counts' else (k, n) :: bump counts' bucket
  end.

Definition classify_line (st : list (string * Z) * Z) (raw : string) : list (string * Z) * Z :=
  let '(counts, total) := st in
  let line := clean_line raw in
  if String.eqb line "" || ends_with_colon line then (counts, total)
  else
    let mn := lower (List.hd "" (split_args line)) in
    (bump counts (bucket_of mn), total + 1).

Definition classify_mix (kernel_lines : list string) : list (string * Z) * Z :=
  fold_left classify_line kernel_lines ([], 0).

(** ** Definitions: instrumented programs *)

Definition csrrs (rd csr_addr : Z) : string := "csrrs x" +:+ fmt_d rd +:+ ", " +:+ fmt_hash_x csr_addr +:+ ", x0".
Definition csrrwi (csr_addr uimm : Z) : string := "csrrwi x0, " +:+ fmt_hash_x csr_addr +:+ ", " +:+ fmt_d uimm.

Fixpoint insert_before_halt_from (inserted : bool) (lines new_lines : list string) : list string * bool :=
  match lines with
  | [] => ([], inserted)
  | line :: lines' =>
      if negb inserted && String.eqb (strip line) "halt:" then
        let '(out, b) := insert_before_halt_from true lines' new_lines in (new_lines ++ line :: out, b)
      else let '(out, b) := insert_before_halt_from inserted lines' new_lines in (line :: out, b)
  end.

Definition insert_before_halt (lines new_lines : list string) : result (list string) :=
  let '(out, inserted) := insert_before_halt_from false lines new_lines in
  if negb inserted then Raise (ValueError "kernel has no `halt:` label to insert the epilogue before") else Ok out.

Definition epilogue_a : list string :=
  [csrrs 19 MCYCLE; csrrs 20 MINSTRET] ++ map (fun i => csrrs (21 + i) (MHPMCOUNTER3_BASE + i)) (range NUM_HPM).

Definition build_run_a (kernel_lines : list string) : result (list string) :=
  insert_before_halt kernel_lines epilogue_a.

Definition preamble_b : list string :=
  map (fun i => csrrwi (MHPMEVENT3_BASE + i) (10 + i)) (range NUM_HPM)
  ++ map (fun i => "csrrw x0, " +:+ fmt_hash_x (MHPMCOUNTER3_BASE + i) +:+ ", x0") (range NUM_HPM).
Definition epilogue_b : list string := map (fun i => csrrs (19 + i) (MHPMCOUNTER3_BASE + i)) (range NUM_HPM).

Definition build_run_b (kernel_lines : list string) : result (list string) :=
  out ← insert_before_halt kernel_lines epilogue_b; Ok (preamble_b ++ out).

(** ** Definitions: runs and figures *)

Record profile := {
  p_name : string;
  cycles_a : Z; cycles_b : Z;
  mcycle : Z; minstret : Z;
  p_ipc : Q; p_cpi : option Q;
  branch_accuracy : option Q;
  icache_hit_rate : option Q; dcache_hit_rate : option Q;
  stall_pct : Q;
  original_events : list (string * Z);
  stall_causes : list (string * Z);
  stall_cause_sum : Z;
  instruction_mix : list (string * Z); instruction_mix_total : Z
}.

(** [a / b if b else ...]; the quotient of the float is kept exact. *)
Definition ratio (a b : Z) : Q := Qdiv (inject_Z a) (inject_Z b).
Definition ratio_if (a b : Z) : option Q := if truthy b then Some (ratio a b) else None.

Section Runs.
Context (rtl : string -> list string -> rtl_run).
Context (template init_file : string) (out_path : string -> string).

Definition profile_substs (out : string) (max_time mem_size : Z) : list (string * string) :=
  [("__INIT_FILE__", init_file); ("__MAX_TIME__", fmt_d max_time); ("__OUT_FILE__", out);
   ("__MEM_SIZE__", fmt_d mem_size); ("__HAZARD_STRATEGY__", "0"); ("__PIPELINE_PROFILE__", "0");
   ("__BRANCH_PREDICTOR__", "0"); ("__CACHE_MODE__", "0"); ("__MEM_LATENCY_I__", "0");
   ("__MEM_LATENCY_D__", "0"); ("__XLEN__", "32")].

Definition run_sim (lines : list string) (name tag : string) (mem_size : Z) : result (Z * list Z) :=
  words ← assemble lines 32;
  image ← write_mem words mem_size;
  let max_time := (Z.of_nat (List.length words) * 80 + 2000) * 10 in
  let r := rtl (substitute template (profile_substs (out_path tag) max_time mem_size)) image in
  match tool_failure r with
  | Some m => Raise (RuntimeError (name +:+ "/" +:+ tag +:+ ": " +:+ m))
  | None =>
      vals ← int_lines (dump_lines r);
      cycles ← list_get vals 0;
      Ok (cycles, slice vals 1 33)
  end.

(** [{names[i]: regs[first + i] for i in range(NUM_HPM)}]. *)
Definition events (names : list string) (regs : list Z) (first : Z) : result (list (string * Z)) :=
  mapR (fun i => n ← list_get names (Z.to_nat i); v ← list_get regs (Z.to_nat (first + i)); Ok (n, v)) (range NUM_HPM).

Definition profile_kernel (name : string) (kernel_lines : list string) (mem_size : Z) : result profile :=
  let '(mix_counts, mix_total) := classify_mix kernel_lines in
  a ← build_run_a kernel_lines;
  '(cycles_a, regs_a) ← run_sim a name (name +:+ "_a") mem_size;
  mcycle ← list_get regs_a 19;
  minstret ← list_get regs_a 20;
  original ← events ORIGINAL_EVENT_NAMES regs_a 21;
  b ← build_run_b kernel_lines;
  '(cycles_b, regs_b) ← run_sim b name (name +:+ "_b") mem_size;
  stall_causes ← events STALL_CAUSE_NAMES regs_b 19;
  branches ← dict_get original "branches_retired";
  mispredicts ← dict_get original "mispredicts";
  ih ← dict_get original "icache_hit";
  im ← dict_get original "icache_miss";
  dh ← dict_get original "dcache_hit";
  dm ← dict_get original "dcache_miss";
  stall ← dict_get original "stall_aggregate";
  let ipc := default 0%Q (ratio_if minstret mcycle) in
  Ok {| p_name := name; cycles_a := cycles_a; cycles_b := cycles_b; mcycle := mcycle; minstret := minstret;
        p_ipc := ipc;
        p_cpi := if Qeq_bool ipc 0 then None else Some (Qdiv 1 ipc);
        branch_accuracy := (fun q => Qminus 1 q) <$> ratio_if mispredicts branches;
        icache_hit_rate := ratio_if ih (ih + im);
        dcache_hit_rate := ratio_if dh (dh + dm);
        stall_pct := default 0%Q (ratio_if stall mcycle);
        original_events := original; stall_causes := stall_causes;
        stall_cause_sum := fold_left Z.add (map snd stall_causes) 0;
        instruction_mix := mix_counts; instruction_mix_total := mix_total |}.
End Runs.

(** ** The report and [main]

    A printed line is its list of pieces: a text, a float with three
    decimals, or a percentage ([fmt_pct], "n/a" for [None]). *)

Inductive piece :=
| Txt (s : string)
| Fix3 (q : Q)
| Pct (q : option Q).

(** [sorted(mix.items(), key=lambda kv: -kv[1])], which keeps the order of
    equal counts. *)
Fixpoint insert_count (e : string * Z) (l : list (string * Z)) : list (string * Z) :=
  match l with [] => [e] | e' :: l' => if e'.2 <=? e.2 then e :: l else e' :: insert_count e l' end.
Definition by_count (l : list (string * Z)) : list (string * Z) := fold_right insert_count [] l.

Definition count_line (width : nat) (total : Z) (e : string * Z) : result (list piece) :=
  q ← true_div e.2 total;
  Ok [Txt ("    " +:+ pad_right 10 e.1 +:+ " " +:+ pad_right width (fmt_d e.2) +:+ " ("); Pct (Some q); Txt ")"].

Definition report_of (r : profile) : result (list (list piece)) :=
  stall ← dict_get (original_events r) "stall_aggregate";
  let agg := if truthy stall then stall else 1 in
  causes ← mapR (count_line 6 agg) (stall_causes r);
  mix ← mapR (count_line 4 (instruction_mix_total r)) (by_count (instruction_mix r));
  Ok ([[Txt ("=== " +:+ p_name r +:+ " ===")];
       match p_cpi r with
       | Some cpi => [Txt ("  cycles=" +:+ pad_right 8 (fmt_d (mcycle r)) +:+ " instructions(minstret)="
                           +:+ pad_right 8 (fmt_d (minstret r)) +:+ " IPC="); Fix3 (p_ipc r); Txt "  CPI="; Fix3 cpi]
       | None => [Txt ("  cycles=" +:+ fmt_d (mcycle r))]
       end;
       [Txt "  branch accuracy: "; Pct (branch_accuracy r); Txt "  I$ hit rate: "; Pct (icache_hit_rate r);
        Txt "  D$ hit rate: "; Pct (dcache_hit_rate r)];
       [Txt "  stall cycles: "; Pct (Some (stall_pct r)); Txt (" of total (" +:+ fmt_d stall +:+ " cycles)")];
       [Txt "  stall breakdown (per-cause / aggregate):"]]
      ++ causes
      ++ [[Txt ("  instruction mix (static, " +:+ fmt_d (instruction_mix_total r) +:+ " instructions):")]]
      ++ mix ++ [[]]).

Definition print_report (results : list profile) : result (list (list piece)) :=
  ls ← mapR report_of results; Ok (List.concat ls).

Definition profile_mem_size (name : string) : Z := if String.eqb name "bench_bubble_sort" then 1024 else 256.

Section Main.
Context (rtl : string -> list string -> rtl_run).
Context (template init_file : string) (out_path : string -> string).

(** The loop over the kernels: a [RuntimeError] is printed and skipped. *)
Fixpoint profile_all (progs : list (string * list string)) : result (list (list piece) * list profile) :=
  match progs with
  | [] => Ok ([], [])
  | (name, kernel_lines) :: progs' =>
      match profile_kernel rtl template init_file out_path name kernel_lines (profile_mem_size name) with
      | Ok p => '(out, ps) ← profile_all progs'; Ok (out, p :: ps)
      | Raise (RuntimeError m) => '(out, ps) ← profile_all progs'; Ok ([Txt ("FAIL  " +:+ m)] :: out, ps)
      | Raise e => Raise e
      end
  end.

(** [main] on the kernels of the directory: the lines, and the exit
    status. *)
Definition profiler_main (programs_dir : string) (progs : list (string * list string)) : result (list (list piece) * Z) :=
  match progs with
  | [] => Ok ([[Txt ("No bench_*.s programs found under " +:+ programs_dir)]], 1)
  | _ =>
      '(out, results) ← profile_all progs;
      report ← print_report results;
      Ok (out ++ report, if Z.of_nat (List.length results) =? Z.of_nat (List.length progs) then 0 else 1)
  end.
End Main.

Example mix_fib : classify_mix bench_fib_s = ([("alu", 8); ("branch", 1); ("system", 1); ("jump", 1)], 11).
Proof. vm_compute. reflexivity. Qed.

(** ** The mix counts the program's instructions *)

(** The mnemonics of the statements of a source. *)
Fixpoint mnemonics (ks : list line_kind) : list string :=
  match ks with
  | [] => []
  | Statement t :: ks' => lower (List.hd "" (split_args t)) :: mnemonics ks'
  | _ :: ks' => mnemonics ks'
  end.

Definition tally (counts : list (string * Z)) (b : string) : Z := default 0 (dict_find counts b).
Definition total_of (counts : list (string * Z)) : Z := fold_right Z.add 0 (map snd counts).

Lemma bump_tally counts b b' : tally (bump counts b) b' = tally counts b' + (if String.eqb b' b then 1 else 0).
Proof.
  unfold tally. induction counts as [|[k n] counts IH]; cbn [bump dict_find].
  { destruct (String.eqb b' b); done. }
  destruct (String.eqb_spec b k) as [E|E]; cbn [dict_find].
  - subst k. destruct (String.eqb b' b); cbn; lia.
  - destruct (String.eqb_spec b' k) as [E'|]; [|exact IH]. subst k.
    destruct (String.eqb_spec b' b) as [E'|]; [congruence|cbn; lia].
Qed.

Lemma bump_total counts b : total_of (bump counts b) = total_of counts + 1.
Proof.
  unfold total_of. induction counts as [|[k n] counts IH]; [done|]. cbn [bump].
  destruct (String.eqb b k); cbn [map snd fold_right] in *; lia.
Qed.

Lemma classify_line_kind st raw : classify_line st raw =
  match kind raw with
  | Statement t => (bump st.1 (bucket_of (lower (List.hd "" (split_args t)))), st.2 + 1)
  | _ => st
  end.
Proof.
  destruct st as [counts total]. unfold classify_line, kind. cbv zeta.
  destruct (String.eqb (clean_line raw) ""); [done|]. cbn [orb]. by destruct (ends_with_colon (clean_line raw)).
Qed.

Definition in_bucket (b mn : string) : bool := String.eqb b (bucket_of mn).

Lemma classify_fold lines : forall st,
  let r := fold_left classify_line lines st in
  r.2 = st.2 + count (map kind lines) /\
  total_of r.1 = total_of st.1 + count (map kind lines) /\
  forall b, tally r.1 b = tally st.1 b + Z.of_nat (List.length (List.filter (in_bucket b) (mnemonics (map kind lines)))).
Proof.
  induction lines as [|raw lines IH]; intros st; cbv zeta in *; cbn [fold_left map count mnemonics List.filter List.length].
  { split_and!; [lia|lia|intros; lia]. }
  rewrite classify_line_kind. destruct (kind raw) as [|nm|t]; cbn [count mnemonics]; [apply IH|apply IH|].
  destruct (IH (bump st.1 (bucket_of (lower (List.hd "" (split_args t)))), st.2 + 1)) as (H1 & H2 & H3). cbn [fst snd] in *.
  rewrite bump_total in H2. split_and!; [lia|lia|]. intros b. rewrite H3, bump_tally. cbn [List.filter]. unfold in_bucket at 2.
  destruct (String.eqb _ _); cbn [List.length]; lia.
Qed.

(** The static instruction mix is a count of the assembled program: for
    every source the assembler accepts, the total is the number of words it
    assembles to, the buckets add up to it, and each bucket holds the number
    of statements whose mnemonic belongs to it. *)
Theorem mix_counts_instructions lines xl ws : assemble lines xl = Ok ws ->
  let '(counts, total) := classify_mix lines in
  total = Z.of_nat (List.length ws) /\ total_of counts = total /\
  forall b, tally counts b = Z.of_nat (List.length (List.filter (in_bucket b) (mnemonics (map kind lines)))).
Proof.
  intros Ha. assert (Hl : Z.of_nat (List.length ws) = count (map kind lines)).
  { unfold assemble in Ha. apply mapR_length in Ha. rewrite scan_layout in Ha. cbn [stmts] in Ha. rewrite Ha.
    apply addressed_length. }
  unfold classify_mix. destruct (classify_fold lines ([], 0)) as (H1 & H2 & H3).
  destruct (fold_left classify_line lines ([], 0)) as [counts total]. cbn [fst snd] in *.
  split_and!; [lia|unfold total_of in *; cbn in H2; lia|]. intros b. by rewrite H3.
Qed.

Lemma mix_counts_instructions_witness :
  11 = Z.of_nat (List.length (match assemble bench_fib_s 32 with Ok ws => ws | Raise _ => [] end)) /\
  tally (classify_mix bench_fib_s).1 "alu" = 8.
Proof.
  assert (exists ws, assemble bench_fib_s 32 = Ok ws) as (ws & E) by (eexists; vm_compute; reflexivity).
  pose proof (mix_counts_instructions bench_fib_s 32 ws E) as H. rewrite mix_fib in *.
  destruct H as (H1 & _ & H3). rewrite E. split; [exact H1|reflexivity].
Defined.

(** ** The instrumented programs *)

Lemma insert_inserted lines new : insert_before_halt_from true lines new = (lines, true).
Proof. induction lines as [|line lines IH]; [done|]. cbn [insert_before_halt_from negb andb]. by rewrite IH. Qed.

(** The first line reading [halt:] has the new lines before it. *)
Lemma insert_before_halt_spec lines new :
  match insert_before_halt lines new with
  | Ok out => exists pre h post, lines = pre ++ h :: post /\ strip h = "halt:" /\
      Forall (fun ln => strip ln <> "halt:") pre /\ out = pre ++ new ++ h :: post
  | Raise e => e = ValueError "kernel has no `halt:` label to insert the epilogue before" /\
      Forall (fun ln => strip ln <> "halt:") lines
  end.
Proof.
  unfold insert_before_halt. induction lines as [|ln lines IH]; cbn [insert_before_halt_from negb andb].
  { split; [done|constructor]. }
  destruct (String.eqb_spec (strip ln) "halt:") as [E|E].
  - rewrite insert_inserted. cbn. exists [], ln, lines. split; [done|]. split; [done|]. by split.
  - destruct (insert_before_halt_from false lines new) as [out b]. destruct b; cbn [negb] in *.
    + destruct IH as (pre & h & post & -> & Hh & Hp & ->). exists (ln :: pre), h, post.
      split; [done|]. split; [done|]. split; [by apply Forall_cons_2|done].
    + destruct IH as [_ IH]. split; [done|by apply Forall_cons_2].
Qed.

(** The word of [csrrs rd, addr, x0]. *)
Definition csr_read_word (rd addr : Z) : Z := (addr << 20) .| (2 << 12) .| (rd << 7) .| 0x73.

Definition reads_a : list Z :=
  [csr_read_word 19 MCYCLE; csr_read_word 20 MINSTRET]
  ++ map (fun i => csr_read_word (21 + i) (MHPMCOUNTER3_BASE + i)) (range NUM_HPM).
Definition reads_b : list Z := map (fun i => csr_read_word (19 + i) (MHPMCOUNTER3_BASE + i)) (range NUM_HPM).

(** The word of [csrrwi x0, addr, uimm], and of [csrrw x0, addr, x0]. *)
Definition setup_b : list Z :=
  map (fun i => ((MHPMEVENT3_BASE + i) << 20) .| ((10 + i) << 15) .| (5 << 12) .| 0x73) (range NUM_HPM)
  ++ map (fun i => ((MHPMCOUNTER3_BASE + i) << 20) .| (1 << 12) .| 0x73) (range NUM_HPM).

(** Lines that assemble to given words wherever they stand. *)
Definition lines_are (lines : list string) (words : list Z) : Prop :=
  Forall2 (fun s w => exists t, kind s = Statement t /\ forall lbls xl cur, asm_stmt lbls xl cur t = Ok w) lines words.

Ltac lines_tac := repeat (constructor; [eexists; split; [reflexivity|intros lbls xl cur; vm_compute; reflexivity]|]); constructor.

Lemma epilogue_a_words : lines_are epilogue_a reads_a.
Proof. unfold lines_are. let e := eval vm_compute in epilogue_a in change epilogue_a with e. let r := eval vm_compute in reads_a in change reads_a with r. lines_tac. Qed.

Lemma epilogue_b_words : lines_are epilogue_b reads_b.
Proof.
  unfold lines_are. let e := eval vm_compute in epilogue_b in change epilogue_b with e.
  let r := eval vm_compute in reads_b in change reads_b with r. lines_tac.
Qed.

Lemma preamble_b_words : lines_are preamble_b setup_b.
Proof.
  unfold lines_are. let e := eval vm_compute in preamble_b in change preamble_b with e.
  let r := eval vm_compute in setup_b in change setup_b with r. lines_tac.
Qed.

Lemma lines_are_kinds ls ws : lines_are ls ws ->
  count (map kind ls) = Z.of_nat (List.length ws) /\ forall a, bindings a (map kind ls) = [].
Proof.
  induction 1 as [|s w ls ws (t & Ht & _) _ [IH1 IH2]]; [done|]. cbn [map]. rewrite Ht. cbn [count bindings List.length].
  split; [lia|]. intros a. apply IH2.
Qed.

Lemma lines_are_assemble ls ws lbls xl : lines_are ls ws -> forall a, words_of xl lbls a (map kind ls) = Ok ws.
Proof.
  unfold words_of. induction 1 as [|s w ls ws (t & Ht & Hw) _ IH]; intros a; [done|]. cbn [map]. rewrite Ht.
  cbn [addressed mapR]. by rewrite Hw, IH.
Qed.

Lemma words_of_app_inv lbls xl a ks ks' ws : words_of xl lbls a (ks ++ ks') = Ok ws ->
  exists w1 w2, ws = w1 ++ w2 /\ Z.of_nat (List.length w1) = count ks /\ Z.of_nat (List.length w2) = count ks' /\
    words_of xl lbls a ks = Ok w1 /\ words_of xl lbls (a + 4 * count ks) ks' = Ok w2.
Proof.
  rewrite words_of_app. intros (w1 & H1 & (w2 & H2 & <-%Ok_inj)%bind_Ok)%bind_Ok. exists w1, w2.
  split; [done|]. split; [by eapply words_of_length|]. split; [by eapply words_of_length|]. by split.
Qed.

(** A line that reads [halt:] is the label. *)
Lemma lstrip_all (p : ascii -> bool) s : (forall c, is_space c = true -> p c = true) -> str_all p (lstrip s) = true -> str_all p s = true.
Proof.
  intros Hp. induction s as [|c s IH]; [done|]. cbn [lstrip]. destruct (is_space c) eqn:E; [|done].
  intros H. rewrite str_all_cons, (Hp c E). by apply IH.
Qed.

Lemma rstrip_all (p : ascii -> bool) s : (forall c, is_space c = true -> p c = true) -> str_all p (rstrip s) = true -> str_all p s = true.
Proof.
  intros Hp. induction s as [|c s IH]; [done|]. cbn [rstrip]. rewrite (str_all_cons p c s).
  destruct (rstrip s) as [|d t] eqn:E.
  - rewrite IH by done. destruct (is_space c) eqn:Ec; [by rewrite (Hp c Ec)|].
    rewrite str_all_cons. intros [-> _]%andb_true_iff. done.
  - rewrite str_all_cons. intros [-> Ht]%andb_true_iff. by apply IH.
Qed.

Lemma kind_halt h : strip h = "halt:" -> kind h = Label "halt".
Proof.
  intros E. assert (Hb : before "#" h = h).
  { apply before_none. apply lstrip_all; [|apply rstrip_all; [|fold (strip h); by rewrite E]];
      intros c Hc; destruct (Ascii.eqb_spec "#" c) as [<-|]; done. }
  unfold kind, clean_line. by rewrite Hb, E.
Qed.

(** What an instrumented program is: the set-up words, the kernel's
    statements before its [halt:] line, each assembled in order at its place
    behind the set-up, the counter reads, and the kernel's remaining
    statements behind them.  Every label of the kernel, and no other, names
    the place its line has moved to, so a jump of the kernel reaches the
    statement it named; [halt] names the address just after the reads. *)
Definition instrumented (setup reads : list Z) (xl : Z) (kernel out : list string) (ws : list Z) : Prop :=
  exists pre h post w1 w2, kernel = pre ++ h :: post /\ strip h = "halt:" /\ Forall (fun ln => strip ln <> "halt:") pre /\
    ws = setup ++ w1 ++ reads ++ w2 /\ Z.of_nat (List.length w1) = count (map kind pre) /\
    Z.of_nat (List.length w2) = count (map kind post) /\
    let start := 4 * Z.of_nat (List.length setup) in
    let resume := 4 * Z.of_nat (List.length (setup ++ w1 ++ reads)) in
    let lbls := bindings resume (map kind (h :: post)) ++ bindings start (map kind pre) in
    AsmText.labels (scan out) = lbls /\
    words_of xl lbls start (map kind pre) = Ok w1 /\
    words_of xl lbls resume (map kind post) = Ok w2 /\
    (Label "halt" ∉ map kind post -> dict_find lbls "halt" = Some resume).

Lemma instrumented_by setup_lines setup new reads kernel out0 xl ws :
  lines_are setup_lines setup -> lines_are new reads -> insert_before_halt kernel new = Ok out0 ->
  assemble (setup_lines ++ out0) xl = Ok ws -> instrumented setup reads xl kernel (setup_lines ++ out0) ws.
Proof.
  intros Hs Hn Hi Ha. pose proof (insert_before_halt_spec kernel new) as H. rewrite Hi in H.
  destruct H as (pre & h & post & -> & Hh & Hp & ->).
  destruct (lines_are_kinds _ _ Hs) as [Cs Bs], (lines_are_kinds _ _ Hn) as [Cn Bn].
  assert (Ek : map kind (setup_lines ++ pre ++ new ++ h :: post) =
    map kind setup_lines ++ map kind pre ++ map kind new ++ Label "halt" :: map kind post).
  { rewrite !map_app. cbn [map]. by rewrite (kind_halt h Hh). }
  unfold assemble in Ha. rewrite scan_layout, Ek in Ha. cbn [stmts AsmText.labels] in Ha.
  set (lbls := bindings 0 _) in Ha. fold (words_of xl lbls 0 (map kind setup_lines ++ map kind pre ++ map kind new ++ Label "halt" :: map kind post)) in Ha.
  apply words_of_app_inv in Ha as (w0 & w' & -> & _ & _ & H0 & Ha).
  rewrite (lines_are_assemble setup_lines setup lbls xl Hs) in H0. apply Ok_inj in H0 as <-.
  apply words_of_app_inv in Ha as (w1 & w'' & -> & L1 & _ & H1 & Ha).
  apply words_of_app_inv in Ha as (wn & w2 & -> & _ & L2 & Hr & H2).
  rewrite (lines_are_assemble new reads lbls xl Hn) in Hr. apply Ok_inj in Hr as <-.
  change (words_of xl lbls (0 + 4 * count (map kind setup_lines) + 4 * count (map kind pre) + 4 * count (map kind new))
    (map kind post) = Ok w2) in H2. cbn [count] in L2.
  assert (Er : 0 + 4 * count (map kind setup_lines) + 4 * count (map kind pre) + 4 * count (map kind new) =
    4 * Z.of_nat (List.length (setup ++ w1 ++ reads))) by (rewrite !length_app; lia).
  assert (Es : 0 + 4 * count (map kind setup_lines) = 4 * Z.of_nat (List.length setup)) by lia.
  assert (El : lbls = bindings (4 * Z.of_nat (List.length (setup ++ w1 ++ reads))) (map kind (h :: post)) ++
    bindings (4 * Z.of_nat (List.length setup)) (map kind pre)).
  { cbn [map]. rewrite (kind_halt h Hh), <- Er, <- Es. unfold lbls. rewrite !bindings_app, Bs, Bn, !app_nil_r. reflexivity. }
  rewrite Er in H2. rewrite Es in H1.
  exists pre, h, post, w1, w2. split; [done|]. split; [done|]. split; [done|].
  split; [done|]. split; [exact L1|]. split; [exact L2|]. cbv zeta. rewrite <- El.
  split; [by rewrite scan_layout, Ek|]. split; [exact H1|]. split; [exact H2|]. intros Hnot.
  rewrite El. cbn [map]. rewrite (kind_halt h Hh). cbn [bindings]. rewrite <- app_assoc, dict_find_app.
  rewrite (proj2 (bindings_none _ _ _) Hnot). cbn [app dict_find]. by rewrite String.eqb_refl.
Qed.

(** [C40] The profiled programs read what they claim: when [build_run_b]
    accepts a kernel and the result assembles, the program is the nine
    writes that select the stall-cause events and the nine that clear their
    counters, then the kernel's own statements before its [halt:] line, in
    order, each assembled at its place behind the set-up, then the reads of
    mhpmcounter3 to 11 into x19 to x27, then the kernel's remaining
    statements.  Every label of the kernel names the place its line has
    moved to, so a jump reaches the statement it named, and [halt] the
    address just after the reads, so the loop never repeats them. *)
Theorem run_b_reads_counters kernel out xl ws : build_run_b kernel = Ok out -> assemble out xl = Ok ws ->
  instrumented setup_b reads_b xl kernel out ws.
Proof.
  unfold build_run_b. intros (out0 & Hi & <-%Ok_inj)%bind_Ok.
  by apply (instrumented_by preamble_b setup_b epilogue_b reads_b); [apply preamble_b_words|apply epilogue_b_words|].
Qed.

(** The same for [build_run_a]: no set-up, and the reads are those of
    mcycle, minstret and the nine default events, into x19 to x29. *)
Theorem run_a_reads_counters kernel out xl ws : build_run_a kernel = Ok out -> assemble out xl = Ok ws ->
  instrumented [] reads_a xl kernel out ws.
Proof.
  intros Hi. apply (instrumented_by [] [] epilogue_a reads_a); [constructor|apply epilogue_a_words|exact Hi].
Qed.

Lemma run_b_reads_counters_witness :
  exists out ws, build_run_b bench_fib_s = Ok out /\ assemble out 32 = Ok ws /\ List.length ws = 38%nat /\
    instrumented setup_b reads_b 32 bench_fib_s out ws.
Proof.
  assert (exists out ws, build_run_b bench_fib_s = Ok out /\ assemble out 32 = Ok ws /\ List.length ws = 38%nat) as (out & ws & E1 & E2 & E3).
  { eexists _, _. split; [vm_compute; reflexivity|]. split; [vm_compute; reflexivity|]. vm_compute. reflexivity. }
  exists out, ws. split; [exact E1|]. split; [exact E2|]. split; [exact E3|].
  exact (run_b_reads_counters bench_fib_s out 32 ws E1 E2).
Defined.

Lemma run_a_reads_counters_witness :
  exists out ws, build_run_a bench_fib_s = Ok out /\ assemble out 32 = Ok ws /\ instrumented [] reads_a 32 bench_fib_s out ws.
Proof.
  assert (exists out ws, build_run_a bench_fib_s = Ok out /\ assemble out 32 = Ok ws) as (out & ws & E1 & E2).
  { eexists _, _. split; [vm_compute; reflexivity|]. vm_compute. reflexivity. }
  exists out, ws. split; [exact E1|]. split; [exact E2|].
  exact (run_a_reads_counters bench_fib_s out 32 ws E1 E2).
Defined.

(** ** The report *)

Lemma bump_pos counts b : Forall (fun e => 1 <= e.2) counts -> Forall (fun e : string * Z => 1 <= e.2) (bump counts b).
Proof.
  induction 1 as [|[k n] counts Hn Hc IH]; cbn [bump]; [by apply Forall_cons_2|]. cbn [snd] in Hn.
  destruct (String.eqb b k); apply Forall_cons_2; cbn [snd]; (lia || done).
Qed.

Lemma classify_pos lines : forall st, Forall (fun e => 1 <= e.2) st.1 -> Forall (fun e : string * Z => 1 <= e.2) (fold_left classify_line lines st).1.
Proof.
  induction lines as [|raw lines IH]; intros st Hst; [done|]. cbn [fold_left]. apply IH.
  rewrite classify_line_kind. destruct (kind raw); [done..|]. by apply bump_pos.
Qed.

Lemma total_of_pos counts : Forall (fun e : string * Z => 1 <= e.2) counts -> 0 <= total_of counts /\ (counts <> [] -> 0 < total_of counts).
Proof.
  unfold total_of. induction 1 as [|[k n] counts Hn _ [IH _]]; cbn [map fold_right snd] in *; [done|]. split; [lia|]. intros; lia.
Qed.

Lemma mix_total_positive lines : (classify_mix lines).1 <> [] -> (classify_mix lines).2 <> 0.
Proof.
  intros Hne. unfold classify_mix in *. destruct (classify_fold lines ([], 0)) as (H1 & H2 & _). cbn [fst snd] in *.
  pose proof (classify_pos lines ([], 0) (Forall_nil_2 _)) as Hp. apply total_of_pos in Hp as [_ Hp]. specialize (Hp Hne).
  unfold total_of in H2 at 2. cbn in H2. lia.
Qed.

Lemma insert_count_perm e l : Permutation (insert_count e l) (e :: l).
Proof.
  induction l as [|e' l IH]; [done|]. cbn [insert_count]. destruct (e'.2 <=? e.2); [done|]. rewrite IH. apply perm_swap.
Qed.
Lemma by_count_perm l : Permutation (by_count l) l.
Proof. induction l as [|e l IH]; [done|]. cbn [by_count fold_right]. rewrite insert_count_perm. by constructor. Qed.

Lemma count_lines width total l : total <> 0 \/ l = [] -> exists ls, mapR (count_line width total) l = Ok ls.
Proof.
  intros [Ht | ->]; [|by exists []]. induction l as [|e l (ls & IH)]; [by exists []|]. cbn [mapR].
  assert (E : exists x, count_line width total e = Ok x).
  { unfold count_line, true_div. rewrite (proj2 (Z.eqb_neq _ _) Ht). by eexists. }
  destruct E as (x & ->). cbn [mbind result_bind]. rewrite IH. by eexists.
Qed.

Section Status.
Context (rtl : string -> list string -> rtl_run) (template init_file : string) (out_path : string -> string).
Abbreviation kernel_profile := (profile_kernel rtl template init_file out_path).

Lemma profile_fields name lines size p : kernel_profile name lines size = Ok p ->
  (instruction_mix p, instruction_mix_total p) = classify_mix lines /\
  exists stall, dict_get (original_events p) "stall_aggregate" = Ok stall.
Proof.
  unfold profile_kernel. destruct (classify_mix lines) as [mix total].
  intros (a & _ & ([ca ra] & _ & (cy & _ & (ir & _ & (original & _ & H)%bind_Ok)%bind_Ok)%bind_Ok)%bind_Ok)%bind_Ok.
  apply bind_Ok in H as (b & _ & H). apply bind_Ok in H as ([cb rb] & _ & H). apply bind_Ok in H as (causes & _ & H).
  do 6 (apply bind_Ok in H as (? & _ & H)). apply bind_Ok in H as (stall & Hs & <-%Ok_inj).
  split; [done|]. by exists stall.
Qed.

Lemma report_ok name lines size p : kernel_profile name lines size = Ok p -> exists ls, report_of p = Ok ls.
Proof.
  intros H. apply profile_fields in H as (Hm & stall & Hs). unfold report_of. rewrite Hs. cbn [mbind result_bind].
  destruct (count_lines 6 (if truthy stall then stall else 1) (stall_causes p)) as (l1 & ->).
  { left. unfold truthy. destruct (Z.eqb_spec stall 0); cbn [negb]; lia. }
  cbn [mbind result_bind].
  destruct (count_lines 4 (instruction_mix_total p) (by_count (instruction_mix p))) as (l2 & ->); [|by eexists].
  pose proof (mix_total_positive lines) as Hp. rewrite <- Hm in Hp. cbn [fst snd] in Hp.
  destruct (instruction_mix p) as [|e l] eqn:El; [by right|]. left. by apply Hp.
Qed.

(** The kernel is profiled, or reported as failed. *)
Definition profiled (prog : string * list string) : Prop := exists p, kernel_profile prog.1 prog.2 (profile_mem_size prog.1) = Ok p.
Definition reported (prog : string * list string) : Prop :=
  exists m, kernel_profile prog.1 prog.2 (profile_mem_size prog.1) = Raise (RuntimeError m).

Lemma profile_all_ok progs : Forall (fun prog => profiled prog \/ reported prog) progs ->
  exists out ps ls, profile_all rtl template init_file out_path progs = Ok (out, ps) /\ mapR report_of ps = Ok ls /\
    (List.length ps <= List.length progs)%nat /\ (List.length ps = List.length progs <-> Forall profiled progs) /\
    List.length out = (List.length progs - List.length ps)%nat.
Proof.
  induction 1 as [|[name lines] progs Hp _ (out & ps & ls & E & Els & Hle & Hall & Ho)].
  { exists [], [], []. split; [done|]. split; [done|]. split; [done|]. split; [split; [constructor|done]|done]. }
  cbn [profile_all]. unfold profiled, reported in Hp. cbn [fst snd] in Hp. destruct Hp as [(p & Hp)|(m & Hp)]; rewrite Hp, E; cbn [mbind result_bind].
  - destruct (report_ok _ _ _ _ Hp) as (l & Hl). exists out, (p :: ps), (l :: ls). split; [done|].
    cbn [mapR]. rewrite Hl, Els. split; [done|]. cbn [List.length]. split; [lia|]. split; [|lia]. rewrite List.Forall_cons_iff.
    unfold profiled at 1. cbn [fst snd]. rewrite Hp. split; [intros; split; [by exists p|apply Hall; lia]|]. intros [_ H%Hall]. lia.
  - exists ([Txt ("FAIL  " +:+ m)] :: out), ps, ls. split; [done|]. split; [done|]. cbn [List.length]. split; [lia|]. split; [|lia].
    rewrite List.Forall_cons_iff. unfold profiled at 1. cbn [fst snd]. rewrite Hp. split; [lia|]. by intros [[p ?] _].
Qed.

(** The profiler's exit status. When every kernel is either profiled or
    stopped by a tool's failure, the script prints its report without
    raising, with one line for each failed kernel before it, and exits with
    0 exactly when there is a kernel and every kernel was profiled. *)
Theorem profiler_status dir progs : Forall (fun prog => profiled prog \/ reported prog) progs ->
  exists out code, profiler_main rtl template init_file out_path dir progs = Ok (out, code) /\
    (code = 0 <-> progs <> [] /\ Forall profiled progs).
Proof.
  intros Hp. destruct (profile_all_ok progs Hp) as (out & ps & ls & E & Els & Hle & Hall & _). unfold profiler_main.
  destruct progs as [|prog progs]; [eexists _, 1; split; [done|]; split; [done|]; by intros [? _]|].
  rewrite E. cbn [mbind result_bind]. unfold print_report. rewrite Els. cbn [mbind result_bind]. eexists _, _. split; [done|].
  rewrite <- Hall. destruct (Z.eqb_spec (Z.of_nat (List.length ps)) (Z.of_nat (List.length (prog :: progs)))) as [El|El].
  - split; [|done]. intros _. split; [done|lia].
  - split; [done|]. intros [_ ?]. lia.
Qed.
End Status.

(** A kernel without its tools. *)
Definition no_tools_rtl (_ : string) (_ : list string) : rtl_run :=
  {| iverilog := {| returncode := 1; stderr := "no"; output := tt |};
     vvp := {| returncode := 0; stderr := ""; output := "" |}; dump := None |}.

Lemma profiler_status_witness :
  exists out code, profiler_main no_tools_rtl "tb" "i" id "d" [("bench_fib", bench_fib_s)] = Ok (out, code) /\
    (code = 0 <-> [("bench_fib", bench_fib_s)] <> [] /\ Forall (profiled no_tools_rtl "tb" "i" id) [("bench_fib", bench_fib_s)]).
Proof.
  apply (profiler_status no_tools_rtl "tb" "i" id "d" [("bench_fib", bench_fib_s)]).
  apply Forall_cons_2; [|constructor]. right. eexists. vm_compute. reflexivity.
Defined.
