(* ===== verification/Firmware.v ===== *)
(** * Firmware and kernel images

    [sim/tools/build_sbi_firmware.py] and [sim/tools/build_linux_boot.py]:
    the two memory images of a boot, put together from the converter's
    output ([MemImage]), the device tree ([Dtb]) and, for Linux, the kernel
    and the initramfs.  The compiler and the binutils are parameters; so is
    the text a failed command leaves. *)

From S2P Require Import Prelude Words PyStr TextFacts AsmText MemImage Dtb.
#[local] Open Scope string_scope.
#[local] Open Scope Z_scope.
#[local] Open Scope list_scope.

Definition MEM_SIZE : Z := 32768.
Definition DTB_ADDR : Z := 0x4000.

Definition FW_LINK_SIZE : Z := 32768.
Definition KERNEL_LOAD_ADDR : Z := 0x200000.
Definition INITRD_ADDR : Z := 0x1000000.
Definition DTB_ADDR_KERNEL : Z := 0x1500000.

(** ** Definitions: Python *)

(** [struct.unpack_from("<Q", bs, off)[0]]. *)
Definition unpack_from_Q (bs : list Z) (off : Z) : result Z :=
  if len bs <? off + 8 then
    Raise (StructError ("unpack_from requires a buffer of at least " +:+ fmt_d (off + 8)
             +:+ " bytes for unpacking 8 bytes at offset " +:+ fmt_d off
             +:+ " (actual buffer size is " +:+ fmt_d (len bs) +:+ ")"))
  else Ok (gather 8 8 (fun i => nthZ 0 bs (off + i))).

(** ** Definitions: memory files *)

(** [read_mem]: the loop over the lines, and the buffer it fills. *)
Fixpoint read_lines (i : Z) (lines : list string) (buf : list Z) : result (list Z) :=
  match lines with
  | [] => Ok buf
  | line :: lines' =>
      let line := strip line in
      if nonempty line then
        v ← int_base2 line;
        if negb ((0 <=? v) && (v <? 256)) then Raise (ValueError "byte must be in range(0, 256)")
        else if negb (i <? len buf) then Raise (IndexError "bytearray index out of range")
        else read_lines (i + 1) lines' (updZ buf i v)
      else read_lines (i + 1) lines' buf
  end.
Definition read_mem (lines : list string) (size : Z) : result (list Z) :=
  if size <? 0 then Raise (ValueError "negative count")
  else read_lines 0 lines (replicate (Z.to_nat size) 0).

(** [overlay_dtb_into_dmem]: the loop, and the lines of the file after it. *)
Fixpoint overlay (lines : list string) (addr : Z) (dtb_bytes : list Z) : list string :=
  match dtb_bytes with
  | [] => lines
  | b :: bs => overlay (updZ lines addr (fmt_0b 8 b)) (addr + 1) bs
  end.
Definition overlay_dtb_into_dmem (lines : list string) (dtb_bytes : list Z) (dtb_addr : Z) : result (list string) :=
  if dtb_addr + len dtb_bytes >? Z.of_nat (List.length lines) then
    Raise (ValueError ("DTB (" +:+ fmt_d (len dtb_bytes) +:+ " bytes) at " +:+ fmt_hash_x dtb_addr
             +:+ " exceeds dmem.mem's own " +:+ fmt_d (Z.of_nat (List.length lines)) +:+ "-byte size -- grow MEM_SIZE"))
  else Ok (overlay lines dtb_addr dtb_bytes).

(** ** Definitions: the commands *)

(** [gen_dtb.py] with the options given and the defaults of the others: the
    blob it writes, once the self-check has passed. *)
Definition gen_dtb_main (mem_size : Z) (bootargs : string) (initrd_start initrd_end : option Z) : result (list Z) :=
  blob ← build_this_core_dtb mem_size 1000000 1843200 bootargs initrd_start initrd_end;
  _ ← parse_and_validate blob;
  Ok blob.

Section Build.
(** The return code of the compiler on a source or on the link. *)
Context (gcc : string -> Z).
Context (objcopy : string -> process (list Z)).
Context (objdump_h nm_out : process (list string)).
Context (elf_path : string).
(** The command, its output and its errors, as [run] puts them in the
    exception. *)
Context (report : string -> string).

Definition run_gcc (what : string) : result unit :=
  if negb (gcc what =? 0) then Raise (RuntimeError ("command failed: " +:+ report what)) else Ok tt.

(** A Python tool run as a command: whatever it raises ends it with 1. *)
Definition run_tool {A} (what : string) (r : result A) : result A :=
  match r with Ok a => Ok a | Raise _ => Raise (RuntimeError ("command failed: " +:+ report what)) end.

(** [elf2mem.py]: the two files it writes. *)
Definition elf2mem_main (imem_size dmem_size : Z) (imem_sections : list string) : result (list string * list string) :=
  imem ← build_imem objcopy objdump_h imem_size imem_sections;
  dmem ← build_dmem objcopy nm_out elf_path dmem_size;
  Ok (write_image imem, write_image dmem).

(** [build_sbi_firmware.py]. *)
Definition sbi_sources : list string := ["boot.S"; "trap_entry.S"; "sbi.c"; "payload_start.S"; "payload.c"].

Definition build_sbi_firmware : result (list string * list string) :=
  _ ← mapR run_gcc sbi_sources;
  _ ← run_gcc "sbi_firmware.elf";
  '(imem_mem, dmem_mem) ← run_tool "elf2mem.py" (elf2mem_main MEM_SIZE MEM_SIZE [".text.boot"; ".text.payload"]);
  dtb ← run_tool "gen_dtb.py" (gen_dtb_main MEM_SIZE default_bootargs None None);
  dmem_mem ← overlay_dtb_into_dmem dmem_mem dtb DTB_ADDR;
  Ok (imem_mem, dmem_mem).

(** [build_linux_boot.py]: the firmware's two memories. *)
Definition linux_sources : list string := ["boot.S"; "trap_entry.S"; "sbi.c"].

Definition build_firmware : result (list Z * list Z) :=
  _ ← mapR run_gcc linux_sources;
  _ ← run_gcc "fw.elf";
  '(fw_imem_mem, fw_dmem_mem) ← run_tool "elf2mem.py" (elf2mem_main FW_LINK_SIZE FW_LINK_SIZE [".text.boot"]);
  fw_imem ← read_mem fw_imem_mem FW_LINK_SIZE;
  fw_dmem ← read_mem fw_dmem_mem FW_LINK_SIZE;
  Ok (fw_imem, fw_dmem).

Definition linux_bootargs : string := "earlycon=uart8250,mmio,0x10000000,1000000n8 console=ttyS0 rdinit=/init".

Definition IMAGE_MAGIC : list Z := [82; 73; 83; 67; 86; 0; 0; 0].

(** The text of [repr] of the magic bytes is left to the caller. *)
Context (repr_bytes : list Z -> string).

(** The checks on the files before anything is built. *)
Definition check_kernel (kernel_bytes initramfs_bytes : list Z) : result unit :=
  text_offset ← unpack_from_Q kernel_bytes 0x08;
  let magic := slice kernel_bytes 0x30 0x38 in
  if negb (bool_decide (magic = IMAGE_MAGIC)) then
    Raise (ValueError ("not a real RISC-V Image (magic=" +:+ repr_bytes magic +:+ ")"))
  else if negb (text_offset =? KERNEL_LOAD_ADDR) then
    Raise (ValueError ("Image's own text_offset " +:+ fmt_hash_x text_offset +:+ " != KERNEL_LOAD_ADDR "
                       +:+ fmt_hash_x KERNEL_LOAD_ADDR))
  else if INITRD_ADDR <? KERNEL_LOAD_ADDR + len kernel_bytes then
    Raise (ValueError "INITRD_ADDR overlaps kernel Image -- grow INITRD_ADDR")
  else if DTB_ADDR_KERNEL <? INITRD_ADDR + len initramfs_bytes then
    Raise (ValueError "DTB_ADDR_KERNEL overlaps initramfs -- grow DTB_ADDR_KERNEL")
  else Ok tt.

(** [buf[off:off + len(blob)] = blob]. *)
Definition put (off : Z) (blob buf : list Z) : list Z := slice_set buf off (off + len blob) blob.

Definition combine_imem (limit : Z) (fw_imem kernel_bytes : list Z) : list Z :=
  put KERNEL_LOAD_ADDR kernel_bytes (put 0 fw_imem (replicate (Z.to_nat limit) 0)).
Definition combine_dmem (limit : Z) (fw_dmem kernel_bytes initramfs_bytes dtb_bytes : list Z) : list Z :=
  put DTB_ADDR_KERNEL dtb_bytes (put INITRD_ADDR initramfs_bytes (put KERNEL_LOAD_ADDR kernel_bytes
    (put 0 fw_dmem (replicate (Z.to_nat limit) 0)))).

(** [main]: the two image files and the zero-initialisation limit it
    prints. *)
Definition build_linux_boot (kernel_bytes initramfs_bytes : list Z) (mem_size : Z) :
    result (list string * list string * Z) :=
  _ ← check_kernel kernel_bytes initramfs_bytes;
  '(fw_imem, fw_dmem) ← build_firmware;
  dtb_bytes ← run_tool "gen_dtb.py" (gen_dtb_main mem_size linux_bootargs (Some INITRD_ADDR)
                                       (Some (INITRD_ADDR + len initramfs_bytes)));
  if DTB_ADDR_KERNEL + len dtb_bytes >? mem_size then
    Raise (ValueError "DTB placement exceeds --mem-size -- grow it")
  else
    let content_end := DTB_ADDR_KERNEL + len dtb_bytes in
    let zero_init_limit := ((content_end + 4095) `div` 4096) * 4096 in
    let combined_imem := combine_imem zero_init_limit fw_imem kernel_bytes in
    let combined_dmem := combine_dmem zero_init_limit fw_dmem kernel_bytes initramfs_bytes dtb_bytes in
    Ok (write_image combined_imem, write_image combined_dmem, zero_init_limit).
End Build.

(** ** The file is read back *)

Lemma int_base2_byte b : byte b -> int_base2 (fmt_0b 8 b) = Ok b.
Proof.
  assert (H : forallb (fun b => match int_base2 (fmt_0b 8 b) with Ok v => v =? b | Raise _ => false end) (range 256) = true)
    by (vm_compute; reflexivity).
  rewrite forallb_forall in H. intros Hb. specialize (H b). destruct (int_base2 _) as [v|].
  - f_equal. apply Z.eqb_eq, H, list_elem_of_In, elem_of_range. exact Hb.
  - exfalso. discriminate H. apply list_elem_of_In, elem_of_range. exact Hb.
Qed.

Lemma fmt_byte_line b : byte b -> strip (fmt_0b 8 b) = fmt_0b 8 b /\ nonempty (fmt_0b 8 b) = true.
Proof. intros Hb. split; [apply strip_word, fmt_byte_word|by rewrite fmt_byte]. Qed.

Lemma read_lines_image data : Forall byte data -> forall pre n, (List.length data <= n)%nat ->
  read_lines (Z.of_nat (List.length pre)) (write_image data) (pre ++ replicate n 0) =
  Ok (pre ++ data ++ replicate (n - List.length data) 0).
Proof.
  induction 1 as [|b data Hb _ IH]; intros pre n Hn.
  { cbn [write_image mem_text map read_lines app List.length]. by rewrite Nat.sub_0_r. }
  destruct n as [|n]; [cbn in Hn; lia|]. unfold write_image, mem_text. cbn [map read_lines List.length Nat.sub].
  destruct (fmt_byte_line b Hb) as [-> ->]. rewrite int_base2_byte by done. cbn [mbind result_bind].
  unfold byte in Hb. rewrite (proj2 (Z.leb_le _ _) (proj1 Hb)), (proj2 (Z.ltb_lt _ _) (proj2 Hb)). cbn [andb negb].
  unfold len. rewrite length_app, length_replicate. destruct (Z.ltb_spec (Z.of_nat (List.length pre)) (Z.of_nat (List.length pre + S n))); [|lia].
  cbn [negb]. replace (updZ _ _ _) with ((pre ++ [b]) ++ replicate n 0).
  2:{ rewrite <- (Z.add_0_r (Z.of_nat (List.length pre))), updZ_app by done. by rewrite <- app_assoc. }
  replace (Z.of_nat (List.length pre) + 1) with (Z.of_nat (List.length (pre ++ [b]))) by (rewrite length_app; cbn; lia).
  fold (mem_text data). fold (write_image data). rewrite IH by (cbn in Hn; lia). by rewrite <- app_assoc.
Qed.

(** Reading a written file gives its bytes, then zeros up to the size. *)
Lemma read_mem_image data size : Forall byte data -> len data <= size ->
  read_mem (write_image data) size = Ok (data ++ replicate (Z.to_nat (size - len data)) 0).
Proof.
  intros Hd Hs. unfold len in *. unfold read_mem. destruct (Z.ltb_spec size 0); [lia|].
  pose proof (read_lines_image data Hd [] (Z.to_nat size) ltac:(lia)) as E. change (Z.of_nat (List.length (@nil Z))) with 0 in E; cbn [app] in E.
  rewrite E. do 3 f_equal. lia.
Qed.

Lemma read_mem_exact data : Forall byte data -> read_mem (write_image data) (len data) = Ok data.
Proof.
  intros Hd. rewrite read_mem_image by (done || lia). rewrite Z.sub_diag. by rewrite app_nil_r.
Qed.

Lemma read_lines_wf lines : forall i buf buf', Forall byte buf -> read_lines i lines buf = Ok buf' ->
  Forall byte buf' /\ len buf' = len buf.
Proof.
  induction lines as [|line lines IH]; intros i buf buf' Hb; cbn [read_lines]; [by intros <-%Ok_inj|].
  destruct (nonempty _); [|by apply IH]. intros (v & _ & H)%bind_Ok.
  destruct ((0 <=? v) && (v <? 256)) eqn:Hv; [|done]. apply andb_true_iff in Hv as [Hv1%Z.leb_le Hv2%Z.ltb_lt].
  destruct (i <? len buf); [|done]. cbn [negb] in H. apply IH in H as [H1 H2]; [|by apply Forall_updZ].
  split; [done|]. rewrite H2. unfold len. by rewrite updZ_length.
Qed.

Lemma zeros_bytes n : Forall byte (replicate n 0).
Proof. apply Forall_replicate. by unfold byte. Qed.

(** Whatever the file, the buffer has the size asked for and holds bytes. *)
Lemma read_mem_wf lines size buf : read_mem lines size = Ok buf -> Forall byte buf /\ len buf = size.
Proof.
  unfold read_mem. destruct (Z.ltb_spec size 0) as [|Hs]; [done|]. intros H. apply read_lines_wf in H as [H1 H2]; [|apply zeros_bytes].
  split; [done|]. rewrite H2. unfold len. rewrite length_replicate. lia.
Qed.

(** ** The blob is bytes, and small *)

Lemma byte_be n v : Forall byte (be n v).
Proof. unfold be. apply Forall_map, Forall_true. intros i. apply byte_land. Qed.

Lemma bytes_pack n v l : pack n v = Ok l -> Forall byte l.
Proof. unfold pack. destruct (_ && _); [|done]. intros <-%Ok_inj. apply byte_be. Qed.

Lemma mapR_concat_bytes {A} (g : A -> result (list Z)) : (forall x l, g x = Ok l -> Forall byte l) ->
  forall xs ls, mapR g xs = Ok ls -> Forall byte (List.concat ls).
Proof.
  intros Hg. induction xs as [|x xs IH]; intros ls; cbn [mapR]; [by intros <-%Ok_inj|].
  intros (y & Hy & (ys & Hys & <-%Ok_inj)%bind_Ok)%bind_Ok. cbn [List.concat]. apply Forall_app_2; eauto.
Qed.

Lemma bytes_pack_all n vs l : pack_all n vs = Ok l -> Forall byte l.
Proof. intros (ls & H & <-%Ok_inj)%bind_Ok. revert H. apply mapR_concat_bytes, bytes_pack. Qed.

Lemma bytes_codes s : Forall byte (codes s).
Proof.
  induction s as [|c s IH]; cbn [codes]; constructor; [|done]. pose proof (nat_ascii_bounded c). unfold byte. lia.
Qed.

Lemma bytes_encode s l : encode s = Ok l -> Forall byte l.
Proof. unfold encode. destruct (str_all _ _); [|done]. intros <-%Ok_inj. apply bytes_codes. Qed.

Lemma bytes_align4 l : Forall byte l -> Forall byte (align4 l).
Proof. intros H. apply Forall_app_2; [done|apply zeros_bytes]. Qed.

Lemma bytes_nul l : Forall byte l -> Forall byte (l ++ [0]).
Proof. intros H. apply Forall_app_2; [done|]. apply Forall_cons_2; [by unfold byte|constructor]. Qed.

Definition fdt_bytes (f : FdtBuilder) : Prop := Forall byte (f_struct f) /\ Forall byte (f_strings f).

Create HintDb blob.
#[local] Hint Resolve bytes_pack bytes_pack_all bytes_encode bytes_align4 bytes_nul Forall_app_2 Forall_nil_2 : blob.

Lemma prop_raw_bytes f name value f' : fdt_bytes f -> Forall byte value -> prop_raw f name value = Ok f' -> fdt_bytes f'.
Proof.
  intros [H1 H2] Hv ([off g] & Ho & (tok & Ht & (hd & Hh & <-%Ok_inj)%bind_Ok)%bind_Ok)%bind_Ok.
  assert (Hg : fdt_bytes g).
  { unfold string_off in Ho. destruct (dict_find _ _); [by injection Ho as _ <-|].
    apply bind_Ok in Ho as (bs & Hbs & Ho). injection Ho as _ <-. split; [done|]. cbn [f_strings]. eauto with blob. }
  destruct Hg as [G1 G2]. split; [|done]. cbn [add_struct f_struct]. unfold pack_I in Ht. eauto 7 with blob.
Qed.

Lemma do_call_bytes f c f' : fdt_bytes f -> do_call f c = Ok f' -> fdt_bytes f'.
Proof.
  intros Hf. destruct c; cbn [do_call].
  - intros (tok & Ht & (bs & Hb & <-%Ok_inj)%bind_Ok)%bind_Ok. destruct Hf. split; [|done].
    cbn [add_struct f_struct]. unfold pack_I in Ht. eauto 7 with blob.
  - intros (tok & Ht & <-%Ok_inj)%bind_Ok. destruct Hf. split; [|done]. cbn [add_struct f_struct]. unfold pack_I in Ht. eauto with blob.
  - by apply prop_raw_bytes.
  - intros (v & Hv & H)%bind_Ok. unfold pack_I in Hv. apply prop_raw_bytes in H; eauto with blob.
  - intros (v & Hv & H)%bind_Ok. unfold pack_Q in Hv. apply prop_raw_bytes in H; eauto with blob.
  - intros (v & Hv & H)%bind_Ok. apply prop_raw_bytes in H; eauto with blob.
  - intros (v & Hv & H)%bind_Ok. apply prop_raw_bytes in H; eauto with blob.
  - intros (vs & Hv & H)%bind_Ok. apply prop_raw_bytes in H; [done..|]. revert Hv. apply mapR_concat_bytes.
    intros x l (bs & Hb & <-%Ok_inj)%bind_Ok. eauto with blob.
Qed.

Lemma do_calls_bytes cs : forall f f', fdt_bytes f -> do_calls f cs = Ok f' -> fdt_bytes f'.
Proof.
  induction cs as [|c cs IH]; intros f f' Hf; cbn [do_calls]; [by intros <-%Ok_inj|].
  intros (g & Hg & H)%bind_Ok. eauto using do_call_bytes.
Qed.

Lemma build_bytes f blob : fdt_bytes f -> build f = Ok blob -> Forall byte blob.
Proof.
  intros [H1 H2] (tok & Ht & (rs & Hr & (hd & Hh & <-%Ok_inj)%bind_Ok)%bind_Ok)%bind_Ok.
  cbn [add_struct f_struct f_strings]. unfold pack_I in Ht. eauto 8 with blob.
Qed.

(** [gen_dtb.py] always succeeds on these boot arguments; the blob is bytes,
    it takes less than 6 KiB, and it validates. *)
Lemma gen_dtb_main_ok mem bootargs start stop : ascii_name bootargs = true -> len (codes bootargs) <= 1000 ->
  exists blob, gen_dtb_main mem bootargs start stop = Ok blob /\ Forall byte blob /\ len blob < 6000 /\
    parse_and_validate blob = Ok {| max_depth := 4;
      prop_count := if bool_decide (is_Some start) && bool_decide (is_Some stop) then 36 else 34;
      totalsize := len blob |}.
Proof.
  intros Ha Hl. pose proof (core_calls_cost mem 1000000 1843200 bootargs start stop) as Hcost.
  pose proof (core_calls_ok mem 1000000 1843200 bootargs start stop Ha) as Hok.
  destruct (build_calls _ Hok ltac:(lia)) as (f & E & _ & Hb & Hp).
  destruct (do_calls_ok _ new_fdt Hok (Forall_nil_2 _) ltac:(change (size new_fdt) with 0; lia)) as (g & E' & _ & Hz).
  rewrite E in E'. apply Ok_inj in E' as <-. change (size new_fdt) with 0 in Hz. unfold size in Hz.
  rewrite core_calls_nesting in Hp.
  assert (Hby : Forall byte (blob_of (f_struct f ++ be 4 FDT_END) (f_strings f))).
  { apply (build_bytes f); [|exact Hb]. eapply do_calls_bytes; [|exact E]. split; constructor. }
  assert (Hlen : len (blob_of (f_struct f ++ be 4 FDT_END) (f_strings f)) < 6000).
  { rewrite len_blob, len_app, len_be_4. lia. }
  revert Hb Hp Hby Hlen. generalize (blob_of (f_struct f ++ be 4 FDT_END) (f_strings f)). intros blob Hb Hp Hby Hlen.
  assert (Hp' : parse_and_validate blob = Ok {| max_depth := 4;
    prop_count := if bool_decide (is_Some start) && bool_decide (is_Some stop) then 36 else 34; totalsize := len blob |}).
  { rewrite Hp. by destruct (bool_decide (is_Some start) && bool_decide (is_Some stop)). }
  exists blob. split; [|exact (conj Hby (conj Hlen Hp'))]. unfold gen_dtb_main, build_this_core_dtb. rewrite E. cbn [mbind result_bind].
  rewrite Hb. cbn [mbind result_bind]. by rewrite Hp'.
Qed.

(** ** Regions of an image *)

Definition region : Type := (Z * list Z)%type.

(** The regions, one after the other, within an image that ends at [hi]. *)
Fixpoint in_order (lo : Z) (rs : list region) (hi : Z) : Prop :=
  match rs with
  | [] => lo <= hi
  | (off, blob) :: rs' => lo <= off /\ in_order (off + len blob) rs' hi
  end.

Fixpoint put_all (rs : list region) (buf : list Z) : list Z :=
  match rs with [] => buf | (off, blob) :: rs' => put_all rs' (put off blob buf) end.

(** The image holds every region where it was placed, and zeros elsewhere. *)
Definition holds (rs : list region) (img : list Z) : Prop :=
  (forall off blob, In (off, blob) rs -> slice img off (off + len blob) = blob) /\
  (forall a, 0 <= a < len img -> (forall off blob, In (off, blob) rs -> ~ off <= a < off + len blob) -> nthZ 0 img a = 0).

Lemma len_put off blob buf : 0 <= off -> off + len blob <= len buf -> len (put off blob buf) = len buf.
Proof. unfold put, len. intros. by rewrite slice_set_length. Qed.

Lemma nthZ_put off blob buf a : 0 <= off -> off + len blob <= len buf -> 0 <= a ->
  nthZ 0 (put off blob buf) a = if (off <=? a) && (a <? off + len blob) then nthZ 0 blob (a - off) else nthZ 0 buf a.
Proof. unfold put, len. intros. by rewrite nthZ_slice_set. Qed.

Lemma in_order_bounds rs : forall lo hi, in_order lo rs hi ->
  lo <= hi /\ forall off blob, In (off, blob) rs -> lo <= off /\ off + len blob <= hi.
Proof.
  induction rs as [|[off blob] rs IH]; intros lo hi; cbn [in_order]; [by intros|].
  intros [H1 H2]. apply IH in H2 as [H2 H3]. pose proof (len_nonneg blob). split; [lia|].
  intros off' blob' [[= <- <-]|Hin]; [lia|]. apply H3 in Hin. lia.
Qed.

Lemma put_all_spec rs : forall lo buf, 0 <= lo -> in_order lo rs (len buf) ->
  len (put_all rs buf) = len buf /\
  (forall off blob i, In (off, blob) rs -> 0 <= i < len blob -> nthZ 0 (put_all rs buf) (off + i) = nthZ 0 blob i) /\
  (forall a, 0 <= a -> (forall off blob, In (off, blob) rs -> ~ off <= a < off + len blob) ->
     nthZ 0 (put_all rs buf) a = nthZ 0 buf a).
Proof.
  induction rs as [|[off blob] rs IH]; intros lo buf Hlo Hr; [by split|]. cbn [in_order put_all] in *.
  destruct Hr as [H1 H2]. pose proof (in_order_bounds _ _ _ H2) as [H3 H4]. pose proof (len_nonneg blob).
  assert (Hl : len (put off blob buf) = len buf) by (apply len_put; lia).
  destruct (IH (off + len blob) (put off blob buf)) as (I1 & I2 & I3); [lia|by rewrite Hl|]. split; [by rewrite I1|]. split.
  - intros off' blob' i [[= <- <-]|Hin] Hi; [|by apply I2].
    rewrite I3 by (lia || (intros off' blob' Hin; apply H4 in Hin; lia)). rewrite nthZ_put by lia.
    destruct (Z.leb_spec off (off + i)); [|lia]. destruct (Z.ltb_spec (off + i) (off + len blob)); [|lia].
    cbn [andb]. f_equal. lia.
  - intros a Ha Hout. rewrite I3 by (done || (intros ? ? ?; apply Hout; by right)). rewrite nthZ_put by lia.
    specialize (Hout off blob (or_introl eq_refl)).
    destruct (Z.leb_spec off a), (Z.ltb_spec a (off + len blob)); cbn [andb]; (done || lia).
Qed.

Lemma slice_is img off blob : 0 <= off -> off + len blob <= len img ->
  (forall i, 0 <= i < len blob -> nthZ 0 img (off + i) = nthZ 0 blob i) -> slice img off (off + len blob) = blob.
Proof.
  unfold len. intros H1 H2 H. apply (nth_ext _ _ 0 0); [apply Nat2Z.inj; rewrite slice_length; lia|].
  intros n Hn. assert (Hn' : (n < List.length blob)%nat).
  { apply Nat2Z.inj_lt in Hn. rewrite slice_length in Hn by lia. lia. }
  specialize (H (Z.of_nat n) ltac:(lia)). rewrite <- (nthZ_slice 0 img off (off + Z.of_nat (List.length blob))) in H by lia.
  unfold nthZ in H. by rewrite Nat2Z.id in H.
Qed.

(** Placing regions in order in a zeroed image gives an image that holds
    them. *)
Lemma put_all_holds rs size : 0 <= size -> in_order 0 rs size ->
  let img := put_all rs (replicate (Z.to_nat size) 0) in len img = size /\ holds rs img.
Proof.
  intros Hs Hr img. assert (Hz : len (replicate (Z.to_nat size) 0) = size) by (unfold len; rewrite length_replicate; lia).
  destruct (put_all_spec rs 0 (replicate (Z.to_nat size) 0)) as (I1 & I2 & I3); [lia|by rewrite Hz|].
  fold img in I1, I2, I3. rewrite Hz in I1. pose proof (in_order_bounds _ _ _ Hr) as [_ Hb]. split; [done|]. split.
  - intros off blob Hin. apply Hb in Hin as ?. apply slice_is; [lia..|]. intros i Hi. by apply I2.
  - intros a Ha Hout. rewrite I3 by (done || lia). apply nthZ_zeros.
Qed.

Lemma put_all_bytes rs : Forall (fun r => Forall byte (snd r)) rs -> forall buf, Forall byte buf -> Forall byte (put_all rs buf).
Proof.
  induction 1 as [|[off blob] rs Hb _ IH]; intros buf Hbuf; [done|]. cbn [put_all]. apply IH.
  unfold put, slice_set. apply Forall_app_2; [by apply Forall_take|]. apply Forall_app_2; [done|by apply Forall_drop].
Qed.

(** ** The checks on the kernel *)

(** [check_kernel] passes exactly for an Image header that names the load
    address, and files that leave the next region alone. *)
Lemma check_kernel_spec repr_bytes kernel initramfs : check_kernel repr_bytes kernel initramfs = Ok tt <->
  16 <= len kernel /\ gather 8 8 (fun i => nthZ 0 kernel (8 + i)) = KERNEL_LOAD_ADDR /\
  slice kernel 0x30 0x38 = IMAGE_MAGIC /\
  KERNEL_LOAD_ADDR + len kernel <= INITRD_ADDR /\ INITRD_ADDR + len initramfs <= DTB_ADDR_KERNEL.
Proof.
  unfold check_kernel, unpack_from_Q. cbv zeta. change (0x08 + 8) with 16.
  destruct (Z.ltb_spec (len kernel) 16); [split; [done|lia]|]. cbn [mbind result_bind].
  change (0x08) with 8. generalize (gather 8 8 (fun i => nthZ 0 kernel (8 + i))). intros off.
  destruct (decide (slice kernel 0x30 0x38 = IMAGE_MAGIC)) as [E|E].
  2:{ rewrite bool_decide_eq_false_2 by done. split; [done|]. by intros (_ & _ & ? & _). }
  rewrite bool_decide_eq_true_2 by done. cbn [negb].
  destruct (Z.eqb_spec off KERNEL_LOAD_ADDR); cbn [negb]; [|split; [done|]; by intros (_ & ? & _)].
  destruct (Z.ltb_spec INITRD_ADDR (KERNEL_LOAD_ADDR + len kernel)); [split; [done|lia]|].
  destruct (Z.ltb_spec DTB_ADDR_KERNEL (INITRD_ADDR + len initramfs)); [split; [done|lia]|].
  by split.
Qed.

(** ** The converter's files, and the overlay *)

Lemma overlay_image dtb : forall pre mid post, len mid = len dtb ->
  overlay (write_image (pre ++ mid ++ post)) (len pre) dtb = write_image (pre ++ dtb ++ post).
Proof.
  induction dtb as [|b dtb IH]; intros pre mid post Hl.
  { destruct mid; [done|]. unfold len in Hl. cbn in Hl. lia. }
  destruct mid as [|m mid]; [unfold len in Hl; cbn in Hl; lia|]. cbn [overlay].
  replace (updZ _ _ _) with (write_image ((pre ++ [b]) ++ mid ++ post)).
  2:{ unfold write_image, mem_text. rewrite <- (Z.add_0_r (len pre)), <- app_assoc, !map_app.
      rewrite updZ_app by (done || (unfold len; by rewrite length_map)). done. }
  replace (len pre + 1) with (len (pre ++ [b])) by (rewrite len_app; done).
  rewrite IH by (unfold len in *; cbn in Hl; lia). by rewrite <- app_assoc.
Qed.

(** Writing the text of each byte over the lines is placing the bytes. *)
Lemma overlay_put dmem addr dtb : 0 <= addr -> addr + len dtb <= len dmem ->
  overlay_dtb_into_dmem (write_image dmem) dtb addr = Ok (write_image (put addr dtb dmem)).
Proof.
  intros Ha Hl. unfold overlay_dtb_into_dmem, write_image at 1 2, mem_text. rewrite length_map. fold (len dmem).
  rewrite Z.gtb_ltb. destruct (Z.ltb_spec (len dmem) (addr + len dtb)); [lia|]. f_equal.
  unfold put, len in *. rewrite slice_set_in by lia.
  rewrite <- (overlay_image dtb (take (Z.to_nat addr) dmem) (take (List.length dtb) (drop (Z.to_nat addr) dmem))).
  - f_equal; [f_equal|unfold len; rewrite length_take; lia].
    replace (Z.to_nat (addr + Z.of_nat (List.length dtb))) with (Z.to_nat addr + List.length dtb)%nat by lia.
    rewrite <- drop_drop, take_drop, take_drop. done.
  - unfold len. rewrite length_take, length_drop. lia.
Qed.

(** ** The two builds *)

Section Builds.
(** The tools of a toolchain that works: nothing fails to compile, the
    sections are bytes, addresses and symbols are not negative. *)
Context (gcc : string -> Z) (objcopy : string -> process (list Z)) (objdump_h nm_out : process (list string)).
Context (elf_path : string) (report : string -> string) (repr_bytes : list Z -> string).
Context (Hgcc : forall what, gcc what = 0).
Context (Hbytes : forall s, Forall byte (output (objcopy s))).
Context (Hvma : forall s v, get_section_vma objdump_h s = Ok (Some v) -> 0 <= v).
Context (Hsym : forall s v, get_symbol nm_out elf_path s = Ok v -> 0 <= v).

Lemma run_gcc_ok what : run_gcc gcc report what = Ok tt.
Proof. unfold run_gcc. by rewrite Hgcc. Qed.

Lemma gcc_ok srcs : mapR (run_gcc gcc report) srcs = Ok (map (fun _ => tt) srcs).
Proof. induction srcs as [|s srcs IH]; [done|]. cbn [mapR map]. by rewrite run_gcc_ok, IH. Qed.

Lemma extract_bytes s raw : extract_raw objcopy s = Ok raw -> Forall byte raw.
Proof. unfold extract_raw. destruct (negb _); [done|]. intros <-%Ok_inj. apply Hbytes. Qed.

Lemma place_blob_wf w fl size off blob buf buf' : 0 <= off -> Forall byte blob -> Forall byte buf -> len buf = size ->
  place_blob w fl size off blob buf = Ok buf' -> Forall byte buf' /\ len buf' = size.
Proof.
  intros Ho Hb Hbuf Hl. unfold place_blob. cbv zeta. fold (len blob). rewrite Z.gtb_ltb.
  destruct (Z.ltb_spec size (off + len blob)); [done|]. intros <-%Ok_inj. fold (put off blob buf).
  split; [apply (put_all_bytes [(off, blob)]); [by repeat constructor|done]|]. rewrite len_put; lia.
Qed.

Lemma place_sections_wf size sections : forall buf img, Forall byte buf -> len buf = size ->
  place_sections objcopy objdump_h size sections buf = Ok img -> Forall byte img /\ len img = size.
Proof.
  induction sections as [|s sections IH]; intros buf img Hb Hl; cbn [place_sections]; [by intros <-%Ok_inj|].
  intros (raw & Hr & H)%bind_Ok. apply extract_bytes in Hr. destruct raw as [|x raw]; [by apply (IH buf)|].
  apply bind_Ok in H as (vma & Hv & H). destruct vma as [v|]; [|done]. apply Hvma in Hv.
  apply bind_Ok in H as (buf' & Hp & H). apply place_blob_wf in Hp as [? ?]; eauto.
Qed.

Lemma build_imem_wf size sections img : build_imem objcopy objdump_h size sections = Ok img ->
  Forall byte img /\ len img = size.
Proof.
  unfold build_imem. destruct (Z.ltb_spec size 0); [done|]. apply place_sections_wf; [apply zeros_bytes|].
  unfold len. rewrite length_replicate. lia.
Qed.

Lemma symbol_or_zero (raw : list Z) name off :
  match raw with [] => Ok 0 | _ => get_symbol nm_out elf_path name end = Ok off -> 0 <= off.
Proof. destruct raw; [by intros <-%Ok_inj|apply Hsym]. Qed.

Lemma build_dmem_wf size img : build_dmem objcopy nm_out elf_path size = Ok img -> Forall byte img /\ len img = size.
Proof.
  intros (ro & Hro%extract_bytes & (da & Hda%extract_bytes & (roff & Hr%symbol_or_zero & (doff & Hd%symbol_or_zero & H)%bind_Ok)%bind_Ok)%bind_Ok)%bind_Ok.
  destruct (Z.ltb_spec size 0) as [|Hs]; [done|]. cbn [mbind result_bind] in H. apply bind_Ok in H as (buf & H1 & H2).
  apply place_blob_wf in H1 as [? ?]; [|done|done|apply zeros_bytes|unfold len; rewrite length_replicate; lia].
  by apply place_blob_wf in H2.
Qed.

(** The converter's files, read back, are the converter's memories. *)
Lemma build_firmware_ok imem dmem :
  build_imem objcopy objdump_h FW_LINK_SIZE [".text.boot"] = Ok imem ->
  build_dmem objcopy nm_out elf_path FW_LINK_SIZE = Ok dmem ->
  build_firmware gcc objcopy objdump_h nm_out elf_path report = Ok (imem, dmem).
Proof.
  intros Hi Hd. destruct (build_imem_wf _ _ _ Hi) as [Bi Li]. destruct (build_dmem_wf _ _ Hd) as [Bd Ld].
  unfold build_firmware. rewrite gcc_ok. cbn [mbind result_bind]. rewrite run_gcc_ok.
    cbn [mbind result_bind].
  unfold elf2mem_main. rewrite Hi. cbn [mbind result_bind]. rewrite Hd. cbn [mbind result_bind run_tool].
  pose proof (read_mem_exact imem Bi) as Ei. rewrite Li in Ei. rewrite Ei. cbn [mbind result_bind].
  pose proof (read_mem_exact dmem Bd) as Ed. rewrite Ld in Ed. by rewrite Ed.
Qed.

(** [C35] The SBI firmware image. With a working toolchain, and sections that
    fit, the build succeeds; the two files read back as the converter's
    instruction memory and as its data memory with a device tree laid over
    the bytes from 0x4000 on, the tree is valid, and every byte of the data
    memory outside it is the converter's. *)
Theorem sbi_image_layout imem dmem :
  build_imem objcopy objdump_h MEM_SIZE [".text.boot"; ".text.payload"] = Ok imem ->
  build_dmem objcopy nm_out elf_path MEM_SIZE = Ok dmem ->
  exists imem_mem dmem_mem dtb dmem',
    build_sbi_firmware gcc objcopy objdump_h nm_out elf_path report = Ok (imem_mem, dmem_mem) /\
    read_mem imem_mem MEM_SIZE = Ok imem /\ read_mem dmem_mem MEM_SIZE = Ok dmem' /\
    slice dmem' DTB_ADDR (DTB_ADDR + len dtb) = dtb /\
    parse_and_validate dtb = Ok {| max_depth := 4; prop_count := 34; totalsize := len dtb |} /\
    (forall a, 0 <= a -> ~ DTB_ADDR <= a < DTB_ADDR + len dtb -> nthZ 0 dmem' a = nthZ 0 dmem a).
Proof.
  intros Hi Hd. destruct (build_imem_wf _ _ _ Hi) as [Bi Li]. destruct (build_dmem_wf _ _ Hd) as [Bd Ld].
  destruct (gen_dtb_main_ok MEM_SIZE default_bootargs None None) as (dtb & Hg & Bt & Lt & Hp); [done|by vm_compute|].
  assert (Hfit : DTB_ADDR + len dtb <= len dmem) by (rewrite Ld; unfold DTB_ADDR, MEM_SIZE; lia).
  assert (Bp : Forall byte (put DTB_ADDR dtb dmem)) by (apply (put_all_bytes [(DTB_ADDR, dtb)]); [by repeat constructor|done]).
  exists (write_image imem), (write_image (put DTB_ADDR dtb dmem)), dtb, (put DTB_ADDR dtb dmem). split.
  { unfold build_sbi_firmware. rewrite gcc_ok. cbn [mbind result_bind]. rewrite run_gcc_ok.
    cbn [mbind result_bind].
    unfold elf2mem_main. rewrite Hi. cbn [mbind result_bind]. rewrite Hd. cbn [mbind result_bind run_tool].
    rewrite Hg. cbn [mbind result_bind run_tool]. by rewrite overlay_put. }
  split; [rewrite <- Li; by apply read_mem_exact|]. split.
  { rewrite <- Ld, <- (len_put DTB_ADDR dtb dmem) by done. by apply read_mem_exact. }
  destruct (put_all_spec [(DTB_ADDR, dtb)] 0 dmem) as (H1 & H2 & H3); [done|by split|]. cbn [put_all] in *. split.
  - apply slice_is; [done|by rewrite H1|]. intros i Hi'. apply (H2 DTB_ADDR dtb); [by left|done].
  - split; [exact Hp|]. intros a Ha Hout. apply H3; [done|]. by intros off blob [[= <- <-]|[]].
Qed.

(** [C39] The Linux boot image. For a valid Image header, files that leave each
    other room, a firmware that fits and a memory large enough, the build
    succeeds: the instruction memory holds the firmware at 0 and the kernel
    at its load address; the data memory holds the firmware's data, the
    same kernel, the initramfs and a valid device tree with the initrd's
    two properties, each intact at its own address; everything else is
    zero, both files read back as the images, and the limit is the least
    multiple of 4096 past the tree. *)
Theorem linux_image_layout kernel initramfs mem_size fw_imem fw_dmem :
  Forall byte kernel -> Forall byte initramfs -> check_kernel repr_bytes kernel initramfs = Ok tt ->
  build_imem objcopy objdump_h FW_LINK_SIZE [".text.boot"] = Ok fw_imem ->
  build_dmem objcopy nm_out elf_path FW_LINK_SIZE = Ok fw_dmem ->
  DTB_ADDR_KERNEL + 6000 <= mem_size ->
  exists imem dmem dtb limit,
    build_linux_boot gcc objcopy objdump_h nm_out elf_path report repr_bytes kernel initramfs mem_size =
      Ok (write_image imem, write_image dmem, limit) /\
    read_mem (write_image imem) limit = Ok imem /\ read_mem (write_image dmem) limit = Ok dmem /\
    holds [(0, fw_imem); (KERNEL_LOAD_ADDR, kernel)] imem /\
    holds [(0, fw_dmem); (KERNEL_LOAD_ADDR, kernel); (INITRD_ADDR, initramfs); (DTB_ADDR_KERNEL, dtb)] dmem /\
    parse_and_validate dtb = Ok {| max_depth := 4; prop_count := 36; totalsize := len dtb |} /\
    limit `mod` 4096 = 0 /\ DTB_ADDR_KERNEL + len dtb <= limit < DTB_ADDR_KERNEL + len dtb + 4096.
Proof.
  intros Bk Bf Hck Hi Hd Hmem. destruct (build_imem_wf _ _ _ Hi) as [Bi Li]. destruct (build_dmem_wf _ _ Hd) as [Bd Ld].
  destruct (proj1 (check_kernel_spec repr_bytes kernel initramfs) Hck) as (_ & _ & _ & F1 & F2).
  destruct (gen_dtb_main_ok mem_size linux_bootargs (Some INITRD_ADDR) (Some (INITRD_ADDR + len initramfs)))
    as (dtb & Hg & Bt & Lt & Hp); [done|by vm_compute|].
  set (limit := ((DTB_ADDR_KERNEL + len dtb + 4095) `div` 4096) * 4096).
  assert (Hlim : limit `mod` 4096 = 0 /\ DTB_ADDR_KERNEL + len dtb <= limit < DTB_ADDR_KERNEL + len dtb + 4096).
  { split; [by apply Z.mod_mul|]. subst limit. pose proof (Z.div_mod (DTB_ADDR_KERNEL + len dtb + 4095) 4096 ltac:(done)).
    pose proof (Z.mod_pos_bound (DTB_ADDR_KERNEL + len dtb + 4095) 4096 ltac:(done)). lia. }
  pose proof (len_nonneg dtb). pose proof (len_nonneg initramfs).
  unfold FW_LINK_SIZE, KERNEL_LOAD_ADDR, INITRD_ADDR, DTB_ADDR_KERNEL in *.
  destruct (put_all_holds [(0, fw_imem); (0x200000, kernel)] limit) as [L1 H1]; [lia|cbn; lia|].
  destruct (put_all_holds [(0, fw_dmem); (0x200000, kernel); (0x1000000, initramfs); (0x1500000, dtb)] limit)
    as [L2 H2]; [lia|cbn; lia|].
  eexists (put_all [(0, fw_imem); (0x200000, kernel)] _),
    (put_all [(0, fw_dmem); (0x200000, kernel); (0x1000000, initramfs); (0x1500000, dtb)] _), dtb, limit. split.
  { unfold build_linux_boot. rewrite Hck, (build_firmware_ok _ _ Hi Hd). cbn [mbind result_bind].
    unfold INITRD_ADDR, DTB_ADDR_KERNEL. rewrite Hg. cbn [mbind result_bind run_tool]. rewrite Z.gtb_ltb.
    destruct (Z.ltb_spec mem_size (0x1500000 + len dtb)); [lia|]. reflexivity. }
  split; [rewrite <- L1 at 1; apply read_mem_exact, put_all_bytes; [by repeat constructor|apply zeros_bytes]|].
  split; [rewrite <- L2 at 1; apply read_mem_exact, put_all_bytes; [by repeat constructor|apply zeros_bytes]|].
  split; [exact H1|]. split; [exact H2|]. split; [exact Hp|exact Hlim].
Qed.
End Builds.

(** ** A firmware and a kernel *)

Definition fw_objcopy (s : string) : process (list Z) :=
  {| returncode := 0; stderr := "";
     output := if String.eqb s ".text.boot" then [0x13; 0; 0; 0]
               else if String.eqb s ".text.payload" then [0x6F; 0; 0; 0]
               else if String.eqb s ".data" then [7; 9] else [] |}.
Definition fw_objdump : process (list string) :=
  {| returncode := 0; stderr := "";
     output := ["  0 .text.boot    00000004  00000000  00000000  00001000  2**2";
                "  1 .text.payload 00000004  00002000  00002000  00003000  2**2"] |}.
Definition fw_nm : process (list string) :=
  {| returncode := 0; stderr := ""; output := ["00000100 D _data_start"] |}.

Definition is_byte (b : Z) : bool := (0 <=? b) && (b <? 256).

Lemma forallb_bytes l : forallb is_byte l = true -> Forall byte l.
Proof.
  rewrite forallb_forall. intros H. apply List.Forall_forall. intros b Hb.
  apply H in Hb. unfold is_byte in Hb. unfold byte. lia.
Qed.

Lemma fw_bytes s : Forall byte (output (fw_objcopy s)).
Proof.
  unfold fw_objcopy. cbn [output].
  repeat match goal with |- context [if ?b then _ else _] => destruct b end; by apply forallb_bytes.
Qed.

Lemma fw_vma s v : get_section_vma fw_objdump s = Ok (Some v) -> 0 <= v.
Proof. by apply find_vma_nonneg. Qed.

Lemma fw_sym s v : get_symbol fw_nm "fw.elf" s = Ok v -> 0 <= v.
Proof.
  unfold get_symbol, fw_nm. cbn [returncode output Z.eqb negb find_symbol].
  change (split_ws "00000100 D _data_start") with ["00000100"; "D"; "_data_start"]. cbv iota.
  destruct (String.eqb _ s); [|done]. change (int_base16 "00000100") with (Ok (A := Z) 0x100). by intros <-%Ok_inj.
Qed.

Definition fw_imem (sections : list region) : list Z := put_all sections (replicate (Z.to_nat MEM_SIZE) 0).
Definition fw_dmem : list Z := put_all [(0x100, [7; 9])] (replicate (Z.to_nat MEM_SIZE) 0).

Lemma fw_imem_built : build_imem fw_objcopy fw_objdump MEM_SIZE [".text.boot"] = Ok (fw_imem [(0, [0x13; 0; 0; 0])]).
Proof. vm_cast_no_check (eq_refl (Ok (fw_imem [(0, [0x13; 0; 0; 0])]))). Qed.

Lemma fw_imem_payload_built : build_imem fw_objcopy fw_objdump MEM_SIZE [".text.boot"; ".text.payload"] =
  Ok (fw_imem [(0, [0x13; 0; 0; 0]); (0x2000, [0x6F; 0; 0; 0])]).
Proof. vm_cast_no_check (eq_refl (Ok (fw_imem [(0, [0x13; 0; 0; 0]); (0x2000, [0x6F; 0; 0; 0])]))). Qed.

Lemma fw_dmem_built : build_dmem fw_objcopy fw_nm "fw.elf" MEM_SIZE = Ok fw_dmem.
Proof. vm_cast_no_check (eq_refl (Ok fw_dmem)). Qed.

Lemma sbi_image_layout_witness :
  exists imem_mem dmem_mem dtb dmem',
    build_sbi_firmware (fun _ => 0) fw_objcopy fw_objdump fw_nm "fw.elf" id = Ok (imem_mem, dmem_mem) /\
    read_mem imem_mem MEM_SIZE = Ok (fw_imem [(0, [0x13; 0; 0; 0]); (0x2000, [0x6F; 0; 0; 0])]) /\
    read_mem dmem_mem MEM_SIZE = Ok dmem' /\
    slice dmem' DTB_ADDR (DTB_ADDR + len dtb) = dtb /\
    parse_and_validate dtb = Ok {| max_depth := 4; prop_count := 34; totalsize := len dtb |} /\
    (forall a, 0 <= a -> ~ DTB_ADDR <= a < DTB_ADDR + len dtb -> nthZ 0 dmem' a = nthZ 0 fw_dmem a).
Proof.
  apply (sbi_image_layout (fun _ => 0) fw_objcopy fw_objdump fw_nm "fw.elf" id (fun _ => eq_refl) fw_bytes fw_vma fw_sym).
  - exact fw_imem_payload_built.
  - exact fw_dmem_built.
Defined.

(** The smallest Image: a header with its text offset and magic. *)
Definition demo_kernel : list Z :=
  replicate 8 0 ++ [0; 0; 0x20; 0; 0; 0; 0; 0] ++ replicate 32 0 ++ IMAGE_MAGIC.

Lemma linux_image_layout_witness :
  exists imem dmem dtb limit,
    build_linux_boot (fun _ => 0) fw_objcopy fw_objdump fw_nm "fw.elf" id (fun _ => "") demo_kernel [1; 2; 3] 0x4000000 =
      Ok (write_image imem, write_image dmem, limit) /\
    read_mem (write_image imem) limit = Ok imem /\ read_mem (write_image dmem) limit = Ok dmem /\
    holds [(0, fw_imem [(0, [0x13; 0; 0; 0])]); (KERNEL_LOAD_ADDR, demo_kernel)] imem /\
    holds [(0, fw_dmem); (KERNEL_LOAD_ADDR, demo_kernel); (INITRD_ADDR, [1; 2; 3]); (DTB_ADDR_KERNEL, dtb)] dmem /\
    parse_and_validate dtb = Ok {| max_depth := 4; prop_count := 36; totalsize := len dtb |} /\
    limit `mod` 4096 = 0 /\ DTB_ADDR_KERNEL + len dtb <= limit < DTB_ADDR_KERNEL + len dtb + 4096.
Proof.
  apply (linux_image_layout (fun _ => 0) fw_objcopy fw_objdump fw_nm "fw.elf" id (fun _ => "") (fun _ => eq_refl)
           fw_bytes fw_vma fw_sym demo_kernel [1; 2; 3]).
  - by apply forallb_bytes.
  - by apply forallb_bytes.
  - vm_compute. reflexivity.
  - exact fw_imem_built.
  - exact fw_dmem_built.
  - vm_compute. discriminate.
Defined.
