(* ===== verification/Coverage.v ===== *)
(** * Functional coverage report

    [sim/tools/coverage_report.py]: the coverage file of each directed test is
    added up over the suite and the report lists what was never exercised.
    The Verilog compiler and the simulation are parameters; [dump_coverage] is
    the task of the design that writes the file. *)

From S2P Require Import Prelude Words PyStr TextFacts AsmText MemImage Dtb.
#[local] Open Scope string_scope.
#[local] Open Scope Z_scope.
#[local] Open Scope list_scope.

Definition ALUCTL_NAMES : list (Z * string) :=
  [(0, "ADD"); (1, "SUB"); (2, "SLL"); (3, "SLT"); (4, "SLTU"); (5, "XOR"); (6, "SRL"); (7, "SRA");
   (8, "OR"); (9, "AND"); (10, "BEQ"); (11, "BNE"); (12, "BLT"); (13, "BGE"); (14, "BLE (custom)");
   (16, "BGT (custom)"); (17, "BLTU"); (18, "BGEU"); (19, "MUL"); (20, "MULH"); (21, "CTZ (custom)");
   (22, "MULHSU"); (23, "MULHU"); (24, "DIV"); (25, "DIVU"); (26, "REM"); (27, "REMU"); (31, "ILLEGAL")].
Definition BRANCH_F3_NAMES : list string := ["beq"; "bne"; "blt"; "bge"; "ble"; "bgt"; "bltu"; "bgeu"].

(** ** Definitions: the totals *)

Record totals := mkTotals {
  total_alu : list Z;
  total_branch_taken : list Z;
  total_branch_not_taken : list Z;
  total_stall : Z;
  total_flush : Z;
  total_div : Z;
  total_jump : Z
}.
Definition no_totals : totals := mkTotals (replicate 32 0) (replicate 8 0) (replicate 8 0) 0 0 0 0.

(** [parts[k]] of the words of a line. *)
Definition part (parts : list string) (k : nat) : result string :=
  match nth_error parts k with Some p => Ok p | None => Raise (IndexError "list index out of range") end.
Definition int_part (parts : list string) (k : nat) : result Z := p ← part parts k; int_base10 p.

(** [l[int(parts[1])] += int(parts[2])]: the element is read before the
    count, and a negative index counts from the end. *)
Definition add_at (l : list Z) (parts : list string) : result (list Z) :=
  i ← int_part parts 1;
  let j := if i <? 0 then i + len l else i in
  if (0 <=? j) && (j <? len l) then
    n ← int_part parts 2;
    Ok (updZ l j (nthZ 0 l j + n))
  else Raise (IndexError "list index out of range").

Definition add_line (t : totals) (line : string) : result totals :=
  let '(mkTotals a bt bn s f d j) := t in
  let parts := split_ws line in
  kind ← part parts 0;
  if String.eqb kind "alu_ctl" then a ← add_at a parts; Ok (mkTotals a bt bn s f d j)
  else if String.eqb kind "branch_taken" then bt ← add_at bt parts; Ok (mkTotals a bt bn s f d j)
  else if String.eqb kind "branch_not_taken" then bn ← add_at bn parts; Ok (mkTotals a bt bn s f d j)
  else if String.eqb kind "stall_cycles" then n ← int_part parts 1; Ok (mkTotals a bt bn (s + n) f d j)
  else if String.eqb kind "flush_cycles" then n ← int_part parts 1; Ok (mkTotals a bt bn s (f + n) d j)
  else if String.eqb kind "div_cycles" then n ← int_part parts 1; Ok (mkTotals a bt bn s f (d + n) j)
  else if String.eqb kind "jump_cycles" then n ← int_part parts 1; Ok (mkTotals a bt bn s f d (j + n))
  else Ok t.

Fixpoint add_lines (t : totals) (lines : list string) : result totals :=
  match lines with [] => Ok t | line :: lines' => t ← add_line t line; add_lines t lines' end.

(** ** Definitions: the suite *)

(** [os.path.splitext(os.path.basename(tb))[0]] for the paths of the glob. *)
Fixpoint basename_from (s cur : string) : string :=
  match s with
  | "" => cur
  | String c s' => if Ascii.eqb c "/" then basename_from s' "" else basename_from s' (cur +:+ String c "")
  end.
Definition test_name (tb : string) : string :=
  let base := basename_from tb "" in substring 0 (String.length base - 2) base.

(** [sorted] on texts. *)
Fixpoint insert_text (x : string) (l : list string) : list string :=
  match l with [] => [x] | y :: l' => if String.leb x y then x :: l else y :: insert_text x l' end.
Definition sorted_texts (l : list string) : list string := fold_right insert_text [] l.

Section Suite.
(** The compiler on a testbench, and the coverage file a simulation of it
    writes, if it gets that far. *)
Context (iverilog : string -> process unit) (vvp : string -> option (list string)).

(** The loop over the tests; [file] is [coverage.txt] as it lies in the
    working directory. *)
Fixpoint run_suite (tb_files : list string) (file : option (list string)) (t : totals) : result (list string * totals) :=
  match tb_files with
  | [] => Ok ([], t)
  | tb :: rest =>
      let name := test_name tb in
      let r := iverilog tb in
      if negb (returncode r =? 0) then
        '(out, t) ← run_suite rest file t;
        Ok (("COMPILE FAIL " +:+ name +:+ ": " +:+ substring 0 300 (strip (stderr r))) :: out, t)
      else
        match (match vvp tb with Some written => Some written | None => file end) with
        | None =>
            '(out, t) ← run_suite rest None t;
            Ok (("WARN  " +:+ name +:+ ": no coverage.txt produced") :: out, t)
        | Some lines =>
            t ← add_lines t lines;
            run_suite rest None t
        end
  end.

(** ** Definitions: the report *)

Definition alu_line (t : totals) (entry : Z * string) : string :=
  let '(code, name) := entry in
  let cnt := nthZ 0 (total_alu t) code in
  let marker := if (cnt >? 0) || (code =? 31) then "  " else "!!" in
  "  " +:+ marker +:+ " " +:+ pad_left 2 (fmt_d code) +:+ " " +:+ pad_right 16 name +:+ " " +:+ pad_left 6 (fmt_d cnt) +:+ " cycles".

Definition uncovered (t : totals) : list string :=
  map snd (List.filter (fun '(code, _) => (nthZ 0 (total_alu t) code =? 0) && negb (code =? 31)) ALUCTL_NAMES).

Definition branch_line (t : totals) (f3 : Z) : string :=
  let tk := nthZ 0 (total_branch_taken t) f3 in
  let nt := nthZ 0 (total_branch_not_taken t) f3 in
  let marker := if (tk =? 0) || (nt =? 0) then "!!" else "  " in
  "  " +:+ marker +:+ " " +:+ pad_right 5 (nthZ "" BRANCH_F3_NAMES f3) +:+ " taken=" +:+ pad_left 5 (fmt_d tk)
    +:+ "  not-taken=" +:+ pad_left 5 (fmt_d nt).

Definition branch_warnings (t : totals) (f3 : Z) : list string :=
  let name := nthZ "" BRANCH_F3_NAMES f3 in
  (if nthZ 0 (total_branch_taken t) f3 =? 0 then ["!! " +:+ name +:+ " never taken"] else []) ++
  (if nthZ 0 (total_branch_not_taken t) f3 =? 0 then ["!! " +:+ name +:+ " never not-taken"] else []).

Definition report (n_tests : Z) (t : totals) : list string :=
  [""; "=== ALUCtl coverage (across " +:+ fmt_d n_tests +:+ " directed tests) ==="]
  ++ map (alu_line t) ALUCTL_NAMES
  ++ [""; "=== branch outcome coverage (each type, taken vs. not-taken) ==="]
  ++ map (branch_line t) (range 8)
  ++ [""; "=== hazard/control-flow event coverage ===";
      "  load-use stall cycles (Hazard.v):     " +:+ fmt_d (total_stall t);
      "  load-use flush/bubble cycles:          " +:+ fmt_d (total_flush t);
      "  multi-cycle divide stall cycles:       " +:+ fmt_d (total_div t);
      "  jal/jalr cycles in EX:                 " +:+ fmt_d (total_jump t)]
  ++ (match uncovered t with
      | [] => []
      | names => [""; "!! " +:+ fmt_d (len names) +:+ " ALUCtl operation(s) never exercised by the directed suite: "
                      +:+ String.concat ", " names]
      end)
  ++ (if total_stall t =? 0 then ["!! load-use stall never exercised"] else [])
  ++ (if total_div t =? 0 then ["!! multi-cycle divide stall never exercised"] else [])
  ++ flat_map (branch_warnings t) (range 8).

(** [main], from the testbenches the glob finds and the coverage file an
    earlier run may have left behind. *)
Definition coverage_main (glob : list string) (stale : option (list string)) : result (list string) :=
  let tb_files := sorted_texts glob in
  '(out, t) ← run_suite tb_files stale no_totals;
  Ok (out ++ report (len tb_files) t).
End Suite.

(** ** Definitions: the design's side *)

(** The counters of one simulation. *)
Record counters := mkCounters {
  cov_alu_ctl : Z -> Z;
  cov_branch_taken : Z -> Z;
  cov_branch_not_taken : Z -> Z;
  cov_stall_cycles : Z;
  cov_flush_cycles : Z;
  cov_div_cycles : Z;
  cov_jump_cycles : Z
}.

Definition counter_line (kind : string) (i n : Z) : string := kind +:+ " " +:+ fmt_d i +:+ " " +:+ fmt_d n.
Definition event_line (kind : string) (n : Z) : string := kind +:+ " " +:+ fmt_d n.

(** [dump_coverage], with the number of ALU codes it writes. *)
Definition dump_codes (n : Z) (c : counters) : list string :=
  map (fun i => counter_line "alu_ctl" i (cov_alu_ctl c i)) (range n)
  ++ flat_map (fun i => [counter_line "branch_taken" i (cov_branch_taken c i);
                         counter_line "branch_not_taken" i (cov_branch_not_taken c i)]) (range 8)
  ++ [event_line "stall_cycles" (cov_stall_cycles c); event_line "flush_cycles" (cov_flush_cycles c);
      event_line "div_cycles" (cov_div_cycles c); event_line "jump_cycles" (cov_jump_cycles c)].
Definition dump_coverage (c : counters) : list string := dump_codes 64 c.

Definition demo_counters : counters := mkCounters (fun i => i) (fun _ => 1) (fun i => i) 7 0 3 2.
Definition demo_iverilog (tb : string) : process unit :=
  {| returncode := if String.eqb tb "sim/tb/tb_bad.v" then 1 else 0; stderr := " no "; output := tt |}.
Example coverage_main_ex :
  match coverage_main demo_iverilog (fun _ => Some (dump_codes 32 demo_counters)) ["sim/tb/tb_one.v"; "sim/tb/tb_bad.v"] None with
  | Ok out => take 4 out = ["COMPILE FAIL tb_bad: no"; ""; "=== ALUCtl coverage (across 2 directed tests) ===";
                            "  !!  0 ADD                   0 cycles"]
  | Raise _ => False
  end.
Proof. vm_compute. reflexivity. Qed.

(** ** The words of a line *)

Definition solid (s : string) : bool := str_all (fun c => negb (is_space c)) s.

Lemma split_ws_solid w s : forall cur, solid w = true -> split_ws_from (w +:+ s) cur = split_ws_from s (cur +:+ w).
Proof.
  unfold solid. induction w as [|c w IH]; intros cur H; [by rewrite app_empty, app_nil_s|].
  rewrite str_all_cons in H. apply andb_true_iff in H as [Hc Hw]. rewrite app_cons. cbn [split_ws_from].
  apply negb_true_iff in Hc. rewrite Hc, IH by done. by rewrite app_assoc_s, app_cons, app_empty.
Qed.

Lemma split_ws_last w : solid w = true -> w <> "" -> split_ws w = [w].
Proof.
  intros H Hne. unfold split_ws. rewrite <- (app_nil_s w) at 1. rewrite split_ws_solid by done. cbn [split_ws_from].
  rewrite app_empty. by rewrite (proj2 (String.eqb_neq w "") Hne).
Qed.

Lemma split_ws_word w s : solid w = true -> w <> "" -> split_ws (w +:+ " " +:+ s) = w :: split_ws s.
Proof.
  intros H Hne. unfold split_ws. rewrite split_ws_solid by done. rewrite app_cons, !app_empty. cbn [split_ws_from].
  change (is_space " ") with true. cbv iota. by rewrite (proj2 (String.eqb_neq w "") Hne).
Qed.

Lemma fmt_d_solid v : solid (fmt_d v) = true /\ fmt_d v <> "".
Proof.
  split; [eapply str_all_impl; [|apply fmt_d_num]; intros c Hc%num_not_space; by rewrite Hc|].
  intros E. pose proof (int_base10_fmt_d v) as H. rewrite E in H. discriminate H.
Qed.

Lemma counter_words kind i n : solid kind = true -> kind <> "" ->
  split_ws (counter_line kind i n) = [kind; fmt_d i; fmt_d n].
Proof.
  intros H1 H2. unfold counter_line. destruct (fmt_d_solid i), (fmt_d_solid n).
  by rewrite !split_ws_word, split_ws_last by done.
Qed.

Lemma event_words kind n : solid kind = true -> kind <> "" -> split_ws (event_line kind n) = [kind; fmt_d n].
Proof. intros H1 H2. unfold event_line. destruct (fmt_d_solid n). by rewrite split_ws_word, split_ws_last by done. Qed.

(** ** One file *)

Lemma add_at_in l kind i n : 0 <= i < len l ->
  add_at l [kind; fmt_d i; fmt_d n] = Ok (updZ l i (nthZ 0 l i + n)).
Proof.
  intros H. unfold add_at, int_part, part. cbn [nth_error mbind result_bind]. rewrite !int_base10_fmt_d. cbn [mbind result_bind].
  destruct (Z.ltb_spec i 0); [lia|]. destruct (Z.leb_spec 0 i); [|lia]. destruct (Z.ltb_spec i (len l)); [|lia].
  done.
Qed.

Lemma add_at_out l kind i n : 0 <= i -> len l <= i ->
  add_at l [kind; fmt_d i; fmt_d n] = Raise (IndexError "list index out of range").
Proof.
  intros H1 H2. unfold add_at, int_part, part. cbn [nth_error mbind result_bind]. rewrite !int_base10_fmt_d. cbn [mbind result_bind].
  destruct (Z.ltb_spec i 0); [lia|]. destruct (Z.leb_spec 0 i); [|lia]. destruct (Z.ltb_spec i (len l)); [lia|]. done.
Qed.

Lemma add_lines_app a b : forall t, add_lines t (a ++ b) = (t ← add_lines t a; add_lines t b).
Proof.
  induction a as [|line a IH]; intros t; [done|]. cbn [app add_lines]. destruct (add_line t line) as [t'|]; [|done]. apply IH.
Qed.

(** What a total holds after [f] has been added for the indices below
    [n]. *)
Definition plus (l : list Z) (n : Z) (f : Z -> Z) (l' : list Z) : Prop :=
  len l' = len l /\ forall i, 0 <= i < len l -> nthZ 0 l' i = nthZ 0 l i + if i <? n then f i else 0.

Lemma plus_0 l f : plus l 0 f l.
Proof. split; [done|]. intros i Hi. destruct (Z.ltb_spec i 0); lia. Qed.

Lemma plus_S l n f l' : 0 <= n < len l -> plus l n f l' -> plus l (n + 1) f (updZ l' n (nthZ 0 l' n + f n)).
Proof.
  intros Hn [H1 H2]. split; [unfold len in *; by rewrite updZ_length|]. intros i Hi.
  destruct (Z.eq_dec n i) as [<-|Hne].
  - rewrite nthZ_updZ_eq by (unfold len in *; lia). rewrite H2 by done.
    destruct (Z.ltb_spec n n), (Z.ltb_spec n (n + 1)); lia.
  - rewrite nthZ_updZ_ne by lia. rewrite H2 by done. destruct (Z.ltb_spec i n), (Z.ltb_spec i (n + 1)); lia.
Qed.

Lemma range_S n : 0 <= n -> range (n + 1) = range n ++ [n].
Proof. intros Hn. unfold range. rewrite seqZ_app by lia. by rewrite Z.add_0_l. Qed.

Ltac eqb_closed :=
  repeat match goal with
  | |- context [String.eqb ?a ?b] => let v := eval vm_compute in (String.eqb a b) in change (String.eqb a b) with v
  end; cbv iota.

Lemma alu_line_added t i n : 0 <= i < len (total_alu t) -> add_line t (counter_line "alu_ctl" i n) =
  Ok (mkTotals (updZ (total_alu t) i (nthZ 0 (total_alu t) i + n)) (total_branch_taken t) (total_branch_not_taken t)
        (total_stall t) (total_flush t) (total_div t) (total_jump t)).
Proof.
  destruct t. intros H. unfold add_line. rewrite counter_words by done. cbn [part nth_error mbind result_bind].
  eqb_closed. by rewrite add_at_in.
Qed.

Lemma taken_line_added t i n : 0 <= i < len (total_branch_taken t) -> add_line t (counter_line "branch_taken" i n) =
  Ok (mkTotals (total_alu t) (updZ (total_branch_taken t) i (nthZ 0 (total_branch_taken t) i + n)) (total_branch_not_taken t)
        (total_stall t) (total_flush t) (total_div t) (total_jump t)).
Proof.
  destruct t. intros H. unfold add_line. rewrite counter_words by done. cbn [part nth_error mbind result_bind].
  eqb_closed. by rewrite add_at_in.
Qed.

Lemma not_taken_line_added t i n : 0 <= i < len (total_branch_not_taken t) -> add_line t (counter_line "branch_not_taken" i n) =
  Ok (mkTotals (total_alu t) (total_branch_taken t) (updZ (total_branch_not_taken t) i (nthZ 0 (total_branch_not_taken t) i + n))
        (total_stall t) (total_flush t) (total_div t) (total_jump t)).
Proof.
  destruct t. intros H. unfold add_line. rewrite counter_words by done. cbn [part nth_error mbind result_bind].
  eqb_closed. by rewrite add_at_in.
Qed.

Lemma alu_lines c bt bn s f d j n a : 0 <= n <= len a ->
  exists a', add_lines (mkTotals a bt bn s f d j) (map (fun i => counter_line "alu_ctl" i (cov_alu_ctl c i)) (range n)) =
    Ok (mkTotals a' bt bn s f d j) /\ plus a n (cov_alu_ctl c) a'.
Proof.
  intros [Hn Hl]. revert n Hn Hl. apply (natlike_ind (fun n => n <= len a -> _)); [|intros n Hn IH Hl].
  { intros _. exists a. split; [done|apply plus_0]. }
  destruct IH as (a' & E & Hp); [lia|]. unfold Z.succ. rewrite range_S, map_app, add_lines_app, E by done.
  eexists. split; [|apply (plus_S a n _ a'); [lia|done]]. cbn [map mbind result_bind add_lines].
  rewrite alu_line_added by (destruct Hp as [? _]; cbn [total_alu]; lia). done.
Qed.

Lemma branch_lines c a s f d j n bt bn : 0 <= n -> n <= len bt -> n <= len bn ->
  exists bt' bn', add_lines (mkTotals a bt bn s f d j)
      (flat_map (fun i => [counter_line "branch_taken" i (cov_branch_taken c i);
                           counter_line "branch_not_taken" i (cov_branch_not_taken c i)]) (range n)) =
    Ok (mkTotals a bt' bn' s f d j) /\ plus bt n (cov_branch_taken c) bt' /\ plus bn n (cov_branch_not_taken c) bn'.
Proof.
  intros Hn. revert n Hn. apply (natlike_ind (fun n => n <= len bt -> n <= len bn -> _)); [|intros n Hn IH H1 H2].
  { intros _ _. exists bt, bn. split; [done|]. split; apply plus_0. }
  destruct IH as (bt' & bn' & E & Ht & Hnt); [lia..|]. unfold Z.succ. rewrite range_S, flat_map_app, add_lines_app, E by done.
  eexists _, _. split; [|split; [apply (plus_S bt n _ bt'); [lia|done]|apply (plus_S bn n _ bn'); [lia|done]]].
  cbn [flat_map app mbind result_bind add_lines]. destruct Ht as [Lt _], Hnt as [Ln _].
  rewrite taken_line_added by (cbn [total_branch_taken]; lia). cbn [mbind result_bind].
  rewrite not_taken_line_added by (cbn [total_branch_not_taken]; lia). done.
Qed.

(** The counters of a file, added to a total. *)
Definition added (n : Z) (c : counters) (t t' : totals) : Prop :=
  plus (total_alu t) n (cov_alu_ctl c) (total_alu t') /\
  plus (total_branch_taken t) 8 (cov_branch_taken c) (total_branch_taken t') /\
  plus (total_branch_not_taken t) 8 (cov_branch_not_taken c) (total_branch_not_taken t') /\
  total_stall t' = total_stall t + cov_stall_cycles c /\ total_flush t' = total_flush t + cov_flush_cycles c /\
  total_div t' = total_div t + cov_div_cycles c /\ total_jump t' = total_jump t + cov_jump_cycles c.

Lemma event_lines t c : add_lines t [event_line "stall_cycles" (cov_stall_cycles c); event_line "flush_cycles" (cov_flush_cycles c);
      event_line "div_cycles" (cov_div_cycles c); event_line "jump_cycles" (cov_jump_cycles c)] =
  Ok (mkTotals (total_alu t) (total_branch_taken t) (total_branch_not_taken t) (total_stall t + cov_stall_cycles c)
        (total_flush t + cov_flush_cycles c) (total_div t + cov_div_cycles c) (total_jump t + cov_jump_cycles c)).
Proof.
  destruct t. cbn [add_lines]. unfold add_line, int_part, part.
  do 4 (rewrite event_words by done; cbn [nth_error mbind result_bind]; eqb_closed; rewrite int_base10_fmt_d; cbn [mbind result_bind]).
  done.
Qed.

Lemma add_dump n c t : 0 <= n <= len (total_alu t) -> len (total_branch_taken t) = 8 -> len (total_branch_not_taken t) = 8 ->
  exists t', add_lines t (dump_codes n c) = Ok t' /\ added n c t t'.
Proof.
  destruct t as [a bt bn s f d j]. cbn. intros Hn Ht Hnt. unfold dump_codes. rewrite add_lines_app.
  destruct (alu_lines c bt bn s f d j n a Hn) as (a' & -> & Ha). cbn [mbind result_bind]. rewrite add_lines_app.
  destruct (branch_lines c a' s f d j 8 bt bn) as (bt' & bn' & -> & Hbt & Hbn); [lia..|]. cbn [mbind result_bind].
  rewrite event_lines. eexists. split; [done|]. split; [exact Ha|]. split; [exact Hbt|]. split; [exact Hbn|]. done.
Qed.

(** One ALU code too many ends the script. *)
Lemma add_dump_raises n c t : len (total_alu t) < n -> add_lines t (dump_codes n c) = Raise (IndexError "list index out of range").
Proof.
  destruct t as [a bt bn s f d j]. cbn [total_alu]. intros Hn. unfold dump_codes. rewrite add_lines_app.
  pose proof (len_nonneg a) as Hl. replace n with ((len a + 1) + (n - len a - 1)) by lia. unfold range.
  rewrite seqZ_app by lia. fold (range (len a + 1)). rewrite range_S, !map_app by lia. rewrite <- app_assoc, add_lines_app.
  destruct (alu_lines c bt bn s f d j (len a) a) as (a' & -> & [Ha _]); [lia|]. cbn [mbind result_bind map app add_lines add_line].
  rewrite counter_words by done. cbn [part nth_error mbind result_bind]. eqb_closed. by rewrite add_at_out by lia.
Qed.

(** ** The suite *)

Definition sized (t : totals) : Prop :=
  len (total_alu t) = 32 /\ len (total_branch_taken t) = 8 /\ len (total_branch_not_taken t) = 8.

Lemma insert_text_perm x l : Permutation (insert_text x l) (x :: l).
Proof.
  induction l as [|y l IH]; [done|]. cbn [insert_text]. destruct (String.leb x y); [done|].
  rewrite IH. apply perm_swap.
Qed.

Lemma sorted_texts_perm l : Permutation (sorted_texts l) l.
Proof. induction l as [|x l IH]; [done|]. cbn [sorted_texts fold_right]. rewrite insert_text_perm. by constructor. Qed.

Section Sums.
Context (iverilog : string -> process unit) (n : Z) (cov : string -> option counters).

Definition written (tb : string) : option (list string) := option_map (dump_codes n) (cov tb).

(** The counters of a test that compiles and writes its file. *)
Definition covered (tb : string) : option counters := if returncode (iverilog tb) =? 0 then cov tb else None.

Definition suite_sum (f : counters -> Z) (tbs : list string) : Z :=
  fold_right Z.add 0 (map (fun tb => match covered tb with Some c => f c | None => 0 end) tbs).

Lemma suite_sum_perm f tbs tbs' : Permutation tbs tbs' -> suite_sum f tbs = suite_sum f tbs'.
Proof. unfold suite_sum. induction 1; cbn [map fold_right]; lia. Qed.

Definition alu_count (i : Z) (c : counters) : Z := if i <? n then cov_alu_ctl c i else 0.

(** [t'] is [t] with the counters of the tests added. *)
Definition summed (tbs : list string) (t t' : totals) : Prop :=
  (forall i, 0 <= i < 32 -> nthZ 0 (total_alu t') i = nthZ 0 (total_alu t) i + suite_sum (alu_count i) tbs) /\
  (forall i, 0 <= i < 8 -> nthZ 0 (total_branch_taken t') i =
     nthZ 0 (total_branch_taken t) i + suite_sum (fun c => cov_branch_taken c i) tbs) /\
  (forall i, 0 <= i < 8 -> nthZ 0 (total_branch_not_taken t') i =
     nthZ 0 (total_branch_not_taken t) i + suite_sum (fun c => cov_branch_not_taken c i) tbs) /\
  total_stall t' = total_stall t + suite_sum cov_stall_cycles tbs /\
  total_flush t' = total_flush t + suite_sum cov_flush_cycles tbs /\
  total_div t' = total_div t + suite_sum cov_div_cycles tbs /\
  total_jump t' = total_jump t + suite_sum cov_jump_cycles tbs.

Lemma suite_sum_skip f tb tbs : covered tb = None -> suite_sum f (tb :: tbs) = suite_sum f tbs.
Proof. intros H. unfold suite_sum. cbn [map fold_right]. by rewrite H. Qed.

Lemma suite_sum_add f tb tbs c : covered tb = Some c -> suite_sum f (tb :: tbs) = f c + suite_sum f tbs.
Proof. intros H. unfold suite_sum. cbn [map fold_right]. by rewrite H. Qed.

Lemma summed_skip tb tbs t t' : covered tb = None -> summed tbs t t' -> summed (tb :: tbs) t t'.
Proof. intros H. unfold summed. by setoid_rewrite (suite_sum_skip _ tb tbs H). Qed.

Lemma summed_add tb tbs c t t1 t' : covered tb = Some c -> sized t -> added n c t t1 -> summed tbs t1 t' ->
  summed (tb :: tbs) t t'.
Proof.
  intros H (L1 & L2 & L3) ([_ A1] & [_ A2] & [_ A3] & A4 & A5 & A6 & A7) (S1 & S2 & S3 & S4 & S5 & S6 & S7).
  unfold summed. setoid_rewrite (fun f => suite_sum_add f tb tbs c H).
  rewrite L1 in A1. rewrite L2 in A2. rewrite L3 in A3. split; [|split; [|split]].
  - intros i Hi. rewrite S1, A1 by done. unfold alu_count at 2. lia.
  - intros i Hi. rewrite S2, A2 by done. destruct (Z.ltb_spec i 8); lia.
  - intros i Hi. rewrite S3, A3 by done. destruct (Z.ltb_spec i 8); lia.
  - lia.
Qed.

Lemma added_sized c t t' : added n c t t' -> sized t -> sized t'.
Proof. intros ([L1 _] & [L2 _] & [L3 _] & _) (? & ? & ?). unfold sized. by rewrite L1, L2, L3. Qed.

Lemma run_suite_ok tbs : 0 <= n <= 32 -> forall t, sized t ->
  exists out t', run_suite iverilog written tbs None t = Ok (out, t') /\ sized t' /\ summed tbs t t' /\
    len out = len (List.filter (fun tb => bool_decide (covered tb = None)) tbs).
Proof.
  intros Hn. induction tbs as [|tb tbs IH]; intros t Ht.
  { exists [], t. split; [done|]. split; [done|]. split; [|done].
    unfold summed, suite_sum. cbn [map fold_right]. setoid_rewrite Z.add_0_r. done. }
  cbn [run_suite List.filter]. destruct (Z.eqb_spec (returncode (iverilog tb)) 0) as [Hrc|Hrc]; cbn [negb].
  2:{ assert (Hc : covered tb = None) by (unfold covered; by rewrite (proj2 (Z.eqb_neq _ _) Hrc)).
      destruct (IH t Ht) as (out & t' & -> & H1 & H2 & H3). eexists _, t'. split; [done|]. split; [done|].
      split; [by apply summed_skip|]. rewrite bool_decide_eq_true_2 by done. unfold len in *. cbn [List.length]. lia. }
  assert (Hc : covered tb = cov tb) by (unfold covered; by rewrite Hrc).
  unfold written at 1. destruct (cov tb) as [c|]; cbn [option_map].
  - destruct Ht as (L1 & L2 & L3). destruct (add_dump n c t) as (t1 & -> & Ha); [by rewrite L1|done..|].
    cbn [mbind result_bind]. destruct (IH t1) as (out & t' & E & H1 & H2 & H3); [by eapply added_sized|].
    exists out, t'. split; [done|]. split; [done|]. split; [by eapply summed_add|]. by rewrite bool_decide_eq_false_2 by (by rewrite Hc).
  - destruct (IH t Ht) as (out & t' & -> & H1 & H2 & H3). eexists _, t'. split; [done|]. split; [done|].
    split; [by apply summed_skip|]. rewrite bool_decide_eq_true_2 by done. unfold len in *. cbn [List.length]. lia.
Qed.

(** With more than 32 ALU codes the first file ends the script. *)
Lemma run_suite_raises tbs : 32 < n -> forall t, sized t -> Exists (fun tb => covered tb <> None) tbs ->
  run_suite iverilog written tbs None t = Raise (IndexError "list index out of range").
Proof.
  intros Hn. induction tbs as [|tb tbs IH]; intros t Ht Hex; [by apply Exists_nil in Hex|].
  cbn [run_suite].
  assert (Hc : covered tb = if returncode (iverilog tb) =? 0 then cov tb else None) by done.
  apply Exists_cons in Hex. destruct (returncode (iverilog tb) =? 0); cbn [negb].
  - unfold written at 1. destruct (cov tb) as [c|]; cbn [option_map].
    + destruct Ht as (L1 & L2 & L3). by rewrite add_dump_raises by lia.
    + destruct Hex as [Hex|Hex]; [done|]. by rewrite IH.
  - destruct Hex as [Hex|Hex]; [done|]. by rewrite IH.
Qed.
End Sums.

Lemma sized_no_totals : sized no_totals.
Proof. done. Qed.

Lemma Forall_codes : Forall (fun e : Z * string => 0 <= fst e < 32) ALUCTL_NAMES.
Proof. repeat constructor; cbn; lia. Qed.

(** [C37] The report adds up the suite. When the design writes at most 32 ALU
    codes, the script finishes whatever the tests do, with one line for
    each test that does not compile or leaves no file; every total it prints
    is the sum of that counter over the tests that ran, and an operation is
    listed as never exercised exactly when that sum is zero and it is not
    the illegal code. (This design writes 64 codes, where the script ends
    with an exception.) *)
Theorem coverage_report_exact iverilog n cov glob : 0 <= n <= 32 ->
  exists out t, coverage_main iverilog (written n cov) glob None = Ok (out ++ report (len glob) t) /\
    len out = len (List.filter (fun tb => bool_decide (covered iverilog cov tb = None)) (sorted_texts glob)) /\
    (forall i, 0 <= i < 32 -> nthZ 0 (total_alu t) i = suite_sum iverilog cov (alu_count n i) glob) /\
    (forall i, 0 <= i < 8 -> nthZ 0 (total_branch_taken t) i = suite_sum iverilog cov (fun c => cov_branch_taken c i) glob /\
       nthZ 0 (total_branch_not_taken t) i = suite_sum iverilog cov (fun c => cov_branch_not_taken c i) glob) /\
    total_stall t = suite_sum iverilog cov cov_stall_cycles glob /\
    total_flush t = suite_sum iverilog cov cov_flush_cycles glob /\
    total_div t = suite_sum iverilog cov cov_div_cycles glob /\
    total_jump t = suite_sum iverilog cov cov_jump_cycles glob /\
    (forall name, In name (uncovered t) <->
       exists code, In (code, name) ALUCTL_NAMES /\ code <> 31 /\ suite_sum iverilog cov (alu_count n code) glob = 0).
Proof.
  intros Hn. destruct (run_suite_ok iverilog n cov (sorted_texts glob) Hn no_totals sized_no_totals)
    as (out & t & E & _ & (S1 & S2 & S3 & S4 & S5 & S6 & S7) & Hl).
  pose proof (sorted_texts_perm glob) as Hp.
  assert (P : forall f, suite_sum iverilog cov f (sorted_texts glob) = suite_sum iverilog cov f glob)
    by (intros f; by apply suite_sum_perm).
  assert (A1 : forall i, 0 <= i < 32 -> nthZ 0 (total_alu t) i = suite_sum iverilog cov (alu_count n i) glob).
  { intros i Hi. rewrite S1, P by done. cbn [no_totals total_alu]. by rewrite nthZ_zeros. }
  exists out, t. split.
  { unfold coverage_main. rewrite E. cbn [mbind result_bind]. unfold len at 1. by rewrite (Permutation_length Hp). }
  split; [exact Hl|]. split; [exact A1|]. split; [intros i Hi; split|].
  - rewrite S2, P by done. cbn [no_totals total_branch_taken]. by rewrite nthZ_zeros.
  - rewrite S3, P by done. cbn [no_totals total_branch_not_taken]. by rewrite nthZ_zeros.
  - rewrite <- !P. do 4 (split; [done|]). intros name. unfold uncovered. rewrite in_map_iff. split.
    + intros ([code nm] & <- & [Hin Hc]%filter_In). exists code. apply andb_true_iff in Hc as [Hz%Z.eqb_eq H31].
      apply negb_true_iff, Z.eqb_neq in H31. split; [done|]. split; [done|]. rewrite <- A1; [done|].
      by apply (proj1 (List.Forall_forall _ _) Forall_codes (code, nm)).
    + intros (code & Hin & H31 & Hz). exists (code, name). split; [done|]. apply filter_In. split; [done|].
      rewrite <- A1 in Hz by (by apply (proj1 (List.Forall_forall _ _) Forall_codes (code, name))).
      rewrite Hz, (proj2 (Z.eqb_neq _ _) H31). done.
Qed.

Definition demo_cov (tb : string) : option counters :=
  if String.eqb tb "sim/tb/tb_stuck.v" then None else Some demo_counters.

Lemma code_0 name : In (0, name) ALUCTL_NAMES -> name = "ADD".
Proof. cbn. intros Hin. destruct_or! Hin; by simplify_eq. Qed.

Lemma coverage_report_exact_witness :
  exists out t, coverage_main demo_iverilog (written 32 demo_cov) ["sim/tb/tb_b.v"; "sim/tb/tb_stuck.v"; "sim/tb/tb_bad.v"] None =
      Ok (out ++ report 3 t) /\ len out = 2 /\
    (forall i, 0 <= i < 32 -> nthZ 0 (total_alu t) i = i) /\
    (forall name, In name (uncovered t) <-> name = "ADD").
Proof.
  destruct (coverage_report_exact demo_iverilog 32 demo_cov ["sim/tb/tb_b.v"; "sim/tb/tb_stuck.v"; "sim/tb/tb_bad.v"])
    as (out & t & E & Hl & Ha & _ & _ & _ & _ & _ & Hu); [lia|].
  exists out, t. split; [exact E|]. split; [rewrite Hl; vm_compute; reflexivity|].
  assert (Hs : forall i, 0 <= i < 32 ->
    suite_sum demo_iverilog demo_cov (alu_count 32 i) ["sim/tb/tb_b.v"; "sim/tb/tb_stuck.v"; "sim/tb/tb_bad.v"] = i).
  { intros i Hi. unfold suite_sum, covered. cbn -[Z.add Z.ltb]. unfold alu_count. rewrite (proj2 (Z.ltb_lt i 32) (proj2 Hi)).
    cbn [demo_counters cov_alu_ctl]. lia. }
  split; [intros i Hi; by rewrite Ha, Hs|]. intros name. rewrite Hu. split.
  - intros (code & Hin & _ & Hz). pose proof (proj1 (List.Forall_forall _ _) Forall_codes _ Hin) as Hc. cbn in Hc.
    rewrite Hs in Hz by done. subst code. exact (code_0 name Hin).
  - intros ->. exists 0. split; [by left|]. split; [done|]. by rewrite Hs by lia.
Defined.

(** [C36] The script does not run on this design: [dump_coverage] writes 64
    ALU codes and the script keeps 32, so as soon as one test of the suite
    compiles and writes its file, the whole report ends with
    [IndexError]. *)
Theorem coverage_report_crashes iverilog cov glob : Exists (fun tb => covered iverilog cov tb <> None) glob ->
  coverage_main iverilog (fun tb => option_map dump_coverage (cov tb)) glob None =
    Raise (IndexError "list index out of range").
Proof.
  intros Hex. unfold coverage_main.
  pose proof (run_suite_raises iverilog 64 cov (sorted_texts glob) ltac:(lia) no_totals sized_no_totals) as E.
  change (fun tb => option_map dump_coverage (cov tb)) with (written 64 cov). rewrite E; [done|].
  apply List.Exists_exists in Hex as (tb & Hin & Hc). apply List.Exists_exists. exists tb. split; [|done].
  eapply Permutation_in; [|exact Hin]. symmetry. apply sorted_texts_perm.
Qed.

Lemma coverage_report_crashes_witness :
  coverage_main demo_iverilog (fun tb => option_map dump_coverage (demo_cov tb)) ["sim/tb/tb_b.v"; "sim/tb/tb_bad.v"] None =
    Raise (IndexError "list index out of range").
Proof. apply (coverage_report_crashes demo_iverilog demo_cov). by left. Defined.
