(* ===== verification/Trace.v ===== *)
(** * The pipeline trace

    [sim/tools/gen_trace.py]: the rows of the trace the design writes, with
    disassembled instructions, for the pipeline viewer.  Python's [csv]
    reader is modelled for the dialect the script uses; [gen_trace_csv] is
    the file the testbench [gen_trace] writes, for signals without unknown
    bits (a signal with one is printed as [x], which [int] refuses). *)

From S2P Require Import Prelude Words PyStr Step Disasm TextFacts AsmText MemImage Dtb Coverage.
#[local] Open Scope string_scope.
#[local] Open Scope Z_scope.
#[local] Open Scope list_scope.

(** ** Definitions: [csv.DictReader]

    A line comes without its terminator, which a quoted field keeps as one
    newline character. *)

Inductive csv_state := START_RECORD | START_FIELD | IN_FIELD | IN_QUOTED_FIELD | QUOTE_IN_QUOTED_FIELD.
Record csv_reader := mkReader { state : csv_state; fields : list string; field : string }.

Definition quotechar : ascii := "034".
Definition comma : ascii := ",".

Definition add_char (r : csv_reader) (st : csv_state) (c : ascii) : csv_reader :=
  mkReader st (fields r) (field r +:+ String c "").
Definition save_field (r : csv_reader) (st : csv_state) : csv_reader := mkReader st (fields r ++ [field r]) "".

Definition csv_char (r : csv_reader) (c : ascii) : csv_reader :=
  match state r with
  | START_RECORD | START_FIELD =>
      if Ascii.eqb c quotechar then mkReader IN_QUOTED_FIELD (fields r) (field r)
      else if Ascii.eqb c comma then save_field r START_FIELD
      else add_char r IN_FIELD c
  | IN_FIELD => if Ascii.eqb c comma then save_field r START_FIELD else add_char r IN_FIELD c
  | IN_QUOTED_FIELD =>
      if Ascii.eqb c quotechar then mkReader QUOTE_IN_QUOTED_FIELD (fields r) (field r)
      else add_char r IN_QUOTED_FIELD c
  | QUOTE_IN_QUOTED_FIELD =>
      if Ascii.eqb c quotechar then add_char r IN_QUOTED_FIELD c
      else if Ascii.eqb c comma then save_field r START_FIELD
      else add_char r IN_FIELD c
  end.

(** The end of a line: the record is complete unless a quoted field is
    open. *)
Definition csv_eol (r : csv_reader) : csv_reader :=
  match state r with
  | START_RECORD => r
  | IN_QUOTED_FIELD => add_char r IN_QUOTED_FIELD "010"
  | _ => save_field r START_RECORD
  end.

Fixpoint csv_chars (r : csv_reader) (s : string) : csv_reader :=
  match s with "" => r | String c s' => csv_chars (csv_char r c) s' end.

Definition new_record : csv_reader := mkReader START_RECORD [] "".

Fixpoint csv_records (r : csv_reader) (lines : list string) : list (list string) :=
  match lines with
  | [] => match state r with START_RECORD => [] | _ => [fields (save_field r START_RECORD)] end
  | line :: lines' =>
      let r := csv_eol (csv_chars r line) in
      match state r with
      | START_RECORD => fields r :: csv_records new_record lines'
      | _ => csv_records r lines'
      end
  end.

(** A row of the reader: the value of a missing column is [None]. *)
Definition csv_row : Type := list (string * option string).
Fixpoint zip_row (names values : list string) : csv_row :=
  match names, values with
  | [], _ => []
  | n :: names', [] => (n, None) :: zip_row names' []
  | n :: names', v :: values' => (n, Some v) :: zip_row names' values'
  end.

Definition DictReader (lines : list string) : list csv_row :=
  match csv_records new_record lines with
  | [] => []
  | names :: rows => map (zip_row names) (List.filter (fun r => match r with [] => false | _ => true end) rows)
  end.

(** [r[name]]: the last of two columns of one name. *)
Definition column (r : csv_row) (name : string) : result (option string) :=
  match dict_find (List.rev r) name with Some v => Ok v | None => Raise (KeyError (repr name)) end.

Definition int_column (r : csv_row) (name : string) : result Z :=
  v ← column r name;
  match v with
  | Some s => int_base10 s
  | None => Raise (TypeError "int() argument must be a string, a bytes-like object or a real number, not 'NoneType'")
  end.
Definition bool_column (r : csv_row) (name : string) : result bool := v ← int_column r name; Ok (truthy v).

(** ** Definitions: the rows *)

Definition disasm_column (r : csv_row) (name : string) (xlen : Z) : result string :=
  v ← column r name;
  match v with
  | Some hex_word => word ← int_base16 hex_word; Ok (disasm word xlen)
  | None => Raise (TypeError "int() can't convert non-string with explicit base")
  end.

Record trace_row := mkRow {
  t_cycle : Z;
  if_pc : Z; if_inst : string;
  id_pc : Z; id_inst : string; id_stall : bool; id_flush : bool;
  ex_pc : Z; ex_inst : string; ex_branchTaken : bool; ex_jump : bool; ex_aluOut : Z; ex_fwdA : Z; ex_fwdB : Z;
  mem_we : bool; mem_re : bool; mem_addr : Z; mem_dest : Z; mem_regWrite : bool;
  wb_dest : Z; wb_val : Z; wb_regWrite : bool
}.

Definition row_of (xlen : Z) (r : csv_row) : result trace_row :=
  cycle ← int_column r "cycle";
  ifpc ← int_column r "if_pc"; ifinst ← disasm_column r "if_inst" xlen;
  idpc ← int_column r "id_pc"; idinst ← disasm_column r "id_inst" xlen;
  stall ← bool_column r "stall"; flush ← bool_column r "flush";
  expc ← int_column r "ex_pc"; exinst ← disasm_column r "ex_inst" xlen;
  taken ← bool_column r "branch_taken"; jump ← bool_column r "jump";
  alu ← int_column r "alu_out"; fa ← int_column r "forwardA"; fb ← int_column r "forwardB";
  we ← bool_column r "mem_we"; re ← bool_column r "mem_re";
  addr ← int_column r "mem_addr"; dest ← int_column r "mem_dest"; rw ← bool_column r "mem_regwrite";
  wdest ← int_column r "wb_dest"; wval ← int_column r "wb_val"; wrw ← bool_column r "wb_regwrite";
  Ok (mkRow cycle ifpc ifinst idpc idinst stall flush expc exinst taken jump alu fa fb we re addr dest rw wdest wval wrw).

(** The loop that pops the last row while both its words are the empty
    one, on the rows from the last to the first. *)
Definition drained (r : trace_row) : bool := String.eqb (if_inst r) "—" && String.eqb (id_inst r) "—".
Fixpoint pop_drained (rev_rows : list trace_row) : list trace_row :=
  match rev_rows with
  | r :: rest => if drained r then pop_drained rest else rev_rows
  | [] => []
  end.

(** [main]: the rows it dumps. *)
Definition gen_trace (xlen : Z) (lines : list string) : result (list trace_row) :=
  rows ← mapR (row_of xlen) (DictReader lines);
  Ok (List.rev (pop_drained (List.rev rows))).

(** ** Definitions: the testbench's file *)

(** The signals of one cycle, two-valued: no bit is unknown. *)
Record cycle := mkCycle {
  c_cycle : Z; c_if_pc : Z; c_if_inst : Z; c_id_pc : Z; c_id_inst : Z; c_stall : bool; c_flush : bool;
  c_ex_pc : Z; c_ex_inst : Z; c_taken : bool; c_jump : bool; c_alu : Z; c_fwdA : Z; c_fwdB : Z;
  c_we : bool; c_re : bool; c_addr : Z; c_dest : Z; c_regwrite : bool;
  c_wb_dest : Z; c_wb_val : Z; c_wb_regwrite : bool
}.

Definition trace_columns : list string :=
  ["cycle"; "if_pc"; "if_inst"; "id_pc"; "id_inst"; "stall"; "flush"; "ex_pc"; "ex_inst"; "branch_taken"; "jump";
   "alu_out"; "forwardA"; "forwardB"; "mem_we"; "mem_re"; "mem_addr"; "mem_dest"; "mem_regwrite";
   "wb_dest"; "wb_val"; "wb_regwrite"].
Definition bit (b : bool) : string := fmt_d (if b then 1 else 0).
Definition cycle_fields (c : cycle) : list string :=
  [fmt_d (c_cycle c); fmt_d (c_if_pc c); fmt_0x 8 (c_if_inst c); fmt_d (c_id_pc c); fmt_0x 8 (c_id_inst c);
   bit (c_stall c); bit (c_flush c); fmt_d (c_ex_pc c); fmt_0x 8 (c_ex_inst c); bit (c_taken c); bit (c_jump c);
   fmt_d (c_alu c); fmt_d (c_fwdA c); fmt_d (c_fwdB c); bit (c_we c); bit (c_re c); fmt_d (c_addr c);
   fmt_d (c_dest c); bit (c_regwrite c); fmt_d (c_wb_dest c); fmt_d (c_wb_val c); bit (c_wb_regwrite c)].
Definition gen_trace_csv (cs : list cycle) : list string :=
  String.concat "," trace_columns :: map (fun c => String.concat "," (cycle_fields c)) cs.

(** The row of a cycle. *)
Definition cycle_row (xlen : Z) (c : cycle) : trace_row :=
  mkRow (c_cycle c) (c_if_pc c) (disasm (c_if_inst c) xlen) (c_id_pc c) (disasm (c_id_inst c) xlen) (c_stall c) (c_flush c)
    (c_ex_pc c) (disasm (c_ex_inst c) xlen) (c_taken c) (c_jump c) (c_alu c) (c_fwdA c) (c_fwdB c) (c_we c) (c_re c)
    (c_addr c) (c_dest c) (c_regwrite c) (c_wb_dest c) (c_wb_val c) (c_wb_regwrite c).

Definition demo_cycle (n w1 w2 : Z) : cycle :=
  mkCycle n (4 * n) w1 (4 * n - 4) w2 false true 0 0x00A00293 false false 7 0 2 false true 16 5 true 6 9 true.
Example gen_trace_ex :
  gen_trace 32 (gen_trace_csv [demo_cycle 1 0x13 0; demo_cycle 2 0 0x13; demo_cycle 3 0 0; demo_cycle 4 0 0]) =
    Ok (map (cycle_row 32) [demo_cycle 1 0x13 0; demo_cycle 2 0 0x13]).
Proof. vm_compute. reflexivity. Qed.
Example csv_ex : csv_records new_record ["a,b,"; ""; String quotechar "x,y"; String quotechar (String quotechar ("z" +:+ String quotechar ",w"))] =
  [["a"; "b"; ""]; []; ["x,y" +:+ String "010" (String quotechar "z"); "w"]].
Proof. vm_compute. reflexivity. Qed.

(** ** The reader on unquoted fields *)

Definition unquoted (c : ascii) : bool := negb (Ascii.eqb c quotechar) && negb (Ascii.eqb c comma).
Definition simple (f : string) : bool := str_all unquoted f && negb (String.eqb f "").

Lemma csv_in_field f : forall s fs g, str_all unquoted f = true ->
  csv_chars (mkReader IN_FIELD fs g) (f +:+ s) = csv_chars (mkReader IN_FIELD fs (g +:+ f)) s.
Proof.
  induction f as [|c f IH]; intros s fs g H; [by rewrite app_empty, app_nil_s|].
  rewrite str_all_cons in H. apply andb_true_iff in H as [Hc Hf]. apply andb_true_iff in Hc as [_ Hc%negb_true_iff].
  rewrite app_cons. cbn [csv_chars]. unfold csv_char. cbn [state]. rewrite Hc. unfold add_char. cbn [fields field].
  rewrite IH by done. by rewrite app_assoc_s, app_cons, app_empty.
Qed.

Lemma csv_one_field f s fs st : simple f = true -> st = START_RECORD \/ st = START_FIELD ->
  csv_chars (mkReader st fs "") (f +:+ s) = csv_chars (mkReader IN_FIELD fs f) s.
Proof.
  intros [H Hne]%andb_true_iff Hst. destruct f as [|c f]; [done|].
  rewrite str_all_cons in H. apply andb_true_iff in H as [Hc Hf].
  apply andb_true_iff in Hc as [Hq%negb_true_iff Hc%negb_true_iff]. rewrite app_cons. cbn [csv_chars]. unfold csv_char.
  assert (E : csv_char (mkReader st fs "") c = mkReader IN_FIELD fs (String c "")).
  { unfold csv_char. destruct Hst as [-> | ->]; cbn [state]; by rewrite Hq, Hc. }
  unfold csv_char in E. rewrite E, csv_in_field by done. by rewrite app_cons, app_empty.
Qed.

Lemma csv_fields fs : fs <> [] -> forallb simple fs = true -> forall st acc, st = START_RECORD \/ st = START_FIELD ->
  csv_eol (csv_chars (mkReader st acc "") (String.concat "," fs)) = mkReader START_RECORD (acc ++ fs) "".
Proof.
  intros Hne. induction fs as [|f [|g fs] IH]; [done| |]; cbn [forallb]; intros [Hf Hfs]%andb_true_iff st acc Hst.
  - cbn [String.concat]. rewrite <- (app_nil_s f) at 1. by rewrite csv_one_field.
  - change (String.concat "," (f :: g :: fs)) with (f +:+ "," +:+ String.concat "," (g :: fs)).
    rewrite csv_one_field by done. rewrite app_cons, app_empty. cbn [csv_chars].
    change (csv_char (mkReader IN_FIELD acc f) ",") with (mkReader START_FIELD (acc ++ [f]) "").
    rewrite IH by (done || by right). by rewrite <- app_assoc.
Qed.

Lemma csv_file rows : Forall (fun fs => fs <> [] /\ forallb simple fs = true) rows ->
  csv_records new_record (map (String.concat ",") rows) = rows.
Proof.
  induction 1 as [|fs rows [Hne Hs] _ IH]; [done|].
  pose proof (csv_fields fs Hne Hs START_RECORD [] (or_introl eq_refl)) as E. cbn [map csv_records].
  change (mkReader START_RECORD [] "") with new_record in E. rewrite E. cbn [state fields app]. by rewrite IH.
Qed.

(** ** The number formats *)

Definition is_hex (c : ascii) : bool := digit_value c <? 16.

Lemma hex_facts c : is_hex c = true -> Ascii.eqb (lower_char c) "x" = false /\ is_word c = true /\ unquoted c = true.
Proof. destruct c as [[] [] [] [] [] [] [] []]; vm_compute; intuition congruence. Qed.

Lemma signed_int_hex body c s : is_hex c = true -> signed_int body (String c s) = body (String c s).
Proof. destruct c as [[] [] [] [] [] [] [] []]; vm_compute is_hex; try discriminate; reflexivity. Qed.

(** Hex digits without a prefix. *)
Lemma int_base16_hex s v : str_all is_hex s = true -> int_digits 16 s 0 false = Some v -> int_base16 s = Ok v.
Proof.
  intros Hs Hv. unfold int_base16, int_base.
  rewrite strip_word by (eapply str_all_impl; [|exact Hs]; intros c Hc; by apply hex_facts).
  destruct s as [|c s]; [done|]. rewrite str_all_cons in Hs. apply andb_true_iff in Hs as [Hc Hs].
  rewrite signed_int_hex by done. destruct s as [|c2 s].
  - destruct c as [[] [] [] [] [] [] [] []]; cbv zeta; cbn iota; by rewrite Hv.
  - rewrite str_all_cons in Hs. apply andb_true_iff in Hs as [Hc2 _]. apply hex_facts in Hc2 as [Hx _].
    destruct c as [[] [] [] [] [] [] [] []]; cbv zeta; cbn iota; rewrite ?Hx; by rewrite Hv.
Qed.

Lemma zeros_parse k s : int_digits 16 s 0 true = int_digits 16 s 0 false -> int_digits 16 (zeros k +:+ s) 0 false = int_digits 16 s 0 false.
Proof.
  intros H. destruct k as [|k]; [by rewrite app_empty|]. cbn [zeros]. rewrite app_cons. cbn [int_digits].
  change (Ascii.eqb "0" "_") with false. change (digit_value "0") with 0. cbv iota. change (0 <? 16) with true. cbv iota.
  rewrite int_digits_zeros by lia. exact H.
Qed.

Lemma fmt_nat_hex n : str_all is_hex (fmt_nat 16 n) = true.
Proof.
  apply fmt_nat_all; [lia|]. intros d Hd. unfold is_hex.
  destruct (digit_char_facts d ltac:(lia)) as (E & _). rewrite E. lia.
Qed.

Lemma fmt_0x_hex w n : str_all is_hex (fmt_0x w n) = true.
Proof.
  unfold fmt_0x, zfill. rewrite str_all_app, fmt_nat_hex, andb_true_r. by induction (w - _)%nat.
Qed.

Lemma int_base16_0x w n : 0 <= n -> int_base16 (fmt_0x w n) = Ok n.
Proof.
  intros Hn. apply int_base16_hex; [apply fmt_0x_hex|]. unfold fmt_0x, zfill.
  rewrite zeros_parse; rewrite !fmt_nat_parse by lia; done.
Qed.

Lemma num_simple v : simple (fmt_d v) = true.
Proof.
  unfold simple. rewrite (proj2 (String.eqb_neq _ _) (proj2 (fmt_d_solid v))), andb_true_r.
  eapply str_all_impl; [|apply fmt_d_num]. intros [[] [] [] [] [] [] [] []]; vm_compute; congruence.
Qed.

Lemma hex_simple w n : simple (fmt_0x (S w) n) = true.
Proof.
  unfold simple. rewrite (str_all_impl is_hex unquoted) by (apply fmt_0x_hex || (intros c Hc; by apply hex_facts)).
  destruct (String.eqb_spec (fmt_0x (S w) n) "") as [E|E]; [|done].
  apply (f_equal String.length) in E. unfold fmt_0x, zfill in E.
  destruct (fmt_nat 16 n); [discriminate E|]. destruct (S w - _)%nat; discriminate E.
Qed.

Lemma cycle_fields_simple c : cycle_fields c <> [] /\ forallb simple (cycle_fields c) = true.
Proof. split; [done|]. unfold cycle_fields, bit. cbn [forallb]. by rewrite !num_simple, !hex_simple. Qed.

(** ** One row *)

Lemma dict_find_skip {A} (d d' : list (string * A)) k : (forall v, ~ In (k, v) d) -> dict_find (d ++ d') k = dict_find d' k.
Proof.
  induction d as [|[k1 v1] d IH]; intros H; [done|]. cbn [app dict_find]. destruct (String.eqb_spec k k1) as [<-|].
  - exfalso. apply (H v1). by left.
  - apply IH. intros v Hv. apply (H v). by right.
Qed.

Lemma zip_row_app n1 n2 : forall v1 v2, List.length n1 = List.length v1 -> zip_row (n1 ++ n2) (v1 ++ v2) = zip_row n1 v1 ++ zip_row n2 v2.
Proof.
  induction n1 as [|n n1 IH]; intros [|v v1] v2 Hl; try done. cbn [app zip_row]. by rewrite IH by (cbn in Hl; lia).
Qed.

Lemma zip_row_keys ns vs k v : In (k, v) (zip_row ns vs) -> In k ns.
Proof.
  revert vs. induction ns as [|n ns IH]; intros [|w vs]; try done; intros [[= <- _]|H]; [by left| |by left|]; right; by eapply IH.
Qed.

(** A column of a row as long as the header. *)
Lemma column_at n1 n2 v1 v2 name v : ~ In name n2 -> List.length n1 = List.length v1 ->
  column (zip_row (n1 ++ name :: n2) (v1 ++ v :: v2)) name = Ok (Some v).
Proof.
  intros Hn Hl. unfold column. rewrite zip_row_app by done. cbn [zip_row].
  rewrite rev_app_distr. cbn [List.rev]. rewrite <- app_assoc. rewrite dict_find_skip.
  - cbn [app dict_find]. by rewrite String.eqb_refl.
  - intros w Hw. apply in_rev in Hw. by apply zip_row_keys in Hw.
Qed.

Definition not_in (name : string) (l : list string) : bool := negb (existsb (String.eqb name) l).

Lemma column_nth k names values name v : nth_error names k = Some name -> not_in name (drop (S k) names) = true ->
  nth_error values k = Some v -> column (zip_row names values) name = Ok (Some v).
Proof.
  intros H1 H2 H3. apply nth_error_split in H1 as (n1 & n2 & -> & L1). apply nth_error_split in H3 as (v1 & v2 & -> & L2).
  apply column_at; [|congruence]. intros Hin. rewrite <- L1 in H2.
  replace (drop (S (List.length n1)) (n1 ++ name :: n2)) with n2 in H2.
  2:{ replace (S (List.length n1)) with (List.length n1 + 1)%nat by lia. by rewrite drop_app_add. }
  apply negb_true_iff in H2. assert (existsb (String.eqb name) n2 = true); [|congruence].
  apply existsb_exists. exists name. split; [done|apply String.eqb_refl].
Qed.

Section Row.
Context (c : cycle) (xlen : Z).
Abbreviation row := (zip_row trace_columns (cycle_fields c)).

Lemma int_at k name v : nth_error trace_columns k = Some name -> not_in name (drop (S k) trace_columns) = true ->
  nth_error (cycle_fields c) k = Some (fmt_d v) -> int_column row name = Ok v.
Proof. intros H1 H2 H3. unfold int_column. rewrite (column_nth k _ _ _ _ H1 H2 H3). apply int_base10_fmt_d. Qed.

Lemma bool_at k name b : nth_error trace_columns k = Some name -> not_in name (drop (S k) trace_columns) = true ->
  nth_error (cycle_fields c) k = Some (bit b) -> bool_column row name = Ok b.
Proof. intros H1 H2 H3. unfold bool_column. rewrite (int_at k name (if b then 1 else 0)) by done. by destruct b. Qed.

Lemma inst_at k name w : 0 <= w -> nth_error trace_columns k = Some name -> not_in name (drop (S k) trace_columns) = true ->
  nth_error (cycle_fields c) k = Some (fmt_0x 8 w) -> disasm_column row name xlen = Ok (disasm w xlen).
Proof.
  intros Hw H1 H2 H3. unfold disasm_column. rewrite (column_nth k _ _ _ _ H1 H2 H3). cbn [mbind result_bind].
  by rewrite int_base16_0x.
Qed.

Lemma row_of_cycle : 0 <= c_if_inst c -> 0 <= c_id_inst c -> 0 <= c_ex_inst c -> row_of xlen row = Ok (cycle_row xlen c).
Proof.
  intros H1 H2 H3. unfold row_of.
  rewrite (int_at 0 "cycle" (c_cycle c)), (int_at 1 "if_pc" (c_if_pc c)), (inst_at 2 "if_inst" (c_if_inst c)) by done.
  rewrite (int_at 3 "id_pc" (c_id_pc c)), (inst_at 4 "id_inst" (c_id_inst c)), (bool_at 5 "stall" (c_stall c)) by done.
  rewrite (bool_at 6 "flush" (c_flush c)), (int_at 7 "ex_pc" (c_ex_pc c)), (inst_at 8 "ex_inst" (c_ex_inst c)) by done.
  rewrite (bool_at 9 "branch_taken" (c_taken c)), (bool_at 10 "jump" (c_jump c)), (int_at 11 "alu_out" (c_alu c)) by done.
  rewrite (int_at 12 "forwardA" (c_fwdA c)), (int_at 13 "forwardB" (c_fwdB c)), (bool_at 14 "mem_we" (c_we c)) by done.
  rewrite (bool_at 15 "mem_re" (c_re c)), (int_at 16 "mem_addr" (c_addr c)), (int_at 17 "mem_dest" (c_dest c)) by done.
  rewrite (bool_at 18 "mem_regwrite" (c_regwrite c)), (int_at 19 "wb_dest" (c_wb_dest c)) by done.
  by rewrite (int_at 20 "wb_val" (c_wb_val c)), (bool_at 21 "wb_regwrite" (c_wb_regwrite c)) by done.
Qed.
End Row.

(** ** The empty word *)

(** No instruction text starts with the first byte of the dash. *)
Definition no_dash (t : string) : bool :=
  match t with "" => true | String c _ => (nat_of_ascii c <? 128)%nat end.

Lemma no_dash_app a b : no_dash a = true -> no_dash b = true -> no_dash (a +:+ b) = true.
Proof. destruct a; [by rewrite app_empty|]. by rewrite app_cons. Qed.

Lemma no_dash_names {A} (d : list (A * string)) (o : option string) t :
  forallb (fun e => no_dash (snd e)) d = true -> (forall s, o = Some s -> exists k, In (k, s) d) -> no_dash t = true ->
  no_dash (get_or o t) = true.
Proof.
  intros Hd Ho Ht. destruct o as [s|]; [|done]. destruct (Ho s eq_refl) as (k & Hin).
  rewrite forallb_forall in Hd. by apply (Hd (k, s)).
Qed.

Lemma zfind_in (d : list (Z * string)) k s : zfind d k = Some s -> exists k', In (k', s) d.
Proof.
  induction d as [|[k1 v1] d IH]; [done|]. cbn [zfind]. destruct (k =? k1).
  - intros [= ->]. exists k1. by left.
  - intros H. apply IH in H as (k' & Hin). exists k'. by right.
Qed.

Lemma zzfind_in (d : list (Z * Z * string)) k1 k2 s : zzfind d k1 k2 = Some s -> exists k', In (k', s) d.
Proof.
  induction d as [|[[a b] v1] d IH]; [done|]. cbn [zzfind]. destruct ((k1 =? a) && (k2 =? b)).
  - intros [= ->]. exists (a, b). by left.
  - intros H. apply IH in H as (k' & Hin). exists k'. by right.
Qed.

Lemma no_dash_z d k t : forallb (fun e : Z * string => no_dash (snd e)) d = true -> no_dash t = true -> no_dash (get_or (zfind d k) t) = true.
Proof. intros. eapply no_dash_names; [done| |done]. apply zfind_in. Qed.
Lemma no_dash_zz d k1 k2 t : forallb (fun e : Z * Z * string => no_dash (snd e)) d = true -> no_dash t = true ->
  no_dash (get_or (zzfind d k1 k2) t) = true.
Proof. intros. eapply no_dash_names; [done| |done]. apply zzfind_in. Qed.
Lemma no_dash_some_z d k t : zfind d k = Some t -> forallb (fun e : Z * string => no_dash (snd e)) d = true -> no_dash t = true.
Proof. intros H Hd. apply (no_dash_z d k "") in Hd; [|done]. by rewrite H in Hd. Qed.
Lemma no_dash_some_zz d k1 k2 t : zzfind d k1 k2 = Some t -> forallb (fun e : Z * Z * string => no_dash (snd e)) d = true -> no_dash t = true.
Proof. intros H Hd. apply (no_dash_zz d k1 k2 "") in Hd; [|done]. by rewrite H in Hd. Qed.

Lemma no_dash_fmt_d v : no_dash (fmt_d v) = true.
Proof.
  pose proof (fmt_d_num v) as H. destruct (fmt_d v) as [|c s]; [done|]. rewrite str_all_cons in H.
  apply andb_true_iff in H as [H _]. destruct c as [[] [] [] [] [] [] [] []]; vm_compute in H |- *; congruence.
Qed.

Lemma no_dash_start c s : (nat_of_ascii c <? 128)%nat = true -> no_dash (String c s) = true.
Proof. done. Qed.

Lemma no_dash_lit c s b : (nat_of_ascii c <? 128)%nat = true -> no_dash (String c s +:+ b) = true.
Proof. by rewrite app_cons. Qed.

Ltac no_dash_text :=
  repeat match goal with
  | |- no_dash (String _ _ +:+ _) = true => apply no_dash_lit; reflexivity
  | |- no_dash (?a +:+ ?b) = true => apply no_dash_app
  | |- no_dash (get_or (zfind _ _) _) = true => apply no_dash_z; [vm_compute; reflexivity|]
  | |- no_dash (get_or (zzfind _ _ _) _) = true => apply no_dash_zz; [vm_compute; reflexivity|]
  | |- no_dash (fmt_d _) = true => apply no_dash_fmt_d
  | |- no_dash (String _ _) = true => reflexivity
  | |- no_dash "" = true => reflexivity
  | H : zfind ?d _ = Some ?t |- no_dash ?t = true => apply (no_dash_some_z _ _ _ H); vm_compute; reflexivity
  | H : zzfind ?d _ _ = Some ?t |- no_dash ?t = true => apply (no_dash_some_zz _ _ _ _ H); vm_compute; reflexivity
  | |- no_dash (if ?b then _ else _) = true => destruct b
  end.

Lemma no_dash_csr a : no_dash (csr_name a) = true.
Proof. unfold csr_name. no_dash_text. Qed.
Lemma no_dash_rm a : no_dash (rm_name a) = true.
Proof. unfold rm_name. no_dash_text. Qed.
Lemma no_dash_rr mn w : no_dash mn = true -> no_dash (rr mn w) = true.
Proof. intros. unfold rr. no_dash_text; done. Qed.
Lemma no_dash_rri mn w i : no_dash mn = true -> no_dash (rri mn w i) = true.
Proof. intros. unfold rri. apply no_dash_app; [by apply no_dash_rr|]. no_dash_text. Qed.
Lemma no_dash_rrr mn w : no_dash mn = true -> no_dash (rrr mn w) = true.
Proof. intros. unfold rrr. no_dash_text; done. Qed.

Lemma no_dash_i w xl : no_dash (disasm_i w xl) = true.
Proof.
  unfold disasm_i. destruct (disasm_i_ext w) as [s|] eqn:E.
  - revert E. unfold disasm_i_ext. cbv zeta.
    repeat match goal with |- (if ?b then _ else _) = _ -> _ => destruct b end;
      try (intros H; discriminate H); intros <-%(inj Some); (apply no_dash_rri || apply no_dash_rr); no_dash_text.
  - cbv zeta. destruct (_ || _); apply no_dash_rri; no_dash_text.
Qed.

Lemma no_dash_fp w : no_dash (disasm_fp w) = true.
Proof.
  unfold disasm_fp, f_, x_. cbv zeta. destruct (zfind fp_arith_names _) as [mn|] eqn:E; [|destruct (_ =? 0xb)]; no_dash_text.
Qed.

Lemma disasm_no_dash w xl : w <> 0 -> no_dash (disasm w xl) = true.
Proof.
  intros Hw. unfold disasm. rewrite (proj2 (Z.eqb_neq _ _) Hw). destruct (w =? 0x13); [done|]. cbv zeta.
  destruct (_ =? OP_R). { unfold disasm_r. cbv zeta. destruct (_ =? 1); [|destruct (zzfind _ _ _) eqn:E]; apply no_dash_rrr; no_dash_text. }
  destruct (_ =? OP_I); [apply no_dash_i|].
  destruct (_ =? OP_32). { unfold disasm_32. cbv zeta. destruct (_ =? 1); [|destruct (zzfind _ _ _) eqn:E]; apply no_dash_rrr; no_dash_text. }
  destruct (_ =? OP_IMM32).
  { unfold disasm_imm32. cbv zeta. repeat match goal with |- no_dash (if ?b then _ else _) = true => destruct b end;
      (apply no_dash_rri || apply no_dash_rr); no_dash_text. }
  destruct (_ =? OP_LOAD); [unfold disasm_load, at_reg, x_; no_dash_text|].
  destruct (_ =? OP_STORE); [unfold disasm_store, at_reg, x_; no_dash_text|].
  destruct (_ =? OP_BRANCH); [unfold disasm_branch, fmt_plus_d, x_; cbv zeta; no_dash_text|].
  destruct (_ =? OP_JAL); [unfold disasm_jal; cbv zeta; no_dash_text|].
  destruct (_ =? OP_JALR); [unfold disasm_jalr; no_dash_text|].
  destruct (_ =? OP_LUI); [unfold disasm_upper; no_dash_text|].
  destruct (_ =? OP_AUIPC); [unfold disasm_upper; no_dash_text|].
  destruct (_ =? OP_SYSTEM); [unfold disasm_system, x_; cbv zeta; no_dash_text; apply no_dash_csr|].
  destruct (_ =? OP_FLW); [unfold disasm_flw; no_dash_text|]. destruct (_ =? OP_FSW); [unfold disasm_fsw; no_dash_text|].
  destruct (zfind MADD_NAMES _) as [mn|] eqn:E; [unfold disasm_madd, f_; cbv zeta; no_dash_text; apply no_dash_rm|].
  destruct (_ =? OP_FP); [apply no_dash_fp|no_dash_text].
Qed.

(** [disasm] prints the dash for the zero word only. *)
Lemma disasm_dash w xl : String.eqb (disasm w xl) "—" = (w =? 0).
Proof.
  destruct (Z.eqb_spec w 0) as [->|Hw]; [done|]. apply disasm_no_dash with (xl := xl) in Hw.
  apply String.eqb_neq. intros E. by rewrite E in Hw.
Qed.

(** ** The trace *)

Lemma pop_drained_spec rows : exists gone, rows = gone ++ pop_drained rows /\ forallb drained gone = true /\
  match pop_drained rows with r :: _ => drained r = false | [] => True end.
Proof.
  induction rows as [|r rows (gone & E & Hg & Hl)]; [by exists []|]. cbn [pop_drained]. destruct (drained r) eqn:Hr.
  - exists (r :: gone). cbn [app forallb]. rewrite Hr. split; [by rewrite <- E|done].
  - by exists [].
Qed.

Definition empty_cycle (c : cycle) : bool := (c_if_inst c =? 0) && (c_id_inst c =? 0).

Lemma drained_row xlen c : drained (cycle_row xlen c) = empty_cycle c.
Proof. unfold drained, empty_cycle. cbn [cycle_row if_inst id_inst]. by rewrite !disasm_dash. Qed.

Lemma DictReader_trace cs : DictReader (gen_trace_csv cs) = map (fun c => zip_row trace_columns (cycle_fields c)) cs.
Proof.
  unfold DictReader, gen_trace_csv.
  pose proof (csv_file (trace_columns :: map cycle_fields cs)) as E. cbn [map] in E. rewrite map_map in E. rewrite E; clear E.
  - induction cs as [|c cs IH]; [done|]. cbn [map List.filter]. destruct (cycle_fields c) eqn:Hc; [done|]. rewrite <- Hc in *.
    cbn [map]. by rewrite IH.
  - apply Forall_cons_2; [done|]. apply Forall_map, Forall_true. intros c. apply cycle_fields_simple.
Qed.

Lemma rows_of_cycles xlen cs : Forall (fun c => 0 <= c_if_inst c /\ 0 <= c_id_inst c /\ 0 <= c_ex_inst c) cs ->
  mapR (row_of xlen) (map (fun c => zip_row trace_columns (cycle_fields c)) cs) = Ok (map (cycle_row xlen) cs).
Proof.
  induction 1 as [|c cs (H1 & H2 & H3) _ IH]; [done|]. cbn [map mapR]. rewrite row_of_cycle by done.
  cbn [mbind result_bind]. by rewrite IH.
Qed.

(** [C38] The trace reaches the viewer. On the file the testbench writes for
    signals without unknown bits, the script raises nothing; it gives one row per cycle, in order, with every
    signal at its value and the three words disassembled, and it leaves out
    exactly the longest tail of cycles whose fetch and decode words are both
    zero. *)
Theorem trace_rows_exact xlen cs : Forall (fun c => 0 <= c_if_inst c /\ 0 <= c_id_inst c /\ 0 <= c_ex_inst c) cs ->
  exists kept gone, cs = kept ++ gone /\ gen_trace xlen (gen_trace_csv cs) = Ok (map (cycle_row xlen) kept) /\
    forallb empty_cycle gone = true /\ (forall c, List.last (map Some kept) None = Some c -> empty_cycle c = false).
Proof.
  intros Hcs. unfold gen_trace. rewrite DictReader_trace, rows_of_cycles by done. cbn [mbind result_bind].
  rewrite <- map_rev. destruct (pop_drained_spec (map (cycle_row xlen) (List.rev cs))) as (gone & E & Hg & Hl).
  apply map_eq_app in E as (g & k & Er & Eg & Ek). rewrite <- Ek in Hl |- *.
  exists (List.rev k), (List.rev g). split; [rewrite <- rev_app_distr, <- Er; by rewrite rev_involutive|].
  split; [by rewrite map_rev|]. split.
  - apply forallb_forall. intros c Hc%in_rev. rewrite forallb_forall in Hg. rewrite <- (drained_row xlen). apply Hg.
    rewrite <- Eg. by apply in_map.
  - intros c. destruct k as [|c' k]; [done|]. cbn [List.rev]. rewrite map_app. cbn [map]. rewrite last_last. intros [= <-].
    cbn [map] in Hl. by rewrite drained_row in Hl.
Qed.

Lemma trace_rows_exact_witness :
  exists kept gone, [demo_cycle 1 0x13 0; demo_cycle 2 0 0x13; demo_cycle 3 0 0; demo_cycle 4 0 0] = kept ++ gone /\
    gen_trace 32 (gen_trace_csv [demo_cycle 1 0x13 0; demo_cycle 2 0 0x13; demo_cycle 3 0 0; demo_cycle 4 0 0]) =
      Ok (map (cycle_row 32) kept) /\
    forallb empty_cycle gone = true /\ (forall c, List.last (map Some kept) None = Some c -> empty_cycle c = false).
Proof.
  apply (trace_rows_exact 32 [demo_cycle 1 0x13 0; demo_cycle 2 0 0x13; demo_cycle 3 0 0; demo_cycle 4 0 0]).
  repeat (apply Forall_cons_2; [cbn; lia|]). constructor.
Defined.
