(* ===== verification/CBench.v ===== *)
(** * Compiled C benchmarks

    [sim/tools/build_c_bench.py]: a C program compiled, converted to the two
    memory images ([Firmware.elf2mem_main]), run on the core, and its final
    state read back.  The compiler, the binutils and the Verilog tools are
    parameters. *)

From S2P Require Import Prelude Words PyStr TextFacts AsmText MemImage RandomGen Progress Layout GenFacts Harness Dtb Firmware.
#[local] Open Scope string_scope.
#[local] Open Scope Z_scope.
#[local] Open Scope list_scope.

(** ** Definitions *)

(** What a simulation leaves: the two files the testbench writes when the
    program reaches its halt loop. *)
Record c_run := mkCRun { cycles_file : option (list string); state_file : option (list string) }.

(** How the script ends: with the state, or with an exit status. *)
Inductive c_outcome :=
| CResult (regs mem : list Z) (cycles : Z) (return_value : Z)
| CExit (code : Z).

(** [int(f.read().strip())]. *)
Definition read_int (file : list string) : result Z := int_base10 (strip (String.concat newline file)).

Definition read_state (file : list string) : result (list Z) :=
  mapR (fun l => v ← int_base10 l; Ok (v .& 0xFFFFFFFF)) (stripped_lines file).

Section CBench.
Context (gcc : list string -> Z) (elf2mem : Z -> result (list string * list string)).
Context (report : string -> string).
Context (iverilog : string -> Z) (vvp : string -> list string * list string -> c_run).
Context (template imem_rel dmem_rel cycles_out state_out : string).

Definition c_substs (mem_size max_time hazard_strategy : Z) : list (string * string) :=
  [("__INIT_FILE__", imem_rel); ("__DATA_INIT_FILE__", dmem_rel); ("__MEM_SIZE__", fmt_d mem_size);
   ("__MAX_TIME__", fmt_d max_time); ("__CYCLES_OUT_FILE__", cycles_out); ("__STATE_OUT_FILE__", state_out);
   ("__HAZARD_STRATEGY__", fmt_d hazard_strategy)].

(** [main]: the sources go to the compiler behind the runtime's two; the
    images come from [elf2mem.py] at the memory size for both. *)
Definition c_bench (sources : list string) (mem_size max_time hazard_strategy : Z) : result c_outcome :=
  if negb (gcc (["crt0.S"; "libc_stubs.c"] ++ sources) =? 0) then Raise (RuntimeError ("command failed: " +:+ report "gcc"))
  else
    images ← run_tool report "elf2mem.py" (elf2mem mem_size);
    let tpl := substitute template (c_substs mem_size max_time hazard_strategy) in
    if negb (iverilog tpl =? 0) then Raise (RuntimeError ("command failed: " +:+ report "iverilog"))
    else
      let r := vvp tpl images in
      match cycles_file r, state_file r with
      | Some cf, Some sf =>
          cycles ← read_int cf;
          vals ← read_state sf;
          let regs := slice vals 0 32 in
          let mem := slice vals 32 (32 + mem_size) in
          if len regs <=? 10 then Raise (IndexError "list index out of range")
          else Ok (CResult regs mem cycles (nthZ 0 regs 10))
      | _, _ => Ok (CExit 1)
      end.
End CBench.

(** The testbench's files: a cycle count, and the registers followed by the
    bytes of the data memory. *)
Definition bench_files (cycles : Z) (regs mem : list Z) : c_run :=
  mkCRun (Some [fmt_d cycles]) (Some (map fmt_d (regs ++ mem))).

(** ** Reading the state *)

Lemma read_state_dump vals : Forall (in_width 32) vals -> read_state (map fmt_d vals) = Ok vals.
Proof.
  intros Hv. unfold read_state. rewrite stripped_fmt_d. induction Hv as [|v vals Hv _ IH]; [done|]. cbn [map mapR].
  rewrite int_base10_fmt_d. cbn [mbind result_bind]. rewrite IH. cbn [mbind result_bind].
  change 0xFFFFFFFF with (Z.ones 32). rewrite Z.land_ones, Z.mod_small by done. done.
Qed.

Lemma read_int_fmt_d n : read_int [fmt_d n] = Ok n.
Proof. unfold read_int. cbn [String.concat]. rewrite strip_num by apply fmt_d_num. apply int_base10_fmt_d. Qed.

(** A compiled benchmark's result is the core's. When every tool works
    and the program halts, the script returns the cycle count, the 32
    registers, the data memory and register x10 exactly as the testbench
    dumped them, for the images of the compiled program at the given memory
    size; without the two files it exits with 1. *)
Theorem c_bench_exact gcc elf2mem report iverilog vvp tpl i d co so sources mem_size max_time hazard images r :
  gcc (["crt0.S"; "libc_stubs.c"] ++ sources) = 0 -> elf2mem mem_size = Ok images ->
  iverilog (substitute tpl (c_substs i d co so mem_size max_time hazard)) = 0 ->
  vvp (substitute tpl (c_substs i d co so mem_size max_time hazard)) images = r ->
  (forall cycles regs mem, r = bench_files cycles regs mem -> List.length regs = 32%nat -> len mem = mem_size ->
     Forall (in_width 32) regs -> Forall byte mem ->
     c_bench gcc elf2mem report iverilog vvp tpl i d co so sources mem_size max_time hazard =
       Ok (CResult regs mem cycles (nthZ 0 regs 10))) /\
  (cycles_file r = None \/ state_file r = None ->
     c_bench gcc elf2mem report iverilog vvp tpl i d co so sources mem_size max_time hazard = Ok (CExit 1)).
Proof.
  intros Hg He Hi Hr. unfold c_bench. rewrite Hg, He. cbn [mbind result_bind run_tool].
  change (negb (0 =? 0)) with false. cbv iota zeta. rewrite Hi, Hr. change (negb (0 =? 0)) with false. cbv iota. split.
  - intros cycles regs mem -> Hl Hm Hregs Hmem. cbn [bench_files cycles_file state_file]. rewrite read_int_fmt_d.
    assert (Hall : Forall (in_width 32) (regs ++ mem)).
    { apply Forall_app_2; [done|]. eapply List.Forall_impl; [|exact Hmem]. unfold byte, in_width. intros; lia. }
    cbn [mbind result_bind]. rewrite read_state_dump by done. cbn [mbind result_bind]. unfold len in *.
    rewrite !slice_in by (rewrite ?length_app, ?Hl; lia). change (Z.to_nat 0) with 0%nat. change (Z.to_nat (32 - 0)) with 32%nat.
    rewrite drop_0, take_app_length' by done. change (Z.to_nat 32) with 32%nat. rewrite drop_app_length' by done.
    rewrite take_ge by lia. rewrite Hl. reflexivity.
  - intros [-> | ->]; [done|]. by destruct (cycles_file r).
Qed.

(** A program that halts after 7 cycles. *)
Lemma c_bench_exact_witness :
  c_bench (fun _ => 0) (fun n => elf2mem_main demo_objcopy demo_objdump fw_nm "prog.elf" n n [".text.init"; ".text"]) id
    (fun _ => 0) (fun _ _ => bench_files 7 (replicate 10 0 ++ [42] ++ replicate 21 0) (replicate 16 9))
    "__MEM_SIZE__" "i" "d" "c" "s" ["smoke_test.c"] 16 100 0 =
  Ok (CResult (replicate 10 0 ++ [42] ++ replicate 21 0) (replicate 16 9) 7 42).
Proof.
  refine (proj1 (c_bench_exact (fun _ => 0)
    (fun n => elf2mem_main demo_objcopy demo_objdump fw_nm "prog.elf" n n [".text.init"; ".text"]) id
    (fun _ => 0) (fun _ _ => bench_files 7 (replicate 10 0 ++ [42] ++ replicate 21 0) (replicate 16 9))
    "__MEM_SIZE__" "i" "d" "c" "s" ["smoke_test.c"] 16 100 0 _ _ eq_refl _ eq_refl eq_refl)
    7 (replicate 10 0 ++ [42] ++ replicate 21 0) (replicate 16 9) eq_refl eq_refl eq_refl _ _).
  - vm_compute. reflexivity.
  - repeat (apply Forall_cons_2; [done|]). constructor.
  - by apply forallb_bytes.
Defined.
