(* ===== verification/Seeds.v ===== *)
(** * The random cross-check, all seeds

    [main] of [sim/tools/run_random_tests.py]: one seed after the other
    through [Harness.run_one_ooo] or [Harness.run_one], the lines printed and
    the exit status.  The Verilog tools and the file names are parameters;
    argument parsing has already happened. *)

From S2P Require Import Prelude Words PyStr TextFacts Machine Run AsmText MemImage Progress Layout RandomGen GenFacts Harness.
#[local] Open Scope string_scope.
#[local] Open Scope Z_scope.
#[local] Open Scope list_scope.

(** ** Definitions *)

Record options := mkOptions {
  o_count : Z; o_n_instrs : Z; o_seed_start : Z; o_keep_failures : bool; o_knobs : knobs;
  o_interrupt : option string; o_mem_size : option Z; o_mmu : bool; o_xlen : Z; o_ooo : bool
}.

(** How the script ends: the lines on its two outputs, the seeds whose files
    were kept, and the exit status; or it never ends on a seed. *)
Inductive ended :=
| Exited (out err : list string) (kept : list Z) (code : Z)
| HungAt (seed : Z).

(** The totals of the loop. *)
Record tally := mkTally { passed : Z; failed : Z; printed : list string; kept_seeds : list Z }.
Definition no_tally : tally := mkTally 0 0 [] [].

Definition count_verdict (keep : bool) (seed : Z) (t : tally) (v : verdict) : option tally :=
  match v with
  | Pass => Some (mkTally (passed t + 1) (failed t) (printed t ++ ["pass  seed=" +:+ fmt_d seed]) (kept_seeds t))
  | Fail msg => Some (mkTally (passed t) (failed t + 1) (printed t ++ ["FAIL  seed=" +:+ fmt_d seed +:+ ": " +:+ msg])
                        (if keep then kept_seeds t ++ [seed] else kept_seeds t))
  | Hangs => None
  end.

(** [for i in range(args.count)]. *)
Fixpoint run_seeds (judge : Z -> result verdict) (keep : bool) (seeds : list Z) (t : tally) : result (tally + Z) :=
  match seeds with
  | [] => Ok (inl t)
  | seed :: seeds' =>
      v ← judge seed;
      match count_verdict keep seed t v with
      | Some t' => run_seeds judge keep seeds' t'
      | None => Ok (inr seed)
      end
  end.

Definition summary_line (what : string) (t : tally) : string :=
  "=== " +:+ what +:+ ": " +:+ fmt_d (passed t) +:+ "/" +:+ fmt_d (passed t + failed t) +:+ " programs matched ISS reference ===".

Definition seeds_of (o : options) : list Z := map (fun i => o_seed_start o + i) (range (o_count o)).

Definition finish (what : string) (r : tally + Z) : ended :=
  match r with
  | inl t => Exited (printed t ++ [""; summary_line what t]) [] (kept_seeds t) (if failed t =? 0 then 0 else 1)
  | inr seed => HungAt seed
  end.

(** [args.interrupt] as a condition. *)
Definition has_interrupt (o : options) : bool :=
  match o_interrupt o with Some s => negb (String.eqb s "") | None => false end.

Definition ooo_mem_size (o : options) : Z := default 512 (o_mem_size o).
Definition mem_size_of (o : options) : Z :=
  match o_mem_size o with
  | Some m => m
  | None => if o_mmu o then (if o_xlen o =? 64 then 16384 else 8192) else if has_interrupt o then 256 else 128
  end.

(** The plain template unless translation, an interrupt or another memory
    size needs the parameterised one, which dumps a window. *)
Definition template_name (o : options) : string :=
  if has_interrupt o || o_mmu o || (match o_mem_size o with Some m => negb (m =? 128) | None => false end)
  then "dump_regs_interrupt_template.v" else "dump_regs_template.v".

Section Main.
Context {G : Type} `{Random G}.
Context (traceback : exn -> string) (rtl : string -> list string -> rtl_run).
Context (template : string -> string) (init_file out_path : string -> string).
Context (fuel : nat) (random : Z -> G).

Definition ooo_seed (o : options) (seed : Z) : result verdict :=
  run_one_ooo traceback rtl (template "dump_regs_ooocore_template.v")
    (init_file ("o" +:+ fmt_d seed)) (out_path ("o" +:+ fmt_d seed)) fuel (random seed) (o_n_instrs o) (ooo_mem_size o) (o_xlen o).

Definition plain_seed (o : options) (seed : Z) : result verdict :=
  run_one traceback rtl (template (template_name o))
    (init_file ("r" +:+ fmt_d seed)) (out_path ("r" +:+ fmt_d seed)) fuel (random seed) (o_n_instrs o) (mem_size_of o)
    (o_interrupt o) (o_mmu o) (o_xlen o) (o_knobs o) (String.eqb (template_name o) "dump_regs_interrupt_template.v").

Definition harness_main (o : options) : result ended :=
  if o_ooo o && (has_interrupt o || o_mmu o) then
    Ok (Exited [] ["error: --ooo is mutually exclusive with --interrupt/--mmu (Gen6-L scope -- OOOCore.v implements neither yet)"] [] 2)
  else if o_ooo o then
    r ← run_seeds (ooo_seed o) (o_keep_failures o) (seeds_of o) no_tally;
    Ok (finish "ooo random cross-check" r)
  else if has_interrupt o && o_mmu o then
    Ok (Exited [] ["error: --interrupt and --mmu are mutually exclusive in this generator (Phase F7 scope)"] [] 2)
  else
    r ← run_seeds (plain_seed o) (o_keep_failures o) (seeds_of o) no_tally;
    Ok (finish "random cross-check" r).
End Main.

(** ** The loop *)

Lemma run_seeds_bound judge keep seeds : forall t t', run_seeds judge keep seeds t = Ok (inl t') -> failed t <= failed t'.
Proof.
  induction seeds as [|s seeds IH]; intros t t'; cbn [run_seeds]; [by intros [= <-]|].
  intros (v & _ & H)%bind_Ok. destruct v; cbn [count_verdict] in H; [| |done]; apply IH in H; cbn [failed] in H; lia.
Qed.

Lemma run_seeds_pass judge keep seeds : forall t, (exists t', run_seeds judge keep seeds t = Ok (inl t') /\ failed t' = failed t) <->
  Forall (fun s => judge s = Ok Pass) seeds.
Proof.
  induction seeds as [|s seeds IH]; intros t; cbn [run_seeds]; [split; [constructor|by exists t]|]. split.
  - intros (t' & (v & Hv & H)%bind_Ok & Hf). destruct v as [|m|]; cbn [count_verdict] in H; [| |done].
    + apply Forall_cons_2; [done|]. eapply IH. exists t'. split; [exact H|done].
    + apply run_seeds_bound in H. cbn [failed] in H. lia.
  - intros [Hv Hs]%Forall_cons_1. rewrite Hv. cbn [mbind result_bind count_verdict].
    destruct (proj2 (IH (mkTally (passed t + 1) (failed t) (printed t ++ ["pass  seed=" +:+ fmt_d s]) (kept_seeds t))) Hs)
      as (t' & E & Hf). by exists t'.
Qed.

(** What the loop counts. *)
Definition fails (judge : Z -> result verdict) (seed : Z) : bool :=
  match judge seed with Ok (Fail _) => true | _ => false end.

Lemma run_seeds_counts judge keep seeds : forall t t', run_seeds judge keep seeds t = Ok (inl t') ->
  passed t' + failed t' = passed t + failed t + Z.of_nat (List.length seeds) /\
  failed t' = failed t + Z.of_nat (List.length (List.filter (fails judge) seeds)) /\
  kept_seeds t' = kept_seeds t ++ (if keep then List.filter (fails judge) seeds else []) /\
  List.length (printed t') = (List.length (printed t) + List.length seeds)%nat.
Proof.
  induction seeds as [|s seeds IH]; intros t t'; cbn [run_seeds].
  { intros [= <-]. cbn [List.filter List.length]. destruct keep; rewrite app_nil_r; split_and!; (done || lia). }
  intros (v & Hv & H)%bind_Ok. cbn [List.filter].
  assert (Ef : fails judge s = match v with Fail _ => true | _ => false end) by (unfold fails; by rewrite Hv).
  rewrite Ef. clear Ef.
  destruct v as [|m|]; cbn [count_verdict] in H; [| |done]; apply IH in H as (H1 & H2 & H3 & H4); cbn [passed failed kept_seeds printed] in *;
    rewrite length_app in H4; cbn [List.length] in *; (split; [lia|]; split; [lia|]; split; [|lia]); rewrite H3; [done|].
  destruct keep; [by rewrite <- app_assoc|done].
Qed.

(** ** The exit status *)

Section Status.
Context {G : Type} `{RandomLaws G}.
Context (traceback : exn -> string) (rtl : string -> list string -> rtl_run).
Context (template : string -> string) (init_file out_path : string -> string).
Context (fuel : nat) (random : Z -> G).
Abbreviation main := (harness_main traceback rtl template init_file out_path fuel random).

Definition judge_of (o : options) : Z -> result verdict :=
  if o_ooo o then ooo_seed traceback rtl template init_file out_path fuel random o
  else plain_seed traceback rtl template init_file out_path fuel random o.
Definition conflict (o : options) : bool := if o_ooo o then has_interrupt o || o_mmu o else has_interrupt o && o_mmu o.

Lemma main_runs o : conflict o = false -> exists what, main o =
  (r ← run_seeds (judge_of o) (o_keep_failures o) (seeds_of o) no_tally; Ok (finish what r)).
Proof.
  unfold conflict, harness_main, judge_of. destruct (o_ooo o); cbn [andb]; intros ->; eauto.
Qed.

Lemma main_zero o : conflict o = false ->
  (exists out kept, main o = Ok (Exited out [] kept 0)) <-> Forall (fun s => judge_of o s = Ok Pass) (seeds_of o).
Proof.
  intros Hc. destruct (main_runs o Hc) as (what & ->).
  rewrite <- (run_seeds_pass (judge_of o) (o_keep_failures o) (seeds_of o) no_tally). split.
  - intros (out & kept & (r & E & Hr%Ok_inj)%bind_Ok). destruct r as [t|]; [|done]. cbn [finish] in Hr.
    exists t. split; [exact E|]. destruct (Z.eqb_spec (failed t) 0) as [Hf|]; [exact Hf|discriminate Hr].
  - intros (t & E & Hf). rewrite E. cbn [mbind result_bind finish]. rewrite Hf. eauto.
Qed.

(** The harness reports what it ran. Options that exclude each other exit
    with 2 before any seed; otherwise a run that ends has exit status 0 or
    1, 0 exactly when no seed failed; it printed one line per seed and a
    summary whose two numbers are the passes and the seeds, and it kept the
    files of exactly the failing seeds when asked to, and of none
    otherwise. *)
Theorem harness_status o e : main o = Ok e ->
  if conflict o then exists msg, e = Exited [] [msg] [] 2 else
  match e with
  | HungAt seed => In seed (seeds_of o)
  | Exited out err kept code =>
      let failing := List.filter (fails (judge_of o)) (seeds_of o) in
      let n := Z.of_nat (List.length (seeds_of o)) in
      err = [] /\ kept = (if o_keep_failures o then failing else []) /\ code = (if bool_decide (failing = []) then 0 else 1) /\
      (code = 0 <-> Forall (fun s => judge_of o s = Ok Pass) (seeds_of o)) /\
      exists lines what, List.length lines = List.length (seeds_of o) /\
        out = lines ++ [""; "=== " +:+ what +:+ ": " +:+ fmt_d (n - Z.of_nat (List.length failing)) +:+ "/" +:+ fmt_d n
                             +:+ " programs matched ISS reference ==="]
  end.
Proof.
  destruct (conflict o) eqn:Hc.
  { unfold conflict, harness_main in *. destruct (o_ooo o); cbn [andb]; rewrite Hc; intros <-%Ok_inj; eauto. }
  intros E. destruct (main_runs o Hc) as (what & Em). rewrite Em in E. apply bind_Ok in E as (r & Er & <-%Ok_inj).
  destruct r as [t|seed]; cbn [finish].
  - pose proof (run_seeds_counts _ _ _ _ _ Er) as (H1 & H2 & H3 & H4). cbn [no_tally passed failed kept_seeds printed app] in *.
    rewrite <- (run_seeds_pass (judge_of o) (o_keep_failures o) (seeds_of o) no_tally).
    split; [done|]. split; [exact H3|]. split; [|split].
    + rewrite H2. destruct (List.filter _ _); [done|]. by destruct (Z.eqb_spec (0 + Z.of_nat (List.length (z :: l))) 0); [cbn in *; lia|].
    + rewrite Er. cbn [no_tally failed]. split.
      * intros Hz. exists t. split; [done|]. by destruct (Z.eqb_spec (failed t) 0).
      * intros (t' & [= <-] & ->). done.
    + exists (printed t), what. split; [exact H4|]. unfold summary_line. do 4 f_equal.
      replace (passed t) with (Z.of_nat (List.length (seeds_of o)) - Z.of_nat (List.length (List.filter (fails (judge_of o)) (seeds_of o)))) by lia.
      by replace (Z.of_nat (List.length (seeds_of o)) - _ + failed t) with (Z.of_nat (List.length (seeds_of o))) by lia.
  - clear Em. revert Er. generalize no_tally. induction (seeds_of o) as [|s seeds IH]; intros t; cbn [run_seeds]; [done|].
    intros (v & _ & Hv)%bind_Ok. destruct v; cbn [count_verdict] in Hv; [right; exact (IH _ Hv)..|]. apply Ok_inj in Hv. left. congruence.
Qed.
End Status.

(** ** What exit status 0 says of the core *)

Lemma reference_of_det lines size xl m image s image' s' :
  reference_of lines size xl m image s -> reference_of lines size xl m image' s' -> image' = image /\ s' = s.
Proof.
  intros (N & ws & Ea & El & k & Er) (N' & ws' & Ea' & El' & k' & Er').
  rewrite Ea in Ea'. apply Ok_inj in Ea'. injection Ea' as <- <-. rewrite El in El'. apply Ok_inj in El' as <-.
  rewrite Er in Er'. by injection Er' as <- <-.
Qed.

Section Suite.
Context {G : Type} `{RandomLaws G}.
Context (traceback : exn -> string) (rtl : string -> list string -> rtl_run).
Context (template : string -> string) (init_file out_path : string -> string).
Context (fuel : nat) (random : Z -> G) (o : options).
Context (Hfuel : (1000 < fuel)%nat) (Hxl : o_xlen o = 32 \/ o_xlen o = 64) (Hn : 0 <= o_n_instrs o <= 900).
Context (Hint : has_interrupt o = false) (Hmmu : o_mmu o = false).
Abbreviation main := (harness_main traceback rtl template init_file out_path fuel random).

(** The out-of-order core agrees with the simulator on a seed: the tools run
    on the seed's program without a timeout, and the dump holds the state
    the simulator ends in. *)
Definition ooo_agrees (seed : Z) : Prop :=
  exists lines g' image s,
    gen_lines (o_n_instrs o) 32 (ooo_mem_size o) None false (o_xlen o) true (random seed) = Ok ((lines, None), g') /\
    reference_of lines (ooo_mem_size o) (o_xlen o) (ooo_mem_size o) image s /\
    let N := o_n_instrs o + overhead (o_xlen o) true in
    let r := rtl (substitute (template "dump_regs_ooocore_template.v")
                    (ooo_substs (init_file ("o" +:+ fmt_d seed)) (out_path ("o" +:+ fmt_d seed)) (max_time_of N)
                       (ooo_mem_size o) (o_xlen o) (N - 1))) image in
    tool_failure r = None /\ contains "TIMEOUT" (output (vvp r)) = false /\
    exists vals, dump_values (o_xlen o) (dump_lines r) = Ok vals /\ dump_agrees s (ooo_mem_size o) vals.

(** [C1] Exit status 0 of the out-of-order cross-check means agreement. For
    every random source, with a program size the generator accepts, the
    harness prints its lines and exits with 0 exactly when, for every seed
    of the range, the Verilog run of the generated program ends in the very
    registers, memory and float registers the reference simulator ends
    in. *)
Theorem ooo_suite_exact : o_ooo o = true -> ooo_mem_size o < 2 ^ 32 ->
  budget (o_n_instrs o) (o_xlen o) 0 false true <= ooo_mem_size o `div` 4 ->
  (exists out kept, main o = Ok (Exited out [] kept 0)) <->
  forall i, 0 <= i < o_count o -> ooo_agrees (o_seed_start o + i).
Proof.
  intros Ho Hm Hb. rewrite main_zero by (unfold conflict; by rewrite Ho, Hint, Hmmu).
  assert (E : forall seed, judge_of traceback rtl template init_file out_path fuel random o seed = Ok Pass <-> ooo_agrees seed).
  { intros seed. unfold judge_of, ooo_seed. rewrite Ho.
    destruct (ooo_cross_check_exact traceback rtl (template "dump_regs_ooocore_template.v") (init_file ("o" +:+ fmt_d seed))
      (out_path ("o" +:+ fmt_d seed)) (o_n_instrs o) (ooo_mem_size o) (o_xlen o) fuel (random seed) Hxl Hn Hm Hb Hfuel)
      as (lines & g' & image & s & Eg & Er & _ & ->). split.
    - intros H'. exists lines, g', image, s. split; [exact Eg|]. split; [exact Er|exact H'].
    - intros (lines' & g'' & image' & s' & Eg' & Er' & H'). rewrite Eg in Eg'. apply Ok_inj in Eg'. injection Eg' as <- <-.
      destruct (reference_of_det _ _ _ _ _ _ _ _ Er Er') as [-> ->]. exact H'. }
  unfold seeds_of. rewrite List.Forall_map, List.Forall_forall. split.
  - intros Hf i Hi. apply E, Hf. apply list_elem_of_In, elem_of_range. exact Hi.
  - intros Hf i Hi. apply E, Hf, elem_of_range, list_elem_of_In. exact Hi.
Qed.

(** The pipelined core agrees on a seed: flags and rounding mode included,
    the memory over the dumped window. *)
Definition plain_agrees (seed : Z) : Prop :=
  exists lines g' image s,
    let m := mem_size_of o in
    let window := Z.min m SCALEUP_WINDOW_BYTES in
    gen_lines (o_n_instrs o) 32 m None false (o_xlen o) false (random seed) = Ok ((lines, None), g') /\
    reference_of lines window (o_xlen o) m image s /\
    let N := o_n_instrs o + overhead (o_xlen o) false in
    let w := if String.eqb (template_name o) "dump_regs_interrupt_template.v" then window else m in
    let time := max_time_of N + (if truthy (cache_mode (o_knobs o)) then 4000 else 0) in
    let r := rtl (substitute (template (template_name o))
                    (knob_substs (init_file ("r" +:+ fmt_d seed)) (out_path ("r" +:+ fmt_d seed)) (o_knobs o) time m window
                       (o_xlen o) "")) image in
    tool_failure r = None /\
    exists vals, dump_values (o_xlen o) (dump_lines r) = Ok vals /\ dump_agrees s w vals /\
      vals !! Z.to_nat (32 + w + 32) = Some (fflags s) /\ vals !! Z.to_nat (32 + w + 33) = Some (frm s).

(** [C2] Exit status 0 of the pipelined cross-check, without interrupts and
    translation, means agreement, for every setting of the core's knobs:
    when the programs fit, the harness exits with 0 exactly when every seed's
    Verilog run ends in the simulator's state. *)
Theorem plain_suite_exact : o_ooo o = false -> o_interrupt o = None -> mem_size_of o < 2 ^ 32 ->
  budget (o_n_instrs o) (o_xlen o) 0 false false <= mem_size_of o `div` 4 ->
  4 * (o_n_instrs o + overhead (o_xlen o) false) <= Z.min (mem_size_of o) SCALEUP_WINDOW_BYTES ->
  (exists out kept, main o = Ok (Exited out [] kept 0)) <->
  forall i, 0 <= i < o_count o -> plain_agrees (o_seed_start o + i).
Proof.
  intros Ho Hi0 Hm Hb Hfit. rewrite main_zero by (unfold conflict; by rewrite Ho, Hint, Hmmu).
  assert (E : forall seed, judge_of traceback rtl template init_file out_path fuel random o seed = Ok Pass <-> plain_agrees seed).
  { intros seed. unfold judge_of, plain_seed. rewrite Ho, Hi0, Hmmu.
    destruct (cross_check_exact traceback rtl (template (template_name o)) (init_file ("r" +:+ fmt_d seed))
      (out_path ("r" +:+ fmt_d seed)) (o_n_instrs o) (mem_size_of o) (o_xlen o) fuel (random seed) (o_knobs o)
      (String.eqb (template_name o) "dump_regs_interrupt_template.v") Hxl Hn Hm Hb Hfit Hfuel)
      as (lines & g' & image & s & Eg & Er & _ & ->). split.
    - intros H'. exists lines, g', image, s. split; [exact Eg|]. split; [exact Er|exact H'].
    - intros (lines' & g'' & image' & s' & Eg' & Er' & H'). rewrite Eg in Eg'. apply Ok_inj in Eg'. injection Eg' as <- <-.
      destruct (reference_of_det _ _ _ _ _ _ _ _ Er Er') as [-> ->]. exact H'. }
  unfold seeds_of. rewrite List.Forall_map, List.Forall_forall. split.
  - intros Hf i Hi. apply E, Hf. apply list_elem_of_In, elem_of_range. exact Hi.
  - intros Hf i Hi. apply E, Hf, elem_of_range, list_elem_of_In. exact Hi.
Qed.
End Suite.

(** Four seeds on a Verilog run that dumps zeros. *)
Definition demo_options (ooo : bool) : options :=
  mkOptions 4 (if ooo then 4 else 16) 1 true plain_knobs None None false 32 ooo.
Abbreviation demo_main := (harness_main exn_str demo_rtl (fun t => t) (fun f => f) (fun f => f) 1001 (fun seed => seed)).

Lemma ooo_suite_exact_witness :
  (exists out kept, demo_main (demo_options true) = Ok (Exited out [] kept 0)) <->
  forall i, 0 <= i < 4 -> ooo_agrees demo_rtl (fun t => t) (fun f => f) (fun f => f) (fun seed => seed) (demo_options true) (1 + i).
Proof.
  apply (ooo_suite_exact (G := Z) exn_str demo_rtl (fun t => t) (fun f => f) (fun f => f) 1001 (fun seed => seed) (demo_options true));
    [lia|by left|done|done|done|done|done|vm_compute; discriminate].
Defined.

Lemma plain_suite_exact_witness :
  (exists out kept, demo_main (demo_options false) = Ok (Exited out [] kept 0)) <->
  forall i, 0 <= i < 4 -> plain_agrees demo_rtl (fun t => t) (fun f => f) (fun f => f) (fun seed => seed) (demo_options false) (1 + i).
Proof.
  apply (plain_suite_exact (G := Z) exn_str demo_rtl (fun t => t) (fun f => f) (fun f => f) 1001 (fun seed => seed) (demo_options false));
    [lia|by left|done|done|done|done|done|done|vm_compute; discriminate|vm_compute; discriminate].
Defined.

Lemma harness_status_witness :
  exists msg, Exited [] ["error: --interrupt and --mmu are mutually exclusive in this generator (Phase F7 scope)"] [] 2 = Exited [] [msg] [] 2.
Proof.
  apply (harness_status (G := Z) exn_str demo_rtl (fun t => t) (fun f => f) (fun f => f) 1001 (fun seed => seed)
    (mkOptions 4 16 1 true plain_knobs (Some "timer") None true 32 false)). reflexivity.
Defined.
